(* ===== verification/_CoqProject ===== *)
-Q . S2P
Prelude.v
Machine.v
Concrete.v
Interrupt.v
CString.v
Bitmap.v
DList.v
Paging.v
Tss.v
Sched.v
Lock.v
Sems.v
IoQueue.v
Memory.v
Malloc.v
Heap.v
HeapGrow.v
PageFree.v
HeapFree.v
HeapLarge.v
KernPages.v
MemInit.v
Idt.v
Thread.v
Spawn.v
ThreadInit.v
Process.v
Exec.v
Timer.v
Console.v
Keyboard.v
Syscall.v
Screen.v
Output.v
Stdio.v
Disk.v
DiskIo.v
Entry.v
Inode.v
OpenInodes.v
File.v
Fd.v
Dir.v
Fs.v
Format.v
Path.v
Init.v
Boot.v
Main.v
