(* ===== verification/Prelude.v ===== *)
(** * Verification of the xbayOS kernel

    xbayOS (src/) is a small kernel for a 32-bit x86 machine: preemptive kernel
    threads and user processes, semaphores and mutexes, a page allocator with
    a block allocator on top of it, a keyboard, a timer, a console and an IDE
    disk driver, and the beginning of a file system.  This library models
    every C file of the kernel and proves the properties that make its parts
    correct, and, where the code does not do what it means to, what it does
    instead.

    ** The machine

    The kernel's data structures are bytes at addresses that other code knows:
    list nodes lie inside task structures, free blocks inside pages, page
    tables inside their own window.  The model therefore keeps one memory of
    bytes, and every C object is the bytes at its address; the offsets of its
    fields are constants in a Module named after the C type.  Machine.v has
    the state: memory, interrupt flag, stack pointer, CR3, the trace of what
    was sent to or read from ports and the screen, and the scalar file-scope
    variables whose address is never taken.

    A function of the kernel becomes a function of the same name in the monad
    [K], which passes the state on.  Its results are [Ok] (it returns),
    [Panic] (an assertion fails; the code then spins for ever in panic_spin),
    [Spin] (a loop that never ends) and [Switch] (the processor has been
    handed to another thread by switch_to; the continuation is what the
    caller does when it runs again).  Loops with a bound known beforehand are
    [for_] and [for_exit], by recursion on the number of iterations.  Other
    loops are [while_]: at most 2^33 iterations, and [Spin] after that.  No
    loop that ends needs more, since a loop of the kernel that ends walks over
    the at most 2^32 addresses or counts a 32-bit number; the theorems that
    say [Ok] show that the bound is not reached, and the one that says [Spin]
    shows that the state no longer changes.  scan_partition recurses along the
    extended partitions of a disk and takes fuel, 256 levels ([SCAN_FUEL]);
    the kernel stack, less than a page, has no room for that many.  itoa
    writes at most 32 digits, the bits of its argument.

    What the source leaves open is an argument: the class [Platform] (values
    of uninitialised locals, the result of the function without a return
    statement, an empty macro, where the compiler keeps local arrays, and the
    devices, as functions of the history of accesses), and the class
    [Linker] (addresses of file-scope objects, functions and literals).
    Concrete.v instantiates both; the theorems with hypotheses are followed by
    an instance on that machine.  Hypotheses of placement say that objects the
    linker or the allocator places do not overlap.

    Interrupts arrive between the operations of the model, not inside them:
    the handlers (Timer, Keyboard, Disk, Idt) are operations of their own.  The
    critical sections are modelled as the code has them, with the flag, and
    the theorems on threads that follow each other (the invariant, round
    robin, mutual exclusion, lost wake-ups) quantify over every order of
    operations.

    ** The files

    - Prelude: integers of a fixed width, tactics and generic lemmas.
      Machine: memory, state, monad, loops, weakest preconditions, ports
      (lib/io.h).  Concrete: the concrete machine.
    - Interrupt: the interrupt flag, critical sections, assertions
      (kernel/interrupt.c, kernel/debug.c).  Idt: descriptor table, controllers
      and default handler (kernel/interrupt.c).  Tss: segment descriptors
      (proc/tss.c, kernel/global.h).
    - CString (lib/string.c), Bitmap (lib/bitmap.c), DList (lib/list.c), Stdio
      (lib/stdio.c, lib/printk.c).
    - Sched: task structures, schedule, blocking, unblocking, yielding and the
      address spaces (thread/thread.c, thread/switch.S, proc/process.c).
      Thread: creation of threads; Spawn: its correctness; ThreadInit: the
      start of the scheduler.  Process: user processes (proc/process.c); Exec:
      the correctness of process_execute.
    - Lock: semaphores and mutexes (thread/lock.c).  Sems: several semaphores
      at once.  IoQueue: the bounded buffer (device/io_queue.c).
    - Paging: addresses of page-table entries; Memory: pools, mapping and
      unmapping; Malloc: the block allocator (kernel/memory.c).  PageFree: the
      release of a run of pages; KernPages: cleared pages for the kernel
      itself.  Heap, HeapGrow, HeapFree (blocks) and
      HeapLarge (whole pages): the allocator's correctness.  MemInit: the
      initialisation.
    - Timer (device/timer.c), Console (device/console.c), Keyboard
      (device/keyboard.c), Disk (device/disk.c); DiskIo: the transfers and the
      disk interrupt.
    - Syscall: the gate, its table and the wrappers (proc/syscall_init.c,
      lib/syscall.c, kernel/kernel.S: syscall_handler).  Entry: the stubs every
      other gate leads to (kernel/kernel.S: VECTOR, intr_exit).
    - Screen: the routines that print (lib/print.S) and the terminal that a
      history of their calls stands for.  Output: from a user's [write] to the
      screen.
    - Inode, File, Dir, Fs, Path: the file system (fs/).  OpenInodes: the list
      of open inodes.  Fd: the file table and the descriptors of a task.  Format:
      the layout of a formatted partition.  Path has path parsing, search_file
      and sys_open.
    - Init (kernel/init.c); Boot: what it leaves behind; Main (kernel/main.c).

    The components meet in the way the code has them meet.  DList's
    representation of a list by the sequence of its nodes carries the ready
    queue (Sched), the queues of waiters (Lock) and the free lists (Heap).
    Sched's abstract state [sched] (stack pointer of the running task, ready
    queue, task structures) and its invariant [inv] are what Lock, Sems,
    IoQueue, Timer, Keyboard and Spawn state their effects in; Lock's
    [mutex_state] is used by the heap and by Spawn; the two semaphores of a
    disk channel are a family of Sems; Bitmap's [first_fit] by
    Memory, the heap, Spawn and File; MemInit establishes what Memory and the
    heap assume.

    ** The theorems

    - Start-up.  For an image whose objects do not overlap, [init_all] gets to
      the initialisation of the disk with the invariants of all the
      components: what the theorems below assume can hold, and does.
    - Scheduling.  [schedule], [thread_block], [thread_yield] and
      [thread_unblock] refine one step of an abstract scheduler each; every
      such step keeps the invariant; a ready task at position [i] runs after
      [i + 1] hand-overs; a clock interrupt refines the abstract tick, and a
      task keeps the processor for its slice and one tick more.
      [thread_init] establishes everything these operations rely on, whatever
      memory held; [thread_start] adds a ready task and keeps it, and so does
      [process_execute], whose task has a page directory that shares the
      kernel's part of the address space and a pool of free user pages.
    - Synchronisation.  [sem_up], [sem_down] and what a waiting thread does
      when it continues refine an abstract semaphore with a queue of waiters;
      under every interleaving at most as many threads hold it as it had
      units, and no thread sleeps while a unit is free and nobody is about to
      take it.  The mutex operations on each of their branches.  The bounded
      buffer is a first-in first-out queue of 64 characters.
    - Memory.  [bitmap_scan] finds the first run of free bits, and what it
      does without one; [malloc_page] maps the first free pages to distinct
      free frames; mapping, translating and unmapping; the pointers to
      page-table entries are the ones the processor uses; [mem_init]
      establishes the invariants of both allocators; [sys_malloc] and
      [sys_free] of blocks keep the heap well-formed, on each branch, and are
      inverse to each other; so are they for larger requests, which get pages
      of their own, with what is lost when the frames run out.
    - Lists.  Insertion and removal at the level of sequences.
    - Output.  [vsprintf] writes the reference expansion of its format, [itoa]
      the digits that stand for its argument.  Whatever the kernel has printed,
      the screen is that of a terminal of 25 rows and 80 columns; the string a
      user's program writes is typed on it.
    - Devices.  The keyboard handler is a state machine over modifier keys.
      [ide_read] is a conversation with the disk (the inductive [reading]):
      whatever the other threads do while it sleeps, each round stores its
      sectors at their place and the channel is free at the end; the interrupt
      handler wakes the thread that waits; [ide_write] gives one command only.
    - System calls and interrupts.  Each wrapper reaches its service through
      the gate, each vector its handler through the stub; a clock interrupt,
      from entry to return, is one tick of the abstract scheduler.
    - File system.  The list of open inodes refines a table of inode numbers
      with the count of their users.  Where formatting puts the bitmaps and the
      inodes, and where it goes wrong.  The first free entry is taken of the
      file table and of a task's descriptors, of which a new task has none
      free.  How a path is split; that [path_depth] does not end on a path of
      two names, that [search_file] takes every absolute path for the root,
      that [sys_open] can only return -1, and that no disk block is ever
      allocated.

    ** Not modelled

    The boot loader (boot/) runs before the kernel, in assembly; only the limit
    of the video segment is taken from it.  The
    theorems on the allocator are about requests by kernel threads; the paths
    for user processes are modelled, and so are the entry to user mode
    (start_process), the scan of the partition tables, the transfer of inodes
    and directories, without theorems of their own. *)

From stdpp Require Export base tactics gmap list strings.
From Stdlib Require Export ZArith Lia.

#[local] Open Scope Z_scope.

(** ** Fixed-width integers

    [uint8_t], [uint16_t], [uint32_t] values are integers in [0, 2^w); an
    operation that can leave that range is followed by the wrap-around of its
    C type. [int32_t] and [char] (signed on this target) are read back from
    their bit patterns by [s32] and [s8]. *)

Definition u8 (z : Z) : Z := z mod 2 ^ 8.
Definition u16 (z : Z) : Z := z mod 2 ^ 16.
Definition u32 (z : Z) : Z := z mod 2 ^ 32.
Definition s8 (z : Z) : Z := (z + 2 ^ 7) mod 2 ^ 8 - 2 ^ 7.
Definition s32 (z : Z) : Z := (z + 2 ^ 31) mod 2 ^ 32 - 2 ^ 31.

Arguments u8 : simpl never. Arguments u16 : simpl never. Arguments u32 : simpl never.
Arguments s8 : simpl never. Arguments s32 : simpl never.

Definition is_u8 (z : Z) : Prop := 0 <= z < 2 ^ 8.
Definition is_u16 (z : Z) : Prop := 0 <= z < 2 ^ 16.
Definition is_u32 (z : Z) : Prop := 0 <= z < 2 ^ 32.

Create HintDb xbay.
Create Rewrite HintDb widths.

(** [zlia]: linear arithmetic after exposing the widths. *)
Ltac widths :=
  unfold is_u8, is_u16, is_u32, u8, u16, u32, s8, s32 in *;
  change (2 ^ 7) with 128 in *; change (2 ^ 8) with 256 in *;
  change (2 ^ 16) with 65536 in *; change (2 ^ 31) with 2147483648 in *;
  change (2 ^ 32) with 4294967296 in *.
Ltac zlia := widths; Z.div_mod_to_equations; lia.

Lemma u8_range z : 0 <= u8 z < 256.
Proof. zlia. Qed.
Lemma u16_range z : 0 <= u16 z < 65536.
Proof. zlia. Qed.
Lemma u32_range z : 0 <= u32 z < 4294967296.
Proof. zlia. Qed.

Lemma u8_small z : 0 <= z < 256 -> u8 z = z.
Proof. apply Z.mod_small. Qed.
Lemma u16_small z : 0 <= z < 65536 -> u16 z = z.
Proof. apply Z.mod_small. Qed.
Lemma u32_small z : 0 <= z < 4294967296 -> u32 z = z.
Proof. apply Z.mod_small. Qed.
Lemma s32_range z : -2147483648 <= s32 z < 2147483648.
Proof. zlia. Qed.
Lemma s32_small z : -2147483648 <= z < 2147483648 -> s32 z = z.
Proof. intros. zlia. Qed.

Lemma u8_idem z : u8 (u8 z) = u8 z.
Proof. apply u8_small, u8_range. Qed.
Lemma u32_idem z : u32 (u32 z) = u32 z.
Proof. apply u32_small, u32_range. Qed.
Lemma u32_s32 z : u32 (s32 z) = u32 z.
Proof. zlia. Qed.
Lemma s32_u32 z : s32 (u32 z) = s32 z.
Proof. zlia. Qed.

#[export] Hint Resolve u8_range u16_range u32_range : xbay.
#[export] Hint Rewrite u8_idem u32_idem u32_s32 s32_u32 : widths.

(** ** Bits of a byte *)

Lemma land_bit_nonzero b o :
  0 <= o -> (Z.land b (Z.shiftl 1 o) =? 0) = negb (Z.testbit b o).
Proof.
  intros Ho. destruct (Z.testbit b o) eqn:E; simpl.
  - apply Z.eqb_neq. intros H0.
    assert (H : Z.testbit (Z.land b (Z.shiftl 1 o)) o = false)
      by (rewrite H0; apply Z.bits_0).
    rewrite Z.land_spec, E, Z.shiftl_spec, Z.sub_diag in H by lia. done.
  - apply Z.eqb_eq, Z.bits_inj'. intros n Hn.
    rewrite Z.land_spec, Z.bits_0.
    destruct (decide (n = o)) as [->|Hne]; [by rewrite E|].
    rewrite Z.shiftl_spec by lia.
    replace (Z.testbit 1 (n - o)) with false; [by rewrite andb_false_r|].
    destruct (decide (n < o)); [by rewrite Z.testbit_neg_r by lia|].
    symmetry. apply Z.bits_above_log2; simpl; lia.
Qed.

Lemma testbit_shiftl1 o n : 0 <= o -> 0 <= n -> Z.testbit (Z.shiftl 1 o) n = (n =? o).
Proof.
  intros Ho Hn. rewrite Z.shiftl_spec by lia.
  destruct (Z.eqb_spec n o) as [->|Hne]; [by rewrite Z.sub_diag|].
  destruct (decide (n < o)); [by rewrite Z.testbit_neg_r by lia|].
  apply Z.bits_above_log2; simpl; lia.
Qed.

Lemma testbit_u8 z n : 0 <= n -> Z.testbit (u8 z) n = (n <? 8) && Z.testbit z n.
Proof.
  intros Hn. unfold u8. rewrite Z.testbit_mod_pow2 by lia. done.
Qed.

(** A byte is 0xff exactly when its eight bits are set. *)
Lemma byte_ff b :
  is_u8 b -> (forall o, 0 <= o < 8 -> Z.testbit b o = true) -> b = 255.
Proof.
  intros Hb Hall. apply Z.bits_inj'. intros n Hn.
  change 255 with (Z.ones 8). rewrite Z.testbit_ones_nonneg by lia.
  destruct (Z.ltb_spec n 8); [by apply Hall|].
  destruct (decide (b = 0)) as [->|]; [apply Z.bits_0|].
  apply Z.bits_above_log2; [zlia|].
  assert (Z.log2 b < 8); [|lia]. apply Z.log2_lt_pow2; zlia.
Qed.

Lemma testbit_255 o : 0 <= o < 8 -> Z.testbit 255 o = true.
Proof. intros. change 255 with (Z.ones 8). rewrite Z.testbit_ones_nonneg by lia. lia. Qed.

(** A byte that is not 0xff has a clear bit below 8. *)
Lemma byte_has_zero b :
  is_u8 b -> b <> 255 -> exists o, 0 <= o < 8 /\ Z.testbit b o = false.
Proof.
  intros Hb Hne.
  destruct (decide (Exists (fun o => Z.testbit b o = false) (seqZ 0 8))) as [H|H].
  - apply Exists_exists in H as (o & Ho & E). apply elem_of_seqZ in Ho. eauto with lia.
  - destruct Hne. apply byte_ff; [done|]. intros o Ho.
    destruct (Z.testbit b o) eqn:E; [done|]. destruct H.
    apply Exists_exists. exists o. rewrite elem_of_seqZ. auto with lia.
Qed.

(** ** Masks that keep the high bits of a word *)

Lemma land_high a k :
  0 <= k <= 32 -> 0 <= a < 2 ^ 32 -> Z.land a (2 ^ 32 - 2 ^ k) = a - a mod 2 ^ k.
Proof.
  intros Hk Ha.
  replace (2 ^ 32 - 2 ^ k) with (Z.shiftl (Z.ones (32 - k)) k).
  2:{ rewrite Z.shiftl_mul_pow2, Z.ones_equiv by lia.
      replace (2 ^ 32) with (2 ^ (32 - k) * 2 ^ k); [lia|].
      rewrite <- Z.pow_add_r by lia. f_equal. lia. }
  replace (a - a mod 2 ^ k) with (Z.shiftl (Z.shiftr a k) k).
  2:{ rewrite Z.shiftl_mul_pow2, Z.shiftr_div_pow2 by lia.
      pose proof (Z.div_mod a (2 ^ k) ltac:(apply Z.pow_nonzero; lia)). lia. }
  apply Z.bits_inj'. intros n Hn. rewrite Z.land_spec, !Z.shiftl_spec by lia.
  destruct (decide (n < k)); [rewrite !(Z.testbit_neg_r _ (n - k)) by lia; apply andb_false_r|].
  rewrite Z.shiftr_spec, Z.sub_add, Z.testbit_ones_nonneg by lia.
  destruct (Z.ltb_spec (n - k) (32 - k)); [apply andb_true_r|].
  rewrite andb_false_r. symmetry. destruct (decide (a = 0)) as [->|]; [apply Z.bits_0|].
  apply Z.bits_above_log2; [lia|]. assert (Z.log2 a < 32); [|lia].
  apply Z.log2_lt_pow2; lia.
Qed.

Lemma land_page a : 0 <= a < 4294967296 -> Z.land a 0xfffff000 = a - a mod 4096.
Proof. apply (land_high a 12). lia. Qed.
Lemma land_table a : 0 <= a < 4294967296 -> Z.land a 0xffc00000 = a - a mod 4194304.
Proof. apply (land_high a 22). lia. Qed.

Lemma land_low a k : 0 <= k -> Z.land a (2 ^ k - 1) = a mod 2 ^ k.
Proof.
  intros Hk. rewrite <- Z.land_ones by lia. f_equal. rewrite Z.ones_equiv. lia.
Qed.

Lemma testbit_high_false b k n : 0 <= b < 2 ^ k -> k <= n -> Z.testbit b n = false.
Proof.
  intros Hb Hn. destruct (decide (b = 0)) as [->|]; [apply Z.bits_0|].
  destruct (decide (0 <= k)); [|rewrite Z.pow_neg_r in Hb; lia].
  apply Z.bits_above_log2; [lia|]. assert (Z.log2 b < k) by (apply Z.log2_lt_pow2; lia). lia.
Qed.

Lemma land_disjoint a b k : 0 <= k -> a mod 2 ^ k = 0 -> 0 <= b < 2 ^ k -> Z.land a b = 0.
Proof.
  intros Hk Ha Hb. apply Z.bits_inj'. intros n Hn. rewrite Z.land_spec, Z.bits_0.
  destruct (decide (n < k)).
  - rewrite <- (Z.mod_pow2_bits_low a k n), Ha, Z.bits_0 by lia. done.
  - rewrite (testbit_high_false b k) by lia. apply andb_false_r.
Qed.

(** Flags [b] or-ed into an aligned address [a]. *)
Lemma lor_disjoint_add a b k : 0 <= k -> a mod 2 ^ k = 0 -> 0 <= b < 2 ^ k -> Z.lor a b = a + b.
Proof.
  intros Hk Ha Hb. pose proof (land_disjoint a b k Hk Ha Hb) as H.
  rewrite <- Z.lxor_lor by done. symmetry. by apply Z.add_nocarry_lxor.
Qed.

(** ** Boolean tests on [Z] as case analyses *)

Ltac zcases :=
  repeat match goal with
  | |- context [Z.eqb ?a ?b] => destruct (Z.eqb_spec a b); subst; simpl
  | |- context [Z.ltb ?a ?b] => destruct (Z.ltb_spec a b); simpl
  | |- context [Z.leb ?a ?b] => destruct (Z.leb_spec a b); simpl
  end.

(** ** Lists *)

Lemma Forall_in {A} (P : A -> Prop) l x : Forall P l -> x ∈ l -> P x.
Proof. rewrite Forall_forall. auto. Qed.

(** A test made on all the numbers below [n]. *)
Lemma all_indices (P : Z -> bool) n : forallb P (seqZ 0 n) = true -> forall j, 0 <= j < n -> P j = true.
Proof.
  rewrite forallb_forall. intros H j Hj. apply H, list_elem_of_In, elem_of_seqZ. lia.
Qed.
