(* ===== verification/Machine.v ===== *)
(** * The machine the kernel runs on

    Byte-addressed memory, the processor state the C code manipulates, the
    result type of kernel code (normal return, failed assertion, non-
    terminating spin, hand-over of the CPU to another thread), the monad that
    sequences kernel code, its loops, and the weakest-precondition calculus
    all component proofs use. *)

From Stdlib Require Import FunctionalExtensionality.
From S2P Require Import Prelude.

#[local] Open Scope Z_scope.

(** ** Memory

    A C object is the bytes at its address.  All of the address space can be
    read; bytes never written read as 0. *)

Abbreviation memory := (gmap Z Z).

Definition get8 (m : memory) (a : Z) : Z := u8 (default 0 (m !! a)).
Definition put8 (m : memory) (a v : Z) : memory := <[a := u8 v]> m.

Definition get16 (m : memory) (a : Z) : Z := get8 m a + 256 * get8 m (a + 1).
Definition put16 (m : memory) (a v : Z) : memory :=
  put8 (put8 m a v) (a + 1) (v / 256).

Definition get32 (m : memory) (a : Z) : Z := get16 m a + 65536 * get16 m (a + 2).
Definition put32 (m : memory) (a v : Z) : memory :=
  put16 (put16 m a v) (a + 2) (v / 65536).

Arguments get8 : simpl never. Arguments get16 : simpl never. Arguments get32 : simpl never.
Arguments put8 : simpl never. Arguments put16 : simpl never. Arguments put32 : simpl never.

(** The [n] bytes from [a] on, and writing a list of bytes from [a] on. *)
Fixpoint get_bytes (m : memory) (a : Z) (n : nat) : list Z :=
  match n with
  | O => []
  | S n' => get8 m a :: get_bytes m (a + 1) n'
  end.

Fixpoint put_bytes (m : memory) (a : Z) (l : list Z) : memory :=
  match l with
  | [] => m
  | b :: l' => put_bytes (put8 m a b) (a + 1) l'
  end.

(** ** Laws of memory *)

Lemma get8_range m a : 0 <= get8 m a < 256.
Proof. apply u8_range. Qed.
Lemma get16_range m a : 0 <= get16 m a < 65536.
Proof. unfold get16. pose proof (get8_range m a). pose proof (get8_range m (a + 1)). lia. Qed.
Lemma get32_range m a : 0 <= get32 m a < 4294967296.
Proof. unfold get32. pose proof (get16_range m a). pose proof (get16_range m (a + 2)). lia. Qed.
#[export] Hint Resolve get8_range get16_range get32_range : xbay.

Lemma get8_put8 m a v b : get8 (put8 m a v) b = if decide (a = b) then u8 v else get8 m b.
Proof.
  unfold get8, put8. rewrite lookup_insert. case_decide; simpl; [apply u8_idem|done].
Qed.
Lemma get8_put8_eq m a v : get8 (put8 m a v) a = u8 v.
Proof. rewrite get8_put8. by rewrite decide_True. Qed.
Lemma get8_put8_ne m a v b : a <> b -> get8 (put8 m a v) b = get8 m b.
Proof. intros. rewrite get8_put8. by rewrite decide_False. Qed.

Lemma get8_put16_ne m a v b : ~ (a <= b < a + 2) -> get8 (put16 m a v) b = get8 m b.
Proof. intros. unfold put16. rewrite !get8_put8_ne by lia. done. Qed.
Lemma get8_put32_ne m a v b : ~ (a <= b < a + 4) -> get8 (put32 m a v) b = get8 m b.
Proof. intros. unfold put32. rewrite !get8_put16_ne by lia. done. Qed.

Lemma get16_put16_eq m a v : get16 (put16 m a v) a = u16 v.
Proof.
  unfold get16, put16. rewrite get8_put8_eq, get8_put8_ne, get8_put8_eq by lia. zlia.
Qed.
Lemma get16_ext m m' a :
  (forall b, a <= b < a + 2 -> get8 m' b = get8 m b) -> get16 m' a = get16 m a.
Proof. intros H. unfold get16. rewrite !H by lia. done. Qed.
Lemma get32_ext m m' a :
  (forall b, a <= b < a + 4 -> get8 m' b = get8 m b) -> get32 m' a = get32 m a.
Proof. intros H. unfold get32. rewrite !(get16_ext m m'); [done| |]; intros; apply H; lia. Qed.

Lemma get32_put32_eq m a v : get32 (put32 m a v) a = u32 v.
Proof.
  unfold get32, put32. rewrite get16_put16_eq, (get16_ext (put16 m a v)), get16_put16_eq.
  - zlia.
  - intros b Hb. apply get8_put16_ne. lia.
Qed.
Lemma get32_put32_ne m a v b :
  a + 4 <= b \/ b + 4 <= a -> get32 (put32 m a v) b = get32 m b.
Proof. intros. apply get32_ext. intros. apply get8_put32_ne. lia. Qed.
Lemma get32_put8_ne m a v b :
  a < b \/ b + 4 <= a -> get32 (put8 m a v) b = get32 m b.
Proof. intros. apply get32_ext. intros. apply get8_put8_ne. lia. Qed.
Lemma get32_put16_ne m a v b :
  a + 2 <= b \/ b + 4 <= a -> get32 (put16 m a v) b = get32 m b.
Proof. intros. apply get32_ext. intros. apply get8_put16_ne. lia. Qed.
Lemma get16_put32_ne m a v b :
  a + 4 <= b \/ b + 2 <= a -> get16 (put32 m a v) b = get16 m b.
Proof. intros. apply get16_ext. intros. apply get8_put32_ne. lia. Qed.

(** A store keeps the low bytes of the value only. *)
Lemma put8_wrap m a v w : u8 v = u8 w -> put8 m a v = put8 m a w.
Proof. intros E. unfold put8. by rewrite E. Qed.
Lemma put32_u32 m a v : put32 m a (u32 v) = put32 m a v.
Proof.
  unfold put32, put16. rewrite (put8_wrap m a (u32 v) v) by zlia.
  rewrite (put8_wrap _ (a + 1) (u32 v / 256) (v / 256)) by zlia.
  rewrite (put8_wrap _ (a + 2) (u32 v / 65536) (v / 65536)) by zlia.
  rewrite (put8_wrap _ (a + 2 + 1) (u32 v / 65536 / 256) (v / 65536 / 256)) by zlia. done.
Qed.
Lemma put16_u16 m a v : put16 m a (u16 v) = put16 m a v.
Proof.
  unfold put16. rewrite (put8_wrap m a (u16 v) v) by zlia.
  by rewrite (put8_wrap _ (a + 1) (u16 v / 256) (v / 256)) by zlia.
Qed.

Create Rewrite HintDb mem.
#[export] Hint Rewrite get8_put8_eq get16_put16_eq get32_put32_eq : mem.
#[export] Hint Rewrite get8_put8_ne get8_put16_ne get8_put32_ne get32_put32_ne
  get32_put8_ne get32_put16_ne get16_put32_ne using lia : mem.

(** Byte strings in memory. *)
Lemma length_get_bytes m a n : length (get_bytes m a n) = n.
Proof. revert a. induction n; intros; simpl; auto. Qed.

Lemma get_bytes_lookup m a n i :
  (i < n)%nat -> get_bytes m a n !! i = Some (get8 m (a + Z.of_nat i)).
Proof.
  revert a i. induction n as [|n IH]; intros a [|i] Hi; try lia; simpl.
  - by rewrite Z.add_0_r.
  - rewrite IH by lia. do 2 f_equal. lia.
Qed.

Lemma get_bytes_ext m m' a n :
  (forall b, a <= b < a + Z.of_nat n -> get8 m' b = get8 m b) ->
  get_bytes m' a n = get_bytes m a n.
Proof.
  revert a. induction n as [|n IH]; intros a H; simpl; [done|].
  rewrite H, IH by lia || (intros; apply H; lia). done.
Qed.

Lemma get8_put_bytes_ne m a l b :
  ~ (a <= b < a + Z.of_nat (length l)) -> get8 (put_bytes m a l) b = get8 m b.
Proof.
  revert m a. induction l as [|x l IH]; intros m a Hb; simpl in *; [done|].
  rewrite IH, get8_put8_ne by lia. done.
Qed.

Lemma get8_put_bytes m a l i x :
  l !! i = Some x -> get8 (put_bytes m a l) (a + Z.of_nat i) = u8 x.
Proof.
  revert m a i. induction l as [|y l IH]; intros m a [|i] Hi; simplify_eq/=.
  - rewrite Z.add_0_r, get8_put_bytes_ne, get8_put8_eq by lia. done.
  - replace (a + Z.of_nat (S i)) with (a + 1 + Z.of_nat i) by lia. by apply IH.
Qed.

Lemma get_put_bytes m a l :
  Forall is_u8 l -> get_bytes (put_bytes m a l) a (length l) = l.
Proof.
  intros Hl. apply list_eq. intros i. destruct (decide (i < length l)%nat) as [Hi|Hi].
  - rewrite get_bytes_lookup by lia. apply lookup_lt_is_Some in Hi as [x Hx].
    rewrite Hx, (get8_put_bytes _ _ _ _ _ Hx), u8_small; [done|].
    eapply Forall_lookup_1 in Hl; [|done]. exact Hl.
  - rewrite !lookup_ge_None_2; [done|lia|]. rewrite length_get_bytes. lia.
Qed.

Lemma get32_put_bytes_ne m a l b :
  b + 4 <= a \/ a + Z.of_nat (length l) <= b ->
  get32 (put_bytes m a l) b = get32 m b.
Proof. intros. apply get32_ext. intros. apply get8_put_bytes_ne. lia. Qed.

Lemma get8_put_bytes_replicate m a n v b :
  get8 (put_bytes m a (replicate n v)) b =
    if decide (a <= b < a + Z.of_nat n) then u8 v else get8 m b.
Proof.
  case_decide as Hb.
  - replace b with (a + Z.of_nat (Z.to_nat (b - a))) by lia. apply get8_put_bytes.
    apply lookup_replicate. split; [done|lia].
  - apply get8_put_bytes_ne. by rewrite length_replicate.
Qed.

(** ** Observational equality of memories

    Memories that give the same bytes everywhere; reads respect it. *)
Definition mem_equiv (m m' : memory) : Prop := forall a, get8 m a = get8 m' a.
#[export] Instance memory_equiv : Equiv (gmap Z Z) | 0 := mem_equiv.
#[export] Instance memory_equivalence : Equivalence (≡@{memory}).
Proof.
  split; [by intros ??|by intros ????|].
  intros m1 m2 m3 H12 H23 a. by rewrite (H12 a).
Qed.
#[export] Instance get8_proper : Proper ((≡) ==> (=) ==> (=)) get8.
Proof. intros m m' Hm a ? <-. apply Hm. Qed.
#[export] Instance get16_proper : Proper ((≡) ==> (=) ==> (=)) get16.
Proof. intros m m' Hm a ? <-. apply get16_ext. intros. apply Hm. Qed.
#[export] Instance get32_proper : Proper ((≡) ==> (=) ==> (=)) get32.
Proof. intros m m' Hm a ? <-. apply get32_ext. intros. apply Hm. Qed.
#[export] Instance put8_proper : Proper ((≡) ==> (=) ==> (=) ==> (≡)) put8.
Proof.
  intros m m' Hm a ? <- v ? <- b. rewrite !get8_put8. case_decide; [done|apply Hm].
Qed.
#[export] Instance put_bytes_proper : Proper ((≡) ==> (=) ==> (=) ==> (≡)) put_bytes.
Proof.
  intros m m' Hm a ? <- l ? <-. revert m m' Hm a.
  induction l as [|x l IH]; intros; simpl; [done|]. apply IH. by rewrite Hm.
Qed.

(** What an operation leaves alone: memory outside [P] is unchanged. *)
Definition changed_only (P : Z -> Prop) (m m' : memory) : Prop :=
  forall b, ~ P b -> get8 m' b = get8 m b.

Lemma changed_trans P m1 m2 m3 :
  changed_only P m1 m2 -> changed_only P m2 m3 -> changed_only P m1 m3.
Proof. intros H1 H2 b Hb. by rewrite H2, H1. Qed.

Lemma changed_weaken (P Q : Z -> Prop) m m' :
  changed_only P m m' -> (forall b, P b -> Q b) -> changed_only Q m m'.
Proof. intros H HPQ b Hb. apply H. intros HP. by apply Hb, HPQ. Qed.

Lemma changed_refl P m : changed_only P m m.
Proof. by intros b _. Qed.

Lemma changed_put32 (P : Z -> Prop) m a v :
  (forall b, a <= b < a + 4 -> P b) -> changed_only P m (put32 m a v).
Proof. intros H b Hb. apply get8_put32_ne. intros Ha. by apply Hb, H. Qed.
Lemma changed_put8 (P : Z -> Prop) m a v : P a -> changed_only P m (put8 m a v).
Proof. intros H b Hb. apply get8_put8_ne. by intros ->. Qed.
Lemma changed_get32 (P : Z -> Prop) m m' a :
  changed_only P m m' -> (forall b, a <= b < a + 4 -> ~ P b) -> get32 m' a = get32 m a.
Proof. intros Hc H. apply get32_ext. intros b Hb. apply Hc. by apply H. Qed.

(** ** Device and console output *)

Inductive event :=
  | OutB (port data : Z)              (* outb *)
  | InB (port data : Z)               (* inb, with the value the device gave *)
  | OutSW (port : Z) (data : list Z)  (* outsw, the bytes sent *)
  | InSW (port : Z) (data : list Z)   (* insw, the bytes received *)
  | PutChar (c : Z)
  | PutStr (text : list Z)            (* put_str of a string in memory *)
  | PutLit (text : string)            (* put_str of a string literal *)
  | PutInt (x : Z)
  | SetCursor (x : Z)
  | Lidt (operand : Z) | Lgdt (operand : Z) | Ltr (selector : Z)
  | SetCr3 (paddr : Z) | Invlpg (addr : Z) | StiHlt
  | IntrExit (frame : Z).             (* jmp intr_exit with esp = frame *)

Inductive intr_stat := INTR_OFF | INTR_ON.

#[export] Instance intr_stat_eq_dec : EqDecision intr_stat.
Proof. solve_decision. Defined.

(** ** What the source leaves open

    [FD_MAX] is defined with an empty body in thread/thread.h.
    [old_garbage] is the value found in the uninitialised local [old] of
    [intr_set_status]; [pte_ptr_ret] is what the caller of [pte_ptr] observes
    given the value of its local [pte], as the function has no return
    statement.  [desc_garbage] is what the field of [make_gdt_desc]'s local
    descriptor that it never assigns holds; [vaddr_slot] is where
    [page_table_remove] keeps its parameter, given the stack pointer, and
    [local_addr] where a function keeps a local object whose address it uses,
    named "function.local".  [fault_addr] is what CR2 holds.
    [dev_inb] and [dev_insw] are the devices: what a read of a
    port yields after a history of device accesses. *)
Class Platform := {
  FD_MAX : Z;
  old_garbage : intr_stat;
  pte_ptr_ret : Z -> Z;
  desc_garbage : Z;
  vaddr_slot : Z -> Z;
  local_addr : string -> Z -> Z;
  fault_addr : list event -> Z;
  dev_inb : list event -> Z -> Z;
  dev_insw : list event -> Z -> nat -> list Z
}.

(** ** Processor and kernel variables

    Scalar file-scope variables whose address is never taken. *)
Record variables := mkVars {
  ctrl_down : bool; shift_down : bool; alt_down : bool;
  capslock_down : bool; ext_scancode : bool;      (* device/keyboard.c *)
  total_times : Z;                                (* device/timer.c *)
  next_pid : Z; idle_thread : Z; main_thread : Z; (* thread/thread.c, .h *)
  curr_part : Z;                                  (* fs/fs.c *)
  channel_cnt : Z; ext_lba_base : Z;
  master_no : Z; logical_no : Z                   (* device/disk.c *)
}.

(** Assignments to them. *)
Definition set_ctrl_down (x : bool) (v : variables) : variables :=
  mkVars x (shift_down v) (alt_down v) (capslock_down v) (ext_scancode v) (total_times v)
    (next_pid v) (idle_thread v) (main_thread v) (curr_part v) (channel_cnt v) (ext_lba_base v)
    (master_no v) (logical_no v).
Definition set_shift_down (x : bool) (v : variables) : variables :=
  mkVars (ctrl_down v) x (alt_down v) (capslock_down v) (ext_scancode v) (total_times v)
    (next_pid v) (idle_thread v) (main_thread v) (curr_part v) (channel_cnt v) (ext_lba_base v)
    (master_no v) (logical_no v).
Definition set_alt_down (x : bool) (v : variables) : variables :=
  mkVars (ctrl_down v) (shift_down v) x (capslock_down v) (ext_scancode v) (total_times v)
    (next_pid v) (idle_thread v) (main_thread v) (curr_part v) (channel_cnt v) (ext_lba_base v)
    (master_no v) (logical_no v).
Definition set_capslock_down (x : bool) (v : variables) : variables :=
  mkVars (ctrl_down v) (shift_down v) (alt_down v) x (ext_scancode v) (total_times v)
    (next_pid v) (idle_thread v) (main_thread v) (curr_part v) (channel_cnt v) (ext_lba_base v)
    (master_no v) (logical_no v).
Definition set_ext_scancode (x : bool) (v : variables) : variables :=
  mkVars (ctrl_down v) (shift_down v) (alt_down v) (capslock_down v) x (total_times v)
    (next_pid v) (idle_thread v) (main_thread v) (curr_part v) (channel_cnt v) (ext_lba_base v)
    (master_no v) (logical_no v).
Definition set_total_times (x : Z) (v : variables) : variables :=
  mkVars (ctrl_down v) (shift_down v) (alt_down v) (capslock_down v) (ext_scancode v) x
    (next_pid v) (idle_thread v) (main_thread v) (curr_part v) (channel_cnt v) (ext_lba_base v)
    (master_no v) (logical_no v).
Definition set_next_pid (x : Z) (v : variables) : variables :=
  mkVars (ctrl_down v) (shift_down v) (alt_down v) (capslock_down v) (ext_scancode v)
    (total_times v) x (idle_thread v) (main_thread v) (curr_part v) (channel_cnt v)
    (ext_lba_base v) (master_no v) (logical_no v).
Definition set_idle_thread (x : Z) (v : variables) : variables :=
  mkVars (ctrl_down v) (shift_down v) (alt_down v) (capslock_down v) (ext_scancode v)
    (total_times v) (next_pid v) x (main_thread v) (curr_part v) (channel_cnt v)
    (ext_lba_base v) (master_no v) (logical_no v).
Definition set_main_thread (x : Z) (v : variables) : variables :=
  mkVars (ctrl_down v) (shift_down v) (alt_down v) (capslock_down v) (ext_scancode v)
    (total_times v) (next_pid v) (idle_thread v) x (curr_part v) (channel_cnt v)
    (ext_lba_base v) (master_no v) (logical_no v).
Definition set_curr_part (x : Z) (v : variables) : variables :=
  mkVars (ctrl_down v) (shift_down v) (alt_down v) (capslock_down v) (ext_scancode v)
    (total_times v) (next_pid v) (idle_thread v) (main_thread v) x (channel_cnt v)
    (ext_lba_base v) (master_no v) (logical_no v).
Definition set_channel_cnt (x : Z) (v : variables) : variables :=
  mkVars (ctrl_down v) (shift_down v) (alt_down v) (capslock_down v) (ext_scancode v)
    (total_times v) (next_pid v) (idle_thread v) (main_thread v) (curr_part v) x
    (ext_lba_base v) (master_no v) (logical_no v).
Definition set_ext_lba_base (x : Z) (v : variables) : variables :=
  mkVars (ctrl_down v) (shift_down v) (alt_down v) (capslock_down v) (ext_scancode v)
    (total_times v) (next_pid v) (idle_thread v) (main_thread v) (curr_part v) (channel_cnt v) x
    (master_no v) (logical_no v).
Definition set_master_no (x : Z) (v : variables) : variables :=
  mkVars (ctrl_down v) (shift_down v) (alt_down v) (capslock_down v) (ext_scancode v)
    (total_times v) (next_pid v) (idle_thread v) (main_thread v) (curr_part v) (channel_cnt v)
    (ext_lba_base v) x (logical_no v).
Definition set_logical_no (x : Z) (v : variables) : variables :=
  mkVars (ctrl_down v) (shift_down v) (alt_down v) (capslock_down v) (ext_scancode v)
    (total_times v) (next_pid v) (idle_thread v) (main_thread v) (curr_part v) (channel_cnt v)
    (ext_lba_base v) (master_no v) x.

Record machine := mkMachine {
  mem : memory;
  intr_flag : bool;        (* EFLAGS.IF *)
  esp : Z;                 (* kernel stack pointer of the running thread *)
  cr3 : Z;
  trace : list event;      (* oldest first *)
  vars : variables
}.

Definition set_mem (m : memory) (s : machine) : machine :=
  mkMachine m (intr_flag s) (esp s) (cr3 s) (trace s) (vars s).
Definition set_intr_flag (b : bool) (s : machine) : machine :=
  mkMachine (mem s) b (esp s) (cr3 s) (trace s) (vars s).
Definition set_esp (a : Z) (s : machine) : machine :=
  mkMachine (mem s) (intr_flag s) a (cr3 s) (trace s) (vars s).
Definition set_cr3 (a : Z) (s : machine) : machine :=
  mkMachine (mem s) (intr_flag s) (esp s) a (trace s) (vars s).
Definition log (e : event) (s : machine) : machine :=
  mkMachine (mem s) (intr_flag s) (esp s) (cr3 s) (trace s ++ [e]) (vars s).
Definition set_vars (v : variables) (s : machine) : machine :=
  mkMachine (mem s) (intr_flag s) (esp s) (cr3 s) (trace s) v.

Lemma set_mem_id s : set_mem (mem s) s = s.
Proof. by destruct s. Qed.
Lemma set_mem_set_mem m m' s : set_mem m (set_mem m' s) = set_mem m s.
Proof. done. Qed.

(** ** Results and the kernel monad *)

Inductive res (A : Type) : Type :=
  | Ok (a : A) (s : machine)
  | Panic (cond : string) (s : machine)        (* spins forever in panic_spin *)
  | Spin (s : machine)                         (* a loop that never ends *)
  | Switch (s : machine) (k : machine -> res A).
      (* the CPU has been given away in state [s]; [k] runs when it is back *)
Arguments Ok {A} a s.
Arguments Panic {A} cond s.
Arguments Spin {A} s.
Arguments Switch {A} s k.

Definition K (A : Type) : Type := machine -> res A.

Fixpoint bind_res {A B} (r : res A) (f : A -> K B) : res B :=
  match r with
  | Ok a s => f a s
  | Panic c s => Panic c s
  | Spin s => Spin s
  | Switch s k => Switch s (fun s' => bind_res (k s') f)
  end.

#[export] Instance K_ret : MRet K := fun A a s => Ok a s.
#[export] Instance K_bind : MBind K := fun A B f c s => bind_res (c s) f.

Definition panic {A} (cond : string) : K A := fun s => Panic cond s.
Definition spin {A} : K A := fun s => Spin s.
Definition gets {A} (f : machine -> A) : K A := fun s => Ok (f s) s.
Definition modify (f : machine -> machine) : K unit := fun s => Ok tt (f s).

Definition ld8 (a : Z) : K Z := gets (fun s => get8 (mem s) a).
Definition ld16 (a : Z) : K Z := gets (fun s => get16 (mem s) a).
Definition ld32 (a : Z) : K Z := gets (fun s => get32 (mem s) a).
Definition st8 (a v : Z) : K unit := modify (fun s => set_mem (put8 (mem s) a v) s).
Definition st16 (a v : Z) : K unit := modify (fun s => set_mem (put16 (mem s) a v) s).
Definition st32 (a v : Z) : K unit := modify (fun s => set_mem (put32 (mem s) a v) s).
Definition getv {A} (f : variables -> A) : K A := gets (fun s => f (vars s)).
Definition setv (f : variables -> variables) : K unit := modify (fun s => set_vars (f (vars s)) s).
Definition emit (e : event) : K unit := modify (log e).

Definition skip : K unit := mret tt.
Definition when (b : bool) (c : K unit) : K unit := if b then c else skip.

(** ** Loops *)

(** [for (i = lo; i < lo + n; ++i) body(i)] *)
Fixpoint for_ (lo : Z) (n : nat) (body : Z -> K unit) : K unit :=
  match n with
  | O => skip
  | S n' => body lo;; for_ (lo + 1) n' body
  end.

(** The same loop with a [return] or [break] in its body: it stops at the
    first iteration that yields a value. *)
Fixpoint for_exit {A} (lo : Z) (n : nat) (body : Z -> K (option A)) : K (option A) :=
  match n with
  | O => mret None
  | S n' =>
      r ← body lo;
      match r with Some a => mret (Some a) | None => for_exit (lo + 1) n' body end
  end.

(** [while]: the body maps the loop-carried local variables [x] either to
    their next values ([inl]) or to the value the loop leaves with ([inr]).
    [iterate p] runs at most [p] iterations; a loop that has not ended after
    [LOOP_MAX] of them (more than there are addresses) spins. *)
Fixpoint iterate {X A} (p : positive) (body : X -> K (X + A)) (x : X) : K (X + A) :=
  let again q r := match r with inl x' => iterate q body x' | inr a => mret (inr a) end in
  match p with
  | xH => body x
  | xO q => r ← iterate q body x; again q r
  | xI q => r0 ← body x;
            match r0 with
            | inl x0 => r ← iterate q body x0; again q r
            | inr a => mret (inr a)
            end
  end.

Definition loop_upto {X A} (p : positive) (body : X -> K (X + A)) (x : X) : K A :=
  r ← iterate p body x;
  match r with inl _ => spin | inr a => mret a end.

Definition LOOP_MAX : positive := (2 ^ 33)%positive.

Definition while_ {X A} (body : X -> K (X + A)) (x : X) : K A :=
  loop_upto LOOP_MAX body x.

(** ** Weakest preconditions (total correctness)

    [wpx c Q E s]: run from [s], [c] either returns normally, in a state and
    with a value that satisfy [Q], or stops in a failed assertion that
    satisfies [E].  [wp c Q s] leaves no room for a failed assertion. *)
Definition wpx {A} (c : K A) (Q : A -> machine -> Prop) (E : string -> machine -> Prop)
    (s : machine) : Prop :=
  match c s with Ok a s' => Q a s' | Panic m s' => E m s' | _ => False end.

Definition no_panic : string -> machine -> Prop := fun _ _ => False.
Abbreviation wp c Q := (wpx c Q no_panic).

Section WpRules.
Context {A B : Type} (E : string -> machine -> Prop).
Implicit Types (s : machine) (Q : A -> machine -> Prop) (R : B -> machine -> Prop).

Lemma wp_ret (a : A) Q s : Q a s -> wpx (mret a) Q E s.
Proof. done. Qed.

Lemma wp_bind (c : K A) (f : A -> K B) R s :
  wpx c (fun a s' => wpx (f a) R E s') E s -> wpx (c ≫= f) R E s.
Proof. unfold wpx, mbind, K_bind. by destruct (c s). Qed.

Lemma wp_mono (c : K A) Q Q' s :
  wpx c Q E s -> (forall a s', Q a s' -> Q' a s') -> wpx c Q' E s.
Proof. unfold wpx. destruct (c s); auto. Qed.

Lemma wp_ok (c : K A) a s s' : c s = Ok a s' -> forall Q, Q a s' -> wpx c Q E s.
Proof. unfold wpx. by intros ->. Qed.

Lemma wp_panics (c : K A) m s s' : c s = Panic m s' -> forall Q, E m s' -> wpx c Q E s.
Proof. unfold wpx. by intros ->. Qed.

Lemma bind_ok (c : K A) (f : A -> K B) a s s' :
  c s = Ok a s' -> (c ≫= f) s = f a s'.
Proof. unfold mbind, K_bind. by intros ->. Qed.

Lemma bind_panic (c : K A) (f : A -> K B) m s s' :
  c s = Panic m s' -> (c ≫= f) s = Panic m s'.
Proof. unfold mbind, K_bind. by intros ->. Qed.

Lemma bind_switch (c : K A) (f : A -> K B) s s' k :
  c s = Switch s' k -> (c ≫= f) s = Switch s' (fun s'' => bind_res (k s'') f).
Proof. unfold mbind, K_bind. by intros ->. Qed.
End WpRules.

Lemma wp_run {A} (c : K A) Q s : wp c Q s <-> exists a s', c s = Ok a s' /\ Q a s'.
Proof.
  unfold wpx, no_panic. split.
  - destruct (c s); try done. by eauto.
  - intros (a & s' & -> & HQ). exact HQ.
Qed.

Lemma wpx_run {A} (c : K A) Q E s :
  wpx c Q E s -> (exists a s', c s = Ok a s' /\ Q a s') \/ (exists m s', c s = Panic m s' /\ E m s').
Proof. unfold wpx. destruct (c s); naive_solver. Qed.

Lemma wpx_mono {A} (c : K A) (Q Q' : A -> machine -> Prop) (E E' : string -> machine -> Prop) s :
  wpx c Q E s -> (forall a s', Q a s' -> Q' a s') -> (forall m s', E m s' -> E' m s') ->
  wpx c Q' E' s.
Proof. unfold wpx. destruct (c s); auto. Qed.

Lemma wp_gets {A} (f : machine -> A) Q E s : Q (f s) s -> wpx (gets f) Q E s.
Proof. done. Qed.
Lemma wp_modify f Q E s : Q tt (f s) -> wpx (modify f) Q E s.
Proof. done. Qed.

(** Loops, one iteration at a time. *)
Lemma for_step body lo n s s' :
  body lo s = Ok tt s' -> for_ lo (S n) body s = for_ (lo + 1) n body s'.
Proof. intros E. cbn [for_]. by rewrite (bind_ok _ _ _ _ _ E). Qed.

Lemma for_exit_step {A} (body : Z -> K (option A)) lo n s r s' :
  body lo s = Ok r s' ->
  for_exit lo (S n) body s =
    match r with Some a => Ok (Some a) s' | None => for_exit (lo + 1) n body s' end.
Proof. intros E. cbn [for_exit]. rewrite (bind_ok _ _ _ _ _ E). by destruct r. Qed.

(** A counted loop keeps an invariant indexed by its counter. *)
Lemma wp_for (I : Z -> machine -> Prop) body Q E n lo s :
  I lo s ->
  (forall i s', lo <= i < lo + Z.of_nat n -> I i s' ->
     wpx (body i) (fun _ s'' => I (i + 1) s'') E s') ->
  (forall s', I (lo + Z.of_nat n) s' -> Q tt s') ->
  wpx (for_ lo n body) Q E s.
Proof.
  revert lo s. induction n as [|n IH]; intros lo s H0 Hstep Hend; cbn [for_].
  - apply wp_ret, Hend. by rewrite Z.add_0_r.
  - apply wp_bind. eapply wp_mono; [apply Hstep; [lia|done]|].
    intros [] s' H1. cbn beta in *. apply IH; [done| |].
    + intros i s'' Hi. apply Hstep. lia.
    + intros s''. replace (lo + 1 + Z.of_nat n) with (lo + Z.of_nat (S n)) by lia. apply Hend.
Qed.

Lemma wp_for_exit {A} (I : Z -> machine -> Prop) (body : Z -> K (option A)) Q E n lo s :
  I lo s ->
  (forall i s', lo <= i < lo + Z.of_nat n -> I i s' ->
     wpx (body i) (fun r s'' => match r with
                                | Some a => Q (Some a) s''
                                | None => I (i + 1) s''
                                end) E s') ->
  (forall s', I (lo + Z.of_nat n) s' -> Q None s') ->
  wpx (for_exit lo n body) Q E s.
Proof.
  revert lo s. induction n as [|n IH]; intros lo s H0 Hstep Hend; cbn [for_exit].
  - apply wp_ret, Hend. by rewrite Z.add_0_r.
  - apply wp_bind. eapply wp_mono; [apply Hstep; [lia|done]|].
    intros [a|] s' H1; cbn beta iota in *; [done|]. apply IH; [done| |].
    + intros i s'' Hi. apply Hstep. lia.
    + intros s''. replace (lo + 1 + Z.of_nat n) with (lo + Z.of_nat (S n)) by lia. apply Hend.
Qed.

(** A [while] loop with a variant [n] that decreases and stays in bounds. *)
Section WhileRule.
Context {X A : Type} (body : X -> K (X + A)).
Context (I : Z -> X -> machine -> Prop) (Q : A -> machine -> Prop).
Context (E : string -> machine -> Prop).
Hypothesis step : forall n x s, 0 <= n -> I n x s ->
  wpx (body x) (fun r s' => match r with
                            | inl x' => exists n', 0 <= n' < n /\ I n' x' s'
                            | inr a => Q a s'
                            end) E s.

Let post (bound : Z) (r : X + A) (s : machine) : Prop :=
  match r with
  | inl x' => exists n', 0 <= n' <= bound /\ I n' x' s
  | inr a => Q a s
  end.

Lemma wp_iterate p n x s :
  0 <= n -> I n x s -> wpx (iterate p body x) (post (n - Z.pos p)) E s.
Proof.
  assert (Hagain : forall p1 b (r : X + A) s1,
    (forall n0 x0 s0, 0 <= n0 -> I n0 x0 s0 ->
       wpx (iterate p1 body x0) (post (n0 - Z.pos p1)) E s0) ->
    post b r s1 ->
    wpx (match r with inl x' => iterate p1 body x' | inr a => mret (inr a) end)
        (post (b - Z.pos p1)) E s1).
  { intros p1 b [x1|a] s1 IH Hr; [|exact Hr]. destruct Hr as (n1 & Hn1 & HI1).
    eapply wp_mono; [apply (IH n1); [lia|done]|].
    intros [x2|a] s2; [|done]. intros (n2 & Hn2 & HI2). exists n2. split; [lia|done]. }
  assert (Hstep : forall n0 x0 s0, 0 <= n0 -> I n0 x0 s0 -> wpx (body x0) (post (n0 - 1)) E s0).
  { intros n0 x0 s0 Hn0 H0. eapply wp_mono; [by eapply step|].
    intros [x1|a] s1; [|done]. intros (n1 & Hn1 & HI1). exists n1. split; [lia|done]. }
  revert n x s. induction p as [p IH|p IH|]; intros n x s Hn HI; cbn [iterate].
  - apply wp_bind. eapply wp_mono; [by apply Hstep|].
    intros [x1|a] s1 H1; [|exact H1]. destruct H1 as (n1 & Hn1 & HI1).
    apply wp_bind. eapply wp_mono; [apply (IH n1); [lia|done]|].
    intros r2 s2 H2. eapply wp_mono; [apply (Hagain _ _ _ _ IH H2)|].
    intros [x3|a] s3; [|done]. intros (n3 & Hn3 & HI3). exists n3. split; [lia|done].
  - apply wp_bind. eapply wp_mono; [by apply (IH n)|].
    intros r2 s2 H2. eapply wp_mono; [apply (Hagain _ _ _ _ IH H2)|].
    intros [x3|a] s3; [|done]. intros (n3 & Hn3 & HI3). exists n3. split; [lia|done].
  - eapply wp_mono; [by apply (Hstep n)|].
    intros [x1|a] s1; [|done]. intros (n1 & Hn1 & HI1). exists n1. split; [lia|done].
Qed.

Lemma wp_while n x s : 0 <= n < 2 ^ 33 -> I n x s -> wpx (while_ body x) Q E s.
Proof.
  intros Hn HI. unfold while_, loop_upto. apply wp_bind.
  eapply wp_mono; [apply (wp_iterate LOOP_MAX n); [lia|exact HI]|].
  intros [x'|a] s'; [|done]. intros (n' & Hn' & _).
  unfold LOOP_MAX in Hn'. change (Z.pos (2 ^ 33)) with (2 ^ 33) in Hn'. lia.
Qed.
End WhileRule.

(** ** Loops that give the processor away

    The iterations of [while_] one after the other: what [wp_while] is to a
    loop that runs through, these equations are to a loop whose body may end
    in [Switch]. *)
Lemma bind_res_assoc {A B C} (r : res A) (f : A -> K B) (g : B -> K C) :
  bind_res (bind_res r f) g = bind_res r (fun a s => bind_res (f a s) g).
Proof.
  induction r as [a s|c s|s|s k IH]; cbn; try done. f_equal.
  apply functional_extensionality. intros s'. apply IH.
Qed.

Lemma bind_res_ret {A} (r : res A) : bind_res r (fun a s => Ok a s) = r.
Proof.
  induction r as [a s|c s|s|s k IH]; cbn; try done. f_equal.
  apply functional_extensionality. intros s'. apply IH.
Qed.

Lemma bind_assoc {A B C} (c : K A) (f : A -> K B) (g : B -> K C) :
  (c ≫= f) ≫= g = c ≫= (fun a => f a ≫= g).
Proof. apply functional_extensionality. intros s. apply bind_res_assoc. Qed.

Lemma bind_ret {A} (c : K A) : c ≫= (fun a => mret a) = c.
Proof. apply functional_extensionality. intros s. apply bind_res_ret. Qed.

Section Rounds.
Context {X A : Type} (body : X -> K (X + A)).

(** At most [n] iterations. *)
Fixpoint rounds (n : nat) (x : X) : K (X + A) :=
  match n with
  | O => mret (inl x)
  | S n' => r ← body x;
            match r with inl x' => rounds n' x' | inr a => mret (inr a) end
  end.

Lemma rounds_add n m x :
  rounds (n + m) x =
    r ← rounds n x; match r with inl x' => rounds m x' | inr a => mret (inr a) end.
Proof.
  revert x. induction n as [|n IH]; intros x; [done|]. cbn [rounds Nat.add].
  rewrite bind_assoc. f_equal. apply functional_extensionality. intros [x'|a]; [apply IH|done].
Qed.

Lemma iterate_rounds p x : iterate p body x = rounds (Pos.to_nat p) x.
Proof.
  revert x. induction p as [p IH|p IH|]; intros x; cbn [iterate].
  - replace (Pos.to_nat p~1) with (S (Pos.to_nat p + Pos.to_nat p)) by lia. cbn [rounds].
    f_equal. apply functional_extensionality. intros [x'|a]; [|done].
    rewrite rounds_add, <- IH. f_equal. apply functional_extensionality. by intros [x''|a].
  - replace (Pos.to_nat p~0) with (Pos.to_nat p + Pos.to_nat p)%nat by lia.
    rewrite rounds_add, <- IH. f_equal. apply functional_extensionality. by intros [x''|a].
  - change (Pos.to_nat 1) with 1%nat. cbn [rounds]. rewrite <- (bind_ret (body x)) at 1.
    f_equal. apply functional_extensionality. by intros [x'|a].
Qed.

(** The loop with [n] iterations left. *)
Definition loop_n (n : nat) (x : X) : K A :=
  r ← rounds n x; match r with inl _ => spin | inr a => mret a end.

Lemma loop_n_succ n x :
  loop_n (S n) x = r ← body x; match r with inl x' => loop_n n x' | inr a => mret a end.
Proof.
  unfold loop_n. cbn [rounds]. rewrite bind_assoc. f_equal.
  apply functional_extensionality. by intros [x'|a].
Qed.

Lemma while_loop_n : exists n, Z.of_nat n = 2 ^ 33 - 1 /\ forall x, while_ body x = loop_n (S n) x.
Proof.
  exists (Nat.pred (Pos.to_nat LOOP_MAX)). split; [unfold LOOP_MAX; lia|]. intros x.
  replace (S (Nat.pred (Pos.to_nat LOOP_MAX))) with (Pos.to_nat LOOP_MAX) by lia.
  unfold while_, loop_upto, loop_n. by rewrite iterate_rounds.
Qed.

(** A loop that no iteration leaves does not end. *)
Lemma while_spins (I : X -> machine -> Prop) x s :
  (forall x s, I x s -> exists x' s', body x s = Ok (inl x') s' /\ I x' s') -> I x s ->
  exists s', while_ body x s = Spin s'.
Proof.
  intros Hstep. destruct while_loop_n as (n & _ & E). rewrite E. generalize (S n) as k. clear n E.
  intros k. revert x s. induction k as [|k IH]; intros x s HI; [by eexists|].
  rewrite loop_n_succ. destruct (Hstep x s HI) as (x' & s' & E & HI').
  rewrite (bind_ok _ _ _ _ _ E). by apply IH.
Qed.
End Rounds.

(** ** What a computation can return at all

    Whatever the memory holds when the processor comes back. *)
Inductive returns_only {A} (P : A -> Prop) : res A -> Prop :=
  | ro_ok a s : P a -> returns_only P (Ok a s)
  | ro_panic c s : returns_only P (Panic c s)
  | ro_spin s : returns_only P (Spin s)
  | ro_switch s k : (forall s', returns_only P (k s')) -> returns_only P (Switch s k).

Lemma returns_any {A} (r : res A) : returns_only (fun _ => True) r.
Proof. induction r; by constructor. Qed.

Lemma returns_bind {A B} (Q : A -> Prop) (P : B -> Prop) (c : K A) (f : A -> K B) s :
  returns_only Q (c s) -> (forall a s', Q a -> returns_only P (f a s')) ->
  returns_only P ((c ≫= f) s).
Proof.
  intros Hc Hf. change ((c ≫= f) s) with (bind_res (c s) f). induction Hc; cbn; auto; by constructor.
Qed.

(** Only the last part of a sequence matters. *)
Lemma returns_seq {A B} (P : B -> Prop) (c : K A) (f : A -> K B) s :
  (forall a s', returns_only P (f a s')) -> returns_only P ((c ≫= f) s).
Proof. intros Hf. eapply returns_bind; [apply returns_any|auto]. Qed.

(** From here on [while_] is reasoned about through [wp_while] and [while_loop_n]; conversion must
    not try to run its 2^33 iterations. *)
#[global] Opaque while_.

(** ** Port and console primitives

    lib/io.h is inline assembly; lib/print.S prints through video memory.  The
    model records what they do to the outside as events, and asks the device
    of the [Platform] what a read yields. *)
Section Io.
Context {PL : Platform}.

Definition outb (port data : Z) : K unit := emit (OutB port (u8 data)).

Definition inb (port : Z) : K Z :=
  v ← gets (fun s => u8 (dev_inb (trace s) port));
  emit (InB port v);; mret v.

(** [word_cnt] words are sent from, or stored at, [addr]. *)
Definition outsw (port addr word_cnt : Z) : K unit :=
  data ← gets (fun s => get_bytes (mem s) addr (Z.to_nat (2 * word_cnt)));
  emit (OutSW port data).

Definition insw (port addr word_cnt : Z) : K unit :=
  data ← gets (fun s => map u8 (dev_insw (trace s) port (Z.to_nat (2 * word_cnt))));
  emit (InSW port data);;
  modify (fun s => set_mem (put_bytes (mem s) addr data) s).
End Io.

Definition put_char (c : Z) : K unit := emit (PutChar (u8 c)).
Definition put_int (x : Z) : K unit := emit (PutInt (u32 x)).
Definition put_lit (text : string) : K unit := emit (PutLit text).
Definition set_cursor (x : Z) : K unit := emit (SetCursor x).

(** [put_str] prints the bytes up to the terminating NUL. *)
Definition cstr_from (a : Z) : K (list Z) :=
  while_ (fun '(p, acc) =>
    c ← ld8 p;
    if c =? 0 then mret (inr acc) else mret (inl (p + 1, acc ++ [c]))) (a, []).
Definition put_str (a : Z) : K unit := text ← cstr_from a; emit (PutStr text).

(** ** Symbols

    The addresses the linker gives to file-scope objects, functions whose
    address is stored, and string literals. *)
Class Linker := {
  sym_kern_pool : Z; sym_user_pool : Z; sym_kern_vaddr : Z; sym_km_block_descs : Z;
  sym_ready_thread_list : Z; sym_all_thread_list : Z; sym_pid_lock : Z;
  sym_cons : Z; sym_keyboard_buffer : Z; sym_channels : Z; sym_partition_list : Z;
  sym_root : Z; sym_file_table : Z; sym_tss : Z;
  sym_idt : Z; sym_intr_entry_table : Z; sym_idt_table : Z; sym_intr_name : Z;
  sym_syscall_table : Z;
  fn_default_intr_hanlder : Z; fn_syscall_handler : Z;
  fn_keyboard_interrupt_hanlder : Z; fn_time_intr_handler : Z; fn_disk_intr_handler : Z;
  fn_kthread : Z; fn_idle : Z; fn_start_process : Z;
  fn_sys_getpid : Z; fn_sys_write : Z; fn_sys_malloc : Z; fn_sys_free : Z;
  fn_start1 : Z; fn_start2 : Z;
  str_lit : string -> Z
}.

(** ** Proof steps

    [wstep] executes one primitive of the monad in a [wp] goal, [msimpl]
    computes the fields of updated machines, [mem_simpl] resolves reads of
    updated memory whose addresses [lia] can tell apart. *)
Ltac msimpl :=
  cbn [mem intr_flag esp cr3 trace vars set_mem set_intr_flag set_esp set_cr3 log set_vars] in *.

Ltac wstep :=
  cbv beta;
  lazymatch goal with
  | |- wpx (mbind _ _) _ _ _ => apply wp_bind
  | |- wpx (mret _) _ _ _ => apply wp_ret
  | |- wpx skip _ _ _ => apply wp_ret
  | |- wpx (gets _) _ _ _ => apply wp_gets
  | |- wpx (ld8 _) _ _ _ => apply wp_gets
  | |- wpx (ld16 _) _ _ _ => apply wp_gets
  | |- wpx (ld32 _) _ _ _ => apply wp_gets
  | |- wpx (getv _) _ _ _ => apply wp_gets
  | |- wpx (modify _) _ _ _ => apply wp_modify
  | |- wpx (st8 _ _) _ _ _ => apply wp_modify
  | |- wpx (st16 _ _) _ _ _ => apply wp_modify
  | |- wpx (st32 _ _) _ _ _ => apply wp_modify
  | |- wpx (emit _) _ _ _ => apply wp_modify
  | |- wpx (when _ _) _ _ _ => unfold when
  | |- wpx (outb _ _) _ _ _ => apply wp_modify
  | |- wpx (put_char _) _ _ _ => apply wp_modify
  | |- wpx (put_int _) _ _ _ => apply wp_modify
  | |- wpx (put_lit _) _ _ _ => apply wp_modify
  end; cbv beta; msimpl.
Ltac wsteps := repeat wstep.
Ltac mem_simpl := repeat (autorewrite with mem widths in * ).

(** Running a function whose outcome a lemma gives as an equation. *)
Ltac wcall H := first [eapply wp_ok; [eapply H|] | apply wp_bind; eapply wp_ok; [eapply H|]].

(** [srun] executes the leading memory reads and writes of a sequence. *)
Ltac srun := repeat (erewrite bind_ok by reflexivity; cbv beta); msimpl.

(** [run E] executes the first statement of a sequence by the equation [E]. *)
Ltac run E := erewrite bind_ok by (eapply E; first [eassumption | reflexivity | lia | idtac]).

(** An equation [c s = Ok a s'] is a [wp] whose postcondition pins both. *)
Lemma run_of_wp {A} (c : K A) a s s' :
  wp c (fun a' s'' => a' = a /\ s'' = s') s -> c s = Ok a s'.
Proof. intros (a' & s'' & E & -> & ->)%wp_run. exact E. Qed.
