(* ===== verification/Concrete.v ===== *)
(** * A concrete machine

    One instance of everything the model leaves open: a platform, a link map
    and an initial processor state.  The concrete instances of the theorems
    are evaluated on it. *)

From S2P Require Import Prelude Machine.

#[local] Open Scope Z_scope.

#[export] Instance demo_platform : Platform := {|
  FD_MAX := 8;
  old_garbage := INTR_OFF;
  pte_ptr_ret := fun v => v;
  desc_garbage := 0;
  vaddr_slot := fun sp => sp;
  local_addr := fun name sp =>
    if decide (name = "path_depth.p") then sp - 1792
    else if decide (name = "path_depth.buf") then sp - 1664 else sp - 1024;
  fault_addr := fun _ => 0;
  dev_inb := fun _ port => if Z.eqb port 0x60 then 0x1e else if Z.eqb port 0x1f7 then 0x08 else 0;
  dev_insw := fun _ _ n => replicate n 0
|}.

(** Objects are laid out one per 4 KiB from 0xc0010000 on; the channel array
    and the page-sized objects get more room. *)
#[export] Instance demo_linker : Linker := {|
  sym_kern_pool := 0xc0010000; sym_user_pool := 0xc0011000;
  sym_kern_vaddr := 0xc0012000; sym_km_block_descs := 0xc0013000;
  sym_ready_thread_list := 0xc0014000; sym_all_thread_list := 0xc0015000;
  sym_pid_lock := 0xc0016000; sym_cons := 0xc0017000;
  sym_keyboard_buffer := 0xc0018000; sym_channels := 0xc0020000;
  sym_partition_list := 0xc0019000; sym_root := 0xc001a000;
  sym_file_table := 0xc001b000; sym_tss := 0xc001c000;
  sym_idt := 0xc001d000; sym_intr_entry_table := 0xc001e000;
  sym_idt_table := 0xc001f000; sym_intr_name := 0xc0030000;
  sym_syscall_table := 0xc0031000;
  fn_default_intr_hanlder := 0xc0002000; fn_syscall_handler := 0xc0002100;
  fn_keyboard_interrupt_hanlder := 0xc0002200; fn_time_intr_handler := 0xc0002300;
  fn_disk_intr_handler := 0xc0002400; fn_kthread := 0xc0002500; fn_idle := 0xc0002600;
  fn_start_process := 0xc0002700; fn_sys_getpid := 0xc0002800; fn_sys_write := 0xc0002900;
  fn_sys_malloc := 0xc0002a00; fn_sys_free := 0xc0002b00;
  fn_start1 := 0xc0002c00; fn_start2 := 0xc0002d00;
  str_lit := fun _ => 0xc0003000
|}.

Definition demo_vars : variables := {|
  ctrl_down := false; shift_down := false; alt_down := false;
  capslock_down := false; ext_scancode := false;
  total_times := 0; next_pid := 0; idle_thread := 0; main_thread := 0xc009e000;
  curr_part := 0; channel_cnt := 0; ext_lba_base := 0; master_no := 0; logical_no := 0
|}.

(** The main thread runs on the page 0xc009e000 with interrupts on. *)
Definition demo_machine (m : memory) : machine :=
  mkMachine m true 0xc009ef00 0x100000 [] demo_vars.
