(* ===== verification/Interrupt.v ===== *)
(** * kernel/interrupt.c and kernel/debug.c

    The interrupt flag and the critical sections built from it, assertions,
    the interrupt descriptor table and the interrupt controller. *)

From S2P Require Import Prelude Machine Concrete.

#[local] Open Scope Z_scope.

Section Status.
Context {PL : Platform}.

Definition intr_get_status : K intr_stat :=
  gets (fun s => if intr_flag s then INTR_ON else INTR_OFF).

Definition intr_enable : K intr_stat :=
  st ← intr_get_status;
  if decide (st = INTR_OFF)
  then modify (set_intr_flag true);; mret INTR_OFF
  else mret INTR_ON.

Definition intr_disable : K intr_stat :=
  st ← intr_get_status;
  if decide (st = INTR_ON)
  then modify (set_intr_flag false);; mret INTR_ON
  else mret INTR_OFF.

(** [old] is never assigned: the test reads whatever its stack slot holds. *)
Definition intr_set_status (status : intr_stat) : K intr_stat :=
  let old := old_garbage in
  st ← intr_get_status;
  (if decide (st = status) then skip
   else if decide (old = INTR_ON) then intr_disable;; skip else intr_enable;; skip);;
  mret old.

Definition INTERRUPT_DISABLE : K intr_stat := intr_disable.
Definition INTERRUPT_RESTORE (status : intr_stat) : K unit := intr_set_status status;; skip.

(** *** Assertions (kernel/debug.h, kernel/debug.c) *)

Definition nl : string := String (Ascii.ascii_of_nat 10) EmptyString.

Definition panic_spin {A} (filename : string) (line : Z) (func cond : string) : K A :=
  intr_disable;;
  put_lit (nl +:+ nl +:+ "    ##error##" +:+ nl);;
  put_lit "[filename]:  ";; put_lit filename;; put_lit nl;;
  put_lit "[line]:      0x";; put_int line;; put_char 10;;
  put_lit "[function]:  ";; put_lit func;; put_lit nl;;
  put_lit "[condtion]:  ";; put_lit cond;; put_lit nl;;
  panic cond.

Definition ASSERT (b : bool) (filename : string) (line : Z) (func cond : string) : K unit :=
  if b then skip else panic_spin filename line func cond.

(** *** Laws *)

Lemma wp_assert b f l fn c Q E s : b = true -> Q tt s -> wpx (ASSERT b f l fn c) Q E s.
Proof. by intros ->. Qed.

Lemma intr_disable_run s :
  intr_disable s = Ok (if intr_flag s then INTR_ON else INTR_OFF) (set_intr_flag false s).
Proof.
  unfold intr_disable, intr_get_status. cbn.
  destruct s as [m f e c t v]; destruct f; reflexivity.
Qed.

Lemma assert_run b f l fn c s : b = true -> ASSERT b f l fn c s = Ok tt s.
Proof. by intros ->. Qed.

Lemma assert_false f l fn c s :
  exists s', ASSERT false f l fn c s = Panic c s' /\ intr_flag s' = false /\ mem s' = mem s.
Proof.
  unfold ASSERT, panic_spin. rewrite (bind_ok _ _ _ _ _ (intr_disable_run s)).
  eexists. split; [reflexivity|]. by split.
Qed.

(** Past an assertion, it holds. *)
Lemma returns_assert {A} (P : A -> Prop) (b : bool) f ln fn c (k : unit -> K A) s :
  (b = true -> returns_only P (k tt s)) -> returns_only P ((ASSERT b f ln fn c ≫= k) s).
Proof.
  destruct b; intros H; [by apply H|].
  destruct (assert_false f ln fn c s) as (s' & E & _). rewrite (bind_panic _ _ _ _ _ E). constructor.
Qed.

(** The flag after a critical section entered with flag [b]. *)
Definition flag_after (b : bool) : bool :=
  if decide (old_garbage = INTR_ON) then false else b.

Lemma restore_run (b : bool) s :
  intr_flag s = false ->
  INTERRUPT_RESTORE (if b then INTR_ON else INTR_OFF) s
    = Ok tt (set_intr_flag (flag_after b) s).
Proof.
  intros Hf. unfold INTERRUPT_RESTORE, intr_set_status, intr_get_status, flag_after,
    intr_disable, intr_enable, intr_get_status.
  destruct s as [m f e c t v]; cbn in Hf |- *; subst f.
  destruct b, old_garbage; reflexivity.
Qed.

Lemma wp_critical {A} (c : K A) (Q : A -> machine -> Prop) E s :
  wpx c (fun a s' => intr_flag s' = false /\ Q a (set_intr_flag (flag_after (intr_flag s)) s'))
     E (set_intr_flag false s) ->
  wpx (st ← INTERRUPT_DISABLE; a ← c; INTERRUPT_RESTORE st;; mret a) Q E s.
Proof.
  intros H. apply wp_bind. eapply wp_ok; [apply intr_disable_run|].
  apply wp_bind. eapply wp_mono; [exact H|]. intros a s' [Hf HQ].
  apply wp_bind. eapply wp_ok; [by apply restore_run|]. by apply wp_ret.
Qed.

(** A critical section returns to the flag it was entered with only if the
    stack slot [intr_set_status] reads happens to hold [INTR_OFF]; with
    [INTR_ON] there, interrupts stay off for good. *)
Theorem critical_section_flag s :
  exists st, INTERRUPT_DISABLE s = Ok st (set_intr_flag false s) /\
    INTERRUPT_RESTORE st (set_intr_flag false s) = Ok tt (set_intr_flag (flag_after (intr_flag s)) s) /\
    (old_garbage = INTR_OFF -> flag_after (intr_flag s) = intr_flag s) /\
    (old_garbage = INTR_ON -> flag_after (intr_flag s) = false).
Proof.
  exists (if intr_flag s then INTR_ON else INTR_OFF). split_and!.
  - apply intr_disable_run.
  - by rewrite restore_run.
  - unfold flag_after. intros ->. done.
  - unfold flag_after. intros ->. done.
Qed.
End Status.

(** ** A concrete instance *)

Lemma critical_section_flag_witness :
  exists st, INTERRUPT_DISABLE (demo_machine ∅) = Ok st (set_intr_flag false (demo_machine ∅)) /\
    INTERRUPT_RESTORE st (set_intr_flag false (demo_machine ∅))
      = Ok tt (set_intr_flag (flag_after true) (demo_machine ∅)) /\
    flag_after true = true.
Proof.
  destruct (critical_section_flag (demo_machine ∅)) as (st & H1 & H2 & H3 & _).
  exists st. split_and!; [exact H1|exact H2|exact (H3 eq_refl)].
Defined.
