(* ===== verification/CString.v ===== *)
(** * lib/string.c

    Byte-block and string functions over the machine's memory, each with its
    functional specification.  [cstr m a l] says that the NUL-terminated
    string [l] is at [a]. *)

From S2P Require Import Prelude Machine Concrete Interrupt.

#[local] Open Scope Z_scope.

Definition NULL : Z := 0.

Section CString.
Context {PL : Platform}.

Definition memset (dest value size : Z) : K unit :=
  ASSERT (negb (dest =? NULL)) "lib/string.c" 6 "memset" "dest != NULL";;
  for_ 0 (Z.to_nat size) (fun i => st8 (dest + i) value).

Definition memcpy (dest src size : Z) : K unit :=
  ASSERT (negb (dest =? NULL)) "lib/string.c" 17 "memcpy" "dest != NULL";;
  ASSERT (negb (src =? NULL)) "lib/string.c" 18 "memcpy" "src != NULL";;
  for_ 0 (Z.to_nat size) (fun i => c ← ld8 (src + i); st8 (dest + i) c).

Definition memcmp (a b size : Z) : K Z :=
  ASSERT (negb (a =? NULL)) "lib/string.c" 30 "memcmp" "a != NULL";;
  ASSERT (negb (b =? NULL)) "lib/string.c" 31 "memcmp" "b != NULL";;
  r ← for_exit 0 (Z.to_nat size) (fun i =>
        x ← ld8 (a + i); y ← ld8 (b + i);
        mret (if y <? x then Some 1 else if x <? y then Some (u32 (-1)) else None));
  mret (default 0 r).

Definition strcpy (dest src : Z) : K Z :=
  ASSERT (negb (dest =? NULL)) "lib/string.c" 48 "strcpy" "dest != NULL";;
  ASSERT (negb (src =? NULL)) "lib/string.c" 49 "strcpy" "src != NULL";;
  while_ (fun '(d, s) =>
    c ← ld8 s;
    if c =? 0 then mret (inr d) else st8 d c;; mret (inl (d + 1, s + 1))) (dest, src);;
  mret dest.

Definition strlen (s : Z) : K Z :=
  if s =? NULL then mret 0
  else
    p ← while_ (fun p =>
          c ← ld8 p;
          if c =? 0 then mret (inr p) else mret (inl (p + 1))) s;
    mret (u32 (p - s)).

(** The loop compares the pointers [a == b], not the characters. *)
Definition strcmp (s1 s2 : Z) : K Z :=
  ASSERT (negb (s1 =? NULL)) "lib/string.c" 75 "strcmp" "s1 != NULL";;
  ASSERT (negb (s2 =? NULL)) "lib/string.c" 76 "strcmp" "s2 != NULL";;
  '(a, b) ← while_ (fun '(a, b) =>
      c ← ld8 a;
      if negb (c =? 0) && (a =? b) then mret (inl (a + 1, b + 1)) else mret (inr (a, b)))
    (s1, s2);
  x ← ld8 a; y ← ld8 b;
  mret (if s8 x <? s8 y then u8 (-1) else if s8 y <? s8 x then 1 else 0).

Definition strncmp (s1 s2 n : Z) : K Z :=
  ASSERT (negb (s1 =? NULL)) "lib/string.c" 94 "strncmp" "s1 != NULL";;
  ASSERT (negb (s2 =? NULL)) "lib/string.c" 95 "strncmp" "s2 != NULL";;
  r ← for_exit 0 (Z.to_nat n) (fun i =>
        x ← ld8 (s1 + i); y ← ld8 (s2 + i);
        mret (if s8 y <? s8 x then Some 1 else if s8 x <? s8 y then Some (u8 (-1)) else None));
  mret (default 0 r).

Definition strchr (s c : Z) : K Z :=
  ASSERT (negb (s =? NULL)) "lib/string.c" 109 "strchr" "s != NULL";;
  while_ (fun p =>
    x ← ld8 p;
    if x =? 0 then mret (inr NULL)
    else if x =? u8 c then mret (inr p) else mret (inl (p + 1))) s.

Definition strrchr (s c : Z) : K Z :=
  ASSERT (negb (s =? NULL)) "lib/string.c" 123 "strrchr" "s != NULL";;
  while_ (fun '(p, last_char) =>
    x ← ld8 p;
    if x =? 0 then mret (inr last_char)
    else mret (inl (p + 1, if x =? u8 c then p else last_char))) (s, NULL).

Definition strcat (dest src : Z) : K Z :=
  ASSERT (negb (dest =? NULL)) "lib/string.c" 137 "strcat" "dest != NULL";;
  ASSERT (negb (src =? NULL)) "lib/string.c" 138 "strcat" "src != NULL";;
  p ← while_ (fun p =>
        c ← ld8 p;
        if c =? 0 then mret (inr p) else mret (inl (p + 1))) dest;
  p ← while_ (fun '(p, s) =>
        c ← ld8 s;
        if c =? 0 then mret (inr p) else st8 p c;; mret (inl (p + 1, s + 1))) (p, src);
  st8 p 0;;
  mret dest.

Definition strcnt (s c : Z) : K Z :=
  ASSERT (negb (s =? NULL)) "lib/string.c" 156 "strcnt" "s != NULL";;
  while_ (fun '(p, cnt) =>
    x ← ld8 p;
    if x =? 0 then mret (inr cnt)
    else mret (inl (p + 1, if x =? u8 c then u32 (cnt + 1) else cnt))) (s, 0).
End CString.

(** ** Strings in memory *)

Fixpoint cstr (m : memory) (a : Z) (l : list Z) : Prop :=
  match l with
  | [] => get8 m a = 0
  | c :: l' => get8 m a = c /\ c <> 0 /\ cstr m (a + 1) l'
  end.

(** Reference comparison of byte blocks: the first difference decides. *)
Fixpoint first_diff (less greater : Z) (key : Z -> Z) (a b : list Z) : Z :=
  match a, b with
  | x :: a', y :: b' =>
      if key y <? key x then greater
      else if key x <? key y then less
      else first_diff less greater key a' b'
  | _, _ => 0
  end.

(** Index of the last occurrence of [c], as an address from [a]. *)
Fixpoint last_occurrence (a c found : Z) (l : list Z) : Z :=
  match l with
  | [] => found
  | x :: l' => last_occurrence (a + 1) c (if x =? c then a else found) l'
  end.

Lemma cstr_bytes m a l : cstr m a l -> get_bytes m a (length l) = l.
Proof.
  revert a. induction l as [|c l IH]; intros a H; simpl in *; [done|].
  destruct H as (-> & _ & H). by rewrite (IH _ H).
Qed.

Lemma cstr_ext m m' a l :
  (forall b, a <= b <= a + Z.of_nat (length l) -> get8 m' b = get8 m b) ->
  cstr m a l -> cstr m' a l.
Proof.
  revert a. induction l as [|c l IH]; intros a Hb H; simpl in *.
  - by rewrite Hb by lia.
  - destruct H as (E & Hc & H). rewrite Hb by lia. split_and!; [done..|].
    apply IH; [|done]. intros. apply Hb. lia.
Qed.

Lemma cstr_snoc m a l x :
  cstr m a (l ++ [x]) -> get8 m (a + Z.of_nat (length l)) = x /\ x <> 0.
Proof.
  revert a. induction l as [|c l IH]; intros a H; simpl in *.
  - rewrite Z.add_0_r. tauto.
  - destruct H as (_ & _ & H). apply IH in H.
    by replace (a + Z.of_nat (S (length l))) with (a + 1 + Z.of_nat (length l)) by lia.
Qed.

Lemma cstr_suffix m a l1 l2 : cstr m a (l1 ++ l2) -> cstr m (a + Z.of_nat (length l1)) l2.
Proof.
  revert a. induction l1 as [|x l1 IH]; intros a H; [by rewrite Z.add_0_r|].
  cbn [length]. replace (a + Z.of_nat (S (length l1))) with (a + 1 + Z.of_nat (length l1)) by lia.
  apply IH, H.
Qed.

Lemma cstr_nonzero m a l : cstr m a l -> Forall (fun x => is_u8 x /\ x <> 0) l.
Proof.
  revert a. induction l as [|x l IH]; intros a H; constructor.
  - destruct H as (<- & Hx & _). split; [|done]. pose proof (get8_range m a). zlia.
  - by apply (IH (a + 1)), H.
Qed.

(** Writing a string and a NUL after it. *)
Lemma cstr_put m p l :
  Forall (fun x => is_u8 x /\ x <> 0) l ->
  cstr (put8 (put_bytes m p l) (p + Z.of_nat (length l)) 0) p l.
Proof.
  intros H. revert m p. induction H as [|x l [Hx8 Hx] _ IH]; intros m p; cbn [cstr length].
  - by rewrite Z.add_0_r, get8_put8_eq.
  - replace (p + Z.of_nat (S (length l))) with (p + 1 + Z.of_nat (length l)) by lia.
    cbn [put_bytes]. rewrite get8_put8_ne, get8_put_bytes_ne, get8_put8_eq, u8_small by (zlia || lia).
    done.
Qed.

Lemma cstr_app m m' a l1 l2 :
  cstr m a l1 -> (forall b, a <= b < a + Z.of_nat (length l1) -> get8 m' b = get8 m b) ->
  cstr m' (a + Z.of_nat (length l1)) l2 -> cstr m' a (l1 ++ l2).
Proof.
  revert a. induction l1 as [|x l1 IH]; intros a H1 Hb H2.
  - by rewrite Z.add_0_r in H2.
  - destruct H1 as (E & Hx & H1). cbn [app cstr length] in *.
    rewrite Hb by lia. split_and!; [done..|]. apply IH; [done| |].
    + intros. apply Hb. lia.
    + by replace (a + 1 + Z.of_nat (length l1)) with (a + Z.of_nat (S (length l1))) by lia.
Qed.


Fixpoint fold_str {B} (f : Z -> Z -> B -> B) (a : Z) (acc : B) (l : list Z) : B :=
  match l with
  | [] => acc
  | x :: l' => fold_str f (a + 1) (f a x acc) l'
  end.

Lemma put_bytes_app m a l1 l2 :
  put_bytes m a (l1 ++ l2) = put_bytes (put_bytes m a l1) (a + Z.of_nat (length l1)) l2.
Proof.
  revert m a. induction l1 as [|x l1 IH]; intros m a; simpl; [by rewrite Z.add_0_r|].
  rewrite IH. f_equal. lia.
Qed.

(** A walk along a string that accumulates a value and writes nothing. *)
Lemma fold_str_loop {B} (f : Z -> Z -> B -> B) a acc l s :
  cstr (mem s) a l -> Z.of_nat (length l) < 2 ^ 33 ->
  while_ (fun '(p, acc) =>
    x ← ld8 p;
    if x =? 0 then mret (inr acc) else mret (inl (p + 1, f p x acc))) (a, acc) s
  = Ok (fold_str f a acc l) s.
Proof.
  intros Hs Hl. apply run_of_wp.
  apply (wp_while _ (fun n '(p, ac) s' => s' = s /\ exists l', cstr (mem s) p l' /\
           n = Z.of_nat (length l') /\ fold_str f p ac l' = fold_str f a acc l)
           _ _) with (n := Z.of_nat (length l)); [|lia|by eauto].
  intros n [p ac] s' _ (-> & l' & Hl' & -> & E). do 2 wstep.
  destruct l' as [|x l']; simpl in Hl', E.
  - rewrite Hl'. simpl. by wstep.
  - destruct Hl' as (-> & Hx & Hl'). rewrite (proj2 (Z.eqb_neq x 0) Hx). wstep.
    exists (Z.of_nat (length l')). simpl. split; [lia|]. split; [done|]. by exists l'.
Qed.

Lemma scan_end_loop a l s :
  cstr (mem s) a l -> Z.of_nat (length l) < 2 ^ 33 ->
  while_ (fun p =>
    c ← ld8 p;
    if c =? 0 then mret (inr p) else mret (inl (p + 1))) a s
  = Ok (a + Z.of_nat (length l)) s.
Proof.
  intros Hs Hl. apply run_of_wp.
  apply (wp_while _ (fun n p s' => s' = s /\ exists l', cstr (mem s) p l' /\
           n = Z.of_nat (length l') /\ p + n = a + Z.of_nat (length l))
           _ _) with (n := Z.of_nat (length l)); [|lia|by eauto].
  intros n p s' _ (-> & l' & Hl' & -> & E). do 2 wstep.
  destruct l' as [|x l']; simpl in Hl', E.
  - rewrite Hl'. simpl. wstep. split; [lia|done].
  - destruct Hl' as (-> & Hx & Hl'). rewrite (proj2 (Z.eqb_neq x 0) Hx). wstep.
    exists (Z.of_nat (length l')). simpl. split; [lia|]. split; [done|].
    exists l'. split_and!; [done..|lia].
Qed.

(** The copying loop of [strcpy] and [strcat]: it stops before the NUL. *)
Lemma copy_loop d a l s :
  cstr (mem s) a l -> Z.of_nat (length l) < 2 ^ 33 ->
  d + Z.of_nat (length l) <= a \/ a + Z.of_nat (length l) < d ->
  while_ (fun '(d, s) =>
    c ← ld8 s;
    if c =? 0 then mret (inr d) else st8 d c;; mret (inl (d + 1, s + 1))) (d, a) s
  = Ok (d + Z.of_nat (length l)) (set_mem (put_bytes (mem s) d l) s).
Proof.
  intros Hs Hl Hsep. apply run_of_wp.
  apply (wp_while _ (fun n '(d', a') s' => exists l1 l2, l = l1 ++ l2 /\
           n = Z.of_nat (length l2) /\ d' = d + Z.of_nat (length l1) /\
           a' = a + Z.of_nat (length l1) /\ cstr (mem s) a' l2 /\
           s' = set_mem (put_bytes (mem s) d l1) s)
           _ _) with (n := Z.of_nat (length l)); [|lia|].
  2:{ exists [], l. simpl. rewrite !Z.add_0_r, set_mem_id. done. }
  intros n [d' a'] s' _ (l1 & l2 & -> & -> & -> & -> & Hl2 & ->).
  rewrite length_app in *. do 2 wstep.
  assert (Hget : get8 (put_bytes (mem s) d l1) (a + Z.of_nat (length l1))
                 = get8 (mem s) (a + Z.of_nat (length l1))).
  { apply get8_put_bytes_ne. lia. }
  rewrite Hget. destruct l2 as [|x l2]; simpl in Hl2.
  - rewrite Hl2, app_nil_r. simpl. wstep. split; [simpl; lia|done].
  - destruct Hl2 as (-> & Hx & Hl2). rewrite (proj2 (Z.eqb_neq x 0) Hx). wsteps.
    exists (Z.of_nat (length l2)). simpl. split; [lia|].
    exists (l1 ++ [x]), l2. rewrite length_app, <- (assoc (++)). simpl.
    split_and!; [done|done|lia|lia| |].
    + by replace (a + Z.of_nat (length l1 + 1)) with (a + Z.of_nat (length l1) + 1) by lia.
    + by rewrite put_bytes_app.
Qed.

(** Counted loops of the block functions. *)
Lemma set_loop d v n s lo :
  for_ lo n (fun i => st8 (d + i) v) s
  = Ok tt (set_mem (put_bytes (mem s) (d + lo) (replicate n v)) s).
Proof.
  revert lo s. induction n as [|n IH]; intros lo s; [cbn; by rewrite set_mem_id|].
  erewrite for_step by reflexivity. rewrite IH. cbn. by rewrite Z.add_assoc.
Qed.

Lemma get_bytes_put8_ne m a v b n :
  ~ (b <= a < b + Z.of_nat n) -> get_bytes (put8 m a v) b n = get_bytes m b n.
Proof. intros. apply get_bytes_ext. intros. apply get8_put8_ne. lia. Qed.

(** Forward copying is right when the destination does not start inside the
    source. *)
Lemma copy_bytes_loop d a n s lo :
  d <= a \/ a + lo + Z.of_nat n <= d + lo ->
  for_ lo n (fun i => c ← ld8 (a + i); st8 (d + i) c) s
  = Ok tt (set_mem (put_bytes (mem s) (d + lo) (get_bytes (mem s) (a + lo) n)) s).
Proof.
  revert lo s. induction n as [|n IH]; intros lo s Hd; [cbn; by rewrite set_mem_id|].
  erewrite for_step by reflexivity. rewrite IH by lia. cbn.
  rewrite !Z.add_assoc, get_bytes_put8_ne by lia. done.
Qed.

Section CompareLoop.
Context (less greater : Z) (key : Z -> Z) (a b : Z).

Lemma compare_loop n lo s :
  for_exit lo n (fun i =>
    x ← ld8 (a + i); y ← ld8 (b + i);
    mret (if key y <? key x then Some greater
          else if key x <? key y then Some less else None)) s
  = Ok (if decide (Forall2 (fun x y => key x = key y)
                     (get_bytes (mem s) (a + lo) n) (get_bytes (mem s) (b + lo) n))
        then None
        else Some (first_diff less greater key
                     (get_bytes (mem s) (a + lo) n) (get_bytes (mem s) (b + lo) n))) s.
Proof.
  revert lo s. induction n as [|n IH]; intros lo s.
  - cbn. by rewrite decide_True by constructor.
  - erewrite for_exit_step by reflexivity. cbn [get_bytes first_diff]. zcases.
    + rewrite decide_False; [done|]. inversion 1. lia.
    + rewrite decide_False; [done|]. inversion 1. lia.
    + rewrite IH, !Z.add_assoc.
      assert (E : key (get8 (mem s) (a + lo)) = key (get8 (mem s) (b + lo))) by lia.
      case_decide as H1; case_decide as H2; try done.
      * destruct H2. by constructor.
      * destruct H1. by inversion H2.
Qed.
End CompareLoop.

Section Specs.
Context {PL : Platform}.
Implicit Types (s : machine) (l : list Z).

Lemma not_null_test a : a <> 0 -> negb (a =? NULL) = true.
Proof. intros. unfold NULL. by rewrite (proj2 (Z.eqb_neq a 0)). Qed.

Lemma assert_not_null a f ln fn c s :
  a <> 0 -> ASSERT (negb (a =? NULL)) f ln fn c s = Ok tt s.
Proof. intros. by apply assert_run, not_null_test. Qed.

Lemma memset_run d v n s :
  d <> 0 ->
  memset d v n s
    = Ok tt (set_mem (put_bytes (mem s) d (replicate (Z.to_nat n) v)) s).
Proof. intros. unfold memset. run assert_not_null. rewrite set_loop. by rewrite Z.add_0_r. Qed.

Lemma memcpy_run d a n s :
  d <> 0 -> a <> 0 -> 0 <= n -> d <= a \/ a + n <= d ->
  memcpy d a n s
    = Ok tt (set_mem (put_bytes (mem s) d (get_bytes (mem s) a (Z.to_nat n))) s).
Proof.
  intros. unfold memcpy. run assert_not_null. run assert_not_null.
  rewrite copy_bytes_loop by lia. by rewrite !Z.add_0_r.
Qed.

Lemma strlen_run a l s :
  a <> 0 -> cstr (mem s) a l -> Z.of_nat (length l) < 2 ^ 32 ->
  strlen a s = Ok (Z.of_nat (length l)) s.
Proof.
  intros Ha Hs Hl. unfold strlen, NULL. rewrite (proj2 (Z.eqb_neq a 0)) by done.
  rewrite (bind_ok _ _ _ _ _ (scan_end_loop a l s Hs ltac:(lia))).
  cbn. f_equal. rewrite u32_small; lia.
Qed.

Lemma strcpy_run d a l s :
  d <> 0 -> a <> 0 -> cstr (mem s) a l -> Z.of_nat (length l) < 2 ^ 32 ->
  d + Z.of_nat (length l) <= a \/ a + Z.of_nat (length l) < d ->
  strcpy d a s = Ok d (set_mem (put_bytes (mem s) d l) s).
Proof.
  intros Hd Ha Hs Hl Hsep. unfold strcpy. do 2 run assert_not_null.
  by rewrite (bind_ok _ _ _ _ _ (copy_loop d a l s Hs ltac:(lia) Hsep)).
Qed.

(** The comparison actually made on two different pointers. *)
Lemma strcmp_distinct_run a b s :
  a <> 0 -> b <> 0 -> a <> b ->
  strcmp a b s =
    Ok (let x := s8 (get8 (mem s) a) in let y := s8 (get8 (mem s) b) in
        if x <? y then 255 else if y <? x then 1 else 0) s.
Proof.
  intros Ha Hb Hab. unfold strcmp. do 2 run assert_not_null.
  rewrite (bind_ok _ _ (a, b) s s); [reflexivity|]. apply run_of_wp.
  apply (wp_while _ (fun n x s' => s' = s /\ x = (a, b)) _ _) with (n := 0); [|lia|done].
  intros n [p q] s' _ (-> & [= -> ->]). do 2 wstep.
  rewrite (proj2 (Z.eqb_neq a b) Hab), andb_false_r. by wstep.
Qed.
End Specs.

(** ** The contracts of the block and string functions *)
Section Contracts.
Context {PL : Platform}.
Implicit Types (s : machine) (l : list Z).

(** [memcpy] copies: afterwards the destination block holds the bytes of the
    source block and no other byte of memory has changed. *)
Theorem memcpy_correct d a n s :
  d <> 0 -> a <> 0 -> 0 <= n -> d <= a \/ a + n <= d ->
  exists s', memcpy d a n s = Ok tt s' /\
    get_bytes (mem s') d (Z.to_nat n) = get_bytes (mem s) a (Z.to_nat n) /\
    (forall b, ~ d <= b < d + n -> get8 (mem s') b = get8 (mem s) b) /\
    set_mem (mem s) s' = s.
Proof.
  intros. rewrite memcpy_run by done. eexists. split; [done|]. cbn. split_and!.
  - set (bs := get_bytes (mem s) a (Z.to_nat n)).
    replace (Z.to_nat n) with (length bs) by apply length_get_bytes.
    apply get_put_bytes. apply Forall_lookup_2. intros i x.
    intros E. pose proof (lookup_lt_Some _ _ _ E) as Hi. unfold bs in *.
    rewrite length_get_bytes in Hi. rewrite get_bytes_lookup in E by done.
    simplify_eq. unfold is_u8. pose proof (get8_range (mem s) (a + Z.of_nat i)). lia.
  - intros b Hb. apply get8_put_bytes_ne. rewrite length_get_bytes. lia.
  - by destruct s.
Qed.

(** [memcmp] decides equality of the two blocks, and otherwise reports the
    order of the first differing bytes as 1 or (uint32_t)-1. *)
Theorem memcmp_correct a b n s :
  a <> 0 -> b <> 0 ->
  let la := get_bytes (mem s) a (Z.to_nat n) in
  let lb := get_bytes (mem s) b (Z.to_nat n) in
  memcmp a b n s = Ok (first_diff (u32 (-1)) 1 id la lb) s /\
  (first_diff (u32 (-1)) 1 id la lb = 0 <-> la = lb).
Proof.
  intros Ha Hb la lb. split.
  - unfold memcmp. do 2 run assert_not_null.
    erewrite bind_ok by apply (compare_loop (u32 (-1)) 1 id a b). cbn.
    rewrite !Z.add_0_r. fold la lb. case_decide as H; cbn; [|done].
    f_equal. induction H as [|x y la' lb' E _ IH]; simpl; [done|].
    unfold id in *. subst. by rewrite Z.ltb_irrefl.
  - assert (Hlen : length la = length lb) by (unfold la, lb; by rewrite !length_get_bytes).
    clearbody la lb. revert lb Hlen. induction la as [|x la IH]; intros [|y lb] Hlen; try done.
    cbn [first_diff]. unfold id in *. simpl in Hlen. specialize (IH lb ltac:(lia)).
    zcases.
    + split; [done|]. intros [= -> _]. lia.
    + split; [done|]. intros [= -> _]. lia.
    + assert (x = y) as -> by lia. rewrite IH. split; congruence.
Qed.

(** [strcat] appends: the destination then holds the concatenation, with its
    terminator, and nothing outside the appended part changes. *)
Theorem strcat_correct d a l1 l2 s :
  d <> 0 -> a <> 0 -> cstr (mem s) d l1 -> cstr (mem s) a l2 ->
  let n := Z.of_nat (length l1 + length l2) in
  n < 2 ^ 32 -> d + n < a \/ a + Z.of_nat (length l2) < d ->
  exists s', strcat d a s = Ok d s' /\ cstr (mem s') d (l1 ++ l2) /\
    (forall b, ~ d + Z.of_nat (length l1) <= b <= d + n -> get8 (mem s') b = get8 (mem s) b).
Proof.
  intros Hd Ha H1 H2 n Hn Hsep. unfold n in *. unfold strcat. do 2 run assert_not_null.
  rewrite (bind_ok _ _ _ _ _ (scan_end_loop d l1 s H1 ltac:(lia))).
  rewrite (bind_ok _ _ _ _ _
    (copy_loop (d + Z.of_nat (length l1)) a l2 s H2 ltac:(lia) ltac:(lia))).
  eexists. split; [reflexivity|]. cbn.
  assert (Hother : forall b, ~ d + Z.of_nat (length l1) <= b
                               <= d + Z.of_nat (length l1 + length l2) ->
    get8 (put8 (put_bytes (mem s) (d + Z.of_nat (length l1)) l2)
       (d + Z.of_nat (length l1) + Z.of_nat (length l2)) 0) b = get8 (mem s) b).
  { intros b Hb. rewrite get8_put8_ne, get8_put_bytes_ne by lia. done. }
  split; [|done].
  eapply cstr_app; [exact H1|intros; apply Hother; lia|].
  by apply cstr_put, (cstr_nonzero (mem s) a).
Qed.

(** On two different pointers [strcmp] compares the first characters only:
    it answers "equal" for any two strings that start alike. *)
Theorem strcmp_compares_first_char a b x l1 l2 s :
  a <> 0 -> b <> 0 -> a <> b ->
  cstr (mem s) a (x :: l1) -> cstr (mem s) b (x :: l2) ->
  strcmp a b s = Ok 0 s.
Proof.
  intros Ha Hb Hab (E1 & _) (E2 & _). rewrite strcmp_distinct_run by done.
  cbn. by rewrite E1, E2, Z.ltb_irrefl.
Qed.

(** [strrchr] returns the address of the last occurrence, or NULL. *)
Theorem strrchr_correct a c l s :
  a <> 0 -> cstr (mem s) a l -> Z.of_nat (length l) < 2 ^ 32 ->
  exists r, strrchr a c s = Ok r s /\
    ((r = NULL /\ (u8 c ∉ l)) \/
     (exists l1 l2, l = l1 ++ u8 c :: l2 /\ (u8 c ∉ l2) /\ r = a + Z.of_nat (length l1))).
Proof.
  intros Ha Hs Hl. unfold strrchr. run assert_not_null.
  rewrite (fold_str_loop (fun p x last => if x =? u8 c then p else last)) with (l := l)
    by (done || lia).
  eexists. split; [done|].
  assert (Hgen : forall p acc,
    (acc = fold_str (fun p x last => if x =? u8 c then p else last) p acc l /\ (u8 c ∉ l)) \/
    exists l1 l2, l = l1 ++ u8 c :: l2 /\ (u8 c ∉ l2) /\
      fold_str (fun p x last => if x =? u8 c then p else last) p acc l
      = p + Z.of_nat (length l1)).
  { clear Hs Hl. induction l as [|x l IH]; intros p acc; simpl.
    - left. split; [done|]. apply not_elem_of_nil.
    - destruct (Z.eqb_spec x (u8 c)) as [->|Hx].
      + destruct (IH (p + 1) p) as [[E Hni]|(l1 & l2 & -> & Hni & E)].
        * right. exists [], l. simpl. rewrite <- E, Z.add_0_r. done.
        * right. exists (u8 c :: l1), l2. rewrite E. simpl. split_and!; [done..|lia].
      + destruct (IH (p + 1) acc) as [[E Hni]|(l1 & l2 & -> & Hni & E)].
        * left. split; [done|]. by rewrite not_elem_of_cons.
        * right. exists (x :: l1), l2. rewrite E. simpl. split_and!; [done..|lia]. }
  destruct (Hgen a NULL) as [[E Hni]|Hex]; [left|right]; [by rewrite <- E|done].
Qed.
End Contracts.

(** ** Concrete instances *)

(** "ab" at 0x1000, "ac" at 0x2000, with NULs after them. *)
Definition demo_strings : memory := put_bytes (put_bytes ∅ 0x1000 [97; 98; 0]) 0x2000 [97; 99; 0].

Lemma demo_cstr_ab : cstr demo_strings 0x1000 [97; 98].
Proof. vm_compute. intuition congruence. Qed.
Lemma demo_cstr_ac : cstr demo_strings 0x2000 [97; 99].
Proof. vm_compute. intuition congruence. Qed.

Lemma memcpy_correct_witness :
  exists s', memcpy 0x3000 0x1000 2 (demo_machine demo_strings) = Ok tt s' /\
    get_bytes (mem s') 0x3000 2 = get_bytes demo_strings 0x1000 2 /\
    (forall b, ~ 0x3000 <= b < 0x3000 + 2 -> get8 (mem s') b = get8 demo_strings b) /\
    set_mem demo_strings s' = demo_machine demo_strings.
Proof. apply (memcpy_correct 0x3000 0x1000 2 (demo_machine demo_strings)); lia. Defined.

Lemma memcmp_correct_witness :
  memcmp 0x1000 0x2000 2 (demo_machine demo_strings)
    = Ok (u32 (-1)) (demo_machine demo_strings) /\
  (u32 (-1) = 0 <-> get_bytes demo_strings 0x1000 2 = get_bytes demo_strings 0x2000 2).
Proof. apply (memcmp_correct 0x1000 0x2000 2 (demo_machine demo_strings)); lia. Defined.

Lemma strcat_correct_witness :
  exists s', strcat 0x1000 0x2000 (demo_machine demo_strings) = Ok 0x1000 s' /\
    cstr (mem s') 0x1000 [97; 98; 97; 99] /\
    (forall b, ~ 0x1000 + 2 <= b <= 0x1000 + 4 -> get8 (mem s') b = get8 demo_strings b).
Proof.
  apply (strcat_correct 0x1000 0x2000 [97; 98] [97; 99] (demo_machine demo_strings));
    [lia|lia|apply demo_cstr_ab|apply demo_cstr_ac|vm_compute; done|left; vm_compute; done].
Defined.

(** "ab" and "ac" are equal for [strcmp]. *)
Lemma strcmp_compares_first_char_witness :
  strcmp 0x1000 0x2000 (demo_machine demo_strings) = Ok 0 (demo_machine demo_strings).
Proof.
  apply (strcmp_compares_first_char 0x1000 0x2000 97 [98] [99]);
    [lia|lia|lia|apply demo_cstr_ab|apply demo_cstr_ac].
Defined.

Lemma strrchr_correct_witness :
  exists r, strrchr 0x1000 97 (demo_machine demo_strings) = Ok r (demo_machine demo_strings) /\
    ((r = NULL /\ (u8 97 ∉ [97; 98])) \/
     (exists l1 l2, [97; 98] = l1 ++ u8 97 :: l2 /\ (u8 97 ∉ l2) /\
        r = 0x1000 + Z.of_nat (length l1))).
Proof.
  apply (strrchr_correct 0x1000 97 [97; 98]); [lia|apply demo_cstr_ab|vm_compute; done].
Defined.
