(* ===== verification/Bitmap.v ===== *)
(** * lib/bitmap.c

    A bitmap is a structure of two words, [length] in bytes at offset 0 and
    the address [bits] of its bytes at offset 4.  [bit m bm i] is bit [i] of
    the bitmap at [bm]; the operations are proved to be the set operations
    and the first-fit search over it. *)

From S2P Require Import Prelude Machine Concrete Interrupt CString.

#[local] Open Scope Z_scope.

(** Field offsets of [struct __bitmap] and its size. *)
Module bitmap.
Definition length : Z := 0.
Definition bits : Z := 4.
Definition sizeof : Z := 8.
End bitmap.

Section Bitmap.
Context {PL : Platform}.

Definition bitmap_init (bm len : Z) : K unit :=
  st32 (bm + bitmap.length) len;;
  bits ← ld32 (bm + bitmap.bits);
  memset bits 0 len.

Definition bitmap_has (bm position : Z) : K bool :=
  let position := u32 position in
  let idx := position / 8 in
  let offset := position mod 8 in
  len ← ld32 (bm + bitmap.length);
  ASSERT (idx <? len) "lib/bitmap.c" 15 "bitmap_has" "idx < bm->length";;
  bits ← ld32 (bm + bitmap.bits);
  v ← ld8 (bits + idx);
  mret (negb (Z.land v (Z.shiftl 1 offset) =? 0)).

Definition bitmap_scan (bm cnt : Z) : K Z :=
  idx ← while_ (fun idx =>
          bits ← ld32 (bm + bitmap.bits);
          v ← ld8 (bits + idx);
          len ← ld32 (bm + bitmap.length);
          if (v =? 255) && (idx <? len) then mret (inl (idx + 1)) else mret (inr idx)) 0;
  len ← ld32 (bm + bitmap.length);
  if idx =? len then mret (-1)
  else
    bits ← ld32 (bm + bitmap.bits);
    offset ← while_ (fun offset =>
               v ← ld8 (bits + idx);
               if negb (Z.land (u8 (Z.shiftl 1 offset)) v =? 0)
               then mret (inl (offset + 1)) else mret (inr offset)) 0;
    let position := s32 (idx * 8 + offset) in
    if cnt =? 1 then mret position
    else
      let next_bit := u32 (position + 1) in
      let position := -1 in
      len ← ld32 (bm + bitmap.length);
      while_ (fun '(left_, next_bit, count) =>
        if 0 <? left_ then
          has ← bitmap_has bm next_bit;
          let count := if negb has then u32 (count + 1) else 0 in
          if count =? cnt then mret (inr (s32 (next_bit - cnt + 1)))
          else mret (inl (left_ - 1, u32 (next_bit + 1), count))
        else mret (inr position)) (u32 (len * 8 - position), next_bit, 1).

Definition bitmap_clear (bm position : Z) : K unit :=
  let position := u32 position in
  let idx := position / 8 in
  let offset := position mod 8 in
  len ← ld32 (bm + bitmap.length);
  ASSERT (idx <? len) "lib/bitmap.c" 59 "bitmap_clear" "idx < bm->length";;
  bits ← ld32 (bm + bitmap.bits);
  v ← ld8 (bits + idx);
  st8 (bits + idx) (Z.land v (Z.lnot (Z.shiftl 1 offset))).

Definition bitmap_set (bm position : Z) : K unit :=
  let position := u32 position in
  let idx := position / 8 in
  let offset := position mod 8 in
  len ← ld32 (bm + bitmap.length);
  ASSERT (idx <? len) "lib/bitmap.c" 66 "bitmap_set" "idx < bm->length";;
  bits ← ld32 (bm + bitmap.bits);
  v ← ld8 (bits + idx);
  st8 (bits + idx) (Z.lor v (Z.shiftl 1 offset)).
End Bitmap.

(** ** The bits of a bitmap *)

Definition bm_length (m : memory) (bm : Z) : Z := get32 m (bm + bitmap.length).
Definition bm_bits (m : memory) (bm : Z) : Z := get32 m (bm + bitmap.bits).
Definition nbits (m : memory) (bm : Z) : Z := 8 * bm_length m bm.

Definition bit (m : memory) (bm i : Z) : bool :=
  Z.testbit (get8 m (bm_bits m bm + i / 8)) (i mod 8).

(** A usable bitmap: its bytes do not overlap its own header, and its bit
    numbers are positive [int]s. *)
Record bitmap_ok (m : memory) (bm : Z) : Prop := {
  ok_nbits : nbits m bm < 2 ^ 31;
  ok_sep : bm + bitmap.sizeof <= bm_bits m bm \/ bm_bits m bm + bm_length m bm <= bm
}.

(** [cnt] clear bits from [p] on. *)
Definition free_run (m : memory) (bm p cnt : Z) : Prop :=
  0 <= p /\ p + cnt <= nbits m bm /\ forall j, p <= j < p + cnt -> bit m bm j = false.

Definition first_fit (m : memory) (bm cnt p : Z) : Prop :=
  free_run m bm p cnt /\ forall q, free_run m bm q cnt -> p <= q.

Lemma bm_length_range m bm : 0 <= bm_length m bm < 4294967296.
Proof. apply get32_range. Qed.
#[export] Hint Resolve bm_length_range : xbay.

(** ** Single bits *)
Section Bits.
Context {PL : Platform}.
Implicit Types (s : machine) (m : memory).

Lemma bitmap_has_run bm i s :
  0 <= i < nbits (mem s) bm -> nbits (mem s) bm < 2 ^ 32 ->
  bitmap_has bm i s = Ok (bit (mem s) bm i) s.
Proof.
  intros Hi Hn. unfold bitmap_has, nbits in *. rewrite u32_small by zlia.
  erewrite bind_ok by reflexivity. fold (bm_length (mem s) bm).
  rewrite (bind_ok _ _ tt s s) by (apply assert_run; zlia).
  erewrite !bind_ok by reflexivity. unfold bit, bm_bits.
  rewrite land_bit_nonzero, negb_involutive by zlia. done.
Qed.

Lemma bitmap_has_panics bm i s :
  nbits (mem s) bm <= i < 2 ^ 32 ->
  exists s', bitmap_has bm i s = Panic "idx < bm->length" s' /\ mem s' = mem s.
Proof.
  intros Hi. unfold bitmap_has, nbits in *. pose proof (bm_length_range (mem s) bm).
  rewrite u32_small by zlia.
  erewrite bind_ok by reflexivity. fold (bm_length (mem s) bm).
  replace (i / 8 <? bm_length (mem s) bm) with false by zlia.
  destruct (assert_false "lib/bitmap.c" 15 "bitmap_has" "idx < bm->length" s)
    as (s' & E & _ & Em).
  rewrite (bind_panic _ _ _ _ _ E). eauto.
Qed.

(** The memory after writing byte [i / 8] of the bitmap. *)
Definition bm_write m bm i v : memory := put8 m (bm_bits m bm + i / 8) v.

Lemma bm_write_header m bm i v :
  bitmap_ok m bm -> 0 <= i < nbits m bm ->
  bm_length (bm_write m bm i v) bm = bm_length m bm /\
  bm_bits (bm_write m bm i v) bm = bm_bits m bm.
Proof.
  intros [_ Hsep] Hi. unfold bm_write, nbits in *. unfold bm_length, bm_bits in *.
  unfold bitmap.length, bitmap.bits, bitmap.sizeof in *.
  rewrite !get32_put8_ne by zlia. done.
Qed.

Lemma bm_write_ok m bm i v :
  bitmap_ok m bm -> 0 <= i < nbits m bm -> bitmap_ok (bm_write m bm i v) bm.
Proof.
  intros Hok Hi. destruct (bm_write_header m bm i v Hok Hi) as [E1 E2].
  destruct Hok. constructor; unfold nbits in *; by rewrite ?E1, ?E2.
Qed.

Lemma bit_bm_write m bm i j v :
  bitmap_ok m bm -> 0 <= i < nbits m bm -> 0 <= j ->
  bit (bm_write m bm i v) bm j =
    if decide (i / 8 = j / 8) then Z.testbit (u8 v) (j mod 8) else bit m bm j.
Proof.
  intros Hok Hi Hj. unfold bit. destruct (bm_write_header m bm i v Hok Hi) as [_ ->].
  unfold bm_write. rewrite get8_put8. repeat case_decide; (done || lia).
Qed.

Definition bm_set m bm i :=
  bm_write m bm i (Z.lor (get8 m (bm_bits m bm + i / 8)) (Z.shiftl 1 (i mod 8))).
Definition bm_clear m bm i :=
  bm_write m bm i
    (Z.land (get8 m (bm_bits m bm + i / 8)) (Z.lnot (Z.shiftl 1 (i mod 8)))).

Lemma bm_write_nbits m bm i v :
  bitmap_ok m bm -> 0 <= i < nbits m bm -> nbits (bm_write m bm i v) bm = nbits m bm.
Proof. intros Hok Hi. unfold nbits. by rewrite (proj1 (bm_write_header _ _ _ _ Hok Hi)). Qed.

Lemma same_bit i j : 0 <= i -> 0 <= j -> i / 8 = j / 8 -> (j mod 8 =? i mod 8) = (i =? j).
Proof. intros. zlia. Qed.

Lemma bit_bm_set m bm i j :
  bitmap_ok m bm -> 0 <= i < nbits m bm -> 0 <= j ->
  bit (bm_set m bm i) bm j = (i =? j) || bit m bm j.
Proof.
  intros Hok Hi Hj. unfold bm_set. rewrite bit_bm_write by done. case_decide as E.
  - rewrite testbit_u8, Z.lor_spec, testbit_shiftl1, same_bit by zlia.
    replace (j mod 8 <? 8) with true by zlia. unfold bit. rewrite E, orb_comm. done.
  - replace (i =? j) with false by zlia. done.
Qed.

Lemma bit_bm_clear m bm i j :
  bitmap_ok m bm -> 0 <= i < nbits m bm -> 0 <= j ->
  bit (bm_clear m bm i) bm j = negb (i =? j) && bit m bm j.
Proof.
  intros Hok Hi Hj. unfold bm_clear. rewrite bit_bm_write by done. case_decide as E.
  - rewrite testbit_u8, Z.land_spec, Z.lnot_spec, testbit_shiftl1, same_bit by zlia.
    replace (j mod 8 <? 8) with true by zlia. unfold bit. rewrite E, andb_true_l. apply andb_comm.
  - replace (i =? j) with false by zlia. done.
Qed.

Lemma bitmap_set_run bm i s :
  bitmap_ok (mem s) bm -> 0 <= i < nbits (mem s) bm ->
  bitmap_set bm i s = Ok tt (set_mem (bm_set (mem s) bm i) s).
Proof.
  intros [Hn _] Hi. unfold bitmap_set, nbits in *. rewrite u32_small by zlia.
  erewrite bind_ok by reflexivity. fold (bm_length (mem s) bm).
  rewrite (bind_ok _ _ tt s s) by (apply assert_run; zlia). done.
Qed.

Lemma bitmap_clear_run bm i s :
  bitmap_ok (mem s) bm -> 0 <= i < nbits (mem s) bm ->
  bitmap_clear bm i s = Ok tt (set_mem (bm_clear (mem s) bm i) s).
Proof.
  intros [Hn _] Hi. unfold bitmap_clear, nbits in *. rewrite u32_small by zlia.
  erewrite bind_ok by reflexivity. fold (bm_length (mem s) bm).
  rewrite (bind_ok _ _ tt s s) by (apply assert_run; zlia). done.
Qed.

Lemma bitmap_set_panics bm i s :
  nbits (mem s) bm <= i < 2 ^ 32 ->
  exists s', bitmap_set bm i s = Panic "idx < bm->length" s' /\ mem s' = mem s.
Proof.
  intros Hi. unfold bitmap_set, nbits in *. pose proof (bm_length_range (mem s) bm).
  rewrite u32_small by zlia.
  erewrite bind_ok by reflexivity. fold (bm_length (mem s) bm).
  replace (i / 8 <? bm_length (mem s) bm) with false by zlia.
  destruct (assert_false "lib/bitmap.c" 66 "bitmap_set" "idx < bm->length" s)
    as (s' & E & _ & Em).
  rewrite (bind_panic _ _ _ _ _ E). eauto.
Qed.
End Bits.

(** ** The search *)
Section Scan.
Context {PL : Platform}.
Implicit Types (s : machine) (m : memory).

Lemma bit_in_byte m bm idx o :
  0 <= idx -> 0 <= o < 8 ->
  bit m bm (idx * 8 + o) = Z.testbit (get8 m (bm_bits m bm + idx)) o.
Proof.
  intros. unfold bit. replace ((idx * 8 + o) / 8) with idx by zlia.
  by replace ((idx * 8 + o) mod 8) with o by zlia.
Qed.

(** Every bit below [n] is set. *)
Definition all_set m bm n : Prop := forall j, 0 <= j < n -> bit m bm j = true.

Lemma full_byte_bits m bm idx :
  0 <= idx -> get8 m (bm_bits m bm + idx) = 255 ->
  forall j, idx * 8 <= j < idx * 8 + 8 -> bit m bm j = true.
Proof.
  intros Hidx E j Hj. replace j with (idx * 8 + (j - idx * 8)) by lia.
  rewrite bit_in_byte, E, testbit_255 by lia. done.
Qed.

(** The first loop skips the full bytes. *)
Lemma scan_bytes_loop bm s :
  exists idx, 0 <= idx <= bm_length (mem s) bm /\
    all_set (mem s) bm (8 * idx) /\
    (idx < bm_length (mem s) bm -> get8 (mem s) (bm_bits (mem s) bm + idx) <> 255) /\
    while_ (fun idx =>
      bits ← ld32 (bm + bitmap.bits);
      v ← ld8 (bits + idx);
      len ← ld32 (bm + bitmap.length);
      if (v =? 255) && (idx <? len) then mret (inl (idx + 1)) else mret (inr idx)) 0 s
    = Ok idx s.
Proof.
  pose proof (bm_length_range (mem s) bm) as Hlen.
  match goal with |- context [while_ ?b 0 s] =>
    assert (H : wp (while_ b 0) (fun idx s' => s' = s /\ 0 <= idx <= bm_length (mem s) bm /\
      all_set (mem s) bm (8 * idx) /\
      (idx < bm_length (mem s) bm -> get8 (mem s) (bm_bits (mem s) bm + idx) <> 255)) s)
  end.
  { apply (wp_while _ (fun n idx s' => s' = s /\ n = bm_length (mem s) bm - idx /\
             0 <= idx <= bm_length (mem s) bm /\ all_set (mem s) bm (8 * idx)) _ _)
      with (n := bm_length (mem s) bm); [|lia|split_and!; [done|lia..|]; intros j; lia].
    intros n idx s' _ (-> & -> & Hidx & Hall). wsteps.
    change (get32 (mem s) (bm + bitmap.length)) with (bm_length (mem s) bm).
    change (get32 (mem s) (bm + bitmap.bits)) with (bm_bits (mem s) bm).
    destruct (Z.eqb_spec (get8 (mem s) (bm_bits (mem s) bm + idx)) 255) as [E|E],
      (Z.ltb_spec idx (bm_length (mem s) bm)); cbn [andb]; wstep;
      try (split_and!; [done|lia..|done|]; intros; first [lia|done]).
    exists (bm_length (mem s) bm - (idx + 1)). split_and!; [lia..|done|lia|lia|lia|].
    intros j Hj. destruct (decide (j < 8 * idx)); [apply Hall; lia|].
    apply (full_byte_bits _ _ idx); [lia|done|lia]. }
  apply wp_run in H as (idx & s' & E & -> & Hidx & Hall & Hne). eauto.
Qed.

(** The second loop finds the lowest clear bit of a byte that has one. *)
Lemma scan_bits_loop bm idx s :
  0 <= idx -> get8 (mem s) (bm_bits (mem s) bm + idx) <> 255 ->
  exists o, 0 <= o < 8 /\ bit (mem s) bm (idx * 8 + o) = false /\
    (forall j, idx * 8 <= j < idx * 8 + o -> bit (mem s) bm j = true) /\
    while_ (fun offset =>
      v ← ld8 (bm_bits (mem s) bm + idx);
      if negb (Z.land (u8 (Z.shiftl 1 offset)) v =? 0)
      then mret (inl (offset + 1)) else mret (inr offset)) 0 s
    = Ok o s.
Proof.
  intros Hidx Hne. set (b := get8 (mem s) (bm_bits (mem s) bm + idx)) in *.
  destruct (byte_has_zero b) as (z & Hz & Ez); [apply get8_range|done|].
  match goal with |- context [while_ ?b 0 s] =>
    assert (H : wp (while_ b 0) (fun o s' => s' = s /\ 0 <= o < 8 /\
      bit (mem s) bm (idx * 8 + o) = false /\
      (forall j, idx * 8 <= j < idx * 8 + o -> bit (mem s) bm j = true)) s)
  end.
  { apply (wp_while _ (fun n o s' => s' = s /\ n = z - o /\ 0 <= o <= z /\
             (forall j, idx * 8 <= j < idx * 8 + o -> bit (mem s) bm j = true)) _ _)
      with (n := z); [|lia|split_and!; [done|lia..|]; intros j; lia].
    intros n o s' _ (-> & -> & Ho & Hall). wsteps. fold b.
    rewrite Z.land_comm.
    replace (u8 (Z.shiftl 1 o)) with (Z.shiftl 1 o).
    2:{ rewrite u8_small; [done|]. rewrite Z.shiftl_1_l.
        assert (0 < 2 ^ o) by (apply Z.pow_pos_nonneg; lia).
        assert (2 ^ o <= 2 ^ 7) by (apply Z.pow_le_mono_r; lia).
        change (2 ^ 7) with 128 in *. lia. }
    rewrite land_bit_nonzero, negb_involutive by lia.
    destruct (Z.testbit b o) eqn:Eo; wstep.
    - exists (z - (o + 1)). assert (o <> z) by congruence. split_and!; [lia..|done|lia|lia|lia|].
      intros j Hj. destruct (decide (j < idx * 8 + o)); [apply Hall; lia|].
      replace j with (idx * 8 + o) by lia. by rewrite bit_in_byte by lia.
    - split_and!; [done|lia..| |done]. by rewrite bit_in_byte by lia. }
  apply wp_run in H as (o & s' & E & -> & Ho & Ef & Hall). eauto.
Qed.

(** State of the search for a run after looking at the bits below [nb]: the
    last [count] bits are clear, and every earlier start is blocked. *)
Record searching m bm cnt nb count : Prop := {
  se_count : 0 <= count < cnt;
  se_nb : count <= nb <= nbits m bm;
  se_run : forall j, nb - count <= j < nb -> bit m bm j = false;
  se_blocked : forall p, 0 <= p < nb - count ->
    exists j, p <= j < p + cnt /\ j < nb /\ bit m bm j = true
}.

Lemma searching_init m bm cnt p :
  2 <= cnt -> 0 <= p < nbits m bm -> bit m bm p = false -> all_set m bm p ->
  searching m bm cnt (p + 1) 1.
Proof.
  intros Hc Hp Hf Hall. constructor; [lia|lia| |].
  - intros j Hj. by replace j with p by lia.
  - intros q Hq. exists q. split_and!; [lia..|apply Hall; lia].
Qed.

Lemma searching_used m bm cnt nb count :
  searching m bm cnt nb count -> nb < nbits m bm -> bit m bm nb = true ->
  searching m bm cnt (nb + 1) 0.
Proof.
  intros [Hc Hn Hr Hb] Hlt Hset. constructor; [lia..|lia|].
  intros p Hp. destruct (decide (p < nb - count)) as [Hlow|].
  - destruct (Hb p) as (j & Hj1 & Hj2 & Hj3); [lia|]. exists j. split_and!; [lia..|done].
  - exists nb. split_and!; [lia..|done].
Qed.

Lemma searching_clear m bm cnt nb count :
  searching m bm cnt nb count -> nb < nbits m bm -> bit m bm nb = false ->
  (count + 1 = cnt -> first_fit m bm cnt (nb - cnt + 1)) /\
  (count + 1 <> cnt -> searching m bm cnt (nb + 1) (count + 1)).
Proof.
  intros [Hc Hn Hr Hb] Hlt Hclear. split; intros Hcnt.
  - split; [split_and!; [lia|lia|]|].
    + intros j Hj. destruct (decide (j = nb)) as [->|]; [done|]. apply Hr. lia.
    + intros q (Hq0 & Hq1 & Hq2).
      destruct (decide (q < nb - count)) as [Hlow|]; [|lia].
      destruct (Hb q) as (j & Hj1 & Hj2 & Hj3); [lia|]. rewrite Hq2 in Hj3 by lia. done.
  - constructor; [lia..| |].
    + intros j Hj. destruct (decide (j = nb)) as [->|]; [done|]. apply Hr. lia.
    + intros p Hp. destruct (Hb p) as (j & Hj1 & Hj2 & Hj3); [lia|].
      exists j. split_and!; [lia..|done].
Qed.

Lemma searching_exhausted m bm cnt count :
  searching m bm cnt (nbits m bm) count -> forall q, ~ free_run m bm q cnt.
Proof.
  intros [Hc Hn Hr Hb] q (Hq0 & Hq1 & Hq2).
  destruct (Hb q) as (j & Hj1 & Hj2 & Hj3); [lia|]. rewrite Hq2 in Hj3 by lia. done.
Qed.

(** The search for a run either finds the first fit, or walks off the end of
    the bitmap into the assertion of [bitmap_has]. *)
Definition scan_failed m bm cnt (msg : string) s' : Prop :=
  msg = "idx < bm->length"%string /\ mem s' = m /\ forall q, ~ free_run m bm q cnt.

Lemma scan_run_loop bm cnt p s :
  let m := mem s in
  nbits m bm < 2 ^ 31 -> 2 <= cnt -> 0 <= p -> searching m bm cnt (p + 1) 1 ->
  wpx (while_ (fun '(left_, next_bit, count) =>
        if 0 <? left_ then
          has ← bitmap_has bm next_bit;
          let count := if negb has then u32 (count + 1) else 0 in
          if count =? cnt then mret (inr (s32 (next_bit - cnt + 1)))
          else mret (inl (left_ - 1, u32 (next_bit + 1), count))
        else mret (inr (-1))) (nbits m bm + 1, p + 1, 1))
    (fun p' s' => s' = s /\ first_fit m bm cnt p') (scan_failed m bm cnt) s.
Proof.
  intros m Hn Hc Hp Hs0. subst m.
  apply (wp_while _ (fun n '(left_, nb, count) s' => s' = s /\ n = left_ /\
    left_ = nbits (mem s) bm + 1 - (nb - (p + 1)) /\ p + 1 <= nb /\
    searching (mem s) bm cnt nb count) _ _) with (n := nbits (mem s) bm + 1);
    [|pose proof (se_nb _ _ _ _ _ Hs0); lia|split_and!; [done|done|lia|lia|done]].
  intros n [[left_ nb] count] s' _ (-> & -> & -> & Hnb & Hs).
  pose proof (se_nb _ _ _ _ _ Hs) as Hnb'. pose proof (se_count _ _ _ _ _ Hs) as Hcnt.
  rewrite (proj2 (Z.ltb_lt 0 _)) by lia.
  destruct (decide (nb = nbits (mem s) bm)) as [->|Hlt].
  - destruct (bitmap_has_panics bm (nbits (mem s) bm) s) as (s' & E & Em); [zlia|].
    apply wp_bind. eapply wp_panics; [exact E|]. split_and!; [done..|].
    by apply (searching_exhausted _ _ _ count).
  - apply wp_bind. eapply wp_ok; [apply bitmap_has_run; zlia|].
    destruct (bit (mem s) bm nb) eqn:Eb; cbn [negb].
    + rewrite (proj2 (Z.eqb_neq 0 cnt)) by lia. wstep. rewrite u32_small by zlia.
      eexists. split; [|split_and!; [done|done|lia|lia|]]; [lia|].
      by apply (searching_used _ _ _ _ count); [|lia|].
    + destruct (searching_clear _ _ _ _ _ Hs ltac:(lia) Eb) as [Hfin Hgo].
      rewrite (u32_small (count + 1)) by zlia.
      destruct (Z.eqb_spec (count + 1) cnt) as [E|E]; wstep.
      * split; [done|]. rewrite s32_small by zlia. by apply Hfin.
      * rewrite u32_small by zlia.
        eexists. split; [|split_and!; [done|done|lia|lia|by apply Hgo]]. lia.
Qed.

(** Outcome of [bitmap_scan] on a bitmap with a clear bit. *)
Lemma bitmap_scan_outcome bm cnt j0 s :
  let m := mem s in
  nbits m bm < 2 ^ 31 -> 1 <= cnt -> 0 <= j0 < nbits m bm -> bit m bm j0 = false ->
  wpx (bitmap_scan bm cnt) (fun p s' => s' = s /\ first_fit m bm cnt p)
    (fun msg s' => 2 <= cnt /\ scan_failed m bm cnt msg s') s.
Proof.
  intros m Hn Hc Hj0 Hfree. subst m. unfold bitmap_scan.
  destruct (scan_bytes_loop bm s) as (idx & Hidx & Hall & Hne & E).
  apply wp_bind. eapply wp_ok; [exact E|]. cbv beta. wstep. wstep.
  change (get32 (mem s) (bm + bitmap.length)) with (bm_length (mem s) bm).
  assert (idx < bm_length (mem s) bm).
  { destruct (decide (idx = bm_length (mem s) bm)) as [->|]; [|lia].
    unfold nbits in Hj0. rewrite Hall in Hfree by lia. done. }
  rewrite (proj2 (Z.eqb_neq idx _)) by lia. wstep. wstep.
  change (get32 (mem s) (bm + bitmap.bits)) with (bm_bits (mem s) bm).
  destruct (scan_bits_loop bm idx s) as (o & Ho & Ef & Hset & E2); [lia|apply Hne; lia|].
  apply wp_bind. eapply wp_ok; [exact E2|]. cbv beta zeta.
  assert (Hp : 0 <= idx * 8 + o < nbits (mem s) bm) by (unfold nbits; lia).
  assert (Hlow : all_set (mem s) bm (idx * 8 + o)).
  { intros j Hj. destruct (decide (j < 8 * idx)); [apply Hall; lia|apply Hset; lia]. }
  rewrite s32_small by zlia.
  destruct (Z.eqb_spec cnt 1) as [->|Hc1].
  - wstep. split; [done|]. split; [split_and!; [lia|lia|]|].
    + intros j Hj. by replace j with (idx * 8 + o) by lia.
    + intros q (Hq0 & Hq1 & Hq2). destruct (decide (q < idx * 8 + o)) as [Hlt|]; [|lia].
      specialize (Hq2 q ltac:(lia)). rewrite Hlow in Hq2 by lia. done.
  - wstep. wstep. change (get32 (mem s) (bm + bitmap.length)) with (bm_length (mem s) bm).
    replace (u32 (bm_length (mem s) bm * 8 - -1)) with (nbits (mem s) bm + 1)
      by (unfold nbits in *; rewrite u32_small by zlia; lia).
    rewrite u32_small by zlia.
    pose proof (scan_run_loop bm cnt (idx * 8 + o) s Hn ltac:(lia) ltac:(lia)
      (searching_init (mem s) bm cnt (idx * 8 + o) ltac:(lia) Hp Ef Hlow)) as Hrun.
    eapply wpx_mono; [exact Hrun|done|]. intros msg s' Hf. split; [lia|exact Hf].
Qed.

Lemma bitmap_scan_full_run bm cnt s :
  all_set (mem s) bm (nbits (mem s) bm) -> bitmap_scan bm cnt s = Ok (-1) s.
Proof.
  intros Hall. unfold bitmap_scan.
  destruct (scan_bytes_loop bm s) as (idx & Hidx & _ & Hne & E).
  rewrite (bind_ok _ _ _ _ _ E). erewrite bind_ok by reflexivity.
  change (get32 (mem s) (bm + bitmap.length)) with (bm_length (mem s) bm).
  destruct (Z.eqb_spec idx (bm_length (mem s) bm)) as [_|Hidx']; [done|].
  destruct Hne; [lia|]. apply byte_ff; [apply get8_range|].
  intros o Ho. rewrite <- bit_in_byte by lia. apply Hall. unfold nbits. lia.
Qed.

(** With a run of [cnt] clear bits. *)
Lemma bitmap_scan_run bm cnt q s :
  nbits (mem s) bm < 2 ^ 31 -> 1 <= cnt -> free_run (mem s) bm q cnt ->
  exists p, bitmap_scan bm cnt s = Ok p s /\ first_fit (mem s) bm cnt p.
Proof.
  intros Hn Hc Hq. pose proof Hq as (Hq0 & Hq1 & Hq2).
  destruct (wpx_run _ _ _ _
    (bitmap_scan_outcome bm cnt q s Hn Hc ltac:(lia) ltac:(apply Hq2; lia)))
    as [(p & s' & E & -> & Hp)|(msg & s' & _ & _ & _ & _ & Hno)]; [by eauto|].
  by destruct (Hno q).
Qed.

(** C11: [bitmap_scan] is a first-fit search: when [cnt] consecutive clear bits
    exist it returns the lowest place where they do, changing nothing. *)
Theorem bitmap_scan_first_fit bm cnt q s :
  nbits (mem s) bm < 2 ^ 31 -> 1 <= cnt -> free_run (mem s) bm q cnt ->
  exists p, bitmap_scan bm cnt s = Ok p s /\ first_fit (mem s) bm cnt p.
Proof. apply bitmap_scan_run. Qed.

(** A full bitmap is reported as -1, for any [cnt]. *)
Theorem bitmap_scan_full bm cnt s :
  (forall j, 0 <= j < nbits (mem s) bm -> bit (mem s) bm j = true) ->
  bitmap_scan bm cnt s = Ok (-1) s.
Proof. apply bitmap_scan_full_run. Qed.

(** When there is a clear bit but no run of [cnt >= 2] of them, the search
    does not return -1: it runs past the last bit and the kernel panics. *)
Theorem bitmap_scan_panics_without_run bm cnt j s :
  nbits (mem s) bm < 2 ^ 31 -> 2 <= cnt ->
  0 <= j < nbits (mem s) bm -> bit (mem s) bm j = false ->
  (forall q, ~ free_run (mem s) bm q cnt) ->
  exists s', bitmap_scan bm cnt s = Panic "idx < bm->length" s' /\ mem s' = mem s.
Proof.
  intros Hn Hc Hj Hf Hno.
  destruct (wpx_run _ _ _ _ (bitmap_scan_outcome bm cnt j s Hn ltac:(lia) Hj Hf))
    as [(p & s' & _ & _ & Hp & _)|(msg & s' & E & _ & -> & Em & _)]; [by destruct (Hno p)|].
  by eauto.
Qed.

(** A search that finds nothing: -1 when all bits are set; but when some bit is
    clear and no run is long enough, the search does not return -1: it runs
    past the last bit and the kernel panics. *)
Theorem bitmap_scan_without_run bm cnt s :
  ((forall j, 0 <= j < nbits (mem s) bm -> bit (mem s) bm j = true) ->
     bitmap_scan bm cnt s = Ok (-1) s) /\
  (nbits (mem s) bm < 2 ^ 31 -> 2 <= cnt ->
     forall j, 0 <= j < nbits (mem s) bm -> bit (mem s) bm j = false ->
     (forall q, ~ free_run (mem s) bm q cnt) ->
     exists s', bitmap_scan bm cnt s = Panic "idx < bm->length" s' /\ mem s' = mem s).
Proof. split; [apply bitmap_scan_full|]. intros Hn Hc j. by apply bitmap_scan_panics_without_run. Qed.
End Scan.

(** ** Set and clear *)
Section BitContract.
Context {PL : Platform}.

(** [bitmap_set] adds exactly one element to the set of set bits,
    [bitmap_clear] removes exactly one, and [bitmap_has] decides membership;
    the header of the bitmap is left alone. *)
Theorem bitmap_bits_correct bm i s :
  bitmap_ok (mem s) bm -> 0 <= i < nbits (mem s) bm ->
  bitmap_has bm i s = Ok (bit (mem s) bm i) s /\
  (exists s1, bitmap_set bm i s = Ok tt s1 /\ bitmap_ok (mem s1) bm /\
     nbits (mem s1) bm = nbits (mem s) bm /\
     forall j, 0 <= j -> bit (mem s1) bm j = (i =? j) || bit (mem s) bm j) /\
  (exists s2, bitmap_clear bm i s = Ok tt s2 /\ bitmap_ok (mem s2) bm /\
     nbits (mem s2) bm = nbits (mem s) bm /\
     forall j, 0 <= j -> bit (mem s2) bm j = negb (i =? j) && bit (mem s) bm j).
Proof.
  intros Hok Hi. pose proof (ok_nbits _ _ Hok). split_and!.
  - apply bitmap_has_run; zlia.
  - rewrite bitmap_set_run by done. eexists. split; [done|]. cbn.
    split; [by apply bm_write_ok|]. split; [by apply bm_write_nbits|].
    intros. by apply bit_bm_set.
  - rewrite bitmap_clear_run by done. eexists. split; [done|]. cbn.
    split; [by apply bm_write_ok|]. split; [by apply bm_write_nbits|].
    intros. by apply bit_bm_clear.
Qed.
End BitContract.

(** ** Concrete instances *)

(** A one-byte bitmap at 0x1000 with bits 0 and 2 set. *)
Definition demo_bitmap : memory := put8 (put32 (put32 ∅ 0x1000 1) 0x1004 0x2000) 0x2000 5.

Lemma demo_free_run p cnt :
  0 <= p -> p + cnt <= 8 -> p = 1 /\ cnt = 1 \/ 3 <= p -> free_run demo_bitmap 0x1000 p cnt.
Proof.
  intros Hp Hc Hcase. split; [done|]. change (nbits demo_bitmap 0x1000) with 8. split; [done|].
  intros j Hj. assert (j = 1 \/ j = 3 \/ j = 4 \/ j = 5 \/ j = 6 \/ j = 7) as Hjs by lia.
  by destruct Hjs as [->|[->|[->|[->|[->| ->]]]]].
Qed.

Lemma bitmap_scan_first_fit_witness :
  exists p, bitmap_scan 0x1000 2 (demo_machine demo_bitmap) = Ok p (demo_machine demo_bitmap) /\
    first_fit demo_bitmap 0x1000 2 p.
Proof.
  apply (bitmap_scan_first_fit 0x1000 2 4 (demo_machine demo_bitmap));
    [vm_compute; done|lia|apply demo_free_run; lia].
Defined.

Lemma bitmap_scan_full_witness :
  bitmap_scan 0x1000 3 (demo_machine (put8 demo_bitmap 0x2000 255))
    = Ok (-1) (demo_machine (put8 demo_bitmap 0x2000 255)).
Proof.
  apply bitmap_scan_full. change (nbits _ 0x1000) with 8. intros j Hj.
  assert (j = 0 \/ j = 1 \/ j = 2 \/ j = 3 \/ j = 4 \/ j = 5 \/ j = 6 \/ j = 7) as Hjs by lia.
  by destruct Hjs as [->|[->|[->|[->|[->|[->|[->| ->]]]]]]].
Defined.

Lemma bitmap_scan_panics_without_run_witness :
  exists s', bitmap_scan 0x1000 6 (demo_machine demo_bitmap) = Panic "idx < bm->length" s' /\
    mem s' = demo_bitmap.
Proof.
  apply (bitmap_scan_panics_without_run 0x1000 6 1 (demo_machine demo_bitmap));
    [vm_compute; done|lia|vm_compute; intuition congruence|done|].
  intros q (Hq0 & Hq1 & Hq2). change (nbits _ 0x1000) with 8 in Hq1.
  specialize (Hq2 2 ltac:(lia)). discriminate Hq2.
Defined.

Lemma bitmap_scan_without_run_witness :
  bitmap_scan 0x1000 3 (demo_machine (put8 demo_bitmap 0x2000 255))
    = Ok (-1) (demo_machine (put8 demo_bitmap 0x2000 255)) /\
  exists s', bitmap_scan 0x1000 6 (demo_machine demo_bitmap) = Panic "idx < bm->length" s' /\
    mem s' = demo_bitmap.
Proof.
  split.
  - apply (proj1 (bitmap_scan_without_run 0x1000 3 _)). change (nbits _ 0x1000) with 8. intros j Hj.
    assert (j = 0 \/ j = 1 \/ j = 2 \/ j = 3 \/ j = 4 \/ j = 5 \/ j = 6 \/ j = 7) as Hjs by lia.
    by destruct Hjs as [->|[->|[->|[->|[->|[->|[->| ->]]]]]]].
  - apply (proj2 (bitmap_scan_without_run 0x1000 6 (demo_machine demo_bitmap))) with (j := 1);
      [vm_compute; done|lia|vm_compute; intuition congruence|done|].
    intros q (Hq0 & Hq1 & Hq2). change (nbits _ 0x1000) with 8 in Hq1.
    specialize (Hq2 2 ltac:(lia)). discriminate Hq2.
Defined.

Lemma bitmap_bits_correct_witness :
  bitmap_has 0x1000 1 (demo_machine demo_bitmap) = Ok false (demo_machine demo_bitmap) /\
  (exists s1, bitmap_set 0x1000 1 (demo_machine demo_bitmap) = Ok tt s1 /\
     bitmap_ok (mem s1) 0x1000 /\ nbits (mem s1) 0x1000 = 8 /\
     forall j, 0 <= j -> bit (mem s1) 0x1000 j = (1 =? j) || bit demo_bitmap 0x1000 j) /\
  (exists s2, bitmap_clear 0x1000 1 (demo_machine demo_bitmap) = Ok tt s2 /\
     bitmap_ok (mem s2) 0x1000 /\ nbits (mem s2) 0x1000 = 8 /\
     forall j, 0 <= j -> bit (mem s2) 0x1000 j = negb (1 =? j) && bit demo_bitmap 0x1000 j).
Proof.
  apply (bitmap_bits_correct 0x1000 1 (demo_machine demo_bitmap)).
  - constructor; [done|]. left. vm_compute. congruence.
  - vm_compute. intuition congruence.
Defined.
