(* ===== verification/DList.v ===== *)
(** * lib/list.c

    Intrusive doubly linked lists with two sentinel nodes.  A node is two
    words, [prev] at offset 0 and [next] at offset 4; a list is its [head]
    node at offset 0 and its [tail] node at offset 8.  [dlist m l ns]: the
    list at [l] holds exactly the nodes [ns], in this order. *)

From S2P Require Import Prelude Machine Concrete Interrupt CString.

#[local] Open Scope Z_scope.

Module list_node.
Definition prev : Z := 0.
Definition next : Z := 4.
Definition sizeof : Z := 8.
End list_node.

Module list.
Definition head : Z := 0.
Definition tail : Z := 8.
Definition sizeof : Z := 16.
End list.

Section DList.
Context {PL : Platform}.

Definition list_init (l : Z) : K unit :=
  st32 (l + list.head + list_node.next) (l + list.tail);;
  st32 (l + list.head + list_node.prev) NULL;;
  st32 (l + list.tail + list_node.prev) (l + list.head);;
  st32 (l + list.tail + list_node.next) NULL.

Definition list_insert_before (target node : Z) : K unit :=
  status ← INTERRUPT_DISABLE;
  p ← ld32 (target + list_node.prev);
  st32 (p + list_node.next) node;;
  st32 (node + list_node.next) target;;
  p ← ld32 (target + list_node.prev);
  st32 (node + list_node.prev) p;;
  st32 (target + list_node.prev) node;;
  INTERRUPT_RESTORE status.

Definition list_push_front (l node : Z) : K unit :=
  first ← ld32 (l + list.head + list_node.next);
  list_insert_before first node.

Definition list_push_back (l node : Z) : K unit :=
  list_insert_before (l + list.tail) node.

Definition list_remove (node : Z) : K unit :=
  status ← INTERRUPT_DISABLE;
  p ← ld32 (node + list_node.prev);
  n ← ld32 (node + list_node.next);
  st32 (p + list_node.next) n;;
  n ← ld32 (node + list_node.next);
  p ← ld32 (node + list_node.prev);
  st32 (n + list_node.prev) p;;
  INTERRUPT_RESTORE status.

Definition list_size (l : Z) : K Z :=
  curr ← ld32 (l + list.head + list_node.next);
  while_ (fun '(curr, result) =>
    if negb (curr =? l + list.tail) then
      next ← ld32 (curr + list_node.next);
      mret (inl (next, u32 (result + 1)))
    else mret (inr result)) (curr, 0).

Definition list_pop_front (l : Z) : K Z :=
  node ← ld32 (l + list.head + list_node.next);
  if node =? l + list.tail then mret NULL
  else list_remove node;; mret node.

Definition list_pop_back (l : Z) : K Z :=
  node ← ld32 (l + list.tail + list_node.prev);
  if node =? l + list.head then mret NULL
  else list_remove node;; mret node.

Definition list_traversal (l : Z) (func : Z -> Z -> K bool) (arg : Z) : K Z :=
  node ← ld32 (l + list.head + list_node.next);
  while_ (fun node =>
    if negb (node =? l + list.tail) then
      b ← func node arg;
      if (b : bool) then mret (inr node)
      else next ← ld32 (node + list_node.next); mret (inl next)
    else mret (inr NULL)) node.

Definition list_exist (l node : Z) : K bool :=
  curr ← ld32 (l + list.head + list_node.next);
  while_ (fun curr =>
    if negb (curr =? l + list.tail) then
      if curr =? node then mret (inr true)
      else next ← ld32 (curr + list_node.next); mret (inl next)
    else mret (inr false)) curr.

Definition list_empty (l : Z) : K bool :=
  n ← ld32 (l + list.head + list_node.next);
  mret (n =? l + list.tail).
End DList.

(** ** Representation *)

Definition prev_of (m : memory) (n : Z) : Z := get32 m (n + list_node.prev).
Definition next_of (m : memory) (n : Z) : Z := get32 m (n + list_node.next).

(** Consecutive nodes point at each other. *)
Fixpoint linked (m : memory) (xs : list Z) : Prop :=
  match xs with
  | a :: ((b :: _) as t) => next_of m a = b /\ prev_of m b = a /\ linked m t
  | _ => True
  end.

(** Two nodes that share no byte. *)
Definition apart (a b : Z) : Prop :=
  a + list_node.sizeof <= b \/ b + list_node.sizeof <= a.

#[export] Instance apart_sym : Symmetric apart.
Proof. intros a b. unfold apart. lia. Qed.

Definition is_node (a : Z) : Prop := 0 <= a /\ a + list_node.sizeof <= 2 ^ 32.

(** Nodes pairwise apart, at addresses of the machine. *)
Fixpoint all_apart (xs : list Z) : Prop :=
  match xs with
  | [] => True
  | a :: t => is_node a /\ Forall (apart a) t /\ all_apart t
  end.

Definition with_ends (l : Z) (ns : list Z) : list Z :=
  (l + list.head) :: ns ++ [l + list.tail].

Record dlist (m : memory) (l : Z) (ns : list Z) : Prop := {
  dl_linked : linked m (with_ends l ns);
  dl_apart : all_apart (with_ends l ns)
}.

(** The bytes of a set of nodes. *)
Definition node_bytes (xs : list Z) (b : Z) : Prop :=
  Exists (fun x => x <= b < x + list_node.sizeof) xs.

Ltac nodes :=
  unfold apart, is_node, prev_of, next_of in *;
  unfold list_node.prev, list_node.next, list_node.sizeof, list.head, list.tail, list.sizeof in *;
  change (2 ^ 32) with 4294967296 in *.

(** ** Facts about separated nodes *)

#[export] Instance all_apart_perm : Proper ((≡ₚ) ==> iff) all_apart.
Proof.
  assert (H : forall xs ys, xs ≡ₚ ys -> all_apart xs -> all_apart ys).
  { induction 1 as [|x xs ys Hp IH|x y xs|xs ys zs _ IH1 _ IH2]; simpl; auto.
    - intros (Hn & Hf & Ha). split_and!; [done| |auto]. by rewrite <- Hp.
    - rewrite !Forall_cons. intros (Hy & (Hyx & Hfy) & Hx & Hfx & Ha).
      split_and!; done. }
  intros xs ys Hp. split; by apply H.
Qed.

Lemma all_apart_app xs ys :
  all_apart (xs ++ ys) <->
  all_apart xs /\ all_apart ys /\ Forall (fun x => Forall (apart x) ys) xs.
Proof.
  induction xs as [|x xs IH]; simpl.
  - split; [by intros|tauto].
  - rewrite IH, Forall_app, Forall_cons. tauto.
Qed.

Lemma all_apart_in xs a b : all_apart xs -> a ∈ xs -> b ∈ xs -> a <> b -> apart a b.
Proof.
  induction xs as [|x xs IH]; simpl; intros Ha Hin1 Hin2 Hne.
  - by apply not_elem_of_nil in Hin1.
  - destruct Ha as (_ & Hf & Ha). rewrite Forall_forall in Hf.
    apply elem_of_cons in Hin1 as [->|Hin1]; apply elem_of_cons in Hin2 as [->|Hin2].
    + done.
    + by apply Hf.
    + symmetry. by apply Hf.
    + by apply IH.
Qed.

Lemma all_apart_node xs a : all_apart xs -> a ∈ xs -> is_node a.
Proof.
  induction xs as [|x xs IH]; simpl; intros Ha Hin; [by apply not_elem_of_nil in Hin|].
  apply elem_of_cons in Hin as [->|Hin]; [tauto|]. apply IH; tauto.
Qed.

Lemma apart_ne a b : apart a b -> a <> b.
Proof. nodes. lia. Qed.

Lemma all_apart_NoDup xs : all_apart xs -> NoDup xs.
Proof.
  induction xs as [|x xs IH]; simpl; [constructor|]. intros (_ & Hf & Ha).
  constructor; [|auto]. intros Hin. rewrite Forall_forall in Hf.
  by apply (apart_ne x x (Hf x Hin)).
Qed.

(** ** Writing one pointer of a node leaves the other nodes alone *)

Lemma prev_of_put m w v x y :
  (w = y + list_node.prev \/ w = y + list_node.next) -> apart x y ->
  prev_of (put32 m w v) x = prev_of m x.
Proof. nodes. intros [-> | ->] H; apply get32_put32_ne; lia. Qed.
Lemma next_of_put m w v x y :
  (w = y + list_node.prev \/ w = y + list_node.next) -> apart x y ->
  next_of (put32 m w v) x = next_of m x.
Proof. nodes. intros [-> | ->] H; apply get32_put32_ne; lia. Qed.
Lemma prev_of_put_prev m x v :
  0 <= v < 2 ^ 32 -> prev_of (put32 m (x + list_node.prev) v) x = v.
Proof. intros. nodes. by rewrite get32_put32_eq, u32_small. Qed.
Lemma next_of_put_next m x v :
  0 <= v < 2 ^ 32 -> next_of (put32 m (x + list_node.next) v) x = v.
Proof. intros. nodes. by rewrite get32_put32_eq, u32_small. Qed.
Lemma prev_of_put_next m x v : prev_of (put32 m (x + list_node.next) v) x = prev_of m x.
Proof. nodes. apply get32_put32_ne. lia. Qed.
Lemma next_of_put_prev m x v : next_of (put32 m (x + list_node.prev) v) x = next_of m x.
Proof. nodes. apply get32_put32_ne. lia. Qed.

(** ** Chains *)

Lemma linked_app m xs a ys :
  linked m (xs ++ a :: ys) <-> linked m (xs ++ [a]) /\ linked m (a :: ys).
Proof.
  induction xs as [|x xs IH]; [cbn; tauto|].
  destruct xs as [|y xs]; [cbn in *; tauto|].
  cbn [app linked] in *. rewrite IH. tauto.
Qed.

Lemma linked_cons m a b xs :
  linked m (a :: b :: xs) <-> next_of m a = b /\ prev_of m b = a /\ linked m (b :: xs).
Proof. done. Qed.

(** A chain only depends on the [next] of all nodes but the last and on the
    [prev] of all nodes but the first. *)
Lemma linked_ext m m' xs :
  (forall a, a ∈ removelast xs -> next_of m' a = next_of m a) ->
  (forall b, b ∈ tl xs -> prev_of m' b = prev_of m b) ->
  linked m xs -> linked m' xs.
Proof.
  induction xs as [|a [|b xs] IH]; intros Hn Hp; [done|done|].
  rewrite !linked_cons. intros (E1 & E2 & H).
  change (removelast (a :: b :: xs)) with (a :: removelast (b :: xs)) in Hn.
  rewrite Hn by by left. rewrite Hp by by left. split_and!; [done..|].
  apply IH; [| |done].
  - intros x Hx. apply Hn. by right.
  - intros x Hx. apply Hp. by right.
Qed.

Lemma removelast_snoc (xs : list Z) a : removelast (xs ++ [a]) = xs.
Proof.
  induction xs as [|x xs IH]; [done|]. cbn [app removelast].
  destruct (xs ++ [a]) eqn:E; [by destruct xs|]. by rewrite IH.
Qed.

Lemma linked_ends m xs a b ys :
  linked m (xs ++ a :: b :: ys) <->
  linked m (xs ++ [a]) /\ next_of m a = b /\ prev_of m b = a /\ linked m (b :: ys).
Proof. by rewrite linked_app, linked_cons. Qed.

(** Changing pointers between [a] and [b] keeps the chain before [a] and the
    chain after [b]. *)
Lemma linked_prefix m m' xs a :
  (forall x, x ∈ xs -> next_of m' x = next_of m x) ->
  (forall x, x ∈ xs -> prev_of m' x = prev_of m x) -> prev_of m' a = prev_of m a ->
  linked m (xs ++ [a]) -> linked m' (xs ++ [a]).
Proof.
  intros Hn Hp Ha. apply linked_ext; rewrite ?removelast_snoc; [done|].
  intros x Hx. assert (x ∈ xs ++ [a]) as Hin.
  { destruct xs; simpl in *; [by apply not_elem_of_nil in Hx|by right]. }
  apply elem_of_app in Hin as [?| ->%list_elem_of_singleton]; auto.
Qed.

Lemma linked_suffix m m' b ys :
  next_of m' b = next_of m b ->
  (forall y, y ∈ ys -> next_of m' y = next_of m y) ->
  (forall y, y ∈ ys -> prev_of m' y = prev_of m y) ->
  linked m (b :: ys) -> linked m' (b :: ys).
Proof.
  intros Hb Hn Hp. apply linked_ext; simpl; [|done].
  intros x Hx. assert (x ∈ b :: ys) as Hin.
  { clear -Hx. revert b Hx. induction ys as [|y ys IH]; intros b Hx; simpl in *.
    - by apply not_elem_of_nil in Hx.
    - apply elem_of_cons in Hx as [->|Hx]; [by left|]. right. by apply IH. }
  apply elem_of_cons in Hin as [->|?]; auto.
Qed.

(** ** Insertion and removal as memory updates *)

Definition insert_mem (m : memory) (p n t : Z) : memory :=
  put32 (put32 (put32 (put32 m (p + list_node.next) n)
    (n + list_node.next) t) (n + list_node.prev) p) (t + list_node.prev) n.

Definition remove_mem (m : memory) (p x : Z) : memory :=
  put32 (put32 m (p + list_node.next) x) (x + list_node.prev) p.

Lemma insert_mem_other m p n t x :
  apart x p -> apart x n -> apart x t ->
  next_of (insert_mem m p n t) x = next_of m x /\
  prev_of (insert_mem m p n t) x = prev_of m x.
Proof.
  intros Hp Hn Ht. unfold insert_mem. split.
  - rewrite (next_of_put _ _ _ x t), (next_of_put _ _ _ x n), (next_of_put _ _ _ x n),
      (next_of_put _ _ _ x p) by auto. done.
  - rewrite (prev_of_put _ _ _ x t), (prev_of_put _ _ _ x n), (prev_of_put _ _ _ x n),
      (prev_of_put _ _ _ x p) by auto. done.
Qed.

Lemma remove_mem_other m p y x :
  apart x p -> apart x y ->
  next_of (remove_mem m p y) x = next_of m x /\ prev_of (remove_mem m p y) x = prev_of m x.
Proof.
  intros Hp Hy. unfold remove_mem. split.
  - rewrite (next_of_put _ _ _ x y), (next_of_put _ _ _ x p) by auto. done.
  - rewrite (prev_of_put _ _ _ x y), (prev_of_put _ _ _ x p) by auto. done.
Qed.

Lemma insert_mem_new m p n t :
  is_node p -> is_node n -> is_node t -> apart p n -> apart p t -> apart n t ->
  let m' := insert_mem m p n t in
  next_of m' p = n /\ prev_of m' n = p /\ next_of m' n = t /\ prev_of m' t = n /\
  prev_of m' p = prev_of m p /\ next_of m' t = next_of m t.
Proof.
  intros ?????? m'. subst m'. unfold insert_mem. nodes.
  rewrite !(get32_put32_ne _ _ _ (p + 4)), !(get32_put32_ne _ _ _ (p + 0)),
    !(get32_put32_ne _ _ _ (t + 4)) by lia.
  rewrite (get32_put32_ne _ (t + 0) _ (n + 0)), (get32_put32_ne _ (t + 0) _ (n + 4)),
    (get32_put32_ne _ (n + 0) _ (n + 4)) by lia.
  rewrite !get32_put32_eq, !u32_small by lia. done.
Qed.

Lemma remove_mem_new m p x :
  is_node p -> is_node x -> apart p x ->
  let m' := remove_mem m p x in
  next_of m' p = x /\ prev_of m' x = p /\
  prev_of m' p = prev_of m p /\ next_of m' x = next_of m x.
Proof.
  intros ??? m'. subst m'. unfold remove_mem. nodes.
  rewrite !(get32_put32_ne _ _ _ (p + 0)), !(get32_put32_ne _ _ _ (x + 4)) by lia.
  rewrite (get32_put32_ne _ (x + 0) _ (p + 4)) by lia.
  rewrite !get32_put32_eq, !u32_small by lia. done.
Qed.

Lemma insert_mem_frame m p n t :
  changed_only (node_bytes [p; n; t]) m (insert_mem m p n t).
Proof.
  intros b Hb. unfold node_bytes in Hb. rewrite !Exists_cons, Exists_nil in Hb.
  unfold insert_mem. nodes. rewrite !get8_put32_ne by lia. done.
Qed.
Lemma remove_mem_frame m p x : changed_only (node_bytes [p; x]) m (remove_mem m p x).
Proof.
  intros b Hb. unfold node_bytes in Hb. rewrite !Exists_cons, Exists_nil in Hb.
  unfold remove_mem. nodes. rewrite !get8_put32_ne by lia. done.
Qed.

Lemma insert_mem_linked m xs p n t ys :
  all_apart (xs ++ p :: n :: t :: ys) ->
  linked m (xs ++ p :: t :: ys) -> linked (insert_mem m p n t) (xs ++ p :: n :: t :: ys).
Proof.
  intros Ha (H1 & _ & _ & H4)%linked_ends.
  pose proof Ha as (Hxs & (Np & Fp & Nn & Fn & Nt & Ft & _) & Hx)%all_apart_app.
  apply Forall_cons in Fp as [Apn Fp]. apply Forall_cons in Fp as [Apt Fp].
  apply Forall_cons in Fn as [Ant Fn].
  destruct (insert_mem_new m p n t) as (E1 & E2 & E3 & E4 & E5 & E6); [done..|].
  assert (Hox : forall x, x ∈ xs -> next_of (insert_mem m p n t) x = next_of m x /\
                             prev_of (insert_mem m p n t) x = prev_of m x).
  { intros x Hin. pose proof (Forall_in _ _ _ Hx Hin) as Hf. rewrite !Forall_cons in Hf.
    destruct Hf as (? & ? & ? & _). by apply insert_mem_other. }
  assert (Hoy : forall y, y ∈ ys -> next_of (insert_mem m p n t) y = next_of m y /\
                             prev_of (insert_mem m p n t) y = prev_of m y).
  { intros y Hin. apply insert_mem_other; symmetry; by eapply Forall_in. }
  apply linked_app. split; [apply (linked_prefix m); [apply Hox|apply Hox|done|done]|].
  rewrite !linked_cons. split_and!; try done.
  apply (linked_suffix m); [done|apply Hoy|apply Hoy|done].
Qed.

Lemma remove_mem_linked m xs p n x ys :
  all_apart (xs ++ p :: n :: x :: ys) ->
  linked m (xs ++ p :: n :: x :: ys) -> linked (remove_mem m p x) (xs ++ p :: x :: ys).
Proof.
  intros Ha (H1 & _ & _ & (_ & _ & H4))%linked_ends.
  pose proof Ha as (Hxs & (Np & Fp & Nn & Fn & Nx & Fx & _) & Hx)%all_apart_app.
  apply Forall_cons in Fp as [_ Fp]. apply Forall_cons in Fp as [Apx Fp].
  destruct (remove_mem_new m p x) as (E1 & E2 & E3 & E4); [done..|].
  assert (Hox : forall y, y ∈ xs -> next_of (remove_mem m p x) y = next_of m y /\
                             prev_of (remove_mem m p x) y = prev_of m y).
  { intros y Hin. pose proof (Forall_in _ _ _ Hx Hin) as Hf. rewrite !Forall_cons in Hf.
    destruct Hf as (? & _ & ? & _). by apply remove_mem_other. }
  assert (Hoy : forall y, y ∈ ys -> next_of (remove_mem m p x) y = next_of m y /\
                             prev_of (remove_mem m p x) y = prev_of m y).
  { intros y Hin. apply remove_mem_other; symmetry; by eapply Forall_in. }
  apply linked_app. split; [apply (linked_prefix m); [apply Hox|apply Hox|done|done]|].
  rewrite !linked_cons. split_and!; try done.
  apply (linked_suffix m); [done|apply Hoy|apply Hoy|done].
Qed.

(** ** Lists in memory *)

Lemma all_apart_length xs : all_apart xs -> 8 * Z.of_nat (length xs) <= 2 ^ 32.
Proof.
  intros Ha.
  assert (Hnd : NoDup (map (fun a => a / 8) xs)).
  { induction xs as [|x xs IH]; simpl; [constructor|]. destruct Ha as (_ & Hf & Ha).
    constructor; [|auto]. intros (y & E & Hin)%list_elem_of_fmap.
    rewrite Forall_forall in Hf. specialize (Hf y Hin). nodes. zlia. }
  assert (Hin : map (fun a => a / 8) xs ⊆ seqZ 0 (2 ^ 29)).
  { intros z (y & -> & Hy)%list_elem_of_fmap. apply elem_of_seqZ.
    pose proof (all_apart_node _ _ Ha Hy). nodes. change (2 ^ 29) with 536870912. zlia. }
  apply NoDup_submseteq, submseteq_length in Hin; [|done].
  rewrite length_map, length_seqZ in Hin.
  change (2 ^ 29) with 536870912 in Hin. change (2 ^ 32) with 4294967296. lia.
Qed.

Lemma dlist_length m l ns : dlist m l ns -> Z.of_nat (length ns) < 2 ^ 32.
Proof.
  intros [_ Ha]. apply all_apart_length in Ha. unfold with_ends in Ha.
  cbn [length] in Ha. rewrite length_app in Ha. cbn [length] in Ha.
  change (2 ^ 32) with 4294967296 in *. lia.
Qed.

(** A list is unaffected by writes outside its nodes. *)
Lemma dlist_frame m m' l ns :
  (forall b, node_bytes (with_ends l ns) b -> get8 m' b = get8 m b) ->
  dlist m l ns -> dlist m' l ns.
Proof.
  intros Hb [Hl Ha]. constructor; [|done].
  assert (Hf : forall x, x ∈ with_ends l ns ->
    next_of m' x = next_of m x /\ prev_of m' x = prev_of m x).
  { intros x Hx. unfold next_of, prev_of. split; apply get32_ext; intros b Hbx;
      apply Hb; apply Exists_exists; exists x; (split; [done|]); nodes; lia. }
  revert Hl. apply linked_ext.
  - intros x Hx. apply Hf. clear -Hx. revert Hx. generalize (with_ends l ns) as xs.
    induction xs as [|a [|b xs] IH]; [done|by intros ?%not_elem_of_nil|].
    intros [->|Hx]%elem_of_cons; [by left|]. right. by apply IH.
  - intros x Hx. apply Hf. destruct (with_ends l ns); [done|by right].
Qed.

Lemma dlist_changed_only P m m' l ns :
  changed_only P m m' -> (forall b, node_bytes (with_ends l ns) b -> ~ P b) ->
  dlist m l ns -> dlist m' l ns.
Proof. intros Hc HP. apply dlist_frame. intros b Hb. by apply Hc, HP. Qed.

(** The neighbours of the insertion point between [ns1] and [ns2]. *)
Lemma with_ends_split l ns1 ns2 :
  exists xs p t ys, with_ends l (ns1 ++ ns2) = xs ++ p :: t :: ys /\
    (l + list.head) :: ns1 = xs ++ [p] /\ ns2 ++ [l + list.tail] = t :: ys /\
    t = hd (l + list.tail) ns2.
Proof.
  destruct (exists_last (l := (l + list.head) :: ns1)) as (xs & p & E); [done|].
  destruct (ns2 ++ [l + list.tail]) as [|t ys] eqn:E2; [by destruct ns2|].
  exists xs, p, t, ys. split_and!; [|done|done|by destruct ns2; simplify_eq/=].
  unfold with_ends. rewrite <- (assoc (++)), E2.
  change (l + list.head :: ns1 ++ t :: ys) with ((l + list.head :: ns1) ++ t :: ys).
  by rewrite E, <- (assoc (++)).
Qed.

Lemma dlist_insert m l ns1 ns2 n :
  dlist m l (ns1 ++ ns2) -> is_node n -> Forall (apart n) (with_ends l (ns1 ++ ns2)) ->
  let t := hd (l + list.tail) ns2 in
  let p := prev_of m t in
  p ∈ with_ends l (ns1 ++ ns2) /\ t ∈ with_ends l (ns1 ++ ns2) /\ apart p t /\
  dlist (insert_mem m p n t) l (ns1 ++ n :: ns2).
Proof.
  intros [Hl Ha] Hn Hf. destruct (with_ends_split l ns1 ns2) as (xs & p & t & ys & E & E1 & E2 & Et).
  rewrite E in *. cbv zeta. rewrite <- Et.
  pose proof Hl as (_ & _ & Ep & _)%linked_ends. rewrite Ep.
  assert (Ein : with_ends l (ns1 ++ n :: ns2) = xs ++ p :: n :: t :: ys).
  { unfold with_ends. rewrite <- (assoc (++)). cbn [app]. rewrite E2.
    change (l + list.head :: ns1 ++ n :: t :: ys) with ((l + list.head :: ns1) ++ n :: t :: ys).
    by rewrite E1, <- (assoc (++)). }
  assert (Hp : p ∈ xs ++ p :: t :: ys) by (apply elem_of_app; right; by left).
  assert (Ht : t ∈ xs ++ p :: t :: ys) by (apply elem_of_app; right; right; by left).
  assert (Ha' : all_apart (xs ++ p :: n :: t :: ys)).
  { assert (Hperm : xs ++ p :: n :: t :: ys ≡ₚ n :: xs ++ p :: t :: ys) by solve_Permutation.
    rewrite Hperm. simpl. done. }
  split_and!; [done|done| |].
  - apply all_apart_app in Ha as (_ & Ha & _). simpl in Ha.
    destruct Ha as (_ & Hpt & _). by apply Forall_cons in Hpt as [? _].
  - constructor; rewrite Ein; [by apply insert_mem_linked|done].
Qed.

Lemma dlist_remove m l ns1 n ns2 :
  dlist m l (ns1 ++ n :: ns2) ->
  let p := prev_of m n in
  let x := next_of m n in
  p ∈ with_ends l (ns1 ++ n :: ns2) /\ x ∈ with_ends l (ns1 ++ n :: ns2) /\
  apart n p /\ apart n x /\ apart p x /\ is_node x /\
  dlist (remove_mem m p x) l (ns1 ++ ns2).
Proof.
  intros [Hl Ha]. destruct (with_ends_split l ns1 ns2) as (xs & p & x & ys & E & E1 & E2 & _).
  assert (Ein : with_ends l (ns1 ++ n :: ns2) = xs ++ p :: n :: x :: ys).
  { unfold with_ends. rewrite <- (assoc (++)). cbn [app]. rewrite E2.
    change (l + list.head :: ns1 ++ n :: x :: ys) with ((l + list.head :: ns1) ++ n :: x :: ys).
    by rewrite E1, <- (assoc (++)). }
  rewrite Ein in *. cbv zeta.
  pose proof Hl as (_ & _ & Ep & (Ex & _))%linked_ends. rewrite Ep, Ex.
  assert (Hp : p ∈ xs ++ p :: n :: x :: ys) by (apply elem_of_app; right; by left).
  assert (Hn : n ∈ xs ++ p :: n :: x :: ys) by (apply elem_of_app; right; right; by left).
  assert (Hx : x ∈ xs ++ p :: n :: x :: ys)
    by (apply elem_of_app; right; right; right; by left).
  pose proof Ha as (_ & (_ & Fp & _ & Fn & _) & _)%all_apart_app.
  apply Forall_cons in Fp as [Apn Fp]. apply Forall_cons in Fp as [Apx _].
  apply Forall_cons in Fn as [Anx _].
  split_and!; [done|done|by symmetry|done|done|by eapply all_apart_node|].
  assert (Hperm : xs ++ p :: n :: x :: ys ≡ₚ n :: xs ++ p :: x :: ys) by solve_Permutation.
  constructor; rewrite E; [by eapply remove_mem_linked|]. rewrite Hperm in Ha. apply Ha.
Qed.

(** ** The operations *)
Section Specs.
Context {PL : Platform}.
Implicit Types (s : machine) (l n : Z) (ns : list Z).

(** The state a critical section that leaves memory [m'] returns in. *)
Definition after_critical s (m' : memory) : machine :=
  set_intr_flag (flag_after (intr_flag s)) (set_mem m' s).

Lemma critical_restore s m' :
  INTERRUPT_RESTORE (if intr_flag s then INTR_ON else INTR_OFF)
    (set_mem m' (set_intr_flag false s)) = Ok tt (after_critical s m').
Proof. by rewrite restore_run. Qed.

Lemma list_insert_before_raw t n s :
  let p := prev_of (mem s) t in
  is_node p -> apart p t -> apart n t ->
  list_insert_before t n s = Ok tt (after_critical s (insert_mem (mem s) p n t)).
Proof.
  intros p Np Apt Ant. unfold list_insert_before, INTERRUPT_DISABLE.
  rewrite (bind_ok _ _ _ _ _ (intr_disable_run s)).
  etransitivity; [|apply critical_restore]. subst p.
  unfold insert_mem, prev_of in *. nodes. srun.
  by rewrite (get32_put32_ne _ _ _ (t + 0)), (get32_put32_ne _ _ _ (t + 0)) by lia.
Qed.

Lemma list_remove_raw n s :
  let p := prev_of (mem s) n in
  let x := next_of (mem s) n in
  apart n p ->
  list_remove n s = Ok tt (after_critical s (remove_mem (mem s) p x)).
Proof.
  intros p x Anp. unfold list_remove, INTERRUPT_DISABLE.
  rewrite (bind_ok _ _ _ _ _ (intr_disable_run s)).
  etransitivity; [|apply critical_restore]. subst p x.
  unfold remove_mem, prev_of, next_of in *. nodes. srun.
  by rewrite (get32_put32_ne _ _ _ (n + 0)), (get32_put32_ne _ _ _ (n + 4)) by lia.
Qed.

Lemma list_insert_before_run l ns1 ns2 n s :
  dlist (mem s) l (ns1 ++ ns2) -> is_node n -> Forall (apart n) (with_ends l (ns1 ++ ns2)) ->
  exists m', list_insert_before (hd (l + list.tail) ns2) n s = Ok tt (after_critical s m') /\
    dlist m' l (ns1 ++ n :: ns2) /\
    changed_only (node_bytes (n :: with_ends l (ns1 ++ ns2))) (mem s) m'.
Proof.
  intros Hd Hn Hf. destruct (dlist_insert _ _ _ _ _ Hd Hn Hf) as (Hp & Ht & Hpt & Hd').
  eexists. split; [|split; [exact Hd'|]].
  - apply list_insert_before_raw; [|done|].
    + eapply all_apart_node; [apply Hd|done].
    + by eapply Forall_in in Hf.
  - intros b Hb. apply insert_mem_frame. intros Hb'. apply Hb. unfold node_bytes in *.
    rewrite Exists_exists in Hb' |- *. destruct Hb' as (x & Hx & Hxb). exists x. split; [|done].
    rewrite !elem_of_cons in Hx. rewrite elem_of_cons.
    destruct Hx as [->|[->|[->|Hx]]]; auto. by apply not_elem_of_nil in Hx.
Qed.

Lemma dlist_first m l ns : dlist m l ns -> next_of m (l + list.head) = hd (l + list.tail) ns.
Proof. intros [Hl _]. unfold with_ends in Hl. by destruct ns; destruct Hl. Qed.

Lemma dlist_last m l ns :
  dlist m l ns -> prev_of m (l + list.tail) = default (l + list.head) (last ns).
Proof.
  intros [Hl _]. unfold with_ends in Hl. destruct ns as [|n ns] using rev_ind; [apply Hl|].
  rewrite last_snoc. rewrite <- (assoc (++)) in Hl.
  change (l + list.head :: ns ++ [n] ++ [l + list.tail])
    with ((l + list.head :: ns) ++ n :: l + list.tail :: []) in Hl.
  apply linked_ends in Hl. tauto.
Qed.

Lemma node_not_end m l ns n :
  dlist m l ns -> n ∈ ns -> n <> l + list.head /\ n <> l + list.tail /\ is_node n.
Proof.
  intros [_ Ha] Hin. unfold with_ends in Ha. simpl in Ha. destruct Ha as (_ & Hf & Ha).
  apply all_apart_app in Ha as (Ha & _ & Hft). split_and!.
  - rewrite Forall_forall in Hf. intros ->. eapply apart_ne; [apply Hf|done].
    apply elem_of_app. by left.
  - eapply Forall_in in Hft; [|done]. apply Forall_cons in Hft as [Hft _]. by apply apart_ne.
  - by eapply all_apart_node.
Qed.

Lemma list_init_run l s :
  0 <= l -> l + list.sizeof <= 2 ^ 32 ->
  exists m', list_init l s = Ok tt (set_mem m' s) /\ dlist m' l [] /\
    changed_only (fun b => l <= b < l + list.sizeof) (mem s) m'.
Proof.
  intros H0 H1. unfold list_init. srun. eexists. split; [reflexivity|]. split.
  - split; unfold with_ends; simpl; nodes.
    + unfold NULL. mem_simpl. rewrite !u32_small by lia. split_and!; lia.
    + split_and!; try lia; constructor; [lia|constructor].
  - intros b Hb. nodes. unfold NULL. msimpl. rewrite !get8_put32_ne by lia. reflexivity.
Qed.

Lemma list_push_back_run l ns n s :
  dlist (mem s) l ns -> is_node n -> Forall (apart n) (with_ends l ns) ->
  exists m', list_push_back l n s = Ok tt (after_critical s m') /\
    dlist m' l (ns ++ [n]) /\ changed_only (node_bytes (n :: with_ends l ns)) (mem s) m'.
Proof.
  intros Hd Hn Hf. rewrite <- (app_nil_r ns) in Hd, Hf.
  destruct (list_insert_before_run l ns [] n s Hd Hn Hf) as (m' & E & Hd' & Hc).
  rewrite app_nil_r in Hc. by exists m'.
Qed.

Lemma list_push_front_run l ns n s :
  dlist (mem s) l ns -> is_node n -> Forall (apart n) (with_ends l ns) ->
  exists m', list_push_front l n s = Ok tt (after_critical s m') /\
    dlist m' l (n :: ns) /\ changed_only (node_bytes (n :: with_ends l ns)) (mem s) m'.
Proof.
  intros Hd Hn Hf. destruct (list_insert_before_run l [] ns n s Hd Hn Hf) as (m' & E & Hd' & Hc).
  exists m'. split; [|done]. unfold list_push_front. erewrite bind_ok by reflexivity.
  change (get32 (mem s) (l + list.head + list_node.next)) with (next_of (mem s) (l + list.head)).
  by rewrite (dlist_first _ _ _ Hd).
Qed.

Lemma list_remove_run l ns1 n ns2 s :
  dlist (mem s) l (ns1 ++ n :: ns2) ->
  exists m', list_remove n s = Ok tt (after_critical s m') /\
    dlist m' l (ns1 ++ ns2) /\
    changed_only (node_bytes (with_ends l (ns1 ++ ns2))) (mem s) m'.
Proof.
  intros Hd. destruct (dlist_remove _ _ _ _ _ Hd) as (Hp & Hx & Hnp & Hnx & Hpx & _ & Hd').
  eexists. split; [by apply list_remove_raw|]. split; [exact Hd'|].
  intros b Hb. apply remove_mem_frame. intros Hb'. apply Hb. unfold node_bytes in *.
  assert (Hsub : forall x, x ∈ with_ends l (ns1 ++ n :: ns2) -> x <> n ->
                   x ∈ with_ends l (ns1 ++ ns2)).
  { intros x. unfold with_ends. rewrite !elem_of_cons, !elem_of_app, !elem_of_cons. tauto. }
  rewrite Exists_exists in Hb' |- *. destruct Hb' as (x & Hxin & Hxb). exists x. split; [|done].
  rewrite !elem_of_cons in Hxin. destruct Hxin as [->|[->|Hxin]]; [| |by apply not_elem_of_nil in Hxin].
  - apply Hsub; [done|]. intros E. symmetry in E. by apply (apart_ne _ _ Hnp).
  - apply Hsub; [done|]. intros E. symmetry in E. by apply (apart_ne _ _ Hnx).
Qed.

Lemma list_pop_front_run l n ns s :
  dlist (mem s) l (n :: ns) ->
  exists m', list_pop_front l s = Ok n (after_critical s m') /\
    dlist m' l ns /\ changed_only (node_bytes (with_ends l ns)) (mem s) m'.
Proof.
  intros Hd. destruct (list_remove_run l [] n ns s Hd) as (m' & E & Hd' & Hc).
  exists m'. split; [|done]. unfold list_pop_front. erewrite bind_ok by reflexivity.
  change (get32 (mem s) (l + list.head + list_node.next)) with (next_of (mem s) (l + list.head)).
  rewrite (dlist_first _ _ _ Hd). cbn [hd].
  destruct (node_not_end _ _ _ n Hd) as (_ & Hne & _); [by left|].
  rewrite (proj2 (Z.eqb_neq _ _) Hne). by rewrite (bind_ok _ _ _ _ _ E).
Qed.

Lemma list_pop_front_nil_run l s : dlist (mem s) l [] -> list_pop_front l s = Ok NULL s.
Proof.
  intros Hd. unfold list_pop_front. erewrite bind_ok by reflexivity.
  change (get32 (mem s) (l + list.head + list_node.next)) with (next_of (mem s) (l + list.head)).
  rewrite (dlist_first _ _ _ Hd). cbn [hd]. by rewrite Z.eqb_refl.
Qed.

Lemma list_empty_run l ns s :
  dlist (mem s) l ns -> list_empty l s = Ok (bool_decide (ns = [])) s.
Proof.
  intros Hd. unfold list_empty. erewrite bind_ok by reflexivity.
  change (get32 (mem s) (l + list.head + list_node.next)) with (next_of (mem s) (l + list.head)).
  rewrite (dlist_first _ _ _ Hd). destruct ns as [|n ns]; cbn [hd].
  - by rewrite Z.eqb_refl.
  - destruct (node_not_end _ _ _ n Hd) as (_ & Hne & _); [by left|].
    by rewrite (proj2 (Z.eqb_neq _ _) Hne).
Qed.

(** A walk along a list: [step] looks at one node and stops or goes on, and
    the walk ends with [fin] at the tail. *)
Fixpoint walk {B A} (step : Z -> B -> A + B) (fin : B -> A) (acc : B) ns : A :=
  match ns with
  | [] => fin acc
  | n :: ns' => match step n acc with inl a => a | inr acc' => walk step fin acc' ns' end
  end.

Section Walk.
Context {X B A : Type} (at_ : Z -> B -> X) (body : X -> K (X + A)).
Context (step : Z -> B -> A + B) (fin : B -> A) (l : Z) (ns : list Z) (s : machine).
Hypothesis Hd : dlist (mem s) l ns.
Hypothesis Hstep : forall n acc, n ∈ ns ->
  body (at_ n acc) s = match step n acc with
                       | inl a => Ok (inr a) s
                       | inr acc' => Ok (inl (at_ (next_of (mem s) n) acc')) s
                       end.
Hypothesis Hfin : forall acc, body (at_ (l + list.tail) acc) s = Ok (inr (fin acc)) s.

Lemma next_in_list ns1 n ns2 : ns = ns1 ++ n :: ns2 -> next_of (mem s) n = hd (l + list.tail) ns2.
Proof.
  intros Ens. rewrite Ens in Hd.
  destruct (with_ends_split l (ns1 ++ [n]) ns2) as (xs & p & t & ys & E & E1 & _ & <-).
  destruct Hd as [Hl _].
  assert (Ew2 : with_ends l (ns1 ++ n :: ns2) = xs ++ p :: t :: ys).
  { rewrite <- E. f_equal. by rewrite <- (assoc (++)). }
  rewrite Ew2 in Hl. apply linked_ends in Hl as (_ & En & _).
  rewrite app_comm_cons in E1. apply app_inj_tail in E1 as [_ ->]. done.
Qed.

Lemma walk_loop acc :
  while_ body (at_ (next_of (mem s) (l + list.head)) acc) s = Ok (walk step fin acc ns) s.
Proof.
  apply run_of_wp. pose proof (dlist_length _ _ _ Hd) as Hlen.
  apply (wp_while _ (fun k x s' => s' = s /\ exists c ac ns1 ns2, x = at_ c ac /\
    ns = ns1 ++ ns2 /\ k = Z.of_nat (length ns2) /\ c = hd (l + list.tail) ns2 /\
    walk step fin ac ns2 = walk step fin acc ns) _ _) with (n := Z.of_nat (length ns));
    [|change (2 ^ 32) with 4294967296 in Hlen; lia|].
  2:{ split; [done|]. eexists _, acc, [], ns. by rewrite (dlist_first _ _ _ Hd). }
  intros k x s' _ (-> & c & ac & ns1 & ns2 & -> & Ens & -> & -> & Ew).
  destruct ns2 as [|n ns2]; cbn [hd walk] in *; [by eapply wp_ok; [apply Hfin|]|].
  specialize (Hstep n ac ltac:(rewrite Ens; apply elem_of_app; right; by left)).
  destruct (step n ac) as [a|ac'] eqn:Es; (eapply wp_ok; [exact Hstep|]); cbn; [done|].
  exists (Z.of_nat (length ns2)). split; [lia|]. split; [done|].
  eexists _, ac', (ns1 ++ [n]), ns2. rewrite <- (assoc (++)). split_and!; [done..| |done].
  by eapply next_in_list.
Qed.
End Walk.

Ltac first_node Hd :=
  erewrite bind_ok by reflexivity;
  lazymatch goal with |- context [get32 (mem ?s) (?l + list.head + list_node.next)] =>
    change (get32 (mem s) (l + list.head + list_node.next)) with (next_of (mem s) (l + list.head))
  end.
Ltac at_node Hd Hin :=
  let Hne := fresh "Hne" in
  destruct (node_not_end _ _ _ _ Hd Hin) as (_ & Hne & _);
  cbn; rewrite (proj2 (Z.eqb_neq _ _) Hne); cbn.

Lemma list_exist_run l ns n s :
  dlist (mem s) l ns -> list_exist l n s = Ok (bool_decide (n ∈ ns)) s.
Proof.
  intros Hd. unfold list_exist. first_node Hd.
  rewrite (walk_loop (fun c (_ : unit) => c) _
    (fun x _ => if x =? n then inl true else inr tt) (fun _ => false) l ns s Hd) with (acc := tt).
  - f_equal. clear. induction ns as [|x ns IH]; [done|]. cbn [walk].
    destruct (Z.eqb_spec x n) as [->|Hne].
    + by rewrite bool_decide_true by by left.
    + rewrite IH. apply bool_decide_ext. rewrite elem_of_cons.
      split; [by right|]. intros [?|?]; [congruence|done].
  - intros x [] Hin. at_node Hd Hin. by destruct (x =? n).
  - intros []. cbn. by rewrite Z.eqb_refl.
Qed.

Lemma list_size_run l ns s :
  dlist (mem s) l ns -> list_size l s = Ok (Z.of_nat (length ns)) s.
Proof.
  intros Hd. pose proof (dlist_length _ _ _ Hd) as Hlen. unfold list_size. first_node Hd.
  rewrite (walk_loop (fun c (r : Z) => (c, r)) _
    (fun _ r => inr (u32 (r + 1))) (fun r => r) l ns s Hd) with (acc := 0).
  - f_equal. assert (forall k, 0 <= k -> k + Z.of_nat (length ns) < 2 ^ 32 ->
      walk (A := Z) (fun _ r => inr (u32 (r + 1))) (fun r => r) k ns = k + Z.of_nat (length ns)) as ->;
      [|lia..|lia].
    clear. induction ns as [|x ns IH]; intros k Hk Hb; cbn [walk length] in *; [lia|].
    rewrite u32_small by zlia. rewrite IH; lia.
  - intros x r Hin. by at_node Hd Hin.
  - intros r. cbn. by rewrite Z.eqb_refl.
Qed.

(** [list_traversal] with a test that only looks. *)
Lemma list_traversal_run l ns func arg (f : Z -> bool) s :
  dlist (mem s) l ns -> (forall n, n ∈ ns -> func n arg s = Ok (f n) s) ->
  list_traversal l func arg s = Ok (default NULL (List.find f ns)) s.
Proof.
  intros Hd Hf. unfold list_traversal. first_node Hd.
  rewrite (walk_loop (fun c (_ : unit) => c) _
    (fun x _ => if f x then inl x else inr tt) (fun _ => NULL) l ns s Hd) with (acc := tt).
  - f_equal. clear. induction ns as [|x ns IH]; [done|]. cbn [walk List.find].
    by destruct (f x).
  - intros x [] Hin. at_node Hd Hin. rewrite (bind_ok _ _ _ _ _ (Hf x Hin)). by destruct (f x).
  - intros []. cbn. by rewrite Z.eqb_refl.
Qed.
End Specs.

(** ** The contract of the list component: the operations are those of a
    sequence of nodes, and touch nothing but the nodes involved *)
Section Contract.
Context {PL : Platform}.
Implicit Types (s : machine) (l n : Z) (ns : list Z).

(** Appending. *)
Theorem list_push_back_appends l ns n s :
  dlist (mem s) l ns -> is_node n -> Forall (apart n) (with_ends l ns) ->
  exists m', list_push_back l n s = Ok tt (after_critical s m') /\
    dlist m' l (ns ++ [n]) /\ changed_only (node_bytes (n :: with_ends l ns)) (mem s) m'.
Proof. apply list_push_back_run. Qed.

(** Removing a node, wherever it is, closes the gap; the removed node itself
    keeps its stale pointers. *)
Theorem list_remove_unlinks l ns1 n ns2 s :
  dlist (mem s) l (ns1 ++ n :: ns2) ->
  exists m', list_remove n s = Ok tt (after_critical s m') /\
    dlist m' l (ns1 ++ ns2) /\ changed_only (node_bytes (with_ends l (ns1 ++ ns2))) (mem s) m'.
Proof. apply list_remove_run. Qed.

(** Popping takes the oldest node of a list filled by [list_push_back]. *)
Theorem list_pop_front_takes_first l ns s :
  dlist (mem s) l ns ->
  match ns with
  | [] => list_pop_front l s = Ok NULL s
  | n :: ns' => exists m', list_pop_front l s = Ok n (after_critical s m') /\
      dlist m' l ns' /\ changed_only (node_bytes (with_ends l ns')) (mem s) m'
  end.
Proof.
  destruct ns as [|n ns']; [apply list_pop_front_nil_run|]. intros Hd.
  by apply list_pop_front_run.
Qed.

(** The queries terminate on every list, change nothing, and answer membership,
    length, emptiness and the first node that passes a test. *)
Theorem list_queries_correct l ns n func arg (f : Z -> bool) s :
  dlist (mem s) l ns -> (forall x, x ∈ ns -> func x arg s = Ok (f x) s) ->
  list_exist l n s = Ok (bool_decide (n ∈ ns)) s /\
  list_size l s = Ok (Z.of_nat (length ns)) s /\
  list_empty l s = Ok (bool_decide (ns = [])) s /\
  list_traversal l func arg s = Ok (default NULL (List.find f ns)) s.
Proof.
  intros Hd Hf. split_and!; [by apply list_exist_run|by apply list_size_run|
    by apply list_empty_run|by apply list_traversal_run].
Qed.
End Contract.

(** ** Concrete instances *)

(** Separation of nodes at known addresses. *)
Ltac solve_apart :=
  unfold with_ends; simpl;
  repeat first [apply Forall_nil_2 | apply Forall_cons_2 | split]; try done; nodes; lia.

(** The list at 0x1000 holding the nodes 0x2000 and 0x3000. *)
Definition demo_list : memory :=
  put32 (put32 (put32 (put32 (put32 (put32 ∅
    0x1004 0x2000) 0x2000 0x1000) 0x2004 0x3000) 0x3000 0x2000) 0x3004 0x1008) 0x1008 0x3000.

Lemma demo_list_ok : dlist demo_list 0x1000 [0x2000; 0x3000].
Proof. split; [vm_compute; tauto|]. solve_apart. Qed.

Lemma list_push_back_appends_witness :
  exists m', list_push_back 0x1000 0x4000 (demo_machine demo_list)
      = Ok tt (after_critical (demo_machine demo_list) m') /\
    dlist m' 0x1000 ([0x2000; 0x3000] ++ [0x4000]) /\
    changed_only (node_bytes (0x4000 :: with_ends 0x1000 [0x2000; 0x3000])) demo_list m'.
Proof.
  apply (list_push_back_appends 0x1000 [0x2000; 0x3000] 0x4000 (demo_machine demo_list)).
  - apply demo_list_ok.
  - solve_apart.
  - solve_apart.
Defined.

Lemma list_remove_unlinks_witness :
  exists m', list_remove 0x2000 (demo_machine demo_list)
      = Ok tt (after_critical (demo_machine demo_list) m') /\
    dlist m' 0x1000 ([] ++ [0x3000]) /\
    changed_only (node_bytes (with_ends 0x1000 ([] ++ [0x3000]))) demo_list m'.
Proof.
  apply (list_remove_unlinks 0x1000 [] 0x2000 [0x3000] (demo_machine demo_list)).
  apply demo_list_ok.
Defined.

Lemma list_pop_front_takes_first_witness :
  exists m', list_pop_front 0x1000 (demo_machine demo_list)
      = Ok 0x2000 (after_critical (demo_machine demo_list) m') /\
    dlist m' 0x1000 [0x3000] /\
    changed_only (node_bytes (with_ends 0x1000 [0x3000])) demo_list m'.
Proof.
  apply (list_pop_front_takes_first 0x1000 [0x2000; 0x3000] (demo_machine demo_list)).
  apply demo_list_ok.
Defined.

Lemma list_queries_correct_witness :
  list_exist 0x1000 0x3000 (demo_machine demo_list) = Ok true (demo_machine demo_list) /\
  list_size 0x1000 (demo_machine demo_list) = Ok 2 (demo_machine demo_list) /\
  list_empty 0x1000 (demo_machine demo_list) = Ok false (demo_machine demo_list) /\
  list_traversal 0x1000 (fun n k => mret (n =? k)) 0x3000 (demo_machine demo_list)
    = Ok 0x3000 (demo_machine demo_list).
Proof.
  apply (list_queries_correct 0x1000 [0x2000; 0x3000] 0x3000 (fun n k => mret (n =? k)) 0x3000
    (fun n => n =? 0x3000) (demo_machine demo_list)); [apply demo_list_ok|done].
Defined.
