(* ===== verification/Paging.v ===== *)
(** * Page tables (kernel/memory.c)

    Addresses of page-directory and page-table entries through the recursive
    mapping of the last page-directory entry, translation, and the insertion
    and removal of mappings. *)

From S2P Require Import Prelude Machine Concrete Interrupt CString.

#[local] Open Scope Z_scope.

Definition PAGE_SIZE : Z := Z.shiftl 1 12.

Definition PG_P_1 : Z := 1.
Definition PG_RW_W : Z := 2.
Definition PG_US_U : Z := 4.

Definition PDE_IDX (addr : Z) : Z := Z.shiftr (Z.land addr 0xffc00000) 22.
Definition PTE_IDX (addr : Z) : Z := Z.shiftr (Z.land addr 0x003ff000) 12.

Section Paging.
Context {PL : Platform}.

(** The value of the local variable [pte]; the function has no [return]. *)
Definition pte_local (vaddr : Z) : Z :=
  u32 (0xffc00000 + Z.shiftr (Z.land vaddr 0xffc00000) 10 + PTE_IDX vaddr * 4).
Definition pte_ptr (vaddr : Z) : Z := pte_ptr_ret (pte_local vaddr).

Definition pde_ptr (vaddr : Z) : Z := u32 (0xfffff000 + PDE_IDX vaddr * 4).

Definition vaddr_to_phy (vaddr : Z) : K Z :=
  e ← ld32 (pte_ptr vaddr);
  mret (u32 (Z.land e 0xfffff000 + Z.land vaddr 0x00000fff)).

(** The operand of [invlpg] is the parameter itself, so the page it names is
    that of the stack slot and not the unmapped page. *)
Definition page_table_remove (vaddr : Z) : K unit :=
  let pde := pde_ptr vaddr in
  let pte := pte_ptr vaddr in
  d ← ld32 pde;
  ASSERT (negb (Z.land d 0x1 =? 0)) "kernel/memory.c" 230 "page_table_remove" "(*pde) & 0x1";;
  e ← ld32 pte;
  st32 pte (Z.land e (Z.lnot PG_P_1));;
  sp ← gets esp;
  emit (Invlpg (vaddr_slot sp)).
End Paging.

(** ** Address arithmetic *)

Lemma PDE_IDX_div a : 0 <= a < 2 ^ 32 -> PDE_IDX a = a / 2 ^ 22.
Proof.
  intros Ha. unfold PDE_IDX. rewrite land_table by zlia. rewrite Z.shiftr_div_pow2 by lia.
  change (2 ^ 22) with 4194304. zlia.
Qed.

Lemma PTE_IDX_div a : 0 <= a < 2 ^ 32 -> PTE_IDX a = (a / 2 ^ 12) mod 2 ^ 10.
Proof.
  intros Ha. unfold PTE_IDX. change 0x003ff000 with (Z.shiftl (Z.ones 10) 12).
  rewrite <- (Z.land_ones _ 10), <- Z.shiftr_div_pow2 by lia.
  apply Z.bits_inj'. intros n Hn.
  rewrite Z.land_spec, !Z.shiftr_spec, Z.land_spec, Z.shiftl_spec by lia.
  by rewrite Z.add_simpl_r.
Qed.

Lemma pte_local_div a :
  0 <= a < 2 ^ 32 -> pte_local a = 0xffc00000 + a / 2 ^ 22 * 4096 + (a / 2 ^ 12) mod 2 ^ 10 * 4.
Proof.
  intros Ha. unfold pte_local. rewrite PTE_IDX_div by done.
  rewrite land_table by zlia. rewrite Z.shiftr_div_pow2 by lia.
  change (2 ^ 22) with 4194304. change (2 ^ 10) with 1024. change (2 ^ 12) with 4096.
  rewrite u32_small; zlia.
Qed.

Lemma pde_ptr_div a : 0 <= a < 2 ^ 32 -> pde_ptr a = 0xfffff000 + a / 2 ^ 22 * 4.
Proof.
  intros Ha. unfold pde_ptr. rewrite PDE_IDX_div by done. change (2 ^ 22) with 4194304.
  rewrite u32_small; zlia.
Qed.

(** ** The recursive mapping

    [mmu phys cr3 va] is the address translation of the processor, given the
    contents [phys] of physical words and the page directory base.  What is
    used of it is the two-level walk for 4 KiB pages: a present directory
    entry leads to a page table, a present table entry to a page frame. *)
Section Mmu.
Context {PL : Platform}.
Context (mmu : (Z -> Z) -> Z -> Z -> option Z).

Definition present (entry : Z) : Prop := Z.testbit entry 0 = true /\ Z.testbit entry 7 = false.
Definition base_of (entry : Z) : Z := entry - entry mod 4096.

Definition two_level_walk : Prop := forall phys cr3 va,
  0 <= va < 2 ^ 32 ->
  let pde := phys (cr3 + 4 * (va / 2 ^ 22)) in
  let pte := phys (base_of pde + 4 * ((va / 2 ^ 12) mod 2 ^ 10)) in
  present pde -> Z.testbit pte 0 = true -> mmu phys cr3 va = Some (base_of pte + va mod 4096).

(** The last directory entry points at the directory itself. *)
Definition self_mapped (phys : Z -> Z) (cr3 : Z) : Prop :=
  base_of (phys (cr3 + 4 * 1023)) = cr3 /\ present (phys (cr3 + 4 * 1023)).

(** Under the self map, the pointer [pte_ptr] computes for [va] is translated
    to the physical location of the table entry the processor uses for [va],
    and [pde_ptr va] to the location of its directory entry. *)
Theorem recursive_mapping_correct phys cr3 va :
  two_level_walk -> self_mapped phys cr3 -> 0 <= va < 2 ^ 32 ->
  mmu phys cr3 (pde_ptr va) = Some (cr3 + 4 * (va / 2 ^ 22)) /\
  (present (phys (cr3 + 4 * (va / 2 ^ 22))) ->
   mmu phys cr3 (pte_local va)
     = Some (base_of (phys (cr3 + 4 * (va / 2 ^ 22))) + 4 * ((va / 2 ^ 12) mod 2 ^ 10))).
Proof.
  intros Hwalk [Hself [Hp0 Hp7]] Hva. rewrite pde_ptr_div, pte_local_div by done.
  change (2 ^ 22) with 4194304 in *. change (2 ^ 12) with 4096 in *.
  change (2 ^ 10) with 1024 in *.
  set (i := va / 4194304) in *. set (j := (va / 4096) mod 1024).
  assert (Hi : 0 <= i < 1024) by (subst i; zlia).
  assert (Hj : 0 <= j < 1024) by (subst j; zlia).
  split.
  - pose proof (Hwalk phys cr3 (0xfffff000 + i * 4)) as H. cbv zeta in H.
    change (2 ^ 22) with 4194304 in H. change (2 ^ 12) with 4096 in H.
    change (2 ^ 10) with 1024 in H.
    replace ((0xfffff000 + i * 4) / 4194304) with 1023 in H by zlia.
    replace (((0xfffff000 + i * 4) / 4096) mod 1024) with 1023 in H by zlia.
    replace ((0xfffff000 + i * 4) mod 4096) with (4 * i) in H by zlia.
    rewrite Hself, Hself in H. apply H; [zlia|done|done].
  - intros [Hd0 Hd7]. pose proof (Hwalk phys cr3 (0xffc00000 + i * 4096 + j * 4)) as H. cbv zeta in H.
    change (2 ^ 22) with 4194304 in H. change (2 ^ 12) with 4096 in H.
    change (2 ^ 10) with 1024 in H.
    replace ((0xffc00000 + i * 4096 + j * 4) / 4194304) with 1023 in H by zlia.
    replace (((0xffc00000 + i * 4096 + j * 4) / 4096) mod 1024) with i in H by zlia.
    replace ((0xffc00000 + i * 4096 + j * 4) mod 4096) with (4 * j) in H by zlia.
    rewrite Hself in H. apply H; [zlia|done|done].
Qed.
End Mmu.

(** ** Concrete instances *)

(** The two-level walk as a function, and a directory at 0x100000 whose entry
    0x300 leads to the table at 0x101000 and whose last entry is itself. *)
Definition demo_mmu (phys : Z -> Z) (cr3 va : Z) : option Z :=
  let pde := phys (cr3 + 4 * (va / 2 ^ 22)) in
  let pte := phys (base_of pde + 4 * ((va / 2 ^ 12) mod 2 ^ 10)) in
  if Z.testbit pde 0 && Z.testbit pte 0 then Some (base_of pte + va mod 4096) else None.

Definition demo_phys (a : Z) : Z :=
  if a =? 0x100000 + 4 * 1023 then 0x100007
  else if a =? 0x100000 + 4 * 0x300 then 0x101007 else 0.

Lemma demo_mmu_walks : two_level_walk demo_mmu.
Proof.
  intros phys cr3 va _. cbv zeta. intros [H0 _] H1. unfold demo_mmu. cbv zeta. by rewrite H0, H1.
Qed.

Lemma recursive_mapping_correct_witness :
  demo_mmu demo_phys 0x100000 (pde_ptr 0xc0105123) = Some (0x100000 + 4 * 0x300) /\
  (present (demo_phys (0x100000 + 4 * 0x300)) ->
   demo_mmu demo_phys 0x100000 (pte_local 0xc0105123) = Some (0x101000 + 4 * 0x105)).
Proof.
  apply (recursive_mapping_correct demo_mmu demo_phys 0x100000 0xc0105123);
    [apply demo_mmu_walks|vm_compute; auto|lia].
Defined.
