(* ===== verification/Tss.v ===== *)
(** * proc/tss.c

    The task state segment, whose [esp0] is the kernel stack entered on an
    interrupt from user mode, and the segment descriptors of user mode. *)

From S2P Require Import Prelude Machine Concrete Interrupt CString Paging.

#[local] Open Scope Z_scope.

(** ** Selectors and attributes (kernel/global.h) *)

Definition RPL0 : Z := 0.
Definition RPL3 : Z := 3.
Definition TI_GDT : Z := 0.
Definition SELECTOR_K_CODE : Z := Z.shiftl 1 3 + Z.shiftl TI_GDT 2 + RPL0.
Definition SELECTOR_K_DATA : Z := Z.shiftl 2 3 + Z.shiftl TI_GDT 2 + RPL0.
Definition SELECTOR_K_STACK : Z := SELECTOR_K_DATA.
Definition SELECTOR_U_CODE : Z := Z.shiftl 5 3 + Z.shiftl TI_GDT 2 + RPL3.
Definition SELECTOR_U_DATA : Z := Z.shiftl 6 3 + Z.shiftl TI_GDT 2 + RPL3.
Definition GDT_ATTR_HIGH : Z := Z.shiftl 1 7 + Z.shiftl 1 6 + Z.shiftl 0 5 + Z.shiftl 0 4.
Definition GDT_CODE_ATTR_LOW_DPL3 : Z := Z.shiftl 1 7 + Z.shiftl 3 5 + Z.shiftl 1 4 + 8.
Definition GDT_DATA_ATTR_LOW_DPL3 : Z := Z.shiftl 1 7 + Z.shiftl 3 5 + Z.shiftl 1 4 + 2.
Definition TSS_ATTR_HIGH : Z := Z.shiftl 1 7 + Z.shiftl 0 6 + Z.shiftl 0 5 + Z.shiftl 0 4 + 0.
Definition TSS_ATTR_LOW : Z := Z.shiftl 1 7 + Z.shiftl 0 5 + Z.shiftl 0 4 + 9.
Definition SELECTOR_TSS : Z := Z.shiftl 4 3 + Z.shiftl TI_GDT 2 + RPL0.

Record gdt_desc := {
  limit_low_word : Z;
  base_low_word : Z;
  base_mid_byte : Z;
  attr_low_byte : Z;
  limit_high_attr_high : Z;
  base_high_byte : Z
}.

Module tss_t.
Definition esp0 : Z := 4.
Definition ss0 : Z := 8.
Definition io_base : Z := 104.
Definition sizeof : Z := 108.
End tss_t.

Definition GDT_BASE : Z := 0xc0000900.

Section Tss.
Context {PL : Platform} {LK : Linker}.

Definition set_tss_esp0 (thread : Z) : K unit :=
  st32 (sym_tss + tss_t.esp0) (u32 (thread + PAGE_SIZE)).

(** [base_mid_byte] is never assigned: line 54 writes [base_high_byte], which
    line 57 overwrites. *)
Definition make_gdt_desc (addr limit attr_low attr_high : Z) : gdt_desc :=
  let desc_base := u32 addr in
  {| limit_low_word := Z.land limit 0x0000ffff;
     base_low_word := Z.land desc_base 0x0000ffff;
     base_mid_byte := u8 desc_garbage;
     attr_low_byte := u8 attr_low;
     limit_high_attr_high := u8 (Z.shiftr (Z.land limit 0x000f0000) 16 + u8 attr_high);
     base_high_byte := Z.shiftr desc_base 24 |}.

(** Structure assignment [*a = d]. *)
Definition st_gdt_desc (a : Z) (d : gdt_desc) : K unit :=
  st16 a (limit_low_word d);; st16 (a + 2) (base_low_word d);;
  st8 (a + 4) (base_mid_byte d);; st8 (a + 5) (attr_low_byte d);;
  st8 (a + 6) (limit_high_attr_high d);; st8 (a + 7) (base_high_byte d).

Definition tss_init : K unit :=
  let tss_size := tss_t.sizeof in
  memset sym_tss 0 tss_size;;
  st32 (sym_tss + tss_t.ss0) SELECTOR_K_STACK;;
  st32 (sym_tss + tss_t.io_base) tss_size;;
  let gdt := GDT_BASE in
  st_gdt_desc (gdt + 4 * 8) (make_gdt_desc sym_tss (tss_size - 1) TSS_ATTR_LOW TSS_ATTR_HIGH);;
  st_gdt_desc (gdt + 5 * 8) (make_gdt_desc 0 0xfffff GDT_CODE_ATTR_LOW_DPL3 GDT_ATTR_HIGH);;
  st_gdt_desc (gdt + 6 * 8) (make_gdt_desc 0 0xfffff GDT_DATA_ATTR_LOW_DPL3 GDT_ATTR_HIGH);;
  emit (Lgdt (Z.lor (8 * 7 - 1) (Z.shiftl GDT_BASE 16)));;
  emit (Ltr SELECTOR_TSS).
End Tss.

(** ** What a descriptor means *)

Definition desc_base (d : gdt_desc) : Z :=
  base_low_word d + 65536 * base_mid_byte d + 16777216 * base_high_byte d.
Definition desc_limit (d : gdt_desc) : Z :=
  limit_low_word d + 65536 * (limit_high_attr_high d mod 16).
Definition desc_attr (d : gdt_desc) : Z :=
  attr_low_byte d + 256 * (limit_high_attr_high d / 16).

Lemma land_mid a : 0 <= a -> Z.shiftr (Z.land a 0x000f0000) 16 = (a / 65536) mod 16.
Proof.
  intros Ha. change 0x000f0000 with (Z.shiftl (Z.ones 4) 16).
  transitivity (Z.land (Z.shiftr a 16) (Z.ones 4));
    [|by rewrite Z.land_ones, Z.shiftr_div_pow2 by lia].
  apply Z.bits_inj'. intros n Hn.
  rewrite Z.land_spec, !Z.shiftr_spec, Z.land_spec, Z.shiftl_spec by lia.
  by rewrite Z.add_simpl_r.
Qed.

Section Facts.
Context {PL : Platform} {LK : Linker}.

(** A descriptor carries its limit and attributes faithfully, but its base
    has an arbitrary byte in bits 16 to 23: the base is the one asked for
    exactly when the uninitialised byte happens to be right. *)
Theorem make_gdt_desc_fields addr limit attr_low attr_high :
  is_u32 addr -> 0 <= limit < 2 ^ 20 -> is_u8 attr_low -> is_u8 attr_high ->
  attr_high mod 16 = 0 ->
  let d := make_gdt_desc addr limit attr_low attr_high in
  desc_limit d = limit /\
  desc_attr d = attr_low + 256 * (attr_high / 16) /\
  (desc_base d = addr <-> u8 desc_garbage = (addr / 65536) mod 256).
Proof.
  intros Ha Hl Hal Hah Hm d. subst d. unfold desc_limit, desc_attr, desc_base, make_gdt_desc.
  cbn [limit_low_word base_low_word base_mid_byte attr_low_byte limit_high_attr_high
    base_high_byte].
  change 0x0000ffff with (2 ^ 16 - 1). rewrite !land_low by lia. rewrite land_mid by lia.
  rewrite Z.shiftr_div_pow2 by lia. change (2 ^ 20) with 1048576 in Hl.
  change (2 ^ 24) with 16777216. rewrite (u8_small attr_low), (u8_small attr_high) by zlia.
  rewrite (u32_small addr) by zlia. rewrite (u8_small (_ + attr_high)) by zlia.
  pose proof (u8_range desc_garbage). generalize dependent (u8 desc_garbage). intros g Hg.
  split_and!; [zlia|zlia|]. split; intros; zlia.
Qed.
End Facts.

(** The user code segment: flat from 0 if the byte is 0. *)
Lemma make_gdt_desc_fields_witness :
  let d := make_gdt_desc 0 0xfffff GDT_CODE_ATTR_LOW_DPL3 GDT_ATTR_HIGH in
  desc_limit d = 0xfffff /\
  desc_attr d = GDT_CODE_ATTR_LOW_DPL3 + 256 * (GDT_ATTR_HIGH / 16) /\
  (desc_base d = 0 <-> u8 desc_garbage = (0 / 65536) mod 256).
Proof.
  apply (make_gdt_desc_fields 0 0xfffff GDT_CODE_ATTR_LOW_DPL3 GDT_ATTR_HIGH);
    vm_compute; intuition congruence.
Defined.

(** ** What tss_init leaves *)
Section Init.
Context {PL : Platform} {LK : Linker}.

(** The descriptor at [a], as the processor reads it. *)
Definition gdt_at (m : memory) (a : Z) : gdt_desc :=
  {| limit_low_word := get16 m a; base_low_word := get16 m (a + 2); base_mid_byte := get8 m (a + 4);
     attr_low_byte := get8 m (a + 5); limit_high_attr_high := get8 m (a + 6); base_high_byte := get8 m (a + 7) |}.

Definition put_gdt_desc (m : memory) (a : Z) (d : gdt_desc) : memory :=
  put8 (put8 (put8 (put8 (put16 (put16 m a (limit_low_word d)) (a + 2) (base_low_word d)) (a + 4) (base_mid_byte d))
    (a + 5) (attr_low_byte d)) (a + 6) (limit_high_attr_high d)) (a + 7) (base_high_byte d).

Lemma get16_put16_apart m a v b : a + 2 <= b \/ b + 2 <= a -> get16 (put16 m a v) b = get16 m b.
Proof. intros. apply get16_ext. intros. apply get8_put16_ne. lia. Qed.
Lemma get16_put8_apart m a v b : a < b \/ b + 2 <= a -> get16 (put8 m a v) b = get16 m b.
Proof. intros. apply get16_ext. intros. apply get8_put8_ne. lia. Qed.

Lemma gdt_at_put m a addr limit attr_low attr_high :
  gdt_at (put_gdt_desc m a (make_gdt_desc addr limit attr_low attr_high)) a
    = make_gdt_desc addr limit attr_low attr_high.
Proof.
  unfold gdt_at, put_gdt_desc, make_gdt_desc.
  cbn [limit_low_word base_low_word base_mid_byte attr_low_byte limit_high_attr_high base_high_byte].
  rewrite !get16_put8_apart, get16_put16_apart, !get16_put16_eq by lia.
  pose proof (u32_range addr) as Hr. rewrite (Z.shiftr_div_pow2 (u32 addr)) by lia. change (2 ^ 24) with 16777216.
  change 0x0000ffff with (2 ^ 16 - 1). rewrite !land_low by lia. change (2 ^ 16) with 65536.
  f_equal; rewrite ?get8_put8_ne, ?get8_put8_eq by lia; zlia.
Qed.

Lemma put_gdt_desc_changed m a d : changed_only (fun b => a <= b < a + 8) m (put_gdt_desc m a d).
Proof. intros b Hb. unfold put_gdt_desc. by rewrite !get8_put8_ne, !get8_put16_ne by lia. Qed.

Lemma gdt_at_ext m m' a : (forall b, a <= b < a + 8 -> get8 m' b = get8 m b) -> gdt_at m' a = gdt_at m a.
Proof. intros H. unfold gdt_at. f_equal; try apply get16_ext; intros; apply H; lia. Qed.

(** The bytes [tss_init] writes: the segment and three descriptors. *)
Definition tss_bytes (b : Z) : Prop := sym_tss <= b < sym_tss + tss_t.sizeof.
Definition gdt_bytes (b : Z) : Prop := GDT_BASE + 32 <= b < GDT_BASE + 56.

(** The segment's stack selector and the three descriptors. *)
Record tss_made (m : memory) : Prop := {
  tm_ss0 : get32 m (sym_tss + tss_t.ss0) = SELECTOR_K_STACK;
  tm_esp0 : get32 m (sym_tss + tss_t.esp0) = 0;
  tm_io_base : get32 m (sym_tss + tss_t.io_base) = tss_t.sizeof;
  tm_tss : gdt_at m (GDT_BASE + 4 * 8) = make_gdt_desc sym_tss (tss_t.sizeof - 1) TSS_ATTR_LOW TSS_ATTR_HIGH;
  tm_code : gdt_at m (GDT_BASE + 5 * 8) = make_gdt_desc 0 0xfffff GDT_CODE_ATTR_LOW_DPL3 GDT_ATTR_HIGH;
  tm_data : gdt_at m (GDT_BASE + 6 * 8) = make_gdt_desc 0 0xfffff GDT_DATA_ATTR_LOW_DPL3 GDT_ATTR_HIGH
}.

Lemma tss_made_frame m m' P :
  changed_only P m m' -> (forall b, P b -> ~ tss_bytes b /\ ~ gdt_bytes b) -> tss_made m -> tss_made m'.
Proof.
  intros Hc HP [H1 H2 H3 H4 H5 H6].
  assert (Hk : forall b, tss_bytes b \/ gdt_bytes b -> get8 m' b = get8 m b).
  { intros b Hb. apply Hc. intros Hx. destruct (HP b Hx). tauto. }
  unfold tss_bytes, gdt_bytes, tss_t.sizeof in Hk.
  constructor; [rewrite <- H1|rewrite <- H2|rewrite <- H3|rewrite <- H4|rewrite <- H5|rewrite <- H6];
    first [apply get32_ext|apply gdt_at_ext]; intros b Hb; apply Hk;
    unfold tss_t.ss0, tss_t.esp0, tss_t.io_base in *; lia.
Qed.

Lemma tss_init_run s :
  0 < sym_tss -> sym_tss + tss_t.sizeof <= GDT_BASE + 32 \/ GDT_BASE + 56 <= sym_tss ->
  exists s', tss_init s = Ok tt s' /\ tss_made (mem s') /\
    changed_only (fun b => tss_bytes b \/ gdt_bytes b) (mem s) (mem s') /\
    trace s' = trace s ++ [Lgdt (Z.lor (8 * 7 - 1) (Z.shiftl GDT_BASE 16)); Ltr SELECTOR_TSS] /\
    esp s' = esp s /\ intr_flag s' = intr_flag s /\ vars s' = vars s.
Proof.
  intros H0 Hg. assert (Hn : sym_tss <> 0) by lia.
  unfold tss_init. rewrite (bind_ok _ _ _ _ _ (memset_run sym_tss 0 tss_t.sizeof s Hn)).
  set (m1 := put_bytes (mem s) sym_tss (replicate (Z.to_nat tss_t.sizeof) 0)).
  set (d4 := make_gdt_desc sym_tss _ _ _). set (d5 := make_gdt_desc 0 _ GDT_CODE_ATTR_LOW_DPL3 _).
  set (d6 := make_gdt_desc 0 _ GDT_DATA_ATTR_LOW_DPL3 _).
  set (m2 := put32 (put32 m1 (sym_tss + tss_t.ss0) SELECTOR_K_STACK) (sym_tss + tss_t.io_base) tss_t.sizeof).
  set (m3 := put_gdt_desc (put_gdt_desc (put_gdt_desc m2 (GDT_BASE + 4 * 8) d4) (GDT_BASE + 5 * 8) d5) (GDT_BASE + 6 * 8) d6).
  exists (mkMachine m3 (intr_flag s) (esp s) (cr3 s)
    ((trace s ++ [Lgdt (Z.lor (8 * 7 - 1) (Z.shiftl GDT_BASE 16))]) ++ [Ltr SELECTOR_TSS]) (vars s)).
  cbn [mem esp intr_flag vars trace]. split; [reflexivity|].
  assert (Hc : changed_only gdt_bytes m2 m3).
  { eapply changed_trans; [eapply changed_trans|]; (eapply changed_weaken; [apply put_gdt_desc_changed|]);
      unfold gdt_bytes; lia. }
  assert (Ht : forall b, tss_bytes b -> ~ gdt_bytes b) by (unfold tss_bytes, gdt_bytes; lia).
  unfold tss_bytes, tss_t.sizeof in Ht. split_and!; [constructor| |by rewrite <- app_assoc|done..].
  - rewrite (changed_get32 _ _ _ _ Hc) by (intros b Hb; apply Ht; unfold tss_t.ss0 in *; lia).
    unfold m2. rewrite get32_put32_ne, get32_put32_eq by (unfold tss_t.ss0, tss_t.io_base; lia). done.
  - rewrite (changed_get32 _ _ _ _ Hc) by (intros b Hb; apply Ht; unfold tss_t.esp0 in *; lia).
    unfold m2. rewrite !get32_put32_ne by (unfold tss_t.ss0, tss_t.io_base, tss_t.esp0; lia).
    unfold m1, get32, get16. rewrite !get8_put_bytes_replicate.
    change (Z.to_nat tss_t.sizeof) with 108%nat. rewrite !decide_True by (unfold tss_t.esp0; lia). done.
  - rewrite (changed_get32 _ _ _ _ Hc) by (intros b Hb; apply Ht; unfold tss_t.io_base in *; lia).
    unfold m2. by rewrite get32_put32_eq.
  - unfold m3. rewrite (gdt_at_ext (put_gdt_desc m2 (GDT_BASE + 4 * 8) d4)); [apply gdt_at_put|].
    intros b Hb. rewrite !(put_gdt_desc_changed _ _ _ b) by lia. done.
  - unfold m3. rewrite (gdt_at_ext (put_gdt_desc (put_gdt_desc m2 (GDT_BASE + 4 * 8) d4) (GDT_BASE + 5 * 8) d5)); [apply gdt_at_put|].
    intros b Hb. rewrite (put_gdt_desc_changed _ _ _ b) by lia. done.
  - unfold m3. apply gdt_at_put.
  - eapply changed_trans; [|eapply changed_weaken; [exact Hc|by right]]. intros b Hb.
    unfold tss_bytes, tss_t.sizeof in Hb. unfold m2. rewrite !get8_put32_ne by (unfold tss_t.ss0, tss_t.io_base; lia).
    apply get8_put_bytes_ne. rewrite length_replicate. change (Z.to_nat tss_t.sizeof) with 108%nat. lia.
Qed.
End Init.
