(* ===== verification/Sched.v ===== *)
(** * The scheduler (thread/thread.c, proc/process.c: process_activate)

    Task structures live at the bottom of the page that holds the task's
    kernel stack.  The ready queue is the intrusive list of the
    [gene_list_tag]s.  [schedule] and its callers are proved to implement an
    abstract round-robin scheduler over a queue of tasks. *)

From S2P Require Import Prelude Machine Concrete Interrupt CString DList Paging Tss.

#[local] Open Scope Z_scope.

Inductive task_status := RUNNING | READY | BLOCKED | WAITING | HANGING | DIED.

#[export] Instance task_status_eq_dec : EqDecision task_status.
Proof. solve_decision. Defined.

(** The integers of [enum __task_status]. *)
Definition status_code (st : task_status) : Z :=
  match st with
  | RUNNING => 0 | READY => 1 | BLOCKED => 2 | WAITING => 3 | HANGING => 4 | DIED => 5
  end.

Definition status_of_code (c : Z) : task_status :=
  if c =? 0 then RUNNING else if c =? 1 then READY else if c =? 2 then BLOCKED
  else if c =? 3 then WAITING else if c =? 4 then HANGING else DIED.

Inductive node_type := GENERAL_LIST_NODE | ALL_LIST_NODE.

(** Offsets of [struct __task_struct]; they depend on [FD_MAX]. *)
Module task_struct.
Section Offsets.
Context {PL : Platform}.
Definition kstack : Z := 0.
Definition status : Z := 4.
Definition priority : Z := 8.
Definition pid : Z := 10.
Definition ava_time : Z := 12.
Definition elapsed_time : Z := 16.
Definition fd_table : Z := 20.
Definition name : Z := 20 + 4 * FD_MAX.
Definition gene_list_tag : Z := 36 + 4 * FD_MAX.
Definition all_list_tag : Z := 44 + 4 * FD_MAX.
Definition page_dir : Z := 52 + 4 * FD_MAX.
Definition user_vaddr : Z := 56 + 4 * FD_MAX.
Definition um_block_descs : Z := 68 + 4 * FD_MAX.
Definition stack_magic_num : Z := 236 + 4 * FD_MAX.
Definition sizeof : Z := 240 + 4 * FD_MAX.
End Offsets.
End task_struct.

Section Sched.
Context {PL : Platform} {LK : Linker}.

Definition running_thread : K Z := gets (fun s => Z.land (esp s) 0xfffff000).

(** The offset is measured on a local [temp], so it does not depend on it. *)
Definition node_to_task (node : Z) (type : node_type) : Z :=
  let offset := match type with
                | GENERAL_LIST_NODE => task_struct.gene_list_tag
                | ALL_LIST_NODE => task_struct.all_list_tag
                end in
  u32 (node - offset).

Definition get_thread_pid (thread : Z) : K Z := ld16 (thread + task_struct.pid).

(** thread/switch.S: the callee-saved registers are pushed, the stack pointer
    is saved in the first word of [curr] and loaded from the first word of
    [next].  What follows the call runs when [curr] is switched to again. *)
Definition switch_to (curr next : Z) : K unit := fun s =>
  let s := set_mem (put32 (mem s) curr (esp s)) s in
  let s := set_esp (get32 (mem s) next) s in
  Switch s (fun s' => Ok tt s').

Definition process_activate (thread : Z) : K unit :=
  ASSERT (negb (thread =? NULL)) "proc/process.c" 96 "process_activate" "thread != NULL";;
  pd ← ld32 (thread + task_struct.page_dir);
  pagedir_phy_addr ← (if negb (pd =? NULL) then vaddr_to_phy pd else mret 0x100000);
  modify (set_cr3 pagedir_phy_addr);;
  emit (SetCr3 pagedir_phy_addr);;
  pd ← ld32 (thread + task_struct.page_dir);
  when (negb (pd =? NULL)) (set_tss_esp0 thread).

Definition is_blocked_code (c : Z) : bool :=
  (c =? status_code BLOCKED) || (c =? status_code HANGING) || (c =? status_code WAITING).

Definition thread_unblock (thread : Z) : K unit :=
  status ← INTERRUPT_DISABLE;
  state ← ld32 (thread + task_struct.status);
  ASSERT (is_blocked_code state) "thread/thread.c" 223 "thread_unblock"
    "state == BLOCKED || state == HANGING || state == WAITING";;
  ex ← list_exist sym_ready_thread_list (thread + task_struct.gene_list_tag);
  ASSERT (negb ex) "thread/thread.c" 224 "thread_unblock"
    "list_exist(&ready_thread_list, &thread->gene_list_tag) == false";;
  list_push_front sym_ready_thread_list (thread + task_struct.gene_list_tag);;
  st32 (thread + task_struct.status) (status_code READY);;
  INTERRUPT_RESTORE status.

Definition schedule : K unit :=
  st ← intr_get_status;
  ASSERT (bool_decide (st = INTR_OFF)) "thread/thread.c" 136 "schedule"
    "intr_get_status() == INTR_OFF";;
  curr_thread ← running_thread;
  state ← ld32 (curr_thread + task_struct.status);
  when (state =? status_code RUNNING) (
    ex ← list_exist sym_ready_thread_list (curr_thread + task_struct.gene_list_tag);
    ASSERT (negb ex) "thread/thread.c" 141 "schedule"
      "list_exist(&ready_thread_list, &curr_thread->gene_list_tag) == false";;
    list_push_back sym_ready_thread_list (curr_thread + task_struct.gene_list_tag);;
    prio ← ld8 (curr_thread + task_struct.priority);
    st32 (curr_thread + task_struct.ava_time) prio;;
    st32 (curr_thread + task_struct.status) (status_code READY));;
  e ← list_empty sym_ready_thread_list;
  when e (idle ← getv idle_thread; thread_unblock idle);;
  temp_node ← list_pop_front sym_ready_thread_list;
  let next_thread := node_to_task temp_node GENERAL_LIST_NODE in
  st32 (next_thread + task_struct.status) (status_code RUNNING);;
  process_activate next_thread;;
  switch_to curr_thread next_thread.

Definition thread_block (state : task_status) : K unit :=
  status ← INTERRUPT_DISABLE;
  ASSERT (is_blocked_code (status_code state)) "thread/thread.c" 208 "thread_block"
    "state == BLOCKED || state == HANGING || state == WAITING";;
  curr_thread ← running_thread;
  st32 (curr_thread + task_struct.status) (status_code state);;
  schedule;;
  INTERRUPT_RESTORE status.

Definition thread_yield : K unit :=
  status ← INTERRUPT_DISABLE;
  curr ← running_thread;
  st32 (curr + task_struct.status) (status_code READY);;
  ex ← list_exist sym_ready_thread_list (curr + task_struct.gene_list_tag);
  ASSERT (negb ex) "thread/thread.c" 243 "thread_yield"
    "list_exist(&ready_thread_list, &curr->gene_list_tag) == false";;
  list_push_back sym_ready_thread_list (curr + task_struct.gene_list_tag);;
  schedule;;
  INTERRUPT_RESTORE status.
End Sched.

(** ** The abstract scheduler *)

(** The scheduling part of a task structure. *)
Record tcb := mkTcb {
  t_kstack : Z;
  t_status : task_status;
  t_priority : Z;
  t_ava_time : Z;
  t_elapsed_time : Z;
  t_page_dir : Z
}.

Definition with_status (st : task_status) (t : tcb) : tcb :=
  mkTcb (t_kstack t) st (t_priority t) (t_ava_time t) (t_elapsed_time t) (t_page_dir t).
Definition with_kstack (a : Z) (t : tcb) : tcb :=
  mkTcb a (t_status t) (t_priority t) (t_ava_time t) (t_elapsed_time t) (t_page_dir t).
Definition with_times (ava elapsed : Z) (t : tcb) : tcb :=
  mkTcb (t_kstack t) (t_status t) (t_priority t) ava elapsed (t_page_dir t).

Lemma snoc_not_nil {A} (l : list A) x : l ++ [x] <> [].
Proof. by destruct l. Qed.

Record sched := mkSched {
  s_esp : Z;             (* stack pointer of the running task *)
  s_ready : list Z;      (* ready queue, next task first *)
  s_tcb : Z -> tcb
}.

Definition page_of (a : Z) : Z := a - a mod 4096.
Definition s_cur (a : sched) : Z := page_of (s_esp a).
Definition alter_tcb (f : tcb -> tcb) (t : Z) (a : sched) : sched :=
  mkSched (s_esp a) (s_ready a) (fun u => if decide (u = t) then f (s_tcb a t) else s_tcb a u).
Definition set_ready (q : list Z) (a : sched) : sched := mkSched (s_esp a) q (s_tcb a).
Definition s_status (a : sched) (t : Z) : task_status := t_status (s_tcb a t).

Definition is_blocked (st : task_status) : Prop := st = BLOCKED \/ st = WAITING \/ st = HANGING.

(** A blocked task goes to the front of the queue. *)
Definition abs_unblock (t : Z) (a : sched) : sched :=
  alter_tcb (with_status READY) t (set_ready (t :: s_ready a) a).

(** The running task, preempted, goes to the back with a new time slice. *)
Definition abs_preempt (a : sched) : sched :=
  alter_tcb (fun t => with_times (t_priority t) (t_elapsed_time t) (with_status READY t))
    (s_cur a) (set_ready (s_ready a ++ [s_cur a]) a).

(** The head of the queue gets the processor. *)
Definition abs_switch (a : sched) : sched :=
  match s_ready a with
  | [] => a
  | n :: q =>
      let cur := s_cur a in
      let a1 := alter_tcb (with_status RUNNING) n (set_ready q a) in
      let a2 := alter_tcb (with_kstack (s_esp a)) cur a1 in
      mkSched (t_kstack (s_tcb a2 n)) (s_ready a2) (s_tcb a2)
  end.

Definition abs_schedule (idle : Z) (a : sched) : sched :=
  let a1 := if decide (s_status a (s_cur a) = RUNNING) then abs_preempt a else a in
  let a2 := if decide (s_ready a1 = []) then abs_unblock idle a1 else a1 in
  abs_switch a2.

Definition abs_block (idle : Z) (st : task_status) (a : sched) : sched :=
  abs_schedule idle (alter_tcb (with_status st) (s_cur a) a).

Definition abs_yield (idle : Z) (a : sched) : sched :=
  abs_schedule idle
    (alter_tcb (with_status READY) (s_cur a) (set_ready (s_ready a ++ [s_cur a]) a)).

(** ** Reachability and the scheduling invariant *)
Section Abstract.
Context (tasks : list Z) (idle : Z).

(** What holds whenever [schedule] is entered: the queue holds exactly the
    ready tasks, once each; only the current task can be running; the saved
    stack pointer of every other task points into its own page. *)
Record wf (a : sched) : Prop := {
  wf_cur : s_cur a ∈ tasks;
  wf_nodup : NoDup (s_ready a);
  wf_ready : forall t, t ∈ s_ready a <-> t ∈ tasks /\ s_status a t = READY;
  wf_run : forall t, t ∈ tasks -> s_status a t = RUNNING -> t = s_cur a;
  wf_stack : forall t, t ∈ tasks -> t <> s_cur a -> page_of (t_kstack (s_tcb a t)) = t;
  wf_idle : idle ∈ tasks;
  wf_idle_alive : s_status a idle <> DIED
}.

(** Between two scheduling operations the current task is the running one. *)
Definition inv (a : sched) : Prop := wf a /\ s_status a (s_cur a) = RUNNING.

Lemma status_alter a f t u :
  s_status (alter_tcb f t a) u = if decide (u = t) then t_status (f (s_tcb a t)) else s_status a u.
Proof. unfold s_status, alter_tcb. cbn. by case_decide. Qed.

Lemma wf_sub a t : wf a -> t ∈ s_ready a -> t ∈ tasks.
Proof. intros Hw Ht. by apply (wf_ready _ Hw) in Ht as [? _]. Qed.

Lemma wf_unblock a t :
  wf a -> t ∈ tasks -> is_blocked (s_status a t) -> wf (abs_unblock t a).
Proof.
  intros [Hc Hn Hr Hrun Hs Hi Hd] Ht Hb. unfold abs_unblock.
  assert (Hnot : t ∉ s_ready a).
  { rewrite Hr. intros [_ E]. rewrite E in Hb. destruct Hb as [?|[?|?]]; done. }
  constructor; cbn.
  - done.
  - by constructor.
  - intros u. rewrite elem_of_cons, Hr, status_alter. cbn. case_decide; [subst; by tauto|].
    unfold s_status; cbn. tauto.
  - intros u Hu. rewrite status_alter. cbn. case_decide; [done|]. by apply Hrun.
  - intros u Hu Hne. case_decide; [subst; cbn|]; by apply Hs.
  - done.
  - rewrite status_alter. cbn. by case_decide.
Qed.

Lemma wf_preempt a : wf a -> s_status a (s_cur a) = RUNNING -> wf (abs_preempt a).
Proof.
  intros [Hc Hn Hr Hrun Hs Hi Hd] HR. unfold abs_preempt.
  assert (Hnot : s_cur a ∉ s_ready a) by (rewrite Hr, HR; by intros [_ ?]).
  constructor; cbn.
  - done.
  - apply NoDup_app. split_and!; [done| |apply NoDup_singleton].
    intros u Hu ->%list_elem_of_singleton. done.
  - intros u. rewrite elem_of_app, list_elem_of_singleton, Hr, status_alter. cbn.
    case_decide; [subst; by tauto|]. unfold s_status; cbn. tauto.
  - intros u Hu. rewrite status_alter. cbn. case_decide; [done|]. by apply Hrun.
  - intros u Hu Hne. case_decide; [done|]. by apply Hs.
  - done.
  - rewrite status_alter. cbn. by case_decide.
Qed.

Lemma cur_switch a n q :
  wf a -> s_ready a = n :: q -> s_cur (abs_switch a) = n.
Proof.
  intros Hw E. unfold abs_switch. rewrite E. cbn.
  assert (Hin : n ∈ tasks) by (apply (wf_sub a); [done|rewrite E; by left]).
  case_decide as H1; [subst; unfold s_cur; cbn; done|].
  unfold s_cur at 1. cbn. rewrite decide_True by done. cbn. by apply (wf_stack _ Hw).
Qed.

Lemma inv_switch a n q : wf a -> s_ready a = n :: q -> (forall t, t ∈ tasks -> s_status a t <> RUNNING) ->
  inv (abs_switch a).
Proof.
  intros Hw E Hnr. pose proof (cur_switch _ _ _ Hw E) as Ec.
  destruct Hw as [Hc Hn Hr Hrun Hs Hi Hd].
  assert (Hin : n ∈ tasks) by (apply Hr; rewrite E; by left).
  assert (Est : forall t, s_status (abs_switch a) t = if decide (t = n) then RUNNING else s_status a t).
  { intros t. unfold abs_switch. rewrite E. unfold s_status; cbn.
    repeat (case_decide; subst; cbn); done. }
  split; [|rewrite Ec, Est; by rewrite decide_True].
  rewrite E in Hn. apply NoDup_cons in Hn as [Hnq Hn].
  constructor.
  - by rewrite Ec.
  - unfold abs_switch. by rewrite E.
  - intros t. rewrite Est. unfold abs_switch at 1. rewrite E. cbn.
    specialize (Hr t). rewrite E, elem_of_cons in Hr. case_decide; [subst|].
    + by split; [|intros [_ ?]].
    + rewrite <- Hr. tauto.
  - intros t Ht. rewrite Est, Ec. case_decide; [done|]. intros HR. by destruct (Hnr t).
  - intros t Ht. rewrite Ec. intros Hne. unfold abs_switch. rewrite E. cbn.
    case_decide; [by subst|]. rewrite decide_False by done. by apply Hs.
  - done.
  - rewrite Est. by case_decide.
Qed.

(** The state in which [abs_schedule] picks the next task. *)
Definition abs_refill (a : sched) : sched :=
  let a1 := if decide (s_status a (s_cur a) = RUNNING) then abs_preempt a else a in
  if decide (s_ready a1 = []) then abs_unblock idle a1 else a1.

Lemma abs_schedule_refill a : abs_schedule idle a = abs_switch (abs_refill a).
Proof. done. Qed.

(** When the queue is empty the idle task is blocked. *)
Lemma idle_blocked a :
  wf a -> s_status a (s_cur a) <> RUNNING -> s_ready a = [] -> is_blocked (s_status a idle).
Proof.
  intros Hw Hc E. unfold is_blocked. destruct (s_status a idle) eqn:Es; auto; exfalso.
  - pose proof (wf_run _ Hw idle (wf_idle _ Hw) Es) as Ei. congruence.
  - assert (Hin : idle ∈ s_ready a) by (apply (wf_ready _ Hw); exact (conj (wf_idle _ Hw) Es)).
    rewrite E in Hin. by apply not_elem_of_nil in Hin.
  - by apply (wf_idle_alive _ Hw).
Qed.

Lemma wf_refill a :
  wf a -> wf (abs_refill a) /\ s_ready (abs_refill a) <> [] /\
  (forall t, t ∈ tasks -> s_status (abs_refill a) t <> RUNNING).
Proof.
  intros Hw. unfold abs_refill. destruct (decide (s_status a (s_cur a) = RUNNING)) as [HR|HR].
  - assert (Hne : s_ready (abs_preempt a) <> []).
    { unfold abs_preempt. cbn. apply snoc_not_nil. }
    rewrite decide_False by done. split; [by apply wf_preempt|]. split; [done|].
    intros t Ht. unfold abs_preempt. rewrite status_alter. cbn. case_decide; [done|].
    intros E. by apply (wf_run _ Hw) in E.
  - assert (Hno : forall t, t ∈ tasks -> s_status a t <> RUNNING).
    { intros t Ht E. pose proof (wf_run _ Hw _ Ht E). by subst. }
    destruct (decide (s_ready a = [])) as [E|E]; [|done]. pose proof (idle_blocked _ Hw HR E) as Hb.
    split_and!; [apply wf_unblock; [done|apply (wf_idle _ Hw)|done]|by unfold abs_unblock|].
    intros t Ht. unfold abs_unblock. rewrite status_alter. cbn. case_decide; [done|]. by apply Hno.
Qed.

Lemma inv_schedule a : wf a -> inv (abs_schedule idle a).
Proof.
  intros Hw. rewrite abs_schedule_refill. destruct (wf_refill _ Hw) as (Hw' & Hne & Hno).
  destruct (s_ready (abs_refill a)) as [|n q] eqn:E; [done|]. by eapply inv_switch.
Qed.

Lemma wf_block a st : inv a -> is_blocked st -> wf (alter_tcb (with_status st) (s_cur a) a).
Proof.
  intros [[Hc Hn Hr Hrun Hs Hi Hd] HR] Hb. constructor; cbn; try done.
  - intros t. rewrite Hr, status_alter. cbn. case_decide; [|done]. subst. rewrite HR.
    split; [by intros [_ ?]|]. intros [_ ->]. by destruct Hb as [?|[?|?]].
  - intros t Ht. rewrite status_alter. cbn. case_decide; [done|]. by apply Hrun.
  - intros t Ht Hne. case_decide; [done|]. by apply Hs.
  - rewrite status_alter. cbn. case_decide; [|done]. intros ->. by destruct Hb as [?|[?|?]].
Qed.

Lemma wf_yield a : inv a ->
  wf (alter_tcb (with_status READY) (s_cur a) (set_ready (s_ready a ++ [s_cur a]) a)).
Proof.
  intros [[Hc Hn Hr Hrun Hs Hi Hd] HR].
  assert (Hnot : s_cur a ∉ s_ready a) by (rewrite Hr, HR; by intros [_ ?]).
  constructor; cbn; try done.
  - apply NoDup_app. split_and!; [done| |apply NoDup_singleton].
    intros u Hu ->%list_elem_of_singleton. done.
  - intros u. rewrite elem_of_app, list_elem_of_singleton, Hr, status_alter. cbn.
    case_decide; [subst; by tauto|]. unfold s_status; cbn. tauto.
  - intros u Hu. rewrite status_alter. cbn. case_decide; [done|]. by apply Hrun.
  - intros u Hu Hne. case_decide; [done|]. by apply Hs.
  - rewrite status_alter. cbn. by case_decide.
Qed.

(** The operations of the scheduler; [as_run] is the running task using its
    stack, [as_tick] the clock charging it. *)
Inductive astep (a : sched) : sched -> Prop :=
  | as_preempt : astep a (abs_schedule idle a)
  | as_block st : is_blocked st -> astep a (abs_block idle st a)
  | as_yield : astep a (abs_yield idle a)
  | as_unblock t : t ∈ tasks -> is_blocked (s_status a t) -> astep a (abs_unblock t a)
  | as_run esp' : page_of esp' = s_cur a -> astep a (mkSched esp' (s_ready a) (s_tcb a))
  | as_tick ava elapsed : astep a (alter_tcb (with_times ava elapsed) (s_cur a) a).

Lemma inv_step a a' : inv a -> astep a a' -> inv a'.
Proof.
  intros Hi. inversion 1 as [|st Hb| |t Ht Hb|e He|v e]; subst.
  - apply inv_schedule, Hi.
  - by apply inv_schedule, wf_block.
  - by apply inv_schedule, wf_yield.
  - destruct Hi as [Hw HR]. split; [by apply wf_unblock|].
    unfold abs_unblock. rewrite status_alter. cbn. case_decide as E; [|done].
    change (s_cur a = t) in E. subst t. rewrite HR in Hb. by destruct Hb as [?|[?|?]].
  - destruct Hi as [[Hc Hn Hr Hrun Hs Hi Hd] HR]. unfold inv, s_cur in *. cbn. rewrite He.
    split; [|done]. constructor; unfold s_cur in *; cbn; rewrite ?He; done.
  - destruct Hi as [[Hc Hn Hr Hrun Hs Hi Hd] HR].
    assert (E : forall t, s_status (alter_tcb (with_times v e) (s_cur a) a) t = s_status a t).
    { intros t. rewrite status_alter. by case_decide; subst. }
    split; [|change (s_status (alter_tcb (with_times v e) (s_cur a) a) (s_cur a) = RUNNING); by rewrite E].
    constructor; cbn; try done.
    + intros t. by rewrite E.
    + intros t. rewrite E. apply Hrun.
    + intros t Ht Hne. case_decide; [done|]. by apply Hs.
    + by rewrite E.
Qed.
End Abstract.

(** ** Representation in memory *)

Ltac offsets :=
  unfold task_struct.kstack, task_struct.status, task_struct.priority, task_struct.pid,
    task_struct.ava_time, task_struct.elapsed_time, task_struct.fd_table, task_struct.name,
    task_struct.gene_list_tag, task_struct.all_list_tag, task_struct.page_dir,
    task_struct.user_vaddr, task_struct.um_block_descs, task_struct.stack_magic_num,
    task_struct.sizeof in *.

(** The task structure at [t] holds [c]. *)
Record tcb_at {PL : Platform} (m : memory) (t : Z) (c : tcb) : Prop := {
  at_kstack : get32 m (t + task_struct.kstack) = t_kstack c;
  at_status : get32 m (t + task_struct.status) = status_code (t_status c);
  at_priority : get8 m (t + task_struct.priority) = t_priority c;
  at_ava_time : get32 m (t + task_struct.ava_time) = t_ava_time c;
  at_elapsed_time : get32 m (t + task_struct.elapsed_time) = t_elapsed_time c;
  at_page_dir : get32 m (t + task_struct.page_dir) = t_page_dir c
}.

Lemma status_code_inj st st' : status_code st = status_code st' -> st = st'.
Proof. by destruct st, st'. Qed.
Lemma status_code_u32 st : u32 (status_code st) = status_code st.
Proof. by destruct st. Qed.
Lemma is_blocked_spec st : is_blocked_code (status_code st) = true <-> is_blocked st.
Proof.
  unfold is_blocked. destruct st; cbn; split; intros H; auto; try done; by destruct H as [?|[?|?]].
Qed.

Section Refinement.
Context {PL : Platform} {LK : Linker} (tasks : list Z).

(** Where the linker and the page allocator put things: every task has a page
    of its own below the page-table window, apart from the ready list and the
    TSS; and the caller of [pte_ptr] finds the local [pte] in the return
    register. *)
Record layout : Prop := {
  lay_fd : 0 <= FD_MAX <= 900;
  lay_page : forall t, t ∈ tasks -> t mod 4096 = 0 /\ 0 < t /\ t + 4096 <= 0xffc00000;
  lay_ready : 0 <= sym_ready_thread_list /\ sym_ready_thread_list + 16 <= 0xffc00000;
  lay_ready_task : forall t, t ∈ tasks ->
    sym_ready_thread_list + 16 <= t \/ t + 4096 <= sym_ready_thread_list;
  lay_tss : 0 <= sym_tss /\ sym_tss + tss_t.sizeof <= 0xffc00000;
  lay_tss_task : forall t, t ∈ tasks -> sym_tss + tss_t.sizeof <= t \/ t + 4096 <= sym_tss;
  lay_tss_ready : sym_tss + tss_t.sizeof <= sym_ready_thread_list \/
    sym_ready_thread_list + 16 <= sym_tss;
  lay_pte : forall v, pte_ptr_ret v = v
}.

Definition tag (t : Z) : Z := t + task_struct.gene_list_tag.

Record rep (a : sched) (m : memory) : Prop := {
  rep_list : dlist m sym_ready_thread_list (map tag (s_ready a));
  rep_tcb : forall t, t ∈ tasks -> tcb_at m t (s_tcb a t);
  rep_sub : forall t, t ∈ s_ready a -> t ∈ tasks
}.

(** A list of task tags kept at [l]: the ready list, or the waiters of a
    semaphore.  Its ends are in no task's page. *)
Definition list_home (l : Z) : Prop :=
  0 <= l /\ l + list.sizeof <= 2 ^ 32 /\
  forall t, t ∈ tasks -> l + list.sizeof <= t \/ t + 4096 <= l.

Record task_queue (m : memory) (l : Z) (q : list Z) : Prop := {
  tq_list : dlist m l (map tag q);
  tq_sub : forall t, t ∈ q -> t ∈ tasks
}.

(** The bytes of the list at [l] and of the tags of the tasks [q]; the scalar
    fields of the task structures; the ring-0 stack pointer of the TSS. *)
Definition list_bytes (l : Z) (q : list Z) (b : Z) : Prop :=
  l <= b < l + list.sizeof \/ Exists (fun t => tag t <= b < tag t + 8) q.
Definition queue_bytes : list Z -> Z -> Prop := list_bytes sym_ready_thread_list.
Definition scalar_bytes (b : Z) : Prop := Exists (fun t => t <= b < t + 20) tasks.
Definition esp0_bytes (b : Z) : Prop := sym_tss + 4 <= b < sym_tss + 8.
Definition sched_bytes (q : list Z) (b : Z) : Prop :=
  queue_bytes q b \/ scalar_bytes b \/ esp0_bytes b.

Hypothesis Hlay : layout.

Lemma node_bytes_queue l q b :
  node_bytes (with_ends l (map tag q)) b -> list_bytes l q b.
Proof.
  unfold node_bytes, with_ends, list_bytes. rewrite Exists_cons, Exists_app, Exists_cons, Exists_nil.
  intros [H|[H|[H|[]]]]; [nodes; lia| |nodes; lia]. right.
  apply Exists_exists in H as (x & (t & -> & Ht)%list_elem_of_fmap & Hb).
  apply Exists_exists. exists t. split; [done|]. nodes. lia.
Qed.

(** Pages of different tasks are disjoint. *)
Lemma pages_apart t u : t ∈ tasks -> u ∈ tasks -> t <> u -> t + 4096 <= u \/ u + 4096 <= t.
Proof.
  intros Ht Hu Hne. destruct (lay_page Hlay t Ht) as (H1 & _). destruct (lay_page Hlay u Hu) as (H2 & _).
  zlia.
Qed.

Ltac layfacts :=
  let H := fresh in
  pose proof (lay_fd Hlay); pose proof (lay_ready Hlay); pose proof (lay_tss Hlay);
  pose proof (lay_tss_ready Hlay);
  repeat match goal with
  | Ht : ?t ∈ tasks |- _ =>
      lazymatch goal with
      | _ : sym_ready_thread_list + 16 <= t \/ _ |- _ => fail
      | _ => pose proof (lay_page Hlay t Ht); pose proof (lay_ready_task Hlay t Ht);
             pose proof (lay_tss_task Hlay t Ht)
      end
  end.

Lemma tag_node t : t ∈ tasks -> is_node (tag t).
Proof. intros Ht. layfacts. unfold tag. offsets. nodes. lia. Qed.

Lemma ready_home : list_home sym_ready_thread_list.
Proof.
  pose proof (lay_ready Hlay). split_and!; [lia|unfold list.sizeof; lia|apply (lay_ready_task Hlay)].
Qed.

Lemma tag_apart l q t :
  list_home l -> t ∈ tasks -> (forall u, u ∈ q -> u ∈ tasks) -> t ∉ q ->
  Forall (apart (tag t)) (with_ends l (map tag q)).
Proof.
  intros (Hl0 & Hl1 & Hl) Ht Hq Hn. specialize (Hl t Ht). layfacts. unfold with_ends. constructor; [unfold tag; offsets; nodes; lia|].
  apply Forall_app. split; [|constructor; [unfold tag; offsets; nodes; lia|constructor]].
  apply Forall_forall. intros x (u & -> & Hu)%list_elem_of_fmap.
  destruct (pages_apart t u Ht (Hq u Hu)) as [H'|H']; [by intros ->| |];
    unfold tag; offsets; nodes; lia.
Qed.

Lemma tcb_frame m m' t c :
  (forall b, t <= b < t + 20 \/ t + task_struct.page_dir <= b < t + task_struct.page_dir + 4 ->
     get8 m' b = get8 m b) -> tcb_at m t c -> tcb_at m' t c.
Proof.
  pose proof (lay_fd Hlay). intros Hb [H1 H2 H3 H4 H5 H6]. offsets.
  constructor; offsets; rewrite <- ?H1, <- ?H2, <- ?H3, <- ?H4, <- ?H5, <- ?H6;
    first [apply get32_ext; intros b ?; apply Hb; lia | apply Hb; lia].
Qed.

(** Changes to a list of tags leave the scalar fields alone, and any other
    list of tags of other tasks. *)
Lemma tcb_list_frame l q m m' t c :
  list_home l -> t ∈ tasks -> (forall u, u ∈ q -> u ∈ tasks) ->
  changed_only (list_bytes l q) m m' -> tcb_at m t c -> tcb_at m' t c.
Proof.
  intros (_ & _ & Hl) Ht Hq Hc. specialize (Hl t Ht). apply tcb_frame. intros b Hb. apply Hc.
  unfold list.sizeof in *.
  intros [Hr|Hx]; [unfold list.sizeof in *; layfacts; offsets; lia|].
  apply Exists_exists in Hx as (u & Hu & Hub). apply Hq in Hu. unfold tag in Hub. offsets.
  destruct (decide (t = u)) as [->|Hne]; [layfacts; lia|].
  destruct (pages_apart t u Ht Hu Hne); layfacts; lia.
Qed.

Lemma task_queue_frame l q (P : Z -> Prop) m m' :
  changed_only P m m' -> (forall b, list_bytes l q b -> ~ P b) ->
  task_queue m l q -> task_queue m' l q.
Proof.
  intros Hc HP [Hd Hs]. constructor; [|done]. eapply dlist_frame; [|done].
  intros b Hb%node_bytes_queue. apply Hc. by apply HP.
Qed.

Lemma list_bytes_disjoint l q l' q' b :
  list_home l -> list_home l' -> l + list.sizeof <= l' \/ l' + list.sizeof <= l ->
  (forall t, t ∈ q -> t ∈ tasks) -> (forall t, t ∈ q' -> t ∈ tasks) ->
  (forall t, t ∈ q -> t ∉ q') -> list_bytes l q b -> ~ list_bytes l' q' b.
Proof.
  intros (_ & _ & Hl) (_ & _ & Hl') Hll Hq Hq' Hd [Hb|Hb] [Hb'|Hb'].
  - lia.
  - apply Exists_exists in Hb' as (u & Hu & Hub). apply Hq' in Hu. specialize (Hl u Hu).
    unfold tag, list.sizeof in *. layfacts. offsets. lia.
  - apply Exists_exists in Hb as (u & Hu & Hub). apply Hq in Hu. specialize (Hl' u Hu).
    unfold tag, list.sizeof in *. layfacts. offsets. lia.
  - apply Exists_exists in Hb as (u & Hu & Hub). apply Exists_exists in Hb' as (v & Hv & Hvb).
    assert (Hne : u <> v) by (intros ->; by apply (Hd v)).
    apply Hq in Hu. apply Hq' in Hv. pose proof (pages_apart u v Hu Hv Hne).
    unfold tag in *. layfacts. offsets. lia.
Qed.

Lemma rep_queue q' a m m' q :
  rep a m -> task_queue m' sym_ready_thread_list q' ->
  (forall u, u ∈ q -> u ∈ tasks) -> changed_only (queue_bytes q) m m' -> rep (set_ready q' a) m'.
Proof.
  intros [Hl Ht Hs] [Hd Hq'] Hq Hc. constructor; cbn; [done| |done].
  intros t Hin. by eapply (tcb_list_frame _ q m); [apply ready_home| | | |apply Ht].
Qed.

(** A list of other tasks changes. *)
Lemma rep_list_frame a l q m m' :
  rep a m -> list_home l ->
  l + list.sizeof <= sym_ready_thread_list \/ sym_ready_thread_list + list.sizeof <= l ->
  (forall t, t ∈ q -> t ∈ tasks) -> (forall t, t ∈ q -> t ∉ s_ready a) ->
  changed_only (list_bytes l q) m m' -> rep a m'.
Proof.
  intros [Hl Ht Hs] Hh Hap Hq Hd Hc. constructor; [| |done].
  - eapply (task_queue_frame _ _ _ _ _ Hc); [|by constructor].
    intros b Hb. intros Hb2. revert Hb2 Hb. by apply list_bytes_disjoint; [|apply ready_home|..].
  - intros t Hin. by eapply tcb_list_frame; [| | | |apply Ht].
Qed.

Lemma scalar_list_disjoint l q t b :
  list_home l -> (forall u, u ∈ q -> u ∈ tasks) -> t ∈ tasks ->
  list_bytes l q b -> t <= b < t + 20 -> False.
Proof.
  intros (_ & _ & Hl) Hq Ht [Hb|Hb] Hbt; [specialize (Hl t Ht); unfold list.sizeof in *; lia|].
  apply Exists_exists in Hb as (u & Hu & Hub). apply Hq in Hu. unfold tag in Hub.
  layfacts. offsets. destruct (decide (t = u)) as [->|Hne]; [lia|].
  destruct (pages_apart t u Ht Hu Hne); layfacts; lia.
Qed.

(** Writing the scalar fields of one task. *)
Lemma rep_update a m m' t f :
  rep a m -> t ∈ tasks -> changed_only (fun b => t <= b < t + 20) m m' ->
  tcb_at m' t (f (s_tcb a t)) -> rep (alter_tcb f t a) m'.
Proof.
  intros [Hl Ht Hs] Hin Hc Hf. constructor; cbn; [| |done].
  - eapply (task_queue_frame _ _ _ _ _ Hc); [|by constructor]. intros b Hb Hbt.
    by apply (scalar_list_disjoint _ _ t b ready_home Hs Hin Hb).
  - intros u Hu. case_decide as E; [by subst|]. eapply tcb_frame; [|by apply Ht].
    intros b Hb. apply Hc. layfacts. offsets. destruct (pages_apart t u Hin Hu); [congruence|lia|layfacts; lia].
Qed.

(** *** The list operations on a list of tags *)

Lemma after_critical_off s m' : intr_flag s = false -> after_critical s m' = set_mem m' s.
Proof.
  intros Hf. unfold after_critical, flag_after. rewrite Hf. destruct s; cbn in *; subst.
  by case_decide.
Qed.

Lemma node_bytes_cons x l b : node_bytes (x :: l) b <-> x <= b < x + 8 \/ node_bytes l b.
Proof. unfold node_bytes. by rewrite Exists_cons. Qed.

Lemma list_bytes_cons l t q b :
  list_bytes l (t :: q) b <-> tag t <= b < tag t + 8 \/ list_bytes l q b.
Proof. unfold list_bytes. rewrite Exists_cons. tauto. Qed.

Lemma changed_nodes l q m m' :
  changed_only (node_bytes (with_ends l (map tag q))) m m' -> changed_only (list_bytes l q) m m'.
Proof. intros Hc b Hb. apply Hc. by intros ?%node_bytes_queue. Qed.

Lemma changed_push l q t m m' :
  changed_only (node_bytes (tag t :: with_ends l (map tag q))) m m' ->
  changed_only (list_bytes l (t :: q)) m m'.
Proof.
  intros Hc b Hb. apply Hc. rewrite node_bytes_cons. intros Hn. apply Hb, list_bytes_cons.
  destruct Hn as [?|?%node_bytes_queue]; auto.
Qed.

Section TaskQueue.
Context (l : Z) (q : list Z) (s : machine).
Hypothesis Hhome : list_home l.
Hypothesis Hq : task_queue (mem s) l q.
Hypothesis Hoff : intr_flag s = false.

Lemma queue_push_back t : t ∈ tasks -> t ∉ q ->
  exists m', list_push_back l (tag t) s = Ok tt (set_mem m' s) /\
    task_queue m' l (q ++ [t]) /\ changed_only (list_bytes l (t :: q)) (mem s) m'.
Proof.
  intros Ht Hn. destruct Hq as [Hl Hs].
  destruct (list_push_back_run _ _ (tag t) s Hl) as (m' & E & Hd & Hc);
    [by apply tag_node|by apply tag_apart|].
  exists m'. rewrite E, after_critical_off by done. apply changed_push in Hc.
  split_and!; [done| |done]. constructor; [by rewrite map_app|].
  intros u [?| ->%list_elem_of_singleton]%elem_of_app; auto.
Qed.

Lemma queue_push_front t : t ∈ tasks -> t ∉ q ->
  exists m', list_push_front l (tag t) s = Ok tt (set_mem m' s) /\
    task_queue m' l (t :: q) /\ changed_only (list_bytes l (t :: q)) (mem s) m'.
Proof.
  intros Ht Hn. destruct Hq as [Hl Hs].
  destruct (list_push_front_run _ _ (tag t) s Hl) as (m' & E & Hd & Hc);
    [by apply tag_node|by apply tag_apart|].
  exists m'. rewrite E, after_critical_off by done. apply changed_push in Hc.
  split_and!; [done| |done]. constructor; [done|].
  intros u [ ->|?]%elem_of_cons; auto.
Qed.

Lemma queue_pop_front t q' : q = t :: q' ->
  exists m', list_pop_front l s = Ok (tag t) (set_mem m' s) /\
    task_queue m' l q' /\ changed_only (list_bytes l q') (mem s) m'.
Proof.
  intros Eq. destruct Hq as [Hl Hs]. rewrite Eq in Hl.
  destruct (list_pop_front_run _ _ _ s Hl) as (m' & E & Hd & Hc).
  exists m'. rewrite E, after_critical_off by done.
  split_and!; [done| |by apply changed_nodes].
  constructor; [done|]. intros u Hu. apply Hs. rewrite Eq. by right.
Qed.

Lemma tag_inj t u : tag t = tag u -> t = u.
Proof. unfold tag. lia. Qed.

Lemma queue_exist t : list_exist l (tag t) s = Ok (bool_decide (t ∈ q)) s.
Proof.
  rewrite (list_exist_run _ _ _ _ (tq_list _ _ _ Hq)). f_equal. apply bool_decide_ext.
  rewrite list_elem_of_fmap. split; [by intros (u & ->%tag_inj & ?)|by eauto].
Qed.

Lemma queue_empty : list_empty l s = Ok (bool_decide (q = [])) s.
Proof.
  rewrite (list_empty_run _ _ _ (tq_list _ _ _ Hq)). f_equal. apply bool_decide_ext.
  by destruct q.
Qed.
End TaskQueue.

(** *** The ready queue *)
Section Queue.
Context (a : sched) (s : machine).
Hypothesis Hrep : rep a (mem s).
Hypothesis Hoff : intr_flag s = false.

Lemma rep_task_queue : task_queue (mem s) sym_ready_thread_list (s_ready a).
Proof. by destruct Hrep. Qed.

Lemma rep_push_back t :
  t ∈ tasks -> t ∉ s_ready a ->
  exists m', list_push_back sym_ready_thread_list (tag t) s = Ok tt (set_mem m' s) /\
    rep (set_ready (s_ready a ++ [t]) a) m' /\
    changed_only (queue_bytes (t :: s_ready a)) (mem s) m'.
Proof.
  intros Ht Hn.
  destruct (queue_push_back _ _ s ready_home rep_task_queue Hoff t Ht Hn) as (m' & E & Hd & Hc).
  exists m'. split_and!; [done| |done].
  eapply (rep_queue _ _ _ _ (t :: s_ready a)); [done..| |done].
  intros u [ ->|?]%elem_of_cons; [done|]. by apply (rep_sub _ _ Hrep).
Qed.

Lemma rep_push_front t :
  t ∈ tasks -> t ∉ s_ready a ->
  exists m', list_push_front sym_ready_thread_list (tag t) s = Ok tt (set_mem m' s) /\
    rep (set_ready (t :: s_ready a) a) m' /\
    changed_only (queue_bytes (t :: s_ready a)) (mem s) m'.
Proof.
  intros Ht Hn.
  destruct (queue_push_front _ _ s ready_home rep_task_queue Hoff t Ht Hn) as (m' & E & Hd & Hc).
  exists m'. split_and!; [done| |done].
  eapply (rep_queue _ _ _ _ (t :: s_ready a)); [done..| |done].
  intros u [ ->|?]%elem_of_cons; [done|]. by apply (rep_sub _ _ Hrep).
Qed.

Lemma rep_pop_front t q :
  s_ready a = t :: q ->
  exists m', list_pop_front sym_ready_thread_list s = Ok (tag t) (set_mem m' s) /\
    rep (set_ready q a) m' /\ changed_only (queue_bytes q) (mem s) m'.
Proof.
  intros Eq. destruct (queue_pop_front _ _ s rep_task_queue Hoff t q Eq) as (m' & E & Hd & Hc).
  exists m'. split_and!; [done| |done]. eapply rep_queue; [done..| |done]. apply (tq_sub _ _ _ Hd).
Qed.

Lemma rep_exist t : list_exist sym_ready_thread_list (tag t) s = Ok (bool_decide (t ∈ s_ready a)) s.
Proof. apply queue_exist, rep_task_queue. Qed.

Lemma rep_empty : list_empty sym_ready_thread_list s = Ok (bool_decide (s_ready a = [])) s.
Proof. apply queue_empty, rep_task_queue. Qed.
End Queue.

Lemma node_to_task_tag t : t ∈ tasks -> node_to_task (tag t) GENERAL_LIST_NODE = t.
Proof. intros Ht. layfacts. unfold node_to_task, tag. offsets. rewrite u32_small; lia. Qed.

(** *** Writing one field *)

Lemma rep_put_status a m t st :
  rep a m -> t ∈ tasks ->
  rep (alter_tcb (with_status st) t a) (put32 m (t + task_struct.status) (status_code st)).
Proof.
  intros Hr Ht. layfacts. eapply rep_update; [done|done| |].
  - intros b Hb. apply get8_put32_ne. offsets. lia.
  - destruct (rep_tcb _ _ Hr t Ht) as [G1 G2 G3 G4 G5 G6]. offsets.
    constructor; offsets; cbn; mem_simpl; try done. apply status_code_u32.
Qed.

Lemma rep_put_times a m t v e :
  rep a m -> t ∈ tasks -> 0 <= v < 2 ^ 32 -> 0 <= e < 2 ^ 32 ->
  rep (alter_tcb (with_times v e) t a)
    (put32 (put32 m (t + task_struct.elapsed_time) e) (t + task_struct.ava_time) v).
Proof.
  intros Hr Ht Hv He. layfacts. eapply rep_update; [done|done| |].
  - intros b Hb. offsets. rewrite !get8_put32_ne by lia. done.
  - destruct (rep_tcb _ _ Hr t Ht) as [G1 G2 G3 G4 G5 G6]. offsets.
    constructor; offsets; cbn; mem_simpl; try done; by apply u32_small.
Qed.

(** A new time slice for a task that is made ready. *)
Lemma rep_put_slice a m t :
  rep a m -> t ∈ tasks ->
  rep (alter_tcb (fun c => with_times (t_priority c) (t_elapsed_time c) (with_status READY c)) t a)
    (put32 (put32 m (t + task_struct.ava_time) (get8 m (t + task_struct.priority)))
       (t + task_struct.status) (status_code READY)).
Proof.
  intros Hr Ht. layfacts. eapply rep_update; [done|done| |].
  - intros b Hb. offsets. rewrite !get8_put32_ne by lia. done.
  - destruct (rep_tcb _ _ Hr t Ht) as [G1 G2 G3 G4 G5 G6]. offsets.
    pose proof (get8_range m (t + 8)).
    constructor; offsets; cbn [t_kstack t_status t_priority t_ava_time t_elapsed_time t_page_dir
      with_times with_status]; mem_simpl; try done.
    rewrite u32_small; [done|lia].
Qed.

Lemma rep_put_kstack a m t v :
  rep a m -> t ∈ tasks -> 0 <= v < 2 ^ 32 ->
  rep (alter_tcb (with_kstack v) t a) (put32 m t v).
Proof.
  intros Hr Ht Hv. layfacts. eapply rep_update; [done|done| |].
  - intros b Hb. apply get8_put32_ne. lia.
  - destruct (rep_tcb _ _ Hr t Ht) as [G1 G2 G3 G4 G5 G6]. offsets.
    constructor; offsets; cbn; rewrite ?Z.add_0_r in *; mem_simpl; try done. by apply u32_small.
Qed.

(** *** The operations *)

Definition queue_scalar_bytes (q : list Z) (b : Z) : Prop := queue_bytes q b \/ scalar_bytes b.

Lemma scalar_in t m v :
  t ∈ tasks -> forall o, 0 <= o <= 16 -> changed_only scalar_bytes m (put32 m (t + o) v).
Proof.
  intros Ht o Ho b Hb. apply get8_put32_ne. intros Hbt. apply Hb. apply Exists_exists.
  exists t. split; [done|lia].
Qed.



Lemma thread_unblock_run a t s :
  rep a (mem s) -> t ∈ tasks -> is_blocked (s_status a t) -> t ∉ s_ready a ->
  exists m', thread_unblock t s = Ok tt (after_critical s m') /\ rep (abs_unblock t a) m' /\
    changed_only (queue_scalar_bytes (t :: s_ready a)) (mem s) m'.
Proof.
  intros Hr Ht Hb Hn. unfold thread_unblock, INTERRUPT_DISABLE.
  rewrite (bind_ok _ _ _ _ _ (intr_disable_run s)).
  set (s0 := set_intr_flag false s).
  destruct (rep_push_front a s0 Hr eq_refl t Ht Hn) as (m1 & E1 & Hr1 & Hc1).
  erewrite bind_ok by reflexivity. cbv beta.
  pose proof (at_status _ _ _ (rep_tcb _ _ Hr t Ht)) as Est. change (mem s) with (mem s0) in Est.
  rewrite Est. rewrite (bind_ok _ _ _ _ _ (assert_run _ _ _ _ _ _ (proj2 (is_blocked_spec _) Hb))).
  rewrite (bind_ok _ _ _ _ _ (rep_exist a s0 Hr t)), bool_decide_false by done.
  erewrite bind_ok by (by apply assert_run).
  rewrite (bind_ok _ _ _ _ _ E1). erewrite bind_ok by reflexivity. msimpl.
  eexists. split; [apply critical_restore|]. split.
  - by apply (rep_put_status _ _ t READY Hr1).
  - eapply changed_trans; [eapply changed_weaken; [exact Hc1|by left]|].
    eapply changed_weaken; [apply scalar_in; [done|offsets; lia]|by right].
Qed.

(** The address space and the ring-0 stack of the task [n]. *)
Definition address_space_of (m : memory) (n pd cr3 : Z) : Prop :=
  if decide (pd = NULL) then cr3 = 0x100000
  else cr3 = u32 (Z.land (get32 m (pte_ptr pd)) 0xfffff000 + Z.land pd 0xfff) /\
       get32 m (sym_tss + tss_t.esp0) = n + 4096.

Lemma pte_local_window v : 0 <= v < 2 ^ 32 -> 0xffc00000 <= pte_local v.
Proof. intros Hv. rewrite pte_local_div by done. zlia. Qed.

Lemma rep_esp0 a m m' : rep a m -> changed_only esp0_bytes m m' -> rep a m'.
Proof.
  intros [Hl Htc Hs] Hc. assert (Htss : sym_tss + tss_t.sizeof = sym_tss + 108) by done.
  constructor; [| |done].
  - eapply dlist_frame; [|done]. intros b Hb%node_bytes_queue. apply Hc. unfold esp0_bytes.
    layfacts. destruct Hb as [Hb|Hb]; [unfold list.sizeof in *; lia|].
    apply Exists_exists in Hb as (u & Hu & Hub). apply Hs in Hu. unfold tag in Hub. offsets.
    layfacts. lia.
  - intros t Ht. eapply tcb_frame; [|by apply Htc]. intros b Hb. apply Hc. unfold esp0_bytes.
    offsets. layfacts. lia.
Qed.

Lemma process_activate_run a t s :
  rep a (mem s) -> t ∈ tasks ->
  exists m' c, process_activate t s = Ok tt (log (SetCr3 c) (set_cr3 c (set_mem m' s))) /\
    rep a m' /\ address_space_of m' t (t_page_dir (s_tcb a t)) c /\
    changed_only esp0_bytes (mem s) m'.
Proof.
  intros Hr Ht. layfacts. pose proof (rep_tcb _ _ Hr t Ht) as Htc.
  unfold process_activate, address_space_of.
  erewrite bind_ok by (apply assert_run; by rewrite (proj2 (Z.eqb_neq t NULL)) by (unfold NULL; lia)).
  erewrite bind_ok by reflexivity. cbv beta. rewrite (at_page_dir _ _ _ Htc).
  set (pd := t_page_dir (s_tcb a t)).
  destruct (Z.eqb_spec pd NULL) as [E|E]; cbn [negb].
  - exists (mem s), 0x100000. rewrite decide_True by done. rewrite set_mem_id. srun.
    rewrite (at_page_dir _ _ _ Htc). fold pd. rewrite E. cbn. by destruct s.
  - unfold vaddr_to_phy. srun. rewrite (at_page_dir _ _ _ Htc). fold pd.
    rewrite (proj2 (Z.eqb_neq pd NULL)) by done. cbn [negb when].
    set (m' := put32 (mem s) (sym_tss + tss_t.esp0) (u32 (t + PAGE_SIZE))).
    exists m'. eexists. split; [reflexivity|]. rewrite decide_False by done.
    assert (Hc : changed_only esp0_bytes (mem s) m').
    { intros b Hb. apply get8_put32_ne. unfold esp0_bytes in Hb. unfold tss_t.esp0. lia. }
    split; [by apply (rep_esp0 a (mem s))|]. split; [|done]. split.
    + do 3 f_equal. symmetry. apply get32_ext. intros b Hb. apply Hc. unfold esp0_bytes.
      assert (0xffc00000 <= pte_ptr pd); [|unfold tss_t.sizeof in *; lia].
      unfold pte_ptr. rewrite (lay_pte Hlay). apply pte_local_window.
      unfold pd. rewrite <- (at_page_dir _ _ _ Htc). apply get32_range.
    + subst m'. mem_simpl. change PAGE_SIZE with 4096. apply u32_small. lia.
Qed.

(** The machine [s] runs the abstract scheduler state [a]. *)
Record runs (idle : Z) (a : sched) (s : machine) : Prop := {
  run_rep : rep a (mem s);
  run_esp : esp s = s_esp a;
  run_idle : idle_thread (vars s) = idle
}.

Lemma page_of_range e : page_of e <= e < page_of e + 4096.
Proof. unfold page_of. zlia. Qed.

Lemma wf_esp idle a : wf tasks idle a -> s_cur a <= s_esp a < s_cur a + 4096 /\ is_u32 (s_esp a).
Proof.
  intros Hw. pose proof (page_of_range (s_esp a)). pose proof (wf_cur _ _ _ Hw) as Hc.
  fold (s_cur a) in *. layfacts. zlia.
Qed.

Lemma running_thread_run idle a s :
  wf tasks idle a -> runs idle a s -> running_thread s = Ok (s_cur a) s.
Proof.
  intros Hw [_ He _]. destruct (wf_esp _ _ Hw) as [_ Hr]. unfold running_thread, gets. rewrite He.
  rewrite land_page by zlia. done.
Qed.

(** The tasks whose queue nodes [schedule] touches: those queued, the current
    one if it is preempted, and the idle task. *)
Definition touched (idle : Z) (a : sched) : list Z :=
  (if decide (s_status a (s_cur a) = RUNNING) then [s_cur a] else []) ++ idle :: s_ready a.

Lemma elem_touched idle a t :
  t ∈ touched idle a <->
  (s_status a (s_cur a) = RUNNING /\ t = s_cur a) \/ t = idle \/ t ∈ s_ready a.
Proof.
  unfold touched. rewrite elem_of_app, elem_of_cons.
  case_decide; rewrite ?elem_of_cons, ?elem_of_nil; tauto.
Qed.

Lemma touched_incl idle a q b :
  (forall t, t ∈ q -> t ∈ touched idle a) -> queue_bytes q b -> queue_bytes (touched idle a) b.
Proof.
  intros Hq [H|H]; [by left|]. right. apply Exists_exists in H as (t & Ht & Hb).
  apply Exists_exists. eauto.
Qed.

(** The state a [schedule] called in [s] gives the processor away in. *)
Record scheduled (idle : Z) (a : sched) (s s' : machine) : Prop := {
  sd_runs : runs idle (abs_schedule idle a) s';
  sd_off : intr_flag s' = intr_flag s;
  sd_vars : vars s' = vars s;
  sd_space : address_space_of (mem s') (s_cur (abs_schedule idle a))
    (t_page_dir (s_tcb a (s_cur (abs_schedule idle a)))) (cr3 s');
  sd_frame : changed_only (sched_bytes (touched idle a)) (mem s) (mem s')
}.

Lemma sched_queue q q' m m' :
  (forall t, t ∈ q -> t ∈ q') ->
  changed_only (queue_bytes q) m m' -> changed_only (sched_bytes q') m m'.
Proof.
  intros Hq Hc. eapply changed_weaken; [done|]. intros b [H|H]; left; [by left|right].
  apply Exists_exists in H as (t & Ht & Hb). apply Exists_exists. eauto.
Qed.

Lemma sched_scalar q t m o v :
  t ∈ tasks -> 0 <= o <= 16 -> changed_only (sched_bytes q) m (put32 m (t + o) v).
Proof. intros. eapply changed_weaken; [by apply scalar_in|]. intros b Hb. right. by left. Qed.

(** The page directories are never written by the scheduler. *)
Lemma page_dir_alter f t a u :
  (forall c, t_page_dir (f c) = t_page_dir c) ->
  t_page_dir (s_tcb (alter_tcb f t a) u) = t_page_dir (s_tcb a u).
Proof. intros Hf. cbn. case_decide; [|done]. by subst. Qed.

Lemma page_dir_refill idle a u :
  t_page_dir (s_tcb (abs_refill idle a) u) = t_page_dir (s_tcb a u).
Proof.
  unfold abs_refill, abs_preempt, abs_unblock. repeat case_decide; rewrite ?page_dir_alter by done; try done.
  all: cbn; repeat case_decide; subst; done.
Qed.

Lemma cur_refill idle a : s_esp (abs_refill idle a) = s_esp a.
Proof. unfold abs_refill, abs_preempt, abs_unblock. by repeat case_decide. Qed.

Lemma refill_touched idle a t : t ∈ s_ready (abs_refill idle a) -> t ∈ touched idle a.
Proof.
  unfold abs_refill, abs_preempt, abs_unblock. rewrite elem_touched.
  repeat case_decide; cbn; rewrite ?elem_of_cons, ?elem_of_app, ?list_elem_of_singleton; tauto.
Qed.

(** An address space only depends on memory outside the pages of the tasks. *)
Lemma space_frame m m' n pd c :
  0 <= pd < 2 ^ 32 -> changed_only (fun b => exists t, t ∈ tasks /\ t <= b < t + 4096) m m' ->
  address_space_of m n pd c -> address_space_of m' n pd c.
Proof.
  intros Hpd Hc. unfold address_space_of. case_decide; [done|]. intros [-> <-].
  pose proof (pte_local_window pd Hpd).
  assert (Htss : sym_tss + tss_t.sizeof = sym_tss + 108) by done.
  split; [do 3 f_equal; symmetry|]; apply get32_ext; intros b Hb; apply Hc; intros (t & Ht & Hbt).
  - unfold pte_ptr in *. rewrite (lay_pte Hlay) in *. layfacts. lia.
  - unfold tss_t.esp0 in *. layfacts. lia.
Qed.

(** The three parts of [schedule]. *)
Definition preempt_part (curr : Z) : K unit :=
  state ← ld32 (curr + task_struct.status);
  when (state =? status_code RUNNING) (
    ex ← list_exist sym_ready_thread_list (curr + task_struct.gene_list_tag);
    ASSERT (negb ex) "thread/thread.c" 141 "schedule"
      "list_exist(&ready_thread_list, &curr_thread->gene_list_tag) == false";;
    list_push_back sym_ready_thread_list (curr + task_struct.gene_list_tag);;
    prio ← ld8 (curr + task_struct.priority);
    st32 (curr + task_struct.ava_time) prio;;
    st32 (curr + task_struct.status) (status_code READY)).

Definition refill_part : K unit :=
  e ← list_empty sym_ready_thread_list;
  when e (idle ← getv idle_thread; thread_unblock idle).

Definition switch_part (curr : Z) : K unit :=
  temp_node ← list_pop_front sym_ready_thread_list;
  let next_thread := node_to_task temp_node GENERAL_LIST_NODE in
  st32 (next_thread + task_struct.status) (status_code RUNNING);;
  process_activate next_thread;;
  switch_to curr next_thread.

Section Parts.
Context (idle : Z) (a : sched) (s : machine).
Hypothesis Hw : wf tasks idle a.
Hypothesis Hr : runs idle a s.
Hypothesis Hoff : intr_flag s = false.

Definition preempted : sched :=
  if decide (s_status a (s_cur a) = RUNNING) then abs_preempt a else a.

Lemma preempt_part_run : exists m1,
  preempt_part (s_cur a) s = Ok tt (set_mem m1 s) /\ rep preempted m1 /\
  changed_only (sched_bytes (touched idle a)) (mem s) m1.
Proof.
  pose proof (wf_cur _ _ _ Hw) as Hcur. unfold preempt_part.
  erewrite bind_ok by reflexivity. cbv beta.
  rewrite (at_status _ _ _ (rep_tcb _ _ (run_rep _ _ _ Hr) _ Hcur)).
  unfold preempted, s_status. destruct (decide (t_status (s_tcb a (s_cur a)) = RUNNING)) as [HR|HR].
  - rewrite HR. cbn [status_code Z.eqb when].
    assert (Hn : s_cur a ∉ s_ready a).
    { intros [_ E]%(wf_ready _ _ _ Hw). unfold s_status in E. by rewrite HR in E. }
    rewrite (bind_ok _ _ _ _ _ (rep_exist a s (run_rep _ _ _ Hr) (s_cur a))), bool_decide_false by done.
    erewrite bind_ok by (by apply assert_run).
    destruct (rep_push_back a s (run_rep _ _ _ Hr) Hoff _ Hcur Hn) as (m1 & E1 & Hr1 & Hc1).
    rewrite (bind_ok _ _ _ _ _ E1). srun.
    eexists. split; [reflexivity|]. split.
    + apply (rep_put_slice _ _ (s_cur a) Hr1 Hcur).
    + eapply changed_trans; [eapply (sched_queue (s_cur a :: s_ready a)); [|done]|].
      { intros t. rewrite elem_touched, elem_of_cons. tauto. }
      eapply changed_trans; apply sched_scalar; (done || offsets; lia).
  - exists (mem s). rewrite set_mem_id. split_and!; [|apply Hr|apply changed_refl].
    destruct (Z.eqb_spec (status_code (t_status (s_tcb a (s_cur a)))) (status_code RUNNING)) as [E|E];
      [by apply status_code_inj in E|done].
Qed.

Lemma refill_part_run m1 : rep preempted m1 -> exists m2,
  refill_part (set_mem m1 s) = Ok tt (set_mem m2 s) /\ rep (abs_refill idle a) m2 /\
  changed_only (sched_bytes (touched idle a)) m1 m2.
Proof.
  intros Hr1. unfold refill_part. rewrite (bind_ok _ _ _ _ _ (rep_empty preempted (set_mem m1 s) Hr1)).
  unfold abs_refill. fold preempted. destruct (decide (s_ready preempted = [])) as [En|En].
  - rewrite bool_decide_true by done. cbn [when]. unfold getv.
    assert (Ha1 : preempted = a /\ s_status a (s_cur a) <> RUNNING).
    { unfold preempted in *. case_decide; [|done]. by apply snoc_not_nil in En. }
    destruct Ha1 as [Ha1 HnR]. rewrite Ha1 in *. clear Ha1.
    erewrite bind_ok by reflexivity. cbv beta. msimpl. rewrite (run_idle _ _ _ Hr).
    destruct (thread_unblock_run a idle (set_mem m1 s) Hr1 (wf_idle _ _ _ Hw)) as (m2 & E2 & Hr2 & Hc2).
    + by eapply idle_blocked.
    + rewrite En. apply not_elem_of_nil.
    + exists m2. rewrite E2, after_critical_off by done. split_and!; [done|done|].
      eapply changed_weaken; [done|]. intros b [Hb|Hb]; [left|right; by left].
      eapply touched_incl; [|done]. intros t. rewrite elem_touched, elem_of_cons. tauto.
  - rewrite bool_decide_false by done. cbn [when]. exists m1.
    split_and!; [done|done|apply changed_refl].
Qed.

(** The machine in which the processor is handed to [n]. *)
Definition handed (m : memory) (c : Z) (n : Z) : machine :=
  set_esp (get32 (put32 m (s_cur a) (s_esp a)) n)
    (set_mem (put32 m (s_cur a) (s_esp a)) (log (SetCr3 c) (set_cr3 c s))).

Lemma switch_part_run m2 n q :
  rep (abs_refill idle a) m2 -> s_ready (abs_refill idle a) = n :: q -> n ∈ tasks ->
  let a4 := alter_tcb (with_status RUNNING) n (set_ready q (abs_refill idle a)) in
  exists m5 c, switch_part (s_cur a) (set_mem m2 s) = Switch (handed m5 c n) (fun s'' => Ok tt s'') /\
    rep a4 m5 /\ address_space_of m5 n (t_page_dir (s_tcb a4 n)) c /\
    changed_only (sched_bytes (touched idle a)) m2 m5.
Proof.
  intros Hr2 Eq Hn a4. unfold switch_part.
  destruct (rep_pop_front _ (set_mem m2 s) Hr2 Hoff n q Eq) as (m3 & E3 & Hr3 & Hc3).
  rewrite (bind_ok _ _ _ _ _ E3). rewrite (node_to_task_tag n Hn).
  erewrite bind_ok by reflexivity. msimpl.
  pose proof (rep_put_status _ _ n RUNNING Hr3 Hn) as Hr4. fold a4 in Hr4.
  set (m4 := put32 m3 (n + task_struct.status) (status_code RUNNING)) in *.
  destruct (process_activate_run a4 n (set_mem m4 s) Hr4 Hn) as (m5 & c & E5 & Hr5 & Hsp & Hc5).
  exists m5, c. split_and!; [|done|done|].
  - rewrite (bind_ok _ _ _ _ _ E5). unfold switch_to. msimpl. rewrite (run_esp _ _ _ Hr). done.
  - eapply changed_trans; [|eapply changed_trans].
    + eapply sched_queue; [|exact Hc3]. intros t Ht. apply refill_touched. rewrite Eq. by right.
    + apply (sched_scalar _ n _ task_struct.status); [done|offsets; lia].
    + eapply changed_weaken; [exact Hc5|]. intros b Hb. right. by right.
Qed.
End Parts.

Lemma schedule_run idle a s :
  wf tasks idle a -> runs idle a s -> intr_flag s = false ->
  exists s', schedule s = Switch s' (fun s'' => Ok tt s'') /\ scheduled idle a s s'.
Proof.
  intros Hw Hr Hoff. pose proof (wf_cur _ _ _ Hw) as Hcur.
  destruct (preempt_part_run idle a s Hw Hr Hoff) as (m1 & E1 & Hr1 & Hc1).
  destruct (refill_part_run idle a s Hw Hr Hoff m1 Hr1) as (m2 & E2 & Hr2 & Hc2).
  destruct (wf_refill _ _ _ Hw) as (Hw2 & Hne & _).
  destruct (s_ready (abs_refill idle a)) as [|n q] eqn:Eq; [done|]. clear Hne.
  assert (Hn : n ∈ tasks) by (apply (wf_sub _ _ _ _ Hw2); rewrite Eq; by left).
  destruct (switch_part_run idle a s Hr Hoff m2 n q Hr2 Eq Hn) as (m5 & c & E5 & Hr5 & Hsp & Hc5).
  set (a4 := alter_tcb (with_status RUNNING) n (set_ready q (abs_refill idle a))) in *.
  exists (handed a s m5 c n). split.
  { unfold schedule. unfold intr_get_status at 1. erewrite bind_ok by reflexivity. cbv beta.
    rewrite Hoff. erewrite bind_ok by (by apply assert_run).
    rewrite (bind_ok _ _ _ _ _ (running_thread_run idle a s Hw Hr)).
    erewrite bind_ok by reflexivity. cbv beta.
    unfold preempt_part in E1. erewrite bind_ok in E1 by reflexivity. cbv beta in E1.
    rewrite (bind_ok _ _ _ _ _ E1).
    unfold refill_part in E2.
    rewrite (bind_ok _ _ _ _ _ (rep_empty _ (set_mem m1 s) Hr1)) in E2.
    rewrite (bind_ok _ _ _ _ _ (rep_empty _ (set_mem m1 s) Hr1)).
    rewrite (bind_ok _ _ _ _ _ E2). exact E5. }
  destruct (wf_esp _ _ Hw) as [_ He32].
  pose proof (rep_put_kstack _ _ (s_cur a) (s_esp a) Hr5 Hcur He32) as Hr6.
  assert (Eab : abs_schedule idle a = mkSched
      (t_kstack (s_tcb (alter_tcb (with_kstack (s_esp a)) (s_cur a) a4) n)) q
      (s_tcb (alter_tcb (with_kstack (s_esp a)) (s_cur a) a4))).
  { rewrite abs_schedule_refill. unfold abs_switch. rewrite Eq.
    unfold s_cur. rewrite !cur_refill. done. }
  assert (Ecur : s_cur (abs_schedule idle a) = n)
    by (rewrite abs_schedule_refill; by eapply cur_switch).
  unfold handed. constructor; msimpl; [| done | done | |].
  - rewrite Eab. constructor; cbn [s_esp s_tcb s_ready mem esp vars].
    + destruct Hr6 as [G1 G2 G3]. by constructor.
    + rewrite <- (at_kstack _ _ _ (rep_tcb _ _ Hr6 n Hn)). unfold task_struct.kstack.
      by rewrite Z.add_0_r.
    + apply (run_idle _ _ _ Hr).
  - rewrite Ecur. replace (t_page_dir (s_tcb a n)) with (t_page_dir (s_tcb a4 n)).
    + eapply space_frame; [| |exact Hsp].
      * rewrite <- (at_page_dir _ _ _ (rep_tcb _ _ Hr5 n Hn)). apply get32_range.
      * intros b Hb. apply get8_put32_ne. intros Hbc. apply Hb. exists (s_cur a). split; [done|lia].
    + subst a4. rewrite page_dir_alter by done. apply page_dir_refill.
  - eapply changed_trans; [exact Hc1|]. eapply changed_trans; [exact Hc2|].
    eapply changed_trans; [exact Hc5|].
    replace (put32 m5 (s_cur a)) with (put32 m5 (s_cur a + 0)) by (by rewrite Z.add_0_r).
    apply (sched_scalar _ (s_cur a) _ 0); [done|lia].
Qed.

(** *** Giving up the processor *)

(** The processor is handed over in [s'], in the abstract state [a']; when it
    comes back, with interrupts off, the call returns with the caller's flag
    restored. *)
Record handed_over (idle : Z) (a a' : sched) (q : list Z) (s s' : machine) (k : machine -> res unit) : Prop := {
  ho_runs : runs idle a' s';
  ho_off : intr_flag s' = false;
  ho_vars : vars s' = vars s;
  ho_space : address_space_of (mem s') (s_cur a') (t_page_dir (s_tcb a (s_cur a'))) (cr3 s');
  ho_frame : changed_only (sched_bytes q) (mem s) (mem s');
  ho_resume : forall s'', intr_flag s'' = false ->
    k s'' = Ok tt (set_intr_flag (flag_after (intr_flag s)) s'')
}.

Lemma runs_put_status idle a s st :
  wf tasks idle a -> runs idle a s ->
  runs idle (alter_tcb (with_status st) (s_cur a) a)
    (set_mem (put32 (mem s) (s_cur a + task_struct.status) (status_code st)) (set_intr_flag false s)).
Proof.
  intros Hw [Hr He Hi]. constructor; msimpl; [|done|done].
  apply rep_put_status; [done|apply Hw].
Qed.

Lemma restore_handed idle a a' q s s1 s' :
  scheduled idle a' s1 s' -> intr_flag s1 = false -> vars s1 = vars s ->
  (forall u, t_page_dir (s_tcb a' u) = t_page_dir (s_tcb a u)) ->
  (forall t, t ∈ touched idle a' -> t ∈ q) ->
  changed_only (sched_bytes q) (mem s) (mem s1) ->
  handed_over idle a (abs_schedule idle a') q s s'
    (fun s'' => bind_res (Ok tt s'')
       (fun _ => INTERRUPT_RESTORE (if intr_flag s then INTR_ON else INTR_OFF))).
Proof.
  intros [H1 H2 H3 H4 H5] Hoff Hv Hpd Ht Hc. constructor; [done|congruence|congruence| | |].
  - by rewrite <- Hpd.
  - eapply changed_trans; [done|]. eapply changed_weaken; [done|].
    intros b [[Hb|Hb]|Hb]; [by left; left| |by right]. left; right.
    apply Exists_exists in Hb as (t & Hin & Hb). apply Exists_exists. eauto.
  - intros s'' Hs. cbn. by apply restore_run.
Qed.

Lemma thread_block_run idle a s st :
  inv tasks idle a -> runs idle a s -> is_blocked st ->
  exists s' k, thread_block st s = Switch s' k /\ handed_over idle a (abs_block idle st a) (idle :: s_ready a) s s' k.
Proof.
  intros Hi Hr Hb. pose proof (wf_block _ _ _ st Hi Hb) as Hw'. destruct Hi as [Hw _].
  unfold thread_block, INTERRUPT_DISABLE. rewrite (bind_ok _ _ _ _ _ (intr_disable_run s)).
  rewrite (bind_ok _ _ _ _ _ (assert_run _ _ _ _ _ _ (proj2 (is_blocked_spec _) Hb))).
  assert (Hr0 : runs idle a (set_intr_flag false s)) by (by destruct Hr; constructor).
  rewrite (bind_ok _ _ _ _ _ (running_thread_run idle a _ Hw Hr0)).
  erewrite bind_ok by reflexivity. msimpl.
  destruct (schedule_run idle _ _ Hw' (runs_put_status _ _ _ st Hw Hr) eq_refl) as (s' & E & Hs).
  rewrite (bind_switch _ _ _ _ _ E). eexists _, _. split; [reflexivity|].
  eapply restore_handed; [exact Hs|done|done| | |].
  - intros u. by apply page_dir_alter.
  - intros t. rewrite elem_touched, status_alter. cbn. rewrite decide_True, elem_of_cons by done.
    intros [[-> _]|?]; [|tauto]. by destruct Hb as [?|[?|?]].
  - apply sched_scalar; [apply Hw|offsets; lia].
Qed.

Lemma thread_yield_run idle a s :
  inv tasks idle a -> runs idle a s ->
  exists s' k, thread_yield s = Switch s' k /\ handed_over idle a (abs_yield idle a) (idle :: s_cur a :: s_ready a) s s' k.
Proof.
  intros Hi Hr. pose proof (wf_yield _ _ _ Hi) as Hw'. destruct Hi as [Hw HR].
  pose proof (wf_cur _ _ _ Hw) as Hcur.
  unfold thread_yield, INTERRUPT_DISABLE. rewrite (bind_ok _ _ _ _ _ (intr_disable_run s)).
  assert (Hr0 : runs idle a (set_intr_flag false s)) by (by destruct Hr; constructor).
  rewrite (bind_ok _ _ _ _ _ (running_thread_run idle a _ Hw Hr0)).
  erewrite bind_ok by reflexivity. msimpl.
  set (s1 := set_mem _ _). set (a1 := alter_tcb (with_status READY) (s_cur a) a).
  assert (Hr1 : runs idle a1 s1) by apply (runs_put_status _ _ _ READY Hw Hr).
  assert (Hn : s_cur a ∉ s_ready a1).
  { intros [_ E]%(wf_ready _ _ _ Hw). by rewrite HR in E. }
  rewrite (bind_ok _ _ _ _ _ (rep_exist a1 s1 (run_rep _ _ _ Hr1) (s_cur a))), bool_decide_false by done.
  erewrite bind_ok by (by apply assert_run).
  destruct (rep_push_back a1 s1 (run_rep _ _ _ Hr1) eq_refl _ Hcur Hn) as (m2 & E2 & Hr2 & Hc2).
  rewrite (bind_ok _ _ _ _ _ E2).
  assert (Hruns2 : runs idle (set_ready (s_ready a1 ++ [s_cur a]) a1) (set_mem m2 s1))
    by (by destruct Hr1; constructor).
  destruct (schedule_run idle _ _ Hw' Hruns2 eq_refl) as (s' & E & Hs).
  rewrite (bind_switch _ _ _ _ _ E). eexists _, _. split; [reflexivity|].
  eapply restore_handed; [exact Hs|done|done| | |].
  - intros u. by apply (page_dir_alter _ _ a).
  - intros t. rewrite elem_touched. unfold s_cur. cbn.
    rewrite !elem_of_cons, elem_of_app, list_elem_of_singleton. tauto.
  - eapply changed_trans; [apply (sched_scalar _ (s_cur a) _ task_struct.status); [done|offsets; lia]|].
    eapply sched_queue; [|exact Hc2]. intros t. cbn. rewrite !elem_of_cons. tauto.
Qed.
End Refinement.

(** ** The scheduler implements round robin *)
Section Properties.
Context {PL : Platform} {LK : Linker} (tasks : list Z) (idle : Z).

(** C1: From every reachable state, [schedule], called with interrupts off (by the
    clock interrupt, with the running task preempted), hands the processor to
    the task the abstract scheduler picks, in its address space, and fails no
    assertion; nothing but the queue, the scalar fields of the task structures
    and the TSS stack pointer is written. *)
Theorem schedule_refines a s :
  layout tasks -> wf tasks idle a -> runs tasks idle a s -> intr_flag s = false ->
  exists s' k, schedule s = Switch s' k /\
    runs tasks idle (abs_schedule idle a) s' /\ inv tasks idle (abs_schedule idle a) /\
    address_space_of (mem s') (s_cur (abs_schedule idle a))
      (t_page_dir (s_tcb a (s_cur (abs_schedule idle a)))) (cr3 s') /\
    changed_only (sched_bytes tasks (touched idle a)) (mem s) (mem s') /\
    (forall s'', k s'' = Ok tt s'').
Proof.
  intros Hl Hw Hr Hoff. destruct (schedule_run tasks Hl idle a s Hw Hr Hoff) as (s' & E & [G1 G2 G3 G4 G5]).
  exists s', (fun s'' => Ok tt s''). split_and!; [done|done|by apply inv_schedule|done|done|done].
Qed.

(** Blocking takes the running task out of the rotation and hands over. *)
Theorem thread_block_refines a s st :
  layout tasks -> inv tasks idle a -> runs tasks idle a s -> is_blocked st ->
  exists s' k, thread_block st s = Switch s' k /\
    handed_over tasks idle a (abs_block idle st a) (idle :: s_ready a) s s' k /\ inv tasks idle (abs_block idle st a).
Proof.
  intros Hl Hi Hr Hb. destruct (thread_block_run tasks Hl idle a s st Hi Hr Hb) as (s' & k & E & H).
  exists s', k. split_and!; [done|done|]. by apply inv_schedule, wf_block.
Qed.

(** Yielding puts the running task at the back of the queue and hands over. *)
Theorem thread_yield_refines a s :
  layout tasks -> inv tasks idle a -> runs tasks idle a s ->
  exists s' k, thread_yield s = Switch s' k /\
    handed_over tasks idle a (abs_yield idle a) (idle :: s_cur a :: s_ready a) s s' k /\ inv tasks idle (abs_yield idle a).
Proof.
  intros Hl Hi Hr. destruct (thread_yield_run tasks Hl idle a s Hi Hr) as (s' & k & E & H).
  exists s', k. split_and!; [done|done|]. by apply inv_schedule, wf_yield.
Qed.

(** Unblocking puts the task at the front of the queue; the caller goes on. *)
Theorem thread_unblock_refines a s t :
  layout tasks -> inv tasks idle a -> runs tasks idle a s -> t ∈ tasks ->
  is_blocked (s_status a t) ->
  exists s', thread_unblock t s = Ok tt s' /\
    runs tasks idle (abs_unblock t a) s' /\ inv tasks idle (abs_unblock t a) /\
    intr_flag s' = flag_after (intr_flag s).
Proof.
  intros Hl Hi Hr Ht Hb. pose proof Hr as [Hrep He Hid].
  destruct (thread_unblock_run tasks Hl a t s Hrep Ht Hb) as (m' & E & Hr' & _).
  { intros [_ E]%(wf_ready _ _ _ (proj1 Hi)). rewrite E in Hb. by destruct Hb as [?|[?|?]]. }
  exists (after_critical s m'). split_and!; [done| | |done].
  - by constructor.
  - apply (inv_step tasks idle a); [done|]. by constructor.
Qed.

(** C31: The operations on threads simulate the abstract scheduler: blocking takes
    the running task out of the rotation, yielding puts it at the back of the
    queue, both hand over the processor; unblocking puts a task at the front
    of the queue and the caller goes on. Each keeps the invariant. *)
Theorem thread_operations_refine a s :
  layout tasks -> inv tasks idle a -> runs tasks idle a s ->
  (forall st, is_blocked st -> exists s' k, thread_block st s = Switch s' k /\
     handed_over tasks idle a (abs_block idle st a) (idle :: s_ready a) s s' k /\
     inv tasks idle (abs_block idle st a)) /\
  (exists s' k, thread_yield s = Switch s' k /\
     handed_over tasks idle a (abs_yield idle a) (idle :: s_cur a :: s_ready a) s s' k /\
     inv tasks idle (abs_yield idle a)) /\
  (forall t, t ∈ tasks -> is_blocked (s_status a t) -> exists s', thread_unblock t s = Ok tt s' /\
     runs tasks idle (abs_unblock t a) s' /\ inv tasks idle (abs_unblock t a) /\
     intr_flag s' = flag_after (intr_flag s)).
Proof.
  intros Hl Hi Hr. split_and!.
  - intros st. by apply thread_block_refines.
  - by apply thread_yield_refines.
  - intros t. by apply thread_unblock_refines.
Qed.


Lemma preempt_queue a n q :
  inv tasks idle a -> s_ready a = n :: q ->
  s_cur (abs_schedule idle a) = n /\ s_ready (abs_schedule idle a) = q ++ [s_cur a].
Proof.
  intros [Hw HR] Eq. pose proof (wf_refill _ _ _ Hw) as (Hw2 & _ & _).
  assert (Er : s_ready (abs_refill idle a) = n :: q ++ [s_cur a]).
  { unfold abs_refill. destruct (decide (s_status a (s_cur a) = RUNNING)) as [_|]; [|done].
    rewrite decide_False by (unfold abs_preempt; cbn; apply snoc_not_nil).
    unfold abs_preempt. cbn. by rewrite Eq. }
  split; rewrite abs_schedule_refill.
  - by eapply cur_switch.
  - unfold abs_switch. by rewrite Er.
Qed.

Lemma round_robin_run i : forall a t,
  inv tasks idle a -> s_ready a !! i = Some t ->
  s_cur (Nat.iter (S i) (abs_schedule idle) a) = t.
Proof.
  induction i as [|i IH]; intros a t Hi Ht;
    destruct (s_ready a) as [|n q] eqn:Eq; simplify_eq/=.
  - by eapply preempt_queue.
  - destruct (preempt_queue a n q Hi Eq) as [_ Er].
    rewrite <- (IH (abs_schedule idle a) t).
    + do 2 f_equal. exact (Nat.iter_succ_r i _ (abs_schedule idle) a).
    + apply inv_schedule, Hi.
    + rewrite Er. by apply lookup_app_l_Some.
Qed.

End Properties.

(** ** Concrete instances *)

(** The main thread runs, one thread is ready, the idle thread is blocked. *)
Definition demo_main : Z := 0xc009e000.
Definition demo_thread : Z := 0xc0100000.
Definition demo_idle : Z := 0xc0102000.
Definition demo_tasks : list Z := [demo_main; demo_thread; demo_idle].

Definition demo_tcb (t : Z) : tcb :=
  if decide (t = demo_main) then mkTcb 0xc009f000 RUNNING 32 0 7 0
  else if decide (t = demo_thread) then mkTcb 0xc0100e50 READY 32 32 0 0
  else mkTcb 0xc0102e50 BLOCKED 10 10 0 0.

Definition demo_abs : sched := mkSched 0xc009ef00 [demo_thread] demo_tcb.

Definition put_tcb (m : memory) (t : Z) : memory :=
  let c := demo_tcb t in
  put32 (put32 (put8 (put32 (put32 (put32 m t (t_kstack c)) (t + 4) (status_code (t_status c)))
    (t + 12) (t_ava_time c)) (t + 8) (t_priority c)) (t + 16) (t_elapsed_time c))
    (t + task_struct.stack_magic_num) 0x19980312.

Definition demo_sched_mem : memory :=
  let n := demo_thread + task_struct.gene_list_tag in
  let m := foldl put_tcb ∅ demo_tasks in
  put32 (put32 (put32 (put32 m
    (sym_ready_thread_list + 4) n) (sym_ready_thread_list + 8) n)
    n sym_ready_thread_list) (n + 4) (sym_ready_thread_list + 8).

Definition with_idle (t : Z) (v : variables) : variables :=
  mkVars (ctrl_down v) (shift_down v) (alt_down v) (capslock_down v) (ext_scancode v)
    (total_times v) (next_pid v) t (main_thread v) (curr_part v) (channel_cnt v)
    (ext_lba_base v) (master_no v) (logical_no v).

Definition demo_sched_machine : machine :=
  set_vars (with_idle demo_idle demo_vars) (demo_machine demo_sched_mem).

Ltac solve_tasks :=
  intros ? Hin; unfold demo_tasks in Hin; rewrite !elem_of_cons, elem_of_nil in Hin;
  destruct Hin as [->|[->|[->|[]]]].

Lemma demo_layout : layout demo_tasks.
Proof.
  constructor; try (intros t Ht; revert t Ht; solve_tasks);
    unfold tss_t.sizeof, demo_main, demo_thread, demo_idle;
    cbn [FD_MAX pte_ptr_ret sym_ready_thread_list sym_tss demo_platform demo_linker];
    first [done | lia | split; [done|lia]].
Qed.

Lemma demo_inv : inv demo_tasks demo_idle demo_abs.
Proof.
  split; [|done]. constructor.
  - vm_compute. by left.
  - apply NoDup_singleton.
  - intros t. cbn [demo_abs s_ready]. rewrite list_elem_of_singleton. split.
    + intros ->. split; [|done]. right. by left.
    + intros [Hin Hs]. revert t Hin Hs. solve_tasks; done.
  - solve_tasks; done.
  - solve_tasks; done.
  - right. right. by left.
  - done.
Qed.

Lemma demo_runs : runs demo_tasks demo_idle demo_abs demo_sched_machine.
Proof.
  constructor; [|done|done]. constructor.
  - split; [vm_compute; tauto|]. cbn [demo_abs s_ready map]. unfold tag. offsets.
    unfold demo_thread. cbn [sym_ready_thread_list demo_linker FD_MAX demo_platform]. solve_apart.
  - solve_tasks; constructor; vm_compute; done.
  - intros t ->%list_elem_of_singleton. right. by left.
Qed.

Lemma demo_runs_off : runs demo_tasks demo_idle demo_abs (set_intr_flag false demo_sched_machine).
Proof. destruct demo_runs. by constructor. Qed.

Lemma schedule_refines_witness :
  exists s' k, schedule (set_intr_flag false demo_sched_machine) = Switch s' k /\
    runs demo_tasks demo_idle (abs_schedule demo_idle demo_abs) s' /\
    inv demo_tasks demo_idle (abs_schedule demo_idle demo_abs) /\
    address_space_of (mem s') (s_cur (abs_schedule demo_idle demo_abs))
      (t_page_dir (s_tcb demo_abs (s_cur (abs_schedule demo_idle demo_abs)))) (cr3 s') /\
    changed_only (sched_bytes demo_tasks (touched demo_idle demo_abs)) demo_sched_mem (mem s') /\
    (forall s'', k s'' = Ok tt s'').
Proof.
  apply (schedule_refines demo_tasks demo_idle demo_abs (set_intr_flag false demo_sched_machine)
    demo_layout (proj1 demo_inv) demo_runs_off eq_refl).
Defined.

Lemma thread_block_refines_witness :
  exists s' k, thread_block BLOCKED demo_sched_machine = Switch s' k /\
    handed_over demo_tasks demo_idle demo_abs (abs_block demo_idle BLOCKED demo_abs)
      (demo_idle :: s_ready demo_abs) demo_sched_machine s' k /\
    inv demo_tasks demo_idle (abs_block demo_idle BLOCKED demo_abs).
Proof.
  apply (thread_block_refines demo_tasks demo_idle demo_abs demo_sched_machine BLOCKED
    demo_layout demo_inv demo_runs). by left.
Defined.

Lemma thread_yield_refines_witness :
  exists s' k, thread_yield demo_sched_machine = Switch s' k /\
    handed_over demo_tasks demo_idle demo_abs (abs_yield demo_idle demo_abs)
      (demo_idle :: s_cur demo_abs :: s_ready demo_abs) demo_sched_machine s' k /\
    inv demo_tasks demo_idle (abs_yield demo_idle demo_abs).
Proof.
  apply (thread_yield_refines demo_tasks demo_idle demo_abs demo_sched_machine
    demo_layout demo_inv demo_runs).
Defined.

Lemma thread_unblock_refines_witness :
  exists s', thread_unblock demo_idle demo_sched_machine = Ok tt s' /\
    runs demo_tasks demo_idle (abs_unblock demo_idle demo_abs) s' /\
    inv demo_tasks demo_idle (abs_unblock demo_idle demo_abs) /\
    intr_flag s' = flag_after (intr_flag demo_sched_machine).
Proof.
  apply (thread_unblock_refines demo_tasks demo_idle demo_abs demo_sched_machine demo_idle
    demo_layout demo_inv demo_runs); [right; right; by left|by left].
Defined.

Lemma thread_operations_refine_witness :
  (exists s' k, thread_block BLOCKED demo_sched_machine = Switch s' k /\
     handed_over demo_tasks demo_idle demo_abs (abs_block demo_idle BLOCKED demo_abs)
       (demo_idle :: s_ready demo_abs) demo_sched_machine s' k) /\
  (exists s', thread_unblock demo_idle demo_sched_machine = Ok tt s' /\
     runs demo_tasks demo_idle (abs_unblock demo_idle demo_abs) s').
Proof.
  destruct (thread_operations_refine demo_tasks demo_idle demo_abs demo_sched_machine
    demo_layout demo_inv demo_runs) as (H1 & _ & H3). split.
  - destruct (H1 BLOCKED) as (s' & k & E & H & _); [by left|]. exists s', k. split; [exact E|exact H].
  - destruct (H3 demo_idle) as (s' & E & H & _); [right; right; by left|by left|]. exists s'. split; [exact E|exact H].
Defined.


