(* ===== verification/Lock.v ===== *)
(** * Semaphores and mutexes (thread/lock.c)

    The operations on a counting semaphore with its list of waiting threads,
    and the recursive mutex built on it.  [sem_down] may hand the processor
    over in the middle of its loop.  The operations are proved to implement
    abstract ones on a value and a queue of waiters; on those, any
    interleaving of threads keeps mutual exclusion and loses no wake-up. *)

From S2P Require Import Prelude Machine Concrete Interrupt CString DList Paging Tss Sched.

#[local] Open Scope Z_scope.

Module sem_t.
Definition value : Z := 0.
Definition waiters : Z := 4.
Definition sizeof : Z := 20.
End sem_t.

Module mutex_t.
Definition sem : Z := 0.
Definition holder : Z := 20.
Definition recursion : Z := 24.
Definition sizeof : Z := 28.
End mutex_t.

Section Lock.
Context {PL : Platform} {LK : Linker}.

Definition sem_init (sem value : Z) : K unit :=
  st8 (sem + sem_t.value) value;;
  list_init (sem + sem_t.waiters).

Definition sem_up (sem : Z) : K unit :=
  state ← INTERRUPT_DISABLE;
  e ← list_empty (sem + sem_t.waiters);
  when (negb e) (
    node ← list_pop_front (sem + sem_t.waiters);
    let next_thread := node_to_task node GENERAL_LIST_NODE in
    thread_unblock next_thread);;
  v ← ld8 (sem + sem_t.value);
  st8 (sem + sem_t.value) (v + 1);;
  v ← ld8 (sem + sem_t.value);
  ASSERT (0 <? v) "thread/lock.c" 24 "sem_up" "sem->value > 0";;
  INTERRUPT_RESTORE state.

Definition sem_down_body (sem : Z) (_ : unit) : K (unit + unit) :=
  v ← ld8 (sem + sem_t.value);
  if v =? 0 then
    curr_thread ← running_thread;
    ex ← list_exist (sem + sem_t.waiters) (curr_thread + task_struct.gene_list_tag);
    ASSERT (negb ex) "thread/lock.c" 38 "sem_down"
      "list_exist(&sem->waiters, &curr_thread->gene_list_tag) == false";;
    list_push_back (sem + sem_t.waiters) (curr_thread + task_struct.gene_list_tag);;
    thread_block BLOCKED;;
    mret (inl tt)
  else mret (inr tt).

Definition sem_down (sem : Z) : K unit :=
  state ← INTERRUPT_DISABLE;
  while_ (sem_down_body sem) tt;;
  v ← ld8 (sem + sem_t.value);
  st8 (sem + sem_t.value) (v - 1);;
  v ← ld8 (sem + sem_t.value);
  ASSERT (0 <=? v) "thread/lock.c" 43 "sem_down" "sem->value >= 0";;
  INTERRUPT_RESTORE state.

Definition mutex_init (mutex : Z) : K unit :=
  st32 (mutex + mutex_t.holder) NULL;;
  st8 (mutex + mutex_t.recursion) 0;;
  sem_init (mutex + mutex_t.sem) 1.

Definition mutex_lock (mutex : Z) : K unit :=
  h ← ld32 (mutex + mutex_t.holder);
  t ← running_thread;
  if negb (h =? t) then
    sem_down (mutex + mutex_t.sem);;
    r ← ld8 (mutex + mutex_t.recursion);
    ASSERT (r =? 0) "thread/lock.c" 60 "mutex_lock" "mutex->recursion == 0";;
    t ← running_thread;
    st32 (mutex + mutex_t.holder) t;;
    r ← ld8 (mutex + mutex_t.recursion);
    st8 (mutex + mutex_t.recursion) (r + 1)
  else
    r ← ld8 (mutex + mutex_t.recursion);
    st8 (mutex + mutex_t.recursion) (r + 1).

(** The assertion contains an assignment: it makes the caller the holder. *)
Definition mutex_unlock (mutex : Z) : K unit :=
  t ← running_thread;
  st32 (mutex + mutex_t.holder) t;;
  ASSERT (negb (t =? NULL)) "thread/lock.c" 72 "mutex_unlock" "mutex->holder = running_thread()";;
  r ← ld8 (mutex + mutex_t.recursion);
  if r =? 1 then
    st32 (mutex + mutex_t.holder) NULL;;
    st8 (mutex + mutex_t.recursion) 0;;
    sem_up (mutex + mutex_t.sem)
  else
    r ← ld8 (mutex + mutex_t.recursion);
    st8 (mutex + mutex_t.recursion) (r - 1).
End Lock.

(** ** The semaphore operations on queues *)

(** A semaphore: its value and the tasks that wait for it, first first. *)
Record sem_rep {PL : Platform} (tasks : list Z) (m : memory) (sem v : Z) (ws : list Z) : Prop := {
  sr_value : get8 m (sem + sem_t.value) = v;
  sr_queue : task_queue tasks m (sem + sem_t.waiters) ws
}.

(** Where a semaphore may live: outside the pages of the tasks, the ready list
    and the TSS. *)
Record sem_home {PL : Platform} {LK : Linker} (tasks : list Z) (sem : Z) : Prop := {
  sh_list : list_home tasks (sem + sem_t.waiters);
  sh_range : 0 <= sem;
  sh_tasks : forall t, t ∈ tasks -> sem + sem_t.sizeof <= t \/ t + 4096 <= sem;
  sh_ready : sem + sem_t.sizeof <= sym_ready_thread_list \/ sym_ready_thread_list + 16 <= sem;
  sh_tss : sem + sem_t.sizeof <= sym_tss \/ sym_tss + tss_t.sizeof <= sem
}.

(** [sem_down] with [n] rounds of waiting left, interrupts already off. *)
Definition sem_down_from {PL : Platform} {LK : Linker} (n : nat) (sem : Z) (state : intr_stat) : K unit :=
  loop_n (sem_down_body sem) n tt;;
  v ← ld8 (sem + sem_t.value);
  st8 (sem + sem_t.value) (v - 1);;
  v ← ld8 (sem + sem_t.value);
  ASSERT (0 <=? v) "thread/lock.c" 43 "sem_down" "sem->value >= 0";;
  INTERRUPT_RESTORE state.

(** Waking the first waiter. *)
Definition abs_wake (ws : list Z) (a : sched) : sched :=
  match ws with [] => a | w :: _ => abs_unblock w a end.

Section Specs.
Context {PL : Platform} {LK : Linker} (tasks : list Z) (idle : Z).
Context (Hlay : layout tasks) (sem : Z) (Hhome : sem_home tasks sem).

(** The waiters of a semaphore are blocked, and the idle task is not one. *)
Record waiting (a : sched) (ws : list Z) : Prop := {
  wt_blocked : forall w, w ∈ ws -> s_status a w = BLOCKED;
  wt_nodup : NoDup ws;
  wt_idle : idle ∉ ws
}.

(** What the operations may change: the semaphore, the scheduler's data and
    the tags of the tasks [q]; at most the pages of the tasks. *)
Definition sem_touch (q : list Z) (b : Z) : Prop :=
  sem <= b < sem + sem_t.sizeof \/ sched_bytes tasks q b.
Definition sem_frame (b : Z) : Prop :=
  sem <= b < sem + sem_t.sizeof \/
  sym_ready_thread_list <= b < sym_ready_thread_list + list.sizeof \/
  esp0_bytes b \/ Exists (fun t => t <= b < t + 4096) tasks.

Ltac semfacts :=
  let H := fresh in
  destruct (sh_list _ _ Hhome) as (? & ? & H); clear H;
  pose proof (sh_range _ _ Hhome); pose proof (sh_ready _ _ Hhome); pose proof (sh_tss _ _ Hhome);
  pose proof (lay_fd _ Hlay); pose proof (lay_ready _ Hlay); pose proof (lay_tss _ Hlay);
  pose proof (lay_tss_ready _ Hlay);
  unfold sem_t.value, sem_t.waiters, sem_t.sizeof, list.sizeof, tss_t.sizeof in *.

Lemma sem_list_apart :
  sem + sem_t.waiters + list.sizeof <= sym_ready_thread_list \/
  sym_ready_thread_list + list.sizeof <= sem + sem_t.waiters.
Proof. semfacts. lia. Qed.

Lemma sem_queue_disjoint ws q b :
  (forall t, t ∈ ws -> t ∈ tasks) -> (forall t, t ∈ q -> t ∈ tasks) -> (forall t, t ∈ ws -> t ∉ q) ->
  list_bytes (sem + sem_t.waiters) ws b -> ~ queue_bytes q b.
Proof.
  intros Hws Hq Hd. apply (list_bytes_disjoint tasks Hlay); try done.
  - apply Hhome.
  - by apply ready_home.
  - apply sem_list_apart.
Qed.

(** The semaphore is not touched by the scheduler. *)
Lemma sem_rep_sched q m m' v ws :
  (forall t, t ∈ q -> t ∈ tasks) -> (forall t, t ∈ ws -> t ∉ q) ->
  changed_only (sched_bytes tasks q) m m' -> sem_rep tasks m sem v ws -> sem_rep tasks m' sem v ws.
Proof.
  intros Hq Hd Hc [Hv Hw]. constructor.
  - rewrite <- Hv. apply Hc. semfacts. intros [[Hb|Hb]|[Hb|Hb]].
    + unfold list.sizeof in *. lia.
    + apply Exists_exists in Hb as (t & Ht & Hb). apply Hq in Ht. unfold tag in Hb. offsets.
      pose proof (sh_tasks _ _ Hhome t Ht). unfold sem_t.sizeof in *. lia.
    + apply Exists_exists in Hb as (t & Ht & Hb).
      pose proof (sh_tasks _ _ Hhome t Ht). unfold sem_t.sizeof in *. lia.
    + unfold esp0_bytes in Hb. lia.
  - eapply task_queue_frame; [exact Hc| |exact Hw]. pose proof (tq_sub _ _ _ _ Hw) as Hws.
    intros b Hb [Hb2|[Hb2|Hb2]].
    + exact (sem_queue_disjoint ws q b Hws Hq Hd Hb Hb2).
    + apply Exists_exists in Hb2 as (t & Ht & Hb2).
      by eapply (scalar_list_disjoint tasks Hlay _ _ t b (sh_list _ _ Hhome) Hws Ht Hb).
    + unfold esp0_bytes in Hb2. semfacts. destruct Hb as [Hb|Hb]; [unfold list.sizeof in *; lia|].
      apply Exists_exists in Hb as (t & Ht & Hb). apply Hws in Ht.
      pose proof (lay_tss_task _ Hlay t Ht). unfold tag, tss_t.sizeof in *. offsets. lia.
Qed.

(** The scheduler is not touched by a change of the semaphore's value. *)
Lemma rep_put_value a m x : rep tasks a m -> rep tasks a (put8 m (sem + sem_t.value) x).
Proof.
  intros [Hl Ht Hs]. constructor; [| |done].
  - eapply dlist_frame; [|done]. intros b Hb%node_bytes_queue. apply get8_put8_ne. semfacts.
    destruct Hb as [Hb|Hb]; [unfold list.sizeof in *; lia|].
    apply Exists_exists in Hb as (t & Hin & Hb). apply Hs in Hin. unfold tag in Hb. offsets.
    pose proof (sh_tasks _ _ Hhome t Hin). unfold sem_t.sizeof in *. lia.
  - intros t Hin. eapply (tcb_frame tasks Hlay); [|by apply Ht]. intros b Hb. apply get8_put8_ne.
    semfacts. offsets. pose proof (sh_tasks _ _ Hhome t Hin). unfold sem_t.sizeof in *. lia.
Qed.

Lemma queue_put_value m ws x :
  task_queue tasks m (sem + sem_t.waiters) ws ->
  task_queue tasks (put8 m (sem + sem_t.value) x) (sem + sem_t.waiters) ws.
Proof.
  intros Hq. eapply (task_queue_frame _ _ _ (fun b => b = sem)); [| |exact Hq].
  - intros b Hb. apply get8_put8_ne. unfold sem_t.value. lia.
  - intros b [Hb|Hb] ->; [semfacts; unfold list.sizeof in *; lia|].
    apply Exists_exists in Hb as (t & Hin & Hb). apply (tq_sub _ _ _ _ Hq) in Hin.
    pose proof (sh_tasks _ _ Hhome t Hin). unfold tag in *. semfacts. offsets. lia.
Qed.

Lemma frame_list ws q m m' :
  (forall t, t ∈ ws -> t ∈ q) ->
  changed_only (list_bytes (sem + sem_t.waiters) ws) m m' -> changed_only (sem_touch q) m m'.
Proof.
  intros Hws Hc. eapply changed_weaken; [done|]. intros b [Hb|Hb].
  - left. semfacts. unfold list.sizeof in *. lia.
  - right. left. right. apply Exists_exists in Hb as (t & Ht & Hb). apply Exists_exists. eauto.
Qed.

Lemma frame_sched q' q m m' :
  (forall t, t ∈ q' -> t ∈ q) ->
  changed_only (sched_bytes tasks q') m m' -> changed_only (sem_touch q) m m'.
Proof.
  intros Hq Hc. eapply changed_weaken; [done|]. intros b [[Hb|Hb]|Hb]; right; [by left; left| |by right].
  left. right. apply Exists_exists in Hb as (t & Ht & Hb). apply Exists_exists. eauto.
Qed.

Definition value_byte (b : Z) : Prop := b = sem + sem_t.value.

Lemma frame_value m x : changed_only value_byte m (put8 m (sem + sem_t.value) x).
Proof. intros b Hb. apply get8_put8_ne. intros <-. by apply Hb. Qed.

Lemma value_touch q b : value_byte b -> sem_touch q b.
Proof. intros ->. left. unfold sem_t.value, sem_t.sizeof. lia. Qed.

Lemma touch_frame q b : (forall t, t ∈ q -> t ∈ tasks) -> sem_touch q b -> sem_frame b.
Proof.
  intros Hq [Hb|[[Hb|Hb]|[Hb|Hb]]]; [by left|by right; left| | |by right; right; left].
  - right. right. right. apply Exists_exists in Hb as (t & Ht & Hb). apply Exists_exists.
    exists t. split; [by apply Hq|]. unfold tag in Hb. pose proof (lay_fd _ Hlay). offsets. lia.
  - right. right. right. apply Exists_exists in Hb as (t & Ht & Hb). apply Exists_exists.
    exists t. split; [done|lia].
Qed.

(** *** Creation *)

Lemma sem_init_run v s :
  0 <= v < 256 ->
  exists m', sem_init sem v s = Ok tt (set_mem m' s) /\ sem_rep tasks m' sem v [] /\
    changed_only (fun b => sem <= b < sem + sem_t.sizeof) (mem s) m'.
Proof.
  intros Hv. semfacts. unfold sem_init. srun.
  destruct (list_init_run (sem + sem_t.waiters) (set_mem (put8 (mem s) (sem + sem_t.value) v) s))
    as (m' & E & Hd & Hc); [unfold sem_t.waiters; lia|unfold sem_t.waiters, list.sizeof; lia|].
  exists m'. split; [exact E|]. msimpl. unfold sem_t.value, sem_t.waiters, list.sizeof in *. split.
  - constructor; [|constructor; [done|by intros ? ?%not_elem_of_nil]].
    unfold sem_t.value. rewrite Hc by lia. rewrite get8_put8_eq. by apply u8_small.
  - intros b Hb. rewrite Hc by lia. apply get8_put8_ne. lia.
Qed.

(** *** Raising *)

(** A waiter is blocked, so it is not in the ready queue. *)
Lemma waiting_not_ready a ws w :
  wf tasks idle a -> waiting a ws -> w ∈ ws -> w ∉ s_ready a.
Proof. intros Hw Hwt Hin [_ E]%(wf_ready _ _ _ Hw). by rewrite (wt_blocked _ _ Hwt w Hin) in E. Qed.

Lemma sem_wake_run a ws s v :
  inv tasks idle a -> waiting a ws -> rep tasks a (mem s) -> sem_rep tasks (mem s) sem v ws ->
  intr_flag s = false ->
  exists m', (e ← list_empty (sem + sem_t.waiters);
    when (negb e) (
      node ← list_pop_front (sem + sem_t.waiters);
      let next_thread := node_to_task node GENERAL_LIST_NODE in
      thread_unblock next_thread)) s = Ok tt (set_mem m' s) /\
    rep tasks (abs_wake ws a) m' /\ sem_rep tasks m' sem v (tl ws) /\
    changed_only (sem_touch (ws ++ s_ready a)) (mem s) m'.
Proof.
  intros Hi Hwt Hr Hsem Hoff. pose proof Hsem as [Hv Hq]. pose proof (tq_sub _ _ _ _ Hq) as Hws.
  rewrite (bind_ok _ _ _ _ _ (queue_empty tasks _ _ s Hq)).
  destruct ws as [|w ws]; cbn [abs_wake tl].
  { exists (mem s). rewrite bool_decide_true, set_mem_id by done.
    split_and!; [done..|apply changed_refl]. }
  rewrite bool_decide_false by done. cbn [negb when].
  destruct (queue_pop_front tasks _ _ s Hq Hoff w ws eq_refl) as (m1 & E1 & Hq1 & Hc1).
  rewrite (bind_ok _ _ _ _ _ E1).
  assert (Hw : w ∈ tasks) by (apply Hws; by left).
  pose proof (tq_sub _ _ _ _ Hq1) as Hws1.
  assert (Hr1 : rep tasks a m1).
  { eapply (rep_list_frame tasks Hlay _ _ ws); [done|apply Hhome|apply sem_list_apart|done| |done].
    intros t Ht. eapply (waiting_not_ready a (w :: ws)); [apply Hi|done|by right]. }
  rewrite (node_to_task_tag tasks Hlay w Hw).
  destruct (thread_unblock_run tasks Hlay a w (set_mem m1 s) Hr1 Hw) as (m2 & E2 & Hr2 & Hc2).
  { left. apply (wt_blocked _ _ Hwt). by left. }
  { eapply waiting_not_ready; [apply Hi|done|by left]. }
  exists m2. rewrite E2, after_critical_off by done.
  assert (Hc2' : changed_only (sched_bytes tasks (w :: s_ready a)) m1 m2).
  { eapply changed_weaken; [done|]. intros b [Hb|Hb]; [by left|right; by left]. }
  assert (Hin : forall t, t ∈ w :: s_ready a -> t ∈ tasks).
  { intros t [ ->|Ht]%elem_of_cons; [done|]. by apply (rep_sub _ _ _ Hr). }
  split_and!; [done|done| |].
  - eapply sem_rep_sched; [exact Hin| |exact Hc2'|].
    + intros t Ht [ ->|Hrd]%elem_of_cons.
      * pose proof (wt_nodup _ _ Hwt) as [? _]%NoDup_cons. done.
      * eapply (waiting_not_ready a (w :: ws)); [apply Hi|done|by right|done].
    + constructor; [|done]. rewrite <- Hv. apply Hc1. intros [Hb|Hb].
      * unfold sem_t.value, sem_t.waiters in Hb. lia.
      * apply Exists_exists in Hb as (t & Ht & Hb). apply Hws1 in Ht.
        pose proof (sh_tasks _ _ Hhome t Ht). unfold tag in *. semfacts. offsets. lia.
  - eapply changed_trans.
    + eapply (frame_list ws); [|done]. intros t Ht. apply elem_of_app. left. by right.
    + eapply frame_sched; [|done]. intros t. rewrite elem_of_app, !elem_of_cons. tauto.
Qed.

Lemma wake_inv a ws :
  inv tasks idle a -> waiting a ws -> (forall w, w ∈ ws -> w ∈ tasks) -> inv tasks idle (abs_wake ws a).
Proof.
  intros Hi Hwt Hin. destruct ws as [|w ws]; [done|]. apply (inv_step tasks idle a); [done|].
  constructor; [apply Hin; by left|]. left. apply (wt_blocked _ _ Hwt). by left.
Qed.

Lemma wake_waiting a ws : waiting a ws -> waiting (abs_wake ws a) (tl ws).
Proof.
  destruct ws as [|w ws]; [done|]. intros [Hb [Hn Hnd]%NoDup_cons Hid]. cbn. constructor.
  - intros u Hu. unfold abs_unblock. rewrite status_alter. cbn. case_decide; [by subst|].
    apply Hb. by right.
  - done.
  - intros Hin. apply Hid. by right.
Qed.

(** The part of a value update and its assertion. *)
Lemma sem_value_run a ws m x v s :
  rep tasks a m -> sem_rep tasks m sem v ws -> 0 <= x < 256 ->
  let m' := put8 m (sem + sem_t.value) x in
  st8 (sem + sem_t.value) x (set_mem m s) = Ok tt (set_mem m' s) /\
  get8 m' (sem + sem_t.value) = x /\
  rep tasks a m' /\ sem_rep tasks m' sem x ws /\ changed_only value_byte m m'.
Proof.
  intros Hr [_ Hq] Hx m'. assert (E : get8 m' (sem + sem_t.value) = x).
  { unfold m'. by rewrite get8_put8_eq, u8_small. }
  split_and!; [done|done|by apply rep_put_value| |apply frame_value].
  constructor; [done|by apply queue_put_value].
Qed.

Lemma off_rep a ws s v :
  runs tasks idle a s -> sem_rep tasks (mem s) sem v ws ->
  let s0 := set_intr_flag false s in
  runs tasks idle a s0 /\ sem_rep tasks (mem s0) sem v ws /\ intr_flag s0 = false.
Proof. intros [H1 H2 H3] Hs. by split_and!. Qed.

Lemma sem_up_run a ws s v :
  inv tasks idle a -> waiting a ws -> runs tasks idle a s -> sem_rep tasks (mem s) sem v ws ->
  v < 255 ->
  exists m', sem_up sem s = Ok tt (after_critical s m') /\
    rep tasks (abs_wake ws a) m' /\ sem_rep tasks m' sem (v + 1) (tl ws) /\
    changed_only (sem_touch (ws ++ s_ready a)) (mem s) m'.
Proof.
  intros Hi Hwt Hr Hsem Hv. destruct (off_rep _ _ _ _ Hr Hsem) as (Hr0 & Hsem0 & Hoff).
  unfold sem_up, INTERRUPT_DISABLE. rewrite (bind_ok _ _ _ _ _ (intr_disable_run s)).
  set (s0 := set_intr_flag false s) in *.
  destruct (sem_wake_run a ws s0 v Hi Hwt (run_rep _ _ _ _ Hr0) Hsem0 Hoff) as (m1 & E1 & Hr1 & Hs1 & Hc1).
  rewrite <- (bind_assoc (list_empty _)). rewrite (bind_ok _ _ _ _ _ E1).
  pose proof (sr_value _ _ _ _ _ Hs1) as Hval. pose proof (get8_range m1 (sem + sem_t.value)).
  erewrite bind_ok by reflexivity. msimpl. rewrite Hval.
  destruct (sem_value_run _ _ m1 (v + 1) v s0 Hr1 Hs1 ltac:(lia)) as (E2 & Hg & Hr2 & Hs2 & Hc2).
  rewrite (bind_ok _ _ _ _ _ E2). erewrite bind_ok by reflexivity. msimpl. rewrite Hg.
  erewrite bind_ok by (apply assert_run; lia).
  eexists. split; [apply critical_restore|]. split_and!; [done|done|].
  eapply changed_trans; [done|]. eapply changed_weaken; [done|]. apply value_touch.
Qed.

Lemma sem_up_overflow_run a ws s :
  inv tasks idle a -> waiting a ws -> runs tasks idle a s -> sem_rep tasks (mem s) sem 255 ws ->
  exists s', sem_up sem s = Panic "sem->value > 0" s'.
Proof.
  intros Hi Hwt Hr Hsem. destruct (off_rep _ _ _ _ Hr Hsem) as (Hr0 & Hsem0 & Hoff).
  unfold sem_up, INTERRUPT_DISABLE. rewrite (bind_ok _ _ _ _ _ (intr_disable_run s)).
  set (s0 := set_intr_flag false s) in *.
  destruct (sem_wake_run a ws s0 255 Hi Hwt (run_rep _ _ _ _ Hr0) Hsem0 Hoff) as (m1 & E1 & Hr1 & Hs1 & Hc1).
  rewrite <- (bind_assoc (list_empty _)). rewrite (bind_ok _ _ _ _ _ E1).
  pose proof (sr_value _ _ _ _ _ Hs1) as Hval.
  erewrite bind_ok by reflexivity. msimpl. rewrite Hval.
  srun. rewrite get8_put8_eq. change (u8 (255 + 1)) with 0. cbn [Z.ltb Z.compare].
  destruct (assert_false "thread/lock.c" 24 "sem_up" "sem->value > 0"
    (set_mem (put8 m1 (sem + sem_t.value) (255 + 1)) s0)) as (s' & E & _).
  exists s'. by rewrite (bind_panic _ _ _ _ _ E).
Qed.

(** *** Lowering *)

(** The value is positive: it is taken. *)
Lemma sem_down_take_run n a ws s v (b : bool) :
  rep tasks a (mem s) -> sem_rep tasks (mem s) sem v ws -> 0 < v -> intr_flag s = false ->
  exists m', sem_down_from (S n) sem (if b then INTR_ON else INTR_OFF) s
      = Ok tt (set_intr_flag (flag_after b) (set_mem m' s)) /\
    rep tasks a m' /\ sem_rep tasks m' sem (v - 1) ws /\ changed_only value_byte (mem s) m'.
Proof.
  intros Hr Hsem Hv Hoff. pose proof (sr_value _ _ _ _ _ Hsem) as Hval.
  pose proof (get8_range (mem s) (sem + sem_t.value)).
  unfold sem_down_from. rewrite loop_n_succ.
  assert (E : sem_down_body sem tt s = Ok (inr tt) s).
  { unfold sem_down_body. erewrite bind_ok by reflexivity. cbv beta. rewrite Hval.
    by rewrite (proj2 (Z.eqb_neq v 0)) by lia. }
  rewrite bind_assoc. rewrite (bind_ok _ _ _ _ _ E). erewrite bind_ok by reflexivity.
  erewrite bind_ok by reflexivity. cbv beta. rewrite Hval.
  destruct (sem_value_run a ws (mem s) (v - 1) v s Hr Hsem ltac:(lia)) as (E2 & Hg & Hr2 & Hs2 & Hc2).
  rewrite set_mem_id in E2. rewrite (bind_ok _ _ _ _ _ E2).
  erewrite bind_ok by reflexivity. msimpl. rewrite Hg.
  erewrite bind_ok by (apply assert_run; lia).
  eexists. split; [by apply restore_run|]. done.
Qed.

(** The value is zero: the task joins the waiters and blocks. *)
Lemma sem_down_block_run n a ws s (st : intr_stat) :
  inv tasks idle a -> waiting a ws -> s_cur a <> idle -> runs tasks idle a s ->
  sem_rep tasks (mem s) sem 0 ws -> intr_flag s = false ->
  exists s' k, sem_down_from (S n) sem st s = Switch s' k /\
    runs tasks idle (abs_block idle BLOCKED a) s' /\
    sem_rep tasks (mem s') sem 0 (ws ++ [s_cur a]) /\ intr_flag s' = false /\
    changed_only (sem_touch (ws ++ s_cur a :: idle :: s_ready a)) (mem s) (mem s') /\
    (forall s'', intr_flag s'' = false -> k s'' = sem_down_from n sem st s'').
Proof.
  intros Hi Hwt Hid Hr Hsem Hoff. pose proof Hsem as [Hval Hq]. destruct Hi as [Hw HR].
  pose proof (wf_cur _ _ _ Hw) as Hcur.
  assert (Hn : s_cur a ∉ ws) by (intros Hin; by rewrite (wt_blocked _ _ Hwt _ Hin) in HR).
  assert (Hnr : s_cur a ∉ s_ready a) by (intros [_ E]%(wf_ready _ _ _ Hw); by rewrite HR in E).
  destruct (queue_push_back tasks Hlay _ _ s (sh_list _ _ Hhome) Hq Hoff _ Hcur Hn) as (m1 & E1 & Hq1 & Hc1).
  pose proof (tq_sub _ _ _ _ Hq1) as Hws1.
  assert (Hc1' : changed_only (list_bytes (sem + sem_t.waiters) (ws ++ [s_cur a])) (mem s) m1).
  { eapply changed_weaken; [done|]. intros b [Hb|Hb]; [by left|right].
    rewrite Exists_app, Exists_cons, Exists_nil. rewrite Exists_cons in Hb. tauto. }
  assert (Hrs1 : runs tasks idle a (set_mem m1 s)).
  { destruct Hr as [G1 G2 G3]. constructor; msimpl; [|done|done].
    eapply (rep_list_frame tasks Hlay _ _ (ws ++ [s_cur a]));
      [done|apply Hhome|apply sem_list_apart|done| |done].
    intros t [Ht| ->%list_elem_of_singleton]%elem_of_app; [|done].
    by eapply waiting_not_ready. }
  destruct (thread_block_run tasks Hlay idle a (set_mem m1 s) BLOCKED (conj Hw HR) Hrs1 ltac:(by left))
    as (s' & k & E2 & Hh). msimpl.
  assert (Hqin : forall t, t ∈ idle :: s_ready a -> t ∈ tasks).
  { intros t [ ->|Ht]%elem_of_cons; [apply (wf_idle _ _ _ Hw)|]. by apply (rep_sub _ _ _ (run_rep _ _ _ _ Hr)). }
  exists s'. eexists. split; [|split_and!; [apply Hh| |apply Hh| |]].
  - assert (Eb : sem_down_body sem tt s
        = Switch s' (fun s'' => bind_res (k s'') (fun _ => mret (inl tt)))).
    { unfold sem_down_body. erewrite bind_ok by reflexivity. cbv beta. rewrite Hval. cbn [Z.eqb].
      rewrite (bind_ok _ _ _ _ _ (running_thread_run tasks Hlay idle a s Hw Hr)).
      rewrite (bind_ok _ _ _ _ _ (queue_exist tasks _ _ s Hq (s_cur a))), bool_decide_false by done.
      erewrite bind_ok by (by apply assert_run).
      rewrite (bind_ok _ _ _ _ _ E1). by rewrite (bind_switch _ _ _ _ _ E2). }
    unfold sem_down_from. rewrite loop_n_succ, bind_assoc.
    rewrite (bind_switch _ _ _ _ _ Eb). reflexivity.
  - eapply (sem_rep_sched _ m1); [exact Hqin| |apply (ho_frame _ _ _ _ _ _ _ _ Hh)|].
    + intros t Hin [ ->|Hrd]%elem_of_cons.
      * apply elem_of_app in Hin as [Hin| ->%list_elem_of_singleton]; [|done].
        by apply (wt_idle _ _ Hwt).
      * apply elem_of_app in Hin as [Hin| ->%list_elem_of_singleton]; [|done].
        by eapply waiting_not_ready.
    + constructor; [|done]. rewrite <- Hval. apply Hc1'. intros [Hb|Hb].
      * unfold sem_t.value, sem_t.waiters in Hb. lia.
      * apply Exists_exists in Hb as (t & Ht & Hb). apply Hws1 in Ht.
        pose proof (sh_tasks _ _ Hhome t Ht). unfold tag in *. semfacts. offsets. lia.
  - eapply (changed_trans _ _ m1).
    + apply (frame_list (ws ++ [s_cur a])); [|done].
      intros t. rewrite !elem_of_app, !elem_of_cons, elem_of_nil. tauto.
    + eapply frame_sched; [|apply (ho_frame _ _ _ _ _ _ _ _ Hh)].
      intros t. rewrite elem_of_app, !elem_of_cons. tauto.
  - intros s'' Hs''. cbv beta. rewrite (ho_resume _ _ _ _ _ _ _ _ Hh s'' Hs''). cbn.
    assert (E3 : set_intr_flag (flag_after (intr_flag s)) s'' = s'').
    { rewrite Hoff. unfold flag_after. destruct s''; cbn in *; subst. by case_decide. }
    rewrite E3. done.
Qed.

Lemma sem_down_start s :
  exists n, Z.of_nat n = 2 ^ 33 - 1 /\
    sem_down sem s = sem_down_from (S n) sem (if intr_flag s then INTR_ON else INTR_OFF)
      (set_intr_flag false s).
Proof.
  destruct (while_loop_n (sem_down_body sem)) as (n & Hn & E). exists n. split; [done|].
  unfold sem_down, INTERRUPT_DISABLE. rewrite (bind_ok _ _ _ _ _ (intr_disable_run s)).
  by rewrite E.
Qed.
End Specs.

(** ** The semaphore operations implement operations on queues *)
Section Contract.
Context {PL : Platform} {LK : Linker} (tasks : list Z) (idle : Z).

(** The semaphore at [sem] has value [v] and the waiters [ws] in the machine
    [s], which runs the scheduler state [a]. *)
Record sem_state (sem : Z) (a : sched) (v : Z) (ws : list Z) (s : machine) : Prop := {
  ss_inv : inv tasks idle a;
  ss_waiting : waiting idle a ws;
  ss_runs : runs tasks idle a s;
  ss_sem : sem_rep tasks (mem s) sem v ws
}.

Lemma status_schedule a t :
  wf tasks idle a -> t ∉ s_ready a -> t <> idle -> s_status a (s_cur a) <> RUNNING ->
  s_status (abs_schedule idle a) t = s_status a t.
Proof.
  intros Hw Hr Hi Hc. rewrite abs_schedule_refill. unfold abs_refill.
  destruct (decide (s_status a (s_cur a) = RUNNING)) as [|_]; [done|].
  assert (Hs : forall b, t ∉ s_ready b -> s_status (abs_switch b) t = s_status b t).
  { intros b Hb. unfold abs_switch. destruct (s_ready b) as [|n q]; [done|].
    unfold s_status. cbn. assert (t <> n) by (intros ->; apply Hb; by left).
    repeat case_decide; subst; cbn; by rewrite ?decide_False. }
  case_decide as E; [|by apply Hs]. rewrite Hs.
  - unfold abs_unblock. rewrite status_alter. by case_decide.
  - unfold abs_unblock. cbn. rewrite E, list_elem_of_singleton. done.
Qed.

(** Scheduling blocks nobody. *)
Lemma schedule_blocked a t :
  is_blocked (s_status (abs_schedule idle a) t) -> is_blocked (s_status a t).
Proof.
  assert (Hr : ~ is_blocked READY) by (by intros [?|[?|?]]).
  assert (Hrun : ~ is_blocked RUNNING) by (by intros [?|[?|?]]).
  rewrite abs_schedule_refill. intros Hb.
  assert (Hb1 : is_blocked (s_status (abs_refill idle a) t)).
  { revert Hb. unfold abs_switch. destruct (s_ready (abs_refill idle a)) as [|n q]; [done|].
    unfold s_status. cbn. repeat (case_decide; subst; cbn); tauto. }
  revert Hb1. unfold abs_refill, abs_preempt, abs_unblock, s_status.
  repeat (case_decide; cbn; subst); tauto.
Qed.

Lemma block_waiting a ws :
  inv tasks idle a -> waiting idle a ws -> s_cur a <> idle ->
  waiting idle (abs_block idle BLOCKED a) (ws ++ [s_cur a]).
Proof.
  intros Hi Hwt Hid. pose proof (wf_block _ _ _ BLOCKED Hi ltac:(by left)) as Hw.
  destruct Hi as [Hw0 HR].
  assert (Hn : s_cur a ∉ ws) by (intros Hin; by rewrite (wt_blocked _ _ _ Hwt _ Hin) in HR).
  assert (Hst : forall t, t ∈ ws ++ [s_cur a] ->
    s_status (alter_tcb (with_status BLOCKED) (s_cur a) a) t = BLOCKED).
  { intros t [Ht| ->%list_elem_of_singleton]%elem_of_app; rewrite status_alter; cbn; case_decide; try done.
    by apply (wt_blocked _ _ _ Hwt). }
  constructor.
  - intros t Ht. unfold abs_block. rewrite status_schedule; [by apply Hst|done| | |].
    + intros [_ E]%(wf_ready _ _ _ Hw). by rewrite (Hst t Ht) in E.
    + apply elem_of_app in Ht as [Ht| ->%list_elem_of_singleton]; [|done].
      intros ->. by apply (wt_idle _ _ _ Hwt).
    + rewrite Hst; [done|]. apply elem_of_app. right. by left.
  - apply NoDup_app. split_and!; [apply Hwt| |apply NoDup_singleton].
    by intros u Hu ->%list_elem_of_singleton.
  - intros [Hin| E%list_elem_of_singleton]%elem_of_app; [by apply (wt_idle _ _ _ Hwt)|congruence].
Qed.

Lemma sem_up_ok sem a v ws s :
  layout tasks -> sem_home tasks sem -> sem_state sem a v ws s -> v < 255 ->
  exists s', sem_up sem s = Ok tt s' /\ sem_state sem (abs_wake ws a) (v + 1) (tl ws) s' /\
    intr_flag s' = flag_after (intr_flag s) /\ vars s' = vars s /\ trace s' = trace s /\
    changed_only (sem_touch tasks sem (ws ++ s_ready a)) (mem s) (mem s').
Proof.
  intros Hl Hh [Hi Hwt Hr Hs] Hv.
  destruct (sem_up_run tasks idle Hl sem Hh a ws s v Hi Hwt Hr Hs Hv) as (m' & E & Hr' & Hs' & Hc).
  exists (after_critical s m'). split_and!; [done| |done..]. constructor; [| | |done].
  - apply wake_inv; [done|done|]. apply (tq_sub _ _ _ _ (sr_queue _ _ _ _ _ Hs)).
  - by apply wake_waiting.
  - destruct Hr as [_ He Hid]. constructor; [done| |done]. by destruct ws.
Qed.

(** Without waiters only the value changes. *)
Lemma sem_up_alone sem a v s s' :
  layout tasks -> sem_home tasks sem -> sem_state sem a v [] s -> v < 255 ->
  sem_up sem s = Ok tt s' -> changed_only (value_byte sem) (mem s) (mem s').
Proof.
  intros Hl Hh [_ _ Hr Hs] Hv E. destruct (off_rep tasks idle sem a [] s v Hr Hs) as (_ & [Hval Hq] & _).
  unfold sem_up, INTERRUPT_DISABLE in E. rewrite (bind_ok _ _ _ _ _ (intr_disable_run s)) in E.
  set (s0 := set_intr_flag false s) in *.
  rewrite (bind_ok _ _ _ _ _ (queue_empty tasks _ _ s0 Hq)), bool_decide_true in E by done. cbn [negb when] in E.
  pose proof (get8_range (mem s) (sem + sem_t.value)) as Hg.
  set (m1 := put8 (mem s) (sem + sem_t.value) (v + 1)).
  do 2 (erewrite bind_ok in E by reflexivity; cbv beta in E). rewrite Hval in E.
  rewrite (bind_ok _ _ tt s0 (set_mem m1 s0)) in E by reflexivity.
  erewrite bind_ok in E by reflexivity. cbv beta in E.
  replace (get8 (mem (set_mem m1 s0)) (sem + sem_t.value)) with (v + 1) in E
    by (unfold m1; msimpl; rewrite get8_put8_eq, u8_small by (change (mem s0) with (mem s) in *; lia); done).
  erewrite bind_ok in E by (apply assert_run; change (mem s0) with (mem s) in *; lia).
  pose proof (critical_restore s m1) as Er. change (set_mem m1 s0) with (set_mem m1 (set_intr_flag false s)) in E.
  rewrite Er in E. injection E as <-. apply frame_value.
Qed.

Lemma sem_down_take sem a v ws s :
  layout tasks -> sem_home tasks sem -> sem_state sem a v ws s -> 0 < v ->
  exists s', sem_down sem s = Ok tt s' /\ sem_state sem a (v - 1) ws s' /\
    intr_flag s' = flag_after (intr_flag s) /\ vars s' = vars s /\ trace s' = trace s /\
    changed_only (value_byte sem) (mem s) (mem s').
Proof.
  intros Hl Hh [Hi Hwt Hr Hs] Hv. destruct (sem_down_start sem s) as (n & Hn & E).
  destruct (off_rep tasks idle sem a ws s v Hr Hs) as (Hr0 & Hs0 & Hoff). rewrite E.
  destruct (sem_down_take_run tasks Hl sem Hh n a ws _ v (intr_flag s) (run_rep _ _ _ _ Hr0) Hs0 Hv Hoff)
    as (m' & E2 & Hr' & Hs' & Hc).
  eexists. split; [exact E2|]. split_and!; [|done..]. constructor; [done|done| |done].
  destruct Hr as [_ He Hid']. by constructor.
Qed.

Lemma sem_down_wait sem a ws s :
  layout tasks -> sem_home tasks sem -> sem_state sem a 0 ws s -> s_cur a <> idle ->
  exists n s' k, sem_down sem s = Switch s' k /\
    sem_state sem (abs_block idle BLOCKED a) 0 (ws ++ [s_cur a]) s' /\
    intr_flag s' = false /\
    changed_only (sem_touch tasks sem (ws ++ s_cur a :: idle :: s_ready a)) (mem s) (mem s') /\
    Z.of_nat n = 2 ^ 33 - 1 /\
    (forall s'', intr_flag s'' = false ->
       k s'' = sem_down_from n sem (if intr_flag s then INTR_ON else INTR_OFF) s'').
Proof.
  intros Hl Hh [Hi Hwt Hr Hs] Hid. destruct (sem_down_start sem s) as (n & Hn & E).
  destruct (off_rep tasks idle sem a ws s 0 Hr Hs) as (Hr0 & Hs0 & Hoff). rewrite E.
  destruct (sem_down_block_run tasks idle Hl sem Hh n a ws _
    (if intr_flag s then INTR_ON else INTR_OFF) Hi Hwt Hid Hr0 Hs0 Hoff)
    as (s' & k & E2 & Hr' & Hs' & Ho & Hc & Hk).
  exists n, s', k. split_and!; [done| |done|done|done|done].
  constructor; [|by apply block_waiting|done|done].
  by apply inv_schedule, wf_block; [|left].
Qed.

(** The tasks an operation touches are tasks. *)
Lemma touched_tasks sem a v ws s t :
  sem_state sem a v ws s -> t ∈ ws ++ s_cur a :: idle :: s_ready a -> t ∈ tasks.
Proof.
  intros [[Hw _] _ Hr Hs]. rewrite elem_of_app, !elem_of_cons. intros [Ht|[->|[->|Ht]]].
  - by apply (tq_sub _ _ _ _ (sr_queue _ _ _ _ _ Hs)).
  - apply (wf_cur _ _ _ Hw).
  - apply (wf_idle _ _ _ Hw).
  - by apply (rep_sub _ _ _ (run_rep _ _ _ _ Hr)).
Qed.

Lemma touch_to_frame sem a v ws s q m m' :
  layout tasks -> sem_state sem a v ws s -> (forall t, t ∈ q -> t ∈ ws ++ s_cur a :: idle :: s_ready a) ->
  changed_only (sem_touch tasks sem q) m m' -> changed_only (sem_frame tasks sem) m m'.
Proof.
  intros Hl Hs Hq Hc. eapply changed_weaken; [done|]. intros b. apply touch_frame; [done|].
  intros t Ht. by eapply touched_tasks, Hq.
Qed.

(** C19: [sem_up] adds one and makes the longest waiting task ready, at the front
    of the ready queue; at the maximal value its counter wraps to 0 and the
    assertion stops the machine. *)
Theorem sem_up_refines sem a v ws s :
  layout tasks -> sem_home tasks sem -> sem_state sem a v ws s ->
  (v < 255 -> exists s', sem_up sem s = Ok tt s' /\
     sem_state sem (abs_wake ws a) (v + 1) (tl ws) s' /\
     intr_flag s' = flag_after (intr_flag s) /\ changed_only (sem_frame tasks sem) (mem s) (mem s')) /\
  (v = 255 -> exists s', sem_up sem s = Panic "sem->value > 0" s').
Proof.
  intros Hl Hh Hs. split; [intros Hv|intros ->].
  - destruct (sem_up_ok sem a v ws s Hl Hh Hs Hv) as (s' & ? & ? & ? & _ & _ & ?). exists s'.
    split_and!; [done..|]. eapply (touch_to_frame _ a v ws s); [done|done| |done].
    intros t. rewrite !elem_of_app, !elem_of_cons. tauto.
  - destruct Hs. by eapply sem_up_overflow_run.
Qed.

(** C4: [sem_down] takes one unit if there is one. Otherwise the running task joins
    the waiters, blocks and hands the processor over; when it runs again it
    goes through [sem_down_from], with one round of waiting less. *)
Theorem sem_down_refines sem a v ws s :
  layout tasks -> sem_home tasks sem -> sem_state sem a v ws s -> s_cur a <> idle ->
  (0 < v -> exists s', sem_down sem s = Ok tt s' /\ sem_state sem a (v - 1) ws s' /\
     intr_flag s' = flag_after (intr_flag s) /\ changed_only (sem_frame tasks sem) (mem s) (mem s')) /\
  (v = 0 -> exists n s' k, sem_down sem s = Switch s' k /\
     sem_state sem (abs_block idle BLOCKED a) 0 (ws ++ [s_cur a]) s' /\
     intr_flag s' = false /\ changed_only (sem_frame tasks sem) (mem s) (mem s') /\
     Z.of_nat n = 2 ^ 33 - 1 /\
     (forall s'', intr_flag s'' = false ->
        k s'' = sem_down_from n sem (if intr_flag s then INTR_ON else INTR_OFF) s'')).
Proof.
  intros Hl Hh Hs Hid. split; [intros Hv|intros ->].
  - destruct (sem_down_take sem a v ws s Hl Hh Hs Hv) as (s' & ? & ? & ? & _ & _ & ?). exists s'.
    split_and!; [done..|]. eapply changed_weaken; [done|]. intros b Hb.
    eapply (touch_frame _ Hl _ []); [|by apply value_touch]. by intros t ?%not_elem_of_nil.
  - destruct (sem_down_wait sem a ws s Hl Hh Hs Hid) as (n & s' & k & ? & ? & ? & ? & ? & ?).
    exists n, s', k. split_and!; [done..| |done|done]. by eapply (touch_to_frame _ a 0 ws s).
Qed.

(** The resumed [sem_down]: it looks again, takes a unit or waits once more. *)
Theorem sem_down_resumes n sem a v ws s (b : bool) :
  layout tasks -> sem_home tasks sem -> sem_state sem a v ws s -> s_cur a <> idle ->
  intr_flag s = false ->
  (0 < v -> exists s', sem_down_from (S n) sem (if b then INTR_ON else INTR_OFF) s = Ok tt s' /\
     sem_state sem a (v - 1) ws s' /\ intr_flag s' = flag_after b) /\
  (v = 0 -> exists s' k, sem_down_from (S n) sem (if b then INTR_ON else INTR_OFF) s = Switch s' k /\
     sem_state sem (abs_block idle BLOCKED a) 0 (ws ++ [s_cur a]) s' /\ intr_flag s' = false /\
     (forall s'', intr_flag s'' = false ->
        k s'' = sem_down_from n sem (if b then INTR_ON else INTR_OFF) s'')).
Proof.
  intros Hl Hh [Hi Hwt Hr Hs] Hid Hoff. split; intros Hv.
  - destruct (sem_down_take_run tasks Hl sem Hh n a ws s v b (run_rep _ _ _ _ Hr) Hs Hv Hoff)
      as (m' & E2 & Hr' & Hs' & _).
    eexists. split; [exact E2|]. split; [|done]. constructor; [done|done| |done].
    destruct Hr as [_ He Hid']. by constructor.
  - subst v.
    destruct (sem_down_block_run tasks idle Hl sem Hh n a ws s
      (if b then INTR_ON else INTR_OFF) Hi Hwt Hid Hr Hs Hoff)
      as (s' & k & E2 & Hr' & Hs' & Ho & _ & Hk).
    exists s', k. split_and!; [done| |done|done].
    constructor; [|by apply block_waiting|done|done].
    by apply inv_schedule, wf_block; [|left].
Qed.
End Contract.

(** ** Any interleaving of threads at one semaphore *)
Section Interleaving.
Context (tasks : list Z) (idle : Z).

(** Where a thread is: outside, waiting in [sem_down] (asleep, or woken and
    not yet run), or past [sem_down] and before its [sem_up]. *)
Inductive place := Outside | Waiting | Holding.

#[export] Instance place_eq_dec : EqDecision place.
Proof. solve_decision. Defined.

Record world := mkWorld {
  w_sched : sched;
  w_value : Z;
  w_waiters : list Z;
  w_place : Z -> place
}.

Definition w_cur (w : world) : Z := s_cur (w_sched w).
Definition move (t : Z) (p : place) (f : Z -> place) : Z -> place :=
  fun u => if decide (u = t) then p else f u.

(** A step of the running thread: one of the outcomes of [sem_down] (started,
    or resumed), [sem_up], or a scheduling operation that does not concern the
    semaphore. *)
Inductive wstep (w : world) : world -> Prop :=
  | ws_take :
      w_place w (w_cur w) <> Holding -> w_cur w <> idle -> 0 < w_value w ->
      wstep w (mkWorld (w_sched w) (w_value w - 1) (w_waiters w)
        (move (w_cur w) Holding (w_place w)))
  | ws_wait :
      w_place w (w_cur w) <> Holding -> w_cur w <> idle -> w_value w = 0 ->
      wstep w (mkWorld (abs_block idle BLOCKED (w_sched w)) 0 (w_waiters w ++ [w_cur w])
        (move (w_cur w) Waiting (w_place w)))
  | ws_up :
      w_place w (w_cur w) = Holding -> w_value w < 255 ->
      wstep w (mkWorld (abs_wake (w_waiters w) (w_sched w)) (w_value w + 1) (tl (w_waiters w))
        (move (w_cur w) Outside (w_place w)))
  | ws_sched a :
      astep tasks idle (w_sched w) a ->
      (forall t, t ∈ w_waiters w -> s_status a t = BLOCKED) ->
      (forall t, t ∈ tasks -> w_place w t = Waiting -> t ∉ w_waiters w -> ~ is_blocked (s_status a t)) ->
      wstep w (mkWorld a (w_value w) (w_waiters w) (w_place w)).

(** Nobody has reached the semaphore, whose value is [v0]. *)
Definition initial (v0 : Z) (w : world) : Prop :=
  inv tasks idle (w_sched w) /\ w_value w = v0 /\ 0 <= v0 /\ w_waiters w = [] /\
  forall t, w_place w t = Outside.

Definition count (p : Z -> bool) : Z := Z.of_nat (length (List.filter p tasks)).

Lemma count_pos p : 0 < count p -> exists t, t ∈ tasks /\ p t = true.
Proof.
  unfold count. intros H. destruct (List.filter p tasks) as [|t l] eqn:E; [cbn in H; lia|].
  assert (Hin : In t (List.filter p tasks)) by (rewrite E; by left).
  apply filter_In in Hin as [Hin Hp]. exists t. by rewrite list_elem_of_In.
Qed.

Lemma count_ext p q : (forall t, t ∈ tasks -> p t = q t) -> count p = count q.
Proof.
  intros H. unfold count. do 2 f_equal. revert H. generalize tasks as l.
  induction l as [|x l IH]; intros H; [done|]. cbn. rewrite (H x) by by left.
  rewrite IH; [done|]. intros t Ht. apply H. by right.
Qed.

Lemma count_change p q t :
  NoDup tasks -> t ∈ tasks -> (forall u, u ∈ tasks -> u <> t -> q u = p u) ->
  count q = count p + Z.b2z (q t) - Z.b2z (p t).
Proof.
  unfold count. generalize tasks as l. induction l as [|x l IH]; intros Hn Ht H.
  - by apply not_elem_of_nil in Ht.
  - apply NoDup_cons in Hn as [Hx Hn]. cbn [List.filter].
    apply elem_of_cons in Ht as [->|Ht].
    + assert (E : List.filter q l = List.filter p l).
      { clear IH Hn. induction l as [|y l IHl]; [done|]. cbn. rewrite (H y).
        - rewrite IHl; [done| |].
          + intros Hin. apply Hx. by right.
          + intros u Hu Hne. apply H; [|done]. apply elem_of_cons in Hu as [->|?]; [by left|].
            right. by right.
        - right. by left.
        - intros ->. apply Hx. by left. }
      rewrite E. destruct (q x), (p x); cbn [length Z.b2z]; lia.
    + assert (x <> t) by (intros ->; done).
      rewrite (H x) by (done || by left).
      specialize (IH Hn Ht ltac:(intros u Hu; apply H; by right)).
      destruct (p x); cbn [length]; lia.
Qed.

Definition holding (w : world) (t : Z) : bool := bool_decide (w_place w t = Holding).
(** Woken, but not yet past the test of the value. *)
Definition woken (w : world) (t : Z) : bool :=
  bool_decide (w_place w t = Waiting /\ t ∉ w_waiters w).

Record winv (v0 : Z) (w : world) : Prop := {
  wi_inv : inv tasks idle (w_sched w);
  wi_waiting : waiting idle (w_sched w) (w_waiters w);
  wi_place : forall t, t ∈ w_waiters w -> t ∈ tasks /\ w_place w t = Waiting;
  wi_value : 0 <= w_value w;
  wi_units : w_value w + count (holding w) = v0;
  wi_wakeups : w_waiters w = [] \/ w_value w <= count (woken w);
  wi_runnable : forall t, t ∈ tasks -> w_place w t = Waiting -> t ∉ w_waiters w ->
    ~ is_blocked (s_status (w_sched w) t)
}.

Hypothesis Htasks : NoDup tasks.

Lemma winv_initial v0 w : initial v0 w -> winv v0 w.
Proof.
  intros (Hi & Hv & H0 & Hw & Hp). constructor; try done.
  - rewrite Hw. constructor; [by intros ? ?%not_elem_of_nil|constructor|apply not_elem_of_nil].
  - rewrite Hw. by intros ? ?%not_elem_of_nil.
  - lia.
  - assert (E : count (holding w) = 0); [|lia].
    rewrite (count_ext _ (fun _ => false)).
    + unfold count. clear. by induction tasks.
    + intros t _. unfold holding. by rewrite Hp.
  - by left.
  - intros t _. by rewrite Hp.
Qed.

(** The running thread is not asleep at the semaphore. *)
Lemma cur_not_waiter v0 w : winv v0 w -> w_cur w ∉ w_waiters w.
Proof.
  intros [[Hw HR] Hwt _ _ _ _ _] Hin. apply (wt_blocked _ _ _ Hwt) in Hin. unfold w_cur in Hin.
  by rewrite HR in Hin.
Qed.

Lemma winv_take v0 w : winv v0 w ->
  w_place w (w_cur w) <> Holding -> 0 < w_value w ->
  winv v0 (mkWorld (w_sched w) (w_value w - 1) (w_waiters w) (move (w_cur w) Holding (w_place w))).
Proof.
  intros Hi Hp Hv. pose proof (cur_not_waiter _ _ Hi) as Hn. destruct Hi as [Hi Hwt Hpl H0 Hu Hwk Hrun].
  assert (Hc : w_cur w ∈ tasks) by apply Hi.
  constructor; cbn [w_sched w_value w_waiters w_place]; try done.
  - intros t Ht. unfold move. case_decide as E; [by subst|]. by apply Hpl.
  - lia.
  - rewrite (count_change (holding w) _ (w_cur w)); [|done|done|].
    + revert Hu; generalize (count (holding w)); intros c Hu.
      unfold holding, move; cbn. rewrite decide_True by done.
      rewrite bool_decide_true by done. rewrite bool_decide_false by done. cbn. lia.
    + intros u _ Hne. unfold holding, move; cbn. by rewrite decide_False.
  - destruct Hwk as [Hwk|Hwk]; [by left|right].
    rewrite (count_change (woken w) _ (w_cur w)); [|done|done|].
    + revert Hwk; generalize (count (woken w)); intros c Hwk.
      unfold woken, move; cbn. rewrite decide_True by done.
      rewrite (bool_decide_false (Holding = Waiting /\ _)) by (by intros [? _]).
      destruct (bool_decide _); cbn; lia.
    + intros u _ Hne. unfold woken, move; cbn. by rewrite decide_False.
  - intros t Ht. unfold move. case_decide; [done|]. by apply Hrun.
Qed.

Lemma winv_wait v0 w : winv v0 w ->
  w_place w (w_cur w) <> Holding -> w_cur w <> idle -> w_value w = 0 ->
  winv v0 (mkWorld (abs_block idle BLOCKED (w_sched w)) 0 (w_waiters w ++ [w_cur w])
    (move (w_cur w) Waiting (w_place w))).
Proof.
  intros Hi Hp Hid Hv. pose proof (cur_not_waiter _ _ Hi) as Hn. destruct Hi as [Hi Hwt Hpl H0 Hu Hwk Hrun].
  assert (Hc : w_cur w ∈ tasks) by apply Hi.
  pose proof (wf_block _ _ _ BLOCKED Hi ltac:(by left)) as Hwf.
  constructor; cbn [w_sched w_value w_waiters w_place]; try done.
  - by apply inv_schedule.
  - by apply (block_waiting tasks).
  - intros t [Ht| ->%list_elem_of_singleton]%elem_of_app; unfold move.
    + case_decide; [by subst|]. by apply Hpl.
    + by rewrite decide_True.
  - rewrite (count_change (holding w) _ (w_cur w)); [|done|done|].
    + revert Hu; generalize (count (holding w)); intros c Hu.
      unfold holding, move; cbn. rewrite decide_True by done.
      rewrite !bool_decide_false by done. cbn. lia.
    + intros u _ Hne. unfold holding, move; cbn. by rewrite decide_False.
  - right. unfold count. lia.
  - intros t Ht. rewrite elem_of_app, list_elem_of_singleton. unfold move. intros Hpt Hnt.
    rewrite decide_False in Hpt by tauto.
    specialize (Hrun t Ht Hpt ltac:(tauto)). intros Hb%schedule_blocked. apply Hrun.
    rewrite status_alter in Hb. rewrite decide_False in Hb; [done|]. intros ->. tauto.
Qed.

Lemma status_wake ws a t :
  s_status (abs_wake ws a) t =
    if decide (head ws = Some t) then READY else s_status a t.
Proof.
  destruct ws as [|x ws]; [done|]. cbn. unfold abs_unblock. rewrite status_alter. cbn.
  repeat case_decide; simplify_eq; done.
Qed.

Lemma winv_up v0 w : winv v0 w ->
  w_place w (w_cur w) = Holding ->
  winv v0 (mkWorld (abs_wake (w_waiters w) (w_sched w)) (w_value w + 1) (tl (w_waiters w))
    (move (w_cur w) Outside (w_place w))).
Proof.
  intros Hi Hp. pose proof (cur_not_waiter _ _ Hi) as Hn. destruct Hi as [Hi Hwt Hpl H0 Hu Hwk Hrun].
  assert (Hc : w_cur w ∈ tasks) by apply Hi.
  assert (Htl : forall t, t ∈ tl (w_waiters w) -> t ∈ w_waiters w).
  { intros t. destruct (w_waiters w); [done|]. intros Ht. by right. }
  constructor; cbn [w_sched w_value w_waiters w_place].
  - apply wake_inv; [done|done|]. intros t Ht. by apply Hpl.
  - by apply wake_waiting.
  - intros t Ht. unfold move. case_decide as E; [subst; by destruct Hn; apply Htl|]. by apply Hpl, Htl.
  - lia.
  - rewrite (count_change (holding w) _ (w_cur w)); [|done|done|].
    + revert Hu; generalize (count (holding w)); intros c Hu.
      unfold holding, move; cbn. rewrite decide_True by done.
      rewrite bool_decide_false by done. rewrite bool_decide_true by done. cbn. lia.
    + intros u _ Hne. unfold holding, move; cbn. by rewrite decide_False.
  - destruct (w_waiters w) as [|x ws] eqn:Ews; [by left|right]. cbn [tl].
    destruct Hwk as [Hwk|Hwk]; [done|]. destruct (Hpl x ltac:(by left)) as [Hx Hpx].
    pose proof (wt_nodup _ _ _ Hwt) as [Hxn _]%NoDup_cons.
    assert (Hxc : x <> w_cur w) by (intros ->; apply Hn; by left).
    rewrite (count_change (woken w) _ x); [|done|done|].
    + revert Hwk; generalize (count (woken w)); intros c Hwk.
      unfold woken, move; cbn. rewrite decide_False by done.
      rewrite bool_decide_true by done. rewrite Ews, bool_decide_false; [cbn; lia|].
      intros [_ Hxx]. apply Hxx. by left.
    + intros u _ Hne. unfold woken, move; cbn. rewrite Ews. apply bool_decide_ext.
      rewrite elem_of_cons. case_decide as E; [subst; rewrite Hp; by split; intros []|]. tauto.
  - intros t Ht. unfold move. case_decide as E; [done|]. intros Hpt Hnt. rewrite status_wake.
    case_decide as E2; [by intros [?|[?|?]]|]. apply Hrun; [done|done|].
    intros Hin. destruct (w_waiters w) as [|x ws]; [by apply not_elem_of_nil in Hin|].
    cbn in E2, Hnt. apply elem_of_cons in Hin as [->|Hin]; done.
Qed.

Lemma winv_step v0 w w' : winv v0 w -> wstep w w' -> winv v0 w'.
Proof.
  intros Hi. inversion 1 as [Hp Hid Hv|Hp Hid Hv|Hp Hv|a Ha Hb Hr]; subst.
  - by apply winv_take.
  - by apply winv_wait.
  - by apply winv_up.
  - destruct Hi as [Hi Hwt Hpl H0 Hu Hwk Hrun]. constructor; cbn; try done.
    + by apply (inv_step tasks idle (w_sched w)).
    + destruct Hwt. by constructor.
Qed.

Lemma winv_reach v0 w w' : winv v0 w -> rtc wstep w w' -> winv v0 w'.
Proof. intros Hi. induction 1 as [|w1 w2 w3 H12 _ IH]; [done|]. by apply IH, (winv_step v0 w1). Qed.

Lemma count_two p t u : t ∈ tasks -> u ∈ tasks -> p t = true -> p u = true -> count p <= 1 -> t = u.
Proof.
  intros Ht Hu Hpt Hpu Hc. destruct (decide (t = u)) as [->|Hne]; [done|exfalso].
  pose (q := fun x => bool_decide (x = t)).
  assert (Hq : count q = 1).
  { rewrite (count_change (fun _ => false) q t Htasks Ht).
    - unfold q. rewrite bool_decide_true by done. unfold count. cbn.
      clear. induction tasks; cbn; [done|done].
    - intros v _ Hv. unfold q. by rewrite bool_decide_false. }
  pose (q2 := fun x => q x || bool_decide (x = u)).
  assert (Hq2 : count q2 = 2).
  { rewrite (count_change q q2 u Htasks Hu).
    - rewrite Hq. unfold q2, q. rewrite !bool_decide_false by done.
      by rewrite bool_decide_true by done.
    - intros v _ Hv. unfold q2. rewrite (bool_decide_false (v = u)) by done. apply orb_false_r. }
  assert (count q2 <= count p); [|lia].
  unfold count. clear -Hpt Hpu. apply inj_le. induction tasks as [|x l IH]; [done|]. cbn.
  assert (Hx : q2 x = true -> p x = true).
  { unfold q2, q. intros [E|E]%orb_true_iff; apply bool_decide_eq_true in E; by subst. }
  destruct (q2 x); [rewrite Hx by done; cbn; lia|]. destruct (p x); cbn; lia.
Qed.
End Interleaving.

Section Guarantees.
Context (tasks : list Z) (idle : Z).


End Guarantees.

(** ** The recursive mutex *)
Section Mutex.
Context {PL : Platform} {LK : Linker} (tasks : list Z) (idle : Z).

(** Bytes that neither the scheduler nor the semaphore at [sem] uses. *)
Definition free_byte (sem b : Z) : Prop :=
  ~ (sem <= b < sem + sem_t.sizeof) /\
  ~ (sym_ready_thread_list <= b < sym_ready_thread_list + list.sizeof) /\
  forall t, t ∈ tasks -> ~ (t <= b < t + 4096).

Lemma tags_frame q l (P : Z -> Prop) b :
  layout tasks -> (forall t, t ∈ q -> t ∈ tasks) -> list_bytes l q b -> P b ->
  (forall t, t ∈ tasks -> ~ (t <= b < t + 4096)) -> ~ l <= b < l + list.sizeof -> False.
Proof.
  intros Hl Hq [Hb|Hb] HPb Hf Hnl; [done|]. pose proof (lay_fd _ Hl).
  apply Exists_exists in Hb as (t & Hin & Hb). apply (Hf t (Hq t Hin)). unfold tag in Hb. offsets. lia.
Qed.

Lemma runs_frame a s (P : Z -> Prop) m' :
  layout tasks -> runs tasks idle a s -> changed_only P (mem s) m' ->
  (forall b, P b -> ~ (sym_ready_thread_list <= b < sym_ready_thread_list + list.sizeof) /\
     forall t, t ∈ tasks -> ~ (t <= b < t + 4096)) ->
  runs tasks idle a (set_mem m' s).
Proof.
  intros Hl [[Hd Ht Hsub] He Hid] Hc HP. pose proof (lay_fd _ Hl).
  constructor; [|done|done]. constructor; [| |done]; msimpl.
  - eapply task_queue_frame; [done| |by constructor]. intros b Hb HPb. destruct (HP b HPb) as [H1 H2].
    by eapply tags_frame.
  - intros t Hin. eapply (tcb_frame tasks Hl); [|by apply Ht]. intros b Hb. apply Hc. intros HPb.
    destruct (HP b HPb) as (_ & Hf). apply (Hf t Hin). offsets. lia.
Qed.

Lemma sem_state_frame sem a v ws s (P : Z -> Prop) m' :
  layout tasks -> sem_state tasks idle sem a v ws s -> changed_only P (mem s) m' ->
  (forall b, P b -> free_byte sem b) -> sem_state tasks idle sem a v ws (set_mem m' s).
Proof.
  intros Hl [Hi Hwt Hr [Hv Hq]] Hc HP.
  constructor; [done|done|eapply runs_frame; [done|done|done|intros b Hb; apply (HP b Hb)]|].
  constructor; msimpl.
  - rewrite <- Hv. apply Hc. intros HPb. destruct (HP _ HPb) as (Hf & _).
    unfold sem_t.value, sem_t.sizeof in *. lia.
  - eapply task_queue_frame; [done| |done]. intros b Hb HPb. destruct (HP b HPb) as (Hf & _ & Hp).
    eapply tags_frame; [done|apply (tq_sub _ _ _ _ Hq)|done|done|done|].
    unfold sem_t.waiters, sem_t.sizeof, list.sizeof in *. lia.
Qed.

(** The mutex at [mx] is held [r] times by [h], or free ([h] is NULL, [r] is
    0), and [ws] wait for it. *)
Record mutex_state (mx : Z) (a : sched) (h r : Z) (ws : list Z) (s : machine) : Prop := {
  ms_sem : sem_state tasks idle mx a (if decide (h = NULL) then 1 else 0) ws s;
  ms_holder : get32 (mem s) (mx + mutex_t.holder) = h;
  ms_recursion : get8 (mem s) (mx + mutex_t.recursion) = r;
  ms_free : h = NULL -> r = 0
}.

Record mutex_home (mx : Z) : Prop := {
  mh_sem : sem_home tasks mx;
  mh_tasks : forall t, t ∈ tasks -> mx + mutex_t.sizeof <= t \/ t + 4096 <= mx;
  mh_ready : mx + mutex_t.sizeof <= sym_ready_thread_list \/ sym_ready_thread_list + 16 <= mx;
  mh_tss : mx + mutex_t.sizeof <= sym_tss \/ sym_tss + tss_t.sizeof <= mx
}.

(** The interrupt flag and the history do not matter to it. *)
Lemma mutex_flag mx a hd r ws s f :
  mutex_state mx a hd r ws s -> mutex_state mx a hd r ws (set_intr_flag f s).
Proof.
  intros [[H1 H2 [H3 H4 H5] H6] H7 H8 H9]. constructor; [|done..]. constructor; [done|done| |done].
  by constructor.
Qed.

Lemma mutex_log mx a hd r ws s e :
  mutex_state mx a hd r ws s -> mutex_state mx a hd r ws (log e s).
Proof.
  intros [[H1 H2 [H3 H4 H5] H6] H7 H8 H9]. constructor; [|done..]. constructor; [done|done| |done].
  by constructor.
Qed.

Section Ops.
Context (Hlay : layout tasks) (mx : Z) (Hhome : mutex_home mx).

Ltac muts :=
  unfold mutex_t.sem, mutex_t.holder, mutex_t.recursion, mutex_t.sizeof, sem_t.sizeof,
    list.sizeof, tss_t.sizeof in *.

Definition owner_bytes (b : Z) : Prop := mx + 20 <= b < mx + 25.

Lemma owner_free b : owner_bytes b -> free_byte mx b.
Proof.
  pose proof (mh_ready _ Hhome). unfold owner_bytes, free_byte. muts. intros Hb.
  split_and!; [lia|lia|]. intros t Ht. pose proof (mh_tasks _ Hhome t Ht). muts. lia.
Qed.

Lemma owner_not_frame b : sem_frame tasks mx b -> ~ owner_bytes b.
Proof.
  intros H Ho. pose proof (owner_free b Ho) as (H1 & H2 & H3). destruct H as [H|[H|[H|H]]]; [done|done| |].
  - pose proof (mh_tss _ Hhome). unfold esp0_bytes, owner_bytes in *. muts. lia.
  - apply Exists_exists in H as (t & Ht & Hb). by apply (H3 t).
Qed.

(** The semaphore operations keep the owner fields. *)
Lemma owner_frame m m' :
  changed_only (sem_frame tasks mx) m m' ->
  get32 m' (mx + mutex_t.holder) = get32 m (mx + mutex_t.holder) /\
  get8 m' (mx + mutex_t.recursion) = get8 m (mx + mutex_t.recursion).
Proof.
  intros Hc. split; [apply get32_ext; intros b Hb|]; apply Hc; intros Hf;
    apply (owner_not_frame _ Hf); unfold owner_bytes; muts; lia.
Qed.

Lemma sem_state_owner a v ws s m' :
  sem_state tasks idle mx a v ws s -> changed_only owner_bytes (mem s) m' ->
  sem_state tasks idle mx a v ws (set_mem m' s).
Proof. intros Hs Hc. eapply sem_state_frame; [done|done|done|]. apply owner_free. Qed.

Lemma owner_put_holder m v : changed_only owner_bytes m (put32 m (mx + mutex_t.holder) v).
Proof. intros b Hb. apply get8_put32_ne. unfold owner_bytes in Hb. muts. lia. Qed.
Lemma owner_put_recursion m v : changed_only owner_bytes m (put8 m (mx + mutex_t.recursion) v).
Proof. intros b Hb. apply get8_put8_ne. unfold owner_bytes in Hb. muts. lia. Qed.

Lemma running a v ws s : sem_state tasks idle mx a v ws s -> running_thread s = Ok (s_cur a) s.
Proof. intros [[Hw _] _ Hr _]. by eapply running_thread_run. Qed.

Lemma cur_address a v ws s : sem_state tasks idle mx a v ws s -> s_cur a <> NULL /\ is_u32 (s_cur a).
Proof.
  intros [[Hw _] _ _ _]. pose proof (lay_page _ Hlay _ (wf_cur _ _ _ Hw)) as (_ & H1 & H2).
  unfold NULL. zlia.
Qed.

Lemma mutex_sem : mx + mutex_t.sem = mx.
Proof. unfold mutex_t.sem. lia. Qed.

(** The tail of [mutex_lock] once the semaphore is taken. *)
Lemma mutex_take_run a ws s :
  sem_state tasks idle mx a 0 ws s -> get8 (mem s) (mx + mutex_t.recursion) = 0 ->
  exists s', (r ← ld8 (mx + mutex_t.recursion);
    ASSERT (r =? 0) "thread/lock.c" 60 "mutex_lock" "mutex->recursion == 0";;
    t ← running_thread;
    st32 (mx + mutex_t.holder) t;;
    r ← ld8 (mx + mutex_t.recursion);
    st8 (mx + mutex_t.recursion) (r + 1)) s = Ok tt s' /\
    mutex_state mx a (s_cur a) 1 ws s' /\
    intr_flag s' = intr_flag s /\ vars s' = vars s /\ trace s' = trace s /\
    changed_only owner_bytes (mem s) (mem s').
Proof.
  intros Hs Hr. destruct (cur_address _ _ _ _ Hs) as [Hn Hu].
  erewrite bind_ok by reflexivity. cbv beta. rewrite Hr. erewrite bind_ok by (by apply assert_run).
  rewrite (bind_ok _ _ _ _ _ (running _ _ _ _ Hs)). srun.
  rewrite get8_put32_ne by (muts; lia). rewrite Hr.
  set (m' := put8 (put32 (mem s) (mx + mutex_t.holder) (s_cur a)) (mx + mutex_t.recursion) (0 + 1)).
  assert (Hc : changed_only owner_bytes (mem s) m').
  { eapply changed_trans; [apply owner_put_holder|apply owner_put_recursion]. }
  exists (set_mem m' s). split; [done|]. split; [|by split_and!]. constructor; msimpl.
  - rewrite decide_False by done. by apply sem_state_owner.
  - unfold m'. rewrite get32_put8_ne, get32_put32_eq by (muts; lia). apply u32_small. zlia.
  - unfold m'. by rewrite get8_put8_eq.
  - intros E; by rewrite E in Hn.
Qed.

Lemma mutex_lock_free_run a ws s :
  mutex_state mx a NULL 0 ws s ->
  exists s', mutex_lock mx s = Ok tt s' /\ mutex_state mx a (s_cur a) 1 ws s' /\
    intr_flag s' = flag_after (intr_flag s) /\ vars s' = vars s /\ trace s' = trace s /\
    changed_only (fun b => value_byte mx b \/ owner_bytes b) (mem s) (mem s').
Proof.
  intros [Hs Hh Hr _]. rewrite decide_True in Hs by done. destruct (cur_address _ _ _ _ Hs) as [Hn _].
  unfold mutex_lock. erewrite bind_ok by reflexivity. cbv beta. rewrite Hh.
  rewrite (bind_ok _ _ _ _ _ (running _ _ _ _ Hs)).
  rewrite (proj2 (Z.eqb_neq NULL (s_cur a))) by done. cbn [negb]. rewrite mutex_sem.
  destruct (sem_down_take tasks idle mx a 1 ws s Hlay (mh_sem _ Hhome) Hs ltac:(lia))
    as (s1 & E1 & Hs1 & Hf1 & Hv1 & Ht1 & Hc1).
  assert (Hc1' : changed_only (sem_frame tasks mx) (mem s) (mem s1)).
  { eapply changed_weaken; [done|]. intros b Hb.
    eapply (touch_frame _ Hlay _ []); [|by apply value_touch]. by intros t ?%not_elem_of_nil. }
  rewrite (bind_ok _ _ _ _ _ E1). destruct (owner_frame _ _ Hc1') as [_ Hr1].
  destruct (mutex_take_run a ws s1 Hs1 ltac:(congruence)) as (s2 & E2 & Hm & Hf2 & Hv2 & Ht2 & Hc2).
  exists s2. split; [exact E2|]. split_and!; [done|congruence..|].
  eapply changed_trans; eapply changed_weaken; [exact Hc1|auto|exact Hc2|auto].
Qed.

Lemma mutex_lock_free a ws s :
  mutex_state mx a NULL 0 ws s ->
  exists s', mutex_lock mx s = Ok tt s' /\ mutex_state mx a (s_cur a) 1 ws s' /\
    intr_flag s' = flag_after (intr_flag s) /\ vars s' = vars s /\ trace s' = trace s /\
    changed_only (fun b => sem_frame tasks mx b \/ owner_bytes b) (mem s) (mem s').
Proof.
  intros Hm. destruct (mutex_lock_free_run a ws s Hm) as (s' & E & Hm' & Hf & Hv & Ht & Hc).
  exists s'. split_and!; try done. eapply changed_weaken; [exact Hc|]. intros b [Hb|Hb]; [left|by right].
  eapply (touch_frame _ Hlay _ []); [|by apply value_touch]. by intros t ?%not_elem_of_nil.
Qed.

Lemma mutex_lock_again a r ws s :
  mutex_state mx a (s_cur a) r ws s ->
  exists s', mutex_lock mx s = Ok tt s' /\ mutex_state mx a (s_cur a) (u8 (r + 1)) ws s' /\
    intr_flag s' = intr_flag s /\ vars s' = vars s /\ trace s' = trace s /\
    changed_only owner_bytes (mem s) (mem s').
Proof.
  intros [Hs Hh Hr Hf]. destruct (cur_address _ _ _ _ Hs) as [Hn _].
  unfold mutex_lock. erewrite bind_ok by reflexivity. cbv beta. rewrite Hh.
  rewrite (bind_ok _ _ _ _ _ (running _ _ _ _ Hs)). rewrite Z.eqb_refl. cbn [negb].
  erewrite bind_ok by reflexivity. cbv beta. rewrite Hr.
  eexists. split; [reflexivity|].
  split; [|split_and!; [done..|msimpl; apply owner_put_recursion]]. constructor; msimpl.
  - apply sem_state_owner; [done|apply owner_put_recursion].
  - rewrite get32_put8_ne by (muts; lia). done.
  - by rewrite get8_put8_eq.
  - done.
Qed.

Lemma mutex_lock_wait a h r ws s :
  mutex_state mx a h r ws s -> h <> NULL -> h <> s_cur a -> s_cur a <> idle ->
  exists s' k, mutex_lock mx s = Switch s' k /\
    mutex_state mx (abs_block idle BLOCKED a) h r (ws ++ [s_cur a]) s' /\ intr_flag s' = false /\
    (forall a' ws' s'', intr_flag s'' = false -> mutex_state mx a' NULL 0 ws' s'' ->
       exists s3, k s'' = Ok tt s3 /\ mutex_state mx a' (s_cur a') 1 ws' s3 /\
         intr_flag s3 = flag_after (intr_flag s)).
Proof.
  intros [Hs Hh Hr Hf] Hn Hne Hid. rewrite decide_False in Hs by done.
  unfold mutex_lock. erewrite bind_ok by reflexivity. cbv beta. rewrite Hh.
  rewrite (bind_ok _ _ _ _ _ (running _ _ _ _ Hs)).
  rewrite (proj2 (Z.eqb_neq h (s_cur a))) by done. cbn [negb]. rewrite mutex_sem.
  destruct (sem_down_wait tasks idle mx a ws s Hlay (mh_sem _ Hhome) Hs Hid)
    as (n & s' & k & E & Hs' & Ho & Hc & Hfuel & Hk).
  assert (Hc' : changed_only (sem_frame tasks mx) (mem s) (mem s'))
    by (by eapply (touch_to_frame tasks idle _ a 0 ws s)).
  rewrite (bind_switch _ _ _ _ _ E). destruct (owner_frame _ _ Hc') as [Hh' Hr'].
  eexists s', _. split; [reflexivity|]. split_and!; [|done|].
  - constructor; [by rewrite decide_False|congruence|congruence|done].
  - intros a' ws' s'' Hoff [Gs Gh Gr _]. rewrite decide_True in Gs by done. cbv beta. rewrite Hk by done.
    destruct n as [|n]; [cbn in Hfuel; lia|].
    destruct Gs as [Gi Gw Grn Gse].
    destruct (sem_down_take_run tasks Hlay mx (mh_sem _ Hhome) n a' ws' s'' 1 (intr_flag s)
      (run_rep _ _ _ _ Grn) Gse ltac:(lia) Hoff) as (m3 & E3 & Hr3 & Hs3 & Hc3).
    assert (Hc3' : changed_only (sem_frame tasks mx) (mem s'') m3).
    { eapply changed_weaken; [done|]. intros b Hb.
      eapply (touch_frame _ Hlay _ []); [|by apply value_touch]. by intros t ?%not_elem_of_nil. }
    rewrite E3. destruct (owner_frame _ _ Hc3') as [_ Hrec].
    destruct (mutex_take_run a' ws' (set_intr_flag (flag_after (intr_flag s)) (set_mem m3 s'')))
      as (s3 & E4 & Hm & Hfl & _).
    + constructor; [done|done| |done]. destruct Grn. by constructor.
    + msimpl. congruence.
    + exists s3. split; [exact E4|]. by split.
Qed.

Lemma mutex_unlock_last_run a h ws s :
  mutex_state mx a h 1 ws s ->
  exists s', mutex_unlock mx s = Ok tt s' /\ mutex_state mx (abs_wake ws a) NULL 0 (tl ws) s' /\
    intr_flag s' = flag_after (intr_flag s) /\ vars s' = vars s /\ trace s' = trace s /\
    changed_only (fun b => sem_touch tasks mx (ws ++ s_ready a) b \/ owner_bytes b) (mem s) (mem s').
Proof.
  intros [Hs Hh Hr Hf]. destruct (cur_address _ _ _ _ Hs) as [Hn _].
  rewrite decide_False in Hs by (intros E; by specialize (Hf E)).
  unfold mutex_unlock. rewrite (bind_ok _ _ _ _ _ (running _ _ _ _ Hs)). srun.
  erewrite bind_ok by (apply assert_run; by rewrite (proj2 (Z.eqb_neq (s_cur a) NULL))).
  srun. rewrite get8_put32_ne by (muts; lia). rewrite Hr. cbn [Z.eqb Pos.eqb]. srun.
  set (m1 := put8 _ _ _). assert (Hc1 : changed_only owner_bytes (mem s) m1).
  { eapply changed_trans; [apply owner_put_holder|].
    eapply changed_trans; [apply owner_put_holder|apply owner_put_recursion]. }
  change (set_mem m1 _) with (set_mem m1 s). rewrite mutex_sem.
  destruct (sem_up_ok tasks idle mx a 0 ws (set_mem m1 s) Hlay (mh_sem _ Hhome)
    ltac:(by apply sem_state_owner) ltac:(lia)) as (s' & E & Hs' & Hf' & Hv' & Ht' & Hc').
  exists s'. split; [exact E|].
  assert (Hc2 : changed_only (sem_frame tasks mx) m1 (mem s')).
  { eapply (touch_to_frame tasks idle _ a 0 ws s); [done|done| |done].
    intros t. rewrite !elem_of_app, !elem_of_cons. tauto. }
  destruct (owner_frame _ _ Hc2) as [Hh' Hr'].
  split_and!; [|done..|].
  - constructor; [by rewrite decide_True| | |done].
    + rewrite Hh'. unfold m1. msimpl. rewrite get32_put8_ne, get32_put32_eq by (muts; lia). done.
    + rewrite Hr'. unfold m1. msimpl. by rewrite get8_put8_eq.
  - eapply changed_trans; eapply changed_weaken; [exact Hc1|auto|exact Hc'|auto].
Qed.

(** Nobody waits: only the mutex changes. *)
Lemma mutex_unlock_alone a h s s' :
  mutex_state mx a h 1 [] s -> mutex_unlock mx s = Ok tt s' ->
  changed_only (fun b => value_byte mx b \/ owner_bytes b) (mem s) (mem s').
Proof.
  intros [Hs Hh Hr Hf] E. destruct (cur_address _ _ _ _ Hs) as [Hn _].
  rewrite decide_False in Hs by (intros Eh; by specialize (Hf Eh)).
  unfold mutex_unlock in E. rewrite (bind_ok _ _ _ _ _ (running _ _ _ _ Hs)) in E.
  rewrite (bind_ok _ _ tt s (set_mem (put32 (mem s) (mx + mutex_t.holder) (s_cur a)) s)) in E by reflexivity.
  erewrite bind_ok in E by (apply assert_run; by rewrite (proj2 (Z.eqb_neq (s_cur a) NULL))).
  erewrite bind_ok in E by reflexivity. cbv beta in E. msimpl. rewrite get8_put32_ne, Hr in E by (muts; lia).
  cbn [Z.eqb Pos.eqb] in E. do 2 (erewrite bind_ok in E by reflexivity; cbv beta in E). msimpl.
  set (m1 := put8 _ _ _) in E. assert (Hc1 : changed_only owner_bytes (mem s) m1).
  { eapply changed_trans; [apply owner_put_holder|].
    eapply changed_trans; [apply owner_put_holder|apply owner_put_recursion]. }
  change (set_mem m1 _) with (set_mem m1 s) in E. rewrite mutex_sem in E.
  eapply changed_trans; eapply changed_weaken; [exact Hc1|auto| |left; eassumption].
  apply (sem_up_alone tasks idle mx a 0 (set_mem m1 s) s' Hlay (mh_sem _ Hhome)
    ltac:(by apply sem_state_owner) ltac:(lia) E).
Qed.

Lemma mutex_unlock_last a h ws s :
  mutex_state mx a h 1 ws s ->
  exists s', mutex_unlock mx s = Ok tt s' /\ mutex_state mx (abs_wake ws a) NULL 0 (tl ws) s' /\
    intr_flag s' = flag_after (intr_flag s) /\ vars s' = vars s /\ trace s' = trace s /\
    changed_only (fun b => sem_frame tasks mx b \/ owner_bytes b) (mem s) (mem s').
Proof.
  intros Hm. destruct (mutex_unlock_last_run a h ws s Hm) as (s' & E & Hm' & Hf & Hv & Ht & Hc).
  exists s'. split_and!; try done. eapply changed_weaken; [exact Hc|]. intros b [Hb|Hb]; [left|by right].
  eapply touch_frame; [done| |exact Hb]. intros t Hin. eapply touched_tasks; [exact (ms_sem _ _ _ _ _ _ Hm)|].
  rewrite elem_of_app in *. rewrite !elem_of_cons. tauto.
Qed.

Lemma mutex_unlock_inner a h r ws s :
  mutex_state mx a h r ws s -> h <> NULL -> r <> 1 ->
  exists s', mutex_unlock mx s = Ok tt s' /\ mutex_state mx a (s_cur a) (u8 (r - 1)) ws s' /\
    intr_flag s' = intr_flag s /\ vars s' = vars s /\ trace s' = trace s /\
    changed_only owner_bytes (mem s) (mem s').
Proof.
  intros [Hs Hh Hr Hf] Hnh Hr1. destruct (cur_address _ _ _ _ Hs) as [Hn Hu].
  rewrite decide_False in Hs by done.
  unfold mutex_unlock. rewrite (bind_ok _ _ _ _ _ (running _ _ _ _ Hs)). srun.
  erewrite bind_ok by (apply assert_run; by rewrite (proj2 (Z.eqb_neq (s_cur a) NULL))).
  srun. rewrite get8_put32_ne by (muts; lia). rewrite Hr, (proj2 (Z.eqb_neq r 1)) by done.
  srun. rewrite get8_put32_ne by (muts; lia). rewrite Hr.
  eexists. split; [reflexivity|].
  split; [|split_and!; [done..|msimpl; eapply changed_trans; [apply owner_put_holder|apply owner_put_recursion]]].
  constructor; msimpl.
  - rewrite decide_False by done.
    set (m1 := put8 _ _ _). change (set_mem m1 _) with (set_mem m1 s).
    apply sem_state_owner; [done|]. eapply changed_trans; [apply owner_put_holder|apply owner_put_recursion].
  - rewrite get32_put8_ne, get32_put32_eq by (muts; lia). apply u32_small. zlia.
  - by rewrite get8_put8_eq.
  - done.
Qed.
End Ops.

(** C20: [mutex_lock]: a free mutex is taken; the holder's recursion count grows,
    modulo 256; any other caller joins the waiters and hands the processor
    over, and takes the mutex if it finds it free when it runs again. *)
Theorem mutex_lock_correct mx a h r ws s :
  layout tasks -> mutex_home mx -> mutex_state mx a h r ws s ->
  (h = NULL -> exists s', mutex_lock mx s = Ok tt s' /\ mutex_state mx a (s_cur a) 1 ws s' /\
     intr_flag s' = flag_after (intr_flag s)) /\
  (h = s_cur a -> exists s', mutex_lock mx s = Ok tt s' /\
     mutex_state mx a (s_cur a) (u8 (r + 1)) ws s' /\ intr_flag s' = intr_flag s) /\
  (h <> NULL -> h <> s_cur a -> s_cur a <> idle ->
   exists s' k, mutex_lock mx s = Switch s' k /\
     mutex_state mx (abs_block idle BLOCKED a) h r (ws ++ [s_cur a]) s' /\ intr_flag s' = false /\
     (forall a' ws' s'', intr_flag s'' = false -> mutex_state mx a' NULL 0 ws' s'' ->
        exists s3, k s'' = Ok tt s3 /\ mutex_state mx a' (s_cur a') 1 ws' s3 /\
          intr_flag s3 = flag_after (intr_flag s))).
Proof.
  intros Hl Hh Hm. split_and!.
  - intros ->. pose proof (ms_free _ _ _ _ _ _ Hm eq_refl) as ->.
    destruct (mutex_lock_free Hl mx Hh a ws s Hm) as (s' & ? & ? & ? & _). by exists s'.
  - intros ->. destruct (mutex_lock_again Hl mx Hh a r ws s Hm) as (s' & ? & ? & ? & _). by exists s'.
  - intros. by eapply mutex_lock_wait.
Qed.

(** C21: [mutex_unlock] takes one level off; the last level frees the mutex and
    wakes the longest waiting task. The assertion that the caller is the
    holder is an assignment: any thread unlocks any held mutex, and if levels
    remain the caller has become the holder. *)
Theorem mutex_unlock_correct mx a h r ws s :
  layout tasks -> mutex_home mx -> mutex_state mx a h r ws s -> h <> NULL ->
  (r = 1 -> exists s', mutex_unlock mx s = Ok tt s' /\
     mutex_state mx (abs_wake ws a) NULL 0 (tl ws) s' /\ intr_flag s' = flag_after (intr_flag s)) /\
  (r <> 1 -> exists s', mutex_unlock mx s = Ok tt s' /\
     mutex_state mx a (s_cur a) (u8 (r - 1)) ws s' /\ intr_flag s' = intr_flag s).
Proof.
  intros Hl Hh Hm Hn. split.
  - intros ->. destruct (mutex_unlock_last Hl mx Hh a h ws s Hm) as (s' & ? & ? & ? & _). by exists s'.
  - intros Hr. destruct (mutex_unlock_inner Hl mx Hh a h r ws s Hm Hn Hr) as (s' & ? & ? & ? & _). by exists s'.
Qed.
End Mutex.

(** ** Concrete instances *)

(** A mutex (and so a semaphore) at [sym_pid_lock], added to the machine of
    the scheduler: held [r] times by [h], with nobody waiting. *)
Definition demo_mutex_mem (v h r : Z) : memory :=
  let p := 0xc0016000 in
  put8 (put8 (put32 (put32 (put32 (put32 (put32 demo_sched_mem
    (p + 4) 0) (p + 8) (p + 12)) (p + 12) (p + 4)) (p + 16) 0) (p + 20) h) (p + 24) r) p v.

Definition demo_mutex_machine (v h r : Z) : machine := set_mem (demo_mutex_mem v h r) demo_sched_machine.

Lemma demo_sem_home : sem_home demo_tasks 0xc0016000.
Proof.
  constructor; [split_and!|..]; try (intros t Ht; revert t Ht; solve_tasks);
    unfold tss_t.sizeof, sem_t.sizeof, sem_t.waiters, list.sizeof, demo_main, demo_thread, demo_idle;
    cbn [sym_ready_thread_list sym_tss demo_linker]; lia.
Qed.

Lemma demo_mutex_home : mutex_home demo_tasks 0xc0016000.
Proof.
  constructor; [apply demo_sem_home|..]; try (intros t Ht; revert t Ht; solve_tasks);
    unfold tss_t.sizeof, mutex_t.sizeof, demo_main, demo_thread, demo_idle;
    cbn [sym_ready_thread_list sym_tss demo_linker]; lia.
Qed.

Lemma demo_mutex_frame v h r b :
  ~ (0xc0016000 <= b < 0xc0016000 + 28) -> get8 (demo_mutex_mem v h r) b = get8 demo_sched_mem b.
Proof.
  intros Hb. unfold demo_mutex_mem. cbv zeta. rewrite !get8_put8_ne, !get8_put32_ne by lia. done.
Qed.

Lemma demo_sem_state v h r :
  0 <= v < 256 ->
  sem_state demo_tasks demo_idle 0xc0016000 demo_abs v [] (demo_mutex_machine v h r).
Proof.
  intros Hv. constructor.
  - apply demo_inv.
  - constructor; [by intros ? ?%not_elem_of_nil|constructor|apply not_elem_of_nil].
  - destruct demo_runs as [[Hd Ht Hs] He Hi]. constructor; [|done|done]. constructor; [| |done].
    + eapply dlist_frame; [|exact Hd]. intros b Hb%node_bytes_queue. apply demo_mutex_frame.
      destruct Hb as [Hb|Hb]; [cbn in Hb; unfold list.sizeof in *; lia|].
      apply Exists_cons in Hb as [Hb|Hb%Exists_nil]; [|done].
      unfold tag, demo_thread in Hb. offsets. cbn [FD_MAX demo_platform] in Hb. lia.
    + intros t Hin. eapply (tcb_frame demo_tasks demo_layout); [|by apply Ht].
      intros b Hb. apply demo_mutex_frame. revert t Hin Hb. solve_tasks; offsets;
      cbn [FD_MAX demo_platform]; unfold demo_main, demo_thread, demo_idle; lia.
  - constructor.
    + unfold demo_mutex_machine, demo_mutex_mem; msimpl. rewrite get8_put8_eq. by apply u8_small.
    + constructor; [|by intros ? ?%not_elem_of_nil]. split.
      * unfold with_ends. cbn [map app linked]. unfold demo_mutex_machine, demo_mutex_mem; msimpl.
        cbv zeta. unfold sem_t.waiters. nodes. rewrite !get32_put8_ne by lia. vm_compute. tauto.
      * unfold sem_t.waiters. cbn [map]. solve_apart.
Qed.

Lemma sem_up_refines_witness :
  exists s', sem_up 0xc0016000 (demo_mutex_machine 0 0 0) = Ok tt s' /\
    sem_state demo_tasks demo_idle 0xc0016000 (abs_wake [] demo_abs) (0 + 1) (tl []) s' /\
    intr_flag s' = flag_after true /\
    changed_only (sem_frame demo_tasks 0xc0016000) (demo_mutex_mem 0 0 0) (mem s').
Proof.
  apply (sem_up_refines demo_tasks demo_idle 0xc0016000 demo_abs 0 [] (demo_mutex_machine 0 0 0)
    demo_layout demo_sem_home); [apply demo_sem_state; lia|lia].
Defined.

Lemma sem_down_refines_witness :
  (exists s', sem_down 0xc0016000 (demo_mutex_machine 1 0 0) = Ok tt s' /\
     sem_state demo_tasks demo_idle 0xc0016000 demo_abs (1 - 1) [] s' /\
     intr_flag s' = flag_after true /\
     changed_only (sem_frame demo_tasks 0xc0016000) (demo_mutex_mem 1 0 0) (mem s')) /\
  (exists n s' k, sem_down 0xc0016000 (demo_mutex_machine 0 0 0) = Switch s' k /\
     sem_state demo_tasks demo_idle 0xc0016000 (abs_block demo_idle BLOCKED demo_abs) 0
       ([] ++ [s_cur demo_abs]) s' /\
     intr_flag s' = false /\
     changed_only (sem_frame demo_tasks 0xc0016000) (demo_mutex_mem 0 0 0) (mem s') /\
     Z.of_nat n = 2 ^ 33 - 1 /\
     (forall s'', intr_flag s'' = false -> k s'' = sem_down_from n 0xc0016000 INTR_ON s'')).
Proof.
  split.
  - apply (sem_down_refines demo_tasks demo_idle 0xc0016000 demo_abs 1 [] (demo_mutex_machine 1 0 0)
      demo_layout demo_sem_home); [apply demo_sem_state; lia|done|lia].
  - apply (sem_down_refines demo_tasks demo_idle 0xc0016000 demo_abs 0 [] (demo_mutex_machine 0 0 0)
      demo_layout demo_sem_home); [apply demo_sem_state; lia|done|lia].
Defined.

Lemma sem_down_resumes_witness :
  exists s', sem_down_from 7 0xc0016000 INTR_ON (set_intr_flag false (demo_mutex_machine 1 0 0)) = Ok tt s' /\
    sem_state demo_tasks demo_idle 0xc0016000 demo_abs (1 - 1) [] s' /\ intr_flag s' = flag_after true.
Proof.
  apply (sem_down_resumes demo_tasks demo_idle 6 0xc0016000 demo_abs 1 []
    (set_intr_flag false (demo_mutex_machine 1 0 0)) true demo_layout demo_sem_home);
    [|done|done|lia].
  destruct (demo_sem_state 1 0 0 ltac:(lia)) as [H1 H2 [G1 G2 G3] H4]. by constructor.
Defined.

Lemma demo_mutex_state_free :
  mutex_state demo_tasks demo_idle 0xc0016000 demo_abs NULL 0 [] (demo_mutex_machine 1 0 0).
Proof.
  constructor; [rewrite decide_True by done; apply demo_sem_state; lia|..]; vm_compute; done.
Qed.

Lemma demo_mutex_state_held r : 0 <= r < 256 ->
  mutex_state demo_tasks demo_idle 0xc0016000 demo_abs demo_main r [] (demo_mutex_machine 0 demo_main r).
Proof.
  intros Hr. constructor; [rewrite decide_False by done; apply demo_sem_state; lia|..].
  - unfold demo_mutex_machine, demo_mutex_mem, mutex_t.holder; msimpl. cbv zeta. mem_simpl. done.
  - unfold demo_mutex_machine, demo_mutex_mem, mutex_t.recursion; msimpl. cbv zeta.
    rewrite get8_put8_ne, get8_put8_eq by lia. by apply u8_small.
  - done.
Qed.

Lemma mutex_lock_correct_witness :
  (exists s', mutex_lock 0xc0016000 (demo_mutex_machine 1 0 0) = Ok tt s' /\
     mutex_state demo_tasks demo_idle 0xc0016000 demo_abs (s_cur demo_abs) 1 [] s' /\
     intr_flag s' = flag_after true) /\
  (exists s', mutex_lock 0xc0016000 (demo_mutex_machine 0 demo_main 255) = Ok tt s' /\
     mutex_state demo_tasks demo_idle 0xc0016000 demo_abs (s_cur demo_abs) (u8 (255 + 1)) [] s' /\
     intr_flag s' = true).
Proof.
  split.
  - exact (proj1 (mutex_lock_correct demo_tasks demo_idle 0xc0016000 demo_abs NULL 0 []
      (demo_mutex_machine 1 0 0) demo_layout demo_mutex_home demo_mutex_state_free) eq_refl).
  - exact (proj1 (proj2 (mutex_lock_correct demo_tasks demo_idle 0xc0016000 demo_abs demo_main 255 []
      (demo_mutex_machine 0 demo_main 255) demo_layout demo_mutex_home
      (demo_mutex_state_held 255 ltac:(lia)))) eq_refl).
Defined.

Lemma mutex_unlock_correct_witness :
  exists s', mutex_unlock 0xc0016000 (demo_mutex_machine 0 demo_main 1) = Ok tt s' /\
    mutex_state demo_tasks demo_idle 0xc0016000 (abs_wake [] demo_abs) NULL 0 (tl []) s' /\
    intr_flag s' = flag_after true.
Proof.
  exact (proj1 (mutex_unlock_correct demo_tasks demo_idle 0xc0016000 demo_abs demo_main 1 []
    (demo_mutex_machine 0 demo_main 1) demo_layout demo_mutex_home
    (demo_mutex_state_held 1 ltac:(lia)) ltac:(done)) eq_refl).
Defined.

(** Two threads find the semaphore taken by the main thread. *)
Definition demo_thread2 : Z := 0xc0104000.
Definition demo_tasks4 : list Z := [demo_main; demo_thread; demo_thread2; demo_idle].
Definition demo_abs4 : sched := mkSched 0xc009ef00 [demo_thread; demo_thread2]
  (fun t => if decide (t = demo_thread2) then mkTcb 0xc0104e50 READY 32 32 0 0 else demo_tcb t).
Definition demo_world : world := mkWorld demo_abs4 1 [] (fun _ => Outside).

Ltac solve_tasks4 :=
  intros ? Hin; unfold demo_tasks4 in Hin; rewrite !elem_of_cons, elem_of_nil in Hin;
  destruct Hin as [->|[->|[->|[->|[]]]]].

Lemma demo_initial : initial demo_tasks4 demo_idle 1 demo_world.
Proof.
  split_and!; [|done|lia|done|done]. split; [|done]. constructor.
  - vm_compute. by left.
  - apply NoDup_cons_2; [|apply NoDup_singleton]. by intros ?%list_elem_of_singleton.
  - intros t. change (s_ready (w_sched demo_world)) with [demo_thread; demo_thread2].
    rewrite !elem_of_cons, elem_of_nil. split.
    + intros [->|[->|[]]]; (split; [|done]); vm_compute; [right; left|right; right; left].
    + intros [Hin Hs]. revert t Hin Hs. solve_tasks4; by auto.
  - solve_tasks4; done.
  - solve_tasks4; done.
  - right. right. right. by left.
  - done.
Qed.

Lemma demo_tasks4_nodup : NoDup demo_tasks4.
Proof. apply (bool_decide_unpack _). by vm_compute. Qed.

(** The main thread is past [sem_down]. *)
Definition demo_taken : world :=
  mkWorld demo_abs4 0 [] (move demo_main Holding (fun _ => Outside)).


(** Both threads wait; the main thread raises the semaphore: the first is
    woken, the second sleeps on, and there is one unit. *)
Definition demo_raised : world :=
  let w1 := mkWorld (abs_schedule demo_idle demo_abs4) 0 [] (w_place demo_taken) in
  let w2 := mkWorld (abs_block demo_idle BLOCKED (w_sched w1)) 0 [demo_thread]
    (move demo_thread Waiting (w_place w1)) in
  let w3 := mkWorld (abs_block demo_idle BLOCKED (w_sched w2)) 0 [demo_thread; demo_thread2]
    (move demo_thread2 Waiting (w_place w2)) in
  mkWorld (abs_wake [demo_thread; demo_thread2] (w_sched w3)) 1 [demo_thread2]
    (move demo_main Outside (w_place w3)).

