(* ===== verification/Sems.v ===== *)
(** * Several semaphores

    A component that owns more than one semaphore (thread/lock.c) needs to
    know that an operation on one leaves the others as they are.  The state of
    a family of semaphores is the value and the waiters of each; the waiters
    of all of them are distinct blocked tasks. *)

From S2P Require Import Prelude Machine Concrete Interrupt CString DList Paging Tss Sched Lock.

#[local] Open Scope Z_scope.

Record semv := mkSem { sv_sem : Z; sv_value : Z; sv_ws : list Z }.

Definition all_waiters (F : list semv) : list Z := concat (map sv_ws F).

#[export] Instance waiting_perm idle a : Proper ((≡ₚ) ==> iff) (waiting idle a).
Proof.
  assert (H : forall l l', l ≡ₚ l' -> waiting idle a l -> waiting idle a l').
  { intros l l' Hp [H1 H2 H3]. constructor.
    - intros w Hw. apply H1. by rewrite Hp.
    - by rewrite <- Hp.
    - by rewrite <- Hp. }
  intros l l' Hp. split; by apply H.
Qed.

Lemma all_waiters_split F1 e F2 :
  all_waiters (F1 ++ e :: F2) ≡ₚ sv_ws e ++ all_waiters (F1 ++ F2).
Proof. unfold all_waiters. rewrite !map_app, !concat_app. cbn. solve_Permutation. Qed.

Lemma waiting_app idle a l l' : waiting idle a (l ++ l') -> waiting idle a l.
Proof.
  intros [H1 H2 H3]. apply NoDup_app in H2 as (H2 & _ & _). constructor; [|done|].
  - intros w Hw. apply H1, elem_of_app. by left.
  - intros Hin. apply H3, elem_of_app. by left.
Qed.

Lemma wake_waiting_app idle a ws rest :
  waiting idle a (ws ++ rest) -> waiting idle (abs_wake ws a) (tl ws ++ rest).
Proof. destruct ws as [|w ws]; [done|]. intros H. exact (wake_waiting idle a (w :: ws ++ rest) H). Qed.

Section Sems.
Context {PL : Platform} {LK : Linker} (tasks : list Z) (idle : Z).

Definition sem_apart (x y : Z) : Prop := x + sem_t.sizeof <= y \/ y + sem_t.sizeof <= x.

Record sems_home (xs : list Z) : Prop := {
  sms_home : forall x, x ∈ xs -> sem_home tasks x;
  sms_apart : forall i j x y, xs !! i = Some x -> xs !! j = Some y -> i <> j -> sem_apart x y
}.

Record sems_state (a : sched) (F : list semv) (s : machine) : Prop := {
  sm_inv : inv tasks idle a;
  sm_runs : runs tasks idle a s;
  sm_waiting : waiting idle a (all_waiters F);
  sm_reps : forall e, e ∈ F -> sem_rep tasks (mem s) (sv_sem e) (sv_value e) (sv_ws e)
}.

Hypothesis Hlay : layout tasks.

Lemma sem_rep_frame m m' x v ws (P : Z -> Prop) :
  changed_only P m m' -> sem_home tasks x ->
  (forall b, P b -> ~ (x <= b < x + sem_t.sizeof)) ->
  (forall t b, t ∈ ws -> P b -> ~ (tag t <= b < tag t + 8)) ->
  sem_rep tasks m x v ws -> sem_rep tasks m' x v ws.
Proof.
  intros Hc Hh Hx Ht [Hv Hq]. constructor.
  - rewrite <- Hv. apply Hc. intros HP. apply (Hx _ HP). unfold sem_t.value, sem_t.sizeof. lia.
  - eapply task_queue_frame; [done| |done]. intros b [Hb|Hb] HP.
    + apply (Hx _ HP). unfold sem_t.waiters, sem_t.sizeof, list.sizeof in *. lia.
    + apply Exists_exists in Hb as (t & Hin & Hb). by apply (Ht t b Hin HP).
Qed.

(** An operation on the semaphore [x] that moves the tasks [q] misses the tags
    of the tasks that wait elsewhere, ... *)
Lemma touch_misses_tag x y (ws q : list Z) t b :
  sem_home tasks x -> sem_home tasks y -> (forall t, t ∈ q -> t ∈ tasks) -> (forall t, t ∈ ws -> t ∈ tasks) ->
  (forall t, t ∈ ws -> t ∉ q) -> t ∈ ws -> sem_touch tasks x q b -> ~ (tag t <= b < tag t + 8).
Proof.
  intros Hx Hy Hq Hws Hd Ht Hb Htag. pose proof (Hws t Ht) as Hin. pose proof (lay_fd _ Hlay) as Hfd.
  assert (Hlb : list_bytes (y + sem_t.waiters) ws b) by (right; apply Exists_exists; eauto).
  destruct Hb as [Hb|[Hb|[Hb|Hb]]].
  - pose proof (sh_tasks _ _ Hx t Hin). unfold tag in *. offsets. lia.
  - by apply (sem_queue_disjoint tasks Hlay y Hy ws q b Hws Hq Hd Hlb).
  - apply Exists_exists in Hb as (u & Hu & Hb).
    by eapply (scalar_list_disjoint tasks Hlay _ _ u b (sh_list _ _ Hy) Hws Hu Hlb).
  - pose proof (lay_tss_task _ Hlay t Hin). unfold esp0_bytes, tag, tss_t.sizeof in *. offsets. lia.
Qed.

(** ... so the other semaphores are left alone. *)
Lemma sem_rep_touch m m' x y v ws q :
  changed_only (sem_touch tasks x q) m m' -> sem_home tasks x -> sem_home tasks y -> sem_apart x y ->
  (forall t, t ∈ q -> t ∈ tasks) -> (forall t, t ∈ ws -> t ∉ q) ->
  sem_rep tasks m y v ws -> sem_rep tasks m' y v ws.
Proof.
  intros Hc Hx Hy Hap Hq Hd Hs. pose proof (tq_sub _ _ _ _ (sr_queue _ _ _ _ _ Hs)) as Hws.
  pose proof (lay_fd _ Hlay) as Hfd.
  eapply sem_rep_frame; [exact Hc|done| | |done].
  - pose proof (sh_ready _ _ Hy). pose proof (sh_tss _ _ Hy). unfold tss_t.sizeof in *.
    intros b [Hb|[[Hb|Hb]|[Hb|Hb]]]; unfold sem_apart, sem_t.sizeof, list.sizeof, esp0_bytes in *;
      [lia|lia| | |lia]; apply Exists_exists in Hb as (t & Ht & Hb).
    + pose proof (sh_tasks _ _ Hy t (Hq t Ht)). unfold tag, sem_t.sizeof in *. offsets. lia.
    + pose proof (sh_tasks _ _ Hy t Ht). unfold sem_t.sizeof in *. lia.
  - intros t b Ht Hb. by apply (touch_misses_tag x y ws q).
Qed.

Section One.
Context (a : sched) (F1 : list semv) (e : semv) (F2 : list semv) (s : machine).
Hypothesis Hst : sems_state a (F1 ++ e :: F2) s.
Hypothesis Hhome : sems_home (map sv_sem (F1 ++ e :: F2)).

Lemma sems_one : sem_state tasks idle (sv_sem e) a (sv_value e) (sv_ws e) s.
Proof.
  destruct Hst as [Hi Hr Hw Hs]. constructor; [done| |done|].
  - rewrite all_waiters_split in Hw. by eapply waiting_app.
  - apply Hs, elem_of_app. right. by left.
Qed.

Lemma sems_home_one : sem_home tasks (sv_sem e).
Proof.
  apply (sms_home _ Hhome). rewrite map_app. apply elem_of_app. right. by left.
Qed.

Lemma sems_other e' : e' ∈ F1 ++ F2 ->
  sem_home tasks (sv_sem e') /\ sem_apart (sv_sem e) (sv_sem e') /\
  sem_rep tasks (mem s) (sv_sem e') (sv_value e') (sv_ws e') /\
  (forall t, t ∈ sv_ws e' -> t ∈ all_waiters (F1 ++ F2)).
Proof.
  intros Hin. destruct Hhome as [Hh Hap].
  assert (He : map sv_sem (F1 ++ e :: F2) !! length F1 = Some (sv_sem e)).
  { rewrite map_app, lookup_app_r by (rewrite length_map; lia). by rewrite length_map, Nat.sub_diag. }
  assert (Hin' : e' ∈ F1 ++ e :: F2).
  { rewrite elem_of_app, elem_of_cons in *. tauto. }
  split_and!.
  - apply Hh. by apply list_elem_of_fmap_2.
  - assert (exists i, map sv_sem (F1 ++ e :: F2) !! i = Some (sv_sem e') /\ i <> length F1)
      as (i & Hi & Hne).
    { apply elem_of_app in Hin as [Hin|Hin]; apply list_elem_of_lookup in Hin as [i Hi].
      - exists i. pose proof (lookup_lt_Some _ _ _ Hi). split; [|lia].
        rewrite map_app, lookup_app_l by (rewrite length_map; lia).
        change (map sv_sem F1) with (sv_sem <$> F1). by rewrite list_lookup_fmap, Hi.
      - exists (S (length F1 + i)). split; [|lia].
        rewrite map_app, lookup_app_r by (rewrite length_map; lia). rewrite length_map.
        replace (S (length F1 + i) - length F1)%nat with (S i) by lia.
        change (map sv_sem (e :: F2)) with (sv_sem <$> e :: F2). rewrite list_lookup_fmap.
        change ((e :: F2) !! S i) with (F2 !! i). by rewrite Hi. }
    by eapply Hap; [exact He|exact Hi|].
  - by apply Hst.
  - intros t Ht. unfold all_waiters. apply list_elem_of_In, in_concat.
    exists (sv_ws e'). split; [|by apply list_elem_of_In]. apply list_elem_of_In.
    by apply list_elem_of_fmap_2.
Qed.

(** The others are untouched by an operation on [e] that moves the tasks [q]. *)
Lemma sems_rest q m' e' :
  changed_only (sem_touch tasks (sv_sem e) q) (mem s) m' ->
  (forall t, t ∈ q -> t ∈ tasks) -> (forall t, t ∈ all_waiters (F1 ++ F2) -> t ∉ q) ->
  e' ∈ F1 ++ F2 -> sem_rep tasks m' (sv_sem e') (sv_value e') (sv_ws e').
Proof.
  intros Hc Hq Hd Hin. destruct (sems_other e' Hin) as (Hh & Hap & Hs & Hw).
  eapply sem_rep_touch; [exact Hc|apply sems_home_one|done|done|done| |done]. auto.
Qed.

Lemma rest_not_ready t : t ∈ all_waiters (F1 ++ F2) ->
  (t ∉ s_ready a) /\ t <> s_cur a /\ t <> idle /\ (t ∉ sv_ws e).
Proof.
  intros Ht. destruct Hst as [[Hw HR] Hr Hwt _].
  assert (Hall : t ∈ all_waiters (F1 ++ e :: F2)).
  { rewrite all_waiters_split. apply elem_of_app. by right. }
  pose proof (wt_blocked _ _ _ Hwt t Hall) as Hb. split_and!.
  - intros [_ E]%(wf_ready _ _ _ Hw). congruence.
  - intros ->. congruence.
  - intros ->. by apply (wt_idle _ _ _ Hwt).
  - pose proof (wt_nodup _ _ _ Hwt) as Hnd. rewrite all_waiters_split in Hnd.
    apply NoDup_app in Hnd as (_ & Hnd & _). intros Hin. by apply (Hnd t Hin).
Qed.

Lemma sems_up : sv_value e < 255 ->
  exists s', sem_up (sv_sem e) s = Ok tt s' /\
    sems_state (abs_wake (sv_ws e) a)
      (F1 ++ mkSem (sv_sem e) (sv_value e + 1) (tl (sv_ws e)) :: F2) s' /\
    intr_flag s' = flag_after (intr_flag s) /\ vars s' = vars s /\ trace s' = trace s /\
    changed_only (sem_frame tasks (sv_sem e)) (mem s) (mem s').
Proof.
  intros Hv. pose proof sems_one as H1.
  destruct (sem_up_ok tasks idle _ a _ _ s Hlay sems_home_one H1 Hv) as (s' & E & H2 & Hf & Hva & Htr & Hc).
  assert (Hq : forall t, t ∈ sv_ws e ++ s_ready a -> t ∈ tasks).
  { intros t Ht. eapply (touched_tasks tasks idle); [exact H1|].
    rewrite !elem_of_app, !elem_of_cons in *. tauto. }
  exists s'. split_and!; [done| |done|done|done|].
  - destruct H2 as [G1 G2 G3 G4]. constructor; [done|done| |].
    + rewrite all_waiters_split. cbn [sv_ws]. apply wake_waiting_app.
      rewrite <- all_waiters_split. apply Hst.
    + intros e'. rewrite elem_of_app, elem_of_cons. intros [Hin|[->|Hin]]; [|done|];
        (eapply sems_rest; [exact Hc|exact Hq| |apply elem_of_app; tauto]);
        intros t Ht; destruct (rest_not_ready t Ht) as (? & _ & _ & ?); rewrite elem_of_app; tauto.
  - eapply changed_weaken; [done|]. intros b. by apply touch_frame.
Qed.

(** A unit of [e] has been taken. *)
Lemma sems_taken s' :
  sem_state tasks idle (sv_sem e) a (sv_value e - 1) (sv_ws e) s' ->
  changed_only (value_byte (sv_sem e)) (mem s) (mem s') ->
  sems_state a (F1 ++ mkSem (sv_sem e) (sv_value e - 1) (sv_ws e) :: F2) s' /\
  changed_only (sem_frame tasks (sv_sem e)) (mem s) (mem s').
Proof.
  intros [G1 G2 G3 G4] Hc.
  assert (Hc' : changed_only (sem_touch tasks (sv_sem e) []) (mem s) (mem s')).
  { eapply changed_weaken; [done|]. apply value_touch. }
  split; [constructor; [done|done| |]|].
  - rewrite all_waiters_split. cbn [sv_ws]. rewrite <- all_waiters_split. apply Hst.
  - intros e'. rewrite elem_of_app, elem_of_cons. intros [Hin|[->|Hin]]; [|done|];
      (eapply sems_rest; [exact Hc'| | |apply elem_of_app; tauto]);
      intros t Ht; first [by apply not_elem_of_nil in Ht|apply not_elem_of_nil].
  - eapply changed_weaken; [exact Hc'|]. intros b. apply touch_frame; [done|].
    by intros t ?%not_elem_of_nil.
Qed.

Lemma sems_down : 0 < sv_value e ->
  exists s', sem_down (sv_sem e) s = Ok tt s' /\
    sems_state a (F1 ++ mkSem (sv_sem e) (sv_value e - 1) (sv_ws e) :: F2) s' /\
    intr_flag s' = flag_after (intr_flag s) /\ vars s' = vars s /\ trace s' = trace s /\
    changed_only (sem_frame tasks (sv_sem e)) (mem s) (mem s').
Proof.
  intros Hv. pose proof sems_one as H1.
  destruct (sem_down_take tasks idle _ a _ _ s Hlay sems_home_one H1 Hv) as (s' & E & H2 & Hf & Hva & Htr & Hc).
  destruct (sems_taken s' H2 Hc). exists s'. by split_and!.
Qed.

(** A thread that waited runs again and finds a unit. *)
Lemma sems_resume n (b : bool) : 0 < sv_value e -> intr_flag s = false ->
  exists s', sem_down_from (S n) (sv_sem e) (if b then INTR_ON else INTR_OFF) s = Ok tt s' /\
    sems_state a (F1 ++ mkSem (sv_sem e) (sv_value e - 1) (sv_ws e) :: F2) s' /\
    intr_flag s' = flag_after b /\ vars s' = vars s /\ trace s' = trace s /\
    changed_only (sem_frame tasks (sv_sem e)) (mem s) (mem s').
Proof.
  intros Hv Hoff. destruct sems_one as [G1 G2 G3 G4].
  destruct (sem_down_take_run tasks Hlay _ sems_home_one n a _ s _ b (run_rep _ _ _ _ G3) G4 Hv Hoff)
    as (m' & E & Hr & Hs & Hc).
  set (s' := set_intr_flag (flag_after b) (set_mem m' s)) in *.
  assert (H2 : sem_state tasks idle (sv_sem e) a (sv_value e - 1) (sv_ws e) s').
  { constructor; [done|done| |exact Hs]. destruct G3 as [_ He Hid]. by constructor. }
  destruct (sems_taken s' H2 Hc). exists s'. by split_and!.
Qed.

Lemma sems_wait : sv_value e = 0 -> s_cur a <> idle ->
  exists n s' k, sem_down (sv_sem e) s = Switch s' k /\
    sems_state (abs_block idle BLOCKED a)
      (F1 ++ mkSem (sv_sem e) 0 (sv_ws e ++ [s_cur a]) :: F2) s' /\
    intr_flag s' = false /\ changed_only (sem_frame tasks (sv_sem e)) (mem s) (mem s') /\
    Z.of_nat n = 2 ^ 33 - 1 /\
    (forall s'', intr_flag s'' = false ->
       k s'' = sem_down_from n (sv_sem e) (if intr_flag s then INTR_ON else INTR_OFF) s'').
Proof.
  intros Hv Hid. pose proof sems_one as H1. rewrite Hv in H1.
  destruct (sem_down_wait tasks idle _ a _ s Hlay sems_home_one H1 Hid) as (n & s' & k & E & H2 & Hf & Hc & Hn & Hk).
  exists n, s', k. split_and!; [done| |done| |done|done].
  - destruct H2 as [G1 G2 G3 G4]. constructor; [done|done| |].
    + rewrite all_waiters_split. cbn [sv_ws].
      rewrite <- (assoc (++)), (comm (++) [s_cur a]), (assoc (++)).
      apply (block_waiting tasks); [apply Hst| |done]. rewrite <- all_waiters_split. apply Hst.
    + intros e'. rewrite elem_of_app, elem_of_cons. intros [Hin|[->|Hin]]; [|done|];
        (eapply sems_rest; [exact Hc|intros t; by apply (touched_tasks tasks idle _ _ _ _ _ _ H1)|
           |apply elem_of_app; tauto]);
        intros t Ht; destruct (rest_not_ready t Ht) as (? & ? & ? & ?);
        rewrite elem_of_app, !elem_of_cons; tauto.
  - by eapply (touch_to_frame tasks idle _ a 0 _ s).
Qed.
End One.

(** Writes that none of the semaphores and the scheduler see. *)
Lemma sems_frame a F s (P : Z -> Prop) m' :
  sems_state a F s -> changed_only P (mem s) m' ->
  (forall b, P b -> forall e, e ∈ F -> free_byte tasks (sv_sem e) b) -> F <> [] ->
  sems_state a F (set_mem m' s).
Proof.
  intros Hst Hc HP HF.
  assert (H : forall e, e ∈ F -> sem_state tasks idle (sv_sem e) a (sv_value e) (sv_ws e) (set_mem m' s)).
  { intros e He. eapply sem_state_frame; [done| |exact Hc|intros b Hb; by apply HP].
    apply list_elem_of_split in He as (F1 & F2 & ->). by eapply sems_one. }
  destruct F as [|e F]; [done|]. pose proof (H e ltac:(by left)) as [_ _ Hr _].
  constructor; [apply Hst|done|apply Hst|]. intros e' He. by apply H.
Qed.
End Sems.
