(* ===== verification/IoQueue.v ===== *)
(** * device/io_queue.c

    The bounded buffer between the keyboard interrupt and its readers: a ring
    of 64 characters, a semaphore for free slots, one for items and one for
    mutual exclusion.  It is proved to be a first-in first-out queue. *)

From S2P Require Import Prelude Machine Concrete Interrupt CString DList Paging Tss Sched Lock Sems.

#[local] Open Scope Z_scope.

Definition BUF_SIZE : Z := 64.

Module io_queue_t.
Definition slots : Z := 0.
Definition items : Z := 20.
Definition mutex : Z := 40.
Definition buffer : Z := 60.
Definition front : Z := 124.
Definition rear : Z := 128.
Definition sizeof : Z := 132.
End io_queue_t.

Section IoQueue.
Context {PL : Platform} {LK : Linker}.

Definition io_queue_init (q : Z) : K unit :=
  sem_init (q + io_queue_t.slots) BUF_SIZE;;
  sem_init (q + io_queue_t.items) 0;;
  sem_init (q + io_queue_t.mutex) 1;;
  st32 (q + io_queue_t.front) 0;;
  st32 (q + io_queue_t.rear) 0.

(** [(i + 1) % BUF_SIZE] on [int32_t]. *)
Definition next_index (i : Z) : Z := Z.rem (s32 (s32 i + 1)) BUF_SIZE.

Definition io_queue_full (q : Z) : K bool :=
  sem_down (q + io_queue_t.mutex);;
  f ← ld32 (q + io_queue_t.front);
  r ← ld32 (q + io_queue_t.rear);
  let full := next_index f =? s32 r in
  sem_up (q + io_queue_t.mutex);;
  mret full.

Definition io_queue_getchar (q : Z) : K Z :=
  sem_down (q + io_queue_t.items);;
  sem_down (q + io_queue_t.mutex);;
  f ← ld32 (q + io_queue_t.front);
  c ← ld8 (q + io_queue_t.buffer + s32 f);
  f ← ld32 (q + io_queue_t.front);
  st32 (q + io_queue_t.front) (u32 (next_index f));;
  sem_up (q + io_queue_t.mutex);;
  sem_up (q + io_queue_t.slots);;
  mret c.

Definition io_queue_putchar (q c : Z) : K unit :=
  sem_down (q + io_queue_t.slots);;
  sem_down (q + io_queue_t.mutex);;
  r ← ld32 (q + io_queue_t.rear);
  st8 (q + io_queue_t.buffer + s32 r) c;;
  r ← ld32 (q + io_queue_t.rear);
  st32 (q + io_queue_t.rear) (u32 (next_index r));;
  sem_up (q + io_queue_t.mutex);;
  sem_up (q + io_queue_t.items).
End IoQueue.

Ltac ioq :=
  unfold io_queue_t.slots, io_queue_t.items, io_queue_t.mutex, io_queue_t.buffer,
    io_queue_t.front, io_queue_t.rear, io_queue_t.sizeof, BUF_SIZE in *.

(** ** A queue of characters *)
Section Specs.
Context {PL : Platform} {LK : Linker} (tasks : list Z) (idle : Z) (q : Z).

(** The ring holds [cs], oldest first, from index [f] on. *)
Record ring (m : memory) (f : Z) (cs : list Z) : Prop := {
  rg_index : 0 <= f < 64;
  rg_bound : Z.of_nat (length cs) <= 64;
  rg_front : get32 m (q + io_queue_t.front) = f;
  rg_rear : get32 m (q + io_queue_t.rear) = (f + Z.of_nat (length cs)) mod 64;
  rg_chars : forall i c, cs !! i = Some c ->
    get8 m (q + io_queue_t.buffer + (f + Z.of_nat i) mod 64) = c
}.

Definition slots_sem (v : Z) (ws : list Z) : semv := mkSem (q + io_queue_t.slots) v ws.
Definition items_sem (v : Z) (ws : list Z) : semv := mkSem (q + io_queue_t.items) v ws.
Definition lock_sem (v : Z) (ws : list Z) : semv := mkSem (q + io_queue_t.mutex) v ws.

(** The queue holds [cs] and nobody is inside an operation. *)
Record ioq (a : sched) (cs : list Z) (wsl wi wm : list Z) (s : machine) : Prop := {
  iq_sems : sems_state tasks idle a
    [slots_sem (64 - Z.of_nat (length cs)) wsl; items_sem (Z.of_nat (length cs)) wi; lock_sem 1 wm] s;
  iq_ring : exists f, ring (mem s) f cs
}.

Record ioq_home : Prop := {
  ih_range : 0 <= q /\ q + io_queue_t.sizeof <= 2 ^ 32;
  ih_tasks : forall t, t ∈ tasks -> q + io_queue_t.sizeof <= t \/ t + 4096 <= q;
  ih_ready : q + io_queue_t.sizeof <= sym_ready_thread_list \/ sym_ready_thread_list + 16 <= q;
  ih_tss : q + io_queue_t.sizeof <= sym_tss \/ sym_tss + tss_t.sizeof <= q
}.

Hypothesis Hlay : layout tasks.
Hypothesis Hhome : ioq_home.

Lemma ioq_sems_home :
  sems_home tasks [q + io_queue_t.slots; q + io_queue_t.items; q + io_queue_t.mutex].
Proof.
  destruct Hhome as [Hr Ht Hrd Hts]. change (2 ^ 32) with 4294967296 in *. constructor.
  - intros x Hx. rewrite !elem_of_cons, elem_of_nil in Hx. ioq.
    constructor; [split_and!|..]; unfold sem_t.sizeof, sem_t.waiters, list.sizeof in *;
      change (2 ^ 32) with 4294967296; try (intros t Hin; specialize (Ht t Hin)); lia.
  - intros i j x y Hi Hj Hne. unfold sem_apart, sem_t.sizeof. ioq.
    destruct i as [|[|[|i]]], j as [|[|[|j]]]; cbn in Hi, Hj; simplify_eq; try done; lia.
Qed.

Definition ring_bytes (b : Z) : Prop := q + 60 <= b < q + 132.

Lemma ring_free b F : ring_bytes b ->
  map sv_sem F = [q + io_queue_t.slots; q + io_queue_t.items; q + io_queue_t.mutex] ->
  forall e, e ∈ F -> free_byte tasks (sv_sem e) b.
Proof.
  intros Hb HF e He. destruct Hhome as [Hr Ht Hrd Hts].
  assert (Hx : sv_sem e ∈ map sv_sem F) by (by apply list_elem_of_fmap_2).
  rewrite HF, !elem_of_cons, elem_of_nil in Hx. unfold free_byte, ring_bytes in *. ioq.
  unfold sem_t.sizeof, list.sizeof. split_and!; [lia|lia|]. intros t Hin. specialize (Ht t Hin). lia.
Qed.

(** The semaphore operations keep the ring. *)
Lemma ring_frame m m' x f cs :
  x ∈ [q + io_queue_t.slots; q + io_queue_t.items; q + io_queue_t.mutex] ->
  changed_only (sem_frame tasks x) m m' -> ring m f cs -> ring m' f cs.
Proof.
  intros Hx Hc [H1 H2 H3 H4 H5].
  assert (Hk : forall b, ring_bytes b -> get8 m' b = get8 m b).
  { intros b Hb. apply Hc. destruct Hhome as [Hr Ht Hrd Hts].
    rewrite !elem_of_cons, elem_of_nil in Hx. unfold ring_bytes in *. ioq.
    intros [Hf|[Hf|[Hf|Hf]]]; unfold sem_t.sizeof, list.sizeof, esp0_bytes, tss_t.sizeof in *; try lia.
    apply Exists_exists in Hf as (t & Hin & Hf). specialize (Ht t Hin). lia. }
  constructor; [done|done| | |].
  - rewrite <- H3. apply get32_ext. intros b Hb. apply Hk. unfold ring_bytes. ioq. lia.
  - rewrite <- H4. apply get32_ext. intros b Hb. apply Hk. unfold ring_bytes. ioq. lia.
  - intros i c Hi. rewrite <- (H5 i c Hi). apply Hk. unfold ring_bytes. ioq.
    pose proof (Z.mod_pos_bound (f + Z.of_nat i) 64). lia.
Qed.

Lemma next_index_mod i : 0 <= i < 64 -> next_index i = (i + 1) mod 64.
Proof.
  intros Hi. unfold next_index. ioq. rewrite (s32_small i), (s32_small (i + 1)) by lia.
  apply Z.rem_mod_nonneg; lia.
Qed.

Lemma ring_put m f cs c :
  ring m f cs -> Z.of_nat (length cs) < 64 ->
  let r := (f + Z.of_nat (length cs)) mod 64 in
  ring (put32 (put8 m (q + io_queue_t.buffer + r) c) (q + io_queue_t.rear) ((r + 1) mod 64)) f
    (cs ++ [u8 c]).
Proof.
  intros [H1 H2 H3 H4 H5] Hn r. assert (Hr : 0 <= r < 64) by (apply Z.mod_pos_bound; lia).
  constructor; [done|rewrite length_app; cbn; lia| | |].
  - ioq. rewrite get32_put32_ne, get32_put8_ne by lia. done.
  - rewrite get32_put32_eq, length_app. cbn [length]. unfold r. rewrite u32_small by zlia. zlia.
  - intros i x Hi. rewrite get8_put32_ne.
    2:{ ioq. pose proof (Z.mod_pos_bound (f + Z.of_nat i) 64). lia. }
    apply lookup_app_Some in Hi as [Hi|[Hge Hi]].
    + rewrite get8_put8_ne; [by apply H5|]. pose proof (lookup_lt_Some _ _ _ Hi).
      unfold r. zlia.
    + destruct (i - length cs)%nat eqn:E; cbn in Hi; simplify_eq.
      replace i with (length cs) by lia. fold r. by rewrite get8_put8_eq.
Qed.

Lemma ring_get m f c cs :
  ring m f (c :: cs) ->
  get8 m (q + io_queue_t.buffer + f) = c /\
  ring (put32 m (q + io_queue_t.front) ((f + 1) mod 64)) ((f + 1) mod 64) cs.
Proof.
  intros [H1 H2 H3 H4 H5]. cbn [length] in *. split.
  - rewrite <- (H5 0%nat c) by done. f_equal. rewrite Z.add_0_r, Z.mod_small; lia.
  - constructor; [apply Z.mod_pos_bound; lia|lia| | |].
    + rewrite get32_put32_eq, u32_small; [done|zlia].
    + ioq. rewrite get32_put32_ne by lia. rewrite H4. zlia.
    + intros i x Hi. rewrite get8_put32_ne.
      * rewrite <- (H5 (S i) x) by done. do 2 f_equal. zlia.
      * ioq. pose proof (Z.mod_pos_bound ((f + 1) mod 64 + Z.of_nat i) 64). lia.
Qed.

Ltac sems_tac L F1 e F2 Hs Hp s' E Hs' Hc :=
  let Hf := fresh "Hf" in
  destruct (L tasks idle Hlay _ F1 e F2 _ Hs ioq_sems_home ltac:(unfold slots_sem, items_sem, lock_sem; cbn [sv_value]; Hp))
    as (s' & E & Hs' & Hf & ? & ? & Hc); 
  unfold slots_sem, items_sem, lock_sem in *; cbn [sv_sem sv_value sv_ws app] in *.

Lemma ring_write F a s s' :
  sems_state tasks idle a F s -> F <> [] ->
  map sv_sem F = [q + io_queue_t.slots; q + io_queue_t.items; q + io_queue_t.mutex] ->
  changed_only ring_bytes (mem s) s' -> sems_state tasks idle a F (set_mem s' s).
Proof.
  intros Hs Hne Hm Hc. eapply sems_frame; [done|done|exact Hc| |done].
  intros b Hb. by apply ring_free.
Qed.

Lemma elem_slots : q + io_queue_t.slots ∈ [q + io_queue_t.slots; q + io_queue_t.items; q + io_queue_t.mutex].
Proof. by left. Qed.
Lemma elem_items : q + io_queue_t.items ∈ [q + io_queue_t.slots; q + io_queue_t.items; q + io_queue_t.mutex].
Proof. right. by left. Qed.
Lemma elem_mutex : q + io_queue_t.mutex ∈ [q + io_queue_t.slots; q + io_queue_t.items; q + io_queue_t.mutex].
Proof. right. right. by left. Qed.

Lemma putchar_run a cs wsl wi wm s c :
  ioq a cs wsl wi wm s -> Z.of_nat (length cs) < 64 ->
  exists s', io_queue_putchar q c s = Ok tt s' /\
    ioq (abs_wake wi (abs_wake wm a)) (cs ++ [u8 c]) wsl (tl wi) (tl wm) s' /\ vars s' = vars s.
Proof.
  intros [Hs0 [f Hf]] Hn. set (n := Z.of_nat (length cs)) in *.
  sems_tac sems_down (@nil semv) (slots_sem (64 - n) wsl) [items_sem n wi; lock_sem 1 wm] Hs0 lia s1 E1 Hs1 Hc1.
  sems_tac sems_down [slots_sem (64 - n - 1) wsl; items_sem n wi] (lock_sem 1 wm) (@nil semv) Hs1 lia s2 E2 Hs2 Hc2.
  apply (ring_frame _ _ _ _ _ elem_slots Hc1) in Hf. apply (ring_frame _ _ _ _ _ elem_mutex Hc2) in Hf.
  pose proof (ring_put _ _ _ c Hf Hn) as Hg. cbv zeta in Hg. fold n in Hg.
  pose proof (rg_rear _ _ _ Hf) as Hrear. fold n in Hrear.
  set (r := (f + n) mod 64) in *. assert (Hr : 0 <= r < 64) by (apply Z.mod_pos_bound; lia).
  set (m3 := put32 (put8 (mem s2) (q + io_queue_t.buffer + r) c) (q + io_queue_t.rear) ((r + 1) mod 64)) in *.
  assert (Hs3 : sems_state tasks idle a [slots_sem (64 - n - 1) wsl; items_sem n wi; lock_sem (1 - 1) wm]
    (set_mem m3 s2)).
  { apply ring_write; [exact Hs2|done|done|]. intros b Hb. unfold m3. unfold ring_bytes in Hb. ioq.
    rewrite get8_put32_ne, get8_put8_ne by lia. done. }
  sems_tac sems_up [slots_sem (64 - n - 1) wsl; items_sem n wi] (lock_sem (1 - 1) wm) (@nil semv) Hs3 lia s4 E4 Hs4 Hc4.
  apply (ring_frame _ _ _ _ _ elem_mutex Hc4) in Hg.
  sems_tac sems_up [slots_sem (64 - n - 1) wsl] (items_sem n wi) [lock_sem (1 - 1 + 1) (tl wm)] Hs4 lia s5 E5 Hs5 Hc5.
  apply (ring_frame _ _ _ _ _ elem_items Hc5) in Hg.
  exists s5. split; [|split; [|msimpl; congruence]].
  - unfold io_queue_putchar. rewrite (bind_ok _ _ _ _ _ E1), (bind_ok _ _ _ _ _ E2).
    srun. rewrite Hrear, (s32_small r) by lia. rewrite get32_put8_ne by (ioq; lia). rewrite Hrear.
    rewrite next_index_mod, u32_small by (lia || zlia). fold m3. change (set_mem m3 _) with (set_mem m3 s2).
    rewrite (bind_ok _ _ _ _ _ E4). exact E5.
  - constructor; [|by exists f]. rewrite length_app. cbn [length].
    replace (64 - Z.of_nat (length cs + 1)) with (64 - n - 1) by lia.
    replace (Z.of_nat (length cs + 1)) with (n + 1) by lia. exact Hs5.
Qed.

Lemma getchar_run a c cs wsl wi wm s :
  ioq a (c :: cs) wsl wi wm s ->
  exists s', io_queue_getchar q s = Ok c s' /\
    ioq (abs_wake wsl (abs_wake wm a)) cs (tl wsl) wi (tl wm) s'.
Proof.
  intros [Hs0 [f Hf]]. pose proof (rg_bound _ _ _ Hf) as Hb. pose proof (rg_index _ _ _ Hf) as Hfi.
  cbn [length] in *. set (n := Z.of_nat (S (length cs))) in *.
  sems_tac sems_down [slots_sem (64 - n) wsl] (items_sem n wi) [lock_sem 1 wm] Hs0 lia s1 E1 Hs1 Hc1.
  sems_tac sems_down [slots_sem (64 - n) wsl; items_sem (n - 1) wi] (lock_sem 1 wm) (@nil semv) Hs1 lia s2 E2 Hs2 Hc2.
  apply (ring_frame _ _ _ _ _ elem_items Hc1) in Hf. apply (ring_frame _ _ _ _ _ elem_mutex Hc2) in Hf.
  pose proof (rg_front _ _ _ Hf) as Hfront. apply ring_get in Hf as [Hc Hg].
  set (m3 := put32 (mem s2) (q + io_queue_t.front) ((f + 1) mod 64)) in *.
  assert (Hs3 : sems_state tasks idle a [slots_sem (64 - n) wsl; items_sem (n - 1) wi; lock_sem (1 - 1) wm]
    (set_mem m3 s2)).
  { apply ring_write; [exact Hs2|done|done|]. intros b Hbb. unfold m3. unfold ring_bytes in Hbb. ioq.
    rewrite get8_put32_ne by lia. done. }
  sems_tac sems_up [slots_sem (64 - n) wsl; items_sem (n - 1) wi] (lock_sem (1 - 1) wm) (@nil semv) Hs3 lia s4 E4 Hs4 Hc4.
  apply (ring_frame _ _ _ _ _ elem_mutex Hc4) in Hg.
  sems_tac sems_up (@nil semv) (slots_sem (64 - n) wsl) [items_sem (n - 1) wi; lock_sem (1 - 1 + 1) (tl wm)] Hs4 lia s5 E5 Hs5 Hc5.
  apply (ring_frame _ _ _ _ _ elem_slots Hc5) in Hg.
  exists s5. split.
  - unfold io_queue_getchar. rewrite (bind_ok _ _ _ _ _ E1), (bind_ok _ _ _ _ _ E2).
    srun. rewrite Hfront, (s32_small f) by lia. rewrite Hc.
    rewrite next_index_mod, u32_small by (lia || zlia). fold m3.
    rewrite (bind_ok _ _ _ _ _ E4), (bind_ok _ _ _ _ _ E5). done.
  - constructor; [|by exists ((f + 1) mod 64)].
    replace (64 - Z.of_nat (length cs)) with (64 - n + 1) by lia.
    replace (Z.of_nat (length cs)) with (n - 1) by lia. exact Hs5.
Qed.

Lemma full_run a cs wsl wi wm s :
  ioq a cs wsl wi wm s ->
  exists s', io_queue_full q s = Ok (bool_decide (length cs = 1%nat)) s' /\
    ioq (abs_wake wm a) cs wsl wi (tl wm) s'.
Proof.
  intros [Hs0 [f Hf]]. pose proof (rg_bound _ _ _ Hf) as Hb. pose proof (rg_index _ _ _ Hf) as Hfi.
  set (n := Z.of_nat (length cs)) in *.
  sems_tac sems_down [slots_sem (64 - n) wsl; items_sem n wi] (lock_sem 1 wm) (@nil semv) Hs0 lia s1 E1 Hs1 Hc1.
  apply (ring_frame _ _ _ _ _ elem_mutex Hc1) in Hf.
  sems_tac sems_up [slots_sem (64 - n) wsl; items_sem n wi] (lock_sem (1 - 1) wm) (@nil semv) Hs1 lia s2 E2 Hs2 Hc2.
  pose proof (rg_front _ _ _ Hf) as Hfront. pose proof (rg_rear _ _ _ Hf) as Hrear. fold n in Hrear.
  apply (ring_frame _ _ _ _ _ elem_mutex Hc2) in Hf.
  exists s2. split.
  - unfold io_queue_full. rewrite (bind_ok _ _ _ _ _ E1).
    srun. rewrite Hfront, Hrear, (next_index_mod f), (s32_small (_ mod 64)) by (lia || zlia).
    rewrite (bind_ok _ _ _ _ _ E2). cbv beta. apply (f_equal (fun b => Ok b s2)).
    destruct (Z.eqb_spec ((f + 1) mod 64) ((f + n) mod 64)) as [Ee|Ee]; symmetry.
    + apply bool_decide_true. zlia.
    + apply bool_decide_false. intros El. apply Ee. unfold n. rewrite El. done.
  - constructor; [exact Hs2|by exists f].
Qed.

Lemma putchar_wait_run a cs wsl wi wm s c :
  ioq a cs wsl wi wm s -> length cs = 64%nat -> s_cur a <> idle ->
  exists s' k, io_queue_putchar q c s = Switch s' k /\
    ioq (abs_block idle BLOCKED a) cs (wsl ++ [s_cur a]) wi wm s' /\ intr_flag s' = false.
Proof.
  intros [Hs0 [f Hf]] Hn Hid.
  set (n := Z.of_nat (length cs)) in *. assert (En : n = 64) by lia.
  destruct (sems_wait tasks idle Hlay a [] (mkSem (q + io_queue_t.slots) (64 - n) wsl) [items_sem n wi; lock_sem 1 wm] s Hs0
    ioq_sems_home ltac:(cbn; lia) Hid) as (k0 & s' & k & E & Hs & Hof & Hc & _ & _).
  cbn [sv_sem sv_value sv_ws app] in *. apply (ring_frame _ _ _ _ _ elem_slots Hc) in Hf.
  eexists s', _. split; [unfold io_queue_putchar; by rewrite (bind_switch _ _ _ _ _ E)|].
  split; [|done]. constructor; [|by exists f]. replace (64 - Z.of_nat (length cs)) with 0 by lia. done.
Qed.

Lemma getchar_wait_run a wsl wi wm s :
  ioq a [] wsl wi wm s -> s_cur a <> idle ->
  exists s' k, io_queue_getchar q s = Switch s' k /\
    ioq (abs_block idle BLOCKED a) [] wsl (wi ++ [s_cur a]) wm s' /\ intr_flag s' = false.
Proof.
  intros [Hs0 [f Hf]] Hid. cbn [length] in *.
  destruct (sems_wait tasks idle Hlay a [slots_sem (64 - Z.of_nat 0) wsl] (mkSem (q + io_queue_t.items) (Z.of_nat 0) wi) [lock_sem 1 wm] s Hs0
    ioq_sems_home ltac:(cbn; lia) Hid) as (k0 & s' & k & E & Hs & Hof & Hc & _ & _).
  cbn [sv_sem sv_value sv_ws app] in *. apply (ring_frame _ _ _ _ _ elem_items Hc) in Hf.
  eexists s', _. split; [unfold io_queue_getchar; by rewrite (bind_switch _ _ _ _ _ E)|].
  split; [|done]. by constructor; [|exists f].
Qed.

(** A fresh queue is empty. *)
Lemma io_queue_init_run a s :
  inv tasks idle a -> runs tasks idle a s ->
  exists s', io_queue_init q s = Ok tt s' /\ ioq a [] [] [] [] s' /\
    changed_only (fun b => q <= b < q + io_queue_t.sizeof) (mem s) (mem s') /\
    intr_flag s' = intr_flag s /\ esp s' = esp s /\ vars s' = vars s.
Proof.
  intros Hi Hr. pose proof ioq_sems_home as Hsh.
  pose proof (sms_home _ _ Hsh _ elem_slots) as H1. pose proof (sms_home _ _ Hsh _ elem_items) as H2.
  pose proof (sms_home _ _ Hsh _ elem_mutex) as H3.
  destruct (sem_init_run tasks Hlay _ H1 BUF_SIZE s ltac:(by unfold BUF_SIZE)) as (m1 & E1 & S1 & C1).
  destruct (sem_init_run tasks Hlay _ H2 0 (set_mem m1 s) ltac:(lia)) as (m2 & E2 & S2 & C2).
  destruct (sem_init_run tasks Hlay _ H3 1 (set_mem m2 (set_mem m1 s)) ltac:(lia)) as (m3 & E3 & S3 & C3).
  msimpl. set (m4 := put32 (put32 m3 (q + io_queue_t.front) 0) (q + io_queue_t.rear) 0).
  assert (C4 : changed_only ring_bytes m3 m4).
  { intros b Hb. unfold m4. unfold ring_bytes in Hb. ioq. rewrite !get8_put32_ne by lia. done. }
  assert (Hall : changed_only (fun b => q <= b < q + io_queue_t.sizeof) (mem s) m4).
  { intros b Hb. unfold ring_bytes, sem_t.sizeof in *. ioq.
    rewrite C4, C3, C2, C1 by lia. done. }
  exists (set_mem m4 s). split_and!; [|split|done..].
  - unfold io_queue_init. rewrite (bind_ok _ _ _ _ _ E1), (bind_ok _ _ _ _ _ E2), (bind_ok _ _ _ _ _ E3).
    reflexivity.
  - constructor.
    + done.
    + eapply runs_frame; [done|done|exact Hall|]. destruct Hhome as [Hrg Ht Hrd _].
      unfold list.sizeof. ioq. intros b Hb. split; [lia|]. intros t Hin. specialize (Ht t Hin). ioq. lia.
    + constructor; [by intros ? ?%not_elem_of_nil|constructor|apply not_elem_of_nil].
    + intros e He. rewrite !elem_of_cons, elem_of_nil in He. unfold slots_sem, items_sem, lock_sem in He.
      assert (D1 : changed_only (fun b => q + 20 <= b < q + 132) m1 m4)
        by (intros b Hb; unfold ring_bytes, sem_t.sizeof in *; ioq; rewrite C4, C3, C2 by lia; done).
      assert (D2 : changed_only (fun b => q + 40 <= b < q + 132) m2 m4)
        by (intros b Hb; unfold ring_bytes, sem_t.sizeof in *; ioq; rewrite C4, C3 by lia; done).
      destruct He as [->|[->|[->|[]]]]; cbn [sv_sem sv_value sv_ws length];
        [eapply sem_rep_frame; [exact D1|exact H1| | |exact S1]
        |eapply sem_rep_frame; [exact D2|exact H2| | |exact S2]
        |eapply sem_rep_frame; [exact C4|exact H3| | |exact S3]];
        try (by intros t b ?%not_elem_of_nil);
        intros b Hb; unfold ring_bytes, sem_t.sizeof in *; ioq; lia.
  - exists 0. constructor; [lia|cbn; lia| | |by intros ? ? ?].
    + msimpl. unfold m4. ioq. rewrite get32_put32_ne, get32_put32_eq by lia. done.
    + msimpl. unfold m4. by rewrite get32_put32_eq.
Qed.

(** An idle queue survives writes elsewhere. *)
Lemma ioq_frame a s s' (P : Z -> Prop) :
  ioq a [] [] [] [] s -> changed_only P (mem s) (mem s') ->
  (forall b, P b -> ~ (q <= b < q + io_queue_t.sizeof)) -> runs tasks idle a s' ->
  ioq a [] [] [] [] s'.
Proof.
  intros [[Hi _ Hw Hs] [f [R1 R2 R3 R4 R5]]] Hc HP Hr. pose proof ioq_sems_home as Hsh.
  assert (Hk : forall b, q <= b < q + io_queue_t.sizeof -> get8 (mem s') b = get8 (mem s) b).
  { intros b Hb. apply Hc. intros Hx. by apply (HP b Hx). }
  constructor; [constructor; [done|exact Hr|exact Hw|]|].
  - intros e He. specialize (Hs e He). rewrite !elem_of_cons, elem_of_nil in He.
    unfold slots_sem, items_sem, lock_sem in He.
    destruct He as [->|[->|[->|[]]]]; cbn [sv_sem sv_value sv_ws] in *;
      (eapply sem_rep_frame; [exact Hc|apply (sms_home _ _ Hsh)| |by intros t b ?%not_elem_of_nil|exact Hs]);
      try (rewrite !elem_of_cons; tauto);
      intros b Hb Hx; apply (HP b Hb); unfold sem_t.sizeof in *; ioq; lia.
  - exists f. constructor; [done|done| | |done].
    + rewrite <- R3. apply get32_ext. intros b Hb. apply Hk. ioq. lia.
    + rewrite <- R4. apply get32_ext. intros b Hb. apply Hk. ioq. lia.
Qed.
End Specs.

(** ** The contract: a first-in first-out queue of at most 64 characters *)
Section Contract.
Context {PL : Platform} {LK : Linker} (tasks : list Z) (idle : Z).

(** A fresh queue is empty. *)
Theorem io_queue_init_empty q a s :
  layout tasks -> ioq_home tasks q -> inv tasks idle a -> runs tasks idle a s ->
  exists s', io_queue_init q s = Ok tt s' /\ ioq tasks idle q a [] [] [] [] s'.
Proof.
  intros Hl Hh Hi Hr. destruct (io_queue_init_run tasks idle q Hl Hh a s Hi Hr) as (s' & E & H & _).
  by exists s'.
Qed.

(** C36: The queue is first-in first-out and holds at most 64 characters: putting
    a character appends it, wakes a reader that waits for an item, and waits
    when 64 characters are queued; taking one takes the oldest, wakes a writer
    that waits for a slot, and waits when the queue is empty.  Nothing is lost
    or overwritten. *)
Theorem io_queue_fifo q a cs wsl wi wm s :
  layout tasks -> ioq_home tasks q -> ioq tasks idle q a cs wsl wi wm s ->
  (forall c, Z.of_nat (length cs) < BUF_SIZE ->
   exists s', io_queue_putchar q c s = Ok tt s' /\
     ioq tasks idle q (abs_wake wi (abs_wake wm a)) (cs ++ [u8 c]) wsl (tl wi) (tl wm) s') /\
  (forall c, Z.of_nat (length cs) = BUF_SIZE -> s_cur a <> idle ->
   exists s' k, io_queue_putchar q c s = Switch s' k /\
     ioq tasks idle q (abs_block idle BLOCKED a) cs (wsl ++ [s_cur a]) wi wm s' /\
     intr_flag s' = false) /\
  Z.of_nat (length cs) <= BUF_SIZE /\
  match cs with
  | c :: cs' => exists s', io_queue_getchar q s = Ok c s' /\
      ioq tasks idle q (abs_wake wsl (abs_wake wm a)) cs' (tl wsl) wi (tl wm) s'
  | [] => s_cur a <> idle -> exists s' k, io_queue_getchar q s = Switch s' k /\
      ioq tasks idle q (abs_block idle BLOCKED a) [] wsl (wi ++ [s_cur a]) wm s' /\
      intr_flag s' = false
  end.
Proof.
  intros Hl Hh Hq. split_and!.
  - intros c Hn. destruct (putchar_run tasks idle q Hl Hh a cs wsl wi wm s c Hq Hn) as (s' & E & H & _).
    by exists s'.
  - intros c Hn Hid. apply putchar_wait_run; [done..| |done]. unfold BUF_SIZE in Hn. lia.
  - destruct (iq_ring _ _ _ _ _ _ _ _ _ Hq) as [f Hf]. apply (rg_bound _ _ _ _ Hf).
  - destruct cs as [|c cs]; [intros Hid; by apply getchar_wait_run|by apply getchar_run].
Qed.

(** [io_queue_full] compares the wrong way round: it answers whether the queue
    holds exactly one character. *)
Theorem io_queue_full_means_one q a cs wsl wi wm s :
  layout tasks -> ioq_home tasks q -> ioq tasks idle q a cs wsl wi wm s ->
  exists s', io_queue_full q s = Ok (bool_decide (length cs = 1%nat)) s' /\
    ioq tasks idle q (abs_wake wm a) cs wsl wi (tl wm) s'.
Proof. intros Hl Hh Hq. by apply full_run. Qed.
End Contract.

(** ** Concrete instances *)

Lemma demo_ioq_home : ioq_home demo_tasks 0xc0018000.
Proof.
  constructor; try (intros t Ht; revert t Ht; solve_tasks);
    unfold tss_t.sizeof, io_queue_t.sizeof, demo_main, demo_thread, demo_idle;
    cbn [sym_ready_thread_list sym_tss demo_linker]; lia.
Qed.

Lemma io_queue_init_empty_witness :
  exists s', io_queue_init 0xc0018000 demo_sched_machine = Ok tt s' /\
    ioq demo_tasks demo_idle 0xc0018000 demo_abs [] [] [] [] s'.
Proof.
  apply (io_queue_init_empty demo_tasks demo_idle 0xc0018000 demo_abs demo_sched_machine
    demo_layout demo_ioq_home demo_inv demo_runs).
Defined.

(** An empty queue and one with the character A. *)
Lemma demo_ioq : exists s, ioq demo_tasks demo_idle 0xc0018000 demo_abs [] [] [] [] s.
Proof.
  destruct (io_queue_init_run demo_tasks demo_idle 0xc0018000 demo_layout demo_ioq_home demo_abs
    demo_sched_machine demo_inv demo_runs) as (s & _ & H & _). by exists s.
Qed.

Lemma demo_ioq_one : exists s, ioq demo_tasks demo_idle 0xc0018000 demo_abs [0x41] [] [] [] s.
Proof.
  destruct demo_ioq as [s Hs].
  destruct (putchar_run demo_tasks demo_idle 0xc0018000 demo_layout demo_ioq_home _ _ _ _ _ s 0x41 Hs)
    as (s' & _ & H & _); [cbn; lia|]. by exists s'.
Qed.

Lemma io_queue_fifo_witness : exists s,
  (exists s', io_queue_putchar 0xc0018000 0x42 s = Ok tt s' /\
    ioq demo_tasks demo_idle 0xc0018000 (abs_wake [] (abs_wake [] demo_abs)) ([0x41] ++ [u8 0x42]) [] [] [] s') /\
  (exists s', io_queue_getchar 0xc0018000 s = Ok 0x41 s' /\
    ioq demo_tasks demo_idle 0xc0018000 (abs_wake [] (abs_wake [] demo_abs)) [] [] [] [] s').
Proof.
  destruct demo_ioq_one as [s Hs]. exists s.
  pose proof (io_queue_fifo demo_tasks demo_idle 0xc0018000 demo_abs [0x41] [] [] [] s
    demo_layout demo_ioq_home Hs) as (H1 & _ & _ & H4).
  split; [exact (H1 0x42 eq_refl)|exact H4].
Defined.

Lemma io_queue_full_means_one_witness : exists s,
  exists s', io_queue_full 0xc0018000 s = Ok true s' /\
    ioq demo_tasks demo_idle 0xc0018000 (abs_wake [] demo_abs) [0x41] [] [] [] s'.
Proof.
  destruct demo_ioq_one as [s Hs]. exists s.
  exact (io_queue_full_means_one demo_tasks demo_idle 0xc0018000 demo_abs [0x41] [] [] [] s
    demo_layout demo_ioq_home Hs).
Defined.
