(* ===== verification/Memory.v ===== *)
(** * Page allocation (kernel/memory.c)

    Two pools of physical frames and pools of virtual pages, each a bitmap;
    the insertion of mappings into the page tables; allocation and release of
    runs of pages. *)

From S2P Require Import Prelude Machine Concrete Interrupt CString Bitmap DList Paging Tss Sched Lock.

#[local] Open Scope Z_scope.

Inductive pool_flags := PF_KERNEL | PF_USER.

#[export] Instance pool_flags_eq_dec : EqDecision pool_flags.
Proof. solve_decision. Defined.

Definition MEM_BITMAP_BASE : Z := 0xc009a000.
Definition K_HEAP_START : Z := 0xc0100000.

Module pool.
Definition pool_bitmap : Z := 0.
Definition phy_addr_start : Z := 8.
Definition pool_size : Z := 12.
Definition mutex : Z := 16.
Definition sizeof : Z := 44.
End pool.

Module virtual_addr.
Definition vaddr_bitmap : Z := 0.
Definition vaddr_start : Z := 8.
Definition sizeof : Z := 12.
End virtual_addr.

Definition DIV_ROUND_UP (x step : Z) : Z := u32 (x + step - 1) / step.

Section Memory.
Context {PL : Platform} {LK : Linker}.

Definition mem_pool_init (all_mem : Z) : K unit :=
  put_lit ("  mem_pool_init start" +:+ nl);;
  let page_table_size := PAGE_SIZE * 256 in
  let used_mem := page_table_size + 0x100000 in
  let free_mem := u32 (all_mem - used_mem) in
  let all_free_pages := u16 (free_mem / PAGE_SIZE) in
  let kern_free_pages := all_free_pages / 2 in
  let user_free_pages := all_free_pages - kern_free_pages in
  let kbm_length := kern_free_pages / 8 in
  let ubm_length := user_free_pages / 8 in
  let kp_start := used_mem in
  let up_start := u32 (kp_start + kern_free_pages * PAGE_SIZE) in
  mutex_init (sym_kern_pool + pool.mutex);;
  st32 (sym_kern_pool + pool.phy_addr_start) kp_start;;
  st32 (sym_kern_pool + pool.pool_size) (kern_free_pages * PAGE_SIZE);;
  st32 (sym_kern_pool + pool.pool_bitmap + bitmap.length) kbm_length;;
  st32 (sym_kern_pool + pool.pool_bitmap + bitmap.bits) MEM_BITMAP_BASE;;
  mutex_init (sym_user_pool + pool.mutex);;
  st32 (sym_user_pool + pool.phy_addr_start) up_start;;
  st32 (sym_user_pool + pool.pool_size) (user_free_pages * PAGE_SIZE);;
  st32 (sym_user_pool + pool.pool_bitmap + bitmap.length) ubm_length;;
  st32 (sym_user_pool + pool.pool_bitmap + bitmap.bits) (MEM_BITMAP_BASE + kbm_length);;
  put_lit "  kernel pool bitmap_start:";;
  x ← ld32 (sym_kern_pool + pool.pool_bitmap + bitmap.bits); put_int x;;
  put_lit "  kernel pool phy_addr_start:";;
  x ← ld32 (sym_kern_pool + pool.phy_addr_start); put_int x;;
  put_lit nl;;
  put_lit "  used pool bitmap start:";;
  x ← ld32 (sym_user_pool + pool.pool_bitmap + bitmap.bits); put_int x;;
  put_lit "  user pool phy_addr_start:";;
  x ← ld32 (sym_user_pool + pool.phy_addr_start); put_int x;;
  put_lit nl;;
  len ← ld32 (sym_kern_pool + pool.pool_bitmap + bitmap.length);
  bitmap_init (sym_kern_pool + pool.pool_bitmap) len;;
  len ← ld32 (sym_user_pool + pool.pool_bitmap + bitmap.length);
  bitmap_init (sym_user_pool + pool.pool_bitmap) len;;
  st32 (sym_kern_vaddr + virtual_addr.vaddr_bitmap + bitmap.length) kbm_length;;
  st32 (sym_kern_vaddr + virtual_addr.vaddr_bitmap + bitmap.bits)
    (MEM_BITMAP_BASE + kbm_length + ubm_length);;
  st32 (sym_kern_vaddr + virtual_addr.vaddr_start) K_HEAP_START;;
  len ← ld32 (sym_kern_vaddr + virtual_addr.vaddr_bitmap + bitmap.length);
  bitmap_init (sym_kern_vaddr + virtual_addr.vaddr_bitmap) len;;
  put_lit ("mempool init done" +:+ nl).

Definition vaddr_get (type : pool_flags) (page_cnt : Z) : K Z :=
  if decide (type = PF_KERNEL) then
    bit_position ← bitmap_scan (sym_kern_vaddr + virtual_addr.vaddr_bitmap) page_cnt;
    if negb (bit_position =? -1) then
      for_ 0 (Z.to_nat page_cnt) (fun i =>
        bitmap_set (sym_kern_vaddr + virtual_addr.vaddr_bitmap) (u32 (bit_position + i)));;
      start ← ld32 (sym_kern_vaddr + virtual_addr.vaddr_start);
      mret (u32 (start + bit_position * PAGE_SIZE))
    else mret NULL
  else
    curr_thread ← running_thread;
    let user_vaddr := curr_thread + task_struct.user_vaddr in
    bit_position ← bitmap_scan (user_vaddr + virtual_addr.vaddr_bitmap) page_cnt;
    if negb (bit_position =? -1) then
      for_ 0 (Z.to_nat page_cnt) (fun i =>
        bitmap_set (user_vaddr + virtual_addr.vaddr_bitmap) (u32 (bit_position + i)));;
      start ← ld32 (user_vaddr + virtual_addr.vaddr_start);
      let res_start := u32 (start + bit_position * PAGE_SIZE) in
      ASSERT (res_start <? 0xc0000000 - PAGE_SIZE) "kernel/memory.c" 126 "vaddr_get"
        "(uint32_t)res_start < (0xc0000000 - PAGE_SIZE)";;
      mret res_start
    else mret NULL.

Definition palloc (po : Z) : K Z :=
  bit_position ← bitmap_scan (po + pool.pool_bitmap) 1;
  if negb (bit_position =? -1) then
    bitmap_set (po + pool.pool_bitmap) bit_position;;
    start ← ld32 (po + pool.phy_addr_start);
    mret (u32 (bit_position * PAGE_SIZE + start))
  else mret NULL.

Definition PAGE_FLAGS : Z := Z.lor (Z.lor PG_US_U PG_RW_W) PG_P_1.

Definition page_table_add (vaddr phyaddr : Z) : K unit :=
  let virt_addr := vaddr in
  let page_phyaddr := phyaddr in
  let pde := pde_ptr virt_addr in
  let pte := pte_ptr virt_addr in
  d ← ld32 pde;
  if negb (Z.land d 0x1 =? 0) then
    e ← ld32 pte;
    ASSERT (Z.land e 0x1 =? 0) "kernel/memory.c" 172 "page_table_add" "!(*pte & 0x1)";;
    st32 pte (Z.lor page_phyaddr PAGE_FLAGS)
  else
    pde_phyaddr ← palloc sym_kern_pool;
    st32 pde (Z.lor pde_phyaddr PAGE_FLAGS);;
    memset (Z.land pte 0xfffff000) 0 PAGE_SIZE;;
    e ← ld32 pte;
    ASSERT (Z.land e 0x1 =? 0) "kernel/memory.c" 179 "page_table_add" "!(*pte & 0x1)";;
    st32 pte (Z.lor page_phyaddr PAGE_FLAGS).

(** In iteration [i] of the loop [vaddr] is [vaddr_start + i * PAGE_SIZE]. *)
Definition malloc_page (type : pool_flags) (page_cnt : Z) : K Z :=
  ASSERT (0 <? page_cnt) "kernel/memory.c" 188 "malloc_page" "page_cnt > 0";;
  ASSERT (page_cnt <? 3840) "kernel/memory.c" 189 "malloc_page" "page_cnt < 3840";;
  vaddr_start ← vaddr_get type page_cnt;
  if vaddr_start =? NULL then mret NULL
  else
    let mempool := if decide (type = PF_KERNEL) then sym_kern_pool else sym_user_pool in
    r ← for_exit 0 (Z.to_nat page_cnt) (fun i =>
      let vaddr := u32 (vaddr_start + i * PAGE_SIZE) in
      page_phyaddr ← palloc mempool;
      if page_phyaddr =? NULL then mret (Some NULL)
      else page_table_add vaddr page_phyaddr;; mret None);
    match r with Some v => mret v | None => mret vaddr_start end.

Definition pfree (paddr : Z) : K unit :=
  t ← running_thread;
  pd ← ld32 (t + task_struct.page_dir);
  let po := if pd =? NULL then sym_kern_pool else sym_user_pool in
  mutex_lock (po + pool.mutex);;
  start ← ld32 (po + pool.phy_addr_start);
  let bit_position := s32 (u32 (paddr - start) / PAGE_SIZE) in
  bitmap_clear (po + pool.pool_bitmap) bit_position;;
  mutex_unlock (po + pool.mutex).

Definition vaddr_remove (type : pool_flags) (vaddr page_cnt : Z) : K unit :=
  ASSERT (0 <? page_cnt) "kernel/memory.c" 238 "vaddr_remove" "page_cnt > 0";;
  ASSERT (page_cnt <? 3840) "kernel/memory.c" 239 "vaddr_remove" "page_cnt < 3840";;
  if vaddr =? NULL then skip
  else
    vaddr_pool ← (if decide (type = PF_KERNEL) then mret sym_kern_vaddr
                  else t ← running_thread; mret (t + task_struct.user_vaddr));
    start ← ld32 (vaddr_pool + virtual_addr.vaddr_start);
    let bit_position := u32 (vaddr - start) / PAGE_SIZE in
    for_ 0 (Z.to_nat page_cnt) (fun i =>
      bitmap_clear (vaddr_pool + virtual_addr.vaddr_bitmap) (u32 (bit_position + i))).

(** In iteration [i] of the loop [vaddr_to_delete] is [vaddr + i * PAGE_SIZE]. *)
Definition free_page (type : pool_flags) (vaddr page_cnt : Z) : K unit :=
  vaddr_remove type vaddr page_cnt;;
  for_ 0 (Z.to_nat page_cnt) (fun i =>
    let vaddr_to_delete := u32 (vaddr + i * PAGE_SIZE) in
    paddr ← vaddr_to_phy vaddr_to_delete;
    pfree paddr;;
    page_table_remove vaddr_to_delete).

Definition get_kern_pages (page_cnt : Z) : K Z :=
  vaddr ← malloc_page PF_KERNEL page_cnt;
  when (negb (vaddr =? NULL)) (memset vaddr 0 (u32 (page_cnt * PAGE_SIZE)));;
  mret vaddr.

Definition get_user_pages (page_cnt : Z) : K Z :=
  mutex_lock (sym_user_pool + pool.mutex);;
  vaddr ← malloc_page PF_USER page_cnt;
  when (negb (vaddr =? NULL)) (memset vaddr 0 (u32 (page_cnt * PAGE_SIZE)));;
  mutex_unlock (sym_user_pool + pool.mutex);;
  mret vaddr.

(** The path on which [palloc] fails returns with the mutex held. *)
Definition get_page (type : pool_flags) (vaddr : Z) : K Z :=
  let mem_pool := if decide (type = PF_KERNEL) then sym_kern_pool else sym_user_pool in
  mutex_lock (mem_pool + pool.mutex);;
  curr_thread ← running_thread;
  pd ← ld32 (curr_thread + task_struct.page_dir);
  (if bool_decide (type = PF_KERNEL) && (pd =? NULL) then
     start ← ld32 (sym_kern_vaddr + virtual_addr.vaddr_start);
     let bit_position := u32 (vaddr - start) / PAGE_SIZE in
     ASSERT (0 <? bit_position) "kernel/memory.c" 306 "get_page" "bit_position > 0";;
     bitmap_set (sym_kern_vaddr + virtual_addr.vaddr_bitmap) bit_position
   else if bool_decide (type = PF_USER) && negb (pd =? NULL) then
     start ← ld32 (curr_thread + task_struct.user_vaddr + virtual_addr.vaddr_start);
     let bit_position := u32 (vaddr - start) / PAGE_SIZE in
     ASSERT (0 <? bit_position) "kernel/memory.c" 310 "get_page" "bit_position > 0";;
     bitmap_set (curr_thread + task_struct.user_vaddr + virtual_addr.vaddr_bitmap) bit_position
   else
     panic_spin "kernel/memory.c" 313 "get_page" "neither userspace allocate nor kernel allocate!");;
  phyaddr ← palloc mem_pool;
  if phyaddr =? NULL then mret NULL
  else
    page_table_add vaddr phyaddr;;
    mutex_unlock (mem_pool + pool.mutex);;
    mret vaddr.
End Memory.

(** ** Facts on bitmaps in their surroundings *)

Definition bits_area (m : memory) (bm b : Z) : Prop :=
  bm_bits m bm <= b < bm_bits m bm + bm_length m bm.
Definition bm_header (bm b : Z) : Prop := bm <= b < bm + bitmap.sizeof.

Ltac bms :=
  unfold bits_area, bm_header, bm_length, bm_bits, nbits, bitmap.length, bitmap.bits, bitmap.sizeof in *.

Lemma bm_header_frame m m' bm (P : Z -> Prop) :
  changed_only P m m' -> (forall b, P b -> ~ bm_header bm b) ->
  bm_length m' bm = bm_length m bm /\ bm_bits m' bm = bm_bits m bm.
Proof.
  intros Hc HP. bms. split; apply get32_ext; intros b Hb; apply Hc; intros Hb2; apply (HP b Hb2); lia.
Qed.

Lemma bitmap_frame m m' bm (P : Z -> Prop) :
  changed_only P m m' -> (forall b, P b -> ~ bm_header bm b /\ ~ bits_area m bm b) ->
  bm_length m' bm = bm_length m bm /\ bm_bits m' bm = bm_bits m bm /\
  (bitmap_ok m bm -> bitmap_ok m' bm) /\
  (forall j, 0 <= j < nbits m bm -> bit m' bm j = bit m bm j).
Proof.
  intros Hc HP. destruct (bm_header_frame m m' bm P Hc) as [E1 E2]; [intros b Hb; by apply HP|].
  split_and!; [done|done| |].
  - intros [H1 H2]. constructor; unfold nbits in *; by rewrite ?E1, ?E2.
  - intros j Hj. unfold bit. rewrite E2. f_equal. apply Hc. intros Hb. apply HP in Hb as [_ Hb].
    apply Hb. unfold bits_area, nbits in *. zlia.
Qed.

Lemma bits_area_eq m m' bm b :
  bm_length m' bm = bm_length m bm -> bm_bits m' bm = bm_bits m bm ->
  bits_area m' bm b -> bits_area m bm b.
Proof. unfold bits_area. by intros -> ->. Qed.

(** Writing one byte of a bitmap changes its area only. *)
Lemma bm_write_area m bm i v :
  0 <= i < nbits m bm -> changed_only (bits_area m bm) m (bm_write m bm i v).
Proof.
  intros Hi b Hb. unfold bm_write. apply get8_put8_ne. intros <-. apply Hb.
  unfold bits_area, nbits in *. zlia.
Qed.

Section Frames.
Context {PL : Platform} {LK : Linker}.

(** Setting a run of bits. *)
Lemma bitmap_set_range_run bm p n s :
  bitmap_ok (mem s) bm -> 0 <= p -> p + Z.of_nat n <= nbits (mem s) bm ->
  exists m', for_ 0 n (fun i => bitmap_set bm (u32 (p + i))) s = Ok tt (set_mem m' s) /\
    changed_only (bits_area (mem s) bm) (mem s) m' /\ bitmap_ok m' bm /\
    bm_length m' bm = bm_length (mem s) bm /\ bm_bits m' bm = bm_bits (mem s) bm /\
    forall j, 0 <= j -> bit m' bm j = bool_decide (p <= j < p + Z.of_nat n) || bit (mem s) bm j.
Proof.
  intros Hok Hp Hn. pose proof (ok_nbits _ _ Hok) as Hmax. change (2 ^ 31) with 2147483648 in Hmax.
  assert (Hl : wp (for_ 0 n (fun i => bitmap_set bm (u32 (p + i)))) (fun _ s' => exists m',
    s' = set_mem m' s /\ changed_only (bits_area (mem s) bm) (mem s) m' /\ bitmap_ok m' bm /\
    bm_length m' bm = bm_length (mem s) bm /\ bm_bits m' bm = bm_bits (mem s) bm /\
    forall j, 0 <= j -> bit m' bm j = bool_decide (p <= j < p + Z.of_nat n) || bit (mem s) bm j) s).
  2:{ apply wp_run in Hl as ([] & s' & E & m' & -> & H). eauto. }
  apply wp_for with (I := fun i s' => exists m', s' = set_mem m' s /\
    changed_only (bits_area (mem s) bm) (mem s) m' /\ bitmap_ok m' bm /\
    bm_length m' bm = bm_length (mem s) bm /\ bm_bits m' bm = bm_bits (mem s) bm /\
    forall j, 0 <= j -> bit m' bm j = bool_decide (p <= j < p + i) || bit (mem s) bm j).
  - exists (mem s). rewrite set_mem_id. split_and!; [done|apply changed_refl|done|done|done|].
    intros j Hj. by rewrite bool_decide_false by lia.
  - intros i s' Hi (m' & -> & Hc & Hok' & El & Eb & Hb).
    assert (En : nbits m' bm = nbits (mem s) bm) by (unfold nbits; by rewrite El).
    rewrite u32_small by lia. eapply wp_ok; [apply bitmap_set_run; msimpl; [done|rewrite En; lia]|].
    msimpl. exists (bm_set m' bm (p + i)).
    destruct (bm_write_header m' bm (p + i) (Z.lor (get8 m' (bm_bits m' bm + (p + i) / 8))
      (Z.shiftl 1 ((p + i) mod 8))) Hok' ltac:(lia)) as [G1 G2].
    split_and!.
    + done.
    + eapply changed_trans; [done|].
      eapply changed_weaken; [apply bm_write_area; lia|]. intros b. by apply bits_area_eq.
    + exact (bm_write_ok m' bm (p + i) _ Hok' ltac:(lia)).
    + unfold bm_set. by rewrite G1.
    + unfold bm_set. by rewrite G2.
    + intros j Hj. rewrite bit_bm_set by (done || lia). rewrite Hb by done.
      destruct (Z.eqb_spec (p + i) j) as [<-|Hne]; [rewrite orb_true_l; symmetry; by rewrite bool_decide_true by lia|].
      rewrite orb_false_l. f_equal. apply bool_decide_ext. lia.
  - intros s' (m' & Hm'). exists m'. by rewrite Z.add_0_l in Hm'.
Qed.
End Frames.

(** ** Physical frames *)
Section Pool.
Context {PL : Platform} {LK : Linker}.

Definition pool_start (m : memory) (po : Z) : Z := get32 m (po + pool.phy_addr_start).
Definition pool_bm (po : Z) : Z := po + pool.pool_bitmap.
Definition frame (m : memory) (po p : Z) : Z := pool_start m po + PAGE_SIZE * p.

(** A pool of frames: its bitmap is usable and lies apart from the pool's own
    structure, its frames are page-aligned, non-null addresses of the machine. *)
Record pool_ok (m : memory) (po : Z) : Prop := {
  po_bitmap : bitmap_ok m (pool_bm po);
  po_sep : forall b, bits_area m (pool_bm po) b -> ~ (po <= b < po + pool.sizeof);
  po_start : 0 < pool_start m po;
  po_aligned : pool_start m po mod 4096 = 0;
  po_end : frame m po (nbits m (pool_bm po)) <= 2 ^ 32
}.

(** The same pool after changes outside its structure and bits. *)
Definition same_pool (m m' : memory) (po : Z) : Prop :=
  bm_length m' (pool_bm po) = bm_length m (pool_bm po) /\
  bm_bits m' (pool_bm po) = bm_bits m (pool_bm po) /\ pool_start m' po = pool_start m po.

Lemma same_pool_trans m1 m2 m3 po : same_pool m1 m2 po -> same_pool m2 m3 po -> same_pool m1 m3 po.
Proof. unfold same_pool. intros (-> & -> & ->) (-> & -> & ->). done. Qed.

Lemma same_pool_ok m m' po : same_pool m m' po -> pool_ok m po -> pool_ok m' po.
Proof.
  intros (E1 & E2 & E3) [[H1 H2] H3 H4 H5 H6].
  constructor; [constructor|..]; unfold nbits, bits_area, frame in *; by rewrite ?E1, ?E2, ?E3.
Qed.

Lemma pool_frame m m' po (P : Z -> Prop) :
  changed_only P m m' -> (forall b, P b -> ~ (po <= b < po + pool.sizeof)) -> same_pool m m' po.
Proof.
  intros Hc HP. unfold same_pool, pool_start. split_and!; [..|apply get32_ext; intros b Hb; apply Hc; intros Hb2; apply (HP b Hb2)].
  1,2: eapply bm_header_frame; [done|]; intros b Hb; specialize (HP b Hb);
    unfold pool_bm, pool.pool_bitmap, pool.sizeof in *; bms; lia.
  unfold pool.phy_addr_start, pool.sizeof in *. lia.
Qed.

Definition free_frame (m : memory) (po p : Z) : Prop :=
  0 <= p < nbits m (pool_bm po) /\ bit m (pool_bm po) p = false.

Lemma palloc_run po s :
  pool_ok (mem s) po ->
  (exists p m', palloc po s = Ok (frame (mem s) po p) (set_mem m' s) /\
     free_frame (mem s) po p /\ (forall q, free_frame (mem s) po q -> p <= q) /\
     changed_only (bits_area (mem s) (pool_bm po)) (mem s) m' /\ same_pool (mem s) m' po /\
     forall j, 0 <= j -> bit m' (pool_bm po) j = (p =? j) || bit (mem s) (pool_bm po) j) \/
  ((forall p, ~ free_frame (mem s) po p) /\ palloc po s = Ok NULL s).
Proof.
  intros Hpo. pose proof (po_bitmap _ _ Hpo) as Hok. pose proof (ok_nbits _ _ Hok) as Hn.
  destruct (decide (Exists (fun j => bit (mem s) (pool_bm po) j = false)
    (seqZ 0 (nbits (mem s) (pool_bm po))))) as [He|He].
  - left. apply Exists_exists in He as (j0 & Hj0%elem_of_seqZ & Hb0).
    destruct (wpx_run _ _ _ _ (bitmap_scan_outcome (pool_bm po) 1 j0 s Hn ltac:(lia) ltac:(lia) Hb0))
      as [(p & s' & E & -> & (Hp0 & Hp1 & Hp2) & Hleast)|(msg & s' & _ & Hc & _)]; [|lia].
    exists p, (bm_set (mem s) (pool_bm po) p).
    assert (Hpr : 0 <= p < nbits (mem s) (pool_bm po)) by lia.
    assert (Hc : changed_only (bits_area (mem s) (pool_bm po)) (mem s) (bm_set (mem s) (pool_bm po) p))
      by (by apply bm_write_area).
    assert (Hsame : same_pool (mem s) (bm_set (mem s) (pool_bm po) p) po)
      by (eapply pool_frame; [done|apply (po_sep _ _ Hpo)]).
    split_and!; [| | |done|done|].
    + unfold palloc. fold (pool_bm po). rewrite (bind_ok _ _ _ _ _ E).
      rewrite (proj2 (Z.eqb_neq p (-1))) by lia. cbn [negb].
      rewrite (bind_ok _ _ _ _ _ (bitmap_set_run _ _ _ Hok Hpr)).
      erewrite bind_ok by reflexivity. cbv beta. msimpl.
      change (get32 (bm_set (mem s) (pool_bm po) p) (po + pool.phy_addr_start))
        with (pool_start (bm_set (mem s) (pool_bm po) p) po).
      rewrite (proj2 (proj2 Hsame)). apply (f_equal (fun v => Ok v _)).
      pose proof (po_end _ _ Hpo). pose proof (po_start _ _ Hpo).
      unfold frame in *. change PAGE_SIZE with 4096 in *. change (2 ^ 32) with 4294967296 in *.
      rewrite u32_small; lia.
    + split; [done|]. apply Hp2. lia.
    + intros q [Hq Hbq]. apply Hleast. split_and!; [lia|lia|]. intros j Hj. by replace j with q by lia.
    + intros j Hj. by apply bit_bm_set.
  - right. assert (Hall : forall p, ~ free_frame (mem s) po p).
    { intros p [Hp Hb]. apply He, Exists_exists. exists p. by rewrite elem_of_seqZ. }
    split; [done|]. unfold palloc. fold (pool_bm po).
    erewrite bind_ok; [|apply bitmap_scan_full_run]; [done|].
    intros j Hj. destruct (bit (mem s) (pool_bm po) j) eqn:Eb; [done|]. by destruct (Hall j).
Qed.

(** [palloc] hands out the lowest free frame and marks it, and answers NULL
    when there is none. *)
Theorem palloc_correct po s :
  pool_ok (mem s) po ->
  (exists p m', palloc po s = Ok (frame (mem s) po p) (set_mem m' s) /\
     free_frame (mem s) po p /\ (forall q, free_frame (mem s) po q -> p <= q) /\
     pool_ok m' po /\ changed_only (bits_area (mem s) (pool_bm po)) (mem s) m' /\
     forall j, 0 <= j -> bit m' (pool_bm po) j = (p =? j) || bit (mem s) (pool_bm po) j) \/
  ((forall p, ~ free_frame (mem s) po p) /\ palloc po s = Ok NULL s).
Proof.
  intros Hpo. destruct (palloc_run po s Hpo) as [(p & m' & E & H1 & H2 & H3 & H4 & H5)|H]; [left|by right].
  exists p, m'. split_and!; try done. by eapply same_pool_ok.
Qed.
End Pool.

(** ** Mappings *)
Section Mapping.
Context {PL : Platform} {LK : Linker}.

(** The caller of [pte_ptr] finds the local [pte] in the return register. *)
Hypothesis Hpte : forall v, pte_ptr_ret v = v.

Lemma pte_ptr_page v : 0 <= v < 2 ^ 32 -> pte_ptr v = 0xffc00000 + 4 * (v / 4096).
Proof. intros Hv. unfold pte_ptr. rewrite Hpte, pte_local_div by done. zlia. Qed.

Definition entry_present (e : Z) : bool := negb (Z.land e 0x1 =? 0).
Definition pde_present (m : memory) (v : Z) : Prop := entry_present (get32 m (pde_ptr v)) = true.
Definition unmapped (m : memory) (v : Z) : Prop := entry_present (get32 m (pte_ptr v)) = false.

(** [v] is mapped to the frame [f], writable and accessible from user mode. *)
Definition mapped (m : memory) (v f : Z) : Prop := get32 m (pte_ptr v) = f + PAGE_FLAGS.

Lemma lor_flags f : f mod 4096 = 0 -> Z.lor f PAGE_FLAGS = f + PAGE_FLAGS.
Proof. intros Hf. apply (lor_disjoint_add f PAGE_FLAGS 12); [lia|done|done]. Qed.

Lemma page_table_add_run v f s :
  pde_present (mem s) v -> unmapped (mem s) v -> f mod 4096 = 0 ->
  page_table_add v f s = Ok tt (set_mem (put32 (mem s) (pte_ptr v) (f + PAGE_FLAGS)) s).
Proof.
  intros Hd He Hf. unfold page_table_add. erewrite bind_ok by reflexivity. cbv beta.
  unfold pde_present, unmapped, entry_present in *. rewrite Hd.
  erewrite bind_ok by reflexivity. cbv beta.
  erewrite bind_ok by (apply assert_run; by apply negb_false_iff).
  by rewrite lor_flags.
Qed.

Lemma mapped_translate v f s :
  mapped (mem s) v f -> f mod 4096 = 0 -> 0 <= f < 2 ^ 32 -> 0 <= v < 2 ^ 32 ->
  vaddr_to_phy v s = Ok (f + v mod 4096) s.
Proof.
  intros Hm Hf Hfr Hv. unfold vaddr_to_phy. erewrite bind_ok by reflexivity. cbv beta. rewrite Hm.
  apply (f_equal (fun x => Ok x s)). change 0x00000fff with (2 ^ 12 - 1). rewrite land_low by lia.
  change PAGE_FLAGS with 7. rewrite land_page by zlia. change (2 ^ 12) with 4096. rewrite u32_small; zlia.
Qed.

Lemma flags_mapped f : f mod 4096 = 0 -> entry_present (f + PAGE_FLAGS) = true.
Proof.
  intros Hf. unfold entry_present. change PAGE_FLAGS with 7.
  replace (Z.land (f + 7) 0x1) with 1; [done|]. change 0x1 with (2 ^ 1 - 1) at 2.
  rewrite land_low by lia. change (2 ^ 1) with 2. zlia.
Qed.

(** Adding a mapping in a present page table, translating through it and
    removing it: translation yields the frame and the offset, other pages keep
    their entries, and removal makes the page absent again. *)
Theorem page_table_roundtrip v f s :
  0 <= v < 0xffc00000 -> f mod 4096 = 0 -> 0 <= f < 2 ^ 32 ->
  pde_present (mem s) v -> unmapped (mem s) v ->
  exists s1, page_table_add v f s = Ok tt s1 /\
    (forall o, 0 <= o < 4096 -> vaddr_to_phy (v - v mod 4096 + o) s1 = Ok (f + o) s1) /\
    (forall w, 0 <= w < 2 ^ 32 -> w / 4096 <> v / 4096 ->
       get32 (mem s1) (pte_ptr w) = get32 (mem s) (pte_ptr w)) /\
    exists s2, page_table_remove v s1 = Ok tt s2 /\ unmapped (mem s2) v /\
      (forall w, 0 <= w < 2 ^ 32 -> w / 4096 <> v / 4096 ->
         get32 (mem s2) (pte_ptr w) = get32 (mem s) (pte_ptr w)).
Proof.
  intros Hv Hf Hfr Hd Hu. eexists. split; [by apply page_table_add_run|]. msimpl.
  set (m1 := put32 (mem s) (pte_ptr v) (f + PAGE_FLAGS)).
  assert (Hother : forall m x w, 0 <= w < 2 ^ 32 -> w / 4096 <> v / 4096 ->
    get32 (put32 m (pte_ptr v) x) (pte_ptr w) = get32 m (pte_ptr w)).
  { intros m x w Hw Hne. rewrite !pte_ptr_page by zlia. apply get32_put32_ne. lia. }
  assert (Hm1 : get32 m1 (pte_ptr v) = f + PAGE_FLAGS).
  { unfold m1. rewrite get32_put32_eq. apply u32_small. change PAGE_FLAGS with 7. zlia. }
  split_and!.
  - intros o Ho. assert (E : (v - v mod 4096 + o) mod 4096 = o) by zlia.
    rewrite <- E at 2. apply mapped_translate; [|done|done|zlia]. unfold mapped; msimpl.
    replace (pte_ptr (v - v mod 4096 + o)) with (pte_ptr v); [done|].
    rewrite !pte_ptr_page by zlia. zlia.
  - intros w Hw Hne. by apply Hother.
  - unfold page_table_remove. erewrite bind_ok by reflexivity. cbv beta. msimpl.
    assert (Hd1 : get32 m1 (pde_ptr v) = get32 (mem s) (pde_ptr v)).
    { unfold m1. rewrite pte_ptr_page, pde_ptr_div by zlia. change (2 ^ 22) with 4194304.
      apply get32_put32_ne. zlia. }
    rewrite Hd1. erewrite bind_ok by (by apply assert_run). srun.
    eexists. split; [reflexivity|]. msimpl. split.
    + unfold unmapped. rewrite Hm1, get32_put32_eq. unfold entry_present. change PAGE_FLAGS with 7.
      change (Z.lnot PG_P_1) with (-2). replace (Z.land (f + 7) (-2)) with (f + 6).
      * rewrite u32_small by zlia. change 0x1 with (2 ^ 1 - 1). rewrite land_low by lia.
        change (2 ^ 1) with 2. replace ((f + 6) mod 2) with 0 by zlia. done.
      * change (-2) with (Z.lnot 1). rewrite <- Z.ldiff_land.
        change 1 with (Z.ones 1). rewrite Z.ldiff_ones_r, Z.shiftr_div_pow2, Z.shiftl_mul_pow2 by lia.
        change (2 ^ 1) with 2. zlia.
    + intros w Hw Hne. rewrite Hother by done. by apply Hother.
Qed.
End Mapping.

(** ** Allocation of kernel pages *)
Section KernelPages.
Context {PL : Platform} {LK : Linker}.
Hypothesis Hpte : forall v, pte_ptr_ret v = v.

Definition kvaddr_bm : Z := sym_kern_vaddr + virtual_addr.vaddr_bitmap.
Definition kvaddr_start (m : memory) : Z := get32 m (sym_kern_vaddr + virtual_addr.vaddr_start).
(** The [j]-th page of the kernel heap. *)
Definition kpage (m : memory) (j : Z) : Z := kvaddr_start m + PAGE_SIZE * j.

Definition pool_struct (b : Z) : Prop := sym_kern_pool <= b < sym_kern_pool + pool.sizeof.
Definition vaddr_struct (b : Z) : Prop := sym_kern_vaddr <= b < sym_kern_vaddr + virtual_addr.sizeof.
Definition pool_bits (m : memory) : Z -> Prop := bits_area m (pool_bm sym_kern_pool).
Definition vaddr_bits (m : memory) : Z -> Prop := bits_area m kvaddr_bm.

(** The kernel heap: its two bitmaps and their structures are apart from each
    other and below the page-table window; every page of the heap has a page
    table, and the pages whose bit is clear are not mapped. *)
Record heap_ok (m : memory) : Prop := {
  hk_pool : pool_ok m sym_kern_pool;
  hk_vaddr : bitmap_ok m kvaddr_bm;
  hk_start : 0 < kvaddr_start m /\ kvaddr_start m mod 4096 = 0 /\
    kpage m (nbits m kvaddr_bm) <= 0xffc00000;
  hk_pool_bits : forall b, pool_bits m b -> ~ vaddr_struct b /\ ~ vaddr_bits m b /\ b < 0xffc00000;
  hk_vaddr_bits : forall b, vaddr_bits m b -> ~ vaddr_struct b /\ ~ pool_struct b /\ b < 0xffc00000;
  hk_structs : sym_kern_pool + pool.sizeof <= 0xffc00000 /\ sym_kern_vaddr + virtual_addr.sizeof <= 0xffc00000;
  hk_tables : forall j, 0 <= j < nbits m kvaddr_bm -> pde_present m (kpage m j);
  hk_unmapped : forall j, 0 <= j < nbits m kvaddr_bm -> bit m kvaddr_bm j = false -> unmapped m (kpage m j)
}.

Lemma kpage_range m j : heap_ok m -> 0 <= j < nbits m kvaddr_bm ->
  0 < kpage m j /\ kpage m j + 4096 <= 0xffc00000 /\ kpage m j mod 4096 = 0.
Proof.
  intros Hh Hj. destruct (hk_start _ Hh) as (H1 & H2 & H3). unfold kpage in *.
  change PAGE_SIZE with 4096 in *. zlia.
Qed.

(** Addresses of entries of the page-table window. *)
Lemma pte_window v : 0 <= v < 0xffc00000 -> 0xffc00000 <= pte_ptr v /\ pte_ptr v + 4 <= 0xfffff000.
Proof. intros Hv. rewrite pte_ptr_page by (done || zlia). zlia. Qed.
Lemma pde_window v : 0 <= v < 2 ^ 32 -> 0xfffff000 <= pde_ptr v.
Proof. intros Hv. rewrite pde_ptr_div by done. change (2 ^ 22) with 4194304. zlia. Qed.

Definition window (b : Z) : Prop := 0xffc00000 <= b < 0xfffff000.

(** What the allocation of a page may change, and what it leaves alone. *)
Section Frame.
Context (m m' : memory).
Hypothesis Hh : heap_ok m.
Hypothesis Hc : changed_only (fun b => pool_bits m b \/ window b) m m'.

Lemma page_frame_vaddr :
  kvaddr_start m' = kvaddr_start m /\
  bm_length m' kvaddr_bm = bm_length m kvaddr_bm /\ bm_bits m' kvaddr_bm = bm_bits m kvaddr_bm /\
  bitmap_ok m' kvaddr_bm /\
  (forall j, 0 <= j < nbits m kvaddr_bm -> bit m' kvaddr_bm j = bit m kvaddr_bm j).
Proof.
  destruct (hk_structs _ Hh) as [Hs1 Hs2]. unfold virtual_addr.sizeof in *.
  assert (HP : forall b, pool_bits m b \/ window b -> ~ vaddr_struct b /\ ~ vaddr_bits m b).
  { intros b [Hb|Hb]; [by apply (hk_pool_bits _ Hh) in Hb as (? & ? & _)|].
    split; [unfold vaddr_struct, window, virtual_addr.sizeof in *; lia|].
    intros Hv. apply (hk_vaddr_bits _ Hh) in Hv as (_ & _ & Hv). unfold window in Hb. lia. }
  destruct (bitmap_frame m m' kvaddr_bm _ Hc) as (E1 & E2 & E3 & E4).
  { intros b Hb. destruct (HP b Hb) as [H1 H2]. split; [|done].
    unfold vaddr_struct, kvaddr_bm, virtual_addr.vaddr_bitmap, virtual_addr.sizeof in *. bms. lia. }
  split_and!; [|done|done|by apply E3, Hh|done].
  apply get32_ext. intros b Hb. apply Hc. intros HPb. apply HP in HPb as [HPb _]. apply HPb.
  unfold vaddr_struct, virtual_addr.vaddr_start, virtual_addr.sizeof in *. lia.
Qed.

Lemma page_frame_pool : same_pool m m' sym_kern_pool.
Proof.
  destruct (hk_structs _ Hh) as [Hs1 Hs2]. eapply pool_frame; [exact Hc|].
  intros b [Hb|Hb]; [by apply (po_sep _ _ (hk_pool _ Hh))|].
  unfold window, pool.sizeof in *. lia.
Qed.

Lemma page_frame_pde v : 0 <= v < 2 ^ 32 -> get32 m' (pde_ptr v) = get32 m (pde_ptr v).
Proof.
  intros Hv. pose proof (pde_window v Hv). apply get32_ext. intros b Hb. apply Hc. intros [HP|HP].
  - apply (hk_pool_bits _ Hh) in HP as (_ & _ & HP). lia.
  - unfold window in HP. lia.
Qed.
End Frame.

(** *** One page *)
Section OnePage.
Context (m : memory) (p : Z).
Hypothesis Hh : heap_ok m.
Hypothesis Hp : 0 <= p < nbits m kvaddr_bm.
Hypothesis Hused : bit m kvaddr_bm p = true.

(** The heap after frame bits were set and the entry of page [p] written. *)
Lemma heap_after_map m1 f :
  changed_only (pool_bits m) m m1 ->
  let m2 := put32 m1 (pte_ptr (kpage m p)) (f + PAGE_FLAGS) in
  changed_only (fun b => pool_bits m b \/ window b) m m2 /\ heap_ok m2 /\
  (forall j, 0 <= j < nbits m (pool_bm sym_kern_pool) -> same_pool m m1 sym_kern_pool ->
     bit m2 (pool_bm sym_kern_pool) j = bit m1 (pool_bm sym_kern_pool) j) /\
  (forall j, 0 <= j < nbits m kvaddr_bm -> j <> p ->
     get32 m2 (pte_ptr (kpage m j)) = get32 m (pte_ptr (kpage m j))).
Proof.
  intros Hc1 m2. pose proof (kpage_range m p Hh Hp) as (Hk1 & Hk2 & Hk3).
  pose proof (pte_window (kpage m p) ltac:(lia)) as Hw.
  assert (Hc2 : changed_only window m1 m2).
  { intros b Hb. apply get8_put32_ne. unfold window in Hb. lia. }
  assert (Hc : changed_only (fun b => pool_bits m b \/ window b) m m2).
  { eapply changed_trans; eapply changed_weaken; try done; auto. }
  destruct (page_frame_vaddr m m2 Hh Hc) as (Es & El & Eb & Ebm & Ebits).
  pose proof (page_frame_pool m m2 Hh Hc) as Hsame.
  assert (En : nbits m2 kvaddr_bm = nbits m kvaddr_bm) by (unfold nbits; by rewrite El).
  assert (Ek : forall j, kpage m2 j = kpage m j) by (intros j; unfold kpage; by rewrite Es).
  assert (Hother : forall j, 0 <= j < nbits m kvaddr_bm -> j <> p ->
    get32 m2 (pte_ptr (kpage m j)) = get32 m (pte_ptr (kpage m j))).
  { intros j Hj Hne. pose proof (kpage_range m j Hh Hj) as (Hj1 & Hj2 & Hj3).
    pose proof (pte_window (kpage m j) ltac:(lia)) as Hwj. unfold m2. rewrite get32_put32_ne.
    - apply get32_ext. intros b Hb. apply Hc1. intros HP.
      apply (hk_pool_bits _ Hh) in HP as (_ & _ & HP). lia.
    - rewrite !pte_ptr_page by (done || zlia). unfold kpage in *. change PAGE_SIZE with 4096 in *. zlia. }
  split_and!; [done| | |done].
  - pose proof (hk_structs _ Hh). constructor.
    + eapply same_pool_ok; [done|apply Hh].
    + done.
    + rewrite Es, En, Ek. apply Hh.
    + intros b Hb. unfold pool_bits in Hb. destruct Hsame as (G1 & G2 & _).
      apply (bits_area_eq _ _ _ _ G1 G2) in Hb.
      destruct (hk_pool_bits _ Hh b Hb) as (? & HV & ?). split_and!; [done| |done].
      intros Hv. by apply (bits_area_eq _ _ _ _ El Eb) in Hv.
    + intros b Hb. apply (bits_area_eq _ _ _ _ El Eb) in Hb. by apply (hk_vaddr_bits _ Hh).
    + done.
    + intros j. rewrite En, Ek. intros Hj. unfold pde_present.
      pose proof (kpage_range m j Hh Hj). rewrite (page_frame_pde m m2 Hh Hc) by zlia.
      by apply (hk_tables _ Hh).
    + intros j. rewrite En, Ek. intros Hj. rewrite Ebits by done. intros Hbit.
      unfold unmapped. rewrite Hother; [by apply (hk_unmapped _ Hh)|done|]. intros ->. congruence.
  - intros j Hj (_ & Eb1 & _). unfold bit. destruct Hsame as (_ & Eb2 & _). rewrite Eb2, Eb1. f_equal.
    apply Hc2. unfold window. intros HP.
    assert (Hin : pool_bits m (bm_bits m (pool_bm sym_kern_pool) + j / 8))
      by (unfold pool_bits, bits_area, nbits in *; zlia).
    apply (hk_pool_bits _ Hh) in Hin as (_ & _ & Hin). lia.
Qed.
End OnePage.

(** *** The loop of [malloc_page] *)
Section Loop.
Context (s : machine) (p n : Z) (fs : list Z).
Hypothesis Hh : heap_ok (mem s).
Hypothesis Hp : 0 <= p /\ 0 < n /\ p + n <= nbits (mem s) kvaddr_bm.
Hypothesis Hused : forall j, p <= j < p + n -> bit (mem s) kvaddr_bm j = true.
Hypothesis Hun : forall j, p <= j < p + n -> unmapped (mem s) (kpage (mem s) j).
Hypothesis Hfs : NoDup fs /\ (forall f, f ∈ fs -> free_frame (mem s) sym_kern_pool f) /\ n <= Z.of_nat (length fs).

(** After [i] iterations the frames [ps] are mapped. *)
Record mapped_upto (i : Z) (ps : list Z) (m : memory) : Prop := {
  mu_len : Z.of_nat (length ps) = i;
  mu_nodup : NoDup ps;
  mu_free : forall f, f ∈ ps -> free_frame (mem s) sym_kern_pool f;
  mu_frame : changed_only (fun b => pool_bits (mem s) b \/ window b) (mem s) m;
  mu_heap : heap_ok m;
  mu_bits : forall j, 0 <= j < nbits (mem s) (pool_bm sym_kern_pool) ->
    bit m (pool_bm sym_kern_pool) j = bool_decide (j ∈ ps) || bit (mem s) (pool_bm sym_kern_pool) j;
  mu_mapped : forall k f, ps !! k = Some f ->
    mapped m (kpage (mem s) (p + Z.of_nat k)) (frame (mem s) sym_kern_pool f);
  mu_unmapped : forall j, p + i <= j < p + n -> unmapped m (kpage (mem s) j);
  mu_other : forall j, 0 <= j < nbits (mem s) kvaddr_bm -> ~ p <= j < p + i ->
    get32 m (pte_ptr (kpage (mem s) j)) = get32 (mem s) (pte_ptr (kpage (mem s) j))
}.

Lemma mapped_upto_init : mapped_upto 0 [] (mem s).
Proof.
  constructor; try done.
  - constructor.
  - by intros f ?%not_elem_of_nil.
  - intros j Hj. apply Hun. lia.
Qed.

(** A frame is left while fewer than [n] are taken. *)
Lemma frame_left i ps m :
  mapped_upto i ps m -> i < n -> exists f, free_frame m sym_kern_pool f.
Proof.
  intros Hm Hi. destruct Hfs as (Hnd & Hfree & Hlen). pose proof (mu_len _ _ _ Hm).
  assert (Hex : exists f, f ∈ fs /\ f ∉ ps).
  { destruct (decide (Exists (fun f => f ∉ ps) fs)) as [He|He].
    - apply Exists_exists in He as (f & ? & ?). eauto.
    - assert (Hsub : fs ⊆ ps).
      { intros f Hf. destruct (decide (f ∈ ps)); [done|]. destruct He. apply Exists_exists. eauto. }
      apply (NoDup_submseteq _ _ Hnd), submseteq_length in Hsub. lia. }
  destruct Hex as (f & Hf & Hn). destruct (Hfree f Hf) as [Hr Hb].
  destruct (page_frame_pool _ _ Hh (mu_frame _ _ _ Hm)) as (El & _ & _).
  exists f. split; [unfold nbits in *; by rewrite El|]. rewrite (mu_bits _ _ _ Hm) by done.
  by rewrite bool_decide_false, Hb.
Qed.

(** The facts on the state before iteration [i] that both the iteration and
    its result need. *)
Lemma upto_facts i ps m :
  mapped_upto i ps m ->
  (forall j, kpage m j = kpage (mem s) j) /\
  (forall f, frame m sym_kern_pool f = frame (mem s) sym_kern_pool f) /\
  nbits m kvaddr_bm = nbits (mem s) kvaddr_bm /\
  nbits m (pool_bm sym_kern_pool) = nbits (mem s) (pool_bm sym_kern_pool) /\
  (forall j, p <= j < p + n -> bit m kvaddr_bm j = true).
Proof.
  intros Hm. pose proof (page_frame_pool _ _ Hh (mu_frame _ _ _ Hm)) as (G1 & G2 & G3).
  destruct (page_frame_vaddr _ _ Hh (mu_frame _ _ _ Hm)) as (Es & El & Eb & Ebm & Ebits).
  split_and!.
  - intros j. unfold kpage. by rewrite Es.
  - intros f. unfold frame. by rewrite G3.
  - unfold nbits. by rewrite El.
  - unfold nbits. by rewrite G1.
  - intros j Hj. rewrite Ebits by lia. by apply Hused.
Qed.

Lemma free_frame_addr m f :
  pool_ok m sym_kern_pool -> free_frame m sym_kern_pool f ->
  0 < frame m sym_kern_pool f < 2 ^ 32 - 8 /\ frame m sym_kern_pool f mod 4096 = 0.
Proof.
  intros Hpo [Hf _]. pose proof (po_start _ _ Hpo). pose proof (po_end _ _ Hpo) as Hend.
  pose proof (po_aligned _ _ Hpo) as Hal.
  unfold frame in *. change PAGE_SIZE with 4096 in *. change (2 ^ 32) with 4294967296 in *. zlia.
Qed.

Lemma mapped_upto_next i ps m m1 f :
  mapped_upto i ps m -> 0 <= i < n -> free_frame m sym_kern_pool f ->
  changed_only (pool_bits m) m m1 -> same_pool m m1 sym_kern_pool ->
  (forall j, 0 <= j -> bit m1 (pool_bm sym_kern_pool) j = (f =? j) || bit m (pool_bm sym_kern_pool) j) ->
  mapped_upto (i + 1) (ps ++ [f])
    (put32 m1 (pte_ptr (kpage m (p + i))) (frame m sym_kern_pool f + PAGE_FLAGS)).
Proof.
  intros Hm Hi [Hf1 Hf2] Hc Hsame Hbits. pose proof (mu_heap _ _ _ Hm) as Hhm.
  destruct (upto_facts i ps m Hm) as (Ek & Ef & En & Enp & Hus). pose proof (mu_len _ _ _ Hm) as Hlen.
  destruct (heap_after_map m (p + i) Hhm ltac:(rewrite En; lia) ltac:(apply Hus; lia) m1
    (frame m sym_kern_pool f) Hc) as (Hc2 & Hh2 & Hb2 & Ho2).
  set (m2 := put32 m1 (pte_ptr (kpage m (p + i))) (frame m sym_kern_pool f + PAGE_FLAGS)) in *.
  destruct (free_frame_addr m f (hk_pool _ Hhm) ltac:(by split)) as [Hfr _].
  rewrite (mu_bits _ _ _ Hm) in Hf2 by (rewrite <- Enp; lia).
  apply orb_false_iff in Hf2 as [Hnin%bool_decide_eq_false Hf0].
  constructor.
  - rewrite length_app. cbn. lia.
  - apply NoDup_app. split_and!; [apply Hm| |apply NoDup_singleton].
    by intros x Hx ->%list_elem_of_singleton.
  - intros x [Hx| ->%list_elem_of_singleton]%elem_of_app; [by apply (mu_free _ _ _ Hm)|].
    split; [lia|done].
  - eapply changed_trans; [apply Hm|]. eapply changed_weaken; [exact Hc2|].
    intros b [Hb|Hb]; [left|by right].
    destruct (page_frame_pool _ _ Hh (mu_frame _ _ _ Hm)) as (G1 & G2 & _). by eapply bits_area_eq.
  - done.
  - intros j Hj. rewrite Hb2 by (done || lia). rewrite Hbits by lia.
    rewrite (mu_bits _ _ _ Hm) by done. rewrite orb_assoc. f_equal.
    destruct (Z.eqb_spec f j) as [->|Hne]; symmetry.
    + apply bool_decide_true, elem_of_app. right. by left.
    + apply bool_decide_ext. rewrite elem_of_app, list_elem_of_singleton.
      split; [intros [?|?]; [done|congruence]|tauto].
  - intros k x Hx. apply lookup_app_Some in Hx as [Hx|[Hge Hx]].
    + pose proof (lookup_lt_Some _ _ _ Hx). unfold mapped. rewrite <- Ek, Ho2 by (rewrite ?En; lia).
      rewrite Ek. by apply (mu_mapped _ _ _ Hm).
    + destruct (k - length ps)%nat eqn:Ekk; cbn in Hx; simplify_eq.
      replace (Z.of_nat k) with (Z.of_nat (length ps)) by lia.
      unfold mapped. rewrite <- Ek, <- Ef. unfold m2. rewrite get32_put32_eq.
      apply u32_small. change PAGE_FLAGS with 7. change (2 ^ 32) with 4294967296 in *. lia.
  - intros j Hj. unfold unmapped. rewrite <- Ek, Ho2 by (rewrite ?En; lia). rewrite Ek.
    apply (mu_unmapped _ _ _ Hm). lia.
  - intros j Hj Hne. rewrite <- (mu_other _ _ _ Hm j) by lia. rewrite <- Ek.
    apply Ho2; [by rewrite En|lia].
Qed.

Lemma malloc_page_step i ps m :
  mapped_upto i ps m -> 0 <= i < n ->
  exists f m', (page_phyaddr ← palloc sym_kern_pool;
      if page_phyaddr =? NULL then mret (Some NULL)
      else page_table_add (u32 (kpage (mem s) p + i * PAGE_SIZE)) page_phyaddr;; mret None)
    (set_mem m s) = Ok None (set_mem m' s) /\ mapped_upto (i + 1) (ps ++ [f]) m'.
Proof.
  intros Hm Hi. pose proof (mu_heap _ _ _ Hm) as Hhm.
  destruct (upto_facts i ps m Hm) as (Ek & Ef & En & Enp & Hus).
  destruct (palloc_run sym_kern_pool (set_mem m s) (hk_pool _ Hhm))
    as [(f & m1 & E & Hf & _ & Hc & Hsame & Hbits)|[Hno _]]; msimpl.
  2:{ destruct (frame_left i ps m Hm ltac:(lia)) as [f Hf]. by destruct (Hno f). }
  destruct (free_frame_addr m f (hk_pool _ Hhm) Hf) as [Hfr Hfal].
  pose proof (kpage_range m (p + i) Hhm ltac:(rewrite En; lia)) as (Hk1 & Hk2 & Hk3).
  eexists f, _. split; [|by apply mapped_upto_next].
  rewrite (bind_ok _ _ _ _ _ E). rewrite (proj2 (Z.eqb_neq _ NULL)) by (unfold NULL; lia).
  replace (u32 (kpage (mem s) p + i * PAGE_SIZE)) with (kpage m (p + i)).
  2:{ rewrite Ek in *. unfold kpage in *. change PAGE_SIZE with 4096 in *. rewrite u32_small; lia. }
  erewrite bind_ok; [reflexivity|]. apply (page_table_add_run _ _ (set_mem m1 (set_mem m s))); [| |lia].
  - unfold pde_present; msimpl. rewrite (page_frame_pde m m1 Hhm) by
      (zlia || (eapply changed_weaken; [exact Hc|]; by left)). apply (hk_tables _ Hhm). rewrite En. lia.
  - unfold unmapped; msimpl. pose proof (pte_window (kpage m (p + i)) ltac:(lia)) as Hw.
    rewrite (get32_ext m m1).
    + rewrite Ek. apply (mu_unmapped _ _ _ Hm). lia.
    + intros b Hb. apply Hc. intros HP. apply (hk_pool_bits _ Hhm) in HP as (_ & _ & HP). lia.
Qed.

Lemma malloc_page_loop :
  exists ps m', for_exit 0 (Z.to_nat n) (fun i =>
      let vaddr := u32 (kpage (mem s) p + i * PAGE_SIZE) in
      page_phyaddr ← palloc sym_kern_pool;
      if page_phyaddr =? NULL then mret (Some NULL)
      else page_table_add vaddr page_phyaddr;; mret None) s = Ok None (set_mem m' s) /\
    mapped_upto n ps m'.
Proof.
  assert (Hw : wp (for_exit 0 (Z.to_nat n) (fun i =>
      let vaddr := u32 (kpage (mem s) p + i * PAGE_SIZE) in
      page_phyaddr ← palloc sym_kern_pool;
      if page_phyaddr =? NULL then mret (Some NULL)
      else page_table_add vaddr page_phyaddr;; mret None))
    (fun r s' => r = None /\ exists ps m', s' = set_mem m' s /\ mapped_upto n ps m') s).
  { apply wp_for_exit with (I := fun i s' => exists ps m', s' = set_mem m' s /\ mapped_upto i ps m').
    - exists [], (mem s). rewrite set_mem_id. split; [done|apply mapped_upto_init].
    - intros i s' Hi (ps & m & -> & Hm).
      destruct (malloc_page_step i ps m Hm ltac:(lia)) as (f & m' & E & Hm').
      eapply wp_ok; [exact E|]. by exists (ps ++ [f]), m'.
    - intros s' (ps & m & -> & Hm). split; [done|]. exists ps, m. split; [done|].
      by replace (0 + Z.of_nat (Z.to_nat n)) with n in Hm by lia. }
  apply wp_run in Hw as (r & s' & E & -> & ps & m' & -> & Hm). eauto.
Qed.
End Loop.

(** *** The whole operation *)

(** Reserving virtual pages leaves a heap, except that the reserved pages are
    not yet mapped. *)
Lemma heap_reserve m m' p n :
  heap_ok m -> free_run m kvaddr_bm p n ->
  changed_only (vaddr_bits m) m m' -> bitmap_ok m' kvaddr_bm ->
  bm_length m' kvaddr_bm = bm_length m kvaddr_bm -> bm_bits m' kvaddr_bm = bm_bits m kvaddr_bm ->
  (forall j, 0 <= j -> bit m' kvaddr_bm j = bool_decide (p <= j < p + n) || bit m kvaddr_bm j) ->
  heap_ok m' /\ kvaddr_start m' = kvaddr_start m /\
  (forall j, p <= j < p + n -> bit m' kvaddr_bm j = true /\ unmapped m' (kpage m' j)) /\
  (forall f, free_frame m' sym_kern_pool f <-> free_frame m sym_kern_pool f) /\
  (forall j, 0 <= j < nbits m (pool_bm sym_kern_pool) ->
     bit m' (pool_bm sym_kern_pool) j = bit m (pool_bm sym_kern_pool) j) /\
  same_pool m m' sym_kern_pool.
Proof.
  intros Hh (Hp0 & Hp1 & Hp2) Hc Hok El Eb Hbits.
  assert (Es : kvaddr_start m' = kvaddr_start m).
  { apply get32_ext. intros b Hb. apply Hc. intros HP. apply (hk_vaddr_bits _ Hh) in HP as (HP & _).
    apply HP. unfold vaddr_struct, virtual_addr.vaddr_start, virtual_addr.sizeof in *. lia. }
  assert (En : nbits m' kvaddr_bm = nbits m kvaddr_bm) by (unfold nbits; by rewrite El).
  assert (Ek : forall j, kpage m' j = kpage m j) by (intros j; unfold kpage; by rewrite Es).
  assert (Hpte' : forall j, 0 <= j < nbits m kvaddr_bm ->
    get32 m' (pte_ptr (kpage m j)) = get32 m (pte_ptr (kpage m j)) /\
    get32 m' (pde_ptr (kpage m j)) = get32 m (pde_ptr (kpage m j))).
  { intros j Hj. pose proof (kpage_range m j Hh Hj) as (? & ? & ?).
    pose proof (pte_window (kpage m j) ltac:(lia)). pose proof (pde_window (kpage m j) ltac:(zlia)).
    split; apply get32_ext; intros b Hb; apply Hc; intros HP;
      apply (hk_vaddr_bits _ Hh) in HP as (_ & _ & HP); lia. }
  assert (Hsame : same_pool m m' sym_kern_pool).
  { eapply pool_frame; [exact Hc|]. intros b HP. by apply (hk_vaddr_bits _ Hh) in HP as (_ & HP & _). }
  assert (Hpb : forall j, 0 <= j < nbits m (pool_bm sym_kern_pool) ->
    bit m' (pool_bm sym_kern_pool) j = bit m (pool_bm sym_kern_pool) j).
  { intros j Hj. unfold bit. destruct Hsame as (_ & -> & _). f_equal. apply Hc. intros HP.
    assert (Hin : pool_bits m (bm_bits m (pool_bm sym_kern_pool) + j / 8))
      by (unfold pool_bits, bits_area, nbits in *; zlia).
    by apply (hk_pool_bits _ Hh) in Hin as (_ & Hin & _). }
  assert (Enp : nbits m' (pool_bm sym_kern_pool) = nbits m (pool_bm sym_kern_pool))
    by (unfold nbits; by rewrite (proj1 Hsame)).
  split_and!; [|done| | |done|done].
  - constructor.
    + eapply same_pool_ok; [done|apply Hh].
    + done.
    + rewrite Es, En, Ek. apply Hh.
    + intros b Hb. unfold pool_bits in Hb. destruct Hsame as (G1 & G2 & _).
      apply (bits_area_eq _ _ _ _ G1 G2) in Hb. destruct (hk_pool_bits _ Hh b Hb) as (? & HV & ?).
      split_and!; [done| |done]. intros Hv. by apply (bits_area_eq _ _ _ _ El Eb) in Hv.
    + intros b Hb. apply (bits_area_eq _ _ _ _ El Eb) in Hb. by apply (hk_vaddr_bits _ Hh).
    + apply Hh.
    + intros j. rewrite En, Ek. intros Hj. unfold pde_present. rewrite (proj2 (Hpte' j Hj)).
      by apply (hk_tables _ Hh).
    + intros j. rewrite En, Ek. intros Hj. rewrite Hbits by lia. intros [_ Hb]%orb_false_iff.
      unfold unmapped. rewrite (proj1 (Hpte' j Hj)). by apply (hk_unmapped _ Hh).
  - intros j Hj. split; [rewrite Hbits by lia; by rewrite bool_decide_true|].
    rewrite Ek. unfold unmapped. rewrite (proj1 (Hpte' j ltac:(lia))). apply (hk_unmapped _ Hh); [lia|].
    by apply Hp2.
  - intros f. unfold free_frame. rewrite Enp. split; intros [Hf Hb]; (split; [done|]).
    + by rewrite <- Hpb.
    + by rewrite Hpb.
Qed.

(** [vaddr_get] reserves the first run of free virtual pages. *)
Lemma vaddr_get_kernel_run n q s :
  heap_ok (mem s) -> 1 <= n < 3840 -> free_run (mem s) kvaddr_bm q n ->
  exists p m', vaddr_get PF_KERNEL n s = Ok (kpage (mem s) p) (set_mem m' s) /\
    first_fit (mem s) kvaddr_bm n p /\
    changed_only (vaddr_bits (mem s)) (mem s) m' /\ bitmap_ok m' kvaddr_bm /\
    bm_length m' kvaddr_bm = bm_length (mem s) kvaddr_bm /\ bm_bits m' kvaddr_bm = bm_bits (mem s) kvaddr_bm /\
    forall j, 0 <= j -> bit m' kvaddr_bm j = bool_decide (p <= j < p + n) || bit (mem s) kvaddr_bm j.
Proof.
  intros Hh Hn Hq. pose proof Hq as (Hq0 & Hq1 & Hq2).
  pose proof (hk_vaddr _ Hh) as Hvb. pose proof (ok_nbits _ _ Hvb) as Hnb.
  destruct (wpx_run _ _ _ _ (bitmap_scan_outcome kvaddr_bm n q s Hnb ltac:(lia) ltac:(lia) ltac:(apply Hq2; lia)))
    as [(p & s' & E & -> & Hfit)|(msg & s' & _ & _ & _ & _ & Hno)]; [|by destruct (Hno q)].
  pose proof Hfit as ((Hp0 & Hp1 & Hp2) & _).
  destruct (bitmap_set_range_run kvaddr_bm p (Z.to_nat n) s Hvb Hp0 ltac:(lia))
    as (m1 & E1 & Hc1 & Hok1 & El1 & Eb1 & Hbits1). rewrite Z2Nat.id in Hbits1 by lia.
  destruct (heap_reserve (mem s) m1 p n Hh (proj1 Hfit) Hc1 Hok1 El1 Eb1 Hbits1) as (_ & Es1 & _).
  exists p, m1. split_and!; [|done..].
  unfold vaddr_get. rewrite decide_True by done. fold kvaddr_bm. rewrite (bind_ok _ _ _ _ _ E).
  rewrite (proj2 (Z.eqb_neq p (-1))) by lia. cbn [negb]. rewrite (bind_ok _ _ _ _ _ E1).
  erewrite bind_ok by reflexivity. cbv beta. msimpl. apply (f_equal (fun v => Ok v _)).
  change (get32 m1 (sym_kern_vaddr + virtual_addr.vaddr_start)) with (kvaddr_start m1).
  rewrite Es1. destruct (kpage_range (mem s) p Hh ltac:(lia)). unfold kpage in *.
  change PAGE_SIZE with 4096 in *. rewrite u32_small; lia.
Qed.

(** The outcome of a successful [malloc_page]: virtual pages [p .. p + n - 1]
    are mapped to the frames [ps], and nothing but the two bitmaps and the page
    tables has changed. *)
Record pages_mapped (m : memory) (n p : Z) (ps : list Z) (m' : memory) : Prop := {
  pm_fit : first_fit m kvaddr_bm n p;
  pm_len : Z.of_nat (length ps) = n;
  pm_nodup : NoDup ps;
  pm_free : forall f, f ∈ ps -> free_frame m sym_kern_pool f;
  pm_mapped : forall k f, ps !! k = Some f ->
    mapped m' (kpage m (p + Z.of_nat k)) (frame m sym_kern_pool f);
  pm_virtual : forall j, 0 <= j < nbits m kvaddr_bm ->
    bit m' kvaddr_bm j = bool_decide (p <= j < p + n) || bit m kvaddr_bm j;
  pm_frames : forall j, 0 <= j < nbits m (pool_bm sym_kern_pool) ->
    bit m' (pool_bm sym_kern_pool) j = bool_decide (j ∈ ps) || bit m (pool_bm sym_kern_pool) j;
  pm_other : forall j, 0 <= j < nbits m kvaddr_bm -> ~ p <= j < p + n ->
    get32 m' (pte_ptr (kpage m j)) = get32 m (pte_ptr (kpage m j));
  pm_heap : heap_ok m';
  pm_frame : changed_only (fun b => vaddr_bits m b \/ pool_bits m b \/ window b) m m'
}.

Lemma malloc_page_kernel_run n q fs s :
  heap_ok (mem s) -> 1 <= n < 3840 -> free_run (mem s) kvaddr_bm q n ->
  NoDup fs -> (forall f, f ∈ fs -> free_frame (mem s) sym_kern_pool f) -> n <= Z.of_nat (length fs) ->
  exists p ps m', malloc_page PF_KERNEL n s = Ok (kpage (mem s) p) (set_mem m' s) /\
    pages_mapped (mem s) n p ps m'.
Proof.
  intros Hh Hn Hq Hnd Hfree Hlen.
  destruct (vaddr_get_kernel_run n q s Hh Hn Hq) as (p & m1 & Ev & Hfit & Hc1 & Hok1 & El1 & Eb1 & Hbits1).
  pose proof Hfit as ((Hp0 & Hp1 & Hp2) & _).
  destruct (heap_reserve (mem s) m1 p n Hh (proj1 Hfit) Hc1 Hok1 El1 Eb1 Hbits1)
    as (Hh1 & Es1 & Hrun & Hff & Hpb & Hsame).
  assert (En1 : nbits m1 kvaddr_bm = nbits (mem s) kvaddr_bm) by (unfold nbits; by rewrite El1).
  assert (Ek1 : forall j, kpage m1 j = kpage (mem s) j) by (intros j; unfold kpage; by rewrite Es1).
  destruct (malloc_page_loop (set_mem m1 s) p n fs Hh1) as (ps & m2 & E2 & Hm2); msimpl.
  { rewrite En1. lia. }
  { intros j Hj. by apply Hrun. }
  { intros j Hj. by apply Hrun. }
  { split_and!; [done| |done]. intros f Hf. by apply Hff, Hfree. }
  destruct (page_frame_vaddr _ _ Hh1 (mu_frame _ _ _ _ _ _ Hm2)) as (Es2 & El2 & Eb2 & _ & Hvb2).
  exists p, ps, m2. split.
  { unfold malloc_page. erewrite bind_ok by (apply assert_run; lia).
    erewrite bind_ok by (apply assert_run; lia).
    rewrite (bind_ok _ _ _ _ _ Ev). destruct (kpage_range (mem s) p Hh ltac:(lia)).
    rewrite (proj2 (Z.eqb_neq _ NULL)) by (unfold NULL; lia). rewrite decide_True by done.
    rewrite <- Ek1. by rewrite (bind_ok _ _ _ _ _ E2). }
  constructor; [done|apply Hm2|apply Hm2| | | | | |apply Hm2|].
  - intros f Hf. by apply Hff, (mu_free _ _ _ _ _ _ Hm2).
  - intros k f Hk. pose proof (mu_mapped _ _ _ _ _ _ Hm2 k f Hk) as Hmap; msimpl. rewrite Ek1 in Hmap.
    unfold frame in *. by rewrite (proj2 (proj2 Hsame)) in Hmap.
  - intros j Hj. rewrite Hvb2 by (msimpl; rewrite En1; lia). apply Hbits1. lia.
  - intros j Hj. rewrite (mu_bits _ _ _ _ _ _ Hm2); msimpl; [by rewrite Hpb|].
    unfold nbits in *. by rewrite (proj1 Hsame).
  - intros j Hj Hne. rewrite <- (Ek1 j), (mu_other _ _ _ _ _ _ Hm2); msimpl; [|by rewrite En1|done].
    rewrite Ek1. apply (changed_get32 _ _ _ _ Hc1). intros b Hb Hv.
    pose proof (kpage_range (mem s) j Hh Hj). pose proof (pte_window (kpage (mem s) j) ltac:(lia)).
    apply (hk_vaddr_bits _ Hh) in Hv as (_ & _ & Hv). lia.
  - eapply changed_trans; [eapply changed_weaken; [exact Hc1|auto]|].
    eapply changed_weaken; [apply (mu_frame _ _ _ _ _ _ Hm2)|]. msimpl. intros b [Hb|Hb]; [|by auto].
    right. left. revert Hb. unfold pool_bits. apply bits_area_eq; apply Hsame.
Qed.

(** Without a free virtual page. *)
Lemma malloc_page_full_run s :
  (forall j, 0 <= j < nbits (mem s) kvaddr_bm -> bit (mem s) kvaddr_bm j = true) ->
  malloc_page PF_KERNEL 1 s = Ok NULL s.
Proof.
  intros Hall. unfold malloc_page, vaddr_get. do 2 (erewrite bind_ok by (by apply assert_run); cbv beta).
  rewrite (bind_ok _ _ NULL s s); [done|]. rewrite decide_True by done. fold kvaddr_bm.
  rewrite (bind_ok _ _ (-1) s s); [done|]. by apply bitmap_scan_full_run.
Qed.

(** C8: [malloc_page] on the kernel heap: with [n] free consecutive virtual pages
    and [n] free frames it takes the first such run, and maps its pages, in
    order, to distinct frames that were free; exactly these virtual pages and
    frames become used, and the heap stays well-formed. *)
Theorem malloc_page_kernel_correct n q fs s :
  heap_ok (mem s) -> 1 <= n < 3840 -> free_run (mem s) kvaddr_bm q n ->
  NoDup fs -> (forall f, f ∈ fs -> free_frame (mem s) sym_kern_pool f) -> n <= Z.of_nat (length fs) ->
  exists p ps m', malloc_page PF_KERNEL n s = Ok (kpage (mem s) p) (set_mem m' s) /\
    first_fit (mem s) kvaddr_bm n p /\
    Z.of_nat (length ps) = n /\ NoDup ps /\ (forall f, f ∈ ps -> free_frame (mem s) sym_kern_pool f) /\
    (forall k f, ps !! k = Some f ->
       mapped m' (kpage (mem s) (p + Z.of_nat k)) (frame (mem s) sym_kern_pool f)) /\
    (forall j, 0 <= j < nbits (mem s) kvaddr_bm ->
       bit m' kvaddr_bm j = bool_decide (p <= j < p + n) || bit (mem s) kvaddr_bm j) /\
    (forall j, 0 <= j < nbits (mem s) (pool_bm sym_kern_pool) ->
       bit m' (pool_bm sym_kern_pool) j = bool_decide (j ∈ ps) || bit (mem s) (pool_bm sym_kern_pool) j) /\
    heap_ok m'.
Proof.
  intros Hh Hn Hq Hnd Hfree Hlen.
  destruct (malloc_page_kernel_run n q fs s Hh Hn Hq Hnd Hfree Hlen) as (p & ps & m' & E & []).
  by exists p, ps, m'.
Qed.
End KernelPages.

(** ** Concrete instances *)

(** A heap of eight pages and eight frames; the first page and frame are taken. *)
Definition demo_heap : memory :=
  let m := put32 (put32 (put32 ∅ sym_kern_pool 1) (sym_kern_pool + 4) 0xc009a000)
    (sym_kern_pool + 8) 0x200000 in
  let m := put32 (put32 (put32 m sym_kern_vaddr 1) (sym_kern_vaddr + 4) 0xc009a010)
    (sym_kern_vaddr + 8) 0xc0100000 in
  put8 (put8 (put32 m 0xfffffc00 0x101007) 0xc009a000 1) 0xc009a010 1.

Ltac small_index j :=
  let H := fresh in
  assert (H : j = 0 \/ j = 1 \/ j = 2 \/ j = 3 \/ j = 4 \/ j = 5 \/ j = 6 \/ j = 7) by lia;
  destruct H as [H|[H|[H|[H|[H|[H|[H|H]]]]]]]; subst j.

Lemma demo_pool_ok : pool_ok demo_heap sym_kern_pool.
Proof.
  constructor.
  - constructor; [reflexivity|left; vm_compute; congruence].
  - unfold bits_area. change (bm_bits demo_heap (pool_bm sym_kern_pool)) with 0xc009a000.
    change (bm_length demo_heap (pool_bm sym_kern_pool)) with 1.
    change sym_kern_pool with 0xc0010000. unfold pool.sizeof. lia.
  - reflexivity.
  - reflexivity.
  - vm_compute. congruence.
Qed.

Lemma palloc_correct_witness :
  (exists p m', palloc sym_kern_pool (demo_machine demo_heap)
       = Ok (frame demo_heap sym_kern_pool p) (set_mem m' (demo_machine demo_heap)) /\
     free_frame demo_heap sym_kern_pool p /\ (forall q, free_frame demo_heap sym_kern_pool q -> p <= q) /\
     pool_ok m' sym_kern_pool /\ changed_only (bits_area demo_heap (pool_bm sym_kern_pool)) demo_heap m' /\
     forall j, 0 <= j -> bit m' (pool_bm sym_kern_pool) j
       = (p =? j) || bit demo_heap (pool_bm sym_kern_pool) j) \/
  ((forall p, ~ free_frame demo_heap sym_kern_pool p) /\
   palloc sym_kern_pool (demo_machine demo_heap) = Ok NULL (demo_machine demo_heap)).
Proof. apply (palloc_correct sym_kern_pool (demo_machine demo_heap)). exact demo_pool_ok. Defined.

Lemma demo_heap_ok : heap_ok demo_heap.
Proof.
  constructor.
  - exact demo_pool_ok.
  - constructor; [reflexivity|left; vm_compute; congruence].
  - split_and!; vm_compute; congruence.
  - intros b. unfold pool_bits, vaddr_bits, vaddr_struct, bits_area.
    change (bm_bits demo_heap (pool_bm sym_kern_pool)) with 0xc009a000.
    change (bm_length demo_heap (pool_bm sym_kern_pool)) with 1.
    change (bm_bits demo_heap kvaddr_bm) with 0xc009a010.
    change (bm_length demo_heap kvaddr_bm) with 1.
    change sym_kern_vaddr with 0xc0012000. unfold virtual_addr.sizeof. lia.
  - intros b. unfold vaddr_bits, vaddr_struct, pool_struct, bits_area.
    change (bm_bits demo_heap kvaddr_bm) with 0xc009a010.
    change (bm_length demo_heap kvaddr_bm) with 1.
    change sym_kern_vaddr with 0xc0012000. change sym_kern_pool with 0xc0010000.
    unfold virtual_addr.sizeof, pool.sizeof. lia.
  - split; vm_compute; congruence.
  - change (nbits demo_heap kvaddr_bm) with 8. intros j Hj. small_index j; reflexivity.
  - change (nbits demo_heap kvaddr_bm) with 8. intros j Hj _. small_index j; reflexivity.
Qed.

Lemma page_table_roundtrip_witness :
  exists s1, page_table_add 0xc0100000 0x200000 (demo_machine demo_heap) = Ok tt s1 /\
    (forall o, 0 <= o < 4096 -> vaddr_to_phy (0xc0100000 - 0xc0100000 mod 4096 + o) s1 = Ok (0x200000 + o) s1) /\
    (forall w, 0 <= w < 2 ^ 32 -> w / 4096 <> 0xc0100000 / 4096 ->
       get32 (mem s1) (pte_ptr w) = get32 demo_heap (pte_ptr w)) /\
    exists s2, page_table_remove 0xc0100000 s1 = Ok tt s2 /\ unmapped (mem s2) 0xc0100000 /\
      (forall w, 0 <= w < 2 ^ 32 -> w / 4096 <> 0xc0100000 / 4096 ->
         get32 (mem s2) (pte_ptr w) = get32 demo_heap (pte_ptr w)).
Proof.
  apply (page_table_roundtrip (PL := demo_platform) (fun v => eq_refl) 0xc0100000 0x200000 (demo_machine demo_heap));
    [lia|reflexivity|lia|reflexivity|reflexivity].
Defined.

(** Three free pages from page 1 on and the frames 1, 2, 3: two are taken. *)
Lemma malloc_page_kernel_correct_witness :
  exists p ps m', malloc_page PF_KERNEL 2 (demo_machine demo_heap)
      = Ok (kpage demo_heap p) (set_mem m' (demo_machine demo_heap)) /\
    first_fit demo_heap kvaddr_bm 2 p /\
    Z.of_nat (length ps) = 2 /\ NoDup ps /\ (forall f, f ∈ ps -> free_frame demo_heap sym_kern_pool f) /\
    (forall k f, ps !! k = Some f ->
       mapped m' (kpage demo_heap (p + Z.of_nat k)) (frame demo_heap sym_kern_pool f)) /\
    (forall j, 0 <= j < nbits demo_heap kvaddr_bm ->
       bit m' kvaddr_bm j = bool_decide (p <= j < p + 2) || bit demo_heap kvaddr_bm j) /\
    (forall j, 0 <= j < nbits demo_heap (pool_bm sym_kern_pool) ->
       bit m' (pool_bm sym_kern_pool) j = bool_decide (j ∈ ps) || bit demo_heap (pool_bm sym_kern_pool) j) /\
    heap_ok m'.
Proof.
  apply (malloc_page_kernel_correct (PL := demo_platform) (fun v => eq_refl) 2 1 [1; 2; 3] (demo_machine demo_heap)).
  - exact demo_heap_ok.
  - lia.
  - split_and!; [lia|vm_compute; congruence|]. intros j Hj.
    assert (H : j = 1 \/ j = 2) by lia. destruct H; subst j; reflexivity.
  - apply (bool_decide_unpack _). vm_compute. exact I.
  - intros f Hf. apply list_elem_of_In in Hf as [<-|[<-|[<-|[]]]]; (split; [|reflexivity]);
      change (nbits (mem (demo_machine demo_heap)) (pool_bm sym_kern_pool)) with 8; lia.
  - cbn. lia.
Defined.
