(* ===== verification/Malloc.v ===== *)
(** * The block allocator (kernel/memory.c: mem_block_init .. mem_init)

    Requests of up to 1024 bytes are served from free lists of blocks of seven
    sizes; the blocks are cut out of arenas, pages that start with a header.
    Larger requests get pages of their own. *)

From S2P Require Import Prelude Machine Concrete Interrupt CString Bitmap DList Paging Tss Sched Lock Memory.

#[local] Open Scope Z_scope.

Definition MEM_BLOCK_DESC_CNT : Z := 7.

Module mem_block.
Definition block_node : Z := 0.
Definition sizeof : Z := 8.
End mem_block.

Module mem_block_desc.
Definition block_list : Z := 0.
Definition block_size : Z := 16.
Definition blocks_cnt : Z := 20.
Definition sizeof : Z := 24.
End mem_block_desc.

Module arena.
Definition desc : Z := 0.
Definition cnt : Z := 4.
Definition large : Z := 8.
Definition sizeof : Z := 12.
End arena.

Section Malloc.
Context {PL : Platform} {LK : Linker}.

(** In iteration [i] [blk_size] is 16 shifted left [i] times. *)
Definition mem_block_init (descs : Z) : K unit :=
  for_ 0 (Z.to_nat MEM_BLOCK_DESC_CNT) (fun i =>
    let blk_size := u16 (Z.shiftl 16 i) in
    let d := descs + i * mem_block_desc.sizeof in
    st32 (d + mem_block_desc.block_size) blk_size;;
    st32 (d + mem_block_desc.blocks_cnt) ((PAGE_SIZE - arena.sizeof) / blk_size);;
    list_init (d + mem_block_desc.block_list)).

Definition arena_to_block (a idx : Z) : K Z :=
  let first_block := u32 (a + arena.sizeof) in
  desc ← ld32 (a + arena.desc);
  size ← ld32 (desc + mem_block_desc.block_size);
  mret (u32 (first_block + idx * size)).

Definition block_to_arena (b : Z) : Z := Z.land b 0xfffff000.

Definition node_to_block (block_node : Z) : Z := block_node.

(** The loop that puts the blocks of a new arena on their free list. *)
Definition carve_blocks (a : Z) : K unit :=
  while_ (fun i =>
    desc ← ld32 (a + arena.desc);
    cnt ← ld32 (desc + mem_block_desc.blocks_cnt);
    if u32 i <? cnt then
      mb ← arena_to_block a (u32 i);
      desc ← ld32 (a + arena.desc);
      ex ← list_exist (desc + mem_block_desc.block_list) (mb + mem_block.block_node);
      ASSERT (negb ex) "kernel/memory.c" 434 "sys_malloc"
        "list_exist(&a->desc->block_list, &mb->block_node) == false";;
      desc ← ld32 (a + arena.desc);
      list_push_back (desc + mem_block_desc.block_list) (mb + mem_block.block_node);;
      mret (inl (s32 (i + 1)))
    else mret (inr tt)) 0.

(** A new arena for the blocks of [desc], all of them free. *)
Definition new_arena (flag : pool_flags) (desc : Z) : K bool :=
  a ← malloc_page flag 1;
  if a =? NULL then mret false
  else
    memset a 0 PAGE_SIZE;;
    st32 (a + arena.desc) desc;;
    st8 (a + arena.large) 0;;
    cnt ← ld32 (desc + mem_block_desc.blocks_cnt);
    st32 (a + arena.cnt) cnt;;
    status ← INTERRUPT_DISABLE;
    carve_blocks a;;
    INTERRUPT_RESTORE status;;
    mret true.

(** The first block of a free list is taken and cleared. *)
Definition take_block (desc mem_pool : Z) : K Z :=
  node ← list_pop_front (desc + mem_block_desc.block_list);
  let mb := node_to_block node in
  bs ← ld32 (desc + mem_block_desc.block_size);
  memset mb 0 bs;;
  let a := block_to_arena mb in
  cnt ← ld32 (a + arena.cnt);
  st32 (a + arena.cnt) (cnt - 1);;
  mutex_unlock (mem_pool + pool.mutex);;
  mret mb.

(** Pages of their own for a large request. *)
Definition take_pages (flag : pool_flags) (mem_pool size : Z) : K Z :=
  let page_cnt := DIV_ROUND_UP (size + arena.sizeof) PAGE_SIZE in
  a ← malloc_page flag page_cnt;
  if a =? NULL then mutex_unlock (mem_pool + pool.mutex);; mret NULL
  else
    memset a 0 (u32 (page_cnt * PAGE_SIZE));;
    st32 (a + arena.desc) NULL;;
    st32 (a + arena.cnt) page_cnt;;
    st8 (a + arena.large) 1;;
    mutex_unlock (mem_pool + pool.mutex);;
    mret (u32 (a + arena.sizeof)).

Definition sys_malloc (size : Z) : K Z :=
  curr ← running_thread;
  pd ← ld32 (curr + task_struct.page_dir);
  let '(flag, descs, mem_pool) :=
    if pd =? NULL then (PF_KERNEL, sym_km_block_descs, sym_kern_pool)
    else (PF_USER, curr + task_struct.um_block_descs, sym_user_pool) in
  pool_size ← ld32 (mem_pool + pool.pool_size);
  if pool_size <? size then mret NULL
  else
    mutex_lock (mem_pool + pool.mutex);;
    if 1024 <? size then take_pages flag mem_pool size
    else
      r ← for_exit 0 (Z.to_nat MEM_BLOCK_DESC_CNT) (fun i =>
        bs ← ld32 (descs + i * mem_block_desc.sizeof + mem_block_desc.block_size);
        mret (if size <=? bs then Some i else None));
      let i := default MEM_BLOCK_DESC_CNT r in
      let desc := descs + i * mem_block_desc.sizeof in
      e ← list_empty (desc + mem_block_desc.block_list);
      ok ← ((if (e : bool) then new_arena flag desc else mret true) : K bool);
      if negb ok then mutex_unlock (mem_pool + pool.mutex);; mret NULL
      else take_block desc mem_pool.

(** The blocks of the arena [a] leave their free list. *)
Definition unlist_blocks (a : Z) : K unit :=
  while_ (fun i =>
    cnt ← ld32 (a + arena.cnt);
    if u32 i <? cnt then
      mb ← arena_to_block a (u32 i);
      desc ← ld32 (a + arena.desc);
      ex ← list_exist (desc + mem_block_desc.block_list) (mb + mem_block.block_node);
      when ex (list_remove (mb + mem_block.block_node));;
      mret (inl (s32 (i + 1)))
    else mret (inr tt)) 0.

(** A block goes back to its free list; an arena without blocks in use is
    given up. *)
Definition give_block (type : pool_flags) (a mb : Z) : K unit :=
  desc ← ld32 (a + arena.desc);
  list_push_back (desc + mem_block_desc.block_list) (mb + mem_block.block_node);;
  cnt ← ld32 (a + arena.cnt);
  st32 (a + arena.cnt) (cnt + 1);;
  cnt ← ld32 (a + arena.cnt);
  desc ← ld32 (a + arena.desc);
  blocks_cnt ← ld32 (desc + mem_block_desc.blocks_cnt);
  when (cnt =? blocks_cnt) (
    unlist_blocks a;;
    free_page type a 1).

Definition sys_free (ptr : Z) : K unit :=
  ASSERT (negb (ptr =? NULL)) "kernel/memory.c" 454 "sys_free" "ptr != NULL";;
  t ← running_thread;
  pd ← ld32 (t + task_struct.page_dir);
  let '(type, mem_pool) :=
    if pd =? NULL then (PF_KERNEL, sym_kern_pool) else (PF_USER, sym_user_pool) in
  mutex_lock (mem_pool + pool.mutex);;
  let mb := ptr in
  let a := block_to_arena mb in
  large ← ld8 (a + arena.large);
  (if negb (large =? 0) then
     cnt ← ld32 (a + arena.cnt);
     free_page type a cnt
   else give_block type a mb);;
  mutex_unlock (mem_pool + pool.mutex).

Definition sys_kmalloc (size : Z) : K Z :=
  curr ← running_thread;
  temp ← ld32 (curr + task_struct.page_dir);
  st32 (curr + task_struct.page_dir) NULL;;
  res ← sys_malloc size;
  st32 (curr + task_struct.page_dir) temp;;
  mret res.

Definition sys_kfree (p : Z) : K unit :=
  curr ← running_thread;
  temp ← ld32 (curr + task_struct.page_dir);
  st32 (curr + task_struct.page_dir) NULL;;
  sys_free p;;
  st32 (curr + task_struct.page_dir) temp.

Definition mem_init : K unit :=
  mem_bytes_total ← ld32 0xb00;
  mem_pool_init mem_bytes_total;;
  mem_block_init sym_km_block_descs.
End Malloc.
