(* ===== verification/Heap.v ===== *)
(** * Correctness of the block allocator (kernel/memory.c: sys_malloc, sys_free)

    The state of the kernel's heap as free lists and arenas, its
    representation in memory, and what allocation and release do to it. *)

From S2P Require Import Prelude Machine Concrete Interrupt CString Bitmap DList Paging Tss Sched Lock Memory Malloc.

#[local] Open Scope Z_scope.

(** ** Block classes *)

(** The size of the blocks of class [i], the number of them in an arena, and
    the place of block [k] in the arena [a]. *)
Definition bsize (i : Z) : Z := Z.shiftl 16 i.
Definition bcount (i : Z) : Z := (PAGE_SIZE - arena.sizeof) / bsize i.
Definition block_at (i a k : Z) : Z := a + arena.sizeof + k * bsize i.

(** The class that serves a request of [n] bytes: the first one large enough. *)
Fixpoint class_from (fuel : nat) (i n : Z) : Z :=
  match fuel with
  | O => i
  | S fuel' => if n <=? bsize i then i else class_from fuel' (i + 1) n
  end.
Definition class_of (n : Z) : Z := class_from 7 0 n.

Definition is_class (i : Z) : Prop := 0 <= i < 7.

Lemma bsize_cases i : is_class i ->
  (i = 0 /\ bsize i = 16 /\ bcount i = 255) \/ (i = 1 /\ bsize i = 32 /\ bcount i = 127) \/
  (i = 2 /\ bsize i = 64 /\ bcount i = 63) \/ (i = 3 /\ bsize i = 128 /\ bcount i = 31) \/
  (i = 4 /\ bsize i = 256 /\ bcount i = 15) \/ (i = 5 /\ bsize i = 512 /\ bcount i = 7) \/
  (i = 6 /\ bsize i = 1024 /\ bcount i = 3).
Proof.
  intros Hi. assert (i = 0 \/ i = 1 \/ i = 2 \/ i = 3 \/ i = 4 \/ i = 5 \/ i = 6) as H
    by (unfold is_class in Hi; lia).
  destruct H as [->|[->|[->|[->|[->|[->| ->]]]]]]; vm_compute; tauto.
Qed.

Lemma bsize_bounds i : is_class i ->
  16 <= bsize i <= 1024 /\ 3 <= bcount i <= 255 /\ arena.sizeof + bcount i * bsize i <= PAGE_SIZE.
Proof.
  intros Hi. change arena.sizeof with 12. change PAGE_SIZE with 4096.
  destruct (bsize_cases i Hi) as [(_ & -> & ->)|[(_ & -> & ->)|[(_ & -> & ->)|[(_ & -> & ->)|
    [(_ & -> & ->)|[(_ & -> & ->)|(_ & -> & ->)]]]]]]; lia.
Qed.

Lemma class_of_spec n :
  n <= 1024 -> is_class (class_of n) /\ n <= bsize (class_of n) /\
  (class_of n = 0 \/ bsize (class_of n - 1) < n).
Proof.
  intros Hn. unfold class_of, is_class. cbn [class_from].
  repeat case_match;
    repeat match goal with
    | H : context [bsize ?x] |- _ => let v := eval vm_compute in (bsize x) in change (bsize x) with v in H
    | |- context [bsize ?x] => let v := eval vm_compute in (bsize x) in change (bsize x) with v
    end; lia.
Qed.

(** Blocks of one arena do not overlap, and lie after its header. *)
Lemma block_bounds i a k : is_class i -> 0 <= k < bcount i ->
  a + 12 <= block_at i a k /\ block_at i a k + bsize i <= a + 4096.
Proof.
  intros Hi Hk. pose proof (bsize_bounds i Hi) as (H1 & _ & H3). unfold block_at.
  change arena.sizeof with 12 in *. change PAGE_SIZE with 4096 in *. nia.
Qed.

Lemma blocks_apart i a k k' : is_class i -> k < k' -> block_at i a k + bsize i <= block_at i a k'.
Proof. intros Hi Hk. pose proof (bsize_bounds i Hi) as (H1 & _ & _). unfold block_at. nia. Qed.

Lemma block_inj i a k k' : is_class i -> block_at i a k = block_at i a k' -> k = k'.
Proof. intros Hi. pose proof (bsize_bounds i Hi) as (H1 & _ & _). unfold block_at. nia. Qed.

Lemma block_to_arena_at i a k :
  is_class i -> 0 <= k < bcount i -> a mod 4096 = 0 -> 0 <= a -> a + 4096 <= 2 ^ 32 ->
  block_to_arena (block_at i a k) = a.
Proof.
  intros Hi Hk Ha H0 H1. pose proof (block_bounds i a k Hi Hk). pose proof (bsize_bounds i Hi).
  unfold block_to_arena. change (2 ^ 32) with 4294967296 in *.
  rewrite land_page by lia. zlia.
Qed.

(** ** The heap *)

(** The free blocks of every class, in list order, and the arenas with their
    classes. *)
Record heap := mkHeap {
  h_free : Z -> list Z;
  h_arenas : list (Z * Z)
}.

Definition set_free (i : Z) (bs : list Z) (h : heap) : heap :=
  mkHeap (fun j => if decide (j = i) then bs else h_free h j) (h_arenas h).

(** How many blocks of the arena [a] are in a free list. *)
Definition count_free (a : Z) (bs : list Z) : Z :=
  Z.of_nat (length (List.filter (fun b => block_to_arena b =? a) bs)).

Section Rep.
Context {PL : Platform} {LK : Linker}.

Definition desc_at (i : Z) : Z := sym_km_block_descs + i * mem_block_desc.sizeof.

Record desc_rep (m : memory) (i : Z) (bs : list Z) : Prop := {
  dr_size : get32 m (desc_at i + mem_block_desc.block_size) = bsize i;
  dr_cnt : get32 m (desc_at i + mem_block_desc.blocks_cnt) = bcount i;
  dr_list : dlist m (desc_at i + mem_block_desc.block_list) bs
}.

Record arena_rep (m : memory) (a i : Z) (bs : list Z) : Prop := {
  ar_desc : get32 m (a + arena.desc) = desc_at i;
  ar_cnt : get32 m (a + arena.cnt) = count_free a bs;
  ar_small : get8 m (a + arena.large) = 0
}.

(** The bytes of the descriptor table and of the arenas. *)
Definition desc_bytes (b : Z) : Prop :=
  sym_km_block_descs <= b < sym_km_block_descs + MEM_BLOCK_DESC_CNT * mem_block_desc.sizeof.
Definition page_bytes (a b : Z) : Prop := a <= b < a + 4096.
Definition heap_bytes (arenas : list (Z * Z)) (b : Z) : Prop :=
  desc_bytes b \/ Exists (fun ai => page_bytes ai.1 b) arenas.

(** An arena is a page with an address of its own, apart from the table. *)
Record arena_place (a i : Z) : Prop := {
  ap_class : is_class i;
  ap_aligned : a mod 4096 = 0;
  ap_range : 0 < a /\ a + 4096 <= 2 ^ 32;
  ap_apart : forall b, page_bytes a b -> ~ desc_bytes b
}.

Definition block_of (arenas : list (Z * Z)) (i b : Z) : Prop :=
  exists a k, (a, i) ∈ arenas /\ 0 <= k < bcount i /\ b = block_at i a k.

Record heap_wf (h : heap) : Prop := {
  hw_place : forall a i, (a, i) ∈ h_arenas h -> arena_place a i;
  hw_nodup : NoDup (h_arenas h).*1;
  hw_blocks : forall i b, is_class i -> b ∈ h_free h i -> block_of (h_arenas h) i b
}.

Record heap_rep (m : memory) (h : heap) : Prop := {
  hr_desc : forall i, is_class i -> desc_rep m i (h_free h i);
  hr_arena : forall a i, (a, i) ∈ h_arenas h -> arena_rep m a i (h_free h i)
}.

End Rep.

(** The offsets of the allocator's structures as numbers. *)
Ltac hoff :=
  unfold desc_bytes, desc_at, page_bytes in *;
  change mem_block_desc.sizeof with 24 in *; change mem_block_desc.block_size with 16 in *;
  change mem_block_desc.blocks_cnt with 20 in *; change mem_block_desc.block_list with 0 in *;
  change MEM_BLOCK_DESC_CNT with 7 in *; change arena.desc with 0 in *; change arena.cnt with 4 in *;
  change arena.large with 8 in *; change arena.sizeof with 12 in *; change PAGE_SIZE with 4096 in *;
  change list.sizeof with 16 in *; change list.head with 0 in *; change list.tail with 8 in *;
  change list_node.sizeof with 8 in *; change (2 ^ 32) with 4294967296 in *.

Section Facts.
Context {PL : Platform} {LK : Linker}.

(** *** Separation *)

Lemma arenas_apart h a i a' i' :
  heap_wf h -> (a, i) ∈ h_arenas h -> (a', i') ∈ h_arenas h -> (a, i) <> (a', i') ->
  a + 4096 <= a' \/ a' + 4096 <= a.
Proof.
  intros Hw H1 H2 Hne. pose proof (ap_aligned _ _ (hw_place _ Hw _ _ H1)).
  pose proof (ap_aligned _ _ (hw_place _ Hw _ _ H2)).
  destruct (decide (a = a')) as [<-|Hd]; [|zlia].
  apply list_elem_of_lookup in H1 as (k1 & H1). apply list_elem_of_lookup in H2 as (k2 & H2).
  pose proof (hw_nodup _ Hw) as Hnd. rewrite NoDup_alt in Hnd.
  assert (k1 = k2) as ->; [|congruence].
  apply (Hnd k1 k2 a); by rewrite list_lookup_fmap, ?H1, ?H2.
Qed.

(** The nodes of a free list lie in the table or in the payload of the arenas
    of its class. *)
Definition payload (arenas : list (Z * Z)) (i b : Z) : Prop :=
  exists a, (a, i) ∈ arenas /\ a + 12 <= b < a + 4096.
Definition header_bytes (i b : Z) : Prop := desc_at i <= b < desc_at i + 16.

Lemma block_payload h i b c :
  heap_wf h -> is_class i -> block_of (h_arenas h) i b -> b <= c < b + bsize i ->
  payload (h_arenas h) i c.
Proof.
  intros Hw Hi (a & k & Ha & Hk & ->) Hc. exists a. split; [done|].
  pose proof (block_bounds i a k Hi Hk). lia.
Qed.

Lemma free_nodes h i b :
  heap_wf h -> is_class i ->
  node_bytes (with_ends (desc_at i + mem_block_desc.block_list) (h_free h i)) b ->
  header_bytes i b \/ payload (h_arenas h) i b.
Proof.
  intros Hw Hi Hb. unfold node_bytes, with_ends, header_bytes in *. apply Exists_exists in Hb as (x & Hx & Hb).
  rewrite elem_of_cons, elem_of_app, list_elem_of_singleton in Hx. hoff.
  destruct Hx as [->|[Hx| ->]]; [left; lia| |left; lia].
  right. eapply block_payload; [done|done|by apply (hw_blocks _ Hw)|].
  pose proof (bsize_bounds i Hi). lia.
Qed.

Lemma payload_apart h i j b :
  heap_wf h -> i <> j -> payload (h_arenas h) i b -> ~ payload (h_arenas h) j b.
Proof.
  intros Hw Hne (a & Ha & Hb) (a' & Ha' & Hb').
  destruct (arenas_apart h a i a' j Hw Ha Ha'); [congruence|lia|lia].
Qed.

Lemma payload_not_desc h i b : heap_wf h -> payload (h_arenas h) i b -> ~ desc_bytes b.
Proof.
  intros Hw (a & Ha & Hb). apply (ap_apart _ _ (hw_place _ Hw _ _ Ha)). unfold page_bytes. lia.
Qed.

Lemma node_cases i bs c :
  node_bytes (with_ends (desc_at i + mem_block_desc.block_list) bs) c ->
  header_bytes i c \/ exists x, x ∈ bs /\ x <= c < x + 8.
Proof.
  intros Hb. unfold node_bytes, with_ends, header_bytes in *. apply Exists_exists in Hb as (x & Hx & Hb).
  rewrite elem_of_cons, elem_of_app, list_elem_of_singleton in Hx. hoff.
  destruct Hx as [->|[Hx| ->]]; [left; lia|right; by exists x|left; lia].
Qed.

Lemma header_not_page h i c a j :
  heap_wf h -> is_class i -> (a, j) ∈ h_arenas h -> header_bytes i c -> ~ a <= c < a + 4096.
Proof.
  intros Hw Hi Ha Hc Hb. apply (ap_apart _ _ (hw_place _ Hw _ _ Ha) c); [exact Hb|].
  unfold header_bytes, is_class in *. hoff. lia.
Qed.

Lemma payload_not_header h i c a j :
  heap_wf h -> (a, j) ∈ h_arenas h -> payload (h_arenas h) i c -> ~ a <= c < a + 12.
Proof.
  intros Hw Ha (x & Hx & Hc). destruct (decide ((x, i) = (a, j))) as [[= -> ->]|Hne]; [lia|].
  destruct (arenas_apart h x i a j Hw Hx Ha Hne); lia.
Qed.

(** Two blocks of a class are the same or do not overlap. *)
Lemma blocks_disjoint h i x b :
  heap_wf h -> is_class i -> block_of (h_arenas h) i x -> block_of (h_arenas h) i b -> x <> b ->
  x + bsize i <= b \/ b + bsize i <= x.
Proof.
  intros Hw Hi (a & k & Ha & Hk & ->) (a' & k' & Ha' & Hk' & ->) Hne.
  pose proof (block_bounds i a k Hi Hk). pose proof (block_bounds i a' k' Hi Hk').
  destruct (decide (a = a')) as [<-|Hd].
  - destruct (Z.lt_trichotomy k k') as [Hlt|[->|Hlt]]; [|done|].
    + pose proof (blocks_apart i a k k' Hi Hlt). lia.
    + pose proof (blocks_apart i a k' k Hi Hlt). lia.
  - destruct (arenas_apart h a i a' i Hw Ha Ha'); [congruence|lia|lia].
Qed.

Lemma block_arena h i b :
  heap_wf h -> is_class i -> block_of (h_arenas h) i b ->
  (block_to_arena b, i) ∈ h_arenas h /\
  block_to_arena b + 12 <= b /\ b + bsize i <= block_to_arena b + 4096.
Proof.
  intros Hw Hi (a & k & Ha & Hk & ->). pose proof (hw_place _ Hw _ _ Ha) as [_ Hal Hr _].
  rewrite block_to_arena_at by (done || lia). split; [done|]. by apply block_bounds.
Qed.

(** *** Updates of one class *)

(** What the operations on class [i] write: the ends of its list, the payload
    of its arenas, and the counter of the arena [a0]. *)
Definition class_touch (arenas : list (Z * Z)) (i a0 b : Z) : Prop :=
  header_bytes i b \/ payload arenas i b \/ a0 + arena.cnt <= b < a0 + arena.cnt + 4.

Lemma class_touch_page h i a0 b :
  heap_wf h -> (a0, i) ∈ h_arenas h -> class_touch (h_arenas h) i a0 b ->
  header_bytes i b \/ (~ desc_bytes b /\ exists a, (a, i) ∈ h_arenas h /\ a + 4 <= b < a + 4096 /\
    (a <> a0 -> a + 12 <= b) /\ ~ a0 + 8 <= b < a0 + 12).
Proof.
  intros Hw H0 [H|[H|H]]; [by left|right|right].
  - split; [by eapply payload_not_desc|]. destruct H as (a & Ha & Hb). exists a.
    destruct (decide (a = a0)) as [->|Hne]; [split_and!; [done|lia..]|].
    destruct (arenas_apart h a i a0 i Hw Ha H0); [congruence|split_and!; [done|lia..]|split_and!; [done|lia..]].
  - hoff. split; [apply (ap_apart _ _ (hw_place _ Hw _ _ H0)); unfold page_bytes; lia|].
    exists a0. split_and!; [done|lia..].
Qed.

Lemma heap_update m m' h i a0 bs :
  heap_wf h -> heap_rep m h -> is_class i -> (a0, i) ∈ h_arenas h ->
  changed_only (class_touch (h_arenas h) i a0) m m' ->
  dlist m' (desc_at i + mem_block_desc.block_list) bs ->
  get32 m' (a0 + arena.cnt) = count_free a0 bs ->
  (forall a, (a, i) ∈ h_arenas h -> a <> a0 -> count_free a bs = count_free a (h_free h i)) ->
  heap_rep m' (set_free i bs h).
Proof.
  intros Hw [Hd Ha] Hi H0 Hc Hl Hn Hcnt.
  assert (Hpage : forall a j, (a, j) ∈ h_arenas h -> forall b, a <= b < a + 12 ->
    (a = a0 -> ~ a + 4 <= b < a + 8) -> get8 m' b = get8 m b).
  { intros a j Haj b Hb Hb0. apply Hc. intros Ht.
    destruct (class_touch_page h i a0 b Hw H0 Ht) as [Hh|(_ & a' & Ha' & Hb' & Hp & Hq)].
    - apply (ap_apart _ _ (hw_place _ Hw _ _ Haj) b); [unfold page_bytes; lia|].
      unfold header_bytes in Hh. unfold is_class in Hi. hoff. lia.
    - destruct (decide ((a, j) = (a', i))) as [[= -> ->]|Hne].
      + destruct (decide (a' = a0)) as [->|]; [|lia]. specialize (Hb0 eq_refl).
        assert (~ payload (h_arenas h) i b).
        { intros (x & Hx & Hxb). destruct (decide (x = a0)); [subst; lia|].
          destruct (arenas_apart h x i a0 i Hw Hx H0); [congruence|lia|lia]. }
        destruct Ht as [Hh|[Hh|Hh]]; [|done|hoff; lia].
        apply (ap_apart _ _ (hw_place _ Hw _ _ H0) b); [unfold page_bytes; lia|].
        unfold header_bytes in Hh. unfold is_class in Hi. hoff. lia.
      + destruct (arenas_apart h a j a' i Hw Haj Ha' Hne); lia. }
  constructor; cbn [h_free h_arenas set_free].
  - intros j Hj. destruct (Hd j Hj) as [E1 E2 E3].
    assert (Hw2 : forall b, desc_at j + 16 <= b < desc_at j + 24 -> get8 m' b = get8 m b).
    { intros b Hb. apply Hc. intros Ht. unfold is_class in *.
      destruct (class_touch_page h i a0 b Hw H0 Ht) as [Hh|(Hnd & _)];
        [unfold header_bytes in Hh; hoff; lia|apply Hnd; hoff; lia]. }
    constructor.
    + rewrite <- E1. apply get32_ext. intros b Hb. apply Hw2. hoff. lia.
    + rewrite <- E2. apply get32_ext. intros b Hb. apply Hw2. hoff. lia.
    + case_decide as E; [by subst|]. eapply dlist_changed_only; [exact Hc| |exact E3].
      intros b Hb%free_nodes Ht; [|done|done]. unfold is_class in *.
      destruct (class_touch_page h i a0 b Hw H0 Ht) as [Hh|(Hnd & a & Haa & Hba & _)].
      * destruct Hb as [Hb|Hb]; [unfold header_bytes in *; hoff; lia|].
        apply (payload_not_desc h j b Hw Hb). unfold header_bytes in *. hoff. lia.
      * destruct Hb as [Hb|(a' & Ha' & Hb)]; [apply Hnd; unfold header_bytes in *; hoff; lia|].
        destruct (arenas_apart h a i a' j Hw Haa Ha'); [congruence|lia|lia].
  - intros a j Haj. destruct (Ha a j Haj) as [E1 E2 E3]. pose proof (Hpage a j Haj) as Hp. constructor.
    + rewrite <- E1. apply get32_ext. intros b Hb. hoff. apply Hp; lia.
    + destruct (decide (a = a0)) as [->|Hne].
      * assert (j = i) as ->; [|by rewrite decide_True].
        destruct (decide (j = i)); [done|]. destruct (arenas_apart h a0 j a0 i Hw Haj H0); [congruence|lia|lia].
      * rewrite (get32_ext m m'); [|intros b Hb; hoff; apply Hp; [lia|done]]. rewrite E2.
        case_decide as E; [|done]. subst j. symmetry. by apply Hcnt.
    + rewrite <- E3. hoff. apply Hp; [lia|lia].
Qed.

(** Writes outside the heap keep it. *)
Lemma heap_frame m m' h :
  heap_wf h -> heap_rep m h ->
  (forall b, heap_bytes (h_arenas h) b -> get8 m' b = get8 m b) -> heap_rep m' h.
Proof.
  intros Hw [Hd Ha] Hc.
  assert (Hdb : forall b, desc_bytes b -> get8 m' b = get8 m b) by (intros b Hb; apply Hc; by left).
  assert (Hab : forall a i b, (a, i) ∈ h_arenas h -> page_bytes a b -> get8 m' b = get8 m b).
  { intros a i b Hin Hb. apply Hc. right. apply Exists_exists. by exists (a, i). }
  constructor.
  - intros i Hi. destruct (Hd i Hi) as [E1 E2 E3]. unfold is_class in *. constructor.
    + rewrite <- E1. apply get32_ext. intros b Hb. apply Hdb. hoff. lia.
    + rewrite <- E2. apply get32_ext. intros b Hb. apply Hdb. hoff. lia.
    + eapply dlist_frame; [|exact E3]. intros b Hb%free_nodes; [|done|done].
      destruct Hb as [Hb|(a & Ha' & Hb)].
      * apply Hdb. unfold header_bytes in Hb. hoff. lia.
      * apply (Hab a i); [done|]. unfold page_bytes. lia.
  - intros a i Hin. destruct (Ha a i Hin) as [E1 E2 E3]. constructor.
    + rewrite <- E1. apply get32_ext. intros b Hb. apply (Hab a i); [done|]. hoff. lia.
    + rewrite <- E2. apply get32_ext. intros b Hb. apply (Hab a i); [done|]. hoff. lia.
    + rewrite <- E3. apply (Hab a i); [done|]. hoff. lia.
Qed.

End Facts.

Section Carve.
Context {PL : Platform} {LK : Linker}.

(** *** Carving an arena *)

Definition blocks (i a : Z) (n : nat) : list Z := map (block_at i a) (seqZ 0 (Z.of_nat n)).

Lemma blocks_snoc i a n : blocks i a (S n) = blocks i a n ++ [block_at i a (Z.of_nat n)].
Proof. unfold blocks. rewrite seqZ_S, map_app. cbn [map]. by rewrite Z.add_0_l. Qed.

Lemma elem_blocks i a n x : x ∈ blocks i a n <-> exists k, 0 <= k < Z.of_nat n /\ x = block_at i a k.
Proof.
  unfold blocks. rewrite list_elem_of_fmap. setoid_rewrite elem_of_seqZ.
  split; intros (k & H1 & H2); exists k; split; done || lia.
Qed.

Definition carve_bytes (i a c : Z) : Prop := header_bytes i c \/ a + 12 <= c < a + 4096.

Lemma new_block_apart i a n :
  arena_place a i -> Z.of_nat n < bcount i ->
  is_node (block_at i a (Z.of_nat n)) /\
  Forall (apart (block_at i a (Z.of_nat n)))
    (with_ends (desc_at i + mem_block_desc.block_list) (blocks i a n)) /\
  forall c, node_bytes (block_at i a (Z.of_nat n) ::
    with_ends (desc_at i + mem_block_desc.block_list) (blocks i a n)) c -> carve_bytes i a c.
Proof.
  intros [Hi Ha Hr Hap] Hn. pose proof (bsize_bounds i Hi) as (Hs & _).
  pose proof (block_bounds i a (Z.of_nat n) Hi ltac:(lia)) as Hb.
  assert (Hh : forall c, header_bytes i c -> ~ page_bytes a c).
  { intros c Hc Hp. apply (Hap c Hp). unfold header_bytes, is_class in *. hoff. lia. }
  unfold header_bytes, page_bytes in Hh. change (2 ^ 32) with 4294967296 in *. clear Ha. split_and!.
  - unfold is_node. hoff. lia.
  - unfold with_ends. constructor; [|apply Forall_app; split; [|constructor; [|constructor]]].
    + pose proof (Hh (desc_at i)). pose proof (Hh (desc_at i + 7)). unfold apart. hoff. lia.
    + apply Forall_forall. intros x (k & Hk & ->)%elem_blocks.
      pose proof (blocks_apart i a k (Z.of_nat n) Hi ltac:(lia)). unfold apart. hoff. lia.
    + pose proof (Hh (desc_at i + 8)). pose proof (Hh (desc_at i + 15)). unfold apart. hoff. lia.
  - intros c [Hc|Hc]%Exists_cons; [right; hoff; lia|].
    destruct (node_cases i _ c Hc) as [?|(x & (k & Hk & ->)%elem_blocks & Hxc)]; [by left|right].
    pose proof (block_bounds i a k Hi ltac:(lia)). lia.
Qed.

(** The loop of [sys_malloc] that fills the empty list of a class with the
    blocks of a new arena ends and lists all of them in order. *)
Lemma carve_blocks_run i a s :
  arena_place a i -> desc_rep (mem s) i [] -> get32 (mem s) (a + arena.desc) = desc_at i ->
  intr_flag s = false ->
  exists m', carve_blocks a s = Ok tt (set_mem m' s) /\
    dlist m' (desc_at i + mem_block_desc.block_list) (blocks i a (Z.to_nat (bcount i))) /\
    changed_only (carve_bytes i a) (mem s) m'.
Proof.
  intros Hp [Hsz Hcnt Hl] Hd Hf. pose proof Hp as [Hi Ha Hr Hap].
  pose proof (bsize_bounds i Hi) as (Hs & Hc & Hfit).
  assert (Hkeep : forall w, (forall c, w <= c < w + 4 -> ~ carve_bytes i a c) -> forall m',
    changed_only (carve_bytes i a) (mem s) m' -> get32 m' w = get32 (mem s) w)
    by (intros w Hw m' Hm; by apply (changed_get32 _ _ _ _ Hm)).
  assert (Hh : forall c, header_bytes i c -> ~ page_bytes a c).
  { intros c Hh Hpb. apply (Hap c Hpb). unfold header_bytes, is_class in *. hoff. lia. }
  assert (K1 : forall c, a + arena.desc <= c < a + arena.desc + 4 -> ~ carve_bytes i a c).
  { intros c Hcb [H|H]; [apply (Hh c H); hoff; lia|hoff; lia]. }
  assert (K2 : forall c, desc_at i + 16 <= c < desc_at i + 24 -> ~ carve_bytes i a c).
  { intros c Hcb [H|H]; [unfold header_bytes in H; lia|].
    apply (Hap c); [unfold page_bytes; lia|]. unfold is_class in Hi. hoff. lia. }
  assert (Hw : wp (carve_blocks a) (fun _ s' => exists m', s' = set_mem m' s /\
    dlist m' (desc_at i + mem_block_desc.block_list) (blocks i a (Z.to_nat (bcount i))) /\
    changed_only (carve_bytes i a) (mem s) m') s).
  { unfold carve_blocks. apply (wp_while _ (fun n k s' => exists j m', k = Z.of_nat j /\
      n = bcount i - k /\ s' = set_mem m' s /\ k <= bcount i /\
      dlist m' (desc_at i + mem_block_desc.block_list) (blocks i a j) /\
      changed_only (carve_bytes i a) (mem s) m') _ _) with (n := bcount i); [|lia|].
    2:{ exists 0%nat, (mem s). rewrite set_mem_id. split_and!; [done|lia|done|lia|done|apply changed_refl]. }
    intros n k s' Hn (j & m' & -> & -> & -> & Hle & Hlj & Hcj). do 4 wstep. cbv beta.
    rewrite (Hkeep _ K1 _ Hcj), Hd, (Hkeep (desc_at i + mem_block_desc.blocks_cnt)), Hcnt
      by (done || (intros c Hcb; apply K2; hoff; lia)).
    rewrite u32_small by lia. destruct (Z.ltb_spec (Z.of_nat j) (bcount i)) as [Hlt|Hge].
    - destruct (new_block_apart i a j Hp Hlt) as (Hn1 & Hn2 & Hn3).
      pose proof (block_bounds i a (Z.of_nat j) Hi ltac:(lia)) as Hb.
      unfold arena_to_block. do 4 wstep. cbv beta. apply wp_bind. do 2 wstep. cbv beta.
      rewrite (Hkeep _ K1 _ Hcj), Hd, (Hkeep (desc_at i + mem_block_desc.block_size)), Hsz
        by (done || (intros c Hcb; apply K2; hoff; lia)).
      replace (u32 (u32 (a + arena.sizeof) + Z.of_nat j * bsize i) + mem_block.block_node)
        with (block_at i a (Z.of_nat j))
        by (unfold block_at in *; change mem_block.block_node with 0; change arena.sizeof with 12 in *;
            rewrite (u32_small (a + 12)), u32_small by lia; lia).
      eapply wp_ok; [by apply list_exist_run|]. cbv beta.
      rewrite bool_decide_false; cycle 1.
      { intros (k' & Hk' & Ek)%elem_blocks. apply block_inj in Ek; [lia|done]. }
      apply wp_bind. eapply wp_ok; [by apply assert_run|]. do 2 wstep. cbv beta. msimpl.
      rewrite (Hkeep _ K1 _ Hcj), Hd. apply wp_bind.
      destruct (list_push_back_run _ _ _ (set_mem m' s) Hlj Hn1 Hn2) as (m2 & E2 & Hl2 & Hc2).
      eapply wp_ok; [exact E2|]. cbv beta. rewrite after_critical_off by done. wstep.
      exists (bcount i - Z.of_nat (S j)). split; [lia|]. exists (S j), m2. rewrite s32_small by lia.
      rewrite blocks_snoc. split_and!; [lia|lia|done|lia|done|].
      eapply changed_trans; [exact Hcj|]. eapply changed_weaken; [exact Hc2|exact Hn3].
    - wstep. exists m'. split_and!; [done| |done]. by replace (Z.to_nat (bcount i)) with j by lia. }
  apply wp_run in Hw as ([] & s' & E & m' & -> & H). by exists m'.
Qed.
End Carve.

(** ** The lock of the heap *)
Section Locked.
Context {PL : Platform} {LK : Linker} (tasks : list Z) (idle : Z).

Definition heap_mutex : Z := sym_kern_pool + pool.mutex.

(** What taking and releasing the mutex may write. *)
Definition lock_bytes (b : Z) : Prop := sem_frame tasks heap_mutex b \/ owner_bytes heap_mutex b.

(** The environment of the heap: its mutex is free and its bytes are its own;
    the running thread has no address space of its own. *)
Record heap_env (a : sched) (arenas : list (Z * Z)) (s : machine) : Prop := {
  he_lay : layout tasks;
  he_home : mutex_home tasks heap_mutex;
  he_mutex : mutex_state tasks idle heap_mutex a NULL 0 [] s;
  he_kernel : t_page_dir (s_tcb a (s_cur a)) = NULL;
  he_apart : forall b, heap_bytes arenas b -> ~ lock_bytes b
}.

Record heap_held (a : sched) (arenas : list (Z * Z)) (s : machine) : Prop := {
  hh_lay : layout tasks;
  hh_home : mutex_home tasks heap_mutex;
  hh_mutex : mutex_state tasks idle heap_mutex a (s_cur a) 1 [] s;
  hh_apart : forall b, heap_bytes arenas b -> ~ lock_bytes b
}.

Lemma unlocked_free b : ~ lock_bytes b -> free_byte tasks heap_mutex b.
Proof.
  unfold lock_bytes, sem_frame, free_byte. intros H. split_and!; [tauto|tauto|].
  intros t Ht Hb. apply H. left. right. right. right. apply Exists_exists. eauto.
Qed.

(** Writes to bytes the lock does not use keep its state. *)
Lemma mutex_frame mx a hd r ws s (P : Z -> Prop) m' :
  mx = heap_mutex -> layout tasks -> mutex_state tasks idle mx a hd r ws s ->
  changed_only P (mem s) m' -> (forall b, P b -> ~ lock_bytes b) ->
  mutex_state tasks idle mx a hd r ws (set_mem m' s).
Proof.
  intros -> Hl [H1 H2 H3 H4] Hc HP.
  assert (Ho : forall b, heap_mutex + 20 <= b < heap_mutex + 25 -> get8 m' b = get8 (mem s) b).
  { intros b Hb. apply Hc. intros HPb. apply (HP b HPb). by right. }
  unfold mutex_t.holder, mutex_t.recursion in *. constructor; msimpl; [| | |done].
  - eapply sem_state_frame; [done|done|done|]. intros b Hb. by apply unlocked_free, HP.
  - rewrite <- H2. apply get32_ext. intros b Hb. apply Ho. unfold mutex_t.holder in *. lia.
  - rewrite <- H3. apply Ho. unfold mutex_t.recursion. lia.
Qed.

Lemma mutex_esp mx a hd r ws s :
  mutex_state tasks idle mx a hd r ws s -> esp s = s_esp a.
Proof. intros [[_ _ [_ H _] _] _ _ _]. exact H. Qed.

Lemma held_write a arenas s m' f P :
  heap_held a arenas s -> changed_only P (mem s) m' -> (forall b, P b -> heap_bytes arenas b) ->
  heap_held a arenas (set_intr_flag f (set_mem m' s)).
Proof.
  intros [H1 H2 H3 H4] Hc HP. constructor; [done|done| |done].
  apply mutex_flag. eapply mutex_frame; [done|done|done|exact Hc|]. auto.
Qed.

Lemma heap_lock_run a h s :
  heap_env a (h_arenas h) s -> heap_wf h -> heap_rep (mem s) h ->
  exists s', mutex_lock heap_mutex s = Ok tt s' /\ heap_held a (h_arenas h) s' /\ heap_rep (mem s') h /\
    intr_flag s' = flag_after (intr_flag s) /\ vars s' = vars s /\ trace s' = trace s /\
    changed_only lock_bytes (mem s) (mem s').
Proof.
  intros [H1 H2 H3 H4 H5] Hw Hr.
  destruct (mutex_lock_free tasks idle H1 heap_mutex H2 a [] s H3) as (s' & E & Hm & Hf & Hv & Ht & Hc).
  exists s'. split_and!; try done.
  eapply heap_frame; [done|done|]. intros b Hb. apply Hc. by apply H5.
Qed.

Lemma heap_unlock_run a h s :
  heap_held a (h_arenas h) s -> t_page_dir (s_tcb a (s_cur a)) = NULL -> heap_wf h -> heap_rep (mem s) h ->
  exists s', mutex_unlock heap_mutex s = Ok tt s' /\ heap_env a (h_arenas h) s' /\ heap_rep (mem s') h /\
    intr_flag s' = flag_after (intr_flag s) /\ vars s' = vars s /\ trace s' = trace s /\
    changed_only lock_bytes (mem s) (mem s').
Proof.
  intros [H1 H2 H3 H5] Hpd Hw Hr.
  destruct (mutex_unlock_last tasks idle H1 heap_mutex H2 a (s_cur a) [] s H3)
    as (s' & E & Hm & Hf & Hv & Ht & Hc).
  exists s'. split_and!; try done.
  eapply heap_frame; [done|done|]. intros b Hb. apply Hc. by apply H5.
Qed.

(** The descriptor table tells the class of a request. *)
Lemma class_loop n lo size s :
  (forall i, lo <= i < lo + Z.of_nat n ->
     get32 (mem s) (desc_at i + mem_block_desc.block_size) = bsize i) ->
  for_exit lo n (fun i =>
    bs ← ld32 (sym_km_block_descs + i * mem_block_desc.sizeof + mem_block_desc.block_size);
    mret (if size <=? bs then Some i else None)) s
  = Ok (if class_from n lo size <? lo + Z.of_nat n then Some (class_from n lo size) else None) s.
Proof.
  revert lo. induction n as [|n IH]; intros lo Hd.
  - cbn [for_exit class_from Z.of_nat]. by rewrite Z.add_0_r, Z.ltb_irrefl.
  - erewrite for_exit_step by reflexivity. cbn [class_from].
    fold (desc_at lo). rewrite Hd by lia. destruct (size <=? bsize lo).
    + by rewrite (proj2 (Z.ltb_lt lo _)) by lia.
    + rewrite IH by (intros i Hi; apply Hd; lia).
      by replace (lo + 1 + Z.of_nat n) with (lo + Z.of_nat (S n)) by lia.
Qed.

Lemma class_search m h size s :
  heap_rep m h -> mem s = m -> size <= 1024 ->
  for_exit 0 (Z.to_nat MEM_BLOCK_DESC_CNT) (fun i =>
    bs ← ld32 (sym_km_block_descs + i * mem_block_desc.sizeof + mem_block_desc.block_size);
    mret (if size <=? bs then Some i else None)) s = Ok (Some (class_of size)) s.
Proof.
  intros Hr <- Hn. rewrite class_loop.
  - change (Z.to_nat MEM_BLOCK_DESC_CNT) with 7%nat. fold (class_of size).
    destruct (class_of_spec size Hn) as (Hc & _). unfold is_class in Hc.
    by rewrite (proj2 (Z.ltb_lt (class_of size) _)) by lia.
  - intros i Hi. apply (hr_desc _ _ Hr). unfold is_class. change (Z.to_nat MEM_BLOCK_DESC_CNT) with 7%nat in Hi. lia.
Qed.

(** *** Counting free blocks *)

Lemma count_free_cons x b bs :
  count_free x (b :: bs) = (if block_to_arena b =? x then 1 else 0) + count_free x bs.
Proof. unfold count_free. cbn [List.filter]. destruct (block_to_arena b =? x); cbn [length]; lia. Qed.

Lemma count_free_snoc x b bs :
  count_free x (bs ++ [b]) = count_free x bs + (if block_to_arena b =? x then 1 else 0).
Proof.
  unfold count_free. rewrite List.filter_app, length_app. cbn [List.filter].
  destruct (block_to_arena b =? x); cbn [length]; lia.
Qed.

(** *** Taking a block *)

Lemma set_free_wf h i bs :
  heap_wf h -> (forall b, is_class i -> b ∈ bs -> block_of (h_arenas h) i b) -> heap_wf (set_free i bs h).
Proof.
  intros [H1 H2 H3] Hb. constructor; cbn; [done|done|]. intros j b Hj. case_decide; [subst; by apply Hb|].
  by apply H3.
Qed.

Lemma class_touch_heap h i a0 b :
  heap_wf h -> is_class i -> (a0, i) ∈ h_arenas h -> class_touch (h_arenas h) i a0 b ->
  heap_bytes (h_arenas h) b.
Proof.
  intros Hw Hi H0 Ht. destruct (class_touch_page h i a0 b Hw H0 Ht) as [Hb|(_ & a & Ha & Hb & _)].
  - left. unfold header_bytes, is_class in *. hoff. lia.
  - right. apply Exists_exists. exists (a, i). split; [done|]. unfold page_bytes. cbn. lia.
Qed.

(** Clearing the block [b] and writing the counter of its arena keeps a list
    of other blocks. *)
Lemma clear_block m h i b bs v :
  heap_wf h -> is_class i -> block_of (h_arenas h) i b -> b ∉ bs ->
  (forall x, x ∈ bs -> block_of (h_arenas h) i x) ->
  dlist m (desc_at i + mem_block_desc.block_list) bs ->
  dlist (put32 (put_bytes m b (replicate (Z.to_nat (bsize i)) 0)) (block_to_arena b + arena.cnt) v)
    (desc_at i + mem_block_desc.block_list) bs.
Proof.
  intros Hw Hi Hb Hn Hbs Hl. destruct (block_arena h i b Hw Hi Hb) as (Ha & Hb1 & Hb2).
  pose proof (bsize_bounds i Hi) as Hsz. set (a0 := block_to_arena b) in *.
  eapply dlist_frame; [|exact Hl]. intros c Hc.
  destruct (node_cases i bs c Hc) as [Hh|(x & Hx & Hxc)].
  - pose proof (header_not_page h i c a0 i Hw Hi Ha Hh).
    rewrite get8_put32_ne, get8_put_bytes_ne by (rewrite ?length_replicate; hoff; lia). done.
  - specialize (Hbs x Hx). assert (Hne : x <> b) by (by intros ->).
    assert (Hp : payload (h_arenas h) i c) by (eapply block_payload; [done|done|exact Hbs|lia]).
    pose proof (payload_not_header h i c a0 i Hw Ha Hp).
    pose proof (blocks_disjoint h i x b Hw Hi Hbs Hb Hne).
    rewrite get8_put32_ne, get8_put_bytes_ne by (rewrite ?length_replicate; hoff; lia). done.
Qed.

Lemma take_block_run a h s i b bs :
  heap_held a (h_arenas h) s -> t_page_dir (s_tcb a (s_cur a)) = NULL -> heap_wf h -> heap_rep (mem s) h ->
  is_class i -> h_free h i = b :: bs ->
  exists s', take_block (desc_at i) sym_kern_pool s = Ok b s' /\
    heap_env a (h_arenas h) s' /\ heap_rep (mem s') (set_free i bs h) /\
    (forall c, b <= c < b + bsize i -> get8 (mem s') c = 0) /\
    vars s' = vars s /\ trace s' = trace s /\
    changed_only (fun c => lock_bytes c \/ class_touch (h_arenas h) i (block_to_arena b) c) (mem s) (mem s').
Proof.
  intros Hh Hpd Hw Hr Hi Hfree.
  destruct (hr_desc _ _ Hr i Hi) as [Esz Ecnt Hl]. rewrite Hfree in Hl.
  assert (Hb : block_of (h_arenas h) i b) by (apply (hw_blocks _ Hw); [done|rewrite Hfree; by left]).
  destruct (block_arena h i b Hw Hi Hb) as (H0 & Hb1 & Hb2). set (a0 := block_to_arena b) in *.
  pose proof (bsize_bounds i Hi) as Hsz. pose proof (hw_place _ Hw _ _ H0) as [_ _ Hrange _].
  destruct (list_pop_front_run _ b bs s Hl) as (m1 & E1 & Hl1 & Hc1).
  set (T := class_touch (h_arenas h) i a0).
  assert (HT : forall c, T c -> heap_bytes (h_arenas h) c) by (intros c; by apply class_touch_heap).
  assert (Hbs : forall x, x ∈ bs -> block_of (h_arenas h) i x).
  { intros x Hx. apply (hw_blocks _ Hw); [done|]. rewrite Hfree. by right. }
  assert (Hnodes : forall c, node_bytes (with_ends (desc_at i + mem_block_desc.block_list) bs) c ->
            header_bytes i c \/ payload (h_arenas h) i c).
  { intros c Hc. destruct (node_cases i bs c Hc) as [?|(x & Hx & Hxc)]; [by left|right].
    eapply block_payload; [done|done|by apply Hbs|lia]. }
  assert (Hc1' : changed_only T (mem s) m1).
  { eapply changed_weaken; [exact Hc1|]. intros c [?|?]%Hnodes; [by left|by right; left]. }
  set (m2 := put_bytes m1 b (replicate (Z.to_nat (bsize i)) 0)).
  assert (Hc2 : changed_only T m1 m2).
  { intros c Hc. apply get8_put_bytes_ne. rewrite length_replicate. intros Hcb. apply Hc. right. left.
    exists a0. split; [done|]. lia. }
  assert (Hcw : get32 m2 (a0 + arena.cnt) = 1 + count_free a0 bs).
  { unfold m2. rewrite get32_put_bytes_ne by (rewrite length_replicate; hoff; lia).
    rewrite (changed_get32 _ _ _ _ Hc1), (ar_cnt _ _ _ _ (hr_arena _ _ Hr _ _ H0)), Hfree, count_free_cons.
    - unfold a0. by rewrite Z.eqb_refl.
    - intros c Hc [H|H]%Hnodes.
      + eapply (header_not_page h i c a0 i); try done. hoff. lia.
      + eapply (payload_not_header h i c a0 i); try done. hoff. lia. }
  pose proof (get32_range m2 (a0 + arena.cnt)) as Hcr. rewrite Hcw in Hcr.
  assert (Hcf : 0 <= count_free a0 bs) by (unfold count_free; lia).
  set (m3 := put32 m2 (a0 + arena.cnt) (1 + count_free a0 bs - 1)).
  assert (Hc3 : changed_only T m2 m3) by (apply changed_put32; intros c Hc; right; by right).
  pose proof (changed_trans _ _ _ _ (changed_trans _ _ _ _ Hc1' Hc2) Hc3) as Hc.
  assert (Hnb : b ∉ bs).
  { destruct Hl as [_ Hla]. apply all_apart_NoDup in Hla. unfold with_ends in Hla.
    apply NoDup_cons in Hla as [_ Hla]. cbn in Hla. apply NoDup_cons in Hla as [Hla _].
    intros Hin. apply Hla, elem_of_app. by left. }
  assert (Hr3 : heap_rep m3 (set_free i bs h)).
  { apply (heap_update (mem s) m3 h i a0 bs); try done.
    - by apply (clear_block m1 h i b bs).
    - unfold m3. rewrite get32_put32_eq, u32_small by lia. lia.
    - intros x Hx Hne. rewrite Hfree, count_free_cons. fold a0. by rewrite (proj2 (Z.eqb_neq a0 x)). }
  assert (Hw' : heap_wf (set_free i bs h)) by (apply set_free_wf; auto).
  pose proof (held_write a _ s m3 (flag_after (intr_flag s)) T Hh Hc HT) as Hh3.
  destruct (heap_unlock_run a (set_free i bs h) _ Hh3 Hpd Hw' Hr3)
    as (s' & E2 & He & Hr' & _ & Hv & Htr & Hcu).
  exists s'. split.
  { unfold take_block. rewrite (bind_ok _ _ _ _ _ E1). unfold node_to_block.
    erewrite bind_ok by reflexivity. cbv beta zeta.
    assert (Es : get32 m1 (desc_at i + mem_block_desc.block_size) = bsize i).
    { rewrite (changed_get32 _ _ _ _ Hc1); [done|]. intros c Hcb [H|H]%Hnodes.
      - unfold header_bytes in H. hoff. lia.
      - apply (payload_not_desc h i c Hw H). unfold is_class in Hi. hoff. lia. }
    unfold after_critical. msimpl. rewrite Es.
    rewrite (bind_ok _ _ _ _ _ (memset_run b 0 (bsize i) _ ltac:(lia))). fold a0. msimpl.
    erewrite bind_ok by reflexivity. cbv beta. msimpl. fold m2. rewrite Hcw.
    erewrite bind_ok by reflexivity. cbv beta. msimpl. fold m3.
    change (sym_kern_pool + pool.mutex) with heap_mutex.
    erewrite bind_ok by exact E2. reflexivity. }
  split_and!; [done|done| |by rewrite Hv|by rewrite Htr|].
  - intros c Hcb. rewrite Hcu; [|apply (he_apart _ _ _ He); right; apply Exists_exists; exists (a0, i);
      split; [done|unfold page_bytes; cbn; lia]].
    unfold after_critical. msimpl. unfold m3. rewrite get8_put32_ne by (hoff; lia).
    unfold m2. rewrite get8_put_bytes_replicate, decide_True by lia. done.
  - eapply changed_trans; [eapply changed_weaken; [exact Hc|auto]|]. eapply changed_weaken; [exact Hcu|auto].
Qed.

(** *** sys_malloc on small requests *)

(** [sys_malloc] has taken the mutex and chosen the class. *)
Lemma sys_malloc_enter a h size s :
  heap_env a (h_arenas h) s -> heap_wf h -> heap_rep (mem s) h ->
  size <= 1024 -> size <= get32 (mem s) (sym_kern_pool + pool.pool_size) ->
  let i := class_of size in
  exists s1, heap_held a (h_arenas h) s1 /\ heap_rep (mem s1) h /\
    intr_flag s1 = flag_after (intr_flag s) /\ vars s1 = vars s /\ trace s1 = trace s /\
    changed_only lock_bytes (mem s) (mem s1) /\
    sys_malloc size s =
      (ok ← (if bool_decide (h_free h i = []) then new_arena PF_KERNEL (desc_at i) else mret true);
       if negb ok then mutex_unlock heap_mutex;; mret NULL
       else take_block (desc_at i) sym_kern_pool) s1.
Proof.
  intros He Hw Hr Hn Hp i. destruct (class_of_spec size Hn) as (Hi & _).
  destruct (heap_lock_run a h s He Hw Hr) as (s1 & E & Hh & Hr1 & Hf & Hv & Ht & Hc).
  exists s1. split_and!; try done.
  destruct He as [_ _ [[[Hw0 _] _ Hruns _] _ _ _] Hk _].
  unfold sys_malloc. rewrite (bind_ok _ _ _ _ _ (running_thread_run _ (hh_lay _ _ _ Hh) _ _ _ Hw0 Hruns)).
  erewrite bind_ok by reflexivity. cbv beta.
  rewrite (at_page_dir _ _ _ (rep_tcb _ _ _ (run_rep _ _ _ _ Hruns) _ (wf_cur _ _ _ Hw0))), Hk.
  cbn [Z.eqb NULL]. erewrite bind_ok by reflexivity. cbv beta.
  rewrite (proj2 (Z.ltb_ge _ _)) by exact Hp.
  change (sym_kern_pool + pool.mutex) with heap_mutex. rewrite (bind_ok _ _ _ _ _ E).
  rewrite (proj2 (Z.ltb_ge 1024 size)) by exact Hn.
  rewrite (bind_ok _ _ _ _ _ (class_search (mem s1) h size s1 Hr1 eq_refl Hn)). cbn [default].
  fold i. change (sym_km_block_descs + i * mem_block_desc.sizeof) with (desc_at i). cbv zeta.
  by rewrite (bind_ok _ _ _ _ _ (list_empty_run _ _ _ (dr_list _ _ _ (hr_desc _ _ Hr1 i Hi)))).
Qed.

(** What a successful small allocation promises: the block [b] was free, it
    and nothing else has left the free list, and its bytes are zero. *)
Record block_taken (a : sched) (h : heap) (i b : Z) (bs : list Z) (s' : machine) : Prop := {
  bt_env : heap_env a (h_arenas h) s';
  bt_rep : heap_rep (mem s') (set_free i bs h);
  bt_wf : heap_wf (set_free i bs h);
  bt_block : block_of (h_arenas h) i b;
  bt_zero : forall c, b <= c < b + bsize i -> get8 (mem s') c = 0
}.

Lemma sys_malloc_reuse_run a h size b bs s :
  heap_env a (h_arenas h) s -> heap_wf h -> heap_rep (mem s) h ->
  size <= 1024 -> size <= get32 (mem s) (sym_kern_pool + pool.pool_size) ->
  let i := class_of size in
  h_free h i = b :: bs ->
  exists s', sys_malloc size s = Ok b s' /\ block_taken a h i b bs s' /\
    vars s' = vars s /\ trace s' = trace s /\
    changed_only (fun c => lock_bytes c \/ class_touch (h_arenas h) i (block_to_arena b) c) (mem s) (mem s').
Proof.
  intros He Hw Hr Hn Hp i Hf. destruct (class_of_spec size Hn) as (Hi & _).
  destruct (sys_malloc_enter a h size s He Hw Hr Hn Hp) as (s1 & Hh & Hr1 & _ & Hv & Ht & Hc & ->).
  fold i. rewrite Hf. rewrite bool_decide_false by done. erewrite bind_ok by reflexivity. cbn [negb].
  destruct (take_block_run a h s1 i b bs Hh (he_kernel _ _ _ He) Hw Hr1 Hi Hf)
    as (s' & E & He' & Hr' & Hz & Hv' & Ht' & Hc').
  exists s'. split_and!; [done| |congruence|congruence|].
  - constructor; try done.
    + apply set_free_wf; [done|]. intros x _ Hx. apply (hw_blocks _ Hw); [done|]. rewrite Hf. by right.
    + apply (hw_blocks _ Hw); [done|]. rewrite Hf. by left.
  - eapply changed_trans; [eapply changed_weaken; [exact Hc|auto]|exact Hc'].
Qed.
End Locked.
