(* ===== verification/HeapGrow.v ===== *)
(** * Growing the heap (kernel/memory.c: sys_malloc with an empty free list)

    The pages of the kernel's address space as the allocator sees them, the
    making of a new arena, and the contract of [sys_malloc] on small
    requests. *)

From S2P Require Import Prelude Machine Concrete Interrupt CString Bitmap DList Paging Tss Sched Lock Memory Malloc Heap.

#[local] Open Scope Z_scope.

(** ** The pages behind the heap *)
Section Pages.
Context {PL : Platform} {LK : Linker}.
Context (Hpte : forall v, pte_ptr_ret v = v).

(** What the page allocator reads: the head of the pool, the pool of virtual
    pages, their bitmaps, and the page tables. *)
Definition admin (m : memory) (b : Z) : Prop :=
  sym_kern_pool <= b < sym_kern_pool + 16 \/ vaddr_struct b \/ pool_bits m b \/ vaddr_bits m b \/
  0xffc00000 <= b.

Record same_pages (m m' : memory) : Prop := {
  sg_start : kvaddr_start m' = kvaddr_start m;
  sg_length : bm_length m' kvaddr_bm = bm_length m kvaddr_bm;
  sg_bits : bm_bits m' kvaddr_bm = bm_bits m kvaddr_bm;
  sg_pool : same_pool m m' sym_kern_pool
}.

Record same_bits (m m' : memory) : Prop := {
  sb_virtual : forall j, 0 <= j < nbits m kvaddr_bm -> bit m' kvaddr_bm j = bit m kvaddr_bm j;
  sb_frames : forall j, 0 <= j < nbits m (pool_bm sym_kern_pool) ->
    bit m' (pool_bm sym_kern_pool) j = bit m (pool_bm sym_kern_pool) j
}.

Lemma same_pages_trans m1 m2 m3 : same_pages m1 m2 -> same_pages m2 m3 -> same_pages m1 m3.
Proof.
  intros [A1 A2 A3 A4] [B1 B2 B3 B4].
  constructor; [congruence..|by eapply same_pool_trans].
Qed.

Lemma same_nbits m m' : same_pages m m' -> nbits m' kvaddr_bm = nbits m kvaddr_bm.
Proof. intros [_ E _ _]. unfold nbits. by rewrite E. Qed.
Lemma same_kpage m m' j : same_pages m m' -> kpage m' j = kpage m j.
Proof. intros [E _ _ _]. unfold kpage. by rewrite E. Qed.
Lemma same_frames m m' :
  same_pages m m' -> nbits m' (pool_bm sym_kern_pool) = nbits m (pool_bm sym_kern_pool).
Proof. intros [_ _ _ (E & _)]. unfold nbits. by rewrite E. Qed.
Lemma same_frame m m' f : same_pages m m' -> frame m' sym_kern_pool f = frame m sym_kern_pool f.
Proof. intros [_ _ _ (_ & _ & E)]. unfold frame. by rewrite E. Qed.
Lemma same_admin m m' b : same_pages m m' -> admin m' b -> admin m b.
Proof.
  intros [_ E1 E2 (E3 & E4 & _)]. unfold admin, pool_bits, vaddr_bits, bits_area.
  by rewrite E1, E2, E3, E4.
Qed.

(** The words that describe the pools survive writes elsewhere. *)
Lemma same_pages_frame m m' P :
  changed_only P m m' ->
  (forall b, P b -> ~ (sym_kern_pool <= b < sym_kern_pool + 16) /\ ~ vaddr_struct b) -> same_pages m m'.
Proof.
  intros Hc HP.
  assert (Hv : forall w, sym_kern_vaddr <= w -> w + 4 <= sym_kern_vaddr + 12 -> get32 m' w = get32 m w).
  { intros w H1 H2. apply (changed_get32 _ _ _ _ Hc). intros b Hb HPb. destruct (HP b HPb) as [_ H].
    apply H. unfold vaddr_struct, virtual_addr.sizeof. lia. }
  assert (Hp : forall w, sym_kern_pool <= w -> w + 4 <= sym_kern_pool + 16 -> get32 m' w = get32 m w).
  { intros w H1 H2. apply (changed_get32 _ _ _ _ Hc). intros b Hb HPb. destruct (HP b HPb) as [H _]. lia. }
  constructor; [apply Hv..|split_and!; apply Hp]; unfold kvaddr_bm, virtual_addr.vaddr_start,
    virtual_addr.vaddr_bitmap, pool_bm, pool.pool_bitmap, pool.phy_addr_start, bitmap.length, bitmap.bits; lia.
Qed.

(** The pools are unchanged, but for the bits; the page tables are still there,
    and the pages that are free now are not mapped. *)
Lemma heap_ok_update m m' :
  heap_ok m -> same_pages m m' ->
  (forall w, 0xfffff000 <= w -> get32 m' w = get32 m w) ->
  (forall j, 0 <= j < nbits m kvaddr_bm -> bit m' kvaddr_bm j = false -> unmapped m' (kpage m j)) ->
  heap_ok m'.
Proof.
  intros Hh Hs Hpde Hun. pose proof (same_nbits _ _ Hs) as En. pose proof (fun j => same_kpage _ _ j Hs) as Ek.
  destruct Hh as [H1 [H2 H2'] H3 H4 H5 H6 H7 H8].
  assert (Hr : forall j, 0 <= j < nbits m kvaddr_bm -> 0 <= kpage m j < 0xffc00000).
  { intros j Hj. destruct (kpage_range m j) as (? & ? & _); [by constructor|done|lia]. }
  constructor.
  - by eapply same_pool_ok; [apply Hs|].
  - destruct Hs as [_ E1 E2 _]. constructor; unfold nbits in *; by rewrite ?E1, ?E2.
  - rewrite En, Ek. by rewrite (sg_start _ _ Hs).
  - intros b Hb. destruct (H4 b) as (? & Hv & ?).
    + revert Hb. apply bits_area_eq; apply Hs.
    + split_and!; [done| |done]. intros Hb'. apply Hv. revert Hb'. apply bits_area_eq; apply Hs.
  - intros b Hb. apply H5. revert Hb. apply bits_area_eq; apply Hs.
  - done.
  - intros j Hj. rewrite En in Hj. rewrite Ek. unfold pde_present. rewrite Hpde; [by apply H7|].
    specialize (Hr j Hj). apply pde_window. zlia.
  - intros j Hj Hb. rewrite En in Hj. rewrite Ek. by apply Hun.
Qed.

Lemma admin_frame m m' P :
  changed_only P m m' -> (forall b, P b -> ~ admin m b) -> heap_ok m ->
  heap_ok m' /\ same_pages m m' /\ same_bits m m'.
Proof.
  intros Hc HP Hh.
  assert (Hs : same_pages m m').
  { eapply same_pages_frame; [exact Hc|]. intros b Hb. specialize (HP b Hb). unfold admin in HP. tauto. }
  assert (Hbits : same_bits m m').
  { constructor; intros j Hj; unfold bit.
    - rewrite (sg_bits _ _ Hs). f_equal. apply Hc. intros Hb. apply (HP _ Hb). right. right. right. left.
      unfold vaddr_bits, bits_area, nbits in *. zlia.
    - destruct (sg_pool _ _ Hs) as (_ & -> & _). f_equal. apply Hc. intros Hb. apply (HP _ Hb).
      right. right. left. unfold pool_bits, bits_area, nbits in *. zlia. }
  split; [|done].
  assert (Htab : forall w, 0xffc00000 <= w -> get32 m' w = get32 m w).
  { intros w Hw. apply (changed_get32 _ _ _ _ Hc). intros b Hb HPb. apply (HP b HPb). unfold admin. lia. }
  apply (heap_ok_update m); [done|done|intros w Hw; apply Htab; lia|].
  intros j Hj Hb. rewrite (sb_virtual _ _ Hbits j Hj) in Hb. unfold unmapped. rewrite Htab.
  - by apply (hk_unmapped _ Hh).
  - destruct (kpage_range m j Hh Hj) as (? & ? & _). destruct (pte_window Hpte (kpage m j)); lia.
Qed.

Lemma entry_frame m m' P v :
  changed_only P m m' -> (forall b, P b -> ~ admin m b) -> 0 <= v < 0xffc00000 ->
  get32 m' (pte_ptr v) = get32 m (pte_ptr v).
Proof.
  intros Hc HP Hv. apply (changed_get32 _ _ _ _ Hc).
  intros b Hb HPb. apply (HP b HPb). destruct (pte_window Hpte v Hv). unfold admin. lia.
Qed.

Lemma mapped_frame m m' P v f :
  changed_only P m m' -> (forall b, P b -> ~ admin m b) -> 0 <= v < 0xffc00000 ->
  mapped m v f -> mapped m' v f.
Proof. intros Hc HP Hv Hm. unfold mapped. by rewrite (entry_frame m m' P v). Qed.

(** The bitmaps and the page tables are apart from what describes them. *)
Lemma page_area_structs m b :
  heap_ok m -> vaddr_bits m b \/ pool_bits m b \/ window b ->
  ~ (sym_kern_pool <= b < sym_kern_pool + 16) /\ ~ vaddr_struct b.
Proof.
  intros Hh Hb. destruct (hk_structs _ Hh) as [Hs1 Hs2]. unfold pool.sizeof, virtual_addr.sizeof in *.
  destruct Hb as [Hb|[Hb|Hb]].
  - destruct (hk_vaddr_bits _ Hh b Hb) as (H1 & H2 & _). split; [|done]. intros Hx. apply H2.
    unfold pool_struct, pool.sizeof. lia.
  - destruct (hk_pool_bits _ Hh b Hb) as (H1 & _ & _). split; [|done]. intros Hx.
    apply (po_sep _ _ (hk_pool _ Hh) b Hb). unfold pool.sizeof. lia.
  - unfold window, vaddr_struct, virtual_addr.sizeof in *. lia.
Qed.

(** A successful [malloc_page] keeps the description of the pools. *)
Lemma pages_mapped_same m n p ps m' : heap_ok m -> pages_mapped m n p ps m' -> same_pages m m'.
Proof.
  intros Hh Hm. eapply same_pages_frame; [apply (pm_frame _ _ _ _ _ Hm)|].
  intros b Hb. by apply (page_area_structs m).
Qed.
End Pages.

(** ** The heap and its pages *)
Section Space.
Context {PL : Platform} {LK : Linker} (tasks : list Z) (idle : Z).
Context (Hpte : forall v, pte_ptr_ret v = v).

(** The pages not in use are really free: nothing else lives on them; and what
    lives elsewhere is not the page allocator's. *)
Record heap_space (m : memory) (arenas : list (Z * Z)) : Prop := {
  hs_ok : heap_ok m;
  hs_free : forall j b, 0 <= j < nbits m kvaddr_bm -> bit m kvaddr_bm j = false ->
    page_bytes (kpage m j) b -> ~ desc_bytes b /\ ~ lock_bytes tasks b /\ ~ admin m b;
  hs_used : forall a i, (a, i) ∈ arenas ->
    exists j, 0 <= j < nbits m kvaddr_bm /\ bit m kvaddr_bm j = true /\ a = kpage m j;
  hs_mapped : forall a i, (a, i) ∈ arenas ->
    exists f, 0 <= f < nbits m (pool_bm sym_kern_pool) /\ bit m (pool_bm sym_kern_pool) f = true /\
      mapped m a (frame m sym_kern_pool f);
  hs_distinct : forall a i a' i', (a, i) ∈ arenas -> (a', i') ∈ arenas ->
    get32 m (pte_ptr a) = get32 m (pte_ptr a') -> a = a';
  hs_heap : forall b, heap_bytes arenas b -> ~ admin m b;
  hs_lock : forall b, lock_bytes tasks b -> ~ admin m b
}.

Lemma heap_space_write m m' arenas P :
  heap_space m arenas -> changed_only P m m' -> (forall b, P b -> ~ admin m b) -> heap_space m' arenas.
Proof.
  intros [H1 H2 H3 H3' Hdi H4 H5] Hc HP. destruct (admin_frame Hpte m m' P Hc HP H1) as (Hh & Hs & Hb).
  pose proof (same_nbits _ _ Hs) as En. constructor; [done|..].
  - intros j b Hj Hf Hpb. rewrite En in Hj. rewrite (sb_virtual _ _ Hb j Hj) in Hf.
    rewrite (same_kpage _ _ j Hs) in Hpb. destruct (H2 j b Hj Hf Hpb) as (? & ? & Ha).
    split_and!; [done|done|]. intros Hx. by apply Ha, (same_admin m m').
  - intros a i Hin. destruct (H3 a i Hin) as (j & Hj & Hu & ->). exists j.
    rewrite En, (sb_virtual _ _ Hb j Hj), (same_kpage _ _ j Hs). done.
  - intros a i Hin. destruct (H3' a i Hin) as (f & Hf & Hu & Hm). exists f.
    rewrite (same_frames _ _ Hs), (sb_frames _ _ Hb f Hf), (same_frame _ _ f Hs).
    split_and!; [lia|lia|done|]. destruct (H3 a i Hin) as (j & Hj & _ & ->).
    eapply (mapped_frame Hpte); [exact Hc|exact HP|destruct (kpage_range m j H1 Hj); lia|done].
  - assert (Hpt : forall a i, (a, i) ∈ arenas -> get32 m' (pte_ptr a) = get32 m (pte_ptr a)).
    { intros a i Hin. destruct (H3 a i Hin) as (j & Hj & _ & ->). destruct (kpage_range m j H1 Hj) as (K1 & K2 & _).
      apply (entry_frame Hpte m m' P); [done|done|lia]. }
    intros a i a' i' Ha Ha'. rewrite (Hpt a i Ha), (Hpt a' i' Ha'). by apply (Hdi a i a' i').
  - intros b Hin Hx. by apply (H4 b Hin), (same_admin m m').
  - intros b Hin Hx. by apply (H5 b Hin), (same_admin m m').
Qed.

(** One page taken from the page allocator, to become an arena. *)
Lemma page_taken m arenas i p ps m' :
  heap_space m arenas -> is_class i -> pages_mapped m 1 p ps m' ->
  arena_place (kpage m p) i /\ heap_space m' ((kpage m p, i) :: arenas) /\
  (forall x j, (x, j) ∈ arenas -> x <> kpage m p) /\
  (forall b, page_bytes (kpage m p) b -> ~ lock_bytes tasks b).
Proof.
  intros [H1 H2 H3 H3' Hdi H4 H5] Hi Hm. pose proof (pages_mapped_same _ _ _ _ _ H1 Hm) as Hs.
  destruct (pm_fit _ _ _ _ _ Hm) as ((Hp0 & Hp1 & Hpf) & _).
  assert (Hp : 0 <= p < nbits m kvaddr_bm) by lia. specialize (Hpf p ltac:(lia)).
  pose proof (kpage_range m p H1 Hp) as (K1 & K2 & K3).
  assert (En := same_nbits _ _ Hs). assert (Ek := fun j => same_kpage _ _ j Hs).
  assert (Hbit : forall j, 0 <= j < nbits m kvaddr_bm ->
    bit m' kvaddr_bm j = (if decide (j = p) then true else bit m kvaddr_bm j)).
  { intros j Hj. rewrite (pm_virtual _ _ _ _ _ Hm j Hj). case_decide as E.
    - subst. by rewrite bool_decide_true by lia.
    - by rewrite bool_decide_false by lia. }
  assert (Hnew : exists f, free_frame m sym_kern_pool f /\ bit m' (pool_bm sym_kern_pool) f = true /\
    mapped m' (kpage m p) (frame m sym_kern_pool f)).
  { destruct ps as [|f ps]; [by pose proof (pm_len _ _ _ _ _ Hm)|].
    pose proof (pm_free _ _ _ _ _ Hm f ltac:(by left)) as Hf. exists f.
    rewrite (pm_frames _ _ _ _ _ Hm f) by apply Hf. rewrite bool_decide_true by by left.
    split_and!; [done|done|].
    pose proof (pm_mapped _ _ _ _ _ Hm 0%nat f eq_refl) as Hmap. by rewrite Z.add_0_r in Hmap. }
  assert (Hold : forall a j, (a, j) ∈ arenas -> get32 m' (pte_ptr a) = get32 m (pte_ptr a)).
  { intros a j Hin. destruct (H3 a j Hin) as (k & Hk & Hu' & ->).
    apply (pm_other _ _ _ _ _ Hm k Hk). intros Hx. replace k with p in Hu' by lia. congruence. }
  assert (Hnone : forall a j, (a, j) ∈ arenas -> get32 m' (pte_ptr a) <> get32 m' (pte_ptr (kpage m p))).
  { intros a j Hin. rewrite (Hold a j Hin). destruct Hnew as (f & [_ Hf] & _ & ->).
    destruct (H3' a j Hin) as (f' & _ & Hu & ->). unfold frame. change PAGE_SIZE with 4096.
    intros Hx. replace f' with f in Hu by lia. congruence. }
  split_and!.
  - constructor; [done|done|split; [done|]|].
    + change (2 ^ 32) with 4294967296. lia.
    + intros b Hb. by apply (H2 p b Hp Hpf).
  - constructor; [apply Hm|..].
    + intros j b Hj Hf Hpb. rewrite En in Hj. rewrite Hbit in Hf by done. rewrite Ek in Hpb.
      case_decide; [done|]. destruct (H2 j b Hj Hf Hpb) as (? & ? & Ha).
      split_and!; [done|done|]. intros Hx. by apply Ha, (same_admin m m').
    + intros a j [E|Hin]%elem_of_cons.
      * injection E as -> ->. exists p. rewrite En, Ek, Hbit by done. by rewrite decide_True.
      * destruct (H3 a j Hin) as (k & Hk & Hu & ->). exists k. rewrite En, Ek, Hbit by done.
        split_and!; [lia|lia| |done]. by case_decide.
    + intros a j [E|Hin]%elem_of_cons.
      * injection E as -> ->. destruct Hnew as (f & [Hf _] & Hu & Hmap). exists f.
        rewrite (same_frames _ _ Hs), (same_frame _ _ f Hs). split_and!; [lia|lia|done|done].
      * destruct (H3' a j Hin) as (f & Hf & Hu & Hmap). exists f.
        rewrite (same_frames _ _ Hs), (same_frame _ _ f Hs), (pm_frames _ _ _ _ _ Hm f Hf), Hu.
        rewrite orb_true_r. split_and!; [lia|lia|done|].
        unfold mapped. by rewrite (Hold a j Hin).
    + intros a j a' j' [E|Hin]%elem_of_cons [E'|Hin']%elem_of_cons.
      * congruence.
      * injection E as -> ->. intros Hx. by apply eq_sym, (Hnone a' j' Hin') in Hx.
      * injection E' as -> ->. intros Hx. by apply (Hnone a j Hin) in Hx.
      * rewrite (Hold a j Hin), (Hold a' j' Hin'). by apply (Hdi a j a' j').
    + intros b [Hb|Hb] Hx; apply (same_admin m m') in Hx; try done.
      * apply (H4 b); [by left|done].
      * apply Exists_cons in Hb as [Hb|Hb]; [by destruct (H2 p b Hp Hpf Hb) as (_ & _ & ?)|].
        apply (H4 b); [by right|done].
    + intros b Hb Hx. by apply (H5 b Hb), (same_admin m m').
  - intros x j Hin ->. destruct (H3 _ _ Hin) as (k & Hk & Hu & E).
    assert (k = p) as ->; [|congruence]. unfold kpage in E. change PAGE_SIZE with 4096 in E. lia.
  - intros b Hb. by apply (H2 p b Hp Hpf).
Qed.

(** The heap with a new arena of class [i], all of its blocks free. *)
Definition add_arena (i base : Z) (h : heap) : heap := mkHeap (h_free h) ((base, i) :: h_arenas h).
Definition arena_blocks (i base : Z) : list Z := blocks i base (Z.to_nat (bcount i)).
Definition grow (i base : Z) (h : heap) : heap := set_free i (arena_blocks i base) (add_arena i base h).

Lemma elem_arena_blocks i base x : is_class i ->
  x ∈ arena_blocks i base <-> exists k, 0 <= k < bcount i /\ x = block_at i base k.
Proof.
  intros Hi. pose proof (bsize_bounds i Hi). unfold arena_blocks. rewrite elem_blocks.
  by setoid_rewrite Z2Nat.id; [|lia].
Qed.

Lemma arena_blocks_first i base : is_class i ->
  arena_blocks i base = block_at i base 0 :: tl (arena_blocks i base).
Proof.
  intros Hi. pose proof (bsize_bounds i Hi) as (_ & Hb & _). unfold arena_blocks, blocks.
  rewrite Z2Nat.id by lia. by rewrite (seqZ_cons 0 (bcount i)) by lia.
Qed.

Lemma count_arena_blocks i base x : arena_place base i ->
  count_free x (arena_blocks i base) = if decide (x = base) then bcount i else 0.
Proof.
  intros [Hi Ha Hr _]. pose proof (bsize_bounds i Hi) as (_ & Hc & _).
  assert (H : forall b, b ∈ arena_blocks i base -> block_to_arena b = base).
  { intros b (k & Hk & ->)%elem_arena_blocks; [|done]. apply block_to_arena_at; lia || done. }
  assert (Hlen : Z.of_nat (length (arena_blocks i base)) = bcount i).
  { unfold arena_blocks, blocks. rewrite length_fmap, length_seqZ. lia. }
  rewrite <- Hlen. clear Hlen. induction (arena_blocks i base) as [|b l IH]; [by case_decide|].
  rewrite count_free_cons, IH by (intros c Hcl; apply H; by right). rewrite (H b) by by left.
  case_decide as E; [subst; rewrite Z.eqb_refl; cbn [length]; lia|].
  rewrite (proj2 (Z.eqb_neq base x)) by done. done.
Qed.

Lemma add_arena_wf i base h :
  heap_wf h -> arena_place base i -> (forall x j, (x, j) ∈ h_arenas h -> x <> base) ->
  heap_wf (add_arena i base h).
Proof.
  intros [H1 H2 H3] Hp Hnew. constructor; cbn.
  - intros a j [[= -> ->]|Hin]%elem_of_cons; [done|by apply H1].
  - constructor; [|done]. intros ((x & j) & -> & Hx)%list_elem_of_fmap. by apply (Hnew x j).
  - intros j b Hj Hb. destruct (H3 j b Hj Hb) as (a & k & Ha & Hk & ->).
    exists a, k. split_and!; [by right|lia|lia|done].
Qed.

Lemma grow_wf i base h :
  heap_wf h -> arena_place base i -> (forall x j, (x, j) ∈ h_arenas h -> x <> base) ->
  heap_wf (grow i base h).
Proof.
  intros Hw Hp Hnew. apply set_free_wf; [by apply add_arena_wf|].
  intros b Hi (k & Hk & ->)%elem_arena_blocks; [|done]. exists base, k. split_and!; [by left|lia|lia|done].
Qed.

(** A page that has been cleared. *)
Record cleared (m m' : memory) (base : Z) : Prop := {
  cl_zero : forall b, page_bytes base b -> get8 m' b = 0;
  cl_rest : changed_only (page_bytes base) m m'
}.

Lemma memset_page base s :
  base <> 0 -> exists m', memset base 0 PAGE_SIZE s = Ok tt (set_mem m' s) /\ cleared (mem s) m' base.
Proof.
  intros Hb. rewrite memset_run by done. assert (Hn : Z.of_nat (Z.to_nat PAGE_SIZE) = 4096) by done.
  revert Hn. generalize (Z.to_nat PAGE_SIZE). intros n Hn. eexists. split; [reflexivity|].
  constructor; unfold page_bytes; intros b Hbb.
  - rewrite get8_put_bytes_replicate, decide_True by lia. done.
  - apply get8_put_bytes_ne. rewrite length_replicate. lia.
Qed.

(** The header of a new arena: the cleared page is given its descriptor; its
    counter is still 0. *)
Definition arena_header (m : memory) (base i : Z) : memory :=
  put8 (put32 m (base + arena.desc) (desc_at i)) (base + arena.large) 0.

Lemma arena_header_bytes m base i : changed_only (page_bytes base) m (arena_header m base i).
Proof.
  intros b Hb. unfold arena_header. unfold page_bytes in Hb.
  rewrite get8_put8_ne, get8_put32_ne by (hoff; lia). done.
Qed.

Lemma arena_header_desc m base i :
  is_u32 (desc_at i) -> get32 (arena_header m base i) (base + arena.desc) = desc_at i.
Proof.
  intros Hd. unfold arena_header. rewrite get32_put8_ne, get32_put32_eq by (hoff; lia).
  apply u32_small. zlia.
Qed.

Lemma add_arena_rep m0 m i base h :
  heap_wf h -> heap_rep m0 h -> cleared m0 m base -> arena_place base i -> h_free h i = [] ->
  (forall x j, (x, j) ∈ h_arenas h -> x <> base) -> is_u32 (desc_at i) ->
  heap_rep (arena_header m base i) (add_arena i base h).
Proof.
  intros Hw Hr [Hz Hcl] Hp Hf Hnew Hd. pose proof (add_arena_wf i base h Hw Hp Hnew) as Hw'.
  assert (Hr' : heap_rep (arena_header m base i) h).
  { eapply heap_frame; [done|done|]. intros b Hb.
    eapply (changed_trans _ _ _ _ Hcl (arena_header_bytes m base i)). intros Hpb.
    destruct Hb as [Hb|Hb]; [by apply (ap_apart _ _ Hp b)|].
    apply Exists_exists in Hb as ((x & j) & Hx & Hxb). cbn in Hxb. pose proof (Hnew x j Hx).
    destruct (arenas_apart _ x j base i Hw'); cbn; [by right|by left|congruence|..];
      unfold page_bytes in *; lia. }
  destruct Hr' as [H1 H2]. constructor; [exact H1|]. cbn.
  intros a j [[= -> ->]|Hin]%elem_of_cons; [|by apply H2].
  unfold arena_header. rewrite Hf. constructor.
  - rewrite get32_put8_ne, get32_put32_eq by (hoff; lia). apply u32_small. zlia.
  - rewrite get32_put8_ne, get32_put32_ne by (hoff; lia).
    unfold get32, get16. rewrite !Hz by (hoff; lia). done.
  - by rewrite get8_put8_eq.
Qed.

(** The part of [new_arena] after the page has been obtained. *)
Lemma fill_arena h i base s :
  heap_wf h -> heap_rep (mem s) h ->
  arena_place base i -> h_free h i = [] -> (forall x j, (x, j) ∈ h_arenas h -> x <> base) ->
  is_u32 (desc_at i) ->
  exists m', (memset base 0 PAGE_SIZE;;
      st32 (base + arena.desc) (desc_at i);;
      st8 (base + arena.large) 0;;
      cnt ← ld32 (desc_at i + mem_block_desc.blocks_cnt);
      st32 (base + arena.cnt) cnt;;
      status ← INTERRUPT_DISABLE;
      carve_blocks base;;
      INTERRUPT_RESTORE status;;
      mret true) s = Ok true (after_critical s m') /\
    heap_rep m' (grow i base h) /\
    changed_only (fun b => page_bytes base b \/ header_bytes i b) (mem s) m'.
Proof.
  intros Hw Hr Hp Hf Hnew Hd. pose proof Hp as [Hi Ha Hrg Hap].
  pose proof (bsize_bounds i Hi) as (Hs & Hc & _).
  destruct (memset_page base s ltac:(lia)) as (mz & Ez0 & Hcl).
  set (m1 := arena_header mz base i).
  pose proof (add_arena_rep (mem s) mz i base h Hw Hr Hcl Hp Hf Hnew Hd) as Hr1. fold m1 in Hr1.
  pose proof (add_arena_wf i base h Hw Hp Hnew) as Hw1.
  assert (Hin : (base, i) ∈ h_arenas (add_arena i base h)) by by left.
  destruct (hr_desc _ _ Hr1 i Hi) as [Ez Ec El]. cbn [h_free add_arena] in El. rewrite Hf in El.
  set (m2 := put32 m1 (base + arena.cnt) (bcount i)).
  assert (Hc2 : changed_only (page_bytes base) m1 m2)
    by (apply changed_put32; unfold page_bytes; intros b Hb; hoff; lia).
  assert (Hout : forall w, desc_at i <= w -> w + 4 <= desc_at i + 24 -> get32 m2 w = get32 m1 w).
  { intros w Hw1' Hw2. apply (changed_get32 _ _ _ _ Hc2). intros b Hb Hpb. apply (Hap b Hpb).
    unfold is_class in Hi. hoff. lia. }
  destruct (carve_blocks_run i base (set_intr_flag false (set_mem m2 s))) as (m3 & E3 & Hl3 & Hc3); [done|..].
  { constructor; msimpl; [rewrite Hout; [exact Ez|hoff; lia..]|rewrite Hout; [exact Ec|hoff; lia..]|].
    eapply (dlist_changed_only _ _ _ _ _ Hc2); [|exact El]. intros b Hb Hpb.
    destruct (node_cases i [] b Hb) as [Hh'|(x & Hx & _)]; [|by apply not_elem_of_nil in Hx].
    apply (Hap b Hpb). unfold header_bytes, is_class in *. hoff. lia. }
  { msimpl. unfold m2. rewrite get32_put32_ne by (hoff; lia). by apply arena_header_desc. }
  { reflexivity. }
  exists m3. msimpl.
  assert (Hc3' : changed_only (class_touch (h_arenas (add_arena i base h)) i base) m1 m3).
  { eapply changed_trans.
    - eapply (changed_put32 _ m1 (base + arena.cnt) (bcount i)). intros b Hb. right. right. exact Hb.
    - eapply changed_weaken; [exact Hc3|]. intros b [Hb|Hb]; [by left|]. right. left. by exists base. }
  split_and!.
  - rewrite (bind_ok _ _ _ _ _ Ez0). srun. fold (arena_header mz base i). fold m1. rewrite Ec.
    rewrite (bind_ok _ _ _ _ _ (intr_disable_run _)). msimpl. fold m2.
    rewrite (bind_ok _ _ _ _ _ E3).
    rewrite (bind_ok _ _ _ _ _ (critical_restore s m3)). done.
  - apply (heap_update m1 m3 (add_arena i base h) i base); try done.
    + rewrite count_arena_blocks, decide_True by done.
      rewrite (changed_get32 _ _ _ _ Hc3); msimpl.
      * unfold m2. rewrite get32_put32_eq. apply u32_small. lia.
      * intros b Hb [Hx|Hx]; [|hoff; lia]. apply (Hap b); [unfold page_bytes; hoff; lia|].
        unfold header_bytes, is_class in *. hoff. lia.
    + intros x Hx Hne. rewrite count_arena_blocks, decide_False by done. cbn. by rewrite Hf.
  - eapply changed_trans; [eapply changed_weaken; [apply (cl_rest _ _ _ Hcl)|auto]|].
    eapply changed_trans; [eapply changed_weaken; [apply (arena_header_bytes mz base i)|auto]|].
    apply (changed_trans _ _ m2); [eapply changed_weaken; [exact Hc2|auto]|].
    eapply changed_weaken; [exact Hc3|]. msimpl. intros b [Hb|Hb]; [by right|left; unfold page_bytes; lia].
Qed.

(** A free list is refilled. *)
Lemma new_arena_run a h i q f s :
  heap_held tasks idle a (h_arenas h) s -> heap_wf h -> heap_rep (mem s) h ->
  heap_space (mem s) (h_arenas h) -> is_class i -> h_free h i = [] -> is_u32 (desc_at i) ->
  free_run (mem s) kvaddr_bm q 1 -> free_frame (mem s) sym_kern_pool f ->
  exists p s', new_arena PF_KERNEL (desc_at i) s = Ok true s' /\
    first_fit (mem s) kvaddr_bm 1 p /\
    let h' := grow i (kpage (mem s) p) h in
    heap_held tasks idle a (h_arenas h') s' /\ heap_wf h' /\ heap_rep (mem s') h' /\
    heap_space (mem s') (h_arenas h') /\ vars s' = vars s /\ trace s' = trace s.
Proof.
  intros Hh Hw Hr Hs Hi Hf Hd Hq Hff. pose proof Hs as [Hok _ _ _ _ Hheap Hlock].
  destruct (malloc_page_kernel_run Hpte 1 q [f] s Hok ltac:(lia) Hq) as (p & ps & m1 & E & Hm).
  { apply NoDup_singleton. } { by intros g ->%list_elem_of_singleton. } { done. }
  destruct (page_taken _ _ i _ _ _ Hs Hi Hm) as (Hp & Hs1 & Hnew & Hnl).
  set (base := kpage (mem s) p) in *. exists p. pose proof Hp as [_ _ Hrg Hap].
  assert (Hadm : forall b, vaddr_bits (mem s) b \/ pool_bits (mem s) b \/ window b -> admin (mem s) b).
  { intros b [Hb|[Hb|Hb]]; unfold admin, window in *; [tauto|tauto|lia]. }
  assert (Hr1 : heap_rep m1 h).
  { eapply heap_frame; [done|done|]. intros b Hb. apply (pm_frame _ _ _ _ _ Hm). intros Hx.
    by apply (Hheap b Hb), Hadm. }
  destruct (fill_arena h i base (set_mem m1 s) Hw Hr1 Hp Hf Hnew Hd) as (m2 & E2 & Hr2 & Hc2). msimpl.
  assert (Hal : forall b, page_bytes base b \/ header_bytes i b -> ~ lock_bytes tasks b).
  { intros b [Hb|Hb]; [by apply Hnl|]. apply (hh_apart _ _ _ _ _ Hh). left.
    unfold header_bytes, is_class in *. hoff. lia. }
  exists (after_critical (set_mem m1 s) m2). split; [|split; [apply Hm|]].
  { unfold new_arena. rewrite (bind_ok _ _ _ _ _ E). fold base.
    rewrite (proj2 (Z.eqb_neq base NULL)) by (unfold NULL; lia). exact E2. }
  cbv zeta. split_and!; [|by apply grow_wf|exact Hr2| |done|done].
  - pose proof Hh as [L1 L2 L3 L4]. constructor; [done|done| |].
    + apply mutex_flag. change (set_mem m2 (set_mem m1 s)) with (set_mem m2 s).
      eapply (mutex_frame tasks idle _ _ _ _ _ s (fun b => admin (mem s) b \/ page_bytes base b \/ header_bytes i b));
        [done|done|done| |].
      * eapply changed_trans; [eapply changed_weaken; [apply Hm|auto]|].
        eapply changed_weaken; [exact Hc2|auto].
      * intros b [Hb|Hb]; [|by apply Hal]. intros Hx. by apply (Hlock b Hx).
    + intros b [Hb|Hb]; [by apply L4; left|]. cbn in Hb. apply Exists_cons in Hb as [Hb|Hb];
        [by apply Hnl|by apply L4; right].
  - eapply heap_space_write; [exact Hs1|exact Hc2|]. intros b Hb. apply (hs_heap _ _ Hs1).
    destruct Hb as [Hb|Hb]; [right; apply Exists_cons; by left|left].
    unfold header_bytes, is_class in *. hoff. lia.
Qed.

Lemma free_run_same m m' p n :
  same_pages m m' -> same_bits m m' -> free_run m' kvaddr_bm p n <-> free_run m kvaddr_bm p n.
Proof.
  intros Hs [Hb _]. unfold free_run. rewrite (same_nbits _ _ Hs).
  split; intros (H1 & H2 & H3); split_and!; try done; intros j Hj; [rewrite <- Hb|rewrite Hb]; auto; lia.
Qed.

Lemma first_fit_same m m' p n :
  same_pages m m' -> same_bits m m' -> first_fit m' kvaddr_bm n p -> first_fit m kvaddr_bm n p.
Proof.
  intros Hs Hb [H1 H2]. split; [by apply (free_run_same m m')|]. intros q Hq.
  by apply H2, (free_run_same m m').
Qed.

Lemma free_frame_same m m' f :
  same_pages m m' -> same_bits m m' -> free_frame m sym_kern_pool f -> free_frame m' sym_kern_pool f.
Proof.
  intros Hs [_ Hb] [H1 H2]. unfold free_frame, nbits in *.
  destruct (sg_pool _ _ Hs) as (E & _). rewrite E. split; [done|]. by rewrite Hb.
Qed.

(** [sys_malloc] with an empty free list. *)
Lemma sys_malloc_grow_run a h size q f s :
  heap_env tasks idle a (h_arenas h) s -> heap_wf h -> heap_rep (mem s) h ->
  heap_space (mem s) (h_arenas h) ->
  size <= 1024 -> size <= get32 (mem s) (sym_kern_pool + pool.pool_size) ->
  let i := class_of size in
  h_free h i = [] -> is_u32 (desc_at i) ->
  free_run (mem s) kvaddr_bm q 1 -> free_frame (mem s) sym_kern_pool f ->
  exists p s', let base := kpage (mem s) p in
    sys_malloc size s = Ok (block_at i base 0) s' /\ first_fit (mem s) kvaddr_bm 1 p /\
    block_taken tasks idle a (grow i base h) i (block_at i base 0) (tl (arena_blocks i base)) s' /\
    heap_space (mem s') (h_arenas (grow i base h)) /\ vars s' = vars s /\ trace s' = trace s.
Proof.
  intros He Hw Hr Hs Hn Hpool i Hf Hd Hq Hff. destruct (class_of_spec size Hn) as (Hi & _). fold i in Hi.
  destruct (sys_malloc_enter tasks idle a h size s He Hw Hr Hn Hpool)
    as (s1 & Hh & Hr1 & _ & Hv & Ht & Hc & ->). fold i. rewrite Hf, bool_decide_true by done.
  destruct (admin_frame Hpte _ _ _ Hc (hs_lock _ _ Hs) (hs_ok _ _ Hs)) as (_ & Hsp & Hsb).
  pose proof (heap_space_write _ _ _ _ Hs Hc (hs_lock _ _ Hs)) as Hs1.
  destruct (new_arena_run a h i q f s1 Hh Hw Hr1 Hs1 Hi Hf Hd) as (p & s2 & E & Hfit & H2);
    [by apply (free_run_same (mem s))|by apply (free_frame_same (mem s))|].
  cbv zeta in H2. rewrite (same_kpage _ _ p Hsp) in H2. set (base := kpage (mem s) p) in *.
  destruct H2 as (Hh2 & Hw2 & Hr2 & Hs2 & Hv2 & Ht2). exists p. cbv zeta. fold base.
  rewrite (bind_ok _ _ _ _ _ E). cbn [negb].
  assert (Eb : h_free (grow i base h) i = block_at i base 0 :: tl (arena_blocks i base)).
  { change (h_free (grow i base h) i) with
      (if decide (i = i) then arena_blocks i base else h_free h i).
    rewrite decide_True by done. by apply arena_blocks_first. }
  destruct (take_block_run tasks idle a _ s2 i _ _ Hh2 (he_kernel _ _ _ _ _ He) Hw2 Hr2 Hi Eb)
    as (s' & E' & He' & Hr' & Hz & Hv' & Ht' & Hc').
  exists s'. split_and!; [done|by eapply first_fit_same| | |congruence|congruence].
  - constructor; try done.
    + apply set_free_wf; [done|]. intros x _ Hx. apply (hw_blocks _ Hw2); [done|]. rewrite Eb. by right.
    + apply (hw_blocks _ Hw2); [done|]. rewrite Eb. by left.
  - eapply heap_space_write; [exact Hs2|exact Hc'|]. intros b [Hb|Hb]; [by apply (hs_lock _ _ Hs2)|].
    apply (hs_heap _ _ Hs2). eapply class_touch_heap; [exact Hw2|exact Hi| |exact Hb].
    apply (block_arena _ i); [done|done|]. apply (hw_blocks _ Hw2); [done|]. rewrite Eb. by left.
Qed.

(** ... and no virtual page left: NULL, with the mutex released. *)
Lemma sys_malloc_full_run a h size s :
  heap_env tasks idle a (h_arenas h) s -> heap_wf h -> heap_rep (mem s) h ->
  heap_space (mem s) (h_arenas h) ->
  size <= 1024 -> size <= get32 (mem s) (sym_kern_pool + pool.pool_size) ->
  h_free h (class_of size) = [] ->
  (forall j, 0 <= j < nbits (mem s) kvaddr_bm -> bit (mem s) kvaddr_bm j = true) ->
  exists s', sys_malloc size s = Ok NULL s' /\ heap_env tasks idle a (h_arenas h) s' /\ heap_rep (mem s') h.
Proof.
  intros He Hw Hr Hs Hn Hpool Hf Hall.
  destruct (sys_malloc_enter tasks idle a h size s He Hw Hr Hn Hpool)
    as (s1 & Hh & Hr1 & _ & Hv & Ht & Hc & ->). rewrite Hf, bool_decide_true by done.
  destruct (admin_frame Hpte _ _ _ Hc (hs_lock _ _ Hs) (hs_ok _ _ Hs)) as (_ & Hsp & Hsb).
  destruct (heap_unlock_run tasks idle a h s1 Hh (he_kernel _ _ _ _ _ He) Hw Hr1)
    as (s' & E' & He' & Hr' & _). exists s'. split; [|done].
  assert (Em : malloc_page PF_KERNEL 1 s1 = Ok NULL s1).
  { apply malloc_page_full_run. intros j Hj. rewrite (same_nbits _ _ Hsp) in Hj.
    rewrite (sb_virtual _ _ Hsb j Hj). by apply Hall. }
  rewrite (bind_ok (new_arena _ _) _ false s1 s1); [|unfold new_arena; by rewrite (bind_ok _ _ _ _ _ Em)].
  cbn [negb]. by rewrite (bind_ok _ _ _ _ _ E').
Qed.
End Space.

(** ** Properties *)
Section Contract.
Context {PL : Platform} {LK : Linker} (tasks : list Z) (idle : Z).

(** C3: [sys_malloc] on a request of at most 1024 bytes by a kernel thread. It
    serves it from the smallest class of blocks that fits: the first block of
    the free list, cleared, if there is one; otherwise the first free virtual
    page becomes an arena of the class, and its first block is taken; without
    a free page it returns NULL. In all cases the heap stays well-formed and
    the mutex is free again. *)
Theorem sys_malloc_small a h size s :
  heap_env tasks idle a (h_arenas h) s -> heap_wf h -> heap_rep (mem s) h ->
  heap_space tasks (mem s) (h_arenas h) ->
  size <= 1024 -> size <= get32 (mem s) (sym_kern_pool + pool.pool_size) ->
  let i := class_of size in
  (size <= bsize i /\ (i = 0 \/ bsize (i - 1) < size)) /\
  (forall b bs, h_free h i = b :: bs ->
     exists s', sys_malloc size s = Ok b s' /\ block_taken tasks idle a h i b bs s') /\
  (h_free h i = [] -> is_u32 (desc_at i) ->
     forall q f, free_run (mem s) kvaddr_bm q 1 -> free_frame (mem s) sym_kern_pool f ->
     exists p s', let base := kpage (mem s) p in
       sys_malloc size s = Ok (block_at i base 0) s' /\ first_fit (mem s) kvaddr_bm 1 p /\
       block_taken tasks idle a (grow i base h) i (block_at i base 0) (tl (arena_blocks i base)) s' /\
       heap_space tasks (mem s') (h_arenas (grow i base h))) /\
  (h_free h i = [] -> (forall j, 0 <= j < nbits (mem s) kvaddr_bm -> bit (mem s) kvaddr_bm j = true) ->
     exists s', sys_malloc size s = Ok NULL s' /\ heap_env tasks idle a (h_arenas h) s' /\
       heap_rep (mem s') h).
Proof.
  intros He Hw Hr Hs Hn Hp i. destruct (class_of_spec size Hn) as (_ & Hcl).
  pose proof (lay_pte _ (he_lay _ _ _ _ _ He)) as Hpte. split_and!; [apply Hcl|apply Hcl|..].
  - intros b bs Hf. destruct (sys_malloc_reuse_run tasks idle a h size b bs s He Hw Hr Hn Hp Hf)
      as (s' & E & Hb & _). by exists s'.
  - intros Hf Hd q f Hq Hff.
    destruct (sys_malloc_grow_run tasks idle Hpte a h size q f s He Hw Hr Hs Hn Hp Hf Hd Hq Hff)
      as (p & s' & E & H1 & H2 & H3 & _). by exists p, s'.
  - intros Hf Hall. by apply sys_malloc_full_run.
Qed.
End Contract.

(** ** A concrete heap *)

(** On the machine of the scheduler: eight kernel pages from 0xc0110000 on and
    eight frames, the first of each in use; a free mutex in the pool; the table
    of descriptors as [mem_block_init] leaves it, and one arena of three blocks
    of 1024 bytes, the first of them in use. *)
Definition demo_pages : memory :=
  let p := sym_kern_pool in
  let m := put32 (put32 (put32 (put32 demo_sched_mem p 1) (p + 4) 0xc009a000) (p + 8) 0x200000) (p + 12) 0x8000 in
  let m := put32 (put32 (put32 m sym_kern_vaddr 1) (sym_kern_vaddr + 4) 0xc009a010)
    (sym_kern_vaddr + 8) 0xc0110000 in
  let m := put8 (put8 (put32 (put32 m 0xfffffc00 0x101007) 0xfff00440 0x200007) 0xc009a000 1) 0xc009a010 1 in
  let q := p + 16 in
  put8 (put32 (put32 (put32 (put32 m (q + 8) (q + 12)) (q + 12) (q + 4)) (q + 4) 0) (q + 16) 0) q 1.

Definition demo_base : Z := 0xc0110000.

Definition demo_arena_mem : memory :=
  match (mem_block_init sym_km_block_descs;;
         list_push_back (desc_at 6) (block_at 6 demo_base 1);;
         list_push_back (desc_at 6) (block_at 6 demo_base 2)) (set_mem demo_pages demo_sched_machine) with
  | Ok _ s => put32 (put32 (mem s) demo_base (desc_at 6)) (demo_base + 4) 2
  | _ => ∅
  end.

Definition demo_arena_machine : machine := set_mem demo_arena_mem demo_sched_machine.

Definition demo_free (j : Z) : list Z :=
  if decide (j = 6) then [block_at 6 demo_base 1; block_at 6 demo_base 2] else [].
Definition demo_h : heap := mkHeap demo_free [(demo_base, 6)].

Lemma demo_arena_runs : runs demo_tasks demo_idle demo_abs demo_arena_machine.
Proof.
  constructor; [|done|done]. constructor.
  - split; [vm_compute; tauto|]. cbn [demo_abs s_ready map]. unfold tag. offsets.
    unfold demo_thread. cbn [sym_ready_thread_list demo_linker FD_MAX demo_platform]. solve_apart.
  - solve_tasks; constructor; vm_compute; done.
  - intros t ->%list_elem_of_singleton. right. by left.
Qed.

Lemma demo_heap_mutex_home : mutex_home demo_tasks heap_mutex.
Proof.
  change heap_mutex with 0xc0010010.
  constructor; [constructor; [split_and!|..]|..]; try (intros t Ht; revert t Ht; solve_tasks);
    unfold tss_t.sizeof, mutex_t.sizeof, sem_t.sizeof, sem_t.waiters, list.sizeof, demo_main, demo_thread, demo_idle;
    cbn [sym_ready_thread_list sym_tss demo_linker]; lia.
Qed.

Lemma demo_arena_mutex :
  mutex_state demo_tasks demo_idle heap_mutex demo_abs NULL 0 [] demo_arena_machine.
Proof.
  constructor; [rewrite decide_True by done|vm_compute; done..]. constructor.
  - apply demo_inv.
  - constructor; [by intros ? ?%not_elem_of_nil|constructor|apply not_elem_of_nil].
  - exact demo_arena_runs.
  - constructor; [vm_compute; done|]. constructor; [|by intros ? ?%not_elem_of_nil].
    split; [vm_compute; tauto|]. change heap_mutex with 0xc0010010. unfold sem_t.waiters. cbn [map]. solve_apart.
Qed.

Lemma demo_heap_bytes b :
  heap_bytes (h_arenas demo_h) b -> 0xc0013000 <= b < 0xc0013000 + 168 \/ demo_base <= b < demo_base + 4096.
Proof.
  intros [Hb|Hb]; [left|right].
  - unfold desc_bytes in Hb. cbn [sym_km_block_descs demo_linker] in Hb. hoff. lia.
  - apply Exists_cons in Hb as [Hb|Hb%Exists_nil]; [exact Hb|done].
Qed.

Lemma demo_lock_bytes b :
  lock_bytes demo_tasks b -> 0xc0010010 <= b < 0xc0010030 \/ 0xc0014000 <= b < 0xc0014010 \/
    0xc001c004 <= b < 0xc001c008 \/ 0xc009e000 <= b < 0xc009f000 \/ 0xc0100000 <= b < 0xc0101000 \/
    0xc0102000 <= b < 0xc0103000.
Proof.
  unfold lock_bytes, sem_frame, owner_bytes, esp0_bytes. change heap_mutex with 0xc0010010.
  cbn [sym_ready_thread_list sym_tss demo_linker].
  unfold sem_t.sizeof, list.sizeof, mutex_t.holder, mutex_t.recursion.
  rewrite Exists_exists. intros [[H|[H|[H|(t & Ht & H)]]]|H]; [lia|lia|lia| |lia].
  revert t Ht H. solve_tasks; unfold demo_main, demo_thread, demo_idle; lia.
Qed.

Ltac solve_admin_bytes m n :=
  let E := fresh in
  assert (E : bm_bits m (pool_bm sym_kern_pool) = 0xc009a000 /\ bm_length m (pool_bm sym_kern_pool) = n /\
    bm_bits m kvaddr_bm = 0xc009a010 /\ bm_length m kvaddr_bm = n) by (vm_compute; done);
  let E1 := fresh in let E2 := fresh in let E3 := fresh in let E4 := fresh in
  destruct E as (E1 & E2 & E3 & E4);
  unfold admin, vaddr_struct, pool_bits, vaddr_bits, bits_area; rewrite E1, E2, E3, E4;
  cbn [sym_kern_pool sym_kern_vaddr demo_linker]; unfold virtual_addr.sizeof; lia.
Ltac solve_demo_admin m := solve_admin_bytes m 1.

Lemma demo_admin b :
  admin demo_arena_mem b -> 0xc0010000 <= b < 0xc0010010 \/ 0xc0012000 <= b < 0xc0012010 \/
    b = 0xc009a000 \/ b = 0xc009a010 \/ 0xffc00000 <= b.
Proof. solve_demo_admin demo_arena_mem. Qed.

Lemma demo_heap_env : heap_env demo_tasks demo_idle demo_abs (h_arenas demo_h) demo_arena_machine.
Proof.
  constructor; [exact demo_layout|exact demo_heap_mutex_home|exact demo_arena_mutex|done|].
  intros b Hb%demo_heap_bytes Hl%demo_lock_bytes. unfold demo_base in Hb. lia.
Qed.

Lemma demo_place : arena_place demo_base 6.
Proof.
  constructor; [done|done|done|]. unfold page_bytes, desc_bytes, demo_base.
  cbn [sym_km_block_descs demo_linker]. intros b Hp Hd. hoff. lia.
Qed.

Lemma demo_heap_wf : heap_wf demo_h.
Proof.
  constructor; cbn.
  - intros a i [[= -> ->]|[]%not_elem_of_nil]%elem_of_cons. exact demo_place.
  - apply NoDup_singleton.
  - intros i b _. unfold demo_free. case_decide as E; [subst i|by intros ?%not_elem_of_nil].
    intros [->|[->|[]%not_elem_of_nil]%elem_of_cons]%elem_of_cons.
    + exists demo_base, 1. split_and!; [by left|done..].
    + exists demo_base, 2. split_and!; [by left|done..].
Qed.

Lemma demo_heap_rep : heap_rep demo_arena_mem demo_h.
Proof.
  constructor.
  - intros i Hi. assert (H : i = 0 \/ i = 1 \/ i = 2 \/ i = 3 \/ i = 4 \/ i = 5 \/ i = 6)
      by (unfold is_class in Hi; lia).
    destruct H as [->|[->|[->|[->|[->|[->| ->]]]]]]; (constructor; [vm_compute; done..|]);
      cbn [demo_h h_free]; unfold demo_free; rewrite ?decide_False, ?decide_True by done;
      (constructor; [vm_compute; tauto|]);
      unfold desc_at, block_at, demo_base; cbn [sym_km_block_descs demo_linker]; hoff;
      change (bsize 6) with 1024; solve_apart.
  - intros a i [[= -> ->]|[]%not_elem_of_nil]%elem_of_cons. by constructor.
Qed.

(** Checked for every page of the heap. *)
Lemma demo_unmapped m k :
  forallb (fun j => bit m kvaddr_bm j || negb (entry_present (get32 m (pte_ptr (kpage m j))))) (seqZ 0 k) = true ->
  forall j, 0 <= j < k -> bit m kvaddr_bm j = false -> unmapped m (kpage m j).
Proof.
  intros Hall j Hj Hb. pose proof (all_indices _ k Hall j Hj) as H. cbv beta in H. rewrite Hb in H.
  by apply negb_true_iff.
Qed.

(** The pools and page tables of the concrete machine, in the memory [m]. *)
Ltac solve_pages_of m n k :=
  let E := fresh in
  assert (E : bm_bits m (pool_bm sym_kern_pool) = 0xc009a000 /\ bm_length m (pool_bm sym_kern_pool) = n /\
    bm_bits m kvaddr_bm = 0xc009a010 /\ bm_length m kvaddr_bm = n /\
    kvaddr_start m = 0xc0110000 /\ nbits m kvaddr_bm = k) by (vm_compute; done);
  let E1 := fresh in let E2 := fresh in let E3 := fresh in let E4 := fresh in let E5 := fresh in
  let E6 := fresh in destruct E as (E1 & E2 & E3 & E4 & E5 & E6);
  constructor;
  [constructor; [constructor; [reflexivity|left; vm_compute; congruence]
     |unfold bits_area; rewrite E1, E2; cbn [sym_kern_pool demo_linker]; unfold pool.sizeof; lia
     |reflexivity|reflexivity|vm_compute; congruence]
  |constructor; [reflexivity|left; vm_compute; congruence]
  |split_and!; vm_compute; congruence
  |intros ?; unfold pool_bits, vaddr_bits, vaddr_struct, bits_area; rewrite E1, E2, E3, E4;
   cbn [sym_kern_vaddr demo_linker]; unfold virtual_addr.sizeof; lia
  |intros ?; unfold vaddr_bits, vaddr_struct, pool_struct, bits_area; rewrite E3, E4;
   cbn [sym_kern_pool sym_kern_vaddr demo_linker]; unfold virtual_addr.sizeof, pool.sizeof; lia
  |split; vm_compute; congruence
  |rewrite E6; intros ?; apply (all_indices (fun j => entry_present (get32 m (pde_ptr (kpage m j)))) k); vm_compute; reflexivity
  |rewrite E6; apply demo_unmapped; vm_compute; reflexivity].
Ltac solve_demo_pages m := solve_pages_of m 1 8.

Lemma demo_arena_ok : heap_ok demo_arena_mem.
Proof. solve_demo_pages demo_arena_mem. Qed.

Lemma demo_heap_space : heap_space demo_tasks demo_arena_mem (h_arenas demo_h).
Proof.
  constructor.
  - exact demo_arena_ok.
  - assert (E : nbits demo_arena_mem kvaddr_bm = 8 /\ kvaddr_start demo_arena_mem = 0xc0110000)
      by (vm_compute; done).
    unfold kpage. destruct E as [-> ->]. intros j b Hj Hf. unfold page_bytes. change PAGE_SIZE with 4096.
    assert (j <> 0) by (intros ->; vm_compute in Hf; done). intros Hb. split_and!.
    + unfold desc_bytes. cbn [sym_km_block_descs demo_linker]. hoff. lia.
    + intros Hl%demo_lock_bytes. lia.
    + intros Ha%demo_admin. lia.
  - intros a i [[= -> ->]|[]%not_elem_of_nil]%elem_of_cons. exists 0.
    split_and!; [done|vm_compute; done|vm_compute; done|vm_compute; done].
  - intros a i [[= -> ->]|[]%not_elem_of_nil]%elem_of_cons. exists 0.
    split_and!; [done|vm_compute; done|vm_compute; done|vm_compute; done].
  - intros a i a' i' [[= -> ->]|[]%not_elem_of_nil]%elem_of_cons [[= -> ->]|[]%not_elem_of_nil]%elem_of_cons. done.
  - intros b Hb%demo_heap_bytes Ha%demo_admin. unfold demo_base in Hb. lia.
  - intros b Hb%demo_lock_bytes Ha%demo_admin. lia.
Qed.

(** A request of 1000 bytes takes the block 1 of the arena; one of 60 bytes
    makes the second page an arena of blocks of 64 bytes. *)
Lemma sys_malloc_small_witness :
  (exists s', sys_malloc 1000 demo_arena_machine = Ok (block_at 6 demo_base 1) s' /\
     block_taken demo_tasks demo_idle demo_abs demo_h 6 (block_at 6 demo_base 1) [block_at 6 demo_base 2] s') /\
  (exists p s', let base := kpage (mem demo_arena_machine) p in
     sys_malloc 60 demo_arena_machine = Ok (block_at 2 base 0) s' /\ first_fit (mem demo_arena_machine) kvaddr_bm 1 p /\
     block_taken demo_tasks demo_idle demo_abs (grow 2 base demo_h) 2 (block_at 2 base 0)
       (tl (arena_blocks 2 base)) s' /\
     heap_space demo_tasks (mem s') (h_arenas (grow 2 base demo_h))).
Proof.
  assert (E1000 : class_of 1000 = 6) by done. assert (E60 : class_of 60 = 2) by done.
  assert (Hpool : 1000 <= get32 demo_arena_mem (sym_kern_pool + pool.pool_size)) by (vm_compute; done).
  split.
  - destruct (sys_malloc_small demo_tasks demo_idle demo_abs demo_h 1000 demo_arena_machine
      demo_heap_env demo_heap_wf demo_heap_rep demo_heap_space ltac:(lia) Hpool) as (_ & H & _).
    cbv zeta in H. rewrite E1000 in H. by apply H.
  - destruct (sys_malloc_small demo_tasks demo_idle demo_abs demo_h 60 demo_arena_machine
      demo_heap_env demo_heap_wf demo_heap_rep demo_heap_space ltac:(lia)
      (Z.le_trans 60 1000 _ ltac:(lia) Hpool)) as (_ & _ & H & _).
    cbv zeta in H. rewrite E60 in H.
    assert (Hd : is_u32 (desc_at 2)) by (vm_compute; done). apply (H eq_refl Hd 1 1); change (mem demo_arena_machine) with demo_arena_mem.
    + split_and!; [done|vm_compute; done|]. intros j Hj. assert (j = 1) as -> by lia. reflexivity.
    + split; [split; [done|vm_compute; done]|reflexivity].
Defined.
