(* ===== verification/PageFree.v ===== *)
(** * Releasing pages (kernel/memory.c: page_table_remove, vaddr_remove, pfree, free_page)

    The virtual pages of a run become free at once; then, page by page, the
    frame behind it is freed and its entry is cleared. *)

From S2P Require Import Prelude Machine Concrete Interrupt CString Bitmap DList Paging Tss Sched Lock Memory Malloc Heap HeapGrow.

#[local] Open Scope Z_scope.

(** ** Removing a mapping *)
Section Unmap.
Context {PL : Platform} {LK : Linker}.

Lemma page_table_remove_run v s :
  pde_present (mem s) v ->
  page_table_remove v s =
    Ok tt (log (Invlpg (vaddr_slot (Machine.esp s)))
      (set_mem (put32 (mem s) (pte_ptr v) (Z.land (get32 (mem s) (pte_ptr v)) (Z.lnot PG_P_1))) s)).
Proof.
  intros Hd. unfold page_table_remove. erewrite bind_ok by reflexivity. cbv beta.
  erewrite bind_ok by (apply assert_run; exact Hd). reflexivity.
Qed.

Lemma absent_entry e : entry_present (u32 (Z.land e (Z.lnot PG_P_1))) = false.
Proof.
  unfold entry_present. apply negb_false_iff, Z.eqb_eq, Z.bits_inj'. intros n Hn.
  rewrite Z.land_spec, Z.bits_0. unfold u32. rewrite Z.testbit_mod_pow2, Z.land_spec, Z.lnot_spec by lia.
  change PG_P_1 with 1. by destruct (Z.testbit 1 n), (Z.testbit e n), (n <? 32).
Qed.
End Unmap.

(** ** Clearing a run of bits *)
Section ClearRange.
Context {PL : Platform} {LK : Linker}.

Lemma bitmap_clear_range_run bm p n s :
  bitmap_ok (mem s) bm -> 0 <= p -> p + Z.of_nat n <= nbits (mem s) bm ->
  exists m', for_ 0 n (fun i => bitmap_clear bm (u32 (p + i))) s = Ok tt (set_mem m' s) /\
    changed_only (bits_area (mem s) bm) (mem s) m' /\
    bm_length m' bm = bm_length (mem s) bm /\ bm_bits m' bm = bm_bits (mem s) bm /\
    forall j, 0 <= j ->
      bit m' bm j = negb (bool_decide (p <= j < p + Z.of_nat n)) && bit (mem s) bm j.
Proof.
  intros Hok Hp Hn. pose proof (ok_nbits _ _ Hok) as Hmax. change (2 ^ 31) with 2147483648 in Hmax.
  assert (Hl : wp (for_ 0 n (fun i => bitmap_clear bm (u32 (p + i)))) (fun _ s' => exists m',
    s' = set_mem m' s /\ changed_only (bits_area (mem s) bm) (mem s) m' /\ bitmap_ok m' bm /\
    bm_length m' bm = bm_length (mem s) bm /\ bm_bits m' bm = bm_bits (mem s) bm /\
    forall j, 0 <= j ->
      bit m' bm j = negb (bool_decide (p <= j < p + Z.of_nat n)) && bit (mem s) bm j) s).
  2:{ apply wp_run in Hl as ([] & s' & E & m' & -> & H). exists m'. tauto. }
  apply wp_for with (I := fun i s' => exists m', s' = set_mem m' s /\
    changed_only (bits_area (mem s) bm) (mem s) m' /\ bitmap_ok m' bm /\
    bm_length m' bm = bm_length (mem s) bm /\ bm_bits m' bm = bm_bits (mem s) bm /\
    forall j, 0 <= j -> bit m' bm j = negb (bool_decide (p <= j < p + i)) && bit (mem s) bm j).
  - exists (mem s). rewrite set_mem_id. split_and!; [done|apply changed_refl|done|done|done|].
    intros j Hj. by rewrite bool_decide_false by lia.
  - intros i s' Hi (m' & -> & Hc & Hok' & El & Eb & Hb).
    assert (En : nbits m' bm = nbits (mem s) bm) by (unfold nbits; by rewrite El).
    rewrite u32_small by lia. eapply wp_ok; [apply bitmap_clear_run; msimpl; [done|rewrite En; lia]|].
    msimpl. exists (bm_clear m' bm (p + i)).
    destruct (bm_write_header m' bm (p + i) (Z.land (get8 m' (bm_bits m' bm + (p + i) / 8))
      (Z.lnot (Z.shiftl 1 ((p + i) mod 8)))) Hok' ltac:(lia)) as [G1 G2].
    split_and!.
    + done.
    + eapply changed_trans; [done|].
      eapply changed_weaken; [apply bm_write_area; lia|]. intros b. by apply bits_area_eq.
    + exact (bm_write_ok m' bm (p + i) _ Hok' ltac:(lia)).
    + unfold bm_clear. by rewrite G1.
    + unfold bm_clear. by rewrite G2.
    + intros j Hj. rewrite bit_bm_clear by (done || lia). rewrite Hb by done.
      destruct (Z.eqb_spec (p + i) j) as [<-|Hne]; [by rewrite (bool_decide_true (p <= p + i < p + (i + 1))) by lia|].
      cbn [negb andb]. f_equal. f_equal. apply bool_decide_ext. lia.
  - intros s' (m' & Hm'). exists m'. by rewrite Z.add_0_l in Hm'.
Qed.
End ClearRange.

(** ** Returning pages *)
Section Return.
Context {PL : Platform} {LK : Linker} (tasks : list Z) (idle : Z).
Context (Hpte : forall v, pte_ptr_ret v = v).

(** What the lock writes while it is held is not the page allocator's. *)
Lemma owner_lock b : owner_bytes heap_mutex b -> lock_bytes tasks b.
Proof. by right. Qed.

Lemma frame_index m f :
  pool_ok m sym_kern_pool -> 0 <= f < nbits m (pool_bm sym_kern_pool) ->
  s32 (u32 (frame m sym_kern_pool f - pool_start m sym_kern_pool) / PAGE_SIZE) = f /\
  0 < frame m sym_kern_pool f < 2 ^ 32 /\ frame m sym_kern_pool f mod 4096 = 0.
Proof.
  intros Hp Hf. pose proof (ok_nbits _ _ (po_bitmap _ _ Hp)) as Hn. pose proof (po_end _ _ Hp) as He.
  pose proof (po_start _ _ Hp) as H0. pose proof (po_aligned _ _ Hp) as Ha.
  unfold frame in *. change PAGE_SIZE with 4096 in *. change (2 ^ 32) with 4294967296 in *.
  change (2 ^ 31) with 2147483648 in *. split.
  - rewrite u32_small by lia. replace (pool_start m sym_kern_pool + 4096 * f - pool_start m sym_kern_pool)
      with (f * 4096) by lia. rewrite Z.div_mul by lia. apply s32_small. lia.
  - split; [lia|]. rewrite Z.mul_comm, Z.mod_add by lia. done.
Qed.

Lemma pfree_run a f s :
  layout tasks -> mutex_home tasks heap_mutex ->
  mutex_state tasks idle heap_mutex a (s_cur a) 1 [] s -> t_page_dir (s_tcb a (s_cur a)) = NULL ->
  pool_ok (mem s) sym_kern_pool -> 0 <= f < nbits (mem s) (pool_bm sym_kern_pool) ->
  (forall b, lock_bytes tasks b -> ~ admin (mem s) b) ->
  exists s', pfree (frame (mem s) sym_kern_pool f) s = Ok tt s' /\
    mutex_state tasks idle heap_mutex a (s_cur a) 1 [] s' /\
    (forall k, 0 <= k < nbits (mem s) (pool_bm sym_kern_pool) ->
      bit (mem s') (pool_bm sym_kern_pool) k = negb (f =? k) && bit (mem s) (pool_bm sym_kern_pool) k) /\
    changed_only (fun b => pool_bits (mem s) b \/ owner_bytes heap_mutex b) (mem s) (mem s') /\
    intr_flag s' = intr_flag s /\ vars s' = vars s /\ trace s' = trace s.
Proof.
  intros Hl Hm Hs Hpd Hp Hf Hlock. destruct (frame_index _ f Hp Hf) as (Ef & _ & _).
  assert (Hruns : wf tasks idle a /\ runs tasks idle a s) by (destruct Hs as [[[Hw _] _ Hr _] _ _ _]; done).
  destruct Hruns as [Hw Hr].
  destruct (mutex_lock_again tasks idle Hl heap_mutex Hm a 1 [] s Hs)
    as (s1 & E1 & Hs1 & Hf1 & Hv1 & Ht1 & Hc1).
  assert (Ho : forall b, owner_bytes heap_mutex b -> ~ admin (mem s) b) by (intros b Hb; by apply Hlock, owner_lock).
  assert (Hsp : same_pages (mem s) (mem s1)).
  { eapply same_pages_frame; [exact Hc1|]. intros b Hb. specialize (Ho b Hb). unfold admin in Ho. tauto. }
  pose proof (same_pool_ok _ _ _ (sg_pool _ _ Hsp) Hp) as Hp1.
  pose proof (same_frames _ _ Hsp) as En1.
  set (m2 := bm_clear (mem s1) (pool_bm sym_kern_pool) f).
  assert (Hc2 : changed_only (pool_bits (mem s)) (mem s1) m2).
  { eapply changed_weaken; [apply bm_write_area; by rewrite En1|]. intros b. apply bits_area_eq; apply Hsp. }
  assert (Hs2 : mutex_state tasks idle heap_mutex a (s_cur a) 2 [] (set_mem m2 s1)).
  { eapply (mutex_frame tasks idle); [done|done|exact Hs1|exact Hc2|].
    intros b Hb Hx. apply (Hlock b Hx). unfold admin. tauto. }
  destruct (mutex_unlock_inner tasks idle Hl heap_mutex Hm a (s_cur a) 2 [] _ Hs2)
    as (s3 & E3 & Hs3 & Hf3 & Hv3 & Ht3 & Hc3); [|done|].
  { pose proof (lay_page _ Hl _ (wf_cur _ _ _ Hw)). unfold NULL. lia. }
  exists s3. split_and!; [|exact Hs3| | |by rewrite Hf3|by rewrite Hv3|by rewrite Ht3].
  - unfold pfree. rewrite (bind_ok _ _ _ _ _ (running_thread_run _ Hl _ _ _ Hw Hr)).
    erewrite bind_ok by reflexivity. cbv beta.
    rewrite (at_page_dir _ _ _ (rep_tcb _ _ _ (run_rep _ _ _ _ Hr) _ (wf_cur _ _ _ Hw))), Hpd.
    cbn [Z.eqb NULL]. cbv zeta. change (sym_kern_pool + pool.mutex) with heap_mutex.
    rewrite (bind_ok _ _ _ _ _ E1). erewrite bind_ok by reflexivity. cbv beta.
    fold (pool_start (mem s1) sym_kern_pool). destruct (sg_pool _ _ Hsp) as (_ & _ & ->). rewrite Ef.
    fold (pool_bm sym_kern_pool).
    rewrite (bind_ok _ _ _ _ _ (bitmap_clear_run _ f s1 (po_bitmap _ _ Hp1) ltac:(by rewrite En1))).
    exact E3.
  - intros k Hk. destruct (sg_pool _ _ Hsp) as (_ & Eb & _).
    assert (Hk1 : bit (mem s1) (pool_bm sym_kern_pool) k = bit (mem s) (pool_bm sym_kern_pool) k).
    { unfold bit. rewrite Eb. f_equal. apply Hc1. intros Hb. apply (Ho _ Hb). right. right. left.
      unfold pool_bits, bits_area, nbits in *. zlia. }
    rewrite <- Hk1, <- (bit_bm_clear (mem s1) _ f k (po_bitmap _ _ Hp1)) by (rewrite ?En1; lia). fold m2.
    assert (Eb2 : bm_bits m2 (pool_bm sym_kern_pool) = bm_bits (mem s) (pool_bm sym_kern_pool)).
    { rewrite <- Eb. apply bm_write_header; [apply Hp1|by rewrite En1]. }
    assert (Hc3o : forall b, pool_bits (mem s) b -> get8 (mem s3) b = get8 m2 b).
    { intros b Hb. apply Hc3. intros Hx. apply (Ho b Hx). unfold admin. tauto. }
    assert (Eb3 : bm_bits (mem s3) (pool_bm sym_kern_pool) = bm_bits m2 (pool_bm sym_kern_pool)).
    { apply (changed_get32 _ _ _ _ Hc3). intros b Hb Hx. apply (Ho b Hx). left.
      unfold pool_bm, pool.pool_bitmap, bitmap.bits in Hb. lia. }
    unfold bit. rewrite Eb3, Eb2. f_equal. apply Hc3o. unfold pool_bits, bits_area, nbits in *. zlia.
  - eapply changed_trans; [eapply changed_weaken; [exact Hc1|auto]|].
    eapply changed_trans; [eapply changed_weaken; [exact Hc2|auto]|].
    eapply changed_weaken; [exact Hc3|auto].
Qed.

(** The pages from [j] on, one for each frame of [fs], are free in the bitmap;
    the first [i] of them are not mapped any more and their frames are free. *)
Record returning (m : memory) (j : Z) (fs : list Z) (i : nat) (m' : memory) : Prop := {
  rt_pages : same_pages m m';
  rt_virtual : forall k, 0 <= k < nbits m kvaddr_bm ->
    bit m' kvaddr_bm k = negb (bool_decide (j <= k < j + Z.of_nat (length fs))) && bit m kvaddr_bm k;
  rt_frames : forall k, 0 <= k < nbits m (pool_bm sym_kern_pool) ->
    bit m' (pool_bm sym_kern_pool) k
      = negb (bool_decide (k ∈ take i fs)) && bit m (pool_bm sym_kern_pool) k;
  rt_gone : forall k, j <= k < j + Z.of_nat i -> unmapped m' (kpage m k);
  rt_kept : forall k, 0 <= k < nbits m kvaddr_bm -> ~ j <= k < j + Z.of_nat i ->
    get32 m' (pte_ptr (kpage m k)) = get32 m (pte_ptr (kpage m k));
  rt_frame : changed_only (fun b => vaddr_bits m b \/ pool_bits m b \/ window b \/
    owner_bytes heap_mutex b) m m'
}.

(** What a release of pages touches is the page allocator's or the lock's. *)
Lemma return_apart m b :
  vaddr_bits m b \/ pool_bits m b \/ window b \/ owner_bytes heap_mutex b ->
  admin m b \/ lock_bytes tasks b.
Proof.
  intros [H|[H|[H|H]]]; [left; unfold admin; tauto|left; unfold admin; tauto| |right; by apply owner_lock].
  left. unfold admin, window in *. lia.
Qed.

Lemma returning_start m j fs m1 :
  heap_ok m -> 0 <= j -> j + Z.of_nat (length fs) <= nbits m kvaddr_bm ->
  changed_only (vaddr_bits m) m m1 ->
  (forall k, 0 <= k -> bit m1 kvaddr_bm k
     = negb (bool_decide (j <= k < j + Z.of_nat (length fs))) && bit m kvaddr_bm k) ->
  returning m j fs 0 m1.
Proof.
  intros Hh Hj Hn Hc Hb.
  assert (Hs : same_pages m m1).
  { eapply same_pages_frame; [exact Hc|]. intros b Hx. apply (page_area_structs m); auto. }
  constructor; [done|intros k Hk; apply Hb; lia| |lia| |eapply changed_weaken; [exact Hc|auto]].
  - intros k Hk. rewrite take_0, bool_decide_false by apply not_elem_of_nil. cbn [negb andb].
    destruct (sg_pool _ _ Hs) as (_ & E & _). unfold bit. rewrite E. f_equal. apply Hc. intros Hx.
    assert (Hin : pool_bits m (bm_bits m (pool_bm sym_kern_pool) + k / 8))
      by (unfold pool_bits, bits_area, nbits in *; zlia).
    by apply (hk_pool_bits _ Hh) in Hin as (_ & Hin & _).
  - intros k Hk _. apply (changed_get32 _ _ _ _ Hc). intros b Hb2 Hx.
    destruct (kpage_range m k Hh Hk) as (K1 & K2 & _). destruct (pte_window Hpte (kpage m k)); [lia|].
    apply (hk_vaddr_bits _ Hh) in Hx as (_ & _ & Hx). lia.
Qed.

Lemma elem_of_take_S (fs : list Z) i f k :
  fs !! i = Some f -> bool_decide (k ∈ take (S i) fs) = (f =? k) || bool_decide (k ∈ take i fs).
Proof.
  intros Hf. rewrite (take_S_r _ _ f) by done.
  destruct (Z.eqb_spec f k) as [->|Hne]; [apply bool_decide_true|apply bool_decide_ext];
    rewrite elem_of_app, list_elem_of_singleton; [by right|]. split; [by intros [?|?]|by left].
Qed.

(** Clearing an entry leaves the bitmaps alone, freeing a frame the bitmap of
    the virtual pages. *)
Lemma unmap_bits m m1 m2 m3 :
  heap_ok m -> same_pages m m1 -> same_pages m m3 -> (forall b, lock_bytes tasks b -> ~ admin m b) ->
  changed_only (fun b => pool_bits m b \/ owner_bytes heap_mutex b) m1 m2 -> changed_only window m2 m3 ->
  (forall k, 0 <= k < nbits m kvaddr_bm -> bit m3 kvaddr_bm k = bit m1 kvaddr_bm k) /\
  (forall k, 0 <= k < nbits m (pool_bm sym_kern_pool) ->
     bit m3 (pool_bm sym_kern_pool) k = bit m2 (pool_bm sym_kern_pool) k).
Proof.
  intros Hh R1 Hs Hlock Hc2 Hc3. split; intros k Hk.
  - assert (Hin : vaddr_bits m (bm_bits m kvaddr_bm + k / 8))
      by (unfold vaddr_bits, bits_area, nbits in *; zlia).
    destruct (hk_vaddr_bits _ Hh _ Hin) as (_ & _ & Hlow).
    unfold bit. rewrite (sg_bits _ _ Hs), (sg_bits _ _ R1). f_equal.
    rewrite (Hc3 _) by (unfold window; lia). apply Hc2. intros [Hx|Hx].
    + by apply (hk_pool_bits _ Hh) in Hx as (_ & Hx & _).
    + apply owner_lock, Hlock in Hx. apply Hx. unfold admin. tauto.
  - assert (Hin : pool_bits m (bm_bits m (pool_bm sym_kern_pool) + k / 8))
      by (unfold pool_bits, bits_area, nbits in *; zlia).
    destruct (hk_pool_bits _ Hh _ Hin) as (_ & _ & Hlow). destruct (sg_pool _ _ Hs) as (_ & Eb & _).
    assert (Eb2 : bm_bits m2 (pool_bm sym_kern_pool) = bm_bits m (pool_bm sym_kern_pool)).
    { rewrite <- Eb. symmetry. apply (changed_get32 _ _ _ _ Hc3). intros b Hb Hx.
      destruct (hk_structs _ Hh) as [Hs1 _]. unfold window, pool_bm, pool.pool_bitmap, bitmap.bits, pool.sizeof in *. lia. }
    unfold bit. rewrite Eb, Eb2. f_equal. apply Hc3. unfold window. lia.
Qed.

(** The next page: its frame is freed, its entry is cleared. *)
Lemma returning_next m j fs i f m1 m2 m3 :
  heap_ok m -> 0 <= j -> j + Z.of_nat (length fs) <= nbits m kvaddr_bm ->
  (forall b, lock_bytes tasks b -> ~ admin m b) ->
  returning m j fs i m1 -> fs !! i = Some f ->
  (forall k, 0 <= k < nbits m (pool_bm sym_kern_pool) ->
    bit m2 (pool_bm sym_kern_pool) k = negb (f =? k) && bit m1 (pool_bm sym_kern_pool) k) ->
  changed_only (fun b => pool_bits m b \/ owner_bytes heap_mutex b) m1 m2 ->
  m3 = put32 m2 (pte_ptr (kpage m (j + Z.of_nat i)))
    (Z.land (get32 m2 (pte_ptr (kpage m (j + Z.of_nat i)))) (Z.lnot PG_P_1)) ->
  returning m j fs (S i) m3.
Proof.
  intros Hh Hj Hn Hlock [R1 R2 R3 R4 R5 R6] Hf Hb2 Hc2 E3.
  pose proof (lookup_lt_Some _ _ _ Hf) as Hi. set (v := kpage m (j + Z.of_nat i)) in *.
  pose proof (fun k Hk => kpage_range m k Hh Hk) as Hrange.
  assert (Hv : 0 <= v < 0xffc00000) by (destruct (Hrange (j + Z.of_nat i)); unfold v; lia).
  destruct (pte_window Hpte v Hv) as [W1 W2].
  assert (Hc3 : changed_only window m2 m3).
  { subst m3. intros b Hb. apply get8_put32_ne. unfold window in Hb. lia. }
  assert (Hc : changed_only (fun b => vaddr_bits m b \/ pool_bits m b \/ window b \/
    owner_bytes heap_mutex b) m m3).
  { eapply changed_trans; [exact R6|]. eapply changed_trans; [eapply changed_weaken; [exact Hc2|tauto]|].
    eapply changed_weaken; [exact Hc3|auto]. }
  assert (Hs : same_pages m m3).
  { eapply same_pages_frame; [exact Hc|]. intros b [Hb|[Hb|[Hb|Hb]]];
      [apply (page_area_structs m); auto..|]. apply owner_lock, Hlock in Hb. unfold admin in Hb. tauto. }
  assert (Hwin : forall w, 0xffc00000 <= w -> get32 m2 w = get32 m1 w).
  { intros w Hw. apply (changed_get32 _ _ _ _ Hc2). intros b Hb [Hx|Hx].
    - apply (hk_pool_bits _ Hh) in Hx as (_ & _ & Hx). lia.
    - apply owner_lock, Hlock in Hx. apply Hx. unfold admin. lia. }
  assert (Hother : forall k, 0 <= k < nbits m kvaddr_bm -> k <> j + Z.of_nat i ->
    get32 m3 (pte_ptr (kpage m k)) = get32 m1 (pte_ptr (kpage m k))).
  { intros k Hk Hne. destruct (Hrange k Hk) as (Hk1 & Hk2 & _).
    assert (V2 : 0 <= kpage m k < 0xffc00000) by lia. destruct (pte_window Hpte _ V2) as [U1 U2]. subst m3.
    rewrite get32_put32_ne; [by apply Hwin|]. rewrite !(pte_ptr_page Hpte) by lia.
    unfold v, kpage in *. change PAGE_SIZE with 4096 in *. zlia. }
  constructor; [done| | | | |exact Hc].
  - intros k Hk. rewrite <- R2 by done. by apply (unmap_bits m m1 m2 m3).
  - intros k Hk. rewrite (elem_of_take_S _ _ f k Hf), negb_orb, <- andb_assoc, <- R3, <- Hb2 by done.
    by apply (unmap_bits m m1 m2 m3).
  - intros k Hk. destruct (decide (k = j + Z.of_nat i)) as [->|Hne].
    + unfold unmapped. subst m3. fold v. rewrite get32_put32_eq. apply absent_entry.
    + unfold unmapped. rewrite Hother by lia. apply R4. lia.
  - intros k Hk Hne. rewrite Hother by lia. apply R5; lia.
Qed.

(** [free_page] has given back [i] pages of the run. *)
Record returned_at (a : sched) (s0 : machine) (j : Z) (fs : list Z) (i : nat) (s : machine) : Prop := {
  ra_mutex : mutex_state tasks idle heap_mutex a (s_cur a) 1 [] s;
  ra_pages : returning (mem s0) j fs i (mem s);
  ra_flag : intr_flag s = intr_flag s0;
  ra_vars : vars s = vars s0;
  ra_trace : trace s = trace s0 ++ replicate i (Invlpg (vaddr_slot (s_esp a)))
}.

(** The pages from [j] on are mapped to the frames [fs]. *)
Definition run_mapped (m : memory) (j : Z) (fs : list Z) : Prop :=
  forall k f, fs !! k = Some f -> 0 <= f < nbits m (pool_bm sym_kern_pool) /\
    mapped m (kpage m (j + Z.of_nat k)) (frame m sym_kern_pool f).

Lemma free_page_step a s0 j fs i s :
  layout tasks -> mutex_home tasks heap_mutex -> t_page_dir (s_tcb a (s_cur a)) = NULL ->
  heap_ok (mem s0) -> 0 <= j -> j + Z.of_nat (length fs) <= nbits (mem s0) kvaddr_bm ->
  run_mapped (mem s0) j fs -> (forall b, lock_bytes tasks b -> ~ admin (mem s0) b) ->
  (i < length fs)%nat -> returned_at a s0 j fs i s ->
  exists s', (paddr ← vaddr_to_phy (kpage (mem s0) (j + Z.of_nat i)); pfree paddr;;
      page_table_remove (kpage (mem s0) (j + Z.of_nat i))) s = Ok tt s' /\
    returned_at a s0 j fs (S i) s'.
Proof.
  intros Hl Hm Hpd Hh Hj Hn Hmap Hlock Hi [Hs Hr Hfl Hv Ht].
  destruct (lookup_lt_is_Some_2 fs i Hi) as [f Hf]. destruct (Hmap i f Hf) as [Hfr Hpte_f].
  destruct (kpage_range _ (j + Z.of_nat i) Hh ltac:(lia)) as (K1 & K2 & K3).
  set (v := kpage (mem s0) (j + Z.of_nat i)) in *. pose proof (rt_pages _ _ _ _ _ Hr) as Hsp.
  assert (Hmap1 : mapped (mem s) v (frame (mem s) sym_kern_pool f)).
  { unfold mapped. rewrite (same_frame _ _ f Hsp), <- Hpte_f. apply (rt_kept _ _ _ _ _ Hr); lia. }
  pose proof (same_pool_ok _ _ _ (sg_pool _ _ Hsp) (hk_pool _ Hh)) as Hp1.
  assert (Hlock1 : forall b, lock_bytes tasks b -> ~ admin (mem s) b).
  { intros b Hb Hx. by apply (Hlock b Hb), (same_admin _ (mem s)). }
  rewrite <- (same_frames _ _ Hsp) in Hfr.
  destruct (frame_index _ f Hp1 Hfr) as (_ & F1 & F2).
  destruct (pfree_run a f s Hl Hm Hs Hpd Hp1 Hfr Hlock1) as (s2 & E2 & Hs2 & Hb2 & Hc2 & Hf2 & Hv2 & Ht2).
  assert (Hc2' : changed_only (fun b => pool_bits (mem s0) b \/ owner_bytes heap_mutex b) (mem s) (mem s2)).
  { eapply changed_weaken; [exact Hc2|]. intros b [Hb|Hb]; [left|by right].
    revert Hb. apply bits_area_eq; apply Hsp. }
  assert (Hd : pde_present (mem s2) v).
  { pose proof (pde_window v ltac:(zlia)) as Hw. unfold pde_present.
    rewrite (changed_get32 _ _ _ _ Hc2'), (changed_get32 _ _ _ _ (rt_frame _ _ _ _ _ Hr)).
    - apply (hk_tables _ Hh). lia.
    - intros b Hb [Hx|[Hx|[Hx|Hx]]].
      + apply (hk_vaddr_bits _ Hh) in Hx as (_ & _ & Hx). lia.
      + apply (hk_pool_bits _ Hh) in Hx as (_ & _ & Hx). lia.
      + unfold window in Hx. lia.
      + apply owner_lock, Hlock in Hx. apply Hx. unfold admin. lia.
    - intros b Hb [Hx|Hx].
      + apply (hk_pool_bits _ Hh) in Hx as (_ & _ & Hx). lia.
      + apply owner_lock, Hlock in Hx. apply Hx. unfold admin. lia. }
  eexists. split.
  - rewrite (bind_ok _ _ _ _ _ (mapped_translate v _ s Hmap1 F2 ltac:(lia) ltac:(zlia))).
    rewrite K3, Z.add_0_r, (bind_ok _ _ _ _ _ E2). exact (page_table_remove_run v s2 Hd).
  - destruct (pte_window Hpte v ltac:(lia)) as [W1 W2]. constructor; msimpl.
    + apply mutex_log. eapply (mutex_frame tasks idle); [done|done|exact Hs2| |].
      * apply (changed_put32 window). unfold window. lia.
      * intros b Hb Hx. apply (Hlock b Hx). unfold admin, window in *. lia.
    + eapply returning_next; try done. intros k Hk. apply Hb2. by rewrite (same_frames _ _ Hsp).
    + by rewrite Hf2.
    + by rewrite Hv2.
    + rewrite (mutex_esp _ _ _ _ _ _ _ _ Hs2), Ht2, Ht, <- app_assoc.
      by rewrite replicate_S_end.
Qed.

(** The outcome of [free_page]: the pages from [j] on and the frames [fs] are
    free again, and not mapped; everything else of the page allocator is as
    before. *)
Record pages_returned (m : memory) (j : Z) (fs : list Z) (m' : memory) : Prop := {
  ps_returned : returning m j fs (length fs) m';
  ps_heap : heap_ok m'
}.

Lemma returning_end m j fs m' : heap_ok m -> returning m j fs (length fs) m' -> pages_returned m j fs m'.
Proof.
  intros Hh Hr. pose proof Hr as [R1 R2 R3 R4 R5 R6]. constructor; [done|].
  apply (heap_ok_update m); [done|done| |].
  - intros w Hw. apply (changed_get32 _ _ _ _ R6). intros b Hb [Hx|[Hx|[Hx|Hx]]].
    + apply (hk_vaddr_bits _ Hh) in Hx as (_ & _ & Hx). lia.
    + apply (hk_pool_bits _ Hh) in Hx as (_ & _ & Hx). lia.
    + unfold window in Hx. lia.
    + destruct (hk_structs _ Hh) as [Hx2 _]. unfold owner_bytes, heap_mutex, pool.mutex, pool.sizeof,
        mutex_t.holder, mutex_t.recursion in *. lia.
  - intros k Hk Hb. destruct (decide (j <= k < j + Z.of_nat (length fs))) as [Hin|Hout]; [by apply R4|].
    rewrite R2, bool_decide_false in Hb by done. unfold unmapped. rewrite R5 by done.
    by apply (hk_unmapped _ Hh).
Qed.

Lemma vaddr_remove_range_run j n s :
  heap_ok (mem s) -> 0 <= j -> 1 <= n < 3840 -> j + n <= nbits (mem s) kvaddr_bm ->
  exists m', vaddr_remove PF_KERNEL (kpage (mem s) j) n s = Ok tt (set_mem m' s) /\
    changed_only (vaddr_bits (mem s)) (mem s) m' /\
    forall k, 0 <= k -> bit m' kvaddr_bm k = negb (bool_decide (j <= k < j + n)) && bit (mem s) kvaddr_bm k.
Proof.
  intros Hh Hj0 Hn Hj. destruct (kpage_range _ j Hh ltac:(lia)) as (K1 & K2 & _).
  destruct (hk_start _ Hh) as (S1 & _ & _).
  destruct (bitmap_clear_range_run kvaddr_bm j (Z.to_nat n) s (hk_vaddr _ Hh)) as (m' & E & Hc & _ & _ & Hb);
    [lia|lia|]. rewrite Z2Nat.id in Hb by lia. exists m'. split; [|done].
  unfold vaddr_remove. do 2 (erewrite bind_ok by (apply assert_run; lia); cbv beta).
  rewrite (proj2 (Z.eqb_neq (kpage (mem s) j) NULL)) by (unfold NULL; lia). rewrite decide_True by done.
  srun. fold (kvaddr_start (mem s)). fold kvaddr_bm.
  replace (u32 (kpage (mem s) j - kvaddr_start (mem s)) / PAGE_SIZE) with j; [exact E|].
  unfold kpage in *. change PAGE_SIZE with 4096 in *. rewrite u32_small by lia. zlia.
Qed.

(** [free_page] on pages of the kernel heap, called with the mutex held. *)
Lemma free_pages_kernel_run a j fs s :
  layout tasks -> mutex_home tasks heap_mutex -> t_page_dir (s_tcb a (s_cur a)) = NULL ->
  mutex_state tasks idle heap_mutex a (s_cur a) 1 [] s -> heap_ok (mem s) ->
  0 <= j -> 1 <= Z.of_nat (length fs) < 3840 -> j + Z.of_nat (length fs) <= nbits (mem s) kvaddr_bm ->
  run_mapped (mem s) j fs -> (forall b, lock_bytes tasks b -> ~ admin (mem s) b) ->
  exists s', free_page PF_KERNEL (kpage (mem s) j) (Z.of_nat (length fs)) s = Ok tt s' /\
    mutex_state tasks idle heap_mutex a (s_cur a) 1 [] s' /\ pages_returned (mem s) j fs (mem s') /\
    intr_flag s' = intr_flag s /\ vars s' = vars s /\
    trace s' = trace s ++ replicate (length fs) (Invlpg (vaddr_slot (Machine.esp s))).
Proof.
  intros Hl Hm Hpd Hs Hh Hj Hn1 Hn Hmap Hlock. set (n := Z.of_nat (length fs)) in *.
  destruct (vaddr_remove_range_run j n s Hh Hj Hn1 Hn) as (m1 & E1 & Hc1 & Hb1).
  pose proof (returning_start _ _ _ _ Hh Hj Hn Hc1 Hb1) as Hr1.
  assert (H0 : returned_at a s j fs 0 (set_mem m1 s)).
  { constructor; msimpl; [|done|done|done|by rewrite app_nil_r].
    eapply (mutex_frame tasks idle); [done|done|exact Hs|exact Hc1|].
    intros b Hb Hx. apply (Hlock b Hx). unfold admin. tauto. }
  assert (Hl2 : wp (for_ 0 (length fs) (fun i => let vaddr_to_delete := u32 (kpage (mem s) j + i * PAGE_SIZE) in
      paddr ← vaddr_to_phy vaddr_to_delete; pfree paddr;; page_table_remove vaddr_to_delete))
    (fun _ s' => returned_at a s j fs (length fs) s') (set_mem m1 s)).
  { apply wp_for with (I := fun i s' => returned_at a s j fs (Z.to_nat i) s').
    - done.
    - intros i s' Hi Ha.
      destruct (free_page_step a s j fs (Z.to_nat i) s') as (s2 & E2 & H2); try done; [lia|].
      rewrite Z2Nat.id in E2 by lia. destruct (kpage_range _ (j + i) Hh ltac:(lia)) as (K1 & K2 & _).
      assert (Ev : u32 (kpage (mem s) j + i * PAGE_SIZE) = kpage (mem s) (j + i)).
      { unfold kpage in *. change PAGE_SIZE with 4096 in *. rewrite u32_small; lia. }
      cbv zeta. rewrite Ev. eapply wp_ok; [exact E2|].
      replace (Z.to_nat (i + 1)) with (S (Z.to_nat i)) by lia. done.
    - intros s' Ha. by rewrite Z.add_0_l, Nat2Z.id in Ha. }
  apply wp_run in Hl2 as ([] & s' & E2 & [Hs' Hr Hf Hv Ht]). exists s'. split_and!; [|done| |done|done|].
  - unfold free_page. rewrite (bind_ok _ _ _ _ _ E1). unfold n. rewrite Nat2Z.id. exact E2.
  - by apply returning_end.
  - by rewrite (mutex_esp _ _ _ _ _ _ _ _ Hs).
Qed.
(** The page [j] and the frame [f] are free again; everything else of the
    page allocator is as before. *)
Record page_returned (m : memory) (j f : Z) (m' : memory) : Prop := {
  pr_pages : same_pages m m';
  pr_virtual : forall k, 0 <= k < nbits m kvaddr_bm ->
    bit m' kvaddr_bm k = negb (j =? k) && bit m kvaddr_bm k;
  pr_frames : forall k, 0 <= k < nbits m (pool_bm sym_kern_pool) ->
    bit m' (pool_bm sym_kern_pool) k = negb (f =? k) && bit m (pool_bm sym_kern_pool) k;
  pr_unmapped : unmapped m' (kpage m j);
  pr_other : forall k, 0 <= k < nbits m kvaddr_bm -> k <> j ->
    get32 m' (pte_ptr (kpage m k)) = get32 m (pte_ptr (kpage m k));
  pr_heap : heap_ok m';
  pr_frame : changed_only (fun b => vaddr_bits m b \/ pool_bits m b \/ window b \/
    owner_bytes heap_mutex b) m m'
}.

Lemma pages_returned_one m j f m' :
  0 <= j < nbits m kvaddr_bm -> pages_returned m j [f] m' -> page_returned m j f m'.
Proof.
  intros Hj [[R1 R2 R3 R4 R5 R6] Hh]. cbn [length take] in *. change (Z.of_nat 1) with 1 in *.
  assert (Hone : forall k, bool_decide (j <= k < j + 1) = (j =? k)).
  { intros k. destruct (Z.eqb_spec j k); [apply bool_decide_true|apply bool_decide_false]; lia. }
  constructor; [done| | |apply R4; lia|intros k Hk Hne; apply R5; lia|done|done].
  - intros k Hk. by rewrite R2, Hone.
  - intros k Hk. rewrite R3 by done. f_equal. f_equal.
    destruct (Z.eqb_spec f k) as [->|Hne]; [apply bool_decide_true|apply bool_decide_false];
      rewrite list_elem_of_singleton; congruence.
Qed.

(** [free_page] on one page of the kernel heap, called with the mutex held. *)
Lemma free_page_kernel_run a j f s :
  layout tasks -> mutex_home tasks heap_mutex ->
  mutex_state tasks idle heap_mutex a (s_cur a) 1 [] s -> t_page_dir (s_tcb a (s_cur a)) = NULL ->
  heap_ok (mem s) -> 0 <= j < nbits (mem s) kvaddr_bm -> 0 <= f < nbits (mem s) (pool_bm sym_kern_pool) ->
  mapped (mem s) (kpage (mem s) j) (frame (mem s) sym_kern_pool f) ->
  (forall b, lock_bytes tasks b -> ~ admin (mem s) b) ->
  exists s', free_page PF_KERNEL (kpage (mem s) j) 1 s = Ok tt s' /\
    mutex_state tasks idle heap_mutex a (s_cur a) 1 [] s' /\ page_returned (mem s) j f (mem s') /\
    intr_flag s' = intr_flag s /\ vars s' = vars s /\
    trace s' = trace s ++ [Invlpg (vaddr_slot (Machine.esp s))].
Proof.
  intros Hl Hm Hs Hpd Hh Hj Hf Hmap Hlock.
  destruct (free_pages_kernel_run a j [f] s) as (s' & E & H1 & H2 & H3 & H4 & H5); try done; cbn [length]; try lia.
  - intros [|k] g [= <-]. by rewrite Z.add_0_r.
  - exists s'. split_and!; [done|done|by apply pages_returned_one|done|done|done].
Qed.
End Return.
