(* ===== verification/HeapFree.v ===== *)
(** * Releasing blocks (kernel/memory.c: sys_free)

    A block goes back to its free list; an arena whose blocks are all free is
    taken apart and its page returned. *)

From S2P Require Import Prelude Machine Concrete Interrupt CString Bitmap DList Paging Tss Sched Lock Memory Malloc Heap HeapGrow PageFree.

#[local] Open Scope Z_scope.

(** ** Taking an arena apart *)
Section Unlist.
Context {PL : Platform} {LK : Linker}.

Lemma filter_all {A} (P : A -> Prop) `{!forall x, Decision (P x)} (l : list A) :
  (forall x, x ∈ l -> P x) -> filter P l = l.
Proof.
  induction l as [|x l IH]; intros Hl; [done|].
  rewrite filter_cons_True by (apply Hl; by left). by rewrite IH by (intros y Hy; apply Hl; by right).
Qed.

Lemma filter_drop_one (x : Z) l1 l2 :
  NoDup (l1 ++ x :: l2) -> filter (fun y => y <> x) (l1 ++ x :: l2) = l1 ++ l2.
Proof.
  intros (_ & H1 & H2)%NoDup_app. apply NoDup_cons in H2 as [H2 _].
  rewrite filter_app, filter_cons_False by tauto. f_equal; apply filter_all; intros y Hy ->.
  - by apply (H1 x Hy); left.
  - done.
Qed.

(** The list [L] without the first [k] blocks of an arena. *)
Definition without (i base : Z) (k : nat) (L : list Z) : list Z :=
  filter (fun x => x ∉ blocks i base k) L.

Lemma without_0 i base L : without i base 0 L = L.
Proof. apply filter_all. intros x _ H. by apply not_elem_of_nil in H. Qed.

Lemma without_S i base k L :
  without i base (S k) L = filter (fun y => y <> block_at i base (Z.of_nat k)) (without i base k L).
Proof.
  unfold without. rewrite list_filter_filter. apply list_filter_iff. intros x.
  rewrite blocks_snoc, elem_of_app, list_elem_of_singleton. tauto.
Qed.

Lemma dlist_NoDup m l L : dlist m l L -> NoDup L.
Proof.
  intros [_ Ha]. apply all_apart_NoDup in Ha. unfold with_ends in Ha.
  apply NoDup_cons in Ha as [_ Ha]. by apply NoDup_app in Ha as (Ha & _ & _).
Qed.

(** The bytes of the free list of class [i]. *)
Definition list_bytes (arenas : list (Z * Z)) (i c : Z) : Prop := header_bytes i c \/ payload arenas i c.

Lemma list_bytes_nodes h i L c :
  heap_wf h -> is_class i -> (forall x, x ∈ L -> block_of (h_arenas h) i x) ->
  node_bytes (with_ends (desc_at i + mem_block_desc.block_list) L) c -> list_bytes (h_arenas h) i c.
Proof.
  intros Hw Hi HL Hc. destruct (node_cases i L c Hc) as [?|(x & Hx & Hxc)]; [by left|right].
  pose proof (bsize_bounds i Hi). eapply block_payload; [done|done|by apply HL|lia].
Qed.

(** What the loops over an arena read stays as it is. *)
Lemma list_bytes_frame h i a j m m' :
  heap_wf h -> is_class i -> (a, j) ∈ h_arenas h -> changed_only (list_bytes (h_arenas h) i) m m' ->
  (forall w, a <= w -> w + 4 <= a + 12 -> get32 m' w = get32 m w) /\
  (forall k w, is_class k -> desc_at k + 16 <= w -> w + 4 <= desc_at k + 24 -> get32 m' w = get32 m w).
Proof.
  intros Hw Hi Ha Hc. split.
  - intros w H1 H2. apply (changed_get32 _ _ _ _ Hc). intros b Hb [Hx|Hx].
    + apply (header_not_page h i b a j Hw Hi Ha Hx). lia.
    + apply (payload_not_header h i b a j Hw Ha Hx). lia.
  - intros k w Hk H1 H2. apply (changed_get32 _ _ _ _ Hc). intros b Hb [Hx|Hx].
    + unfold header_bytes, is_class in *. hoff. lia.
    + apply (payload_not_desc h i b Hw Hx). unfold is_class in *. hoff. lia.
Qed.

(** One iteration: the block is in the list and leaves it, or is not. *)
Lemma unlist_step h i base j L fl m s :
  heap_wf h -> is_class i -> (forall x, x ∈ L -> block_of (h_arenas h) i x) ->
  dlist m (desc_at i + mem_block_desc.block_list) (without i base j L) ->
  exists m2 fl2, when (bool_decide (block_at i base (Z.of_nat j) ∈ without i base j L))
      (list_remove (block_at i base (Z.of_nat j))) (set_intr_flag fl (set_mem m s))
      = Ok tt (set_intr_flag fl2 (set_mem m2 s)) /\
    dlist m2 (desc_at i + mem_block_desc.block_list) (without i base (S j) L) /\
    changed_only (list_bytes (h_arenas h) i) m m2.
Proof.
  intros Hw Hi HL Hl. rewrite without_S. set (x := block_at i base (Z.of_nat j)).
  case_bool_decide as Hx.
  - destruct (list_elem_of_split _ _ Hx) as (l1 & l2 & E). pose proof (dlist_NoDup _ _ _ Hl) as Hnd.
    rewrite E in Hl, Hnd. destruct (list_remove_run _ l1 x l2 (set_intr_flag fl (set_mem m s)) Hl)
      as (m2 & E2 & Hl2 & Hc2). exists m2, (flag_after fl). rewrite E, filter_drop_one by done.
    split_and!; [exact E2|done|]. eapply changed_weaken; [exact Hc2|]. intros c.
    apply list_bytes_nodes; [done|done|]. intros y Hy. apply HL.
    assert (Hy' : y ∈ without i base j L) by (rewrite E; rewrite elem_of_app in *; rewrite elem_of_cons; tauto).
    by apply list_elem_of_filter in Hy' as [_ ?].
  - exists m, fl. rewrite filter_all by (intros y Hy ->; done). split_and!; [done|done|apply changed_refl].
Qed.

(** [unlist_blocks] ends, with no block of the arena left in the list. *)
Lemma unlist_blocks_run h i base L s :
  heap_wf h -> is_class i -> (base, i) ∈ h_arenas h ->
  (forall x, x ∈ L -> block_of (h_arenas h) i x) ->
  get32 (mem s) (base + arena.desc) = desc_at i -> get32 (mem s) (base + arena.cnt) = bcount i ->
  get32 (mem s) (desc_at i + mem_block_desc.block_size) = bsize i ->
  dlist (mem s) (desc_at i + mem_block_desc.block_list) L ->
  exists m' fl, unlist_blocks base s = Ok tt (set_intr_flag fl (set_mem m' s)) /\
    dlist m' (desc_at i + mem_block_desc.block_list) (without i base (Z.to_nat (bcount i)) L) /\
    changed_only (list_bytes (h_arenas h) i) (mem s) m'.
Proof.
  intros Hw Hi Hin HL Hd Hn Hsz Hl. pose proof (hw_place _ Hw _ _ Hin) as [_ Ha Hr _].
  pose proof (bsize_bounds i Hi) as (Hs & Hc & Hfit).
  set (T := list_bytes (h_arenas h) i).
  assert (Hgoal : wp (unlist_blocks base) (fun _ s' => exists m' fl, s' = set_intr_flag fl (set_mem m' s) /\
    dlist m' (desc_at i + mem_block_desc.block_list) (without i base (Z.to_nat (bcount i)) L) /\
    changed_only T (mem s) m') s).
  { unfold unlist_blocks. apply (wp_while _ (fun n k s' => exists j m' fl, k = Z.of_nat j /\
      n = bcount i - k /\ s' = set_intr_flag fl (set_mem m' s) /\ k <= bcount i /\
      dlist m' (desc_at i + mem_block_desc.block_list) (without i base j L) /\
      changed_only T (mem s) m') _ _) with (n := bcount i); [|lia|].
    2:{ exists 0%nat, (mem s), (intr_flag s). rewrite without_0.
        split_and!; [done|lia|by destruct s|lia|done|apply changed_refl]. }
    intros n k s' _ (j & m' & fl & -> & -> & -> & Hle & Hlj & Hcj).
    destruct (list_bytes_frame h i base i _ _ Hw Hi Hin Hcj) as [Hf1 Hf2].
    do 2 wstep. cbv beta. msimpl. rewrite (Hf1 (base + arena.cnt)), Hn by (hoff; lia).
    rewrite u32_small by lia. destruct (Z.ltb_spec (Z.of_nat j) (bcount i)) as [Hlt|Hge].
    - pose proof (block_bounds i base (Z.of_nat j) Hi ltac:(lia)) as Hb.
      unfold arena_to_block. do 4 wstep. cbv beta. apply wp_bind. do 2 wstep. cbv beta. msimpl.
      rewrite (Hf1 (base + arena.desc)), Hd by (hoff; lia).
      rewrite (Hf2 i), Hsz by (done || (hoff; lia)).
      replace (u32 (u32 (base + arena.sizeof) + Z.of_nat j * bsize i) + mem_block.block_node)
        with (block_at i base (Z.of_nat j))
        by (unfold block_at in *; change mem_block.block_node with 0; change arena.sizeof with 12 in *;
            change (2 ^ 32) with 4294967296 in *; rewrite (u32_small (base + 12)), u32_small by lia; lia).
      eapply wp_ok; [apply list_exist_run; exact Hlj|]. cbv beta.
      assert (Hstep : exists m2 fl2, when (bool_decide (block_at i base (Z.of_nat j) ∈ without i base j L))
          (list_remove (block_at i base (Z.of_nat j))) (set_intr_flag fl (set_mem m' s))
          = Ok tt (set_intr_flag fl2 (set_mem m2 s)) /\
        dlist m2 (desc_at i + mem_block_desc.block_list) (without i base (S j) L) /\ changed_only T m' m2)
        by (by apply (unlist_step h)).
      destruct Hstep as (m2 & fl2 & E2 & Hl2 & Hc2). apply wp_bind. eapply wp_ok; [exact E2|]. cbv beta.
      wstep. exists (bcount i - Z.of_nat (S j)). split; [lia|]. exists (S j), m2, fl2.
      rewrite s32_small by lia. split_and!; [lia|lia|done|lia|done|by eapply changed_trans].
    - wstep. exists m', fl. split_and!; [done| |done]. by replace (Z.to_nat (bcount i)) with j by lia. }
  apply wp_run in Hgoal as ([] & s' & E & m' & fl & -> & H). by exists m', fl.
Qed.
End Unlist.

(** ** The heap after a release *)
Section Released.
Context {PL : Platform} {LK : Linker}.

Definition push_block (i b : Z) (h : heap) : heap := set_free i (h_free h i ++ [b]) h.

Definition drop_arena (i base : Z) (h : heap) : heap :=
  mkHeap (fun j => if decide (j = i) then without i base (Z.to_nat (bcount i)) (h_free h i) else h_free h j)
    (filter (fun ai => ai.1 <> base) (h_arenas h)).

(** The arena of [b] has no block in use once [b] is free. *)
Definition last_block (i b : Z) (h : heap) : bool :=
  count_free (block_to_arena b) (h_free h i ++ [b]) =? bcount i.

Definition release (i b : Z) (h : heap) : heap :=
  if last_block i b h then drop_arena i (block_to_arena b) (push_block i b h) else push_block i b h.

Lemma in_arena h i base x :
  heap_wf h -> is_class i -> (base, i) ∈ h_arenas h -> block_of (h_arenas h) i x ->
  x ∈ blocks i base (Z.to_nat (bcount i)) <-> block_to_arena x = base.
Proof.
  intros Hw Hi Hb Hx. pose proof (bsize_bounds i Hi) as (_ & Hc & _).
  rewrite elem_blocks, Z2Nat.id by lia. split.
  - intros (k & Hk & ->). destruct (hw_place _ Hw _ _ Hb) as [_ Ha Hr _].
    apply block_to_arena_at; lia || done.
  - intros <-. destruct Hx as (a & k & Ha & Hk & ->). exists k.
    destruct (hw_place _ Hw _ _ Ha) as [_ Hal Hr _]. rewrite block_to_arena_at by (lia || done). done.
Qed.

Lemma count_without h i base a L :
  heap_wf h -> is_class i -> (base, i) ∈ h_arenas h -> (forall x, x ∈ L -> block_of (h_arenas h) i x) ->
  count_free a (without i base (Z.to_nat (bcount i)) L) = if decide (a = base) then 0 else count_free a L.
Proof.
  intros Hw Hi Hb. unfold without. induction L as [|x L IH]; intros HL; [by case_decide|].
  specialize (IH (fun y Hy => HL y (list_elem_of_further _ _ _ Hy))).
  pose proof (in_arena h i base x Hw Hi Hb (HL x (list_elem_of_here _ _))) as Hx.
  destruct (decide (x ∈ blocks i base (Z.to_nat (bcount i)))) as [Hin|Hin].
  - rewrite filter_cons_False by tauto. rewrite IH, count_free_cons. apply Hx in Hin.
    case_decide; [done|]. rewrite (proj2 (Z.eqb_neq (block_to_arena x) a)) by congruence. lia.
  - rewrite filter_cons_True by done. rewrite !count_free_cons, IH.
    case_decide; [subst|done]. rewrite (proj2 (Z.eqb_neq (block_to_arena x) base)) by tauto. lia.
Qed.

(** An arena has no more free blocks than blocks. *)
Lemma count_bound h i base L :
  heap_wf h -> is_class i -> (base, i) ∈ h_arenas h -> NoDup L ->
  (forall x, x ∈ L -> block_of (h_arenas h) i x) -> count_free base L <= bcount i.
Proof.
  intros Hw Hi Hb Hnd HL. pose proof (bsize_bounds i Hi) as (_ & Hc & _).
  assert (Hlen : length (blocks i base (Z.to_nat (bcount i))) = Z.to_nat (bcount i)).
  { unfold blocks. rewrite length_fmap, length_seqZ. lia. }
  unfold count_free. rewrite <- (Z2Nat.id (bcount i)), <- Hlen by lia. apply inj_le.
  apply List.NoDup_incl_length.
  - apply List.NoDup_filter. by apply NoDup_ListNoDup.
  - intros x (Hx & E%Z.eqb_eq)%List.filter_In. apply list_elem_of_In in Hx. apply list_elem_of_In.
    by apply (in_arena h); [..|by apply HL|].
Qed.

Lemma push_block_wf i b h : heap_wf h -> block_of (h_arenas h) i b -> heap_wf (push_block i b h).
Proof.
  intros Hw Hb. apply set_free_wf; [done|]. intros x Hi [Hx|Hx%list_elem_of_singleton]%elem_of_app.
  - by apply (hw_blocks _ Hw).
  - by subst.
Qed.

Lemma fst_filter_nodup (P : Z * Z -> Prop) `{!forall x, Decision (P x)} l :
  NoDup l.*1 -> NoDup (filter P l).*1.
Proof.
  induction l as [|x l IH]; [done|]. intros [Hx Hl]%NoDup_cons. rewrite filter_cons.
  case_decide; [|by apply IH]. apply NoDup_cons. split; [|by apply IH].
  intros (y & E & [_ Hy]%list_elem_of_filter)%list_elem_of_fmap. apply Hx, list_elem_of_fmap. eauto.
Qed.

Lemma drop_arena_wf i base h : heap_wf h -> (base, i) ∈ h_arenas h -> heap_wf (drop_arena i base h).
Proof.
  intros Hw Hb. pose proof Hw as [H1 H2 H3]. constructor; cbn.
  - intros a j [_ Ha]%list_elem_of_filter. by apply H1.
  - by apply fst_filter_nodup.
  - intros j x Hj Hx. assert (Hin : x ∈ h_free h j).
    { case_decide; [subst; by apply list_elem_of_filter in Hx as [_ ?]|done]. }
    destruct (H3 j x Hj Hin) as (a & k & Ha & Hk & ->). exists a, k. split_and!; [|lia|lia|done].
    apply list_elem_of_filter. split; [|done]. cbn. intros ->. case_decide as E.
    + subst j. apply list_elem_of_filter in Hx as [Hx _]. apply Hx, elem_blocks. exists k.
      pose proof (bsize_bounds i Hj). split; [lia|done].
    + destruct (arenas_apart h base j base i Hw Ha Hb); [congruence|lia|lia].
Qed.

(** Once the blocks of an arena have left the free list, the rest of the heap
    is represented without it. *)
Lemma drop_arena_rep m m' h i base :
  heap_wf h -> heap_rep m h -> is_class i -> (base, i) ∈ h_arenas h ->
  changed_only (class_touch (h_arenas h) i base) m m' ->
  dlist m' (desc_at i + mem_block_desc.block_list) (without i base (Z.to_nat (bcount i)) (h_free h i)) ->
  heap_rep m' (drop_arena i base h).
Proof.
  intros Hw Hr Hi Hb Hc Hl. set (L := without _ _ _ _) in Hl. set (m2 := put32 m' (base + arena.cnt) 0).
  assert (HL : forall x, x ∈ h_free h i -> block_of (h_arenas h) i x) by (intros x; by apply (hw_blocks _ Hw)).
  assert (Hcnt := fun a => count_without h i base a (h_free h i) Hw Hi Hb HL).
  assert (Hc2 : changed_only (fun b => base <= b < base + 12) m' m2)
    by (apply changed_put32; intros b Hx; hoff; lia).
  assert (Hr2 : heap_rep m2 (set_free i L h)).
  { apply (heap_update m m2 h i base L); try done.
    - eapply changed_trans; [exact Hc|]. apply changed_put32. intros b Hx. right. by right.
    - eapply dlist_changed_only; [exact Hc2| |exact Hl]. intros c Hn Hx.
      apply (list_bytes_nodes h) in Hn; [|done|done|intros x [_ ?]%list_elem_of_filter; by apply HL].
      destruct Hn as [Hn|Hn].
      + apply (header_not_page h i c base i Hw Hi Hb Hn). lia.
      + by apply (payload_not_header h i c base i Hw Hb Hn).
    - unfold m2. rewrite get32_put32_eq. unfold L. rewrite Hcnt. by rewrite decide_True.
    - intros a Ha Hne. unfold L. rewrite Hcnt. by rewrite decide_False. }
  apply (heap_frame m2); [by apply drop_arena_wf| |].
  - destruct Hr2 as [H1 H2]. constructor; [exact H1|].
    intros a j [_ Ha]%list_elem_of_filter. by apply H2.
  - intros b Hx. unfold m2. symmetry. apply get8_put32_ne. intros Hy.
    pose proof (ap_apart _ _ (hw_place _ Hw _ _ Hb) b) as Hap. destruct Hx as [Hx|Hx].
    + apply Hap; [unfold page_bytes; hoff; lia|done].
    + apply Exists_exists in Hx as ((a & j) & [Hne Ha]%list_elem_of_filter & Hp). cbn in *.
      destruct (arenas_apart h a j base i Hw Ha Hb); [congruence|..]; unfold page_bytes in *; hoff; lia.
Qed.
End Released.

(** ** sys_free *)
Section Give.
Context {PL : Platform} {LK : Linker} (tasks : list Z) (idle : Z).
Context (Hpte : forall v, pte_ptr_ret v = v).

(** The page of an arena that has been taken apart is free again. *)
Lemma space_returned m h i base j f m' :
  heap_space tasks m (h_arenas h) -> heap_wf h -> (base, i) ∈ h_arenas h ->
  (forall b, heap_bytes (h_arenas h) b -> ~ lock_bytes tasks b) ->
  0 <= j < nbits m kvaddr_bm -> base = kpage m j ->
  0 <= f < nbits m (pool_bm sym_kern_pool) -> mapped m base (frame m sym_kern_pool f) ->
  page_returned m j f m' ->
  heap_space tasks m' (filter (fun ai => ai.1 <> base) (h_arenas h)).
Proof.
  intros [H1 H2 H3 H3' Hdi H4 H5] Hw Hb Hlk Hj Ebase Hf Hmap [Hs Hv Hfr Hun Hoth Hok _].
  pose proof (same_nbits _ _ Hs) as En.
  assert (Hpb : forall b, page_bytes base b -> heap_bytes (h_arenas h) b).
  { intros b Hx. right. apply Exists_exists. by exists (base, i). }
  assert (Hkeep : forall a k, (a, k) ∈ h_arenas h -> a <> base -> get32 m' (pte_ptr a) = get32 m (pte_ptr a)).
  { intros a k Ha Hne. destruct (H3 a k Ha) as (q & Hq & _ & ->). apply Hoth; [done|]. congruence. }
  constructor; [done|..].
  - intros k b Hk Hfree Hp. rewrite En in Hk. rewrite Hv in Hfree by done. rewrite (same_kpage _ _ k Hs) in Hp.
    destruct (Z.eqb_spec j k) as [<-|Hne]; cbn [negb andb] in Hfree.
    + rewrite <- Ebase in Hp. split_and!; [by apply (ap_apart _ _ (hw_place _ Hw _ _ Hb))|by apply Hlk, Hpb|].
      intros Hx. by apply (H4 b (Hpb b Hp)), (same_admin m m').
    + destruct (H2 k b Hk Hfree Hp) as (? & ? & Ha). split_and!; [done|done|].
      intros Hx. by apply Ha, (same_admin m m').
  - intros a k [Hne Ha]%list_elem_of_filter. cbn in Hne. destruct (H3 a k Ha) as (q & Hq & Hu & ->).
    exists q. rewrite En, (same_kpage _ _ q Hs), Hv, Hu by done. split_and!; [lia|lia| |done].
    by rewrite (proj2 (Z.eqb_neq j q)) by congruence.
  - intros a k [Hne Ha]%list_elem_of_filter. cbn in Hne. destruct (H3' a k Ha) as (g & Hg & Hu & Hm).
    exists g. rewrite (same_frames _ _ Hs), (same_frame _ _ g Hs), Hfr, Hu by done.
    split_and!; [lia|lia| |unfold mapped; by rewrite (Hkeep a k Ha Hne)].
    rewrite (proj2 (Z.eqb_neq f g)); [done|]. intros ->. apply Hne, (Hdi a k base i Ha Hb).
    unfold mapped in *. congruence.
  - intros a k a' k' [Hne Ha]%list_elem_of_filter [Hne' Ha']%list_elem_of_filter. cbn in Hne, Hne'.
    rewrite (Hkeep a k Ha Hne), (Hkeep a' k' Ha' Hne'). by apply (Hdi a k a' k').
  - intros b Hx Hy. apply (same_admin m m' b Hs) in Hy. apply (H4 b); [|done].
    destruct Hx as [Hx|Hx]; [by left|right]. apply Exists_exists in Hx as (y & [_ Hin]%list_elem_of_filter & Hp).
    apply Exists_exists. eauto.
  - intros b Hx Hy. apply (same_admin m m' b Hs) in Hy. by apply (H5 b).
Qed.

(** A block that is not free goes to the end of its list. *)
Lemma push_block_run h i b s :
  heap_wf h -> heap_rep (mem s) h -> is_class i -> block_of (h_arenas h) i b -> b ∉ h_free h i ->
  exists m', (forall c : K unit, (desc ← ld32 (block_to_arena b + arena.desc);
      list_push_back (desc + mem_block_desc.block_list) (b + mem_block.block_node);;
      cnt ← ld32 (block_to_arena b + arena.cnt);
      st32 (block_to_arena b + arena.cnt) (cnt + 1);; c) s = c (after_critical s m')) /\
    heap_rep m' (push_block i b h) /\
    changed_only (class_touch (h_arenas h) i (block_to_arena b)) (mem s) m'.
Proof.
  intros Hw Hr Hi Hb Hnin. destruct (block_arena h i b Hw Hi Hb) as (H0 & Hb1 & Hb2).
  set (a0 := block_to_arena b) in *. pose proof (hw_place _ Hw _ _ H0) as [_ _ Hrange _].
  pose proof (bsize_bounds i Hi) as (Hsz & Hcb & _).
  destruct (hr_desc _ _ Hr i Hi) as [_ _ Hl]. destruct (hr_arena _ _ Hr _ _ H0) as [Ed Ec _].
  assert (HL : forall x, x ∈ h_free h i -> block_of (h_arenas h) i x) by (intros x; by apply (hw_blocks _ Hw)).
  assert (HL1 : forall x, x ∈ h_free h i ++ [b] -> block_of (h_arenas h) i x).
  { intros x [Hx|Hx%list_elem_of_singleton]%elem_of_app; [by apply HL|by subst]. }
  assert (Happ : Forall (apart b) (with_ends (desc_at i + mem_block_desc.block_list) (h_free h i))).
  { assert (Hh : forall c, header_bytes i c -> ~ a0 <= c < a0 + 4096).
    { intros c. by apply (header_not_page h i c a0 i). }
    unfold header_bytes in Hh. unfold with_ends.
    constructor; [|apply Forall_app; split; [|constructor; [|constructor]]].
    - pose proof (Hh (desc_at i)). pose proof (Hh (desc_at i + 7)). unfold apart. hoff. lia.
    - apply Forall_forall. intros x Hx. assert (Hne : x <> b) by (by intros ->).
      pose proof (blocks_disjoint h i x b Hw Hi (HL x Hx) Hb Hne). unfold apart. hoff. lia.
    - pose proof (Hh (desc_at i + 8)). pose proof (Hh (desc_at i + 15)). unfold apart. hoff. lia. }
  destruct (list_push_back_run _ _ b s Hl) as (m1 & E1 & Hl1 & Hc1);
    [unfold is_node; hoff; lia|done|].
  assert (Hc1' : changed_only (list_bytes (h_arenas h) i) (mem s) m1).
  { eapply changed_weaken; [exact Hc1|]. intros c [Hc|Hc]%Exists_cons.
    - right. exists a0. hoff. split; [done|lia].
    - by apply (list_bytes_nodes h i (h_free h i)). }
  destruct (list_bytes_frame h i a0 i _ _ Hw Hi H0 Hc1') as [Hf1 _].
  assert (Hcnt : count_free a0 (h_free h i ++ [b]) = count_free a0 (h_free h i) + 1).
  { rewrite count_free_snoc. unfold a0. by rewrite Z.eqb_refl. }
  assert (Hbound : count_free a0 (h_free h i ++ [b]) <= bcount i).
  { apply (count_bound h); [done|done|done|by eapply dlist_NoDup|done]. }
  assert (H0c : 0 <= count_free a0 (h_free h i)) by (unfold count_free; lia).
  set (m2 := put32 m1 (a0 + arena.cnt) (count_free a0 (h_free h i) + 1)).
  assert (Hc2 : changed_only (class_touch (h_arenas h) i a0) m1 m2)
    by (apply changed_put32; intros c Hc; right; by right).
  assert (Hc : changed_only (class_touch (h_arenas h) i a0) (mem s) m2).
  { eapply changed_trans; [eapply changed_weaken; [exact Hc1'|]|exact Hc2].
    intros c [?|?]; [by left|by right; left]. }
  exists m2. split_and!; [| |done].
  - intros c. erewrite bind_ok by reflexivity. cbv beta. rewrite Ed.
    replace (b + mem_block.block_node) with b by (change mem_block.block_node with 0; lia).
    rewrite (bind_ok _ _ _ _ _ E1).
    erewrite bind_ok by reflexivity. cbv beta. unfold after_critical at 1. msimpl.
    rewrite (Hf1 (a0 + arena.cnt)), Ec by (hoff; lia). reflexivity.
  - apply (heap_update (mem s) m2 h i a0); try done.
    + eapply (dlist_changed_only (fun c => a0 <= c < a0 + 12)); [| |exact Hl1].
      * apply changed_put32. intros c Hx. hoff. lia.
      * intros c Hn Hx. apply (list_bytes_nodes h) in Hn; [|done..]. destruct Hn as [Hn|Hn].
        -- apply (header_not_page h i c a0 i Hw Hi H0 Hn). lia.
        -- by apply (payload_not_header h i c a0 i Hw H0 Hn).
    + unfold m2. rewrite get32_put32_eq, u32_small, Hcnt by lia. done.
    + intros x Hx Hne. rewrite count_free_snoc. fold a0. rewrite (proj2 (Z.eqb_neq a0 x)) by congruence. lia.
Qed.
Lemma held_class a h i a0 s m' fl P :
  heap_held tasks idle a (h_arenas h) s -> heap_wf h -> is_class i -> (a0, i) ∈ h_arenas h ->
  changed_only P (mem s) m' -> (forall c, P c -> class_touch (h_arenas h) i a0 c) ->
  heap_held tasks idle a (h_arenas h) (set_intr_flag fl (set_mem m' s)).
Proof.
  intros Hh Hw Hi H0 Hc HP. eapply held_write; [done|exact Hc|].
  intros c Hx. by eapply class_touch_heap, HP.
Qed.

(** The page at [base] is one of the heap's, free and not mapped. *)
Definition page_free (m : memory) (base : Z) : Prop :=
  exists j, 0 <= j < nbits m kvaddr_bm /\ base = kpage m j /\
    bit m kvaddr_bm j = false /\ unmapped m base.

Lemma page_free_frame m m' P base :
  heap_ok m -> changed_only P m m' -> (forall b, P b -> ~ admin m b) -> page_free m base -> page_free m' base.
Proof.
  intros Hh Hc HP (j & Hj & -> & Hb & Hu). destruct (admin_frame Hpte m m' P Hc HP Hh) as (_ & Hs & [Hv _]).
  exists j. rewrite (same_nbits _ _ Hs), (same_kpage _ _ j Hs), Hv by done. split_and!; [lia|lia|done|done|].
  unfold unmapped. destruct (kpage_range m j Hh Hj) as (K1 & K2 & _).
  by rewrite (entry_frame Hpte m m' P) by (done || lia).
Qed.

(** What a release promises. *)
Record block_given (h' : heap) (s s' : machine) : Prop := {
  bg_wf : heap_wf h';
  bg_rep : heap_rep (mem s') h';
  bg_space : heap_space tasks (mem s') (h_arenas h');
  bg_vars : vars s' = vars s
}.

(** The arena of the released block is still in use. *)
Lemma give_block_keep a h i b s :
  heap_held tasks idle a (h_arenas h) s -> heap_wf h -> heap_rep (mem s) h ->
  heap_space tasks (mem s) (h_arenas h) ->
  is_class i -> block_of (h_arenas h) i b -> b ∉ h_free h i -> last_block i b h = false ->
  exists s', give_block PF_KERNEL (block_to_arena b) b s = Ok tt s' /\
    heap_held tasks idle a (h_arenas h) s' /\ block_given (push_block i b h) s s' /\ trace s' = trace s.
Proof.
  intros Hh Hw Hr Hs Hi Hb Hnin Hlast. destruct (block_arena h i b Hw Hi Hb) as (H0 & _).
  destruct (push_block_run h i b s Hw Hr Hi Hb Hnin) as (m1 & E1 & Hr1 & Hc1).
  exists (after_critical s m1). split_and!; [| | |done].
  - unfold give_block. rewrite E1. erewrite bind_ok by reflexivity. cbv beta.
    erewrite bind_ok by reflexivity. cbv beta. erewrite bind_ok by reflexivity. cbv beta.
    unfold after_critical. msimpl. destruct (hr_arena _ _ Hr1 _ _ H0) as [Ed Ec _].
    rewrite Ed, Ec, (dr_cnt _ _ _ (hr_desc _ _ Hr1 i Hi)). cbn [push_block set_free h_free].
    rewrite decide_True by done. unfold last_block in Hlast. by rewrite Hlast.
  - by eapply held_class.
  - constructor; [by apply push_block_wf|exact Hr1| |done].
    eapply (heap_space_write tasks Hpte); [exact Hs|exact Hc1|]. intros c Hx.
    eapply (hs_heap _ _ _ Hs), class_touch_heap; done.
Qed.

(** It is not: the arena is taken apart and its page returned. *)
Lemma give_block_drop a h i b s :
  heap_held tasks idle a (h_arenas h) s -> t_page_dir (s_tcb a (s_cur a)) = NULL ->
  heap_wf h -> heap_rep (mem s) h -> heap_space tasks (mem s) (h_arenas h) ->
  is_class i -> block_of (h_arenas h) i b -> b ∉ h_free h i -> last_block i b h = true ->
  let base := block_to_arena b in
  let h' := drop_arena i base (push_block i b h) in
  exists s', give_block PF_KERNEL base b s = Ok tt s' /\
    heap_held tasks idle a (h_arenas h') s' /\ block_given h' s s' /\ page_free (mem s') base /\
    trace s' = trace s ++ [Invlpg (vaddr_slot (Machine.esp s))].
Proof.
  intros Hh Hpd Hw Hr Hs Hi Hb Hnin Hlast base h'. destruct (block_arena h i b Hw Hi Hb) as (H0 & _).
  fold base in H0. destruct (push_block_run h i b s Hw Hr Hi Hb Hnin) as (m1 & E1 & Hr1 & Hc1).
  fold base in E1, Hc1. set (h1 := push_block i b h) in *.
  assert (Hw1 : heap_wf h1) by (by apply push_block_wf).
  assert (HL : forall x, x ∈ h_free h1 i -> block_of (h_arenas h1) i x) by (intros x; by apply (hw_blocks _ Hw1)).
  destruct (hr_desc _ _ Hr1 i Hi) as [Esz Ecnt Hl1]. destruct (hr_arena _ _ Hr1 base i H0) as [Ed Ec _].
  assert (Ec' : count_free base (h_free h1 i) = bcount i).
  { unfold last_block in Hlast. apply Z.eqb_eq in Hlast. cbn [h1 push_block set_free h_free].
    by rewrite decide_True. }
  rewrite Ec' in Ec.
  destruct (unlist_blocks_run h1 i base (h_free h1 i) (after_critical s m1)) as (m2 & fl & E2 & Hl2 & Hc2);
    try done. unfold after_critical in Hc2, E2; msimpl.
  assert (Hr2 : heap_rep m2 h').
  { apply (drop_arena_rep m1); try done. eapply changed_weaken; [exact Hc2|].
    intros c [?|?]; [by left|by right; left]. }
  assert (Hw2 : heap_wf h') by (by apply drop_arena_wf).
  assert (Hc : changed_only (class_touch (h_arenas h) i base) (mem s) m2).
  { eapply changed_trans; [exact Hc1|]. eapply changed_weaken; [exact Hc2|].
    intros c [?|?]; [by left|by right; left]. }
  assert (Hadm : forall c, class_touch (h_arenas h) i base c -> ~ admin (mem s) c).
  { intros c Hx. eapply (hs_heap _ _ _ Hs), class_touch_heap; done. }
  destruct (admin_frame Hpte _ _ _ Hc Hadm (hs_ok _ _ _ Hs)) as (_ & Hsp & _).
  pose proof (heap_space_write tasks Hpte _ _ _ _ Hs Hc Hadm) as Hs2.
  destruct (hs_used _ _ _ Hs2 base i H0) as (j & Hj & _ & Ej).
  destruct (hs_mapped _ _ _ Hs2 base i H0) as (f & Hf & _ & Hmap).
  set (s2 := set_intr_flag fl (set_mem m2 s)).
  assert (Hh2 : heap_held tasks idle a (h_arenas h) s2) by (eapply held_class; done).
  destruct Hh2 as [L1 L2 L3 L4].
  assert (Hmap' : mapped (mem s2) (kpage (mem s2) j) (frame (mem s2) sym_kern_pool f)).
  { msimpl. change (mem s2) with m2. by rewrite <- Ej. }
  destruct (free_page_kernel_run tasks idle Hpte a j f s2 L1 L2 L3 Hpd (hs_ok _ _ _ Hs2) Hj Hf Hmap'
    (hs_lock _ _ _ Hs2)) as (s' & E3 & Hm3 & Hret & _ & Hv3 & Ht3).
  change (mem s2) with m2 in *. rewrite <- Ej in E3, Hmap'.
  exists s'. split_and!.
  - unfold give_block. fold base. rewrite E1. unfold after_critical. erewrite bind_ok by reflexivity. cbv beta.
    erewrite bind_ok by reflexivity. cbv beta. erewrite bind_ok by reflexivity. cbv beta. msimpl.
    rewrite Ed, Ec, Ecnt, Z.eqb_refl. cbn [when]. rewrite (bind_ok _ _ _ _ _ E2). exact E3.
  - constructor; [done|done|exact Hm3|]. intros c Hx. apply L4. destruct Hx as [Hx|Hx]; [by left|right].
    apply Exists_exists in Hx as (y & [_ Hin]%list_elem_of_filter & Hp). apply Exists_exists. eauto.
  - constructor; [done| | |by rewrite Hv3].
    + eapply heap_frame; [exact Hw2|exact Hr2|]. intros c Hx. apply (pr_frame _ _ _ _ Hret).
      assert (Hx' : heap_bytes (h_arenas h) c).
      { destruct Hx as [Hx|Hx]; [by left|right].
        apply Exists_exists in Hx as (y & [_ Hin]%list_elem_of_filter & Hp). apply Exists_exists. eauto. }
      pose proof (hs_heap _ _ _ Hs2 c Hx') as Hna. intros [Hy|[Hy|[Hy|Hy]]].
      * apply Hna. unfold admin. tauto.
      * apply Hna. unfold admin. tauto.
      * apply Hna. unfold admin, window in *. lia.
      * apply (L4 c Hx'). by apply owner_lock.
    + eapply space_returned; try done; by rewrite <- ?Ej.
  - exists j. destruct Hret as [Hsp3 Hv _ Hun _ _ _].
    rewrite (same_nbits _ _ Hsp3), (same_kpage _ _ j Hsp3), Hv, Z.eqb_refl, Ej by done.
    split_and!; [lia|lia|done|done|exact Hun].
  - rewrite Ht3. done.
Qed.

(** Both cases at once. *)
Lemma give_block_run a h i b s :
  heap_held tasks idle a (h_arenas h) s -> t_page_dir (s_tcb a (s_cur a)) = NULL ->
  heap_wf h -> heap_rep (mem s) h -> heap_space tasks (mem s) (h_arenas h) ->
  is_class i -> block_of (h_arenas h) i b -> b ∉ h_free h i ->
  let h' := release i b h in
  exists s', give_block PF_KERNEL (block_to_arena b) b s = Ok tt s' /\
    heap_held tasks idle a (h_arenas h') s' /\ block_given h' s s' /\
    (last_block i b h = true -> page_free (mem s') (block_to_arena b)) /\
    trace s' = trace s ++ (if last_block i b h then [Invlpg (vaddr_slot (Machine.esp s))] else []).
Proof.
  intros Hh Hpd Hw Hr Hs Hi Hb Hnin h'. unfold h', release. destruct (last_block i b h) eqn:El.
  - destruct (give_block_drop a h i b s Hh Hpd Hw Hr Hs Hi Hb Hnin El)
      as (s' & E & H1 & H2 & H3 & H4).
    exists s'. split_and!; [done|done|done|done|done].
  - destruct (give_block_keep a h i b s Hh Hw Hr Hs Hi Hb Hnin El) as (s' & E & H1 & H2 & H3).
    exists s'. split_and!; [done|done|done|done|by rewrite app_nil_r].
Qed.

Lemma sys_free_run a h i b s :
  heap_env tasks idle a (h_arenas h) s -> heap_wf h -> heap_rep (mem s) h ->
  heap_space tasks (mem s) (h_arenas h) ->
  is_class i -> block_of (h_arenas h) i b -> b ∉ h_free h i ->
  let h' := release i b h in
  exists s', sys_free b s = Ok tt s' /\
    heap_env tasks idle a (h_arenas h') s' /\ block_given h' s s' /\
    (last_block i b h = true -> page_free (mem s') (block_to_arena b)) /\
    trace s' = trace s ++ (if last_block i b h then [Invlpg (vaddr_slot (Machine.esp s))] else []).
Proof.
  intros He Hw Hr Hs Hi Hb Hnin h'. destruct (block_arena h i b Hw Hi Hb) as (H0 & Hb1 & _).
  pose proof (hw_place _ Hw _ _ H0) as [_ _ Hrange _].
  destruct (heap_lock_run tasks idle a h s He Hw Hr) as (s1 & E1 & Hh1 & Hr1 & _ & Hv1 & Ht1 & Hc1).
  pose proof (heap_space_write tasks Hpte _ _ _ _ Hs Hc1 (hs_lock _ _ _ Hs)) as Hs1.
  destruct (admin_frame Hpte _ _ _ Hc1 (hs_lock _ _ _ Hs) (hs_ok _ _ _ Hs)) as (_ & Hsp & _).
  pose proof He as [Hl _ Hm Hk _]. pose proof (mutex_esp _ _ _ _ _ _ _ _ Hm) as Hesp.
  pose proof (mutex_esp _ _ _ _ _ _ _ _ (hh_mutex _ _ _ _ _ Hh1)) as Hesp1.
  destruct (give_block_run a h i b s1 Hh1 Hk Hw Hr1 Hs1 Hi Hb Hnin)
    as (s2 & E2 & Hh2 & [Hw2 Hr2 Hs2 Hv2] & Hlast & Ht2).
  destruct (heap_unlock_run tasks idle a h' s2 Hh2 Hk Hw2 Hr2) as (s3 & E3 & He3 & Hr3 & _ & Hv3 & Ht3 & Hc3).
  pose proof (heap_space_write tasks Hpte _ _ _ _ Hs2 Hc3 (hs_lock _ _ _ Hs2)) as Hs3.
  destruct (admin_frame Hpte _ _ _ Hc3 (hs_lock _ _ _ Hs2) (hs_ok _ _ _ Hs2)) as (_ & Hsp3 & Hsb3).
  exists s3. split_and!; [|done| | |].
  - destruct Hm as [[[Hw0 _] _ Hruns _] _ _ _].
    unfold sys_free. erewrite bind_ok by (apply assert_run; by rewrite (proj2 (Z.eqb_neq b NULL)) by (unfold NULL; lia)).
    cbv beta. rewrite (bind_ok _ _ _ _ _ (running_thread_run _ Hl _ _ _ Hw0 Hruns)).
    erewrite bind_ok by reflexivity. cbv beta.
    rewrite (at_page_dir _ _ _ (rep_tcb _ _ _ (run_rep _ _ _ _ Hruns) _ (wf_cur _ _ _ Hw0))), Hk.
    cbn [Z.eqb NULL]. change (sym_kern_pool + pool.mutex) with heap_mutex.
    rewrite (bind_ok _ _ _ _ _ E1). cbv zeta. erewrite bind_ok by reflexivity. cbv beta.
    rewrite (ar_small _ _ _ _ (hr_arena _ _ Hr1 _ _ H0)). cbn [Z.eqb negb].
    rewrite (bind_ok _ _ _ _ _ E2). exact E3.
  - constructor; [done|done|done|by rewrite Hv3, Hv2].
  - intros Hlb. apply (page_free_frame (mem s2) (mem s3) (lock_bytes tasks)); [apply Hs2|done|apply Hs2|auto].
  - rewrite Ht3, Ht2, Ht1, Hesp, Hesp1. done.
Qed.

End Give.

(** ** Allocation followed by release *)
Section Cycle.
Context {PL : Platform} {LK : Linker} (tasks : list Z) (idle : Z).
Context (Hpte : forall v, pte_ptr_ret v = v).

(** Heaps with the same free lists and arenas. *)
Definition same_heap (h h' : heap) : Prop :=
  (forall j, is_class j -> h_free h j = h_free h' j) /\ h_arenas h = h_arenas h'.

Lemma same_heap_rep m h h' : same_heap h h' -> heap_wf h -> heap_rep m h -> heap_rep m h'.
Proof.
  intros [E1 E2] Hw [H1 H2]. constructor; [intros j Hj; rewrite <- E1 by done; by apply H1|].
  intros a j Ha. rewrite <- E2 in Ha. rewrite <- E1 by apply (ap_class _ _ (hw_place _ Hw _ _ Ha)).
  by apply H2.
Qed.

(** Taking the first block and giving it back rotates the free list. *)
Lemma rotate_free i b bs h :
  h_free h i = b :: bs -> last_block i b (set_free i bs h) = false ->
  same_heap (release i b (set_free i bs h)) (set_free i (bs ++ [b]) h).
Proof.
  intros Hf Hl. unfold release. rewrite Hl. split; [|done]. intros j _. cbn.
  case_decide; [by rewrite decide_True|done].
Qed.

Lemma arena_blocks_nodup i base : is_class i -> NoDup (arena_blocks i base).
Proof.
  intros Hi. unfold arena_blocks, blocks. apply NoDup_fmap_2_strong; [|apply NoDup_seqZ].
  intros x y _ _. by apply block_inj.
Qed.

(** Giving back the only block in use of a new arena undoes its making. *)
Lemma regrow_free i base h :
  heap_wf h -> arena_place base i -> (forall x j, (x, j) ∈ h_arenas h -> x <> base) -> h_free h i = [] ->
  let b := block_at i base 0 in
  let h1 := set_free i (tl (arena_blocks i base)) (grow i base h) in
  last_block i b h1 = true /\ same_heap (release i b h1) h.
Proof.
  intros Hw Hp Hnew Hf b h1. pose proof Hp as [Hi Ha Hr _]. pose proof (bsize_bounds i Hi) as (_ & Hc & _).
  assert (Eb : block_to_arena b = base) by (apply block_to_arena_at; lia || done).
  assert (Ef : h_free h1 i = tl (arena_blocks i base)) by (cbn; by rewrite decide_True).
  assert (Hl : last_block i b h1 = true).
  { unfold last_block. rewrite Ef, Eb, count_free_snoc, Eb, Z.eqb_refl. apply Z.eqb_eq.
    pose proof (count_arena_blocks i base base Hp) as E. rewrite decide_True in E by done.
    rewrite (arena_blocks_first i base Hi), count_free_cons in E. fold b in E.
    rewrite Eb, Z.eqb_refl in E. lia. }
  split; [done|]. unfold release. rewrite Hl, Eb. split; cbn.
  - intros j _. destruct (decide (j = i)) as [->|Hne]; [|done]. rewrite Hf.
    rewrite !(decide_True (P := i = i)) by done.
    destruct (filter _ _) as [|x l] eqn:Ex; [done|].
    assert (Hx : x ∈ filter (fun y => y ∉ blocks i base (Z.to_nat (bcount i)))
      (tl (arena_blocks i base) ++ [b])) by (rewrite Ex; by left).
    apply list_elem_of_filter in Hx as [Hx Hx2]. destruct Hx. fold (arena_blocks i base).
    rewrite (arena_blocks_first i base Hi). rewrite elem_of_app, list_elem_of_singleton in Hx2.
    apply elem_of_cons. tauto.
  - rewrite decide_False by tauto. apply filter_all. intros (x & j) Hx. by apply (Hnew x j).
Qed.
Lemma same_heap_env a h h' s :
  same_heap h h' -> heap_env tasks idle a (h_arenas h) s -> heap_env tasks idle a (h_arenas h') s.
Proof. by intros [_ <-]. Qed.

(** [sys_malloc] and [sys_free], with a free block. *)
Lemma cycle_reuse_run a h size b bs s :
  heap_env tasks idle a (h_arenas h) s -> heap_wf h -> heap_rep (mem s) h ->
  heap_space tasks (mem s) (h_arenas h) ->
  size <= 1024 -> size <= get32 (mem s) (sym_kern_pool + pool.pool_size) ->
  let i := class_of size in
  h_free h i = b :: bs -> last_block i b (set_free i bs h) = false ->
  exists s', (p ← sys_malloc size; sys_free p) s = Ok tt s' /\
    let h' := set_free i (bs ++ [b]) h in
    heap_env tasks idle a (h_arenas h') s' /\ heap_rep (mem s') h'.
Proof.
  intros He Hw Hr Hs Hn Hp i Hf Hl. destruct (class_of_spec size Hn) as (Hi & _). fold i in Hi.
  destruct (sys_malloc_reuse_run tasks idle a h size b bs s He Hw Hr Hn Hp Hf)
    as (s1 & E1 & [He1 Hr1 Hw1 Hb _] & _ & _ & Hc1).
  assert (Hs1 : heap_space tasks (mem s1) (h_arenas h)).
  { eapply (heap_space_write tasks Hpte); [exact Hs|exact Hc1|]. intros c [Hx|Hx]; [by apply (hs_lock _ _ _ Hs)|].
    apply (hs_heap _ _ _ Hs). eapply class_touch_heap; [done|exact Hi|by apply (block_arena h i)|exact Hx]. }
  pose proof (dlist_NoDup _ _ _ (dr_list _ _ _ (hr_desc _ _ Hr i Hi))) as Hnd. fold i in Hf. rewrite Hf in Hnd.
  apply NoDup_cons in Hnd as [Hnin _].
  destruct (sys_free_run tasks idle Hpte a (set_free i bs h) i b s1) as (s2 & E2 & He2 & [Hw2 Hr2 _ _] & _); try done.
  { cbn. by rewrite decide_True. }
  pose proof (rotate_free i b bs h Hf Hl) as Hsame. exists s2. rewrite (bind_ok _ _ _ _ _ E1).
  split; [exact E2|]. split; [by eapply same_heap_env|by eapply same_heap_rep].
Qed.

(** ... and with an arena made for the request and given up again. *)
Lemma cycle_grow_run a h size q f s :
  heap_env tasks idle a (h_arenas h) s -> heap_wf h -> heap_rep (mem s) h ->
  heap_space tasks (mem s) (h_arenas h) ->
  size <= 1024 -> size <= get32 (mem s) (sym_kern_pool + pool.pool_size) ->
  let i := class_of size in
  h_free h i = [] -> is_u32 (desc_at i) ->
  free_run (mem s) kvaddr_bm q 1 -> free_frame (mem s) sym_kern_pool f ->
  exists s' p, (p ← sys_malloc size; sys_free p) s = Ok tt s' /\
    heap_env tasks idle a (h_arenas h) s' /\ heap_rep (mem s') h /\
    heap_space tasks (mem s') (h_arenas h) /\
    first_fit (mem s) kvaddr_bm 1 p /\ page_free (mem s') (kpage (mem s) p).
Proof.
  intros He Hw Hr Hs Hn Hp i Hf Hd Hq Hff. destruct (class_of_spec size Hn) as (Hi & _). fold i in Hi.
  destruct (sys_malloc_grow_run tasks idle Hpte a h size q f s He Hw Hr Hs Hn Hp Hf Hd Hq Hff)
    as (p & s1 & E1 & Hfit & [He1 Hr1 Hw1 Hb _] & Hs1 & _).
  fold i in E1, Hr1, Hw1, Hs1, He1, Hb. set (base := kpage (mem s) p) in *.
  set (h1 := set_free i (tl (arena_blocks i base)) (grow i base h)) in *.
  assert (Hpl : arena_place base i) by (apply (hw_place _ Hw1); by left).
  assert (Hnew : forall x j, (x, j) ∈ h_arenas h -> x <> base).
  { pose proof (hw_nodup _ Hw1) as Hnd. cbn in Hnd. apply NoDup_cons in Hnd as [Hnd _].
    intros x j Hx ->. apply Hnd, list_elem_of_fmap. by exists (base, j). }
  assert (Hnin : block_at i base 0 ∉ h_free h1 i).
  { cbn. rewrite decide_True by done. pose proof (arena_blocks_nodup i base Hi) as Hnd.
    rewrite (arena_blocks_first i base Hi) in Hnd. by apply NoDup_cons in Hnd as [? _]. }
  destruct (regrow_free i base h Hw Hpl Hnew Hf) as [Hlast Hsame]. fold h1 in Hlast, Hsame.
  destruct (sys_free_run tasks idle Hpte a h1 i (block_at i base 0) s1)
    as (s2 & E2 & He2 & [Hw2 Hr2 Hs2 _] & Hpf & _); try done.
  specialize (Hpf Hlast). exists s2, p. rewrite (bind_ok _ _ _ _ _ E1).
  split_and!; [exact E2|by eapply same_heap_env|by eapply same_heap_rep| |done|].
  - destruct Hsame as [_ <-]. exact Hs2.
  - destruct Hpl as [_ Ha Hrg _]. pose proof (bsize_bounds i Hi) as (_ & Hc & _).
    rewrite block_to_arena_at in Hpf by (done || lia). exact Hpf.
Qed.
End Cycle.

(** ** Properties *)
Section Contract.
Context {PL : Platform} {LK : Linker} (tasks : list Z) (idle : Z).

(** C7: [sys_free] on a block of a small class that is in use, by a kernel
    thread. The block goes to the end of its free list. If it was the last one
    in use of its arena, all the blocks of the arena leave the list and its
    page is free and not mapped again. In both cases the heap stays
    well-formed and the mutex is free again. *)
Theorem sys_free_small a h i b s :
  heap_env tasks idle a (h_arenas h) s -> heap_wf h -> heap_rep (mem s) h ->
  heap_space tasks (mem s) (h_arenas h) ->
  is_class i -> block_of (h_arenas h) i b -> b ∉ h_free h i ->
  let h' := release i b h in
  exists s', sys_free b s = Ok tt s' /\
    heap_env tasks idle a (h_arenas h') s' /\ block_given tasks h' s s' /\
    (last_block i b h = true -> page_free (mem s') (block_to_arena b)) /\
    trace s' = trace s ++ (if last_block i b h then [Invlpg (vaddr_slot (Machine.esp s))] else []).
Proof. intros He. by apply sys_free_run; [apply (lay_pte _ (he_lay _ _ _ _ _ He))|]. Qed.

End Contract.

(** ** Concrete instances *)

(** The only block in use of the arena is released: its page is free again. *)
Lemma sys_free_small_witness :
  last_block 6 (block_at 6 demo_base 0) demo_h = true /\
  exists s', sys_free (block_at 6 demo_base 0) demo_arena_machine = Ok tt s' /\
    page_free (mem s') (block_to_arena (block_at 6 demo_base 0)) /\
    heap_rep (mem s') (release 6 (block_at 6 demo_base 0) demo_h) /\
    h_arenas (release 6 (block_at 6 demo_base 0) demo_h) = [].
Proof.
  assert (Hl : last_block 6 (block_at 6 demo_base 0) demo_h = true) by (vm_compute; done).
  split; [done|].
  destruct (sys_free_small demo_tasks demo_idle demo_abs demo_h 6 (block_at 6 demo_base 0) demo_arena_machine
    demo_heap_env demo_heap_wf demo_heap_rep demo_heap_space) as (s' & E & _ & [_ Hr _ _] & Hp & _).
  - done.
  - exists demo_base, 0. split_and!; [by left|done..].
  - apply (bool_decide_unpack _). vm_compute. exact I.
  - exists s'. split_and!; [exact E|exact (Hp Hl)|exact Hr|vm_compute; done].
Defined.

