(* ===== verification/HeapLarge.v ===== *)
(** * Large requests (kernel/memory.c: sys_malloc and sys_free above 1024 bytes)

    Pages of their own, with the arena's header in front; their release page
    by page. *)

From S2P Require Import Prelude Machine Concrete Interrupt CString Bitmap DList Paging Tss Sched Lock Memory Malloc Heap HeapGrow PageFree HeapFree.

#[local] Open Scope Z_scope.

(** ** The pages of a large request *)
Section Region.
Context {PL : Platform} {LK : Linker} (tasks : list Z) (idle : Z).
Context (Hpte : forall v, pte_ptr_ret v = v).

(** The bytes of the pages [p .. p + n - 1] of the kernel's heap. *)
Definition run_bytes (m : memory) (p n b : Z) : Prop := kpage m p <= b < kpage m p + 4096 * n.

(** A large allocation: the pages from [p] on, mapped to the frames [fs], with
    the header [sys_free] reads in front; they are in use and belong to nobody
    else. *)
Record large_region (arenas : list (Z * Z)) (m : memory) (p : Z) (fs : list Z) : Prop := {
  lg_len : 1 <= Z.of_nat (length fs) < 3840;
  lg_range : 0 <= p /\ p + Z.of_nat (length fs) <= nbits m kvaddr_bm;
  lg_used : forall k, p <= k < p + Z.of_nat (length fs) -> bit m kvaddr_bm k = true;
  lg_mapped : run_mapped m p fs;
  lg_frames : NoDup fs /\ forall f, f ∈ fs -> bit m (pool_bm sym_kern_pool) f = true;
  lg_apart : forall b, run_bytes m p (Z.of_nat (length fs)) b ->
    ~ heap_bytes arenas b /\ ~ lock_bytes tasks b /\ ~ admin m b;
  lg_distinct : forall a i f, (a, i) ∈ arenas -> f ∈ fs -> ~ mapped m a (frame m sym_kern_pool f);
  lg_desc : get32 m (kpage m p + arena.desc) = NULL;
  lg_cnt : get32 m (kpage m p + arena.cnt) = Z.of_nat (length fs);
  lg_large : get8 m (kpage m p + arena.large) = 1
}.

(** The pages [malloc_page] takes belong to nobody else. *)
Lemma run_apart m arenas n p ps m' b :
  heap_space tasks m arenas -> pages_mapped m n p ps m' -> run_bytes m p n b ->
  ~ heap_bytes arenas b /\ ~ lock_bytes tasks b /\ ~ admin m b.
Proof.
  intros Hs Hm Hb. destruct (pm_fit _ _ _ _ _ Hm) as ((Hp0 & Hp1 & Hpf) & _).
  set (k := (b - kvaddr_start m) / 4096).
  assert (Hk : p <= k < p + n /\ page_bytes (kpage m k) b).
  { unfold run_bytes, page_bytes, kpage in *. subst k. change PAGE_SIZE with 4096 in *. zlia. }
  destruct Hk as [Hk Hpb].
  destruct (hs_free _ _ _ Hs k b ltac:(lia) (Hpf k Hk) Hpb) as (Hd & Hl & Ha). split_and!; [|done|done].
  intros [Hx|Hx]; [done|]. apply Exists_exists in Hx as ([a i] & Hin & Hx).
  destruct (hs_used _ _ _ Hs a i Hin) as (q & Hq & Hu & ->). cbn in Hx.
  assert (q = k) as ->; [|by rewrite Hpf in Hu].
  unfold page_bytes, kpage in *. change PAGE_SIZE with 4096 in *. lia.
Qed.

(** The arenas keep their entries, which are not the new ones. *)
Lemma arena_entry m arenas n p ps m' a i :
  heap_space tasks m arenas -> pages_mapped m n p ps m' -> (a, i) ∈ arenas ->
  get32 m' (pte_ptr a) = get32 m (pte_ptr a) /\
  forall f, f ∈ ps -> ~ mapped m' a (frame m sym_kern_pool f).
Proof.
  intros Hs Hm Hin. destruct (hs_used _ _ _ Hs a i Hin) as (k & Hk & Hu & ->).
  destruct (pm_fit _ _ _ _ _ Hm) as ((_ & _ & Hpf) & _).
  assert (E : get32 m' (pte_ptr (kpage m k)) = get32 m (pte_ptr (kpage m k))).
  { apply (pm_other _ _ _ _ _ Hm k Hk). intros Hx. rewrite Hpf in Hu by done. done. }
  split; [done|]. intros f Hf Hx. destruct (pm_free _ _ _ _ _ Hm f Hf) as [_ Hb].
  destruct (hs_mapped _ _ _ Hs _ _ Hin) as (g & _ & Hg & Hmap). unfold mapped in *. rewrite E, Hmap in Hx.
  unfold frame in Hx. change PAGE_SIZE with 4096 in Hx. replace g with f in Hg by lia. congruence.
Qed.

(** The heap's pages after the allocation. *)
Lemma pages_taken_space m arenas n p ps m' :
  heap_space tasks m arenas -> pages_mapped m n p ps m' -> heap_space tasks m' arenas.
Proof.
  intros Hs Hm. pose proof Hs as [H1 H2 H3 H3' Hdi H4 H5].
  pose proof (pages_mapped_same _ _ _ _ _ H1 Hm) as Hsp.
  pose proof (same_nbits _ _ Hsp) as En. assert (Ek := fun j => same_kpage _ _ j Hsp).
  assert (Hent := fun a i => arena_entry m arenas n p ps m' a i Hs Hm). constructor; [apply Hm|..].
  - intros j b Hj Hf Hpb. rewrite En in Hj. rewrite (pm_virtual _ _ _ _ _ Hm j Hj) in Hf.
    apply orb_false_iff in Hf as [_ Hf]. rewrite Ek in Hpb. destruct (H2 j b Hj Hf Hpb) as (? & ? & Ha).
    split_and!; [done|done|]. intros Hx. by apply Ha, (same_admin m m').
  - intros a i Hin. destruct (H3 a i Hin) as (k & Hk & Hu & ->). exists k.
    rewrite En, Ek, (pm_virtual _ _ _ _ _ Hm k Hk), Hu, orb_true_r. done.
  - intros a i Hin. destruct (H3' a i Hin) as (f & Hf & Hu & Hmap). exists f.
    rewrite (same_frames _ _ Hsp), (same_frame _ _ f Hsp), (pm_frames _ _ _ _ _ Hm f Hf), Hu, orb_true_r.
    split_and!; [lia|lia|done|]. unfold mapped. by rewrite (proj1 (Hent a i Hin)).
  - intros a i a' i' Ha Ha'. rewrite (proj1 (Hent a i Ha)), (proj1 (Hent a' i' Ha')). by apply (Hdi a i a' i').
  - intros b Hb Hx. by apply (H4 b Hb), (same_admin m m').
  - intros b Hb Hx. by apply (H5 b Hb), (same_admin m m').
Qed.

Lemma large_region_frame arenas m m' p fs P :
  heap_ok m -> large_region arenas m p fs -> changed_only P m m' ->
  (forall b, P b -> ~ admin m b /\ ~ run_bytes m p (Z.of_nat (length fs)) b) ->
  (forall a i, (a, i) ∈ arenas -> exists k, 0 <= k < nbits m kvaddr_bm /\ a = kpage m k) ->
  large_region arenas m' p fs.
Proof.
  intros Hh [L1 [L2 L2'] L3 L4 [L5 L5'] L6 L7 L8 L9 L10] Hc HP Har.
  destruct (admin_frame Hpte m m' P Hc (fun b Hb => proj1 (HP b Hb)) Hh) as (_ & Hs & [Hv Hf]).
  assert (HPa : forall b, P b -> ~ admin m b) by (intros b Hb; by apply HP).
  assert (Hrun : forall b, run_bytes m p (Z.of_nat (length fs)) b -> get8 m' b = get8 m b).
  { intros b Hb. apply Hc. intros Hx. by apply (HP b Hx). }
  assert (Hword : forall o, 0 <= o -> o + 4 <= 12 -> get32 m' (kpage m p + o) = get32 m (kpage m p + o)).
  { intros o H0 H1. apply get32_ext. intros b Hb. apply Hrun. unfold run_bytes. lia. }
  pose proof (same_kpage _ _ p Hs) as Ek.
  assert (Hent : forall k, 0 <= k < nbits m kvaddr_bm -> get32 m' (pte_ptr (kpage m k)) = get32 m (pte_ptr (kpage m k))).
  { intros k Hk. destruct (kpage_range m k Hh Hk) as (K1 & K2 & _).
    apply (entry_frame Hpte m m' P); [done|done|lia]. }
  constructor; [done|by rewrite (same_nbits _ _ Hs)| | | | | | | |].
  - intros k Hk. rewrite Hv by lia. by apply L3.
  - intros k f Hkf. destruct (L4 k f Hkf) as [Hfr Hmap]. pose proof (lookup_lt_Some _ _ _ Hkf).
    rewrite (same_frames _ _ Hs), (same_frame _ _ f Hs), (same_kpage _ _ _ Hs). split; [done|].
    unfold mapped. by rewrite Hent by lia.
  - split; [done|]. intros f Hin. destruct (list_elem_of_lookup_1 _ _ Hin) as [k Hk].
    rewrite Hf by (by apply (L4 k)). by apply L5'.
  - unfold run_bytes. rewrite Ek. intros b Hb. destruct (L6 b Hb) as (? & ? & Ha). split_and!; [done|done|].
    intros Hx. by apply Ha, (same_admin m m').
  - intros a i f Ha Hin. rewrite (same_frame _ _ f Hs). destruct (Har a i Ha) as (k & Hk & ->).
    unfold mapped. rewrite Hent by done. by apply (L7 _ i).
  - rewrite Ek, <- L8. by apply Hword.
  - rewrite Ek, <- L9. by apply Hword.
  - rewrite Ek, <- L10. apply Hrun. unfold run_bytes. change arena.large with 8. lia.
Qed.

(** The region as [sys_malloc] makes it: pages, cleared, with their header. *)
Definition large_header (m : memory) (base n : Z) : memory :=
  put8 (put32 (put32 (put_bytes m base (replicate (Z.to_nat (4096 * n)) 0))
    (base + arena.desc) NULL) (base + arena.cnt) n) (base + arena.large) 1.

Lemma large_header_bytes m base n : 1 <= n ->
  changed_only (fun b => base <= b < base + 4096 * n) m (large_header m base n) /\
  (forall b, base + arena.sizeof <= b < base + 4096 * n -> get8 (large_header m base n) b = 0) /\
  (is_u32 n -> get32 (large_header m base n) (base + arena.desc) = NULL /\
     get32 (large_header m base n) (base + arena.cnt) = n /\
     get8 (large_header m base n) (base + arena.large) = 1).
Proof.
  intros Hn. unfold large_header. assert (Hl : Z.of_nat (Z.to_nat (4096 * n)) = 4096 * n) by lia.
  revert Hl. generalize (Z.to_nat (4096 * n)). intros k Hl. hoff. split_and!.
  - intros b Hb. rewrite get8_put8_ne, !get8_put32_ne by lia. apply get8_put_bytes_ne. rewrite length_replicate. lia.
  - intros b Hb. rewrite get8_put8_ne, !get8_put32_ne by lia.
    rewrite get8_put_bytes_replicate, decide_True by lia. done.
  - intros Hu. split_and!.
    + rewrite get32_put8_ne, get32_put32_ne, get32_put32_eq by lia. done.
    + rewrite get32_put8_ne, get32_put32_eq by lia. apply u32_small. exact Hu.
    + by rewrite get8_put8_eq.
Qed.

Lemma region_made m arenas n p ps m1 :
  heap_space tasks m arenas -> 1 <= n < 3840 -> pages_mapped m n p ps m1 ->
  let m2 := large_header m1 (kpage m p) n in
  large_region arenas m2 p ps /\ heap_space tasks m2 arenas.
Proof.
  intros Hs Hn Hm m2. pose proof (hs_ok _ _ _ Hs) as Hh.
  pose proof (pages_mapped_same _ _ _ _ _ Hh Hm) as Hsp1.
  pose proof (pages_taken_space _ _ _ _ _ _ Hs Hm) as Hs1. pose proof (hs_ok _ _ _ Hs1) as Hh1.
  destruct (pm_fit _ _ _ _ _ Hm) as ((Hp0 & Hp1 & _) & _). pose proof (pm_len _ _ _ _ _ Hm) as Hlen.
  destruct (large_header_bytes m1 (kpage m p) n ltac:(lia)) as (Hc & Hz & Hhd). fold m2 in Hc, Hz, Hhd.
  assert (Hap : forall b, run_bytes m p n b -> ~ admin m1 b).
  { intros b Hb Hx. destruct (run_apart _ _ _ _ _ _ b Hs Hm Hb) as (_ & _ & Ha).
    by apply Ha, (same_admin m m1). }
  pose proof (heap_space_write tasks Hpte _ _ _ _ Hs1 Hc Hap) as Hs2. split; [|exact Hs2].
  destruct (admin_frame Hpte m1 m2 _ Hc Hap Hh1) as (_ & Hsp2 & [Hv2 Hf2]).
  pose proof (same_pages_trans _ _ _ Hsp1 Hsp2) as Hsp.
  assert (Hent : forall k, 0 <= k < nbits m kvaddr_bm ->
    get32 m2 (pte_ptr (kpage m k)) = get32 m1 (pte_ptr (kpage m k))).
  { intros k Hk. destruct (kpage_range m k Hh Hk) as (K1 & K2 & _).
    apply (entry_frame Hpte m1 m2 _ _ Hc Hap). lia. }
  destruct (Hhd ltac:(unfold is_u32; lia)) as (D1 & D2 & D3).
  constructor; rewrite ?Hlen, ?(same_nbits _ _ Hsp), ?(same_kpage _ _ p Hsp); try done.
  - intros k Hk. rewrite Hv2, (pm_virtual _ _ _ _ _ Hm), bool_decide_true by (rewrite ?(same_nbits _ _ Hsp1); lia). done.
  - intros k f Hkf. pose proof (lookup_lt_Some _ _ _ Hkf).
    rewrite (same_frames _ _ Hsp), (same_frame _ _ f Hsp), (same_kpage _ _ _ Hsp).
    destruct (pm_free _ _ _ _ _ Hm f) as [Hfr _]; [by apply list_elem_of_lookup_2 with k|]. split; [done|].
    unfold mapped. rewrite Hent by lia. by apply (pm_mapped _ _ _ _ _ Hm).
  - split; [apply Hm|]. intros f Hin. destruct (pm_free _ _ _ _ _ Hm f Hin) as [Hfr _].
    rewrite Hf2, (pm_frames _ _ _ _ _ Hm) by (rewrite ?(same_frames _ _ Hsp1); done). by rewrite bool_decide_true.
  - unfold run_bytes. rewrite (same_kpage _ _ p Hsp). intros b Hb.
    destruct (run_apart _ _ _ _ _ _ b Hs Hm Hb) as (? & ? & Ha). split_and!; [done|done|].
    intros Hx. by apply Ha, (same_admin m m2).
  - intros a i f Ha Hin. rewrite (same_frame _ _ f Hsp).
    destruct (arena_entry _ _ _ _ _ _ a i Hs Hm Ha) as [_ Hne]. specialize (Hne f Hin).
    destruct (hs_used _ _ _ Hs a i Ha) as (k & Hk & _ & ->). unfold mapped in *. by rewrite Hent.
Qed.

(** How many pages a request takes, with the header. *)
Definition pages_for (size : Z) : Z := DIV_ROUND_UP (size + arena.sizeof) PAGE_SIZE.

Lemma pages_for_bounds size : 1024 < size -> size + 4107 < 2 ^ 32 ->
  1 <= pages_for size /\ size + 12 <= 4096 * pages_for size < size + 12 + 4096.
Proof.
  intros H1 H2. unfold pages_for, DIV_ROUND_UP. hoff. rewrite u32_small by zlia. zlia.
Qed.

Lemma large_header_run {A} base n (c : K A) s :
  base <> 0 -> 1 <= n < 3840 ->
  (memset base 0 (u32 (n * PAGE_SIZE));; st32 (base + arena.desc) NULL;; st32 (base + arena.cnt) n;;
   st8 (base + arena.large) 1;; c) s = c (set_mem (large_header (mem s) base n) s).
Proof.
  intros Hb Hn. rewrite (bind_ok _ _ _ _ _ (memset_run _ _ _ s Hb)).
  assert (E : u32 (n * PAGE_SIZE) = 4096 * n) by (change PAGE_SIZE with 4096; rewrite u32_small; lia).
  rewrite E. reflexivity.
Qed.

(** The pages of a large request are taken and marked. *)
Lemma take_pages_run a h size q fs s :
  heap_held tasks idle a (h_arenas h) s -> t_page_dir (s_tcb a (s_cur a)) = NULL ->
  heap_wf h -> heap_rep (mem s) h -> heap_space tasks (mem s) (h_arenas h) ->
  let n := pages_for size in
  1 <= n < 3840 -> free_run (mem s) kvaddr_bm q n ->
  NoDup fs -> (forall f, f ∈ fs -> free_frame (mem s) sym_kern_pool f) -> n <= Z.of_nat (length fs) ->
  exists p ps m1 s', pages_mapped (mem s) n p ps m1 /\
    take_pages PF_KERNEL sym_kern_pool size s = Ok (kpage (mem s) p + arena.sizeof) s' /\
    heap_env tasks idle a (h_arenas h) s' /\ heap_rep (mem s') h /\ heap_space tasks (mem s') (h_arenas h) /\
    large_region (h_arenas h) (mem s') p ps /\
    (forall b, kpage (mem s) p + arena.sizeof <= b < kpage (mem s) p + 4096 * n -> get8 (mem s') b = 0) /\
    vars s' = vars s /\ trace s' = trace s /\
    changed_only (lock_bytes tasks) (large_header m1 (kpage (mem s) p) n) (mem s').
Proof.
  intros Hh Hpd Hw Hr Hs n Hn Hq Hnd Hfree Hlen. pose proof (hs_ok _ _ _ Hs) as Hok.
  destruct (malloc_page_kernel_run Hpte n q fs s Hok Hn Hq Hnd Hfree Hlen) as (p & ps & m1 & E & Hm).
  destruct (pm_fit _ _ _ _ _ Hm) as ((Hp0 & Hp1 & _) & _).
  destruct (kpage_range (mem s) p Hok ltac:(lia)) as (K1 & K2 & _).
  destruct (region_made _ _ _ _ _ _ Hs Hn Hm) as [Hreg Hs2]. set (base := kpage (mem s) p) in *.
  set (m2 := large_header m1 base n) in *.
  destruct (large_header_bytes m1 base n ltac:(lia)) as (Hc & Hz & _). fold m2 in Hc, Hz.
  assert (Hc2 : changed_only (fun b => admin (mem s) b \/ run_bytes (mem s) p n b) (mem s) m2).
  { eapply changed_trans; [eapply changed_weaken; [apply Hm|]|eapply changed_weaken; [exact Hc|auto]].
    intros b [Hb|[Hb|Hb]]; left; unfold admin, window in *; [tauto|tauto|lia]. }
  assert (Hap : forall b, run_bytes (mem s) p n b -> ~ heap_bytes (h_arenas h) b /\ ~ lock_bytes tasks b)
    by (intros b Hb; by destruct (run_apart _ _ _ _ _ _ b Hs Hm Hb) as (? & ? & _)).
  assert (Hh2 : heap_held tasks idle a (h_arenas h) (set_mem m2 s)).
  { destruct Hh as [L1 L2 L3 L4]. constructor; [done|done| |done].
    eapply (mutex_frame tasks idle); [done|done|exact L3|exact Hc2|].
    intros b [Hb|Hb]; [|by apply Hap]. intros Hx. by apply (hs_lock _ _ _ Hs b Hx). }
  assert (Hr2 : heap_rep m2 h).
  { eapply heap_frame; [done|done|]. intros b Hb. apply Hc2. intros [Hx|Hx]; [by apply (hs_heap _ _ _ Hs b)|].
    by destruct (Hap b Hx). }
  destruct (heap_unlock_run tasks idle a h (set_mem m2 s) Hh2 Hpd Hw Hr2)
    as (s' & E' & He' & Hr' & _ & Hv' & Ht' & Hc'); msimpl.
  assert (Hlen2 := pm_len _ _ _ _ _ Hm).
  exists p, ps, m1, s'. split_and!; [done| |done|done| | | |done|done|done].
  - unfold take_pages. fold (pages_for size). fold n. rewrite (bind_ok _ _ _ _ _ E). fold base.
    rewrite (proj2 (Z.eqb_neq base NULL)) by (unfold NULL; lia).
    rewrite (large_header_run base n _ (set_mem m1 s)) by lia. msimpl. fold m2.
    change (sym_kern_pool + pool.mutex) with heap_mutex. change (set_mem m2 (set_mem m1 s)) with (set_mem m2 s).
    rewrite (bind_ok _ _ _ _ _ E'). apply (f_equal (fun v => Ok v _)). hoff. apply u32_small. lia.
  - eapply (heap_space_write tasks Hpte); [exact Hs2|exact Hc'|apply (hs_lock _ _ _ Hs2)].
  - eapply large_region_frame; [apply Hs2|exact Hreg|exact Hc'| |].
    + intros b Hb. split; [by apply (hs_lock _ _ _ Hs2)|]. intros Hx.
      by apply (lg_apart _ _ _ _ Hreg) in Hx as (_ & ? & _).
    + intros x i Hx. destruct (hs_used _ _ _ Hs2 x i Hx) as (k & Hk & _ & ->). eauto.
  - intros b Hb. rewrite Hc'; [by apply Hz|]. apply Hap. unfold run_bytes. fold base. hoff. lia.
Qed.

(** [sys_malloc] has taken the mutex for a large request. *)
Lemma sys_malloc_large_enter a h size s :
  heap_env tasks idle a (h_arenas h) s -> heap_wf h -> heap_rep (mem s) h ->
  1024 < size <= get32 (mem s) (sym_kern_pool + pool.pool_size) ->
  exists s1, heap_held tasks idle a (h_arenas h) s1 /\ heap_rep (mem s1) h /\
    vars s1 = vars s /\ trace s1 = trace s /\ changed_only (lock_bytes tasks) (mem s) (mem s1) /\
    sys_malloc size s = take_pages PF_KERNEL sym_kern_pool size s1.
Proof.
  intros He Hw Hr [Hn Hp].
  destruct (heap_lock_run tasks idle a h s He Hw Hr) as (s1 & E & Hh & Hr1 & _ & Hv & Ht & Hc).
  exists s1. split_and!; try done. destruct He as [_ _ [[[Hw0 _] _ Hruns _] _ _ _] Hk _].
  unfold sys_malloc. rewrite (bind_ok _ _ _ _ _ (running_thread_run _ (hh_lay _ _ _ _ _ Hh) _ _ _ Hw0 Hruns)).
  erewrite bind_ok by reflexivity. cbv beta.
  rewrite (at_page_dir _ _ _ (rep_tcb _ _ _ (run_rep _ _ _ _ Hruns) _ (wf_cur _ _ _ Hw0))), Hk.
  cbn [Z.eqb NULL]. erewrite bind_ok by reflexivity. cbv beta.
  rewrite (proj2 (Z.ltb_ge _ _)) by exact Hp.
  change (sym_kern_pool + pool.mutex) with heap_mutex. rewrite (bind_ok _ _ _ _ _ E).
  by rewrite (proj2 (Z.ltb_lt 1024 size)) by exact Hn.
Qed.

(** What a successful large allocation promises. *)
Record large_taken (a : sched) (h : heap) (size p : Z) (fs : list Z) (s' : machine) : Prop := {
  lt_env : heap_env tasks idle a (h_arenas h) s';
  lt_rep : heap_rep (mem s') h;
  lt_space : heap_space tasks (mem s') (h_arenas h);
  lt_region : large_region (h_arenas h) (mem s') p fs;
  lt_size : Z.of_nat (length fs) = pages_for size;
  lt_zero : forall b, kpage (mem s') p + arena.sizeof <= b < kpage (mem s') p + 4096 * pages_for size ->
    get8 (mem s') b = 0
}.

(** The bits of the page allocator with the run [p], [fs] taken. *)
Record run_taken (m : memory) (p : Z) (fs : list Z) (m' : memory) : Prop := {
  rn_pages : same_pages m m';
  rn_virtual : forall k, 0 <= k < nbits m kvaddr_bm ->
    bit m' kvaddr_bm k = bool_decide (p <= k < p + Z.of_nat (length fs)) || bit m kvaddr_bm k;
  rn_frames : forall k, 0 <= k < nbits m (pool_bm sym_kern_pool) ->
    bit m' (pool_bm sym_kern_pool) k = bool_decide (k ∈ fs) || bit m (pool_bm sym_kern_pool) k
}.

Lemma run_taken_frames m0 m n p fs m1 m' :
  pages_mapped m n p fs m1 -> same_pages m0 m -> same_bits m0 m ->
  same_pages m1 m' -> same_bits m1 m' -> heap_ok m -> run_taken m0 p fs m'.
Proof.
  intros Hm Hs0 [Bv0 Bf0] Hs1 [Bv1 Bf1] Hh.
  pose proof (pages_mapped_same _ _ _ _ _ Hh Hm) as Hs. rewrite <- (pm_len _ _ _ _ _ Hm) in Hm.
  constructor.
  - eapply same_pages_trans; [exact Hs0|]. by eapply same_pages_trans.
  - intros k Hk. rewrite Bv1 by (by rewrite (same_nbits _ _ Hs), (same_nbits _ _ Hs0)).
    by rewrite (pm_virtual _ _ _ _ _ Hm), Bv0 by (by rewrite ?(same_nbits _ _ Hs0)).
  - intros k Hk. rewrite Bf1 by (by rewrite (same_frames _ _ Hs), (same_frames _ _ Hs0)).
    by rewrite (pm_frames _ _ _ _ _ Hm), Bf0 by (by rewrite ?(same_frames _ _ Hs0)).
Qed.

Lemma sys_malloc_large_run a h size q fs s :
  heap_env tasks idle a (h_arenas h) s -> heap_wf h -> heap_rep (mem s) h ->
  heap_space tasks (mem s) (h_arenas h) ->
  1024 < size <= get32 (mem s) (sym_kern_pool + pool.pool_size) -> size + 4107 < 2 ^ 32 ->
  let n := pages_for size in
  n < 3840 -> free_run (mem s) kvaddr_bm q n ->
  NoDup fs -> (forall f, f ∈ fs -> free_frame (mem s) sym_kern_pool f) -> n <= Z.of_nat (length fs) ->
  exists p ps s', sys_malloc size s = Ok (kpage (mem s) p + arena.sizeof) s' /\
    first_fit (mem s) kvaddr_bm n p /\ (forall f, f ∈ ps -> free_frame (mem s) sym_kern_pool f) /\
    large_taken a h size p ps s' /\ run_taken (mem s) p ps (mem s') /\ vars s' = vars s /\ trace s' = trace s.
Proof.
  intros He Hw Hr Hs Hsz Hov n Hn Hq Hnd Hfree Hlen.
  destruct (pages_for_bounds size) as [Hn1 _]; [lia|done|]. fold n in Hn1.
  destruct (sys_malloc_large_enter a h size s He Hw Hr Hsz) as (s1 & Hh1 & Hr1 & Hv1 & Ht1 & Hc1 & ->).
  destruct (admin_frame Hpte _ _ _ Hc1 (hs_lock _ _ _ Hs) (hs_ok _ _ _ Hs)) as (_ & Hsp & Hsb).
  pose proof (heap_space_write tasks Hpte _ _ _ _ Hs Hc1 (hs_lock _ _ _ Hs)) as Hs1.
  destruct (take_pages_run a h size q fs s1 Hh1 (he_kernel _ _ _ _ _ He) Hw Hr1 Hs1)
    as (p & ps & m1 & s' & Hm & E & He' & Hr' & Hs' & Hreg & Hz & Hv' & Ht' & Hc').
  { fold n. lia. } { by apply (free_run_same (mem s)). } { done. }
  { intros f Hf. by apply (free_frame_same (mem s)), Hfree. } { exact Hlen. }
  fold n in Hm, Hz, Hc'. rewrite !(same_kpage _ _ p Hsp) in *.
  pose proof (pages_mapped_same _ _ _ _ _ (hs_ok _ _ _ Hs1) Hm) as Hspm.
  pose proof (pages_taken_space _ _ _ _ _ _ Hs1 Hm) as Hsm.
  assert (Hc : changed_only (fun b => lock_bytes tasks b \/ run_bytes (mem s1) p n b) m1 (mem s')).
  { eapply changed_trans; [eapply changed_weaken; [apply (large_header_bytes m1 (kpage (mem s) p) n); lia|]|
      eapply changed_weaken; [exact Hc'|auto]].
    intros b Hb. right. unfold run_bytes. by rewrite (same_kpage _ _ p Hsp). }
  destruct (admin_frame Hpte m1 (mem s') _ Hc) as (_ & Hsp2 & Hsb2); [|apply Hm|].
  { intros b [Hb|Hb] Hx; [by apply (hs_lock _ _ _ Hsm b)|].
    destruct (run_apart _ _ _ _ _ _ b Hs1 Hm Hb) as (_ & _ & Ha). by apply Ha, (same_admin _ m1). }
  pose proof (same_pages_trans _ _ _ Hspm Hsp2) as Hsp3.
  exists p, ps, s'. split_and!; [exact E| | | | |congruence|congruence].
  - apply (first_fit_same (mem s) (mem s1)); [done|done|apply Hm].
  - intros f Hf. apply (pm_free _ _ _ _ _ Hm) in Hf as [Hf1 Hf2]. destruct Hsb as [_ Hsb].
    rewrite (same_frames _ _ Hsp) in Hf1. split; [done|]. by rewrite <- Hsb.
  - constructor; try done; [by apply Hm|]. fold n.
    by rewrite (same_kpage _ _ p Hsp3), (same_kpage _ _ p Hsp).
  - eapply run_taken_frames; try done. apply Hs1.
Qed.

(** Without a free virtual page: NULL, and the mutex is free. *)
Lemma sys_malloc_large_full_run a h size s :
  heap_env tasks idle a (h_arenas h) s -> heap_wf h -> heap_rep (mem s) h ->
  heap_space tasks (mem s) (h_arenas h) ->
  1024 < size <= get32 (mem s) (sym_kern_pool + pool.pool_size) -> size + 4107 < 2 ^ 32 ->
  pages_for size < 3840 ->
  (forall j, 0 <= j < nbits (mem s) kvaddr_bm -> bit (mem s) kvaddr_bm j = true) ->
  exists s', sys_malloc size s = Ok NULL s' /\ heap_env tasks idle a (h_arenas h) s' /\ heap_rep (mem s') h.
Proof.
  intros He Hw Hr Hs Hsz Hov Hn Hall.
  destruct (pages_for_bounds size) as [Hn1 _]; [lia|done|].
  destruct (sys_malloc_large_enter a h size s He Hw Hr Hsz) as (s1 & Hh1 & Hr1 & _ & _ & Hc1 & ->).
  destruct (admin_frame Hpte _ _ _ Hc1 (hs_lock _ _ _ Hs) (hs_ok _ _ _ Hs)) as (_ & Hsp & Hsb).
  destruct (heap_unlock_run tasks idle a h s1 Hh1 (he_kernel _ _ _ _ _ He) Hw Hr1)
    as (s' & E' & He' & Hr' & _). exists s'. split; [|done].
  unfold take_pages. fold (pages_for size).
  rewrite (bind_ok _ _ NULL s1 s1); [cbn [Z.eqb NULL]|].
  - change (sym_kern_pool + pool.mutex) with heap_mutex. by rewrite (bind_ok _ _ _ _ _ E').
  - unfold malloc_page, vaddr_get. do 2 (erewrite bind_ok by (apply assert_run; lia); cbv beta).
    rewrite (bind_ok _ _ NULL s1 s1); [done|]. rewrite decide_True by done. fold kvaddr_bm.
    rewrite (bind_ok _ _ (-1) s1 s1); [done|]. apply bitmap_scan_full_run.
    intros j Hj. rewrite (same_nbits _ _ Hsp) in Hj. rewrite (sb_virtual _ _ Hsb j Hj). by apply Hall.
Qed.

(** More than the allocator supports: the assertion of [malloc_page] stops the
    system while the mutex is held. *)
Lemma sys_malloc_huge_run a h size s :
  heap_env tasks idle a (h_arenas h) s -> heap_wf h -> heap_rep (mem s) h ->
  1024 < size <= get32 (mem s) (sym_kern_pool + pool.pool_size) -> size + 4107 < 2 ^ 32 ->
  3840 <= pages_for size ->
  exists s', sys_malloc size s = Panic "page_cnt < 3840" s' /\
    get32 (mem s') (heap_mutex + mutex_t.holder) = s_cur a.
Proof.
  intros He Hw Hr Hsz Hov Hn. destruct (pages_for_bounds size) as [Hn1 _]; [lia|done|].
  destruct (sys_malloc_large_enter a h size s He Hw Hr Hsz) as (s1 & Hh1 & Hr1 & _ & _ & Hc1 & ->).
  unfold take_pages. fold (pages_for size). unfold malloc_page.
  destruct (assert_false "kernel/memory.c" 189 "malloc_page" "page_cnt < 3840" s1) as (s' & E & _ & Em).
  exists s'. split.
  - rewrite !bind_assoc. erewrite bind_ok by (apply assert_run; lia). cbv beta.
    rewrite (proj2 (Z.ltb_ge (pages_for size) 3840)) by done. by rewrite (bind_panic _ _ _ _ _ E).
  - rewrite Em. destruct Hh1 as [_ _ [_ H _ _] _]. exact H.
Qed.

(** Without a free frame [malloc_page] answers NULL, and the virtual pages it
    has reserved stay reserved. *)
Lemma malloc_page_no_frames_run n q s :
  heap_ok (mem s) -> 1 <= n < 3840 -> free_run (mem s) kvaddr_bm q n ->
  (forall f, ~ free_frame (mem s) sym_kern_pool f) ->
  exists p m', malloc_page PF_KERNEL n s = Ok NULL (set_mem m' s) /\ first_fit (mem s) kvaddr_bm n p /\
    changed_only (vaddr_bits (mem s)) (mem s) m' /\
    forall j, 0 <= j -> bit m' kvaddr_bm j = bool_decide (p <= j < p + n) || bit (mem s) kvaddr_bm j.
Proof.
  intros Hh Hn Hq Hnone.
  destruct (vaddr_get_kernel_run Hpte n q s Hh Hn Hq) as (p & m1 & Ev & Hfit & Hc & Hok & El & Eb & Hb).
  pose proof Hfit as ((Hp0 & Hp1 & Hp2) & _). destruct (kpage_range (mem s) p Hh ltac:(lia)) as (K1 & _).
  destruct (heap_reserve Hpte (mem s) m1 p n Hh (proj1 Hfit) Hc Hok El Eb Hb) as (Hh1 & _ & _ & Hff & _).
  exists p, m1. split_and!; [|done|done|done]. unfold malloc_page.
  do 2 (erewrite bind_ok by (apply assert_run; lia); cbv beta). rewrite (bind_ok _ _ _ _ _ Ev).
  rewrite (proj2 (Z.eqb_neq _ NULL)) by (unfold NULL; lia). rewrite decide_True by done. cbv zeta.
  replace (Z.to_nat n) with (S (Z.to_nat (n - 1))) by lia. cbn [for_exit].
  destruct (palloc_run sym_kern_pool (set_mem m1 s) (hk_pool _ Hh1)) as [(f & _ & _ & Hf & _)|[_ E]].
  - by apply Hff, Hnone in Hf.
  - by rewrite !bind_assoc, (bind_ok _ _ _ _ _ E).
Qed.

Lemma sys_malloc_large_leak_run a h size q s :
  heap_env tasks idle a (h_arenas h) s -> heap_wf h -> heap_rep (mem s) h ->
  heap_space tasks (mem s) (h_arenas h) ->
  1024 < size <= get32 (mem s) (sym_kern_pool + pool.pool_size) -> size + 4107 < 2 ^ 32 ->
  let n := pages_for size in
  n < 3840 -> free_run (mem s) kvaddr_bm q n -> (forall f, ~ free_frame (mem s) sym_kern_pool f) ->
  exists p s', sys_malloc size s = Ok NULL s' /\ first_fit (mem s) kvaddr_bm n p /\
    heap_env tasks idle a (h_arenas h) s' /\ heap_rep (mem s') h /\
    forall k, p <= k < p + n -> bit (mem s') kvaddr_bm k = true.
Proof.
  intros He Hw Hr Hs Hsz Hov n Hn Hq Hnone. destruct (pages_for_bounds size) as [Hn1 _]; [lia|done|]. fold n in Hn1.
  destruct (sys_malloc_large_enter a h size s He Hw Hr Hsz) as (s1 & Hh1 & Hr1 & _ & _ & Hc1 & ->).
  destruct (admin_frame Hpte _ _ _ Hc1 (hs_lock _ _ _ Hs) (hs_ok _ _ _ Hs)) as (_ & Hsp & Hsb).
  pose proof (heap_space_write tasks Hpte _ _ _ _ Hs Hc1 (hs_lock _ _ _ Hs)) as Hs1.
  destruct (malloc_page_no_frames_run n q s1 (hs_ok _ _ _ Hs1)) as (p & m1 & E & Hfit & Hc & Hb).
  { lia. } { by apply (free_run_same (mem s)). }
  { intros f [Hf1 Hf2]. apply (Hnone f). rewrite (same_frames _ _ Hsp) in Hf1. split; [done|].
    by rewrite <- (sb_frames _ _ Hsb). }
  assert (Hva : forall b, vaddr_bits (mem s1) b -> admin (mem s1) b) by (intros b Hx; unfold admin; tauto).
  assert (Hh2 : heap_held tasks idle a (h_arenas h) (set_mem m1 s1)).
  { destruct Hh1 as [L1 L2 L3 L4]. constructor; [done|done| |done].
    eapply (mutex_frame tasks idle); [done|done|exact L3|exact Hc|].
    intros b Hx Hl. by apply (hs_lock _ _ _ Hs1 b Hl), Hva. }
  assert (Hr2 : heap_rep m1 h).
  { eapply heap_frame; [done|done|]. intros b Hx. apply Hc. intros Hy. by apply (hs_heap _ _ _ Hs1 b Hx), Hva. }
  destruct (heap_unlock_run tasks idle a h (set_mem m1 s1) Hh2 (he_kernel _ _ _ _ _ He) Hw Hr2)
    as (s' & E' & He' & Hr' & _ & _ & _ & Hc'); msimpl.
  pose proof Hfit as ((Hp0 & Hp1 & _) & _).
  exists p, s'. split_and!; [|by apply (first_fit_same (mem s) (mem s1))|done|done|].
  - unfold take_pages. fold (pages_for size). fold n. rewrite (bind_ok _ _ _ _ _ E). cbn [Z.eqb NULL].
    change (sym_kern_pool + pool.mutex) with heap_mutex. by rewrite (bind_ok _ _ _ _ _ E').
  - intros k Hk. rewrite <- (orb_true_l (bit (mem s1) kvaddr_bm k)), <- (bool_decide_true (p <= k < p + n)) by done.
    rewrite <- Hb by lia. unfold bit.
    assert (Hspm : same_pages (mem s1) m1).
    { eapply same_pages_frame; [exact Hc|]. intros b Hx. apply (page_area_structs (mem s1)); [apply Hs1|by left]. }
    assert (Hsp2 : same_pages m1 (mem s')).
    { eapply same_pages_frame; [exact Hc'|]. intros b Hx. apply (hs_lock _ _ _ Hs1) in Hx. unfold admin in Hx. tauto. }
    rewrite (sg_bits _ _ Hsp2). f_equal. apply Hc'. intros Hx. apply (hs_lock _ _ _ Hs1 _ Hx).
    unfold admin. do 3 right. left. unfold vaddr_bits, bits_area. rewrite (sg_bits _ _ Hspm).
    unfold nbits in *. zlia.
Qed.
End Region.

(** ** The release of a large request *)
Section Release.
Context {PL : Platform} {LK : Linker} (tasks : list Z) (idle : Z).
Context (Hpte : forall v, pte_ptr_ret v = v).

Lemma region_returned_space m arenas p fs m' :
  heap_space tasks m arenas -> large_region tasks arenas m p fs -> pages_returned m p fs m' ->
  heap_space tasks m' arenas.
Proof.
  intros [H1 H2 H3 H3' Hdi H4 H5] [_ [L1 L2] L3 L4 [L5 L5'] L6 L7 _ _ _] [[R1 R2 R3 R4 R5 R6] Hh'].
  rewrite firstn_all in R3. pose proof (same_nbits _ _ R1) as En. pose proof (fun k => same_kpage _ _ k R1) as Ek.
  assert (Hout : forall a i, (a, i) ∈ arenas -> exists k, 0 <= k < nbits m kvaddr_bm /\ bit m kvaddr_bm k = true /\
    a = kpage m k /\ ~ p <= k < p + Z.of_nat (length fs)).
  { intros a i Hin. destruct (H3 a i Hin) as (k & Hk & Hu & ->). exists k. split_and!; [lia|lia|done|done|].
    intros Hx. destruct (L6 (kpage m k)) as [Hno _].
    - unfold run_bytes, kpage in *. change PAGE_SIZE with 4096. lia.
    - apply Hno. right. apply Exists_exists. exists (kpage m k, i). split; [done|]. unfold page_bytes. cbn. lia. }
  assert (Hent : forall a i, (a, i) ∈ arenas -> get32 m' (pte_ptr a) = get32 m (pte_ptr a)).
  { intros a i Hin. destruct (Hout a i Hin) as (k & Hk & _ & -> & Hne). by apply R5. }
  constructor; [done|..].
  - intros k b Hk Hf Hpb. rewrite En in Hk. rewrite R2 in Hf by done. rewrite Ek in Hpb.
    assert (Hgo : ~ desc_bytes b /\ ~ lock_bytes tasks b /\ ~ admin m b).
    { destruct (decide (p <= k < p + Z.of_nat (length fs))) as [Hin|Hne].
      - destruct (L6 b) as (Ha & Hl & Hx).
        + unfold run_bytes, page_bytes, kpage in *. change PAGE_SIZE with 4096 in *. lia.
        + split_and!; [|done|done]. intros Hd. apply Ha. by left.
      - rewrite bool_decide_false in Hf by done. by apply (H2 k). }
    destruct Hgo as (? & ? & Ha). split_and!; [done|done|]. intros Hx. by apply Ha, (same_admin m m').
  - intros a i Hin. destruct (Hout a i Hin) as (k & Hk & Hu & -> & Hne). exists k.
    rewrite En, Ek, R2, bool_decide_false, Hu by done. done.
  - intros a i Hin. destruct (H3' a i Hin) as (f & Hf & Hu & Hmap). exists f.
    rewrite (same_frames _ _ R1), (same_frame _ _ f R1), R3, Hu by done. split_and!; [lia|lia| |].
    + rewrite bool_decide_false; [done|]. intros Hx. by apply (L7 a i f).
    + unfold mapped. by rewrite (Hent a i Hin).
  - intros a i a' i' Ha Ha'. rewrite (Hent a i Ha), (Hent a' i' Ha'). by apply (Hdi a i a' i').
  - intros b Hb Hx. by apply (H4 b Hb), (same_admin m m').
  - intros b Hb Hx. by apply (H5 b Hb), (same_admin m m').
Qed.

(** The run [p], [fs] is free again and not mapped; the rest is as before. *)
Record run_given (m : memory) (p : Z) (fs : list Z) (m' : memory) : Prop := {
  rg_pages : same_pages m m';
  rg_virtual : forall k, 0 <= k < nbits m kvaddr_bm ->
    bit m' kvaddr_bm k = negb (bool_decide (p <= k < p + Z.of_nat (length fs))) && bit m kvaddr_bm k;
  rg_frames : forall k, 0 <= k < nbits m (pool_bm sym_kern_pool) ->
    bit m' (pool_bm sym_kern_pool) k = negb (bool_decide (k ∈ fs)) && bit m (pool_bm sym_kern_pool) k;
  rg_unmapped : forall k, p <= k < p + Z.of_nat (length fs) -> unmapped m' (kpage m k)
}.

Lemma run_given_frames m0 m p fs m1 m' P :
  heap_ok m0 -> 0 <= p /\ p + Z.of_nat (length fs) <= nbits m0 kvaddr_bm ->
  same_pages m0 m -> same_bits m0 m -> pages_returned m p fs m1 ->
  changed_only P m1 m' -> (forall b, P b -> ~ admin m1 b) -> run_given m0 p fs m'.
Proof.
  intros Hh0 Hp Hs0 [Bv0 Bf0] [[R1 R2 R3 R4 R5 R6] Hh1] Hc HP. rewrite firstn_all in R3.
  destruct (admin_frame Hpte m1 m' P Hc HP Hh1) as (_ & Hs1 & [Bv1 Bf1]).
  pose proof (same_nbits _ _ Hs0) as En. pose proof (same_frames _ _ Hs0) as Ef. constructor.
  - eapply same_pages_trans; [exact Hs0|]. by eapply same_pages_trans.
  - intros k Hk. rewrite Bv1 by (by rewrite (same_nbits _ _ R1), En). by rewrite R2, Bv0 by (by rewrite ?En).
  - intros k Hk. rewrite Bf1 by (by rewrite (same_frames _ _ R1), Ef). by rewrite R3, Bf0 by (by rewrite ?Ef).
  - intros k Hk. specialize (R4 k Hk). rewrite (same_kpage _ _ k Hs0) in R4. unfold unmapped in *.
    destruct (kpage_range m0 k Hh0 ltac:(lia)) as (K1 & K2 & _).
    by rewrite (entry_frame Hpte m1 m' P) by (done || lia).
Qed.

Lemma region_base arenas m p fs :
  heap_ok m -> large_region tasks arenas m p fs ->
  block_to_arena (kpage m p + arena.sizeof) = kpage m p /\ 0 < kpage m p /\ kpage m p + 4096 <= 0xffc00000.
Proof.
  intros Hh [L0 [L1 L2] _ _ _ _ _ _ _ _]. destruct (kpage_range m p Hh ltac:(lia)) as (K1 & K2 & K3).
  split; [|done]. unfold block_to_arena. hoff. rewrite land_page by zlia. zlia.
Qed.

Lemma sys_free_large_run a h p fs s :
  heap_env tasks idle a (h_arenas h) s -> heap_wf h -> heap_rep (mem s) h ->
  heap_space tasks (mem s) (h_arenas h) -> large_region tasks (h_arenas h) (mem s) p fs ->
  exists s', sys_free (kpage (mem s) p + arena.sizeof) s = Ok tt s' /\
    heap_env tasks idle a (h_arenas h) s' /\ heap_rep (mem s') h /\ heap_space tasks (mem s') (h_arenas h) /\
    run_given (mem s) p fs (mem s') /\ vars s' = vars s /\
    trace s' = trace s ++ replicate (length fs) (Invlpg (vaddr_slot (Machine.esp s))).
Proof.
  intros He Hw Hr Hs Hreg. pose proof He as [Hl Hmx Hm Hk _].
  destruct (heap_lock_run tasks idle a h s He Hw Hr) as (s1 & E1 & Hh1 & Hr1 & _ & Hv1 & Ht1 & Hc1).
  pose proof (heap_space_write tasks Hpte _ _ _ _ Hs Hc1 (hs_lock _ _ _ Hs)) as Hs1.
  destruct (admin_frame Hpte _ _ _ Hc1 (hs_lock _ _ _ Hs) (hs_ok _ _ _ Hs)) as (_ & Hsp & Hsb).
  assert (Hreg1 : large_region tasks (h_arenas h) (mem s1) p fs).
  { eapply (large_region_frame tasks Hpte); [apply Hs|exact Hreg|exact Hc1| |].
    - intros b Hb. split; [by apply (hs_lock _ _ _ Hs)|]. intros Hx.
      by apply (lg_apart _ _ _ _ _ Hreg) in Hx as (_ & ? & _).
    - intros x i Hx. destruct (hs_used _ _ _ Hs x i Hx) as (k & Hk' & _ & ->). eauto. }
  destruct (region_base _ _ _ _ (hs_ok _ _ _ Hs1) Hreg1) as (Eb & Hb0 & Hb1).
  pose proof Hreg1 as [L0 [L1 L2] L3 L4 L5 L6 L7 L8 L9 L10].
  destruct (free_pages_kernel_run tasks idle Hpte a p fs s1 Hl Hmx Hk (hh_mutex _ _ _ _ _ Hh1)
    (hs_ok _ _ _ Hs1) L1 L0 L2 L4 (hs_lock _ _ _ Hs1)) as (s2 & E2 & Hm2 & Hret & _ & Hv2 & Ht2).
  pose proof (region_returned_space _ _ _ _ _ Hs1 Hreg1 Hret) as Hs2.
  assert (Hh2 : heap_held tasks idle a (h_arenas h) s2) by (destruct Hh1 as [? ? ? ?]; by constructor).
  assert (Hr2 : heap_rep (mem s2) h).
  { eapply heap_frame; [done|exact Hr1|]. intros b Hb. apply (rt_frame _ _ _ _ _ (ps_returned _ _ _ _ Hret)).
    intros Hx. apply (return_apart tasks) in Hx as [Hx|Hx]; [by apply (hs_heap _ _ _ Hs1 b)|].
    by apply (hh_apart _ _ _ _ _ Hh1 b). }
  destruct (heap_unlock_run tasks idle a h s2 Hh2 Hk Hw Hr2) as (s3 & E3 & He3 & Hr3 & _ & Hv3 & Ht3 & Hc3).
  pose proof (heap_space_write tasks Hpte _ _ _ _ Hs2 Hc3 (hs_lock _ _ _ Hs2)) as Hs3.
  exists s3. split_and!; [|done|done|done| |congruence|].
  - rewrite <- (same_kpage _ _ p Hsp).
    destruct Hm as [[[Hw0 _] _ Hruns _] _ _ _]. unfold sys_free.
    erewrite bind_ok by (apply assert_run; by rewrite (proj2 (Z.eqb_neq _ NULL)) by (unfold NULL; hoff; lia)).
    cbv beta. rewrite (bind_ok _ _ _ _ _ (running_thread_run _ Hl _ _ _ Hw0 Hruns)).
    erewrite bind_ok by reflexivity. cbv beta.
    rewrite (at_page_dir _ _ _ (rep_tcb _ _ _ (run_rep _ _ _ _ Hruns) _ (wf_cur _ _ _ Hw0))), Hk.
    cbn [Z.eqb NULL]. change (sym_kern_pool + pool.mutex) with heap_mutex.
    rewrite (bind_ok _ _ _ _ _ E1). cbv zeta. rewrite Eb. erewrite bind_ok by reflexivity. cbv beta.
    rewrite L10. cbn [Z.eqb negb]. erewrite bind_ok; [exact E3|]. erewrite bind_ok by reflexivity.
    cbv beta. by rewrite L9.
  - eapply run_given_frames; [apply Hs| |done|done|exact Hret|exact Hc3|apply (hs_lock _ _ _ Hs2)].
    by destruct (lg_range _ _ _ _ _ Hreg).
  - rewrite Ht3, Ht2, Ht1. pose proof (mutex_esp _ _ _ _ _ _ _ _ Hm) as ->.
    by rewrite (mutex_esp _ _ _ _ _ _ _ _ (hh_mutex _ _ _ _ _ Hh1)).
Qed.
End Release.

(** ** Properties *)
Section Contract.
Context {PL : Platform} {LK : Linker} (tasks : list Z) (idle : Z).


(** C17: A large allocation and its release at once: page by page the mappings go,
    with a flush of the TLB each, and the heap, both bitmaps and the free pages
    are as before. *)
Theorem large_roundtrip a h size q fs s :
  heap_env tasks idle a (h_arenas h) s -> heap_wf h -> heap_rep (mem s) h ->
  heap_space tasks (mem s) (h_arenas h) ->
  1024 < size <= get32 (mem s) (sym_kern_pool + pool.pool_size) -> size + 4107 < 2 ^ 32 ->
  let n := pages_for size in
  n < 3840 -> free_run (mem s) kvaddr_bm q n ->
  NoDup fs -> (forall f, f ∈ fs -> free_frame (mem s) sym_kern_pool f) -> n <= Z.of_nat (length fs) ->
  exists p s', (x ← sys_malloc size; sys_free x) s = Ok tt s' /\
    heap_env tasks idle a (h_arenas h) s' /\ heap_rep (mem s') h /\ heap_space tasks (mem s') (h_arenas h) /\
    first_fit (mem s) kvaddr_bm n p /\ same_pages (mem s) (mem s') /\ same_bits (mem s) (mem s') /\
    (forall k, p <= k < p + n -> unmapped (mem s') (kpage (mem s) k)) /\
    trace s' = trace s ++ replicate (Z.to_nat n) (Invlpg (vaddr_slot (Machine.esp s))).
Proof.
  intros He Hw Hr Hs Hsz Hov n Hn Hq Hnd Hfree Hlen. pose proof (lay_pte _ (he_lay _ _ _ _ _ He)) as Hpte.
  destruct (sys_malloc_large_run tasks idle Hpte a h size q fs s)
    as (p & ps & s1 & E1 & Hfit & Hps & [He1 Hr1 Hs1 Hreg Hlp _] & [Hsp1 Hv1 Hf1] & _ & Ht1); try done.
  destruct (sys_free_large_run tasks idle Hpte a h p ps s1 He1 Hw Hr1 Hs1 Hreg)
    as (s' & E2 & He2 & Hr2 & Hs2 & [Hsp2 Hv2 Hf2 Hun] & _ & Ht2).
  fold n in Hlp. rewrite Hlp in *. pose proof Hfit as ((Hp0 & Hp1 & Hp2) & _).
  exists p, s'. rewrite (same_kpage _ _ p Hsp1) in E2. rewrite (bind_ok _ _ _ _ _ E1).
  split_and!; [done|done|done|done|done|by eapply same_pages_trans| | |].
  - constructor; intros k Hk.
    + rewrite Hv2, Hv1 by (by rewrite ?(same_nbits _ _ Hsp1)).
      destruct (decide (p <= k < p + n)) as [Hin|Hne]; [|by rewrite bool_decide_false].
      by rewrite bool_decide_true, Hp2.
    + rewrite Hf2, Hf1 by (by rewrite ?(same_frames _ _ Hsp1)).
      destruct (decide (k ∈ ps)) as [Hin|Hne]; [|by rewrite bool_decide_false].
      rewrite bool_decide_true by done. by destruct (Hps k Hin) as [_ ->].
  - intros k Hk. rewrite <- (same_kpage _ _ k Hsp1). by apply Hun.
  - rewrite Ht2, Ht1, <- Hlp, Nat2Z.id. pose proof (mutex_esp _ _ _ _ _ _ _ _ (he_mutex _ _ _ _ _ He1)) as ->.
    by rewrite (mutex_esp _ _ _ _ _ _ _ _ (he_mutex _ _ _ _ _ He)).
Qed.
End Contract.

(** ** Concrete instances *)

(** The free pages and frames of the concrete heap: from 1 on. *)
Lemma demo_two_pages : free_run demo_arena_mem kvaddr_bm 1 2.
Proof.
  split_and!; [done|vm_compute; done|]. intros j Hj. assert (j = 1 \/ j = 2) as [->| ->] by lia; reflexivity.
Qed.

Lemma demo_two_frames f : f ∈ [1; 2] -> free_frame demo_arena_mem sym_kern_pool f.
Proof.
  intros [->|[->|[]%not_elem_of_nil]%elem_of_cons]%elem_of_cons;
    (split; [split; [done|vm_compute; done]|reflexivity]).
Qed.


Lemma large_roundtrip_witness :
  exists p s', (x ← sys_malloc 5000; sys_free x) demo_arena_machine = Ok tt s' /\
    heap_rep (mem s') demo_h /\ same_bits (mem demo_arena_machine) (mem s') /\
    (forall k, p <= k < p + 2 -> unmapped (mem s') (kpage (mem demo_arena_machine) k)).
Proof.
  assert (Hp : 1024 < 5000 <= get32 demo_arena_mem (sym_kern_pool + pool.pool_size)) by (vm_compute; done).
  assert (Hnd : NoDup [1; 2]) by (apply (bool_decide_unpack _); vm_compute; exact I).
  destruct (large_roundtrip demo_tasks demo_idle demo_abs demo_h 5000 1 [1; 2] demo_arena_machine
    demo_heap_env demo_heap_wf demo_heap_rep demo_heap_space Hp ltac:(lia) ltac:(done) demo_two_pages
    Hnd demo_two_frames ltac:(done)) as (p & s' & E & _ & Hr & _ & _ & _ & Hb & Hu & _).
  exists p, s'. split_and!; [exact E|exact Hr|exact Hb|exact Hu].
Defined.
