(* ===== verification/KernPages.v ===== *)
(** * Pages for the kernel itself (kernel/memory.c: get_kern_pages)

    A run of pages of the kernel's heap, mapped to frames and cleared. *)

From S2P Require Import Prelude Machine Concrete Interrupt CString Bitmap DList Paging Tss Sched Lock Memory Malloc Heap HeapGrow PageFree HeapLarge.

#[local] Open Scope Z_scope.

(** [get_kern_pages] has taken the pages [p .. p + n - 1] of [m], on the
    frames [ps]. *)
Record run_for {PL : Platform} {LK : Linker} (m : memory) (n p : Z) (ps : list Z) (m' : memory) : Prop := {
  rf_fit : first_fit m kvaddr_bm n p;
  rf_len : Z.of_nat (length ps) = n;
  rf_nodup : NoDup ps;
  rf_free : forall f, f ∈ ps -> free_frame m sym_kern_pool f;
  rf_heap : heap_ok m';
  rf_same : same_pages m m';
  rf_virtual : forall j, 0 <= j < nbits m kvaddr_bm ->
    bit m' kvaddr_bm j = bool_decide (p <= j < p + n) || bit m kvaddr_bm j;
  rf_frames : forall j, 0 <= j < nbits m (pool_bm sym_kern_pool) ->
    bit m' (pool_bm sym_kern_pool) j = bool_decide (j ∈ ps) || bit m (pool_bm sym_kern_pool) j;
  rf_mapped : run_mapped m' p ps;
  rf_zero : forall b, run_bytes m p n b -> get8 m' b = 0;
  rf_frame : changed_only (fun b => run_bytes m p n b \/ admin m b) m m'
}.

Section Pages.
Context {PL : Platform} {LK : Linker}.
Context (Hpte : forall v, pte_ptr_ret v = v).

Lemma get_kern_pages_run n q fs s :
  heap_ok (mem s) -> 1 <= n < 3840 -> free_run (mem s) kvaddr_bm q n ->
  NoDup fs -> (forall f, f ∈ fs -> free_frame (mem s) sym_kern_pool f) -> n <= Z.of_nat (length fs) ->
  (forall j b, 0 <= j < nbits (mem s) kvaddr_bm -> bit (mem s) kvaddr_bm j = false ->
     page_bytes (kpage (mem s) j) b -> ~ admin (mem s) b) ->
  exists p ps m', get_kern_pages n s = Ok (kpage (mem s) p) (set_mem m' s) /\ run_for (mem s) n p ps m'.
Proof.
  intros Hh Hn Hq Hnd Hfree Hlen Hp.
  destruct (malloc_page_kernel_run Hpte n q fs s Hh Hn Hq Hnd Hfree Hlen) as (p & ps & m1 & E & Hm).
  pose proof (pm_fit _ _ _ _ _ Hm) as ((Hp0 & Hp1 & Hpf) & Hlow).
  destruct (kpage_range (mem s) p Hh ltac:(lia)) as (K1 & K2 & K3).
  assert (K4 := proj2 (proj2 (hk_start _ Hh))).
  assert (K5 : kpage (mem s) p + 4096 * n <= 0xffc00000) by (unfold kpage in *; change PAGE_SIZE with 4096 in *; lia).
  assert (Kn : kpage (mem s) p <> 0) by lia.
  set (m2 := put_bytes m1 (kpage (mem s) p) (replicate (Z.to_nat (4096 * n)) 0)).
  assert (C2 : changed_only (run_bytes (mem s) p n) m1 m2).
  { intros b Hb. apply get8_put_bytes_ne. rewrite length_replicate. unfold run_bytes in Hb. lia. }
  pose proof (pages_mapped_same _ _ _ _ _ Hh Hm) as Hs.
  assert (Hap : forall b, run_bytes (mem s) p n b -> ~ admin m1 b).
  { intros b Hb Ha. set (j := p + (b - kpage (mem s) p) / 4096).
    assert (Hj : p <= j < p + n) by (unfold run_bytes in Hb; unfold j; zlia).
    apply (Hp j b ltac:(lia) (Hpf j Hj)); [|by apply (same_admin (mem s) m1)].
    unfold page_bytes, j. unfold run_bytes, kpage in *. change PAGE_SIZE with 4096 in *. zlia. }
  destruct (admin_frame Hpte m1 m2 _ C2 Hap (pm_heap _ _ _ _ _ Hm)) as (Hh2 & Hs2 & Hb2).
  exists p, ps, m2. split.
  - unfold get_kern_pages. rewrite (bind_ok _ _ _ _ _ E). rewrite (proj2 (Z.eqb_neq _ NULL)) by (unfold NULL; lia).
    cbn [negb when]. assert (Eu : u32 (n * PAGE_SIZE) = 4096 * n) by (change PAGE_SIZE with 4096; rewrite u32_small; lia).
    rewrite Eu. rewrite (bind_ok _ _ _ _ _ (memset_run _ _ _ (set_mem m1 s) Kn)). reflexivity.
  - constructor; [by constructor|apply Hm|apply Hm|apply Hm|done|by eapply same_pages_trans| | | | |].
    + intros j Hj. rewrite (sb_virtual _ _ Hb2) by (by rewrite (same_nbits _ _ Hs)). by apply (pm_virtual _ _ _ _ _ Hm).
    + intros j Hj. rewrite (sb_frames _ _ Hb2) by (by rewrite (same_frames _ _ Hs)). by apply (pm_frames _ _ _ _ _ Hm).
    + intros k f Hk. pose proof (same_pages_trans _ _ _ Hs Hs2) as Hs3.
      pose proof (lookup_lt_Some _ _ _ Hk). pose proof (pm_len _ _ _ _ _ Hm).
      rewrite (same_frames _ _ Hs3), (same_kpage _ _ _ Hs3), (same_frame _ _ _ Hs3). split.
      * by apply (pm_free _ _ _ _ _ Hm), list_elem_of_lookup_2 with (i := k).
      * destruct (kpage_range (mem s) (p + Z.of_nat k) Hh ltac:(lia)) as (A1 & A2 & _).
        eapply mapped_frame; [done|exact C2|exact Hap|lia|by apply (pm_mapped _ _ _ _ _ Hm)].
    + intros b Hb. unfold m2. rewrite get8_put_bytes_replicate, decide_True by (unfold run_bytes in Hb; lia). done.
    + eapply changed_trans; [eapply changed_weaken; [apply Hm|]|eapply changed_weaken; [exact C2|by left]].
      intros b Hb. right. unfold admin, window in *. destruct Hb as [Hb|[Hb|Hb]]; [tauto|tauto|lia].
Qed.
End Pages.
