(* ===== verification/MemInit.v ===== *)
(** * Initialisation of the memory manager (kernel/memory.c: mem_pool_init, mem_block_init, mem_init)

    What [mem_init] leaves behind is what the page and block allocators
    require: the invariants of Memory.v and Heap.v hold initially. *)

From S2P Require Import Prelude Machine Concrete Interrupt CString Bitmap DList Paging Tss Sched Lock Memory Malloc Heap HeapGrow.

#[local] Open Scope Z_scope.

Definition within (a n b : Z) : Prop := a <= b < a + n.

(** Offsets as numbers. *)
Ltac moff :=
  unfold within in *; change mutex_t.sem with 0 in *; change mutex_t.holder with 20 in *;
  change mutex_t.recursion with 24 in *; change mutex_t.sizeof with 28 in *;
  change sem_t.value with 0 in *; change sem_t.waiters with 4 in *; change list.sizeof with 16 in *;
  change pool.mutex with 16 in *; change pool.phy_addr_start with 8 in *; change pool.pool_size with 12 in *;
  change pool.pool_bitmap with 0 in *; change pool.sizeof with 44 in *;
  change bitmap.length with 0 in *; change bitmap.bits with 4 in *; change bitmap.sizeof with 8 in *;
  change virtual_addr.vaddr_bitmap with 0 in *; change virtual_addr.vaddr_start with 8 in *;
  change virtual_addr.sizeof with 12 in *.

(** ** The pieces of mem_pool_init *)
Section Pieces.
Context {PL : Platform} {LK : Linker}.

(** A mutex as [mutex_init] makes it: free, and nobody waits. *)
Record fresh_mutex (m : memory) (mx : Z) : Prop := {
  fm_value : get8 m (mx + mutex_t.sem + sem_t.value) = 1;
  fm_waiters : dlist m (mx + mutex_t.sem + sem_t.waiters) [];
  fm_holder : get32 m (mx + mutex_t.holder) = NULL;
  fm_recursion : get8 m (mx + mutex_t.recursion) = 0
}.

Lemma mutex_init_run mx s :
  0 <= mx -> mx + mutex_t.sizeof <= 2 ^ 32 ->
  exists m', mutex_init mx s = Ok tt (set_mem m' s) /\ fresh_mutex m' mx /\
    changed_only (within mx mutex_t.sizeof) (mem s) m'.
Proof.
  intros H0 H1. unfold mutex_init, sem_init. srun.
  set (m1 := put8 (put8 (put32 (mem s) (mx + mutex_t.holder) NULL) (mx + mutex_t.recursion) 0)
    (mx + mutex_t.sem + sem_t.value) 1).
  destruct (list_init_run (mx + mutex_t.sem + sem_t.waiters) (set_mem m1 s)) as (m2 & E & Hl & Hc);
    [moff; lia|moff; change (2 ^ 32) with 4294967296 in *; lia|]. msimpl.
  assert (Hk : forall b, within mx mutex_t.sizeof b -> ~ within (mx + 4) 16 b -> get8 m2 b = get8 m1 b).
  { intros b Hb Hx. apply Hc. intros Hy. apply Hx. moff. lia. }
  exists m2. split_and!; [exact E| |].
  - constructor; [|exact Hl|..].
    + rewrite Hk by (moff; lia). unfold m1. by rewrite get8_put8_eq.
    + rewrite (get32_ext m1 m2); [|intros b Hb; apply Hk; moff; lia].
      unfold m1. rewrite !get32_put8_ne by (moff; lia). by rewrite get32_put32_eq.
    + rewrite Hk by (moff; lia). unfold m1. rewrite get8_put8_ne by (moff; lia). by rewrite get8_put8_eq.
  - intros b Hb. rewrite Hc by (moff; lia). unfold m1.
    rewrite !get8_put8_ne, get8_put32_ne by (moff; lia). done.
Qed.

Lemma fresh_mutex_frame m m' P mx :
  changed_only P m m' -> (forall b, P b -> ~ within mx mutex_t.sizeof b) ->
  fresh_mutex m mx -> fresh_mutex m' mx.
Proof.
  intros Hc HP [H1 H2 H3 H4].
  assert (Hk : forall b, within mx mutex_t.sizeof b -> get8 m' b = get8 m b).
  { intros b Hb. apply Hc. intros Hx. by apply (HP b Hx). }
  constructor.
  - rewrite Hk by (moff; lia). done.
  - eapply dlist_changed_only; [exact Hc| |exact H2]. intros b Hb Hx. apply (HP b Hx). clear Hx.
    unfold node_bytes, with_ends in Hb. cbn [app] in Hb.
    apply Exists_cons in Hb as [Hb|[Hb|Hb%Exists_nil]%Exists_cons]; [| |done];
      change list.head with 0 in *; change list.tail with 8 in *; change list_node.sizeof with 8 in *; moff; lia.
  - rewrite <- H3. apply get32_ext. intros b Hb. apply Hk. moff. lia.
  - rewrite Hk by (moff; lia). done.
Qed.

(** The assignments to a pool. *)
Lemma pool_fields_run po start size len bits s :
  0 <= po -> po + pool.sizeof <= 2 ^ 32 ->
  exists m', (forall c : K unit, (mutex_init (po + pool.mutex);;
      st32 (po + pool.phy_addr_start) start;; st32 (po + pool.pool_size) size;;
      st32 (po + pool.pool_bitmap + bitmap.length) len;;
      st32 (po + pool.pool_bitmap + bitmap.bits) bits;; c) s = c (set_mem m' s)) /\
    fresh_mutex m' (po + pool.mutex) /\
    pool_start m' po = u32 start /\ get32 m' (po + pool.pool_size) = u32 size /\
    bm_length m' (pool_bm po) = u32 len /\ bm_bits m' (pool_bm po) = u32 bits /\
    changed_only (within po pool.sizeof) (mem s) m'.
Proof.
  intros H0 H1. destruct (mutex_init_run (po + pool.mutex) s) as (m1 & E & Hf & Hc);
    [moff; lia|moff; lia|].
  set (m2 := put32 (put32 (put32 (put32 m1 (po + pool.phy_addr_start) start) (po + pool.pool_size) size)
    (po + pool.pool_bitmap + bitmap.length) len) (po + pool.pool_bitmap + bitmap.bits) bits).
  assert (Hc2 : changed_only (within po 16) m1 m2).
  { intros b Hb. unfold m2. rewrite !get8_put32_ne by (moff; lia). done. }
  exists m2. split_and!.
  - intros c. rewrite (bind_ok _ _ _ _ _ E). srun. reflexivity.
  - eapply fresh_mutex_frame; [exact Hc2| |exact Hf]. intros b Hb. moff. lia.
  - unfold pool_start, m2. rewrite !get32_put32_ne by (moff; lia). by rewrite get32_put32_eq.
  - unfold m2. rewrite !get32_put32_ne by (moff; lia). by rewrite get32_put32_eq.
  - unfold bm_length, pool_bm, m2. rewrite get32_put32_ne by (moff; lia). by rewrite get32_put32_eq.
  - unfold bm_bits, pool_bm, m2. by rewrite get32_put32_eq.
  - eapply changed_trans; eapply changed_weaken; [exact Hc|intros b Hb; moff; lia|exact Hc2|intros b Hb; moff; lia].
Qed.

(** [bitmap_init] clears a bitmap. *)
Lemma bitmap_init_run bm bits len s :
  bm_bits (mem s) bm = bits -> bits <> 0 -> 0 <= len < 2 ^ 28 ->
  bm + bitmap.sizeof <= bits \/ bits + len <= bm ->
  exists m', bitmap_init bm len s = Ok tt (set_mem m' s) /\
    bm_length m' bm = len /\ bm_bits m' bm = bits /\ bitmap_ok m' bm /\
    (forall j, 0 <= j < nbits m' bm -> bit m' bm j = false) /\
    changed_only (fun b => within bm bitmap.sizeof b \/ within bits len b) (mem s) m'.
Proof.
  intros Eb H0 Hl Hsep. change (2 ^ 28) with 268435456 in *.
  assert (Eb' : get32 (put32 (mem s) (bm + bitmap.length) len) (bm + bitmap.bits) = bits).
  { rewrite get32_put32_ne by (moff; lia). exact Eb. }
  set (m' := put_bytes (put32 (mem s) (bm + bitmap.length) len) bits (replicate (Z.to_nat len) 0)).
  assert (El : bm_length m' bm = len).
  { unfold bm_length, m'. rewrite get32_put_bytes_ne by (rewrite length_replicate; moff; lia).
    rewrite get32_put32_eq. apply u32_small. lia. }
  assert (Ebb : bm_bits m' bm = bits).
  { unfold bm_bits, m'. rewrite get32_put_bytes_ne by (rewrite length_replicate; moff; lia). exact Eb'. }
  exists m'. split_and!; [|done|done| | |].
  - unfold bitmap_init. srun. rewrite Eb'. rewrite memset_run by done. reflexivity.
  - constructor; unfold nbits; rewrite ?El, ?Ebb; [lia|done].
  - intros j. unfold nbits. rewrite El. intros Hj. unfold bit. rewrite Ebb. unfold m'.
    rewrite get8_put_bytes_replicate, decide_True by zlia. apply Z.testbit_0_l.
  - intros b Hb. unfold m'. rewrite get8_put_bytes_ne by (rewrite length_replicate; moff; lia).
    apply get8_put32_ne. moff. lia.
Qed.
End Pieces.

(** ** mem_pool_init *)

(** The pages of a machine with [total] bytes of memory that are not in use,
    counted in 16 bits; the kernel's half of them; the bytes of the bitmaps. *)
Definition free_pages (total : Z) : Z := u16 (u32 (total - 0x200000) / PAGE_SIZE).
Definition kern_pages (total : Z) : Z := free_pages total / 2.
Definition user_pages (total : Z) : Z := free_pages total - kern_pages total.
Definition kern_bytes (total : Z) : Z := kern_pages total / 8.
Definition user_bytes (total : Z) : Z := user_pages total / 8.

(** Whatever the memory size, the three bitmaps take less than three pages. *)
Lemma bitmaps_fit total :
  0 <= kern_bytes total <= 4095 /\ 0 <= user_bytes total <= 4096 /\
  0 <= kern_pages total <= 32767 /\ 0 <= user_pages total <= 32768 /\
  8 * kern_bytes total <= kern_pages total /\ 8 * user_bytes total <= user_pages total.
Proof.
  unfold kern_bytes, user_bytes, user_pages, kern_pages.
  assert (H : 0 <= free_pages total < 65536) by (unfold free_pages; pose proof (u16_range (u32 (total - 0x200000) / PAGE_SIZE)); zlia).
  zlia.
Qed.

Definition bitmap_area (b : Z) : Prop := MEM_BITMAP_BASE <= b < MEM_BITMAP_BASE + 0x3000.

Section Pools.
Context {PL : Platform} {LK : Linker}.

Definition apart_from (a n b k : Z) : Prop := a + n <= b \/ b + k <= a.

(** The allocator's objects are apart from each other and below the bitmaps. *)
Record memory_home : Prop := {
  mh_kern : 0 < sym_kern_pool /\ sym_kern_pool + 44 <= MEM_BITMAP_BASE;
  mh_user : 0 < sym_user_pool /\ sym_user_pool + 44 <= MEM_BITMAP_BASE;
  mh_vaddr : 0 < sym_kern_vaddr /\ sym_kern_vaddr + 12 <= MEM_BITMAP_BASE;
  mh_descs : 0 < sym_km_block_descs /\ sym_km_block_descs + 168 <= MEM_BITMAP_BASE;
  mh_kern_user : apart_from sym_kern_pool 44 sym_user_pool 44;
  mh_kern_vaddr : apart_from sym_kern_pool 44 sym_kern_vaddr 12;
  mh_user_vaddr : apart_from sym_user_pool 44 sym_kern_vaddr 12;
  mh_kern_descs : apart_from sym_kern_pool 44 sym_km_block_descs 168;
  mh_user_descs : apart_from sym_user_pool 44 sym_km_block_descs 168;
  mh_vaddr_descs : apart_from sym_kern_vaddr 12 sym_km_block_descs 168
}.

(** The pool [po] manages [len] * 8 free frames from [start] on. *)
Record pool_made (m : memory) (po start size len bits : Z) : Prop := {
  pd_start : pool_start m po = start;
  pd_size : get32 m (po + pool.pool_size) = size;
  pd_length : bm_length m (pool_bm po) = len;
  pd_bits : bm_bits m (pool_bm po) = bits;
  pd_free : forall j, 0 <= j < nbits m (pool_bm po) -> bit m (pool_bm po) j = false;
  pd_mutex : fresh_mutex m (po + pool.mutex)
}.

(** Everything [mem_pool_init] sets up. *)
Record pools_made (total : Z) (m : memory) : Prop := {
  pi_kern : pool_made m sym_kern_pool 0x200000 (kern_pages total * PAGE_SIZE) (kern_bytes total) MEM_BITMAP_BASE;
  pi_user : pool_made m sym_user_pool (0x200000 + kern_pages total * PAGE_SIZE) (user_pages total * PAGE_SIZE)
    (user_bytes total) (MEM_BITMAP_BASE + kern_bytes total);
  pi_start : kvaddr_start m = K_HEAP_START;
  pi_length : bm_length m kvaddr_bm = kern_bytes total;
  pi_bits : bm_bits m kvaddr_bm = MEM_BITMAP_BASE + kern_bytes total + user_bytes total;
  pi_free : forall j, 0 <= j < nbits m kvaddr_bm -> bit m kvaddr_bm j = false
}.

Definition pool_bytes (b : Z) : Prop :=
  within sym_kern_pool 44 b \/ within sym_user_pool 44 b \/ within sym_kern_vaddr 12 b \/ bitmap_area b.

(** A pool survives writes outside its structure and bits. *)
Lemma pool_made_frame m m' P po start size len bits :
  changed_only P m m' -> (forall b, P b -> ~ within po 44 b /\ ~ within bits len b) ->
  pool_made m po start size len bits -> pool_made m' po start size len bits.
Proof.
  intros Hc HP [H1 H2 H3 H4 H5 H6].
  assert (Hw : forall w, po <= w -> w + 4 <= po + 44 -> get32 m' w = get32 m w).
  { intros w Hw1 Hw2. apply (changed_get32 _ _ _ _ Hc). intros b Hb Hx. destruct (HP b Hx) as [Hy _].
    apply Hy. unfold within. lia. }
  assert (El : bm_length m' (pool_bm po) = len) by (rewrite <- H3; apply Hw; unfold pool_bm, pool.pool_bitmap, bitmap.length; lia).
  assert (Eb : bm_bits m' (pool_bm po) = bits) by (rewrite <- H4; apply Hw; unfold pool_bm, pool.pool_bitmap, bitmap.bits; lia).
  constructor; [..|done|done| |].
  - rewrite <- H1. apply Hw; unfold pool.phy_addr_start; lia.
  - rewrite <- H2. apply Hw; unfold pool.pool_size; lia.
  - intros j Hj. unfold nbits in Hj. rewrite El in Hj. rewrite <- (H5 j) by (unfold nbits; rewrite H3; lia).
    unfold bit. rewrite Eb, H4. f_equal. apply Hc. intros Hx. destruct (HP _ Hx) as [_ Hy]. apply Hy.
    unfold within. zlia.
  - eapply fresh_mutex_frame; [exact Hc| |exact H6]. intros b Hx. destruct (HP b Hx) as [Hy _].
    unfold within, mutex_t.sizeof, pool.mutex in *. lia.
Qed.

(** One pool's bitmap is cleared. *)
Lemma pool_cleared_run po start size len bits s :
  0 < po -> po + 44 <= MEM_BITMAP_BASE -> MEM_BITMAP_BASE <= bits -> 0 <= len < 4097 ->
  pool_start (mem s) po = start -> get32 (mem s) (po + pool.pool_size) = size ->
  bm_length (mem s) (pool_bm po) = len -> bm_bits (mem s) (pool_bm po) = bits ->
  fresh_mutex (mem s) (po + pool.mutex) ->
  exists m', bitmap_init (pool_bm po) len s = Ok tt (set_mem m' s) /\
    pool_made m' po start size len bits /\
    changed_only (fun b => within po 8 b \/ within bits len b) (mem s) m'.
Proof.
  intros H0 H1 H2 H3 E1 E2 E3 E4 Hf. unfold MEM_BITMAP_BASE in *.
  destruct (bitmap_init_run (pool_bm po) bits len s E4) as (m' & E & El & Eb & _ & Hz & Hc);
    [lia|lia|unfold pool_bm, pool.pool_bitmap, bitmap.sizeof; lia|].
  assert (Hc' : changed_only (fun b => within po 8 b \/ within bits len b) (mem s) m').
  { eapply changed_weaken; [exact Hc|]. unfold pool_bm, pool.pool_bitmap, bitmap.sizeof, within. intros b Hb. lia. }
  exists m'. split_and!; [exact E| |exact Hc'].
  assert (Hw : forall w, po + 8 <= w -> w + 4 <= po + 44 -> get32 m' w = get32 (mem s) w).
  { intros w Hw1 Hw2. apply (changed_get32 _ _ _ _ Hc'). unfold within. lia. }
  constructor; [| |done|done|done|].
  - rewrite <- E1. apply Hw; unfold pool.phy_addr_start; lia.
  - rewrite <- E2. apply Hw; unfold pool.pool_size; lia.
  - eapply fresh_mutex_frame; [exact Hc'| |exact Hf]. unfold within, mutex_t.sizeof, pool.mutex. lia.
Qed.

(** The end of [mem_pool_init]: the kernel's virtual pages. *)
Lemma kern_vaddr_run len bits s :
  0 < sym_kern_vaddr -> sym_kern_vaddr + 12 <= MEM_BITMAP_BASE -> MEM_BITMAP_BASE <= bits < 2 ^ 32 -> 0 <= len < 4097 ->
  exists m', (st32 (sym_kern_vaddr + virtual_addr.vaddr_bitmap + bitmap.length) len;;
      st32 (sym_kern_vaddr + virtual_addr.vaddr_bitmap + bitmap.bits) bits;;
      st32 (sym_kern_vaddr + virtual_addr.vaddr_start) K_HEAP_START;;
      n ← ld32 (sym_kern_vaddr + virtual_addr.vaddr_bitmap + bitmap.length);
      bitmap_init (sym_kern_vaddr + virtual_addr.vaddr_bitmap) n;;
      put_lit ("mempool init done" +:+ nl)) s
      = Ok tt (log (PutLit ("mempool init done" +:+ nl)) (set_mem m' s)) /\
    kvaddr_start m' = K_HEAP_START /\ bm_length m' kvaddr_bm = len /\ bm_bits m' kvaddr_bm = bits /\
    (forall j, 0 <= j < nbits m' kvaddr_bm -> bit m' kvaddr_bm j = false) /\
    changed_only (fun b => within sym_kern_vaddr 12 b \/ within bits len b) (mem s) m'.
Proof.
  intros H0 H1 H2 H3. unfold MEM_BITMAP_BASE in *. change (2 ^ 32) with 4294967296 in *.
  set (m1 := put32 (put32 (put32 (mem s) (sym_kern_vaddr + virtual_addr.vaddr_bitmap + bitmap.length) len)
    (sym_kern_vaddr + virtual_addr.vaddr_bitmap + bitmap.bits) bits) (sym_kern_vaddr + virtual_addr.vaddr_start) K_HEAP_START).
  assert (Hc1 : changed_only (within sym_kern_vaddr 12) (mem s) m1).
  { intros b Hb. unfold m1. moff. rewrite !get8_put32_ne by lia. done. }
  assert (El : get32 m1 (sym_kern_vaddr + virtual_addr.vaddr_bitmap + bitmap.length) = len).
  { unfold m1. moff. rewrite !get32_put32_ne by lia. rewrite get32_put32_eq. apply u32_small. lia. }
  assert (Eb : bm_bits m1 kvaddr_bm = bits).
  { unfold bm_bits, kvaddr_bm, m1. moff. rewrite get32_put32_ne by lia. rewrite get32_put32_eq. apply u32_small. lia. }
  destruct (bitmap_init_run kvaddr_bm bits len (set_mem m1 s) Eb) as (m2 & E & E1 & E2 & _ & Hz & Hc2);
    [lia|lia|unfold kvaddr_bm; moff; lia|]. msimpl.
  assert (Hc2' : changed_only (fun b => within sym_kern_vaddr 8 b \/ within bits len b) m1 m2).
  { eapply changed_weaken; [exact Hc2|]. unfold kvaddr_bm. moff. intros b Hb. lia. }
  exists m2. split_and!; [| |done|done|done|].
  - srun. fold m1. rewrite El. fold kvaddr_bm. rewrite (bind_ok _ _ _ _ _ E). reflexivity.
  - unfold kvaddr_start. rewrite (changed_get32 _ _ _ _ Hc2') by (moff; lia).
    unfold m1. rewrite get32_put32_eq. by apply u32_small.
  - eapply changed_trans; [eapply changed_weaken; [exact Hc1|auto]|].
    eapply changed_weaken; [exact Hc2'|]. moff. intros b Hb. lia.
Qed.

(** The last part of [mem_pool_init]: the bitmaps are cleared. *)
Definition pool_init_bitmaps (kb ub : Z) : K unit :=
  len ← ld32 (sym_kern_pool + pool.pool_bitmap + bitmap.length);
  bitmap_init (sym_kern_pool + pool.pool_bitmap) len;;
  len ← ld32 (sym_user_pool + pool.pool_bitmap + bitmap.length);
  bitmap_init (sym_user_pool + pool.pool_bitmap) len;;
  st32 (sym_kern_vaddr + virtual_addr.vaddr_bitmap + bitmap.length) kb;;
  st32 (sym_kern_vaddr + virtual_addr.vaddr_bitmap + bitmap.bits) (MEM_BITMAP_BASE + kb + ub);;
  st32 (sym_kern_vaddr + virtual_addr.vaddr_start) K_HEAP_START;;
  n ← ld32 (sym_kern_vaddr + virtual_addr.vaddr_bitmap + bitmap.length);
  bitmap_init (sym_kern_vaddr + virtual_addr.vaddr_bitmap) n;;
  put_lit ("mempool init done" +:+ nl).

(** The body of [mem_pool_init] with its local variables named. *)
Definition pool_init_with (kp up kb ub up_start : Z) : K unit :=
  put_lit ("  mem_pool_init start" +:+ nl);;
  mutex_init (sym_kern_pool + pool.mutex);;
  st32 (sym_kern_pool + pool.phy_addr_start) 0x200000;;
  st32 (sym_kern_pool + pool.pool_size) (kp * PAGE_SIZE);;
  st32 (sym_kern_pool + pool.pool_bitmap + bitmap.length) kb;;
  st32 (sym_kern_pool + pool.pool_bitmap + bitmap.bits) MEM_BITMAP_BASE;;
  mutex_init (sym_user_pool + pool.mutex);;
  st32 (sym_user_pool + pool.phy_addr_start) up_start;;
  st32 (sym_user_pool + pool.pool_size) (up * PAGE_SIZE);;
  st32 (sym_user_pool + pool.pool_bitmap + bitmap.length) ub;;
  st32 (sym_user_pool + pool.pool_bitmap + bitmap.bits) (MEM_BITMAP_BASE + kb);;
  put_lit "  kernel pool bitmap_start:";;
  x ← ld32 (sym_kern_pool + pool.pool_bitmap + bitmap.bits); put_int x;;
  put_lit "  kernel pool phy_addr_start:";;
  x ← ld32 (sym_kern_pool + pool.phy_addr_start); put_int x;;
  put_lit nl;;
  put_lit "  used pool bitmap start:";;
  x ← ld32 (sym_user_pool + pool.pool_bitmap + bitmap.bits); put_int x;;
  put_lit "  user pool phy_addr_start:";;
  x ← ld32 (sym_user_pool + pool.phy_addr_start); put_int x;;
  put_lit nl;;
  pool_init_bitmaps kb ub.

Lemma mem_pool_init_eq total :
  mem_pool_init total = pool_init_with (kern_pages total) (user_pages total) (kern_bytes total)
    (user_bytes total) (u32 (0x200000 + kern_pages total * PAGE_SIZE)).
Proof.
  assert (E : PAGE_SIZE * 256 + 0x100000 = 0x200000) by reflexivity.
  unfold mem_pool_init, pool_init_with, pool_init_bitmaps. cbv zeta. rewrite !E.
  unfold kern_bytes, user_bytes, user_pages, kern_pages, free_pages. reflexivity. Qed.

(** The state before the bitmaps are cleared. *)
Record pools_assigned (kp up kb ub : Z) (m : memory) : Prop := {
  pa_kern_start : pool_start m sym_kern_pool = 0x200000;
  pa_kern_size : get32 m (sym_kern_pool + pool.pool_size) = kp * 4096;
  pa_kern_length : bm_length m (pool_bm sym_kern_pool) = kb;
  pa_kern_bits : bm_bits m (pool_bm sym_kern_pool) = MEM_BITMAP_BASE;
  pa_kern_mutex : fresh_mutex m (sym_kern_pool + pool.mutex);
  pa_user_start : pool_start m sym_user_pool = 0x200000 + kp * 4096;
  pa_user_size : get32 m (sym_user_pool + pool.pool_size) = up * 4096;
  pa_user_length : bm_length m (pool_bm sym_user_pool) = ub;
  pa_user_bits : bm_bits m (pool_bm sym_user_pool) = MEM_BITMAP_BASE + kb;
  pa_user_mutex : fresh_mutex m (sym_user_pool + pool.mutex)
}.

Lemma pools_assigned_run kp up kb ub s :
  memory_home -> 0 <= kb <= 4095 -> 0 <= ub <= 4096 -> 0 <= kp <= 32767 -> 0 <= up <= 32768 ->
  exists s', pool_init_with kp up kb ub (0x200000 + kp * 4096) s = pool_init_bitmaps kb ub s' /\
    pools_assigned kp up kb ub (mem s') /\ changed_only pool_bytes (mem s) (mem s') /\
    intr_flag s' = intr_flag s /\ Machine.esp s' = Machine.esp s /\ vars s' = vars s.
Proof.
  intros [Hk Hu Hv _ Hku Hkv Huv _ _ _] B1 B2 B3 B4. unfold apart_from, MEM_BITMAP_BASE in *.
  destruct (pool_fields_run sym_kern_pool 0x200000 (kp * PAGE_SIZE) kb MEM_BITMAP_BASE
    (log (PutLit ("  mem_pool_init start" +:+ nl)) s)) as (m1 & E1 & F1 & K1 & K2 & K3 & K4 & C1);
    [lia|moff; lia|].
  destruct (pool_fields_run sym_user_pool (0x200000 + kp * 4096) (up * PAGE_SIZE) ub
    (MEM_BITMAP_BASE + kb) (set_mem m1 (log (PutLit ("  mem_pool_init start" +:+ nl)) s)))
    as (m2 & E2 & F2 & U1 & U2 & U3 & U4 & C2); [lia|moff; lia|]. msimpl.
  rewrite u32_small in K1, K2, K3, K4, U1, U2, U3, U4
    by (change PAGE_SIZE with 4096; unfold MEM_BITMAP_BASE; lia).
  assert (Hk2 : forall w, sym_kern_pool <= w -> w + 4 <= sym_kern_pool + 44 -> get32 m2 w = get32 m1 w).
  { intros w W1 W2. apply (changed_get32 _ _ _ _ C2). moff. lia. }
  eexists. split; [|split; [|split]].
  - unfold pool_init_with. erewrite bind_ok by reflexivity. cbv beta. rewrite E1, E2. srun. reflexivity.
  - msimpl. constructor; [| | | |eapply fresh_mutex_frame; [exact C2|moff; lia|exact F1]|done..].
    + rewrite <- K1. apply Hk2; moff; lia.
    + etransitivity; [apply Hk2; moff; lia|exact K2].
    + rewrite <- K3. apply Hk2; unfold pool_bm; moff; lia.
    + etransitivity; [apply Hk2; unfold pool_bm; moff; lia|exact K4].
  - msimpl. unfold pool_bytes.
    eapply changed_trans; [eapply changed_weaken; [exact C1|intros b Hb; moff; lia]|].
    eapply changed_weaken; [exact C2|intros b Hb; moff; lia].
  - done.
Qed.

Lemma pool_init_bitmaps_run kp up kb ub s :
  memory_home -> 0 <= kb <= 4095 -> 0 <= ub <= 4096 -> pools_assigned kp up kb ub (mem s) ->
  exists s', pool_init_bitmaps kb ub s = Ok tt s' /\
    pool_made (mem s') sym_kern_pool 0x200000 (kp * 4096) kb MEM_BITMAP_BASE /\
    pool_made (mem s') sym_user_pool (0x200000 + kp * 4096) (up * 4096) ub (MEM_BITMAP_BASE + kb) /\
    kvaddr_start (mem s') = K_HEAP_START /\ bm_length (mem s') kvaddr_bm = kb /\
    bm_bits (mem s') kvaddr_bm = MEM_BITMAP_BASE + kb + ub /\
    (forall j, 0 <= j < nbits (mem s') kvaddr_bm -> bit (mem s') kvaddr_bm j = false) /\
    changed_only pool_bytes (mem s) (mem s') /\
    intr_flag s' = intr_flag s /\ Machine.esp s' = Machine.esp s /\ vars s' = vars s.
Proof.
  intros [Hk Hu Hv _ Hku Hkv Huv _ _ _] B1 B2 [K1 K2 K3 K4 F1 U1 U2 U3 U4 F2].
  unfold apart_from, MEM_BITMAP_BASE in *.
  destruct (pool_cleared_run sym_kern_pool 0x200000 (kp * 4096) kb 0xc009a000 s)
    as (m3 & E3 & P3 & C3); try done; [unfold MEM_BITMAP_BASE; lia..|].
  assert (Hu3 : forall w, sym_user_pool <= w -> w + 4 <= sym_user_pool + 44 -> get32 m3 w = get32 (mem s) w).
  { intros w W1 W2. apply (changed_get32 _ _ _ _ C3). moff. lia. }
  assert (V3 : bm_length m3 (pool_bm sym_user_pool) = ub)
    by (rewrite <- U3; apply Hu3; unfold pool_bm; moff; lia).
  destruct (pool_cleared_run sym_user_pool (0x200000 + kp * 4096) (up * 4096) ub (0xc009a000 + kb) (set_mem m3 s))
    as (m4 & E4 & P4 & C4); msimpl; [unfold MEM_BITMAP_BASE; lia..| | | | | |].
  { rewrite <- U1. apply Hu3; moff; lia. }
  { rewrite <- U2. apply Hu3; moff; lia. }
  { done. }
  { rewrite <- U4. apply Hu3; unfold pool_bm; moff; lia. }
  { eapply fresh_mutex_frame; [exact C3|moff; lia|exact F2]. }
  destruct (kern_vaddr_run kb (MEM_BITMAP_BASE + kb + ub) (set_mem m4 (set_mem m3 s)))
    as (m5 & E5 & S5 & L5 & B5' & Z5 & C5); [lia|unfold MEM_BITMAP_BASE; lia..|]. msimpl.
  unfold MEM_BITMAP_BASE in C5. eexists. split; [|split; [|split; [|split_and!]]].
  - unfold pool_init_bitmaps. erewrite bind_ok by reflexivity. cbv beta.
    fold (pool_bm sym_kern_pool). fold (bm_length (mem s) (pool_bm sym_kern_pool)). rewrite K3.
    rewrite (bind_ok _ _ _ _ _ E3). erewrite bind_ok by reflexivity. cbv beta. msimpl.
    fold (pool_bm sym_user_pool). fold (bm_length m3 (pool_bm sym_user_pool)). rewrite V3.
    rewrite (bind_ok _ _ _ _ _ E4). exact E5.
  - eapply pool_made_frame; [exact C5|intros b Hb; moff; lia|].
    eapply pool_made_frame; [exact C4| |exact P3]. intros b Hb. moff. lia.
  - eapply pool_made_frame; [exact C5| |exact P4]. intros b Hb. moff. lia.
  - exact S5.
  - exact L5.
  - exact B5'.
  - exact Z5.
  - unfold pool_bytes, bitmap_area, MEM_BITMAP_BASE. msimpl.
    eapply changed_trans; [eapply changed_weaken; [exact C3|intros b Hb; moff; lia]|].
    eapply changed_trans; [eapply changed_weaken; [exact C4|intros b Hb; moff; lia]|].
    eapply changed_weaken; [exact C5|]. intros b Hb. moff. lia.
  - done.
  - done.
  - done.
Qed.

Lemma mem_pool_init_run total s :
  memory_home ->
  exists s', mem_pool_init total s = Ok tt s' /\ pools_made total (mem s') /\
    changed_only pool_bytes (mem s) (mem s') /\
    intr_flag s' = intr_flag s /\ Machine.esp s' = Machine.esp s /\ vars s' = vars s.
Proof.
  intros Hh. destruct (bitmaps_fit total) as (B1 & B2 & B3 & B4 & _).
  destruct (pools_assigned_run (kern_pages total) (user_pages total) (kern_bytes total) (user_bytes total) s)
    as (s1 & E1 & Ha & C1 & I1 & P1 & V1); [done..|].
  destruct (pool_init_bitmaps_run _ _ _ _ s1 Hh B1 B2 Ha)
    as (s2 & E2 & H1 & H2 & H3 & H4 & H5 & H6 & C2 & I2 & P2 & V2).
  exists s2. split_and!; [| |by eapply changed_trans|congruence|congruence|congruence].
  - rewrite mem_pool_init_eq. change PAGE_SIZE with 4096. rewrite u32_small by lia. by rewrite E1.
  - by constructor.
Qed.
End Pools.

(** ** mem_block_init *)
Section Blocks.
Context {PL : Platform} {LK : Linker}.

(** The descriptors before [n] describe classes without blocks. *)
Definition classes_made (descs n : Z) (m : memory) : Prop := forall i, 0 <= i < n ->
  get32 m (descs + i * 24 + mem_block_desc.block_size) = bsize i /\
  get32 m (descs + i * 24 + mem_block_desc.blocks_cnt) = bcount i /\
  dlist m (descs + i * 24 + mem_block_desc.block_list) [].

Lemma empty_list_bytes l b : node_bytes (with_ends l []) b -> within l 16 b.
Proof.
  unfold node_bytes, with_ends. cbn [app].
  intros [Hb|[Hb|Hb%Exists_nil]%Exists_cons]%Exists_cons; [| |done];
    change list.head with 0 in *; change list.tail with 8 in *; change list_node.sizeof with 8 in *; moff; lia.
Qed.

Lemma classes_made_frame descs n m m' P :
  changed_only P m m' -> (forall b, P b -> ~ within descs (n * 24) b) ->
  classes_made descs n m -> classes_made descs n m'.
Proof.
  intros Hc HP Hm i Hi. destruct (Hm i Hi) as (H1 & H2 & H3). unfold within in *.
  unfold mem_block_desc.block_size, mem_block_desc.blocks_cnt, mem_block_desc.block_list in *.
  split_and!; [rewrite <- H1|rewrite <- H2|eapply dlist_changed_only; [exact Hc| |exact H3]].
  1,2: apply (changed_get32 _ _ _ _ Hc); intros b Hb Hx; apply (HP b Hx); lia.
  intros b Hb%empty_list_bytes Hx. apply (HP b Hx). unfold within in *. lia.
Qed.

Lemma mem_block_init_run descs s :
  0 <= descs -> descs + 168 <= 2 ^ 32 ->
  exists m', mem_block_init descs s = Ok tt (set_mem m' s) /\ classes_made descs 7 m' /\
    changed_only (within descs 168) (mem s) m'.
Proof.
  intros H0 H1. change (2 ^ 32) with 4294967296 in *.
  assert (Hw : wp (mem_block_init descs) (fun _ s' => exists m', s' = set_mem m' s /\
    classes_made descs 7 m' /\ changed_only (within descs 168) (mem s) m') s).
  { unfold mem_block_init. apply wp_for with (I := fun n s' => exists m', s' = set_mem m' s /\
      classes_made descs n m' /\ changed_only (within descs 168) (mem s) m').
    - exists (mem s). rewrite set_mem_id. split_and!; [done|intros i Hi; lia|apply changed_refl].
    - intros i s' Hi (m' & -> & Hm & Hc). change (Z.of_nat (Z.to_nat MEM_BLOCK_DESC_CNT)) with 7 in Hi.
      assert (Hcl : is_class i) by (unfold is_class; lia). pose proof (bsize_bounds i Hcl) as (Hs & Hb & _).
      assert (Es : u16 (Z.shiftl 16 i) = bsize i) by (apply u16_small; fold (bsize i); lia).
      do 4 wstep. cbv beta. rewrite Es. msimpl. fold (bcount i).
      change (i * mem_block_desc.sizeof) with (i * 24). set (d := descs + i * 24).
      set (m1 := put32 (put32 m' (d + mem_block_desc.block_size) (bsize i)) (d + mem_block_desc.blocks_cnt) (bcount i)).
      change (set_mem m1 (set_mem m' s)) with (set_mem m1 s).
      destruct (list_init_run (d + mem_block_desc.block_list) (set_mem m1 s)) as (m2 & E & Hl & Hc2);
        [hoff; lia|hoff; lia|]. msimpl.
      eapply wp_ok; [exact E|]. cbv beta. exists m2.
      assert (Hc1 : changed_only (within d 24) m' m1).
      { intros b Hx. unfold m1. rewrite !get8_put32_ne by (unfold within in *; hoff; lia). done. }
      assert (Hc12 : changed_only (within d 24) m' m2).
      { eapply changed_trans; [exact Hc1|]. eapply changed_weaken; [exact Hc2|].
        unfold within. intros b Hx. hoff. lia. }
      assert (Hk : forall w, d + 16 <= w -> w + 4 <= d + 24 -> get32 m2 w = get32 m1 w).
      { intros w W1 W2. apply (changed_get32 _ _ _ _ Hc2). hoff. lia. }
      split_and!; [done| |].
      + intros j Hj. destruct (decide (j = i)) as [->|Hne].
        * fold d. split_and!; [| |exact Hl].
          -- rewrite Hk by (hoff; lia). unfold m1. rewrite get32_put32_ne, get32_put32_eq by (hoff; lia).
             apply u32_small. lia.
          -- rewrite Hk by (hoff; lia). unfold m1. rewrite get32_put32_eq. apply u32_small. lia.
        * apply (classes_made_frame descs i m' m2 _ Hc12); [|done|lia]. unfold within. subst d. lia.
      + eapply changed_trans; [exact Hc|]. eapply changed_weaken; [exact Hc12|].
        unfold within. subst d. intros b Hx. lia.
    - intros s' (m' & -> & Hm & Hc). exists m'. done. }
  apply wp_run in Hw as ([] & s' & E & m' & -> & H). by exists m'.
Qed.
End Blocks.

(** A mutex as [mutex_init] makes it belongs to nobody. *)
Lemma fresh_mutex_state {PL : Platform} {LK : Linker} tasks idle mx a s :
  inv tasks idle a -> runs tasks idle a s -> fresh_mutex (mem s) mx ->
  mutex_state tasks idle mx a NULL 0 [] s.
Proof.
  intros Hi Hr [F1 F2 F3 F4]. constructor; [|done..]. rewrite decide_True by done.
  constructor; [done| |done|].
  - constructor; [by intros ? ?%not_elem_of_nil|constructor|apply not_elem_of_nil].
  - unfold mutex_t.sem in *. rewrite Z.add_0_r in F1, F2.
    constructor; [done|]. constructor; [done|by intros ? ?%not_elem_of_nil].
Qed.

Lemma mutex_state_fresh {PL : Platform} {LK : Linker} tasks idle mx a s :
  mutex_state tasks idle mx a NULL 0 [] s -> fresh_mutex (mem s) mx.
Proof.
  intros [[_ _ _ [H1 [H2 _]]] H3 H4 _]. rewrite decide_True in H1 by done.
  constructor; unfold mutex_t.sem; try replace (mx + 0) with mx by lia; [exact H1|exact H2|exact H3|exact H4].
Qed.

(** ** mem_init *)
Section Init.
Context {PL : Platform} {LK : Linker}.

(** A heap without arenas. *)
Definition empty_heap : heap := mkHeap (fun _ => []) [].

Lemma pools_made_frame total m m' P :
  changed_only P m m' -> (forall b, P b -> ~ pool_bytes b) -> pools_made total m -> pools_made total m'.
Proof.
  intros Hc HP [H1 H2 H3 H4 H5 H6]. destruct (bitmaps_fit total) as (B1 & B2 & _).
  assert (HP' : forall b, P b -> ~ within sym_kern_pool 44 b /\ ~ within sym_user_pool 44 b /\
    ~ within sym_kern_vaddr 12 b /\ ~ bitmap_area b).
  { intros b Hb. specialize (HP b Hb). unfold pool_bytes in HP. tauto. }
  assert (Hw : forall w, sym_kern_vaddr <= w -> w + 4 <= sym_kern_vaddr + 12 -> get32 m' w = get32 m w).
  { intros w W1 W2. apply (changed_get32 _ _ _ _ Hc). intros b Hb Hx. destruct (HP' b Hx) as (_ & _ & Hy & _).
    apply Hy. unfold within. lia. }
  assert (El : bm_length m' kvaddr_bm = kern_bytes total)
    by (rewrite <- H4; apply Hw; unfold kvaddr_bm; moff; lia).
  assert (Eb : bm_bits m' kvaddr_bm = MEM_BITMAP_BASE + kern_bytes total + user_bytes total)
    by (rewrite <- H5; apply Hw; unfold kvaddr_bm; moff; lia).
  constructor; [| | |done|done|].
  - eapply pool_made_frame; [exact Hc| |exact H1]. intros b Hb. destruct (HP' b Hb) as (Y1 & _ & _ & Y2).
    split; [done|]. intros Hx. apply Y2. unfold bitmap_area, within in *. lia.
  - eapply pool_made_frame; [exact Hc| |exact H2]. intros b Hb. destruct (HP' b Hb) as (_ & Y1 & _ & Y2).
    split; [done|]. intros Hx. apply Y2. unfold bitmap_area, within in *. lia.
  - rewrite <- H3. apply Hw; moff; lia.
  - intros j Hj. unfold nbits in Hj. rewrite El in Hj. rewrite <- (H6 j) by (unfold nbits; rewrite H4; lia).
    unfold bit. rewrite Eb, H5. f_equal. apply Hc. intros Hx. destruct (HP' _ Hx) as (_ & _ & _ & Hy).
    apply Hy. unfold bitmap_area. zlia.
Qed.

(** The pools that were made are what the page allocator works on. *)
Lemma pools_heap_ok total m :
  memory_home -> pools_made total m ->
  (forall j, 0 <= j < 8 * kern_bytes total ->
     pde_present m (K_HEAP_START + PAGE_SIZE * j) /\ unmapped m (K_HEAP_START + PAGE_SIZE * j)) ->
  heap_ok m.
Proof.
  intros [Hk _ Hv _ _ Hkv _ _ _ _] [[K1 _ K3 K4 _ _] _ V1 V2 V3 _] Ht.
  destruct (bitmaps_fit total) as (B1 & B2 & _). unfold apart_from, MEM_BITMAP_BASE in *.
  assert (En : nbits m kvaddr_bm = 8 * kern_bytes total) by (unfold nbits; by rewrite V2).
  assert (En' : nbits m (pool_bm sym_kern_pool) = 8 * kern_bytes total) by (unfold nbits; by rewrite K3).
  assert (Ep : forall j, kpage m j = K_HEAP_START + PAGE_SIZE * j) by (intros j; unfold kpage; by rewrite V1).
  constructor.
  - constructor; [constructor| | | |]; rewrite ?En', ?K4, ?K3, ?K1; try done; try lia.
    + unfold pool_bm. moff. lia.
    + unfold bits_area. rewrite K3, K4. moff. lia.
    + unfold frame. rewrite K1. change PAGE_SIZE with 4096. change (2 ^ 32) with 4294967296. lia.
  - constructor; rewrite ?En, ?V2, ?V3; [lia|]. unfold kvaddr_bm. moff. lia.
  - rewrite V1, En, Ep. unfold K_HEAP_START. change PAGE_SIZE with 4096. split_and!; [lia|done|lia].
  - unfold pool_bits, vaddr_bits, vaddr_struct, bits_area. rewrite K3, K4, V2, V3. moff. lia.
  - unfold vaddr_bits, pool_struct, vaddr_struct, bits_area. rewrite V2, V3. moff. lia.
  - moff. lia.
  - intros j Hj. rewrite Ep. apply Ht. lia.
  - intros j Hj _. rewrite Ep. apply Ht. lia.
Qed.

Lemma empty_heap_rep m : classes_made sym_km_block_descs 7 m -> heap_wf empty_heap /\ heap_rep m empty_heap.
Proof.
  intros Hm. split.
  - constructor; cbn; [by intros a i ?%not_elem_of_nil|constructor|by intros i b _ ?%not_elem_of_nil].
  - constructor; [|by intros a i ?%not_elem_of_nil]. intros i Hi.
    destruct (Hm i Hi) as (H1 & H2 & H3). by constructor.
Qed.

Lemma mem_init_run s :
  memory_home ->
  let total := get32 (mem s) 0xb00 in
  exists s', mem_init s = Ok tt s' /\ pools_made total (mem s') /\
    classes_made sym_km_block_descs 7 (mem s') /\
    changed_only (fun b => pool_bytes b \/ within sym_km_block_descs 168 b) (mem s) (mem s') /\
    intr_flag s' = intr_flag s /\ Machine.esp s' = Machine.esp s /\ vars s' = vars s.
Proof.
  intros Hh total. destruct (mem_pool_init_run total s Hh) as (s1 & E1 & H1 & C1 & I1 & P1 & V1).
  pose proof (mh_descs Hh) as Hd. unfold MEM_BITMAP_BASE in Hd.
  destruct (mem_block_init_run sym_km_block_descs s1) as (m2 & E2 & H2 & C2); [lia|lia|].
  exists (set_mem m2 s1). split_and!; [| |exact H2| |exact I1|exact P1|exact V1].
  - unfold mem_init. erewrite bind_ok by reflexivity. cbv beta. fold total.
    rewrite (bind_ok _ _ _ _ _ E1). exact E2.
  - eapply pools_made_frame; [exact C2| |exact H1]. destruct Hh as [? ? ? ? _ _ _ X1 X2 X3].
    unfold apart_from, pool_bytes, bitmap_area, MEM_BITMAP_BASE, within in *. lia.
  - eapply changed_trans; [eapply changed_weaken; [exact C1|auto]|].
    eapply changed_weaken; [exact C2|auto].
Qed.

(** The page tables of the kernel's pages are there and map nothing. *)
Definition tables_empty (total : Z) (m : memory) : Prop :=
  forall j, 0 <= j < 8 * kern_bytes total ->
    pde_present m (K_HEAP_START + PAGE_SIZE * j) /\ unmapped m (K_HEAP_START + PAGE_SIZE * j).

Lemma tables_empty_frame total m m' (P : Z -> Prop) :
  (forall v, pte_ptr_ret v = v) -> changed_only P m m' -> (forall b, P b -> b < 0xffc00000) ->
  tables_empty total m -> tables_empty total m'.
Proof.
  intros Hpte Hc HP Ht j Hj. destruct (Ht j Hj) as [H1 H2]. destruct (bitmaps_fit total) as (B1 & _).
  assert (Hw32 : forall w, 0xffc00000 <= w -> get32 m' w = get32 m w).
  { intros w W. apply (changed_get32 _ _ _ _ Hc). intros b Hb Hx. specialize (HP b Hx). lia. }
  unfold K_HEAP_START in *. change PAGE_SIZE with 4096 in *. split.
  - unfold pde_present. rewrite Hw32; [exact H1|]. pose proof (pde_window (0xc0100000 + 4096 * j)).
    change (2 ^ 32) with 4294967296 in *. lia.
  - unfold unmapped. rewrite Hw32; [exact H2|]. pose proof (pte_window Hpte (0xc0100000 + 4096 * j)). lia.
Qed.

(** C9: [mem_init] with [total] bytes of memory, as the boot loader stored them at
    0xb00. It makes two pools of free frames, the kernel's from 2 MB on and
    the user's after it, and as many free virtual kernel pages as the kernel
    has frames; the three bitmaps lie one after the other in the three pages
    below the main thread's; the descriptors have no blocks. With this the
    invariants of the page allocator and of the heap hold, provided that the
    page tables of the kernel's pages are present and empty. *)
Theorem mem_init_establishes s :
  memory_home -> (forall v, pte_ptr_ret v = v) ->
  let total := get32 (mem s) 0xb00 in
  (forall j, 0 <= j < 8 * kern_bytes total ->
     pde_present (mem s) (K_HEAP_START + PAGE_SIZE * j) /\
     unmapped (mem s) (K_HEAP_START + PAGE_SIZE * j)) ->
  exists s', mem_init s = Ok tt s' /\
    pools_made total (mem s') /\ kern_bytes total + user_bytes total + kern_bytes total <= 0x3000 /\
    heap_ok (mem s') /\ heap_wf empty_heap /\ heap_rep (mem s') empty_heap /\
    intr_flag s' = intr_flag s /\ vars s' = vars s.
Proof.
  intros Hh Hpte total Ht. destruct (mem_init_run s Hh) as (s' & E & Hp & Hc & C & I & _ & V).
  fold total in Hp. destruct (empty_heap_rep _ Hc) as [Hw Hr].
  destruct (bitmaps_fit total) as (B1 & B2 & _).
  exists s'. split_and!; [done|done|lia| |done|done|done|done].
  apply (pools_heap_ok total); [done|done|].
  apply (tables_empty_frame total (mem s) _ _ Hpte C); [|exact Ht]. intros b Hb.
  destruct Hh as [A1 A2 A3 A4 _ _ _ _ _ _]. unfold pool_bytes, bitmap_area, MEM_BITMAP_BASE, within in *. lia.
Qed.
End Init.

(** ** A concrete instance *)

Lemma demo_memory_home : memory_home.
Proof. constructor; unfold apart_from; vm_compute; intuition congruence. Qed.

(** 32 MB of memory: 7680 free pages. The page tables of the kernel's upper
    quarter are present and their entries are 0. *)
Definition demo_boot_mem : memory :=
  foldl (fun m i => put32 m (0xfffffc00 + 4 * i) 0x101007) (put32 ∅ 0xb00 0x2000000) (seqZ 0 4).

Lemma demo_boot_tables j : 0 <= j < 3840 ->
  pde_present demo_boot_mem (K_HEAP_START + PAGE_SIZE * j) /\ unmapped demo_boot_mem (K_HEAP_START + PAGE_SIZE * j).
Proof.
  intros Hj. change K_HEAP_START with 0xc0100000. change PAGE_SIZE with 4096. split.
  - unfold pde_present. rewrite pde_ptr_div by (change (2 ^ 32) with 4294967296; lia).
    change (2 ^ 22) with 4194304. set (k := (0xc0100000 + 4096 * j) / 4194304).
    assert (Hk : k = 0x300 \/ k = 0x301 \/ k = 0x302 \/ k = 0x303) by (subst k; zlia).
    destruct Hk as [->|[->|[->| ->]]]; reflexivity.
  - unfold unmapped. rewrite (pte_ptr_page (PL := demo_platform) (fun v => eq_refl)) by (change (2 ^ 32) with 4294967296; lia).
    replace ((0xc0100000 + 4096 * j) / 4096) with (0xc0100 + j) by zlia.
    unfold demo_boot_mem. change (seqZ 0 4) with [0; 1; 2; 3]. cbn [foldl].
    rewrite !get32_put32_ne by lia. reflexivity.
Qed.

Lemma mem_init_establishes_witness :
  kern_bytes 0x2000000 = 480 /\
  exists s', mem_init (demo_machine demo_boot_mem) = Ok tt s' /\
    pools_made 0x2000000 (mem s') /\ heap_ok (mem s') /\ heap_rep (mem s') empty_heap.
Proof.
  split; [vm_compute; done|].
  assert (E0 : get32 (mem (demo_machine demo_boot_mem)) 0xb00 = 0x2000000) by (vm_compute; done).
  destruct (mem_init_establishes (PL := demo_platform) (demo_machine demo_boot_mem) demo_memory_home (fun v => eq_refl))
    as (s' & E & H1 & _ & H2 & _ & H3 & _).
  - rewrite E0. exact demo_boot_tables.
  - rewrite E0 in H1. exists s'. split_and!; [exact E|exact H1|exact H2|exact H3].
Defined.
