(* ===== verification/Idt.v ===== *)
(** * The interrupt descriptor table (kernel/interrupt.c)

    Gate descriptors, the table of handlers the entry stubs call, the names
    printed by the default handler and the programming of the two interrupt
    controllers. *)

From S2P Require Import Prelude Machine Concrete Interrupt CString DList Tss.

#[local] Open Scope Z_scope.

Definition IDT_DESC_CNT : Z := 0x81.
Definition PIC_M_CTRL : Z := 0x20.
Definition PIC_M_DATA : Z := 0x21.
Definition PIC_S_CTRL : Z := 0xa0.
Definition PIC_S_DATA : Z := 0xa1.

Definition IDT_DESC_ATTR_DPL0 : Z := Z.shiftl 1 7 + Z.shiftl 0 5 + 0xe.
Definition IDT_DESC_ATTR_DPL3 : Z := Z.shiftl 1 7 + Z.shiftl 3 5 + 0xe.

Module gate_desc.
Definition func_offset_low_word : Z := 0.
Definition selector : Z := 2.
Definition dcount : Z := 4.
Definition attribute : Z := 5.
Definition func_offset_high_word : Z := 6.
Definition sizeof : Z := 8.
End gate_desc.

(** The strings assigned to [intr_name] one by one. *)
Definition exception_names : list string := [
  "#DE Divide Error"; "#DB Debug"; "/   NMI Interrupt"; "#BP Breakpoint"; "#OF Overflow";
  "#BR BOUND Range Exceeded"; "#UD Invalid Opcode(UnDefined Opcode)";
  "#NM Device Not Available(No Math Coprocessor)"; "#DF Double Fault";
  "#MF CoProcessor Segment Overrun(reserved)"; "#TS Invalid TSS"; "#NP Segment Not Present";
  "#SS Stack Segment Fault"; "#GP General Protection"; "#PF Page Fault"; "    Reserved";
  "#MF Floating-Point Error(MathFault)"; "#AC Alignment Check"; "#MC Machine Check";
  "#XM SIMD Floating-Point Exception"; "time interrupt"; "keyboard interrupt" ].

Section Idt.
Context {PL : Platform} {LK : Linker}.

Definition make_idt_desc (gdesc_ptr attr function : Z) : K unit :=
  st16 (gdesc_ptr + gate_desc.func_offset_low_word) (Z.land function 0x0000ffff);;
  st16 (gdesc_ptr + gate_desc.selector) SELECTOR_K_CODE;;
  st8 (gdesc_ptr + gate_desc.dcount) 0;;
  st8 (gdesc_ptr + gate_desc.attribute) attr;;
  st16 (gdesc_ptr + gate_desc.func_offset_high_word) (Z.land (Z.shiftr function 16) 0x0000ffff).

Definition idt_desc_init : K unit :=
  for_ 0 (Z.to_nat IDT_DESC_CNT) (fun i =>
    entry ← ld32 (sym_intr_entry_table + 4 * i);
    make_idt_desc (sym_idt + gate_desc.sizeof * i) IDT_DESC_ATTR_DPL0 entry);;
  make_idt_desc (sym_idt + gate_desc.sizeof * 0x80) IDT_DESC_ATTR_DPL3 fn_syscall_handler.

Definition pic_init : K unit :=
  outb PIC_M_CTRL 0x11;;
  outb PIC_M_DATA 0x20;;
  outb PIC_M_DATA 0x04;;
  outb PIC_M_DATA 0x01;;
  outb PIC_S_CTRL 0x11;;
  outb PIC_S_DATA 0x28;;
  outb PIC_S_DATA 0x02;;
  outb PIC_S_DATA 0x01;;
  outb PIC_M_DATA 0xf8;;
  outb PIC_S_DATA 0xbf.

Definition default_intr_hanlder (intr_vec_num : Z) : K unit :=
  if (intr_vec_num =? 0x27) || (intr_vec_num =? 0x2f) then skip
  else
    set_cursor 0;;
    for_ 0 (5 * 80) (fun _ => put_char 32);;
    set_cursor 0;;
    put_lit ("########INTERRUPT########" +:+ nl);;
    put_lit "        ";;
    put_char 91;;
    put_lit "0x";;
    put_int intr_vec_num;;
    put_char 93;;
    name ← ld32 (sym_intr_name + 4 * intr_vec_num);
    put_str name;;
    put_char 10;;
    when (intr_vec_num =? 0xe) (
      pf_addr ← gets (fun s => fault_addr (trace s));
      put_lit "the address of page fault: 0x";;
      put_int pf_addr;;
      put_char 10);;
    put_lit ("#########################" +:+ nl).

Definition exception_init : K unit :=
  for_ 0 (Z.to_nat IDT_DESC_CNT) (fun i =>
    st32 (sym_idt_table + 4 * i) fn_default_intr_hanlder;;
    st32 (sym_intr_name + 4 * i) (str_lit "unkown"));;
  for_ 0 (length exception_names) (fun i =>
    st32 (sym_intr_name + 4 * i) (str_lit (nth (Z.to_nat i) exception_names EmptyString))).

(** The operand of [lidt]: the limit in the low 16 bits, the address above. *)
Definition idt_init : K unit :=
  idt_desc_init;;
  exception_init;;
  pic_init;;
  emit (Lidt (Z.lor (gate_desc.sizeof * IDT_DESC_CNT - 1) (Z.shiftl sym_idt 16))).

Definition intr_set_handler (vec_no handler : Z) : K unit :=
  st32 (sym_idt_table + 4 * vec_no) handler.
End Idt.

(** ** What the tables hold after initialisation *)

Record gate := mkGate { g_offset : Z; g_selector : Z; g_attribute : Z }.

(** The gate descriptor at [a], as the processor reads it. *)
Definition gate_at (m : memory) (a : Z) : gate :=
  mkGate (get16 m (a + gate_desc.func_offset_low_word) + 65536 * get16 m (a + gate_desc.func_offset_high_word))
    (get16 m (a + gate_desc.selector)) (get8 m (a + gate_desc.attribute)).

Definition put_gate (m : memory) (a attr function : Z) : memory :=
  put16 (put8 (put8 (put16 (put16 m (a + 0) (Z.land function 0xffff)) (a + 2) SELECTOR_K_CODE)
    (a + 4) 0) (a + 5) attr) (a + 6) (Z.land (Z.shiftr function 16) 0xffff).

Lemma get16_put16_ne m a v b : a + 2 <= b \/ b + 2 <= a -> get16 (put16 m a v) b = get16 m b.
Proof. intros. apply get16_ext. intros. apply get8_put16_ne. lia. Qed.
Lemma get16_put8_ne m a v b : a < b \/ b + 2 <= a -> get16 (put8 m a v) b = get16 m b.
Proof. intros. apply get16_ext. intros. apply get8_put8_ne. lia. Qed.

Lemma gate_at_put m a attr f :
  0 <= attr < 256 -> gate_at (put_gate m a attr f) a = mkGate (u32 f) SELECTOR_K_CODE attr.
Proof.
  intros Ha. unfold gate_at, put_gate, gate_desc.func_offset_low_word, gate_desc.func_offset_high_word,
    gate_desc.selector, gate_desc.attribute.
  repeat first [rewrite get16_put16_eq | rewrite get8_put8_eq
    | rewrite get16_put16_ne by lia | rewrite get16_put8_ne by lia | rewrite get8_put16_ne by lia].
  change 0xffff with (2 ^ 16 - 1). rewrite !land_low by lia. rewrite Z.shiftr_div_pow2 by lia.
  f_equal; [|by apply u8_small]. change (2 ^ 16) with 65536. zlia.
Qed.

Lemma gate_at_ext m m' a :
  (forall b, a <= b < a + 8 -> get8 m' b = get8 m b) -> gate_at m' a = gate_at m a.
Proof.
  intros H. unfold gate_at, gate_desc.func_offset_low_word, gate_desc.func_offset_high_word,
    gate_desc.selector, gate_desc.attribute.
  rewrite !(get16_ext m m'), H by first [lia | intros; apply H; lia]. done.
Qed.

Lemma put_gate_frame m a attr f b : ~ (a <= b < a + 8) -> get8 (put_gate m a attr f) b = get8 m b.
Proof.
  intros Hb. unfold put_gate.
  repeat first [rewrite get8_put16_ne by lia | rewrite get8_put8_ne by lia]. done.
Qed.

Lemma attr_range : 0 <= IDT_DESC_ATTR_DPL0 < 256 /\ 0 <= IDT_DESC_ATTR_DPL3 < 256.
Proof. repeat split; vm_compute; congruence. Qed.

Section Tables.
Context {PL : Platform} {LK : Linker}.

Definition table_bytes (sym size b : Z) : Prop := sym <= b < sym + size * IDT_DESC_CNT.

(** The tables do not overlap. *)
Record idt_layout : Prop := {
  il_entry : forall b, table_bytes sym_idt 8 b -> ~ table_bytes sym_intr_entry_table 4 b;
  il_table : forall b, table_bytes sym_idt 8 b -> ~ table_bytes sym_idt_table 4 b;
  il_name : forall b, table_bytes sym_idt 8 b -> ~ table_bytes sym_intr_name 4 b;
  il_tables : forall b, table_bytes sym_idt_table 4 b -> ~ table_bytes sym_intr_name 4 b
}.
Context (Hl : idt_layout).

Lemma make_idt_desc_run a attr f s :
  make_idt_desc a attr f s = Ok tt (set_mem (put_gate (mem s) a attr f) s).
Proof. unfold make_idt_desc. srun. reflexivity. Qed.

Definition gates (m m0 : memory) (n : Z) : Prop := forall i, 0 <= i < n ->
  gate_at m (sym_idt + 8 * i)
    = mkGate (get32 m0 (sym_intr_entry_table + 4 * i)) SELECTOR_K_CODE IDT_DESC_ATTR_DPL0.

Lemma idt_loop s :
  wp (for_ 0 (Z.to_nat IDT_DESC_CNT) (fun i =>
      entry ← ld32 (sym_intr_entry_table + 4 * i);
      make_idt_desc (sym_idt + gate_desc.sizeof * i) IDT_DESC_ATTR_DPL0 entry))
    (fun _ s' => exists m, s' = set_mem m s /\ gates m (mem s) IDT_DESC_CNT /\
      changed_only (table_bytes sym_idt 8) (mem s) m) s.
Proof.
  apply wp_for with (I := fun i s' => exists m, s' = set_mem m s /\ gates m (mem s) i /\
    changed_only (table_bytes sym_idt 8) (mem s) m).
  - exists (mem s). rewrite set_mem_id. split_and!; [done| |done]. intros i Hi. lia.
  - intros i s' Hi (m & -> & Hg & Hf). change (Z.of_nat (Z.to_nat IDT_DESC_CNT)) with IDT_DESC_CNT in Hi.
    wsteps. eapply wp_ok; [apply make_idt_desc_run|]. msimpl. unfold gate_desc.sizeof.
    assert (He : get32 m (sym_intr_entry_table + 4 * i) = get32 (mem s) (sym_intr_entry_table + 4 * i)).
    { apply get32_ext. intros b Hb. apply Hf. intros Ht. apply (il_entry Hl b Ht).
      unfold table_bytes, IDT_DESC_CNT in *. lia. }
    eexists. split_and!; [reflexivity| |].
    + intros j Hj. destruct (decide (j = i)) as [->|Hne].
      * rewrite gate_at_put by apply attr_range. rewrite He, u32_small; [done|]. pose proof (get32_range (mem s) (sym_intr_entry_table + 4 * i)). done.
      * rewrite (gate_at_ext m); [apply Hg; lia|]. intros b Hb. apply put_gate_frame. lia.
    + intros b Hb. rewrite put_gate_frame; [by apply Hf|]. unfold table_bytes, IDT_DESC_CNT in *. lia.
  - intros s' (m & -> & Hg & Hf). by exists m.
Qed.

(** The handler table and the names. *)
Definition handler_names (m : memory) (n k : Z) : Prop := forall i, 0 <= i < n ->
  get32 m (sym_idt_table + 4 * i) = u32 fn_default_intr_hanlder /\
  get32 m (sym_intr_name + 4 * i)
    = u32 (str_lit (if i <? k then nth (Z.to_nat i) exception_names EmptyString else "unkown")).

Definition exception_bytes (b : Z) : Prop := table_bytes sym_idt_table 4 b \/ table_bytes sym_intr_name 4 b.

Lemma table_entry sym i b :
  0 <= i < IDT_DESC_CNT -> sym + 4 * i <= b < sym + 4 * i + 4 -> table_bytes sym 4 b.
Proof. unfold table_bytes, IDT_DESC_CNT. lia. Qed.

(** Entries of the two tables do not meet. *)
Lemma tables_apart i j : 0 <= i < IDT_DESC_CNT -> 0 <= j < IDT_DESC_CNT ->
  sym_idt_table + 4 * i + 4 <= sym_intr_name + 4 * j \/ sym_intr_name + 4 * j + 4 <= sym_idt_table + 4 * i.
Proof.
  intros Hi Hj.
  destruct (decide (sym_idt_table + 4 * i + 4 <= sym_intr_name + 4 * j)) as [|H1]; [by left|].
  destruct (decide (sym_intr_name + 4 * j + 4 <= sym_idt_table + 4 * i)) as [|H2]; [by right|].
  exfalso. apply (il_tables Hl (Z.max (sym_idt_table + 4 * i) (sym_intr_name + 4 * j)));
    unfold table_bytes, IDT_DESC_CNT in *; lia.
Qed.

Lemma exception_defaults s :
  wp (for_ 0 (Z.to_nat IDT_DESC_CNT) (fun i =>
      st32 (sym_idt_table + 4 * i) fn_default_intr_hanlder;;
      st32 (sym_intr_name + 4 * i) (str_lit "unkown")))
    (fun _ s' => exists m, s' = set_mem m s /\ handler_names m IDT_DESC_CNT 0 /\
      changed_only exception_bytes (mem s) m) s.
Proof.
  apply wp_for with (I := fun i s' => exists m, s' = set_mem m s /\ handler_names m i 0 /\
    changed_only exception_bytes (mem s) m).
  - exists (mem s). rewrite set_mem_id. split_and!; [done| |done]. intros i Hi. lia.
  - intros i s' Hi (m & -> & Hh & Hc). change (Z.of_nat (Z.to_nat IDT_DESC_CNT)) with IDT_DESC_CNT in Hi.
    wsteps. eexists. split_and!; [reflexivity| |].
    + intros j Hj. pose proof (tables_apart j i ltac:(lia) ltac:(lia)) as H1.
      pose proof (tables_apart i j ltac:(lia) ltac:(lia)) as H2.
      rewrite (proj2 (Z.ltb_ge j 0)) by lia. destruct (decide (j = i)) as [->|Hne].
      * split; mem_simpl; done.
      * rewrite !get32_put32_ne by lia. specialize (Hh j ltac:(lia)).
        by rewrite (proj2 (Z.ltb_ge j 0)) in Hh by lia.
    + eapply changed_trans; [eapply changed_trans; [exact Hc|]|]; apply changed_put32; intros b Hb;
        [left|right]; eapply table_entry; try exact Hb; lia.
  - intros s' (m & -> & Hh & Hc). by exists m.
Qed.

Lemma exception_init_run s :
  wp exception_init (fun _ s' => exists m, s' = set_mem m s /\ handler_names m IDT_DESC_CNT 22 /\
    changed_only exception_bytes (mem s) m) s.
Proof.
  unfold exception_init. apply wp_bind. eapply wp_mono; [apply exception_defaults|].
  intros _ s1 (m1 & -> & Hh1 & Hc1). cbv beta.
  apply wp_for with (I := fun i s' => exists m, s' = set_mem m s /\ handler_names m IDT_DESC_CNT i /\
    changed_only exception_bytes (mem s) m).
  - by exists m1.
  - intros i s' Hi (m & -> & Hh & Hc). change (0 + Z.of_nat (length exception_names)) with 22 in Hi.
    wsteps. eexists. split_and!; [reflexivity| |].
    + intros j Hj. pose proof (tables_apart j i Hj ltac:(unfold IDT_DESC_CNT; lia)) as H1.
      specialize (Hh j Hj). destruct (decide (j = i)) as [->|Hne].
      * rewrite get32_put32_ne by lia. rewrite get32_put32_eq, (proj2 (Z.ltb_lt i (i + 1))) by lia.
        by split; [apply Hh|].
      * rewrite !get32_put32_ne by lia. replace (j <? i + 1) with (j <? i); [done|].
        destruct (Z.ltb_spec j i), (Z.ltb_spec j (i + 1)); lia || done.
    + eapply changed_trans; [exact Hc|]. apply changed_put32. intros b Hb. right.
      eapply table_entry; [|exact Hb]. unfold IDT_DESC_CNT. lia.
  - intros s' (m & -> & Hh & Hc). change (0 + Z.of_nat (length exception_names)) with 22 in Hh. by exists m.
Qed.

Definition pic_events : list event :=
  [OutB PIC_M_CTRL 0x11; OutB PIC_M_DATA 0x20; OutB PIC_M_DATA 0x04; OutB PIC_M_DATA 0x01;
   OutB PIC_S_CTRL 0x11; OutB PIC_S_DATA 0x28; OutB PIC_S_DATA 0x02; OutB PIC_S_DATA 0x01;
   OutB PIC_M_DATA 0xf8; OutB PIC_S_DATA 0xbf].

Lemma exception_gate m m' i :
  0 <= i < IDT_DESC_CNT -> changed_only exception_bytes m m' ->
  gate_at m' (sym_idt + 8 * i) = gate_at m (sym_idt + 8 * i).
Proof.
  intros Hi Hc. apply gate_at_ext. intros b Hb. apply Hc.
  assert (Ht : table_bytes sym_idt 8 b) by (unfold table_bytes; lia).
  intros [H|H]; [by apply (il_table Hl b)|by apply (il_name Hl b)].
Qed.

Definition idt_bytes (b : Z) : Prop := table_bytes sym_idt 8 b \/ exception_bytes b.

Lemma idt_run s :
  wp idt_init (fun _ s' =>
    (forall i, 0 <= i < IDT_DESC_CNT -> gate_at (mem s') (sym_idt + 8 * i) =
       if i =? 0x80 then mkGate (u32 fn_syscall_handler) SELECTOR_K_CODE IDT_DESC_ATTR_DPL3
       else mkGate (get32 (mem s) (sym_intr_entry_table + 4 * i)) SELECTOR_K_CODE IDT_DESC_ATTR_DPL0) /\
    handler_names (mem s') IDT_DESC_CNT 22 /\
    trace s' = trace s ++ pic_events ++ [Lidt (Z.lor (8 * IDT_DESC_CNT - 1) (Z.shiftl sym_idt 16))] /\
    changed_only idt_bytes (mem s) (mem s') /\
    esp s' = esp s /\ intr_flag s' = intr_flag s /\ vars s' = vars s) s.
Proof.
  unfold idt_init, idt_desc_init. apply wp_bind, wp_bind. eapply wp_mono; [apply idt_loop|].
  intros _ s1 (m1 & -> & Hg & Hc1). cbv beta. eapply wp_ok; [apply make_idt_desc_run|].
  apply wp_bind. eapply wp_mono; [apply exception_init_run|]. intros _ s2 (m2 & -> & Hh & Hc2). msimpl.
  unfold pic_init. apply wp_bind. wsteps. split_and!; [|done|by rewrite <- !app_assoc| |done..]; cycle 1.
  { eapply changed_trans; [eapply changed_weaken; [exact Hc1|by left]|].
    eapply changed_trans; [|eapply changed_weaken; [exact Hc2|by right]].
    intros b Hb. apply put_gate_frame. intros Hx. apply Hb. left. unfold table_bytes, IDT_DESC_CNT, gate_desc.sizeof in *. lia. }
  intros i Hi. rewrite (exception_gate _ _ _ Hi Hc2). destruct (Z.eqb_spec i 0x80) as [->|Hne].
  - apply gate_at_put, attr_range.
  - rewrite <- (Hg i Hi). apply gate_at_ext. intros b Hb. apply put_gate_frame.
    unfold gate_desc.sizeof. lia.
Qed.
End Tables.

(** After [idt_init] every vector leads, through a ring-0 interrupt gate, to
    its entry stub, except vector 0x80, whose gate is open to ring 3 and leads
    to the system-call handler; every vector has the default handler; the names
    are at the indices 0 to 21, so that "time interrupt" is at 20, not 0x20;
    both controllers are programmed and the table is loaded. *)
Theorem idt_init_installs {PL : Platform} {LK : Linker} s :
  idt_layout ->
  exists s', idt_init s = Ok tt s' /\
    (forall i, 0 <= i < IDT_DESC_CNT -> gate_at (mem s') (sym_idt + 8 * i) =
       if i =? 0x80 then mkGate (u32 fn_syscall_handler) SELECTOR_K_CODE IDT_DESC_ATTR_DPL3
       else mkGate (get32 (mem s) (sym_intr_entry_table + 4 * i)) SELECTOR_K_CODE IDT_DESC_ATTR_DPL0) /\
    handler_names (mem s') IDT_DESC_CNT 22 /\ nth 20 exception_names EmptyString = "time interrupt"%string /\
    trace s' = trace s ++ pic_events ++ [Lidt (Z.lor (8 * IDT_DESC_CNT - 1) (Z.shiftl sym_idt 16))].
Proof.
  intros Hl. destruct (proj1 (wp_run _ _ _) (idt_run Hl s)) as ([] & s' & E & H1 & H2 & H3 & _).
  exists s'. by split_and!.
Qed.

(** ** A concrete instance *)

Lemma demo_idt_layout : idt_layout.
Proof.
  constructor; unfold table_bytes, IDT_DESC_CNT;
    cbn [sym_idt sym_intr_entry_table sym_idt_table sym_intr_name demo_linker]; lia.
Qed.

Lemma idt_init_installs_witness :
  exists s', idt_init (demo_machine ∅) = Ok tt s' /\
    (forall i, 0 <= i < IDT_DESC_CNT -> gate_at (mem s') (sym_idt + 8 * i) =
       if i =? 0x80 then mkGate (u32 fn_syscall_handler) SELECTOR_K_CODE IDT_DESC_ATTR_DPL3
       else mkGate (get32 ∅ (sym_intr_entry_table + 4 * i)) SELECTOR_K_CODE IDT_DESC_ATTR_DPL0) /\
    handler_names (mem s') IDT_DESC_CNT 22 /\ nth 20 exception_names EmptyString = "time interrupt"%string /\
    trace s' = [] ++ pic_events ++ [Lidt (Z.lor (8 * IDT_DESC_CNT - 1) (Z.shiftl sym_idt 16))].
Proof. apply (idt_init_installs (demo_machine ∅)), demo_idt_layout. Defined.
