(* ===== verification/Thread.v ===== *)
(** * Creation of threads (thread/thread.c)

    Identifiers, task structures, the initial kernel stack of a thread, the
    main and the idle thread. *)

From S2P Require Import Prelude Machine Concrete Interrupt CString Bitmap DList Paging Tss Sched Lock Memory.

#[local] Open Scope Z_scope.

Definition DEFAULT_THREAD_PRIO : Z := 32.
Definition STACK_MAGIC : Z := 0x19980312.

Module intr_stack.
Definition vec_no : Z := 0.
Definition edi : Z := 4.
Definition esi : Z := 8.
Definition ebp : Z := 12.
Definition esp_dummy : Z := 16.
Definition ebx : Z := 20.
Definition edx : Z := 24.
Definition ecx : Z := 28.
Definition eax : Z := 32.
Definition gs : Z := 36.
Definition fs : Z := 40.
Definition es : Z := 44.
Definition ds : Z := 48.
Definition error_code : Z := 52.
Definition eip : Z := 56.
Definition cs : Z := 60.
Definition eflags : Z := 64.
Definition esp : Z := 68.
Definition ss : Z := 72.
Definition sizeof : Z := 76.
End intr_stack.

Module thread_stack.
Definition ebp : Z := 0.
Definition ebx : Z := 4.
Definition edi : Z := 8.
Definition esi : Z := 12.
Definition eip : Z := 16.
Definition retaddr : Z := 20.
Definition func : Z := 24.
Definition func_arg : Z := 28.
Definition sizeof : Z := 32.
End thread_stack.

Section Thread.
Context {PL : Platform} {LK : Linker}.

Definition allocate_pid : K Z :=
  mutex_lock sym_pid_lock;;
  n ← getv next_pid;
  ASSERT (negb (n =? 0xffff)) "thread/thread.c" 22 "allocate_pid" "next_pid != 0xffff";;
  pid ← getv next_pid;
  n ← getv next_pid;
  setv (set_next_pid (u16 (n + 1)));;
  mutex_unlock sym_pid_lock;;
  mret pid.

(** [func] is the code at the function pointer. *)
Definition kthread (func : Z -> K unit) (arg : Z) : K unit :=
  intr_enable;;
  func arg.

Definition fd_table_init (thread : Z) : K unit :=
  st32 (thread + task_struct.fd_table + 4 * 0) 0;;
  st32 (thread + task_struct.fd_table + 4 * 1) 1;;
  st32 (thread + task_struct.fd_table + 4 * 2) 2;;
  for_ 3 (Z.to_nat (FD_MAX - 3)) (fun i =>
    st32 (thread + task_struct.fd_table + 4 * i) (-1)).

(** [sizeof(thread->kstack)] is the size of a pointer. *)
Definition task_struct_init (thread name prio : Z) : K unit :=
  ASSERT (negb (thread =? NULL)) "thread/thread.c" 72 "task_struct_init" "thread != NULL";;
  memset thread 0 4;;
  strcpy (thread + task_struct.name) name;;
  main ← getv main_thread;
  st32 (thread + task_struct.status) (status_code (if thread =? main then RUNNING else READY));;
  st8 (thread + task_struct.priority) prio;;
  pid ← allocate_pid;
  st16 (thread + task_struct.pid) pid;;
  st32 (thread + task_struct.ava_time) prio;;
  st32 (thread + task_struct.elapsed_time) 0;;
  st32 (thread + task_struct.page_dir) NULL;;
  st32 (thread + task_struct.stack_magic_num) STACK_MAGIC;;
  st32 (thread + task_struct.kstack) (u32 (thread + Z.shiftl 1 12)).

(** [kstack] points to 32-bit words: the subtractions are scaled by 4. *)
Definition thread_create (thread func func_args : Z) : K unit :=
  k ← ld32 (thread + task_struct.kstack);
  st32 (thread + task_struct.kstack) (u32 (k - 4 * intr_stack.sizeof));;
  k ← ld32 (thread + task_struct.kstack);
  st32 (thread + task_struct.kstack) (u32 (k - 4 * thread_stack.sizeof));;
  kthread_stack ← ld32 (thread + task_struct.kstack);
  st32 (kthread_stack + thread_stack.ebp) 0;;
  st32 (kthread_stack + thread_stack.ebx) 0;;
  st32 (kthread_stack + thread_stack.edi) 0;;
  st32 (kthread_stack + thread_stack.esi) 0;;
  st32 (kthread_stack + thread_stack.eip) fn_kthread;;
  st32 (kthread_stack + thread_stack.retaddr) 0;;
  st32 (kthread_stack + thread_stack.func) func;;
  st32 (kthread_stack + thread_stack.func_arg) func_args.

Definition thread_start (name prio func func_arg : Z) : K Z :=
  thread ← get_kern_pages 1;
  task_struct_init thread name prio;;
  thread_create thread func func_arg;;
  ex ← list_exist sym_ready_thread_list (thread + task_struct.gene_list_tag);
  ASSERT (negb ex) "thread/thread.c" 117 "thread_start"
    "list_exist(&ready_thread_list, &thread->gene_list_tag) == false";;
  ex ← list_exist sym_all_thread_list (thread + task_struct.all_list_tag);
  ASSERT (negb ex) "thread/thread.c" 118 "thread_start"
    "list_exist(&all_thread_list, &thread->all_list_tag) == false";;
  list_push_back sym_ready_thread_list (thread + task_struct.gene_list_tag);;
  list_push_back sym_all_thread_list (thread + task_struct.all_list_tag);;
  mret thread.

Definition make_main_thread : K unit :=
  t ← running_thread;
  setv (set_main_thread t);;
  main ← getv main_thread;
  task_struct_init main (str_lit "main thread") DEFAULT_THREAD_PRIO;;
  ex ← list_exist sym_all_thread_list (main + task_struct.all_list_tag);
  ASSERT (negb ex) "thread/thread.c" 41 "make_main_thread"
    "list_exist(&all_thread_list, &main_thread->all_list_tag) == false";;
  list_push_back sym_all_thread_list (main + task_struct.all_list_tag).

(** The loop of the idle thread never ends. *)
Definition idle (args : Z) : K unit :=
  while_ (fun _ : unit =>
    thread_block BLOCKED;;
    modify (set_intr_flag true);;
    emit StiHlt;;
    mret (inl tt)) tt.

Definition thread_init : K unit :=
  mutex_init sym_pid_lock;;
  list_init sym_ready_thread_list;;
  list_init sym_all_thread_list;;
  make_main_thread;;
  t ← thread_start (str_lit "idle") 10 fn_idle NULL;
  setv (set_idle_thread t).
End Thread.
