(* ===== verification/Spawn.v ===== *)
(** * Starting a thread (thread/thread.c: thread_start)

    The composition of the page allocator, the lock of the process ids, the
    string functions and the two lists of threads: a new task is added to the
    state of the scheduler. *)

From S2P Require Import Prelude Machine Concrete Interrupt CString Bitmap DList Paging Tss Sched Lock Memory Malloc Heap HeapGrow PageFree HeapLarge KernPages MemInit Thread.

#[local] Open Scope Z_scope.

(** Two stretches of bytes without a common byte. *)
Lemma stretches_apart a n b k :
  0 < n -> 0 < k -> (forall x, b <= x < b + k -> ~ (a <= x < a + n)) -> a + n <= b \/ b + k <= a.
Proof. intros Hn Hk H. specialize (H (Z.max a b)). lia. Qed.

(** ** The list of all threads *)
Definition atag {PL : Platform} (t : Z) : Z := t + task_struct.all_list_tag.

Record all_list {PL : Platform} {LK : Linker} (tasks : list Z) (m : memory) (al : list Z) : Prop := {
  al_list : dlist m sym_all_thread_list (map atag al);
  al_sub : forall t, t ∈ al -> t ∈ tasks
}.

(** ** The new task *)

(** The stack pointer of a new thread: below the top of its page by the size
    of both structures, four times over. *)
Definition new_kstack (base : Z) : Z := base + 4096 - 4 * intr_stack.sizeof - 4 * thread_stack.sizeof.

Definition new_tcb (prio base : Z) : tcb := mkTcb (new_kstack base) READY prio prio 0 NULL.

(** The scheduler with a new ready task, last in the queue. *)
Definition abs_add (c : tcb) (base : Z) (a : sched) : sched :=
  mkSched (s_esp a) (s_ready a ++ [base]) (fun t => if decide (t = base) then c else s_tcb a t).

Definition abs_start (prio base : Z) (a : sched) : sched := abs_add (new_tcb prio base) base a.

(** The stack [switch_to] finds when it first switches to the thread: four
    registers, the return to [kthread], and the arguments of [kthread]. *)
Record first_frame {LK : Linker} (m : memory) (k func arg : Z) : Prop := {
  ff_ebp : get32 m (k + thread_stack.ebp) = 0;
  ff_ebx : get32 m (k + thread_stack.ebx) = 0;
  ff_edi : get32 m (k + thread_stack.edi) = 0;
  ff_esi : get32 m (k + thread_stack.esi) = 0;
  ff_eip : get32 m (k + thread_stack.eip) = u32 fn_kthread;
  ff_func : get32 m (k + thread_stack.func) = u32 func;
  ff_arg : get32 m (k + thread_stack.func_arg) = u32 arg
}.

Ltac spoff :=
  unfold new_kstack, atag, tag, page_bytes, intr_stack.sizeof, thread_stack.sizeof, thread_stack.ebp,
    thread_stack.ebx, thread_stack.edi, thread_stack.esi, thread_stack.eip, thread_stack.retaddr,
    thread_stack.func, thread_stack.func_arg in *; offsets.

Section Spawn.
Context {PL : Platform} {LK : Linker} (tasks : list Z) (idle : Z).

(** The data of the scheduler and of the lock. *)
Definition sched_data (b : Z) : Prop :=
  sym_pid_lock <= b < sym_pid_lock + mutex_t.sizeof \/
  sym_ready_thread_list <= b < sym_ready_thread_list + list.sizeof \/
  sym_tss <= b < sym_tss + tss_t.sizeof \/
  Exists (fun t => t <= b < t + 4096) tasks.
Definition all_header (b : Z) : Prop := sym_all_thread_list <= b < sym_all_thread_list + list.sizeof.
Definition kernel_data (b : Z) : Prop := all_header b \/ sched_data b.

Record spawn_ok (a : sched) (al : list Z) (s : machine) : Prop := {
  sp_lay : layout tasks;
  sp_home : mutex_home tasks sym_pid_lock;
  sp_mutex : mutex_state tasks idle sym_pid_lock a NULL 0 [] s;
  sp_all : all_list tasks (mem s) al;
  sp_all_range : 0 <= sym_all_thread_list /\ sym_all_thread_list + list.sizeof <= 2 ^ 32;
  sp_all_apart : forall b, all_header b -> ~ sched_data b;
  sp_heap : heap_ok (mem s);
  sp_admin : forall b, kernel_data b -> ~ admin (mem s) b;
  sp_pages : forall j b, 0 <= j < nbits (mem s) kvaddr_bm -> bit (mem s) kvaddr_bm j = false ->
    page_bytes (kpage (mem s) j) b -> ~ kernel_data b /\ ~ admin (mem s) b
}.

(** *** Writes elsewhere *)

Lemma pid_mutex_frame a h r ws s (P : Z -> Prop) m' :
  layout tasks -> mutex_state tasks idle sym_pid_lock a h r ws s ->
  changed_only P (mem s) m' -> (forall b, P b -> ~ sched_data b) ->
  mutex_state tasks idle sym_pid_lock a h r ws (set_mem m' s).
Proof.
  intros Hl [H1 H2 H3 H4] Hc HP. unfold sched_data, mutex_t.sizeof in *.
  assert (Ho : forall b, sym_pid_lock <= b < sym_pid_lock + 25 -> get8 m' b = get8 (mem s) b).
  { intros b Hb. apply Hc. intros HPb. apply (HP b HPb). left. lia. }
  unfold mutex_t.holder, mutex_t.recursion in *. constructor; msimpl; [| | |done].
  - eapply sem_state_frame; [done|done|done|]. intros b Hb. specialize (HP b Hb).
    unfold free_byte, sem_t.sizeof. split_and!; [lia|tauto|].
    intros t Ht Hbt. apply HP. right. right. right. apply Exists_exists. eauto.
  - rewrite <- H2. apply get32_ext. intros b Hb. apply Ho. unfold mutex_t.holder in *. lia.
  - rewrite <- H3. apply Ho. unfold mutex_t.recursion. lia.
Qed.

Lemma all_bytes al b :
  node_bytes (with_ends sym_all_thread_list (map atag al)) b ->
  all_header b \/ Exists (fun t => atag t <= b < atag t + 8) al.
Proof.
  unfold node_bytes, with_ends, all_header. rewrite Exists_cons, Exists_app, Exists_cons, Exists_nil.
  intros [H|[H|[H|[]]]]; [nodes; lia| |nodes; lia]. right.
  apply Exists_exists in H as (x & (t & -> & Ht)%list_elem_of_fmap & Hb).
  apply Exists_exists. exists t. split; [done|]. nodes. lia.
Qed.

Lemma atag_data t b : layout tasks -> t ∈ tasks -> atag t <= b < atag t + 8 -> sched_data b.
Proof.
  intros Hl Ht Hb. right. right. right. apply Exists_exists. exists t. split; [done|].
  pose proof (lay_fd _ Hl). spoff. lia.
Qed.

Lemma all_list_frame al m m' (P : Z -> Prop) :
  layout tasks -> all_list tasks m al -> changed_only P m m' ->
  (forall b, P b -> ~ all_header b /\ forall t, t ∈ tasks -> ~ (atag t <= b < atag t + 8)) ->
  all_list tasks m' al.
Proof.
  intros Hl [Hd Hs] Hc HP. constructor; [|done]. eapply dlist_frame; [|done].
  intros b Hb%all_bytes. apply Hc. intros HPb. destruct (HP b HPb) as [H1 H2].
  destruct Hb as [Hb|Hb]; [done|]. apply Exists_exists in Hb as (t & Ht & Hb). by apply (H2 t (Hs t Ht)).
Qed.


(** What the creation of threads relies on, after a step that changed the
    scheduler. *)
Lemma spawn_update a al s a' al' s' (P : Z -> Prop) :
  spawn_ok a al s -> changed_only P (mem s) (mem s') -> (forall b, P b -> ~ admin (mem s) b) ->
  mutex_state tasks idle sym_pid_lock a' NULL 0 [] s' -> all_list tasks (mem s') al' -> spawn_ok a' al' s'.
Proof.
  intros [H1 H2 H3 H4 H5 H6 H7 H8 H9] Hc HP Hm Hal.
  destruct (admin_frame (lay_pte _ H1) (mem s) (mem s') P Hc HP H7) as (Hh & Hs & Hb).
  constructor; try done.
  - intros b Hk Hx. by apply (H8 b Hk), (same_admin (mem s) (mem s')).
  - intros j b Hj Hbt Hx. rewrite (same_nbits _ _ Hs) in Hj. rewrite (sb_virtual _ _ Hb) in Hbt by done.
    rewrite (same_kpage _ _ j Hs) in Hx. destruct (H9 j b Hj Hbt Hx) as [Hk Ha]. split; [done|].
    intros Hy. by apply Ha, (same_admin (mem s) (mem s')).
Qed.

(** The bytes it depends on: the task state segment is not among them. *)
Definition live_data (b : Z) : Prop :=
  all_header b \/ sym_pid_lock <= b < sym_pid_lock + mutex_t.sizeof \/
  sym_ready_thread_list <= b < sym_ready_thread_list + list.sizeof \/ Exists (fun t => page_bytes t b) tasks.

Lemma live_kernel b : live_data b -> kernel_data b.
Proof. intros [Hb|[Hb|[Hb|Hb]]]; [by left|by right; left|by right; right; left|by right; right; right; right]. Qed.

Lemma spawn_keep a al s s' (P : Z -> Prop) :
  spawn_ok a al s -> changed_only P (mem s) (mem s') -> esp s' = esp s -> idle_thread (vars s') = idle_thread (vars s) ->
  (forall b, P b -> ~ live_data b /\ ~ admin (mem s) b) -> spawn_ok a al s'.
Proof.
  intros Hok Hc He Hv HP. apply (spawn_update a al s a al s' P Hok Hc (fun b Hb => proj2 (HP b Hb))).
  - pose proof (sp_mutex _ _ _ Hok) as Hm. pose proof (ms_sem _ _ _ _ _ _ _ _ Hm) as [Hi _ Hr _].
    apply fresh_mutex_state; [done| |].
    + destruct (runs_frame tasks idle a s P (mem s') (sp_lay _ _ _ Hok) Hr Hc) as [R1 R2 R3].
      * intros b Hb. split; [intros Hx; apply (proj1 (HP b Hb)); by right; right; left|].
        intros t Ht Hx. apply (proj1 (HP b Hb)). right. right. right. apply Exists_exists. by exists t.
      * constructor; [exact R1|by rewrite He|by rewrite Hv].
    + eapply fresh_mutex_frame; [exact Hc| |by eapply mutex_state_fresh].
      intros b Hx Hy. apply (proj1 (HP b Hx)). by right; left.
  - eapply all_list_frame; [apply Hok|apply Hok|exact Hc|]. intros b Hx. split.
    + intros Hy. apply (proj1 (HP b Hx)). by left.
    + intros t Ht Hy. apply (proj1 (HP b Hx)). right. right. right. apply Exists_exists. exists t. split; [done|].
      pose proof (lay_fd _ (sp_lay _ _ _ Hok)). spoff. lia.
Qed.

(** *** Pages that were taken *)

(** A page in use that has nothing of the scheduler's or of the allocator's. *)
Record own_page (m : memory) (j : Z) : Prop := {
  ow_range : 0 <= j < nbits m kvaddr_bm;
  ow_taken : bit m kvaddr_bm j = true;
  ow_apart : forall b, page_bytes (kpage m j) b -> ~ kernel_data b /\ ~ admin m b
}.

Lemma own_keep m m' (P : Z -> Prop) j :
  (forall v, pte_ptr_ret v = v) -> heap_ok m -> changed_only P m m' -> (forall b, P b -> ~ admin m b) ->
  own_page m j -> own_page m' j /\ kpage m' j = kpage m j.
Proof.
  intros Hpte Hh Hc HP [H1 H2 H3]. destruct (admin_frame Hpte m m' P Hc HP Hh) as (_ & Hs & Hb).
  split; [|by apply same_kpage]. constructor.
  - by rewrite (same_nbits _ _ Hs).
  - by rewrite (sb_virtual _ _ Hb).
  - intros b Hx. rewrite (same_kpage _ _ j Hs) in Hx. destruct (H3 b Hx) as [Hk Ha]. split; [done|].
    intros Hy. by apply Ha, (same_admin m m').
Qed.

Lemma own_take m n p ps m' j :
  run_for m n p ps m' -> own_page m j -> own_page m' j /\ kpage m' j = kpage m j /\ ~ p <= j < p + n.
Proof.
  intros Hr [H1 H2 H3]. pose proof (rf_same _ _ _ _ _ Hr) as Hs.
  split_and!; [|by apply same_kpage|].
  - constructor.
    + by rewrite (same_nbits _ _ Hs).
    + rewrite (rf_virtual _ _ _ _ _ Hr) by done. by rewrite H2, orb_true_r.
    + intros b Hx. rewrite (same_kpage _ _ j Hs) in Hx. destruct (H3 b Hx) as [Hk Ha]. split; [done|].
      intros Hy. by apply Ha, (same_admin m m').
  - intros Hj. destruct (rf_fit _ _ _ _ _ Hr) as ((_ & _ & Hf) & _). by rewrite (Hf j Hj) in H2.
Qed.

(** Different pages have no common byte. *)
Lemma own_apart m i j b : i <> j -> page_bytes (kpage m i) b -> ~ page_bytes (kpage m j) b.
Proof. unfold page_bytes, kpage. change PAGE_SIZE with 4096. lia. Qed.

Lemma run_page m p n b : run_bytes m p n b -> exists j, p <= j < p + n /\ page_bytes (kpage m j) b.
Proof.
  unfold run_bytes, page_bytes, kpage. change PAGE_SIZE with 4096. intros Hb.
  exists (p + (b - (kvaddr_start m + 4096 * p)) / 4096). zlia.
Qed.

(** Taking pages changes nothing of the scheduler's. *)
Lemma spawn_take a al s n p ps m' :
  spawn_ok a al s -> run_for (mem s) n p ps m' ->
  spawn_ok a al (set_mem m' s) /\ (forall j, p <= j < p + n -> own_page m' j) /\
  (forall b, run_bytes (mem s) p n b -> ~ kernel_data b).
Proof.
  intros [H1 H2 H3 H4 H5 H6 H7 H8 H9] Hr. pose proof (rf_same _ _ _ _ _ Hr) as Hs.
  destruct (rf_fit _ _ _ _ _ Hr) as ((P1 & P2 & P3) & _).
  assert (Hrun : forall b, run_bytes (mem s) p n b -> ~ kernel_data b).
  { intros b (j & Hj & Hb)%run_page. by apply (H9 j b ltac:(lia) (P3 j Hj)). }
  assert (HP : forall b, run_bytes (mem s) p n b \/ admin (mem s) b -> ~ kernel_data b)
    by (intros b [Hb|Hb]; [by apply Hrun|intros Hk; by apply (H8 b)]).
  split_and!; [|intros j Hj|done].
  - constructor; try done.
    + eapply pid_mutex_frame; [done|done|apply (rf_frame _ _ _ _ _ Hr)|]. intros b Hb Hx. apply (HP b Hb). by right.
    + eapply all_list_frame; [done|exact H4|apply (rf_frame _ _ _ _ _ Hr)|]. intros b Hb. split.
      * intros Hx. apply (HP b Hb). by left.
      * intros t Ht Hx. apply (HP b Hb). right. by eapply atag_data.
    + by apply Hr.
    + intros b Hk Hx. by apply (H8 b Hk), (same_admin (mem s) m').
    + msimpl. intros j b Hj Hbt Hb. rewrite (same_nbits _ _ Hs) in Hj. rewrite (same_kpage _ _ j Hs) in Hb.
      rewrite (rf_virtual _ _ _ _ _ Hr j Hj) in Hbt. apply orb_false_iff in Hbt as [_ Hbt].
      destruct (H9 j b Hj Hbt Hb) as [Hk Ha]. split; [done|]. intros Hx. by apply Ha, (same_admin (mem s) m').
  - constructor.
    + rewrite (same_nbits _ _ Hs). lia.
    + rewrite (rf_virtual _ _ _ _ _ Hr) by lia. by rewrite bool_decide_true.
    + intros b Hb. rewrite (same_kpage _ _ j Hs) in Hb. destruct (H9 j b ltac:(lia) (P3 j Hj) Hb) as [Hk Ha].
      split; [done|]. intros Hx. by apply Ha, (same_admin (mem s) m').
Qed.

Lemma own_places a al s p :
  spawn_ok a al s -> own_page (mem s) p ->
  let base := kpage (mem s) p in
  (base ∉ tasks) /\ layout (base :: tasks) /\ mutex_home (base :: tasks) sym_pid_lock /\
  (forall b, page_bytes base b -> ~ kernel_data b).
Proof.
  intros [H1 H2 H3 H4 H5 H6 H7 H8 H9] [Hp _ Ho] base.
  assert (Hd : forall b, page_bytes base b -> ~ kernel_data b) by (intros b Hbb; by apply (Ho b)).
  destruct (kpage_range (mem s) p H7 Hp) as (K1 & K2 & K3). fold base in K1, K2, K3.
  assert (Hs : forall x n, 0 < n -> (forall b, x <= b < x + n -> kernel_data b) -> x + n <= base \/ base + 4096 <= x).
  { intros x n Hn Hx. apply stretches_apart; [lia|lia|]. intros b Hbb Hxb. by apply (Hd b Hbb), Hx. }
  assert (Hready := Hs sym_ready_thread_list 16 ltac:(lia)
    ltac:(intros b ?; right; right; left; unfold list.sizeof; lia)).
  assert (Htss := Hs sym_tss tss_t.sizeof ltac:(done) ltac:(intros b ?; right; right; right; left; lia)).
  assert (Hpid := Hs sym_pid_lock mutex_t.sizeof ltac:(done) ltac:(intros b ?; right; left; lia)).
  split_and!; [| | |done].
  - intros Hin. apply (Hd base ltac:(unfold page_bytes; lia)). right. right. right. right.
    apply Exists_exists. exists base. split; [done|lia].
  - destruct H1 as [L1 L2 L3 L4 L5 L6 L7 L8]. constructor; try done.
    + intros t [->|Ht]%elem_of_cons; [done|by apply L2].
    + intros t [->|Ht]%elem_of_cons; [done|by apply L4].
    + intros t [->|Ht]%elem_of_cons; [done|by apply L6].
  - destruct H2 as [[[M1 [M1' M2]] M3 M4 M5 M6] M7 M8 M9]. constructor; [constructor; [split_and!|..]|..]; try done.
    + intros t [->|Ht]%elem_of_cons; [|by apply M2].
      unfold sem_t.waiters, mutex_t.sizeof, list.sizeof in *. lia.
    + intros t [->|Ht]%elem_of_cons; [|by apply M4]. unfold sem_t.sizeof, mutex_t.sizeof in *. lia.
    + intros t [->|Ht]%elem_of_cons; [done|by apply M7].
Qed.

(** *** The process id *)

(** What taking and giving back the lock of the process ids may write: nobody
    waits for it. *)
Definition pid_bytes (b : Z) : Prop := value_byte sym_pid_lock b \/ owner_bytes sym_pid_lock b.

Lemma pid_bytes_lock b : pid_bytes b -> sym_pid_lock <= b < sym_pid_lock + mutex_t.sizeof.
Proof. unfold pid_bytes, value_byte, owner_bytes, sem_t.value, mutex_t.sizeof. lia. Qed.

Lemma pid_bytes_data b : pid_bytes b -> sched_data b.
Proof. intros Hb. left. by apply pid_bytes_lock. Qed.

(** None of it is part of a task's page. *)
Lemma pid_bytes_page t b : mutex_home tasks sym_pid_lock -> t ∈ tasks -> pid_bytes b -> ~ page_bytes t b.
Proof. intros Hh Ht Hb%pid_bytes_lock. pose proof (mh_tasks _ _ Hh t Ht). unfold page_bytes. lia. Qed.

Lemma mutex_vars a h r ws s v :
  idle_thread v = idle_thread (vars s) ->
  mutex_state tasks idle sym_pid_lock a h r ws s ->
  mutex_state tasks idle sym_pid_lock a h r ws (set_vars v s).
Proof.
  intros Hv [[H1 H2 [H3 H4 H5] H6] H7 H8 H9]. constructor; [|done..]. constructor; [done|done| |done].
  constructor; [done|done|]. by rewrite <- H5, <- Hv.
Qed.

Lemma flag_after_idem b : flag_after (flag_after b) = flag_after b.
Proof. unfold flag_after. by case_decide. Qed.

Lemma allocate_pid_run a s :
  layout tasks -> mutex_home tasks sym_pid_lock -> mutex_state tasks idle sym_pid_lock a NULL 0 [] s ->
  next_pid (vars s) <> 0xffff ->
  exists s', allocate_pid s = Ok (next_pid (vars s)) s' /\
    mutex_state tasks idle sym_pid_lock a NULL 0 [] s' /\
    intr_flag s' = flag_after (intr_flag s) /\
    vars s' = set_next_pid (u16 (next_pid (vars s) + 1)) (vars s) /\ trace s' = trace s /\
    changed_only pid_bytes (mem s) (mem s').
Proof.
  intros Hl Hh Hm Hn.
  destruct (mutex_lock_free_run tasks idle Hl sym_pid_lock Hh a [] s Hm) as (s1 & E1 & Hm1 & Hf1 & Hv1 & Ht1 & Hc1).
  set (s2 := set_vars (set_next_pid (u16 (next_pid (vars s) + 1)) (vars s)) s1).
  assert (Hm2 : mutex_state tasks idle sym_pid_lock a (s_cur a) 1 [] s2) by (apply mutex_vars; [by rewrite Hv1|done]).
  destruct (mutex_unlock_last_run tasks idle Hl sym_pid_lock Hh a (s_cur a) [] s2 Hm2)
    as (s3 & E3 & Hm3 & Hf3 & Hv3 & Ht3 & Hc3).
  exists s3. split_and!; [|done| |done| |].
  - unfold allocate_pid. rewrite (bind_ok _ _ _ _ _ E1). erewrite bind_ok by reflexivity. cbv beta. rewrite Hv1.
    erewrite bind_ok by (apply assert_run; by rewrite (proj2 (Z.eqb_neq _ _) Hn)).
    erewrite bind_ok by reflexivity. cbv beta. erewrite bind_ok by reflexivity. cbv beta. rewrite Hv1.
    rewrite (bind_ok _ _ tt s1 s2) by (unfold s2; rewrite <- Hv1; done). by rewrite (bind_ok _ _ _ _ _ E3).
  - rewrite Hf3. unfold s2. msimpl. by rewrite Hf1, flag_after_idem.
  - rewrite Ht3. done.
  - eapply changed_trans; [exact Hc1|]. apply (mutex_unlock_alone tasks idle Hl sym_pid_lock Hh a (s_cur a) s2 s3 Hm2 E3).
Qed.


(** *** The task structure *)

(** The fields of a task structure that [task_struct_init] fills. *)
Record task_fields (m : memory) (base : Z) (st : task_status) (prio pid : Z) (name : list Z) : Prop := {
  tf_tcb : tcb_at m base (mkTcb (base + 4096) st prio prio 0 NULL);
  tf_pid : get16 m (base + task_struct.pid) = u16 pid;
  tf_magic : get32 m (base + task_struct.stack_magic_num) = 0x19980312;
  tf_name : get_bytes m (base + task_struct.name) (length name) = name
}.

(** What is written before and after the process id is allocated. *)
Definition task_head (m : memory) (base : Z) (st : task_status) (prio : Z) (name : list Z) : memory :=
  put8 (put32 (put_bytes (put_bytes m base (replicate 4 0)) (base + task_struct.name) name)
    (base + task_struct.status) (status_code st)) (base + task_struct.priority) prio.

Definition task_tail (m : memory) (base prio pid : Z) : memory :=
  put32 (put32 (put32 (put32 (put32 (put16 m (base + task_struct.pid) pid)
    (base + task_struct.ava_time) prio) (base + task_struct.elapsed_time) 0) (base + task_struct.page_dir) NULL)
    (base + task_struct.stack_magic_num) STACK_MAGIC) (base + task_struct.kstack) (u32 (base + Z.shiftl 1 12)).

(** The table of descriptors, which nobody initialises. *)
Definition fds_at (base b : Z) : Prop := base + task_struct.fd_table <= b < base + task_struct.name.
Definition fds_zero (m : memory) (base : Z) : Prop := forall b, fds_at base b -> get8 m b = 0.
Definition struct_bytes (base b : Z) : Prop := page_bytes base b /\ ~ fds_at base b.

Lemma struct_page base b : struct_bytes base b -> page_bytes base b.
Proof. by intros [H _]. Qed.

Lemma new_page_facts base : layout (base :: tasks) ->
  base mod 4096 = 0 /\ 0 < base /\ base + 4096 <= 0xffc00000 /\ 0 <= FD_MAX <= 900.
Proof. intros Hl. destruct (lay_page _ Hl base ltac:(by left)). pose proof (lay_fd _ Hl). lia. Qed.

Section Fields.
Context (base : Z) (st : task_status) (prio : Z) (name : list Z).
Hypothesis Hlb : layout (base :: tasks).
Hypothesis Hname : (length name <= 16)%nat.

Lemma task_name_changed m :
  changed_only (struct_bytes base) m (put_bytes (put_bytes m base (replicate 4 0)) (base + task_struct.name) name).
Proof.
  pose proof (new_page_facts base Hlb). intros b Hb. unfold struct_bytes, fds_at in Hb. spoff.
  rewrite get8_put_bytes_ne by lia. apply get8_put_bytes_ne. cbn [length replicate]. lia.
Qed.

Lemma task_head_changed m : changed_only (struct_bytes base) m (task_head m base st prio name).
Proof.
  pose proof (new_page_facts base Hlb). eapply changed_trans; [apply task_name_changed|].
  intros b Hb. unfold struct_bytes, fds_at in Hb. unfold task_head. spoff. rewrite get8_put8_ne, get8_put32_ne by lia. done.
Qed.

Lemma task_tail_changed m pid : changed_only (struct_bytes base) m (task_tail m base prio pid).
Proof.
  pose proof (new_page_facts base Hlb). intros b Hb. unfold struct_bytes, fds_at in Hb. unfold task_tail. spoff.
  rewrite !get8_put32_ne, get8_put16_ne by lia. done.
Qed.

Lemma task_fields_tail m pid :
  get32 m (base + task_struct.status) = status_code st -> get8 m (base + task_struct.priority) = prio ->
  get_bytes m (base + task_struct.name) (length name) = name -> 0 <= prio < 256 ->
  task_fields (task_tail m base prio pid) base st prio pid name.
Proof.
  intros Hst Hpr Hn Hprio. destruct (new_page_facts base Hlb) as (B1 & B2 & B3 & B4).
  assert (E : u32 (base + Z.shiftl 1 12) = base + 4096)
    by (change (Z.shiftl 1 12) with 4096; apply u32_small; lia).
  unfold task_tail. rewrite E. constructor.
  - constructor; cbn [t_kstack t_status t_priority t_ava_time t_elapsed_time t_page_dir]; offsets.
    + rewrite get32_put32_eq. apply u32_small. lia.
    + by rewrite !get32_put32_ne, get32_put16_ne by lia.
    + by rewrite !get8_put32_ne, get8_put16_ne by lia.
    + rewrite !get32_put32_ne, get32_put32_eq by lia. apply u32_small. lia.
    + rewrite !get32_put32_ne, get32_put32_eq by lia. done.
    + rewrite !get32_put32_ne, get32_put32_eq by lia. done.
  - offsets. rewrite !get16_put32_ne by lia. apply get16_put16_eq.
  - offsets. rewrite get32_put32_ne, get32_put32_eq by lia. done.
  - rewrite <- Hn at 2. apply get_bytes_ext. intros b Hb. offsets.
    by rewrite !get8_put32_ne, get8_put16_ne by lia.
Qed.

(** What [task_head] has written. *)
Lemma task_head_fields m :
  0 <= prio < 256 -> Forall is_u8 name ->
  get32 (task_head m base st prio name) (base + task_struct.status) = status_code st /\
  get8 (task_head m base st prio name) (base + task_struct.priority) = prio /\
  get_bytes (task_head m base st prio name) (base + task_struct.name) (length name) = name.
Proof.
  intros Hprio Hu8. destruct (new_page_facts base Hlb) as (B1 & B2 & B3 & B4). unfold task_head. split_and!.
  - offsets. rewrite get32_put8_ne, get32_put32_eq by lia. apply status_code_u32.
  - rewrite get8_put8_eq. by apply u8_small.
  - transitivity (get_bytes (put_bytes (put_bytes m base (replicate 4 0)) (base + task_struct.name) name)
      (base + task_struct.name) (length name)); [|by apply get_put_bytes]. apply get_bytes_ext. intros b Hb. offsets.
    by rewrite get8_put8_ne, get8_put32_ne by lia.
Qed.

Lemma task_fields_filled m m' pid :
  0 <= prio < 256 -> Forall is_u8 name ->
  (forall b, page_bytes base b -> get8 m' b = get8 (task_head m base st prio name) b) ->
  task_fields (task_tail m' base prio pid) base st prio pid name.
Proof.
  intros Hprio Hu8 Hk. destruct (new_page_facts base Hlb) as (B1 & B2 & B3 & B4).
  destruct (task_head_fields m Hprio Hu8) as (F1 & F2 & F3). offsets. apply task_fields_tail; [..|done].
  - rewrite <- F1. apply get32_ext. intros b Hb. apply Hk. unfold page_bytes. offsets. lia.
  - rewrite <- F2. apply Hk. unfold page_bytes. offsets. lia.
  - rewrite <- F3 at 2. apply get_bytes_ext. intros b Hb. apply Hk. unfold page_bytes. offsets. lia.
Qed.
End Fields.

(** The whole of it, around the allocation of the process id; the task that
    runs already is the main one. *)
Lemma task_struct_init_exec s s3 base name l prio pid :
  layout (base :: tasks) -> name <> 0 -> cstr (mem s) name l -> (length l <= 16)%nat ->
  name + Z.of_nat (length l) < base \/ base + 4096 <= name ->
  let st := if base =? main_thread (vars s) then RUNNING else READY in
  allocate_pid (set_mem (task_head (mem s) base st prio l) s) = Ok pid s3 ->
  task_struct_init base name prio s = Ok tt (set_mem (task_tail (mem s3) base prio pid) s3).
Proof.
  intros Hlb Hname Hs Hlen Hap st E3. destruct (new_page_facts base Hlb) as (B1 & B2 & B3 & Hfd).
  unfold task_struct_init, NULL. rewrite (proj2 (Z.eqb_neq base 0)) by lia.
  rewrite (bind_ok _ _ tt s s) by done. set (m0 := put_bytes (mem s) base (replicate 4 0)).
  rewrite (bind_ok (memset base 0 4) _ tt s (set_mem m0 s)) by (rewrite memset_run by lia; done).
  assert (Hcs : cstr (mem (set_mem m0 s)) name l).
  { eapply cstr_ext; [|exact Hs]. intros b Hb. apply get8_put_bytes_ne. cbn [length replicate]. lia. }
  assert (Hd : base + task_struct.name <> 0) by (offsets; lia).
  assert (Hsep : base + task_struct.name + Z.of_nat (length l) <= name \/
    name + Z.of_nat (length l) < base + task_struct.name) by (offsets; lia).
  assert (Hn32 : Z.of_nat (length l) < 2 ^ 32) by (change (2 ^ 32) with 4294967296; lia).
  rewrite (bind_ok _ _ _ _ _ (strcpy_run _ name l (set_mem m0 s) Hd Hname Hcs Hn32 Hsep)).
  msimpl. erewrite bind_ok by reflexivity. cbv beta. change (main_thread (vars _)) with (main_thread (vars s)). fold st.
  erewrite bind_ok by reflexivity. cbv beta. erewrite bind_ok by reflexivity. cbv beta. msimpl.
  change (put8 _ _ prio) with (task_head (mem s) base st prio l). rewrite (bind_ok _ _ _ _ _ E3). reflexivity.
Qed.

Lemma task_struct_init_run a s base name l prio :
  layout tasks -> mutex_home tasks sym_pid_lock -> mutex_state tasks idle sym_pid_lock a NULL 0 [] s ->
  next_pid (vars s) <> 0xffff -> layout (base :: tasks) -> (forall b, page_bytes base b -> ~ kernel_data b) ->
  base <> main_thread (vars s) -> 0 <= prio < 256 ->
  name <> 0 -> cstr (mem s) name l -> Z.of_nat (length l) <= 16 ->
  name + Z.of_nat (length l) < base \/ base + 4096 <= name ->
  exists s', task_struct_init base name prio s = Ok tt s' /\
    mutex_state tasks idle sym_pid_lock a NULL 0 [] s' /\
    intr_flag s' = flag_after (intr_flag s) /\
    vars s' = set_next_pid (u16 (next_pid (vars s) + 1)) (vars s) /\ trace s' = trace s /\
    task_fields (mem s') base READY prio (next_pid (vars s)) l /\
    changed_only (fun b => struct_bytes base b \/ pid_bytes b)
      (mem s) (mem s').
Proof.
  intros Hl Hh Hm Hn Hlb Hk Hmain Hprio Hname Hs Hlen Hap.
  destruct (new_page_facts base Hlb) as (B1 & B2 & B3 & Hfd).
  assert (Hlen' : (length l <= 16)%nat) by lia. pose proof (cstr_nonzero _ _ _ Hs) as Hu8.
  assert (C2 := task_head_changed base READY prio l Hlb Hlen' (mem s)). set (m2 := task_head (mem s) base READY prio l) in *.
  assert (Hdata : forall b, page_bytes base b -> ~ sched_data b) by (intros b Hb Hx; apply (Hk b Hb); by right).
  assert (Hm2 : mutex_state tasks idle sym_pid_lock a NULL 0 [] (set_mem m2 s))
    by (eapply pid_mutex_frame; [done|done|exact C2|intros b [Hb _]; by apply Hdata]).
  destruct (allocate_pid_run a (set_mem m2 s) Hl Hh Hm2 Hn) as (s3 & E3 & Hm3 & Hf3 & Hv3 & Ht3 & C3).
  assert (K3 : forall b, page_bytes base b -> get8 (mem s3) b = get8 m2 b).
  { intros b Hb. apply C3. intros Hx. by apply (Hdata b Hb), pid_bytes_data. }
  assert (C4 := task_tail_changed base prio l Hlb Hlen' (mem s3) (next_pid (vars s))).
  exists (set_mem (task_tail (mem s3) base prio (next_pid (vars s))) s3). split_and!.
  - eapply task_struct_init_exec; [done|done|exact Hs|done|done|].
    rewrite (proj2 (Z.eqb_neq base (main_thread (vars s)))) by done. exact E3.
  - eapply pid_mutex_frame; [done|exact Hm3|exact C4|intros b [Hb _]; by apply Hdata].
  - done.
  - done.
  - done.
  - apply (task_fields_filled base READY prio l Hlb Hlen' (mem s)); [done| |exact K3].
    eapply Forall_impl; [exact Hu8|]. by intros x [? _].
  - msimpl. eapply changed_trans; [eapply changed_weaken; [exact C2|by left]|].
    eapply changed_trans; [eapply changed_weaken; [exact C3|by right]|].
    eapply changed_weaken; [exact C4|by left].
Qed.


(** *** The first stack frame *)

(** A task as its creator leaves it, with the page directory [dir]. *)
Record new_task_in (dir : Z) (m : memory) (base prio pid : Z) (name : list Z) (func arg : Z) : Prop := {
  nt_tcb : tcb_at m base (mkTcb (new_kstack base) READY prio prio 0 dir);
  nt_pid : get16 m (base + task_struct.pid) = u16 pid;
  nt_magic : get32 m (base + task_struct.stack_magic_num) = 0x19980312;
  nt_name : get_bytes m (base + task_struct.name) (length name) = name;
  nt_frame : first_frame m (new_kstack base) func arg;
  nt_fds : fds_zero m base
}.

(** A kernel thread has none of its own. *)
Definition new_task : memory -> Z -> Z -> Z -> list Z -> Z -> Z -> Prop := new_task_in NULL.

(** The bytes of the page that this is about. *)
Definition task_bytes (base b : Z) : Prop :=
  base <= b < base + task_struct.name + 16 \/
  base + task_struct.page_dir <= b < base + task_struct.page_dir + 4 \/
  base + task_struct.stack_magic_num <= b < base + task_struct.stack_magic_num + 4 \/
  new_kstack base <= b < new_kstack base + thread_stack.sizeof.

Lemma new_task_ext dir m m' base prio pid name func arg :
  layout (base :: tasks) -> (length name <= 16)%nat -> (forall b, task_bytes base b -> get8 m' b = get8 m b) ->
  new_task_in dir m base prio pid name func arg -> new_task_in dir m' base prio pid name func arg.
Proof.
  intros Hl Hn Hk [H1 H2 H3 H4 H5 H6]. pose proof (new_page_facts base Hl) as Hf. unfold task_bytes in Hk. constructor.
  - eapply (tcb_frame _ Hl); [|exact H1]. intros b Hb. apply Hk. offsets. lia.
  - rewrite <- H2. apply get16_ext. intros b Hb. apply Hk. offsets. lia.
  - rewrite <- H3. apply get32_ext. intros b Hb. apply Hk. offsets. lia.
  - rewrite <- H4 at 2. apply get_bytes_ext. intros b Hb. apply Hk. offsets. lia.
  - assert (Kf : forall o v, 0 <= o <= 28 -> get32 m (new_kstack base + o) = v -> get32 m' (new_kstack base + o) = v).
    { intros o v Ho <-. apply get32_ext. intros b Hb. apply Hk. unfold thread_stack.sizeof. lia. }
    destruct H5 as [G1 G2 G3 G4 G5 G6 G7]. constructor; (apply Kf; [done|assumption]).
  - intros b Hb. rewrite <- (H6 b Hb). apply Hk. unfold fds_at in Hb. offsets. lia.
Qed.

(** [thread_create]'s writes to the stack at [k]. *)
Definition frame_written (m : memory) (k func arg : Z) : memory :=
  put32 (put32 (put32 (put32 (put32 (put32 (put32 (put32 m (k + thread_stack.ebp) 0)
    (k + thread_stack.ebx) 0) (k + thread_stack.edi) 0) (k + thread_stack.esi) 0) (k + thread_stack.eip) fn_kthread)
    (k + thread_stack.retaddr) 0) (k + thread_stack.func) func) (k + thread_stack.func_arg) arg.

Lemma frame_written_fields m k func arg :
  first_frame (frame_written m k func arg) k func arg /\
  changed_only (fun b => k <= b < k + 32) m (frame_written m k func arg).
Proof.
  unfold frame_written. split; [constructor|intros b Hb];
    unfold thread_stack.ebp, thread_stack.ebx, thread_stack.edi, thread_stack.esi, thread_stack.eip,
      thread_stack.retaddr, thread_stack.func, thread_stack.func_arg;
    rewrite ?get8_put32_ne, ?get32_put32_ne, ?get32_put32_eq by lia; done.
Qed.

(** What [thread_create] may write: the saved stack pointer and the frame. *)
Definition stack_bytes (base b : Z) : Prop :=
  base <= b < base + 4 \/ new_kstack base <= b < new_kstack base + thread_stack.sizeof.

Lemma stack_page base b : stack_bytes base b -> page_bytes base b.
Proof. unfold stack_bytes. spoff. lia. Qed.

(** The stack is above the task structure if the table of descriptors is not
    too long. *)
Lemma thread_create_run s base prio pid name func arg :
  layout (base :: tasks) -> FD_MAX <= 856 -> (length name <= 16)%nat ->
  task_fields (mem s) base READY prio pid name -> fds_zero (mem s) base ->
  exists m', thread_create base func arg s = Ok tt (set_mem m' s) /\
    new_task m' base prio pid name func arg /\ changed_only (stack_bytes base) (mem s) m'.
Proof.
  intros Hl Hfd Hname [[F1 F2 F3 F4 F5 F6] F7 F8 F9] Hz. destruct (new_page_facts base Hl) as (B1 & B2 & B3 & B4).
  cbn [t_kstack t_status t_priority t_ava_time t_elapsed_time t_page_dir] in *.
  assert (Ek : new_kstack base = base + 3664) by (unfold new_kstack, intr_stack.sizeof, thread_stack.sizeof; lia).
  assert (E1 : u32 (base + 4096 - 4 * intr_stack.sizeof) = base + 3792)
    by (unfold intr_stack.sizeof; rewrite u32_small by lia; lia).
  assert (E2 : u32 (base + 3792 - 4 * thread_stack.sizeof) = base + 3664)
    by (unfold thread_stack.sizeof; rewrite u32_small by lia; lia).
  set (m1 := put32 (put32 (mem s) (base + task_struct.kstack) (base + 3792)) (base + task_struct.kstack) (base + 3664)).
  assert (Em : get32 m1 (base + task_struct.kstack) = base + 3664)
    by (unfold m1; rewrite get32_put32_eq; apply u32_small; lia).
  exists (frame_written m1 (base + 3664) func arg). split_and!.
  - unfold thread_create. erewrite bind_ok by reflexivity. cbv beta. rewrite F1, E1.
    do 2 (erewrite bind_ok by reflexivity; cbv beta). msimpl. rewrite get32_put32_eq, (u32_small (base + 3792)) by lia.
    rewrite E2. do 2 (erewrite bind_ok by reflexivity; cbv beta). msimpl. fold m1.
    rewrite Em. reflexivity.
  - destruct (frame_written_fields m1 (base + 3664) func arg) as [Hf Hc].
    assert (K : forall w, base + 4 <= w -> w + 4 <= base + 3664 -> 
      get32 (frame_written m1 (base + 3664) func arg) w = get32 (mem s) w).
    { intros w W1 W2. rewrite (changed_get32 _ _ _ _ Hc) by (intros b Hb; lia).
      unfold m1. rewrite !get32_put32_ne by (unfold task_struct.kstack; lia). done. }
    assert (K8 : forall b, base + 4 <= b -> b < base + 3664 -> 
      get8 (frame_written m1 (base + 3664) func arg) b = get8 (mem s) b).
    { intros b W1 W2. rewrite Hc by lia. unfold m1. rewrite !get8_put32_ne by (unfold task_struct.kstack; lia). done. }
    constructor.
    + constructor; cbn [t_kstack t_status t_priority t_ava_time t_elapsed_time t_page_dir new_tcb]; rewrite ?Ek.
      * rewrite (changed_get32 _ _ _ _ Hc) by (unfold task_struct.kstack; lia). exact Em.
      * rewrite K by (offsets; lia). done.
      * rewrite K8 by (offsets; lia). done.
      * rewrite K by (offsets; lia). done.
      * rewrite K by (offsets; lia). done.
      * rewrite K by (offsets; lia). done.
    + rewrite <- F7. apply get16_ext. intros b Hb. apply K8; offsets; lia.
    + rewrite K by (offsets; lia). done.
    + rewrite <- F9 at 2. apply get_bytes_ext. intros b Hb. apply K8; offsets; lia.
    + by rewrite Ek.
    + intros b Hb. rewrite <- (Hz b Hb). unfold fds_at in Hb. apply K8; offsets; lia.
  - destruct (frame_written_fields m1 (base + 3664) func arg) as [_ Hc].
    eapply changed_trans; [|eapply changed_weaken; [exact Hc|intros b Hb; right; cbv beta in Hb; rewrite Ek; unfold thread_stack.sizeof; lia]].
    intros b Hb. unfold m1. unfold stack_bytes in Hb. rewrite !get8_put32_ne by (unfold task_struct.kstack; lia). done.
Qed.


(** *** The lists *)
Section Links.
Context (base : Z).
Hypothesis Hlay : layout tasks.
Hypothesis Hlb : layout (base :: tasks).
Hypothesis Hmb : mutex_home (base :: tasks) sym_pid_lock.
Hypothesis Hnew : base ∉ tasks.
Hypothesis Hpage : forall b, page_bytes base b -> ~ kernel_data b.
Hypothesis Hall : forall b, all_header b -> ~ sched_data b.
Hypothesis Hrange : 0 <= sym_all_thread_list /\ sym_all_thread_list + list.sizeof <= 2 ^ 32.

(** What the two insertions may write. *)
Definition link_bytes (b : Z) : Prop :=
  sym_ready_thread_list <= b < sym_ready_thread_list + list.sizeof \/ all_header b \/
  Exists (fun t => tag t <= b < tag t + 16) (base :: tasks).

Lemma all_header_page t b : t ∈ base :: tasks -> all_header b -> ~ (t <= b < t + 4096).
Proof.
  intros [->|Ht]%elem_of_cons Hb Hp; [by apply (Hpage b Hp); left|].
  apply (Hall b Hb). right. right. right. apply Exists_exists. eauto.
Qed.

Lemma link_page t b : t ∈ base :: tasks -> t <= b < t + 4096 -> link_bytes b -> tag t <= b < tag t + 16.
Proof.
  intros Ht Hp [Hb|[Hb|Hb]].
  - pose proof (lay_ready_task _ Hlb t Ht). unfold list.sizeof in *. lia.
  - by destruct (all_header_page t b Ht Hb).
  - apply Exists_exists in Hb as (u & Hu & Hb). destruct (decide (u = t)) as [->|Hne]; [done|].
    pose proof (pages_apart _ Hlb u t Hu Ht Hne). destruct (lay_page _ Hlb u Hu).
    pose proof (lay_fd _ Hlb). unfold tag in *. offsets. lia.
Qed.

Lemma link_tcb m m' t c :
  changed_only link_bytes m m' -> t ∈ base :: tasks -> tcb_at m t c -> tcb_at m' t c.
Proof.
  intros Hc Ht. apply (tcb_frame _ Hlb). intros b Hb. apply Hc. intros Hx. pose proof (lay_fd _ Hlb).
  apply (link_page t) in Hx; [|done|offsets; lia]. unfold tag in *. offsets. lia.
Qed.

Lemma link_new_task dir m m' prio pid name func arg :
  (length name <= 16)%nat -> FD_MAX <= 856 -> changed_only link_bytes m m' ->
  new_task_in dir m base prio pid name func arg -> new_task_in dir m' base prio pid name func arg.
Proof.
  intros Hn Hfd Hc. apply new_task_ext; [done|done|]. pose proof (new_page_facts base Hlb). intros b Hb. apply Hc.
  intros Hx%(link_page base); [|by left|]; unfold task_bytes, tag in *; spoff; lia.
Qed.

(** A tag goes to the end of the ready list. *)
Lemma start_ready q s :
  task_queue tasks (mem s) sym_ready_thread_list q ->
  exists m', list_push_back sym_ready_thread_list (tag base) s = Ok tt (after_critical s m') /\
    task_queue (base :: tasks) m' sym_ready_thread_list (q ++ [base]) /\
    changed_only (list_bytes sym_ready_thread_list (base :: q)) (mem s) m'.
Proof.
  intros [Hd Hs].
  destruct (list_push_back_run _ _ (tag base) s Hd) as (m' & E & Hd' & Hc).
  { apply (tag_node _ Hlb). by left. }
  { apply (tag_apart _ Hlb); [by apply ready_home|by left|intros u Hu; right; by apply Hs|].
    intros Hb. by apply Hnew, Hs. }
  exists m'. split_and!; [exact E| |by apply changed_push].
  constructor; [by rewrite map_app|]. intros u [Hu| ->%list_elem_of_singleton]%elem_of_app; [right; by apply Hs|by left].
Qed.

Lemma start_all al s :
  all_list tasks (mem s) al ->
  exists m', list_push_back sym_all_thread_list (atag base) s = Ok tt (after_critical s m') /\
    all_list (base :: tasks) m' (al ++ [base]) /\
    changed_only (fun b => all_header b \/ Exists (fun t => atag t <= b < atag t + 8) (base :: al)) (mem s) m'.
Proof.
  intros [Hd Hs]. pose proof (new_page_facts base Hlb) as Hf.
  assert (Hat : forall t, t ∈ base :: tasks -> t <= atag t /\ atag t + 8 <= t + 4096 /\ 0 < t /\ t + 4096 <= 0xffc00000).
  { intros t Ht. destruct (lay_page _ Hlb t Ht). spoff. lia. }
  assert (Hah : forall t, t ∈ base :: tasks ->
    sym_all_thread_list + list.sizeof <= atag t \/ atag t + 8 <= sym_all_thread_list).
  { intros t Ht. apply stretches_apart; [done|lia|]. intros b Hb Hh. specialize (Hat t Ht).
    apply (all_header_page t b Ht Hh). lia. }
  destruct (list_push_back_run _ _ (atag base) s Hd) as (m' & E & Hd' & Hc).
  { destruct (Hat base ltac:(by left)). nodes. lia. }
  { pose proof (Hah base ltac:(by left)) as Hb. unfold with_ends. constructor; [nodes; lia|]. apply Forall_app. split.
    - apply Forall_forall. intros x (u & -> & Hu)%list_elem_of_fmap. apply Hs in Hu.
      assert (Hne : base <> u) by (by intros ->).
      pose proof (pages_apart _ Hlb base u ltac:(by left) ltac:(by right) Hne).
      destruct (Hat base ltac:(by left)) as (? & ? & _), (Hat u ltac:(by right)) as (? & ? & _). nodes. lia.
    - constructor; [nodes; lia|constructor]. }
  exists m'. split_and!; [exact E| |].
  - constructor; [by rewrite map_app|].
    intros u [Hu| ->%list_elem_of_singleton]%elem_of_app; [right; by apply Hs|by left].
  - eapply changed_weaken; [exact Hc|]. intros b. unfold node_bytes. rewrite !Exists_cons.
    intros [Hb|Hb]; [right; left; nodes; lia|].
    apply all_bytes in Hb. tauto.
Qed.
Lemma in_both q t : (forall u, u ∈ q -> u ∈ tasks) -> t ∈ base :: q -> t ∈ base :: tasks.
Proof. intros Hq [->|Ht]%elem_of_cons; [by left|right; by apply Hq]. Qed.

(** What the two insertions write is apart. *)
Lemma ready_apart q b :
  (forall u, u ∈ q -> u ∈ tasks) -> list_bytes sym_ready_thread_list (base :: q) b ->
  link_bytes b /\ ~ all_header b /\ forall t, t ∈ base :: tasks -> ~ (atag t <= b < atag t + 8).
Proof.
  intros Hq Hb. pose proof (lay_fd _ Hlb). split_and!.
  - destruct Hb as [Hb|Hb]; [by left|]. right. right. apply Exists_exists in Hb as (t & Ht & Hb).
    apply Exists_exists. exists t. split; [by apply (in_both q)|lia].
  - intros Hh. destruct Hb as [Hb|Hb]; [apply (Hall b Hh); by right; left|].
    apply Exists_exists in Hb as (t & Ht & Hb). apply (all_header_page t b (in_both q t Hq Ht) Hh). spoff. lia.
  - intros t Ht Hat. destruct Hb as [Hb|Hb].
    + pose proof (lay_ready_task _ Hlb t Ht). spoff. unfold list.sizeof in *. lia.
    + apply Exists_exists in Hb as (u & Hu & Hb). apply in_both in Hu; [|done].
      destruct (decide (u = t)) as [->|Hne]; [spoff; lia|]. destruct (pages_apart _ Hlb u t Hu Ht Hne); spoff; lia.
Qed.

Lemma all_links al b :
  (forall u, u ∈ al -> u ∈ tasks) ->
  all_header b \/ Exists (fun t => atag t <= b < atag t + 8) (base :: al) -> link_bytes b.
Proof.
  intros Hq [Hb|Hb]; [by right; left|]. right. right. apply Exists_exists in Hb as (t & Ht & Hb).
  apply Exists_exists. exists t. split; [by apply (in_both al)|spoff; lia].
Qed.

Lemma link_pid b : link_bytes b -> ~ (sym_pid_lock <= b < sym_pid_lock + mutex_t.sizeof).
Proof.
  intros [Hb|[Hb|Hb]] Hp.
  - pose proof (mh_ready _ _ Hmb). unfold list.sizeof in *. lia.
  - apply (Hall b Hb). by left.
  - apply Exists_exists in Hb as (t & Ht & Hb). pose proof (mh_tasks _ _ Hmb t Ht).
    pose proof (lay_fd _ Hlb). spoff. lia.
Qed.
End Links.


(** *** The scheduler with the new task *)

Lemma start_inv a c base :
  inv tasks idle a -> base ∉ tasks -> t_status c = READY -> page_of (t_kstack c) = base ->
  inv (base :: tasks) idle (abs_add c base a).
Proof.
  intros [[W1 W2 W3 W4 W5 W6 W7] Hrun] Hn Hc Hp.
  assert (Hst : forall t, t ∈ tasks -> s_tcb (abs_add c base a) t = s_tcb a t)
    by (intros t Ht; cbn; rewrite decide_False; [done|by intros ->]).
  assert (Hb : s_tcb (abs_add c base a) base = c) by (cbn; by rewrite decide_True).
  change (s_cur a) with (s_cur (abs_add c base a)) in *.
  split; [constructor|unfold s_status in *; by rewrite Hst].
  - by right.
  - cbn. apply NoDup_app. split_and!; [done| |apply NoDup_singleton].
    intros x Hx ->%list_elem_of_singleton. by apply Hn, W3.
  - intros t. cbn [s_ready abs_add]. rewrite elem_of_app, list_elem_of_singleton, elem_of_cons. unfold s_status. split.
    + intros [Ht| ->]; [|rewrite Hb; by split; [left|]]. apply W3 in Ht as [Ht Hs]. rewrite Hst by done. by split; [right|].
    + intros [[->|Ht] Hs]; [by right|left]. rewrite Hst in Hs by done. by apply W3.
  - intros t [->|Ht]%elem_of_cons; unfold s_status; [by rewrite Hb, Hc|]. rewrite Hst by done. by apply W4.
  - intros t [->|Ht]%elem_of_cons Hne; [by rewrite Hb|]. rewrite Hst by done. by apply W5.
  - by right.
  - unfold s_status. rewrite Hst by done. done.
Qed.

Lemma new_kstack_page base : base mod 4096 = 0 -> page_of (new_kstack base) = base.
Proof. unfold page_of, new_kstack, intr_stack.sizeof, thread_stack.sizeof. intros Hb. zlia. Qed.

(** The lock, seen from the larger set of tasks. *)
Lemma start_lock a c base s m' :
  layout (base :: tasks) -> base ∉ tasks -> t_status c = READY -> page_of (t_kstack c) = base ->
  mutex_state tasks idle sym_pid_lock a NULL 0 [] s ->
  task_queue (base :: tasks) m' sym_ready_thread_list (s_ready a ++ [base]) ->
  (forall t, t ∈ tasks -> tcb_at m' t (s_tcb a t)) -> tcb_at m' base c ->
  (forall b, sym_pid_lock <= b < sym_pid_lock + mutex_t.sizeof -> get8 m' b = get8 (mem s) b) ->
  mutex_state (base :: tasks) idle sym_pid_lock (abs_add c base a) NULL 0 [] (set_mem m' s).
Proof.
  intros Hlb Hn Hc Hk0 [[H1 H2 [H3 H4 H5] [H6 [H7 H8]]] H9 H10 H11] [Hq Hs] Ht Hb Hk.
  unfold mutex_t.sizeof, mutex_t.holder, mutex_t.recursion in *.
  constructor; [constructor|..|done]; msimpl.
  - by apply start_inv.
  - constructor; [by intros ? ?%not_elem_of_nil|constructor|apply not_elem_of_nil].
  - constructor; [|done|done]. constructor; [exact Hq| |done].
    intros t [->|Hin]%elem_of_cons; cbn; [by rewrite decide_True|].
    rewrite decide_False by (by intros ->). by apply Ht.
  - constructor; [rewrite <- H6; apply Hk; unfold sem_t.value; lia|]. constructor; [|by intros ? ?%not_elem_of_nil].
    eapply dlist_frame; [|exact H7]. intros b Hb2. apply Hk. apply Exists_exists in Hb2 as (x & Hx & Hb2).
    unfold with_ends in Hx. cbn [map app] in Hx. rewrite !elem_of_cons, elem_of_nil in Hx.
    unfold sem_t.waiters in Hx. nodes. lia.
  - rewrite <- H9. apply get32_ext. intros b Hb2. apply Hk. lia.
  - rewrite <- H10. apply Hk. lia.
Qed.

(** *** The insertion into the two lists *)

Lemma not_listed_ready a base s :
  base ∉ tasks -> mutex_state tasks idle sym_pid_lock a NULL 0 [] s ->
  list_exist sym_ready_thread_list (tag base) s = Ok false s.
Proof.
  intros Hnew [[_ _ [[Hd _ Hsub] _ _] _] _ _ _].
  rewrite (list_exist_run _ _ (tag base) s Hd), bool_decide_false; [done|].
  intros (u & ->%tag_inj & Hu)%list_elem_of_fmap. by apply Hnew, Hsub.
Qed.

Lemma not_listed_all al base s :
  base ∉ tasks -> all_list tasks (mem s) al -> list_exist sym_all_thread_list (atag base) s = Ok false s.
Proof.
  intros Hnew [Hd Hs]. rewrite (list_exist_run _ _ (atag base) s Hd), bool_decide_false; [done|].
  intros (u & Hu & Hin)%list_elem_of_fmap. apply Hnew. replace base with u by (unfold atag in Hu; lia).
  by apply Hs.
Qed.

Section Insert.
Context (a : sched) (al : list Z) (base : Z) (c : tcb) (s : machine).
Hypothesis Hlay : layout tasks.
Hypothesis Hlb : layout (base :: tasks).
Hypothesis Hmb : mutex_home (base :: tasks) sym_pid_lock.
Hypothesis Hnew : base ∉ tasks.
Hypothesis Hpage : forall b, page_bytes base b -> ~ kernel_data b.
Hypothesis Hall : forall b, all_header b -> ~ sched_data b.
Hypothesis Hrange : 0 <= sym_all_thread_list /\ sym_all_thread_list + list.sizeof <= 2 ^ 32.
Hypothesis Hm : mutex_state tasks idle sym_pid_lock a NULL 0 [] s.
Hypothesis Hal : all_list tasks (mem s) al.

(** The lock, when the links have been written. *)
Lemma links_lock m' :
  changed_only (link_bytes base) (mem s) m' ->
  task_queue (base :: tasks) m' sym_ready_thread_list (s_ready a ++ [base]) ->
  tcb_at (mem s) base c -> t_status c = READY -> page_of (t_kstack c) = base ->
  mutex_state (base :: tasks) idle sym_pid_lock (abs_add c base a) NULL 0 [] (set_mem m' s).
Proof.
  intros C Hq Ht Hc Hk. pose proof Hm as [[_ _ [[_ Htcb _] _ _] _] _ _ _].
  apply start_lock; [done..| | |].
  - intros t Hin. eapply (link_tcb base Hlb Hpage Hall); [exact C|by right|by apply Htcb].
  - by apply (link_tcb base Hlb Hpage Hall _ _ _ _ C); [left|].
  - intros b Hb. apply C. intros Hx. by apply (link_pid base Hlb Hmb Hall b Hx).
Qed.

(** The queue is not touched by the insertion into the list of all threads, ... *)
Lemma ready_not_all q b :
  (forall u, u ∈ q -> u ∈ tasks) -> list_bytes sym_ready_thread_list (base :: q) b ->
  ~ (all_header b \/ Exists (fun t => atag t <= b < atag t + 8) (base :: al)).
Proof.
  intros Hq Hb. destruct (ready_apart base Hlb Hpage Hall q b Hq Hb) as (_ & H1 & H2). intros [Hx|Hx]; [done|].
  apply Exists_exists in Hx as (t & Ht & Hx). apply (H2 t); [|done]. apply (in_both base al); [apply (al_sub _ _ _ Hal)|done].
Qed.

Lemma queue_bytes_snoc q b :
  list_bytes sym_ready_thread_list (q ++ [base]) b -> list_bytes sym_ready_thread_list (base :: q) b.
Proof.
  intros [Hb|Hb]; [by left|right]. rewrite Exists_app, Exists_cons, Exists_nil in Hb. rewrite Exists_cons. tauto.
Qed.

(** First into the queue, as [thread_start] does it. *)
Lemma links_ready_first :
  tcb_at (mem s) base c -> t_status c = READY -> page_of (t_kstack c) = base ->
  exists m', (forall A (k : K A), (list_push_back sym_ready_thread_list (tag base);;
      list_push_back sym_all_thread_list (atag base);; k) s
      = k (set_intr_flag (flag_after (intr_flag s)) (set_mem m' s))) /\
    mutex_state (base :: tasks) idle sym_pid_lock (abs_add c base a) NULL 0 [] (set_mem m' s) /\
    all_list (base :: tasks) m' (al ++ [base]) /\ changed_only (link_bytes base) (mem s) m'.
Proof.
  intros Ht Hc Hk. pose proof Hm as [[_ _ [[Hd _ Hsub] _ _] _] _ _ _].
  destruct (start_ready base Hlb Hnew (s_ready a) s) as (m1 & E1 & Hq1 & C1); [by constructor|].
  assert (R1 := fun b => ready_apart base Hlb Hpage Hall (s_ready a) b Hsub).
  assert (Hal1 : all_list tasks m1 al).
  { eapply all_list_frame; [done|exact Hal|exact C1|]. intros b (_ & H1 & H2)%R1. split; [done|].
    intros t Hin. apply H2. by right. }
  destruct (start_all base Hlb Hmb Hnew Hpage Hall Hrange al (after_critical s m1) Hal1) as (m2 & E2 & Hal2 & C2).
  assert (L2 := fun b => all_links base al b (al_sub _ _ _ Hal)).
  assert (C : changed_only (link_bytes base) (mem s) m2).
  { eapply changed_trans; eapply changed_weaken; [exact C1|intros b Hb; apply (R1 b Hb)|exact C2|exact L2]. }
  exists m2. split_and!; [| |exact Hal2|exact C].
  - intros A k. rewrite (bind_ok _ _ _ _ _ E1), (bind_ok _ _ _ _ _ E2). unfold after_critical. cbn. by rewrite flag_after_idem.
  - apply links_lock; [exact C| |done..]. eapply task_queue_frame; [exact C2| |exact Hq1].
    intros b Hb%queue_bytes_snoc. by apply (ready_not_all (s_ready a)).
Qed.

(** First into the list of all threads, as [process_execute] does it. *)
Lemma links_all_first :
  tcb_at (mem s) base c -> t_status c = READY -> page_of (t_kstack c) = base ->
  exists m', (forall A (k : K A), (list_push_back sym_all_thread_list (atag base);;
      list_push_back sym_ready_thread_list (tag base);; k) s
      = k (set_intr_flag (flag_after (intr_flag s)) (set_mem m' s))) /\
    mutex_state (base :: tasks) idle sym_pid_lock (abs_add c base a) NULL 0 [] (set_mem m' s) /\
    all_list (base :: tasks) m' (al ++ [base]) /\ changed_only (link_bytes base) (mem s) m'.
Proof.
  intros Ht Hc Hk. pose proof Hm as [[_ _ [[Hd _ Hsub] _ _] _] _ _ _].
  destruct (start_all base Hlb Hmb Hnew Hpage Hall Hrange al s Hal) as (m1 & E1 & Hal1 & C1).
  assert (Hq0 : task_queue tasks m1 sym_ready_thread_list (s_ready a)).
  { eapply task_queue_frame; [exact C1| |by constructor]. intros b Hb. apply (ready_not_all (s_ready a)); [done|].
    destruct Hb as [Hb|Hb]; [by left|right]. rewrite Exists_cons. by right. }
  destruct (start_ready base Hlb Hnew (s_ready a) (after_critical s m1) Hq0) as (m2 & E2 & Hq2 & C2).
  assert (R2 := fun b => ready_apart base Hlb Hpage Hall (s_ready a) b Hsub).
  assert (L1 := fun b => all_links base al b (al_sub _ _ _ Hal)).
  assert (C : changed_only (link_bytes base) (mem s) m2).
  { eapply changed_trans; eapply changed_weaken; [exact C1|exact L1|exact C2|intros b Hb; apply (R2 b Hb)]. }
  exists m2. split_and!; [| | |exact C].
  - intros A k. rewrite (bind_ok _ _ _ _ _ E1), (bind_ok _ _ _ _ _ E2). unfold after_critical. cbn. by rewrite flag_after_idem.
  - by apply links_lock.
  - destruct Hal1 as [Hd1 Hs1]. constructor; [|done]. eapply dlist_frame; [|exact Hd1]. intros b Hb%all_bytes.
    apply C2. intros Hx. destruct (R2 b Hx) as (_ & N1 & N2). destruct Hb as [Hb|Hb]; [done|].
    apply Exists_exists in Hb as (t & Hin & Hb). by apply (N2 t (Hs1 t Hin)).
Qed.
End Insert.

(** The end of [thread_start]. *)
Lemma start_links_run a al s base prio pid name func arg :
  layout tasks -> mutex_home tasks sym_pid_lock ->
  layout (base :: tasks) -> mutex_home (base :: tasks) sym_pid_lock -> base ∉ tasks ->
  (forall b, page_bytes base b -> ~ kernel_data b) -> (forall b, all_header b -> ~ sched_data b) ->
  0 <= sym_all_thread_list /\ sym_all_thread_list + list.sizeof <= 2 ^ 32 ->
  FD_MAX <= 856 -> (length name <= 16)%nat ->
  mutex_state tasks idle sym_pid_lock a NULL 0 [] s -> all_list tasks (mem s) al ->
  new_task (mem s) base prio pid name func arg ->
  exists m', (ex ← list_exist sym_ready_thread_list (base + task_struct.gene_list_tag);
      ASSERT (negb ex) "thread/thread.c" 117 "thread_start"
        "list_exist(&ready_thread_list, &thread->gene_list_tag) == false";;
      ex ← list_exist sym_all_thread_list (base + task_struct.all_list_tag);
      ASSERT (negb ex) "thread/thread.c" 118 "thread_start"
        "list_exist(&all_thread_list, &thread->all_list_tag) == false";;
      list_push_back sym_ready_thread_list (base + task_struct.gene_list_tag);;
      list_push_back sym_all_thread_list (base + task_struct.all_list_tag);;
      mret base) s = Ok base (set_intr_flag (flag_after (intr_flag s)) (set_mem m' s)) /\
    mutex_state (base :: tasks) idle sym_pid_lock (abs_start prio base a) NULL 0 [] (set_mem m' s) /\
    all_list (base :: tasks) m' (al ++ [base]) /\ new_task m' base prio pid name func arg /\
    changed_only (link_bytes base) (mem s) m'.
Proof.
  intros Hl Hh Hlb Hmb Hn Hpage Hall Hrg Hfd Hname Hm Hal Hnt. fold (tag base) (atag base).
  destruct (links_ready_first a al base (new_tcb prio base) s Hl Hlb Hmb Hn Hpage Hall Hrg Hm Hal) as (m2 & E & Hm2 & Hal2 & C);
    [apply (nt_tcb _ _ _ _ _ _ _ _ Hnt)|done|apply new_kstack_page, (new_page_facts base Hlb)|].
  rewrite (bind_ok _ _ _ _ _ (not_listed_ready a base s Hn Hm)). erewrite bind_ok by (by apply assert_run).
  rewrite (bind_ok _ _ _ _ _ (not_listed_all al base s Hn Hal)). erewrite bind_ok by (by apply assert_run).
  exists m2. split_and!; [exact (E Z (mret base))|exact Hm2|exact Hal2|by eapply link_new_task|exact C].
Qed.

(** *** All of [thread_start] *)

(** The string [l] at [name] is neither on a free page nor the allocator's. *)
Definition name_place (m : memory) (name : Z) (l : list Z) : Prop :=
  forall b, name <= b <= name + Z.of_nat (length l) -> ~ admin m b /\
    forall j, 0 <= j < nbits m kvaddr_bm -> bit m kvaddr_bm j = false -> ~ page_bytes (kpage m j) b.

(** *** The steps on the new page *)

Lemma task_struct_spawn a al s p name l prio :
  let base := kpage (mem s) p in
  spawn_ok a al s -> own_page (mem s) p -> next_pid (vars s) <> 0xffff -> base <> main_thread (vars s) ->
  0 <= prio < 256 -> name <> 0 -> cstr (mem s) name l -> (length l <= 16)%nat ->
  name + Z.of_nat (length l) < base \/ base + 4096 <= name ->
  exists s', task_struct_init base name prio s = Ok tt s' /\ spawn_ok a al s' /\
    own_page (mem s') p /\ kpage (mem s') p = base /\ task_fields (mem s') base READY prio (next_pid (vars s)) l /\
    intr_flag s' = flag_after (intr_flag s) /\
    vars s' = set_next_pid (u16 (next_pid (vars s) + 1)) (vars s) /\ trace s' = trace s /\
    changed_only (fun b => struct_bytes base b \/ pid_bytes b) (mem s) (mem s').
Proof.
  intros base Hok Hown Hpid Hmain Hprio Hname Hstr Hlen Hap. pose proof Hok as [H1 H2 H3 H4 H5 H6 H7 H8 H9].
  destruct (own_places a al s p Hok Hown) as (Hn & Hlb & Hmb & Hpage). fold base in Hn, Hlb, Hmb, Hpage.
  destruct (task_struct_init_run a s base name l prio H1 H2 H3 Hpid Hlb Hpage Hmain Hprio Hname Hstr ltac:(lia) Hap)
    as (s' & E & Hm & Hf & Hv & Ht & Htf & C).
  assert (HP : forall b, struct_bytes base b \/ pid_bytes b -> ~ admin (mem s) b).
  { intros b [[Hb _]|Hb]; [by apply (ow_apart _ _ Hown b)|]. apply (H8 b). right. by apply pid_bytes_data. }
  destruct (own_keep (mem s) (mem s') _ p (lay_pte _ H1) H7 C HP Hown) as [Hown' Ek].
  exists s'. split_and!; try done. eapply spawn_update; [exact Hok|exact C|exact HP|exact Hm|].
  eapply all_list_frame; [done|exact H4|exact C|]. intros b [[Hb _]|Hb]; split.
  - intros Hx. apply (Hpage b Hb). by left.
  - intros t Ht' Hx. apply (Hpage b Hb). right. by eapply atag_data.
  - intros Hx. by apply (H6 b Hx), pid_bytes_data.
  - intros t Ht' Hx. apply (pid_bytes_page t b H2 Ht' Hb). pose proof (lay_fd _ H1). spoff. lia.
Qed.

(** Writes to pages of one's own. *)
Lemma own_write a al s (P : Z -> Prop) m' :
  spawn_ok a al s -> changed_only P (mem s) m' ->
  (forall b, P b -> exists j, own_page (mem s) j /\ page_bytes (kpage (mem s) j) b) ->
  spawn_ok a al (set_mem m' s) /\ same_pages (mem s) m' /\ same_bits (mem s) m' /\
  (forall j, own_page (mem s) j -> own_page m' j) /\ forall b, admin (mem s) b -> get8 m' b = get8 (mem s) b.
Proof.
  intros Hok Hc HP. pose proof (lay_pte _ (sp_lay _ _ _ Hok)) as Hpte.
  assert (Ha : forall b, P b -> ~ admin (mem s) b) by (intros b (j & Hj & Hb)%HP; by apply (ow_apart _ _ Hj b)).
  split_and!.
  - eapply (spawn_keep a al s (set_mem m' s)); [exact Hok|exact Hc|done|done|]. intros b Hb. split; [|by apply Ha].
    destruct (HP b Hb) as (j & Hj & Hb2). intros Hx%live_kernel. by apply (proj1 (ow_apart _ _ Hj b Hb2)).
  - by apply (admin_frame Hpte (mem s) m' P Hc Ha), Hok.
  - by apply (admin_frame Hpte (mem s) m' P Hc Ha), Hok.
  - intros j Hj. by apply (own_keep (mem s) m' P j Hpte (sp_heap _ _ _ Hok) Hc Ha).
  - intros b Hb. apply Hc. intros Hx. by apply (Ha b).
Qed.

Lemma spawn_write a al s p m' :
  let base := kpage (mem s) p in
  spawn_ok a al s -> own_page (mem s) p -> changed_only (page_bytes base) (mem s) m' ->
  spawn_ok a al (set_mem m' s) /\ own_page m' p /\ kpage m' p = base.
Proof.
  intros base Hok Hown Hc. destruct (own_write a al s _ m' Hok Hc) as (H1 & H2 & _ & H3 & _); [by exists p|].
  split_and!; [done|by apply H3|by apply same_kpage].
Qed.
End Spawn.

Section Start.
Context {PL : Platform} {LK : Linker} (tasks : list Z) (idle : Z).

(** Where the links of the new task are. *)
Lemma link_places base b :
  layout (base :: tasks) -> link_bytes tasks base b -> kernel_data tasks b \/ page_bytes base b.
Proof.
  intros Hl [Hb|[Hb|Hb]]; [left; right; right; by left|left; by left|]. pose proof (lay_fd _ Hl).
  apply Exists_cons in Hb as [Hb|Hb]; [right; spoff; lia|]. left. right. right. right. right.
  apply Exists_exists in Hb as (t & Hin & Hb). apply Exists_exists. exists t. split; [done|]. spoff. lia.
Qed.

(** The state is good again for the larger set of tasks. *)
Lemma spawn_add a al s p s' a' al' :
  let base := kpage (mem s) p in
  spawn_ok tasks idle a al s -> own_page tasks (mem s) p ->
  changed_only (fun b => kernel_data tasks b \/ page_bytes base b) (mem s) (mem s') ->
  mutex_state (base :: tasks) idle sym_pid_lock a' NULL 0 [] s' ->
  all_list (base :: tasks) (mem s') al' ->
  spawn_ok (base :: tasks) idle a' al' s' /\ same_pages (mem s) (mem s').
Proof.
  intros base Hok Hown Hc Hm Hal.
  destruct (own_places tasks idle a al s p Hok Hown) as (Hn & Hlb & Hmb & Hpage). fold base in Hn, Hlb, Hmb, Hpage.
  destruct Hok as [H1 H2 H3 H4 H5 H6 H7 H8 H9]. destruct Hown as [O1 O2 O3]. fold base in O3.
  assert (Ha : forall b, kernel_data tasks b \/ page_bytes base b -> ~ admin (mem s) b)
    by (intros b [Hb|Hb]; [by apply (H8 b)|by apply (O3 b)]).
  destruct (admin_frame (lay_pte _ H1) (mem s) (mem s') _ Hc Ha H7) as (Hh & Hs & Hbit). split; [|done].
  assert (Hdata : forall b, kernel_data (base :: tasks) b -> kernel_data tasks b \/ page_bytes base b).
  { intros b [Hb|[Hb|[Hb|[Hb|Hb]]]]; [by left; left|by left; right; left|by left; right; right; left|
      by left; right; right; right; left|]. apply Exists_cons in Hb as [Hb|Hb]; [by right|by left; right; right; right; right]. }
  constructor; [done|done|done|done|done| |done| |].
  - intros b Hb Hx. destruct Hx as [Hx|[Hx|[Hx|Hx]]]; [apply (H6 b Hb)..|]; [by left|by right; left|by right; right; left|].
    apply Exists_cons in Hx as [Hx|Hx]; [apply (Hpage b Hx); by left|apply (H6 b Hb); by right; right; right].
  - intros b Hb Hx. apply (same_admin (mem s)) in Hx; [|done]. by apply (Ha b (Hdata b Hb)).
  - intros j b Hj Hf Hb. rewrite (same_nbits _ _ Hs) in Hj. rewrite (same_kpage _ _ j Hs) in Hb.
    rewrite (sb_virtual _ _ Hbit j Hj) in Hf. assert (Hjp : j <> p) by (intros ->; by rewrite O2 in Hf).
    destruct (H9 j b Hj Hf Hb) as [Hk Hna]. split.
    + intros [Hx|Hx]%Hdata; [done|]. by apply (own_apart (mem s) j p b Hjp).
    + intros Hx. by apply Hna, (same_admin (mem s) (mem s')).
Qed.

Record start_args (s : machine) (name : Z) (l : list Z) (prio : Z) : Prop := {
  ar_prio : 0 <= prio < 256;
  ar_name : name <> 0;
  ar_string : cstr (mem s) name l;
  ar_length : (length l <= 16)%nat;
  ar_place : name_place (mem s) name l
}.

(** A page for the new task. *)
Lemma page_for_run a al s q f :
  spawn_ok tasks idle a al s -> free_run (mem s) kvaddr_bm q 1 -> free_frame (mem s) sym_kern_pool f ->
  exists p ps m1, get_kern_pages 1 s = Ok (kpage (mem s) p) (set_mem m1 s) /\
    run_for (mem s) 1 p ps m1 /\ 0 <= p < nbits (mem s) kvaddr_bm /\ bit (mem s) kvaddr_bm p = false /\
    spawn_ok tasks idle a al (set_mem m1 s) /\ own_page tasks m1 p /\ kpage m1 p = kpage (mem s) p /\
    changed_only (fun b => page_bytes (kpage (mem s) p) b \/ admin (mem s) b) (mem s) m1.
Proof.
  intros Hok Hq Hf.
  destruct (get_kern_pages_run (lay_pte _ (sp_lay _ _ _ _ _ Hok)) 1 q [f] s (sp_heap _ _ _ _ _ Hok) ltac:(lia) Hq)
    as (p & ps & m1 & E & Hr).
  { apply NoDup_singleton. } { by intros g ->%list_elem_of_singleton. } { done. }
  { intros j b Hj Hb Hx. by apply (sp_pages _ _ _ _ _ Hok j b Hj Hb). }
  destruct (spawn_take tasks idle a al s 1 p ps m1 Hok Hr) as (Hok' & Hown & _).
  destruct (rf_fit _ _ _ _ _ Hr) as ((P1 & P2 & P3) & _).
  exists p, ps, m1. split_and!; try done; [lia|apply P3; lia|apply Hown; lia|by apply same_kpage, Hr|].
  eapply changed_weaken; [apply (rf_frame _ _ _ _ _ Hr)|]. intros b [Hb|Hb]; [left|by right].
  unfold run_bytes, page_bytes in *. lia.
Qed.

(** The name is not touched when a page is taken, nor is it on the page. *)
Lemma name_kept s name l m1 p :
  name_place (mem s) name l -> cstr (mem s) name l -> 0 <= p < nbits (mem s) kvaddr_bm -> bit (mem s) kvaddr_bm p = false ->
  changed_only (fun b => page_bytes (kpage (mem s) p) b \/ admin (mem s) b) (mem s) m1 ->
  cstr m1 name l /\ (name + Z.of_nat (length l) < kpage (mem s) p \/ kpage (mem s) p + 4096 <= name).
Proof.
  intros Hpl Hs Hp Hb Hc. split.
  - eapply cstr_ext; [|exact Hs]. intros b Hbb. apply Hc. destruct (Hpl b Hbb) as [Ha Hx].
    intros [Hy|Hy]; [by apply (Hx p Hp Hb)|done].
  - destruct (stretches_apart name (Z.of_nat (length l) + 1) (kpage (mem s) p) 4096) as [Ha|Ha]; [lia|lia| |lia|lia].
    intros x Hx Hx2. destruct (Hpl x ltac:(lia)) as [_ Hy]. by apply (Hy p Hp Hb).
Qed.

(** A task structure on a page of its own. *)
Lemma task_made_run a al s name l prio q f :
  spawn_ok tasks idle a al s -> start_args s name l prio ->
  next_pid (vars s) <> 0xffff -> main_thread (vars s) ∈ tasks ->
  free_run (mem s) kvaddr_bm q 1 -> free_frame (mem s) sym_kern_pool f ->
  exists p ps m1 s', let base := kpage (mem s) p in
    run_for (mem s) 1 p ps m1 /\
    (forall A (rest : Z -> K A), (thread ← get_kern_pages 1; task_struct_init thread name prio;; rest thread) s
       = rest base s') /\
    spawn_ok tasks idle a al s' /\ own_page tasks (mem s') p /\ kpage (mem s') p = base /\
    task_fields (mem s') base READY prio (next_pid (vars s)) l /\
    vars s' = set_next_pid (u16 (next_pid (vars s) + 1)) (vars s) /\
    intr_flag s' = flag_after (intr_flag s) /\ trace s' = trace s /\
    spawn_ok tasks idle a al (set_mem m1 s) /\ same_pages m1 (mem s') /\ same_bits m1 (mem s') /\
    changed_only (fun b => struct_bytes base b \/ pid_bytes b) m1 (mem s') /\ fds_zero (mem s') base.
Proof.
  intros Hok [A1 A2 A3 A4 A5] Hpid Hmain Hq Hf.
  destruct (page_for_run a al s q f Hok Hq Hf) as (p & ps & m1 & E1 & Hr & Hpr & Hpb & Hok1 & Hown1 & Ek1 & C1).
  set (base := kpage (mem s) p) in *.
  destruct (name_kept s name l m1 p A5 A3 Hpr Hpb C1) as [Hstr Hap]. fold base in Hap.
  destruct (own_places tasks idle a al (set_mem m1 s) p Hok1 Hown1) as (Hn & _). msimpl. rewrite Ek1 in Hn.
  pose proof (task_struct_spawn tasks idle a al (set_mem m1 s) p name l prio) as Hts. msimpl. rewrite Ek1 in Hts.
  destruct (Hts Hok1 Hown1 Hpid ltac:(by intros Heq; apply Hn; rewrite Heq) A1 A2 Hstr A4 Hap)
    as (s2 & E2 & Hok2 & Hown2 & Ek2 & Htf & Hf2 & Hv2 & Ht2 & C2). clear Hts.
  assert (Ha : forall b, struct_bytes base b \/ pid_bytes b -> ~ admin m1 b).
  { intros b [[Hb _]|Hb]; [rewrite <- Ek1 in Hb; by apply (ow_apart _ _ _ Hown1 b)|].
    apply (sp_admin _ _ _ _ _ Hok1 b). right. by apply pid_bytes_data. }
  destruct (admin_frame (lay_pte _ (sp_lay _ _ _ _ _ Hok)) m1 (mem s2) _ C2 Ha (sp_heap _ _ _ _ _ Hok1)) as (_ & Hs & Hb).
  exists p, ps, m1, s2. cbv zeta. fold base. split_and!; try done.
  - intros A rest. rewrite (bind_ok _ _ _ _ _ E1). by rewrite (bind_ok _ _ _ _ _ E2).
  - intros b Hfb. assert (Hon : page_bytes base b) by (pose proof (lay_fd _ (sp_lay _ _ _ _ _ Hok)); unfold fds_at in Hfb; spoff; lia).
    rewrite C2; [apply (rf_zero _ _ _ _ _ Hr); unfold run_bytes, page_bytes in *; fold base; lia|].
    intros [[_ Hx]|Hx]; [done|]. rewrite <- Ek1 in Hon. apply (proj1 (ow_apart _ _ _ Hown1 b Hon)). right. by apply pid_bytes_data.
Qed.

(** Up to the insertion into the lists. *)
Lemma thread_made_run a al s name l prio func arg q f :
  spawn_ok tasks idle a al s -> FD_MAX <= 856 -> start_args s name l prio ->
  next_pid (vars s) <> 0xffff -> main_thread (vars s) ∈ tasks ->
  free_run (mem s) kvaddr_bm q 1 -> free_frame (mem s) sym_kern_pool f ->
  exists p s', let base := kpage (mem s) p in
    first_fit (mem s) kvaddr_bm 1 p /\
    (forall rest : Z -> K Z, (thread ← get_kern_pages 1;
      task_struct_init thread name prio;;
      thread_create thread func arg;; rest thread) s = rest base s') /\
    spawn_ok tasks idle a al s' /\ own_page tasks (mem s') p /\ kpage (mem s') p = base /\
    new_task (mem s') base prio (next_pid (vars s)) l func arg /\
    vars s' = set_next_pid (u16 (next_pid (vars s) + 1)) (vars s) /\
    intr_flag s' = flag_after (intr_flag s) /\ trace s' = trace s /\ same_pages (mem s) (mem s') /\
    changed_only (fun b => (page_bytes base b \/ admin (mem s) b) \/ pid_bytes b) (mem s) (mem s').
Proof.
  intros Hok Hfd Har Hpid Hmain Hq Hf.
  destruct (task_made_run a al s name l prio q f Hok Har Hpid Hmain Hq Hf)
    as (p & ps & m1 & s2 & Hr & E2 & Hok2 & Hown2 & Ek2 & Htf & Hv2 & Hf2 & Ht2 & _ & Hs2 & _ & C2 & Hz2).
  set (base := kpage (mem s) p) in *.
  destruct (own_places tasks idle a al s2 p Hok2 Hown2) as (_ & Hlb & _). rewrite Ek2 in Hlb.
  destruct (thread_create_run tasks s2 base prio (next_pid (vars s)) l func arg Hlb Hfd (ar_length _ _ _ _ Har) Htf Hz2)
    as (m3 & E3 & Hnt & C3).
  destruct (own_write tasks idle a al s2 _ m3 Hok2 C3) as (Hok3 & Hs3 & _ & Hown3 & _).
  { intros b Hb%stack_page. exists p. by rewrite Ek2. }
  exists p, (set_mem m3 s2). cbv zeta. fold base. split_and!; try done; [apply Hr| |by apply Hown3| | |].
  - intros rest. rewrite E2. by rewrite (bind_ok _ _ _ _ _ E3).
  - msimpl. by rewrite (same_kpage _ _ p Hs3).
  - eapply same_pages_trans; [apply Hr|by eapply same_pages_trans].
  - eapply changed_trans; [eapply changed_weaken; [apply (rf_frame _ _ _ _ _ Hr)|]|eapply changed_trans; eapply changed_weaken; [exact C2| |exact C3|]].
    + intros b [Hb|Hb]; left; [left|by right]. unfold run_bytes in Hb. fold base in Hb. unfold page_bytes. lia.
    + intros b [[Hb _]|Hb]; [by left; left|by right].
    + intros b Hb%stack_page. by left; left.
Qed.

Lemma thread_start_run a al s name l prio func arg q f :
  spawn_ok tasks idle a al s -> FD_MAX <= 856 -> start_args s name l prio ->
  next_pid (vars s) <> 0xffff -> main_thread (vars s) ∈ tasks ->
  free_run (mem s) kvaddr_bm q 1 -> free_frame (mem s) sym_kern_pool f ->
  exists p s', let base := kpage (mem s) p in
    first_fit (mem s) kvaddr_bm 1 p /\ thread_start name prio func arg s = Ok base s' /\
    spawn_ok (base :: tasks) idle (abs_start prio base a) (al ++ [base]) s' /\
    new_task (mem s') base prio (next_pid (vars s)) l func arg /\
    vars s' = set_next_pid (u16 (next_pid (vars s) + 1)) (vars s) /\
    intr_flag s' = flag_after (intr_flag s) /\ trace s' = trace s /\
    same_pages (mem s) (mem s') /\
    changed_only (fun b => (page_bytes base b \/ admin (mem s) b) \/ pid_bytes b \/ link_bytes tasks base b)
      (mem s) (mem s').
Proof.
  intros Hok Hfd Har Hpid Hmain Hq Hf.
  destruct (thread_made_run a al s name l prio func arg q f Hok Hfd Har Hpid Hmain Hq Hf)
    as (p & s3 & Hfit & E & Hok3 & Hown3 & Ek3 & Hnt & Hv & Hfl & Ht & Hs3 & C3).
  set (base := kpage (mem s) p) in *.
  destruct (own_places tasks idle a al s3 p Hok3 Hown3) as (Hn & Hlb & Hmb & Hpage). rewrite Ek3 in Hn, Hlb, Hmb, Hpage.
  pose proof Hok3 as [H1 H2 H3 H4 H5 H6 H7 H8 H9].
  destruct (start_links_run tasks idle a al s3 base prio (next_pid (vars s)) l func arg
    H1 H2 Hlb Hmb Hn Hpage H6 H5 Hfd (ar_length _ _ _ _ Har) H3 H4 Hnt) as (m4 & E4 & Hm4 & Hal4 & Hnt4 & C4).
  set (s' := set_intr_flag (flag_after (intr_flag s3)) (set_mem m4 s3)).
  pose proof (spawn_add a al s3 p s' (abs_start prio base a) (al ++ [base]) Hok3 Hown3) as Hadd. rewrite Ek3 in Hadd.
  destruct Hadd as [Hok' Hs4]; [|by apply mutex_flag|exact Hal4|].
  { eapply changed_weaken; [exact C4|]. intros b. by apply link_places. }
  exists p, s'. cbv zeta. fold base. split_and!; [exact Hfit|exact (eq_trans (E _) E4)|exact Hok'|exact Hnt4|exact Hv| |exact Ht| |].
  - cbn. by rewrite Hfl, flag_after_idem.
  - by eapply same_pages_trans.
  - eapply changed_trans; eapply changed_weaken; [exact C3| |exact C4|by right; right].
    intros b [Hb|Hb]; [by left|by right; left].
Qed.

(** C5: [thread_start] adds a task to the system: the first free page of the
    kernel becomes its task structure and stack, with the next process id, the
    name and the priority; it is ready, last in the queue and in the list of
    all threads, and its stack makes the first switch to it enter [kthread]
    with the function and its argument.  What the operations of the scheduler
    rely on holds for the larger set of tasks, so threads can be started one
    after the other.  Without a free page it panics. *)
Theorem thread_start_refines a al s name l prio func arg :
  spawn_ok tasks idle a al s -> FD_MAX <= 856 -> start_args s name l prio ->
  next_pid (vars s) <> 0xffff -> main_thread (vars s) ∈ tasks ->
  (forall q f, free_run (mem s) kvaddr_bm q 1 -> free_frame (mem s) sym_kern_pool f ->
   exists p s', let base := kpage (mem s) p in
     first_fit (mem s) kvaddr_bm 1 p /\ thread_start name prio func arg s = Ok base s' /\
     inv (base :: tasks) idle (abs_start prio base a) /\
     runs (base :: tasks) idle (abs_start prio base a) s' /\
     spawn_ok (base :: tasks) idle (abs_start prio base a) (al ++ [base]) s' /\
     new_task (mem s') base prio (next_pid (vars s)) l func arg /\
     vars s' = set_next_pid (u16 (next_pid (vars s) + 1)) (vars s)) /\
  ((forall j, 0 <= j < nbits (mem s) kvaddr_bm -> bit (mem s) kvaddr_bm j = true) ->
   exists s', thread_start name prio func arg s = Panic "thread != NULL" s').
Proof.
  intros Hok Hfd Har Hpid Hmain. split.
  - intros q f Hq Hf.
    destruct (thread_start_run a al s name l prio func arg q f Hok Hfd Har Hpid Hmain Hq Hf)
      as (p & s' & Hfit & E & Hok' & Hnt & Hv & _). exists p, s'. cbv zeta.
    pose proof (ms_sem _ _ _ _ _ _ _ _ (sp_mutex _ _ _ _ _ Hok')) as [Hi _ Hr _]. by split_and!.
  - intros Hall. unfold thread_start, get_kern_pages. rewrite bind_assoc.
    rewrite (bind_ok _ _ _ _ _ (malloc_page_full_run s Hall)). rewrite Z.eqb_refl. cbn [negb when].
    erewrite bind_ok by reflexivity. unfold task_struct_init. rewrite Z.eqb_refl. cbn [negb].
    destruct (assert_false "thread/thread.c" 72 "task_struct_init" "thread != NULL" s) as (s' & E & _).
    exists s'. erewrite bind_panic; [done|]. by rewrite (bind_panic _ _ _ _ _ E).
Qed.
End Start.

(** ** A concrete instance *)

(** The machine of the heap, with the lock of the process ids and the list of
    all threads made, and the name "hi" at 0xc0003000. *)
Definition demo_spawn_mem : memory :=
  match (mutex_init sym_pid_lock;;
         list_init sym_all_thread_list;;
         list_push_back sym_all_thread_list (atag demo_main);;
         list_push_back sym_all_thread_list (atag demo_thread);;
         list_push_back sym_all_thread_list (atag demo_idle)) demo_arena_machine with
  | Ok _ s => put_bytes (mem s) 0xc0003000 [104; 105; 0]
  | _ => ∅
  end.

Definition demo_spawn_machine : machine := set_mem demo_spawn_mem demo_sched_machine.

Lemma demo_spawn_mutex :
  mutex_state demo_tasks demo_idle sym_pid_lock demo_abs NULL 0 [] demo_spawn_machine.
Proof.
  constructor; [rewrite decide_True by done|vm_compute; done..]. constructor.
  - apply demo_inv.
  - constructor; [by intros ? ?%not_elem_of_nil|constructor|apply not_elem_of_nil].
  - constructor; [|done|done]. constructor.
    + split; [vm_compute; tauto|]. cbn [demo_abs s_ready map]. unfold tag. offsets.
      unfold demo_thread. cbn [sym_ready_thread_list demo_linker FD_MAX demo_platform]. solve_apart.
    + solve_tasks; constructor; vm_compute; done.
    + intros t ->%list_elem_of_singleton. right. by left.
  - constructor; [vm_compute; done|]. constructor; [|by intros ? ?%not_elem_of_nil].
    split; [vm_compute; tauto|]. cbn [sym_pid_lock demo_linker]. unfold sem_t.waiters. cbn [map]. solve_apart.
Qed.

Lemma demo_all_list : all_list demo_tasks demo_spawn_mem demo_tasks.
Proof.
  constructor; [|done]. split; [vm_compute; tauto|].
  unfold demo_tasks, atag, demo_main, demo_thread, demo_idle. offsets.
  cbn [map sym_all_thread_list demo_linker FD_MAX demo_platform]. solve_apart.
Qed.

Lemma demo_data b :
  kernel_data demo_tasks b -> 0xc0014000 <= b < 0xc0016020 \/ 0xc001c000 <= b < 0xc001c06c \/
    0xc009e000 <= b < 0xc009f000 \/ 0xc0100000 <= b < 0xc0101000 \/ 0xc0102000 <= b < 0xc0103000.
Proof.
  unfold kernel_data, all_header, sched_data. cbn [sym_ready_thread_list sym_all_thread_list sym_pid_lock sym_tss demo_linker].
  unfold list.sizeof, mutex_t.sizeof, tss_t.sizeof. rewrite Exists_exists.
  intros [H|[H|[H|[H|(t & Ht & H)]]]]; [lia..|]. revert t Ht H.
  solve_tasks; unfold demo_main, demo_thread, demo_idle; lia.
Qed.

Lemma demo_spawn_admin b :
  admin demo_spawn_mem b -> 0xc0010000 <= b < 0xc0010010 \/ 0xc0012000 <= b < 0xc0012010 \/
    b = 0xc009a000 \/ b = 0xc009a010 \/ 0xffc00000 <= b.
Proof. solve_demo_admin demo_spawn_mem. Qed.

Lemma demo_spawn_ok : spawn_ok demo_tasks demo_idle demo_abs demo_tasks demo_spawn_machine.
Proof.
  constructor.
  - exact demo_layout.
  - exact demo_mutex_home.
  - exact demo_spawn_mutex.
  - exact demo_all_list.
  - done.
  - unfold all_header, sched_data. cbn [sym_ready_thread_list sym_all_thread_list sym_pid_lock sym_tss demo_linker].
    unfold list.sizeof, mutex_t.sizeof, tss_t.sizeof. intros b Hb. rewrite Exists_exists.
    intros [H|[H|[H|(t & Ht & H)]]]; [lia..|]. revert t Ht H.
    solve_tasks; unfold demo_main, demo_thread, demo_idle; lia.
  - change (mem demo_spawn_machine) with demo_spawn_mem. solve_demo_pages demo_spawn_mem.
  - change (mem demo_spawn_machine) with demo_spawn_mem. intros b Hb%demo_data Ha%demo_spawn_admin. lia.
  - change (mem demo_spawn_machine) with demo_spawn_mem.
    assert (E : nbits demo_spawn_mem kvaddr_bm = 8 /\ kvaddr_start demo_spawn_mem = 0xc0110000) by (vm_compute; done).
    unfold kpage. destruct E as [-> ->]. intros j b Hj Hf. unfold page_bytes. change PAGE_SIZE with 4096.
    intros Hb. split; [intros Hk%demo_data|intros Ha%demo_spawn_admin]; lia.
Qed.

Lemma demo_start_args : start_args demo_spawn_machine 0xc0003000 [104; 105] 31.
Proof.
  constructor; [done|done|vm_compute; done|cbn; lia|]. change (mem demo_spawn_machine) with demo_spawn_mem.
  intros b Hb. cbn [length] in Hb. split; [intros Ha%demo_spawn_admin; lia|].
  assert (E : kvaddr_start demo_spawn_mem = 0xc0110000) by (vm_compute; done).
  unfold kpage, page_bytes. rewrite E. change PAGE_SIZE with 4096. lia.
Qed.

Lemma demo_spawn_run : free_run (mem demo_spawn_machine) kvaddr_bm 1 1.
Proof.
  change (mem demo_spawn_machine) with demo_spawn_mem.
  split; [done|]. split; [vm_compute; congruence|]. intros j Hj. assert (j = 1) as -> by lia. by vm_compute.
Qed.

Lemma demo_spawn_frame : free_frame (mem demo_spawn_machine) sym_kern_pool 1.
Proof.
  change (mem demo_spawn_machine) with demo_spawn_mem.
  split; [vm_compute; intuition congruence|by vm_compute].
Qed.

Lemma thread_start_refines_witness :
  exists p s', let base := kpage (mem demo_spawn_machine) p in
    first_fit (mem demo_spawn_machine) kvaddr_bm 1 p /\
    thread_start 0xc0003000 31 fn_start1 7 demo_spawn_machine = Ok base s' /\
    inv (base :: demo_tasks) demo_idle (abs_start 31 base demo_abs) /\
    runs (base :: demo_tasks) demo_idle (abs_start 31 base demo_abs) s' /\
    spawn_ok (base :: demo_tasks) demo_idle (abs_start 31 base demo_abs) (demo_tasks ++ [base]) s' /\
    new_task (mem s') base 31 (next_pid (vars demo_spawn_machine)) [104; 105] fn_start1 7 /\
    vars s' = set_next_pid (u16 (next_pid (vars demo_spawn_machine) + 1)) (vars demo_spawn_machine).
Proof.
  assert (H1 : FD_MAX <= 856) by done.
  assert (H2 : next_pid (vars demo_spawn_machine) <> 0xffff) by done.
  assert (H3 : main_thread (vars demo_spawn_machine) ∈ demo_tasks) by by left.
  exact (proj1 (thread_start_refines demo_tasks demo_idle demo_abs demo_tasks demo_spawn_machine 0xc0003000
    [104; 105] 31 fn_start1 7 demo_spawn_ok H1 demo_start_args H2 H3) 1 1 demo_spawn_run demo_spawn_frame).
Defined.
