(* ===== verification/ThreadInit.v ===== *)
(** * Start of the scheduler (thread/thread.c: thread_init)

    [thread_init] makes the running code the main thread and starts the idle
    thread; after it everything the operations of the scheduler rely on holds
    for these two tasks. *)

From Stdlib Require Import FunctionalExtensionality.
From S2P Require Import Prelude Machine Concrete Interrupt CString Bitmap DList Paging Tss Sched Lock Memory Malloc Heap HeapGrow MemInit Thread Spawn.

#[local] Open Scope Z_scope.

(** ** Code that does not look at [idle_thread]

    The theorems on the scheduler are about states whose variable
    [idle_thread] is the idle task.  There is no such task yet; but what
    [thread_init] runs before it makes one does not read the variable unless
    it gives the processor away. *)

Definition set_idle (v : Z) (s : machine) : machine := set_vars (set_idle_thread v (vars s)) s.

Definition blind {A} (c : K A) : Prop :=
  forall v a s s', c s = Ok a s' -> c (set_idle v s) = Ok a (set_idle v s').

(** Code that does not return but gives the processor away. *)
Definition never {A} (c : K A) : Prop := forall a s s', c s <> Ok a s'.

Create HintDb blind.

Section Blind.
Context {A B : Type}.

Lemma blind_bind (c : K A) (f : A -> K B) : blind c -> (forall a, blind (f a)) -> blind (c ≫= f).
Proof.
  intros Hc Hf v b s s' E. destruct (c s) as [a s1|m s1|s1|s1 k] eqn:E1; unfold mbind, K_bind in *; rewrite E1 in E;
    try discriminate E. rewrite (Hc v a s s1 E1). by apply Hf.
Qed.

Lemma never_bind (c : K A) (f : A -> K B) : (forall a, never (f a)) -> never (c ≫= f).
Proof.
  intros Hf b s s'. unfold mbind, K_bind. destruct (c s) as [a s1|m s1|s1|s1 k]; cbn; try discriminate. apply Hf.
Qed.

Lemma blind_never (c : K A) : never c -> blind c.
Proof. intros Hc v a s s' E. by destruct (Hc a s s'). Qed.

Lemma blind_ret (a : A) : blind (mret a).
Proof. by intros v b s s' [= -> ->]. Qed.
Lemma blind_gets (f : machine -> A) : (forall v s, f (set_idle v s) = f s) -> blind (gets f).
Proof. intros Hf v a s s' [= <- <-]. unfold gets. by rewrite Hf. Qed.
Lemma blind_panic m : blind (@panic A m).
Proof. by intros v a s s'. Qed.
Lemma blind_spin : blind (@spin A).
Proof. by intros v a s s'. Qed.
End Blind.

Lemma blind_modify f : (forall v s, f (set_idle v s) = set_idle v (f s)) -> blind (modify f).
Proof. intros Hf v a s s' [= <- <-]. unfold modify. by rewrite Hf. Qed.

Lemma blind_for lo n (body : Z -> K unit) : (forall i, blind (body i)) -> blind (for_ lo n body).
Proof.
  intros Hb. revert lo. induction n as [|n IH]; intros lo; cbn [for_]; [apply blind_ret|].
  by apply blind_bind.
Qed.

Lemma blind_for_exit {A} lo n (body : Z -> K (option A)) : (forall i, blind (body i)) -> blind (for_exit lo n body).
Proof.
  intros Hb. revert lo. induction n as [|n IH]; intros lo; cbn [for_exit]; [apply blind_ret|].
  apply blind_bind; [done|]. intros [a|]; [apply blind_ret|apply IH].
Qed.

Lemma blind_while {X A} (body : X -> K (X + A)) x : (forall x, blind (body x)) -> blind (while_ body x).
Proof.
  intros Hb. destruct (while_loop_n body) as (n & _ & ->). generalize (S n). clear n. intros n. unfold loop_n.
  apply blind_bind; [|intros [y|a]; [apply blind_spin|apply blind_ret]].
  revert x. induction n as [|n IH]; intros x; cbn [rounds]; [apply blind_ret|].
  apply blind_bind; [done|]. intros [y|a]; [apply IH|apply blind_ret].
Qed.

Ltac blind_step :=
  first
  [ solve [eauto with blind]
  | apply blind_bind; [|intros]
  | apply blind_ret | apply blind_panic | apply blind_spin
  | apply blind_gets; intros; reflexivity
  | apply blind_modify; intros; reflexivity
  | apply blind_while; intros
  | apply blind_for; intros
  | apply blind_for_exit; intros
  | match goal with
    | |- blind (if ?b then _ else _) => destruct b
    | |- blind (match ?x with inl _ => _ | inr _ => _ end) => destruct x
    | |- blind (match ?x with Some _ => _ | None => _ end) => destruct x
    | |- blind (match ?x with PF_KERNEL => _ | PF_USER => _ end) => destruct x
    | |- blind (let '(_, _) := ?x in _) => destruct x
    end ].
Ltac solve_blind := repeat blind_step.

Section BlindKernel.
Context {PL : Platform} {LK : Linker}.

Lemma blind_disable : blind INTERRUPT_DISABLE.
Proof. unfold INTERRUPT_DISABLE, intr_disable, intr_get_status. solve_blind. Qed.
Lemma blind_restore st : blind (INTERRUPT_RESTORE st).
Proof.
  unfold INTERRUPT_RESTORE, intr_set_status, intr_disable, intr_enable, intr_get_status, skip. solve_blind.
Qed.
Lemma blind_assert b f l fn c : blind (ASSERT b f l fn c).
Proof. unfold ASSERT, panic_spin, intr_disable, intr_get_status, put_lit, put_int, put_char, skip, emit. solve_blind. Qed.
Hint Resolve blind_disable blind_restore blind_assert : blind.

Lemma blind_insert x y : blind (list_insert_before x y).
Proof. unfold list_insert_before. solve_blind. Qed.
Lemma blind_remove x : blind (list_remove x).
Proof. unfold list_remove. solve_blind. Qed.
Lemma blind_push_back l x : blind (list_push_back l x).
Proof. unfold list_push_back. pose proof blind_insert. solve_blind. Qed.
Lemma blind_exist l x : blind (list_exist l x).
Proof. unfold list_exist. solve_blind. Qed.
Lemma blind_list_init l : blind (list_init l).
Proof. unfold list_init. solve_blind. Qed.
Hint Resolve blind_insert blind_remove blind_push_back blind_exist blind_list_init : blind.

Lemma never_schedule : never schedule.
Proof. unfold schedule, when. repeat (apply never_bind; intros ?). by intros ? ? ?. Qed.

Lemma blind_schedule : blind schedule.
Proof. apply blind_never, never_schedule. Qed.
Lemma blind_running : blind running_thread.
Proof. unfold running_thread. solve_blind. Qed.
Hint Resolve blind_schedule blind_running : blind.

Lemma blind_sem_down x : blind (sem_down x).
Proof. unfold sem_down, sem_down_body, thread_block. solve_blind. Qed.
Lemma blind_sem_up x : blind (sem_up x).
Proof. unfold sem_up, thread_unblock, list_empty, list_pop_front, list_push_front, when, skip. solve_blind. Qed.
Lemma blind_mutex_lock x : blind (mutex_lock x).
Proof. unfold mutex_lock. pose proof blind_sem_down. solve_blind. Qed.
Lemma blind_mutex_unlock x : blind (mutex_unlock x).
Proof. unfold mutex_unlock, when, skip. pose proof blind_sem_up. solve_blind. Qed.
Lemma blind_mutex_init x : blind (mutex_init x).
Proof. unfold mutex_init, sem_init. solve_blind. Qed.
Hint Resolve blind_mutex_lock blind_mutex_unlock blind_mutex_init : blind.

Lemma blind_memset d v n : blind (memset d v n).
Proof. unfold memset. solve_blind. Qed.
Lemma blind_strcpy d x : blind (strcpy d x).
Proof. unfold strcpy. solve_blind. Qed.
Hint Resolve blind_memset blind_strcpy : blind.

Lemma blind_get_kern_pages n : blind (get_kern_pages n).
Proof.
  unfold get_kern_pages, malloc_page, vaddr_get, palloc, page_table_add, bitmap_scan, bitmap_set, bitmap_has,
    pte_local, when, skip. solve_blind.
Qed.
Hint Resolve blind_get_kern_pages : blind.

Lemma blind_task_struct_init t n p : blind (task_struct_init t n p).
Proof. unfold task_struct_init, allocate_pid. solve_blind. Qed.
Hint Resolve blind_task_struct_init : blind.

Lemma blind_make_main : blind make_main_thread.
Proof. unfold make_main_thread. solve_blind. Qed.
Lemma blind_thread_start n p f x : blind (thread_start n p f x).
Proof. unfold thread_start, thread_create. solve_blind. Qed.
Hint Resolve blind_make_main blind_thread_start : blind.

(** All of [thread_init] but the last assignment. *)
Definition before_idle : K Z :=
  mutex_init sym_pid_lock;;
  list_init sym_ready_thread_list;;
  list_init sym_all_thread_list;;
  make_main_thread;;
  thread_start (str_lit "idle") 10 fn_idle NULL.

Lemma blind_before_idle : blind before_idle.
Proof. unfold before_idle. solve_blind. Qed.

Lemma set_idle_same v s : set_idle (idle_thread (vars s)) (set_idle v s) = s.
Proof. by destruct s as [m f e c t []]. Qed.

Lemma bind_cong {A B} (c : K A) (f g : A -> K B) : (forall a, f a = g a) -> c ≫= f = c ≫= g.
Proof. intros H. f_equal. by apply functional_extensionality. Qed.

Lemma thread_init_split : thread_init = (t ← before_idle; setv (set_idle_thread t)).
Proof.
  unfold thread_init, before_idle. do 4 (rewrite bind_assoc; apply bind_cong; intros _). reflexivity.
Qed.

(** It is enough to follow it in a machine with an idle thread. *)
Lemma thread_init_from v t s s' :
  before_idle (set_idle v s) = Ok t s' -> thread_init s = Ok tt (set_idle t s').
Proof.
  intros E. apply (blind_before_idle (idle_thread (vars s))) in E. rewrite set_idle_same in E.
  rewrite thread_init_split, (bind_ok _ _ _ _ _ E). reflexivity.
Qed.
End BlindKernel.

(** ** The main thread *)
Section MainThread.
Context {PL : Platform} {LK : Linker} (main : Z).
Hypothesis Hlay : layout [main].
Hypothesis Hhome : mutex_home [main] sym_pid_lock.
Hypothesis Hpid : 0 <= sym_pid_lock /\ sym_pid_lock + mutex_t.sizeof <= 2 ^ 32.
Hypothesis Hrange : 0 <= sym_all_thread_list /\ sym_all_thread_list + list.sizeof <= 2 ^ 32.
Hypothesis Hall : forall b, all_header b -> ~ sched_data [main] b.

(** The scheduler while only the main thread runs. *)
Definition main_sched (e : Z) (c : tcb) : sched := mkSched e [] (fun _ => c).

Definition main_tcb : tcb := mkTcb (main + 4096) RUNNING 32 32 0 NULL.

Lemma main_inv e c : page_of e = main -> t_status c = RUNNING -> inv [main] main (main_sched e c).
Proof.
  intros He Hc. assert (Ec : s_cur (main_sched e c) = main) by exact He.
  split; [constructor|unfold s_status; cbn; done]; unfold s_status; cbn [main_sched s_ready s_tcb].
  - rewrite Ec. by left.
  - constructor.
  - intros t. rewrite Hc. split; [by intros ?%not_elem_of_nil|by intros [_ ?]].
  - intros t ->%list_elem_of_singleton _. by rewrite Ec.
  - intros t ->%list_elem_of_singleton. by rewrite Ec.
  - by left.
  - by rewrite Hc.
Qed.

(** What the task structure holds at any time. *)
Definition tcb_of (m : memory) (st : task_status) : tcb :=
  mkTcb (get32 m (main + task_struct.kstack)) st (get8 m (main + task_struct.priority))
    (get32 m (main + task_struct.ava_time)) (get32 m (main + task_struct.elapsed_time))
    (get32 m (main + task_struct.page_dir)).

Lemma main_lock s c :
  page_of (esp s) = main -> idle_thread (vars s) = main -> t_status c = RUNNING ->
  dlist (mem s) sym_ready_thread_list [] -> fresh_mutex (mem s) sym_pid_lock -> tcb_at (mem s) main c ->
  mutex_state [main] main sym_pid_lock (main_sched (esp s) c) NULL 0 [] s.
Proof.
  intros He Hi Hc Hd Hf Ht. apply fresh_mutex_state; [by apply main_inv| |done].
  constructor; [|done|done]. constructor; [exact Hd| |by intros t ?%not_elem_of_nil].
  by intros t ->%list_elem_of_singleton.
Qed.

(** *** The lists and the lock *)

Definition lists_made (m : memory) : Prop :=
  fresh_mutex m sym_pid_lock /\ dlist m sym_ready_thread_list [] /\ dlist m sym_all_thread_list [].

(** The three objects do not overlap. *)
Lemma lists_apart :
  (forall b, within sym_pid_lock mutex_t.sizeof b -> ~ within sym_ready_thread_list list.sizeof b) /\
  (forall b, all_header b -> ~ within sym_pid_lock mutex_t.sizeof b /\ ~ within sym_ready_thread_list list.sizeof b).
Proof.
  split.
  - pose proof (mh_ready _ _ Hhome). unfold within, list.sizeof in *. intros b. lia.
  - intros b Hb. split; intros Hx; apply (Hall b Hb); [by left|by right; left].
Qed.

Lemma empty_list_frame m m' l (P : Z -> Prop) :
  changed_only P m m' -> (forall b, P b -> ~ within l list.sizeof b) -> dlist m l [] -> dlist m' l [].
Proof.
  intros Hc HP Hd. eapply dlist_frame; [|exact Hd]. intros b Hb. apply Hc. intros Hx. apply (HP b Hx).
  unfold node_bytes, with_ends in Hb. cbn [app] in Hb. rewrite !Exists_cons, Exists_nil in Hb.
  unfold within. nodes. lia.
Qed.

Lemma lists_made_run s :
  exists m', (forall A (k : K A), (mutex_init sym_pid_lock;; list_init sym_ready_thread_list;;
      list_init sym_all_thread_list;; k) s = k (set_mem m' s)) /\
    lists_made m' /\ changed_only (kernel_data []) (mem s) m'.
Proof.
  destruct lists_apart as [A1 A2].
  pose proof (lay_ready _ Hlay) as Hr2.
  destruct (mutex_init_run sym_pid_lock s (proj1 Hpid) (proj2 Hpid)) as (m1 & E1 & H1 & C1).
  destruct (list_init_run sym_ready_thread_list (set_mem m1 s)) as (m2 & E2 & H2 & C2);
    [lia|unfold list.sizeof; lia|].
  destruct (list_init_run sym_all_thread_list (set_mem m2 (set_mem m1 s))) as (m3 & E3 & H3 & C3); [lia|lia|]. msimpl.
  exists m3. split; [|split; [split_and!|]].
  - intros A k. by rewrite (bind_ok _ _ _ _ _ E1), (bind_ok _ _ _ _ _ E2), (bind_ok _ _ _ _ _ E3).
  - eapply fresh_mutex_frame; [exact C3|intros b Hb; apply (A2 b Hb)|].
    eapply fresh_mutex_frame; [exact C2|intros b Hb Hx; by apply (A1 b Hx)|done].
  - eapply empty_list_frame; [exact C3|intros b Hb; apply (A2 b Hb)|done].
  - done.
  - eapply changed_trans; [eapply changed_weaken; [exact C1|]|eapply changed_trans;
      [eapply changed_weaken; [exact C2|]|eapply changed_weaken; [exact C3|]]]; intros b Hb.
    + right. by left.
    + right. right. by left.
    + by left.
Qed.

(** *** Its task structure *)

Lemma main_bytes b : page_bytes main b -> ~ kernel_data [] b.
Proof.
  intros Hb. pose proof (lay_ready_task _ Hlay main ltac:(by left)). pose proof (lay_tss_task _ Hlay main ltac:(by left)).
  pose proof (mh_tasks _ _ Hhome main ltac:(by left)). unfold page_bytes in Hb.
  intros [Hx|[Hx|[Hx|[Hx|Hx%Exists_nil]]]]; [|unfold list.sizeof in *; lia..|done].
  apply (Hall b Hx). right. right. right. apply Exists_cons. by left.
Qed.

Lemma kernel_data_nil b : kernel_data [] b -> kernel_data [main] b.
Proof. intros [Hb|[Hb|[Hb|[Hb|Hb%Exists_nil]]]]; [by left|right; by left|right; right; by left|right; right; right; by left|done]. Qed.

Lemma main_data b : page_bytes main b -> kernel_data [main] b.
Proof. intros Hb. right. right. right. right. apply Exists_cons. by left. Qed.

(** The lists and the lock are not in its page. *)
Lemma lists_frame m m' (P : Z -> Prop) :
  changed_only P m m' -> (forall b, P b -> page_bytes main b) -> lists_made m -> lists_made m'.
Proof.
  intros Hc HP (H1 & H2 & H3).
  assert (Hx : forall b, P b -> ~ kernel_data [] b) by (intros b Hb; by apply main_bytes, HP).
  split_and!.
  - eapply fresh_mutex_frame; [exact Hc| |done]. intros b Hb Hy. apply (Hx b Hb). right. by left.
  - eapply empty_list_frame; [exact Hc| |done]. intros b Hb Hy. apply (Hx b Hb). right. right. by left.
  - eapply empty_list_frame; [exact Hc| |done]. intros b Hb Hy. apply (Hx b Hb). by left.
Qed.

Record main_string (m : memory) (name : Z) (l : list Z) : Prop := {
  ms_pointer : name <> 0;
  ms_string : cstr m name l;
  ms_length : (length l <= 16)%nat;
  ms_apart : forall b, name <= b <= name + Z.of_nat (length l) -> ~ kernel_data [main] b
}.

(** The lists after the lock was held. *)
Lemma lists_after_pid m a s3 :
  s_ready a = [] -> lists_made m -> mutex_state [main] main sym_pid_lock a NULL 0 [] s3 ->
  changed_only pid_bytes m (mem s3) -> lists_made (mem s3) /\ esp s3 = s_esp a.
Proof.
  intros Ha (_ & _ & H3) Hm Hc. pose proof Hm as [[_ _ [[Hd _ _] He _] _] _ _ _]. rewrite Ha in Hd.
  split; [split_and!; [by eapply mutex_state_fresh|exact Hd|]|exact He].
  eapply empty_list_frame; [exact Hc| |exact H3]. intros b Hb Hx. by apply (Hall b Hx), pid_bytes_data.
Qed.

Lemma main_struct_run s name l :
  lists_made (mem s) -> page_of (esp s) = main -> idle_thread (vars s) = main -> main_thread (vars s) = main ->
  next_pid (vars s) <> 0xffff -> main_string (mem s) name l ->
  exists s', task_struct_init main name 32 s = Ok tt s' /\ lists_made (mem s') /\
    task_fields (mem s') main RUNNING 32 (next_pid (vars s)) l /\ esp s' = esp s /\
    intr_flag s' = flag_after (intr_flag s) /\ vars s' = set_next_pid (u16 (next_pid (vars s) + 1)) (vars s) /\
    trace s' = trace s /\ changed_only (kernel_data [main]) (mem s) (mem s').
Proof.
  intros Hl He Hi Hm Hn [S1 S2 S3 S4]. pose proof (new_page_facts [] main Hlay) as (B1 & B2 & B3 & B4).
  assert (C2 := changed_weaken _ _ _ _ (task_head_changed [] main RUNNING 32 l Hlay S3 (mem s)) (struct_page main)).
  assert (Hu8 : Forall is_u8 l) by (eapply Forall_impl; [apply (cstr_nonzero _ _ _ S2)|by intros x [? _]]).
  destruct (task_head_fields [] main RUNNING 32 l Hlay S3 (mem s) ltac:(lia) Hu8) as (F1 & _).
  set (m2 := task_head (mem s) main RUNNING 32 l) in *.
  pose proof (lists_frame _ _ _ C2 (fun b Hb => Hb) Hl) as Hl2.
  assert (Hm2 : mutex_state [main] main sym_pid_lock (main_sched (esp s) (tcb_of m2 RUNNING)) NULL 0 [] (set_mem m2 s)).
  { destruct Hl2 as (G1 & G2 & _). by apply (main_lock (set_mem m2 s)). }
  destruct (allocate_pid_run [main] main _ (set_mem m2 s) Hlay Hhome Hm2 Hn) as (s3 & E3 & Hm3 & Hf3 & Hv3 & Ht3 & C3).
  destruct (lists_after_pid m2 (main_sched (esp s) (tcb_of m2 RUNNING)) s3 eq_refl Hl2 Hm3 C3) as (Hl3 & He3).
  assert (C4 := changed_weaken _ _ _ _ (task_tail_changed [] main 32 l Hlay S3 (mem s3) (next_pid (vars s))) (struct_page main)).
  exists (set_mem (task_tail (mem s3) main 32 (next_pid (vars s))) s3). split_and!; msimpl.
  - apply (task_struct_init_exec [] s s3 main name l 32 _ Hlay S1 S2 S3).
    + destruct (stretches_apart name (Z.of_nat (length l) + 1) main 4096) as [Ha|Ha]; [lia|lia| |lia|lia].
      intros x Hx Hx2. apply (S4 x); [lia|]. by apply main_data.
    + by rewrite Hm, Z.eqb_refl.
  - by apply (lists_frame _ _ _ C4).
  - apply (task_fields_filled [] main RUNNING 32 l Hlay S3 (mem s)); [done|done|].
    intros b Hb. apply C3. intros Hx. apply (pid_bytes_page [main] main b Hhome ltac:(by left) Hx Hb).
  - exact He3.
  - done.
  - done.
  - done.
  - eapply changed_trans; [eapply changed_weaken; [exact C2|apply main_data]|].
    eapply changed_trans; [eapply changed_weaken; [exact C3|]|eapply changed_weaken; [exact C4|apply main_data]].
    intros b Hb. right. by apply pid_bytes_data.
Qed.

(** *** All of [make_main_thread] *)

(** The main thread's task structure after [thread_init]. *)
Record main_task (m : memory) (pid : Z) (name : list Z) : Prop := {
  mt_tcb : tcb_at m main main_tcb;
  mt_pid : get16 m (main + task_struct.pid) = u16 pid;
  mt_magic : get32 m (main + task_struct.stack_magic_num) = STACK_MAGIC;
  mt_name : get_bytes m (main + task_struct.name) (length name) = name
}.

Lemma main_task_frame m m' pid name (P : Z -> Prop) :
  (length name <= 16)%nat -> changed_only P m m' ->
  (forall b, P b -> main <= b < main + task_struct.sizeof -> tag main <= b < tag main + 16) ->
  main_task m pid name -> main_task m' pid name.
Proof.
  intros Hn Hc HP [H1 H2 H3 H4]. pose proof (new_page_facts [] main Hlay) as (_ & _ & _ & Hfd).
  assert (K : forall b, main <= b < main + task_struct.sizeof -> ~ (tag main <= b < tag main + 16) -> get8 m' b = get8 m b).
  { intros b Hb Ht. apply Hc. intros Hx. by apply Ht, HP. }
  unfold tag in K. offsets. constructor.
  - eapply (tcb_frame [main] Hlay); [|exact H1]. intros b Hb. apply K; offsets; lia.
  - rewrite <- H2. apply get16_ext. intros b Hb. apply K; offsets; lia.
  - rewrite <- H3. apply get32_ext. intros b Hb. apply K; offsets; lia.
  - rewrite <- H4 at 2. apply get_bytes_ext. intros b Hb. apply K; offsets; lia.
Qed.

Lemma make_main_run s l :
  lists_made (mem s) -> page_of (esp s) = main -> idle_thread (vars s) = main ->
  next_pid (vars s) <> 0xffff -> main_string (mem s) (str_lit "main thread") l ->
  exists s', make_main_thread s = Ok tt s' /\
    mutex_state [main] main sym_pid_lock (main_sched (esp s) main_tcb) NULL 0 [] s' /\
    all_list [main] (mem s') [main] /\ main_task (mem s') (next_pid (vars s)) l /\
    intr_flag s' = flag_after (intr_flag s) /\
    vars s' = set_next_pid (u16 (next_pid (vars s) + 1)) (set_main_thread main (vars s)) /\
    trace s' = trace s /\ changed_only (kernel_data [main]) (mem s) (mem s').
Proof.
  intros Hl He Hi Hn Hs. set (s1 := set_vars (set_main_thread main (vars s)) s).
  destruct (main_struct_run s1 (str_lit "main thread") l Hl He Hi eq_refl Hn Hs)
    as (s2 & E2 & (F1 & F2 & F3) & [T1 T2 T3 T4] & He2 & Hf2 & Hv2 & Ht2 & C2).
  assert (H0 : forall b, all_header b -> ~ sched_data [] b).
  { intros b Hb Hx. apply (Hall b Hb). destruct Hx as [Hx|[Hx|[Hx|Hx%Exists_nil]]]; [by left|by right; left|by right; right; left|done]. }
  destruct (start_all [] main Hlay Hhome (not_elem_of_nil main) main_bytes H0 Hrange [] s2)
    as (m3 & E3 & Hal & C3); [by constructor; [|intros t ?%not_elem_of_nil]|].
  assert (Hlen := ms_length _ _ _ Hs). assert (Hlink := link_page [] main Hlay main_bytes H0).
  assert (L3 : forall b, all_header b \/ Exists (fun t => atag t <= b < atag t + 8) [main] -> link_bytes [] main b)
    by (intros b Hb; apply (all_links [] main [] b); [by intros t ?%not_elem_of_nil|exact Hb]).
  assert (Hat : tcb_at m3 main main_tcb).
  { apply (link_tcb [] main Hlay main_bytes H0 (mem s2)); [by eapply changed_weaken|by left|exact T1]. }
  exists (after_critical s2 m3). split_and!; [| |exact Hal|..].
  - unfold make_main_thread. pose proof (page_of_range (esp s)). destruct (new_page_facts [] main Hlay) as (_ & ? & ? & _).
    assert (E1 : running_thread s = Ok main s) by (unfold running_thread, gets; rewrite land_page, <- He by lia; reflexivity).
    rewrite (bind_ok _ _ _ _ _ E1).
    rewrite (bind_ok _ _ tt s s1) by reflexivity. rewrite (bind_ok _ _ main s1 s1) by reflexivity.
    change DEFAULT_THREAD_PRIO with 32. rewrite (bind_ok _ _ _ _ _ E2). fold (atag main).
    rewrite (bind_ok _ _ _ _ _ (list_exist_run _ _ (atag main) s2 F3)).
    rewrite bool_decide_false by apply not_elem_of_nil.
    erewrite bind_ok by (by apply assert_run). exact E3.
  - unfold after_critical. apply mutex_flag. change (esp s) with (esp s1). rewrite <- He2.
    change (esp s2) with (esp (set_mem m3 s2)). apply main_lock; msimpl.
    + by rewrite He2.
    + rewrite Hv2. exact Hi.
    + done.
    + eapply empty_list_frame; [exact C3| |exact F2]. intros b [Hb|Hb] Hx; [by apply (proj2 lists_apart b Hb)|].
      apply Exists_cons in Hb as [Hb|Hb%Exists_nil]; [|done]. pose proof (lay_ready_task _ Hlay main ltac:(by left)).
      pose proof (lay_fd _ Hlay). unfold within, list.sizeof in *. spoff. lia.
    + eapply fresh_mutex_frame; [exact C3| |exact F1]. intros b Hb Hx.
      apply (link_pid [] main Hlay Hhome H0 b); [by apply L3|exact Hx].
    + exact Hat.
  - msimpl. eapply main_task_frame; [exact Hlen|eapply changed_weaken; [exact C3|exact L3]| |by constructor].
    intros b Hb Hx. pose proof (lay_fd _ Hlay). apply Hlink; [by left|offsets; lia|exact Hb].
  - unfold after_critical. msimpl. by rewrite Hf2, flag_after_idem.
  - exact Hv2.
  - exact Ht2.
  - eapply changed_trans; [exact C2|]. eapply changed_weaken; [exact C3|]. intros b [Hb|Hb]; [by left|].
    apply Exists_cons in Hb as [Hb|Hb%Exists_nil]; [|done]. apply main_data. pose proof (lay_fd _ Hlay). spoff. lia.
Qed.
End MainThread.

(** ** All of [thread_init] *)

(** The idle task may be changed to any task that is alive. *)
Lemma spawn_new_idle {PL : Platform} {LK : Linker} tasks idle a al s base :
  base ∈ tasks -> s_status a base <> DIED ->
  spawn_ok tasks idle a al s -> spawn_ok tasks base a al (set_idle base s).
Proof.
  intros Hb Hd [H1 H2 [[[Hw Hr] [W1 W2 W3] [R1 R2 R3] H4] M1 M2 M3] H5 H6 H7 H8 H9 H10].
  destruct Hw. constructor; try done. constructor; try done. rewrite decide_True in * by done.
  constructor; [by split; [constructor|]|constructor; [done|done|apply not_elem_of_nil]|by constructor|done].
Qed.

(** What the machine holds when [thread_init] is called: the stack in use is at
    the end of the page [main], the heap of the kernel is in order and has
    nothing in common with the scheduler's data, and the names are strings of
    the kernel. *)
Record boot_ok {PL : Platform} {LK : Linker} (main : Z) (lm li : list Z) (s : machine) : Prop := {
  bo_lay : layout [main];
  bo_home : mutex_home [main] sym_pid_lock;
  bo_pid : 0 <= sym_pid_lock /\ sym_pid_lock + mutex_t.sizeof <= 2 ^ 32;
  bo_all : 0 <= sym_all_thread_list /\ sym_all_thread_list + list.sizeof <= 2 ^ 32;
  bo_apart : forall b, all_header b -> ~ sched_data [main] b;
  bo_fd : FD_MAX <= 856;
  bo_stack : page_of (esp s) = main;
  bo_next : next_pid (vars s) = 0;
  bo_heap : heap_ok (mem s);
  bo_admin : forall b, kernel_data [main] b -> ~ admin (mem s) b;
  bo_pages : forall j b, 0 <= j < nbits (mem s) kvaddr_bm -> bit (mem s) kvaddr_bm j = false ->
    page_bytes (kpage (mem s) j) b -> ~ kernel_data [main] b /\ ~ admin (mem s) b;
  bo_main : main_string main (mem s) (str_lit "main thread") lm;
  bo_idle : main_string main (mem s) (str_lit "idle") li;
  bo_place : name_place (mem s) (str_lit "idle") li
}.

Section Boot.
Context {PL : Platform} {LK : Linker} (main : Z) (lm li : list Z).

(** The main thread runs. *)
Lemma main_made_run s :
  boot_ok main lm li s -> idle_thread (vars s) = main ->
  exists s', (forall A (k : K A), (mutex_init sym_pid_lock;; list_init sym_ready_thread_list;;
      list_init sym_all_thread_list;; make_main_thread;; k) s = k s') /\
    spawn_ok [main] main (main_sched (esp s) (main_tcb main)) [main] s' /\
    main_task main (mem s') 0 lm /\ intr_flag s' = flag_after (intr_flag s) /\
    vars s' = set_next_pid 1 (set_main_thread main (vars s)) /\ trace s' = trace s /\
    changed_only (kernel_data [main]) (mem s) (mem s') /\
    same_pages (mem s) (mem s') /\ same_bits (mem s) (mem s').
Proof.
  intros [H1 H2 H3 H4 H5 H6 H7 H8 H9 H10 H11 [S1 S2 S3 S4] H13 H14] Hi. pose proof (lay_pte _ H1) as Hpte.
  destruct (lists_made_run main H1 H2 H3 H4 H5 s) as (m1 & E1 & Hl & C1).
  assert (C1' : changed_only (kernel_data [main]) (mem s) m1) by (eapply changed_weaken; [exact C1|apply kernel_data_nil]).
  assert (Hs : main_string main m1 (str_lit "main thread") lm).
  { constructor; try done. eapply cstr_ext; [|exact S2]. intros b Hb. apply C1'. by apply S4. }
  destruct (make_main_run main H1 H2 H4 H5 (set_mem m1 s) lm Hl H7 Hi ltac:(msimpl; by rewrite H8) Hs)
    as (s2 & E2 & Hm2 & Hal & Hmt & Hf & Hv & Ht & C2). msimpl. rewrite H8 in Hv, Hmt.
  assert (C : changed_only (kernel_data [main]) (mem s) (mem s2)) by (by eapply changed_trans).
  destruct (admin_frame Hpte (mem s) (mem s2) _ C H10 H9) as (Hh & Hsp & Hsb).
  exists s2. split_and!; try done.
  - intros A k. rewrite E1. by rewrite (bind_ok _ _ _ _ _ E2).
  - constructor; try done.
    + intros b Hb Ha. by apply (H10 b Hb), (same_admin (mem s) (mem s2)).
    + intros j b Hj Hbt Hb. rewrite (same_nbits _ _ Hsp) in Hj. rewrite (sb_virtual _ _ Hsb) in Hbt by done.
      rewrite (same_kpage _ _ j Hsp) in Hb. destruct (H11 j b Hj Hbt Hb) as [Hk Ha]. split; [done|].
      intros Hx. by apply Ha, (same_admin (mem s) (mem s2)).
Qed.
(** The system after [thread_init]: two tasks, of which the main thread runs
    and the idle one is ready. *)
Definition boot_sched (s : machine) (base : Z) : sched :=
  abs_start 10 base (main_sched (esp s) (main_tcb main)).

Lemma thread_init_run q f s :
  boot_ok main lm li s -> free_run (mem s) kvaddr_bm q 1 -> free_frame (mem s) sym_kern_pool f ->
  exists p s', let base := kpage (mem s) p in
    first_fit (mem s) kvaddr_bm 1 p /\ thread_init s = Ok tt s' /\
    spawn_ok [base; main] base (boot_sched s base) [main; base] s' /\
    main_task main (mem s') 0 lm /\ new_task (mem s') base 10 1 li fn_idle NULL /\
    vars s' = set_idle_thread base (set_next_pid 2 (set_main_thread main (vars s))) /\
    intr_flag s' = flag_after (intr_flag s) /\ same_pages (mem s) (mem s') /\
    changed_only (fun b => kernel_data [main] b \/ page_bytes base b \/ admin (mem s) b) (mem s) (mem s').
Proof.
  intros Hb Hq Hf. destruct (main_made_run (set_idle main s)) as (s2 & E & Hok & Hmt & Hf2 & Hv2 & _ & C2 & Hsp & Hsb);
    [destruct Hb; by constructor|done|].
  change (mem (set_idle main s)) with (mem s) in *. destruct Hb as [H1 H2 H3 H4 H5 H6 H7 H8 H9 H10 H11 Hs1 [S1 S2 S3 S4] H14].
  destruct (thread_start_run [main] main (main_sched (esp s) (main_tcb main)) [main] s2 (str_lit "idle") li 10 fn_idle NULL q f
    Hok H6) as (p & s3 & Hfit & E3 & Hok3 & Hnt & Hv3 & Hf3 & _ & Hsp3 & C3).
  - constructor; [done|done| |done|].
    + eapply cstr_ext; [|exact S2]. intros b Hb. apply C2. by apply S4.
    + intros b Hb. destruct (H14 b Hb) as [Ha Hp]. split; [intros Hx; by apply Ha, (same_admin (mem s) (mem s2))|].
      intros j Hj Hbt. rewrite (same_nbits _ _ Hsp) in Hj. rewrite (sb_virtual _ _ Hsb) in Hbt by done.
      rewrite (same_kpage _ _ j Hsp). by apply Hp.
  - by rewrite Hv2.
  - rewrite Hv2. by left.
  - by apply (free_run_same (mem s)).
  - by apply (free_frame_same (mem s)).
  - cbv zeta in *. rewrite (same_kpage _ _ p Hsp) in *. set (base := kpage (mem s) p) in *.
    rewrite Hv2 in *. apply (first_fit_same (mem s) (mem s2)) in Hfit; [|done|done].
    exists p, (set_idle base s3). cbv zeta. fold base. split_and!; [done| | | |exact Hnt|..].
    + apply (thread_init_from main). unfold before_idle. by rewrite E.
    + apply (spawn_new_idle _ main); [by left| |exact Hok3]. unfold boot_sched, abs_start, s_status. cbn.
      by rewrite decide_True.
    + pose proof (lay_fd _ H1) as Hfd. destruct Hfit as ((P1 & P2 & P3) & _).
      assert (Hpage : forall b, page_bytes base b -> ~ kernel_data [main] b)
        by (intros b Hb; by apply (H11 p b ltac:(lia) (P3 p ltac:(lia)))).
      eapply main_task_frame; [done|apply (ms_length _ _ _ _ Hs1)|exact C3| |exact Hmt].
      intros b Hb Hx. assert (Hm : page_bytes main b) by (unfold page_bytes; offsets; lia).
      destruct Hb as [[Hb|Hb]|[Hb|Hb]].
      * by destruct (Hpage b Hb (main_data main b Hm)).
      * apply (same_admin (mem s)) in Hb; [|done]. by destruct (H10 b (main_data main b Hm) Hb).
      * by destruct (pid_bytes_page [main] main b H2 ltac:(by left) Hb).
      * apply (link_page [main] base (sp_lay _ _ _ _ _ Hok3) Hpage H5 main b); [by right; left|exact Hm|exact Hb].
    + change (vars (set_idle base s3)) with (set_idle_thread base (vars s3)). by rewrite Hv3.
    + change (intr_flag (set_idle base s3)) with (intr_flag s3). by rewrite Hf3, Hf2, flag_after_idem.
    + by eapply same_pages_trans.
    + change (mem (set_idle base s3)) with (mem s3).
      eapply changed_trans; [eapply changed_weaken; [exact C2|by left]|]. eapply changed_weaken; [exact C3|].
      intros b [[Hb|Hb]|[Hb|Hb]]; [by right; left| |by left; right; apply pid_bytes_data|].
      * right. right. by apply (same_admin (mem s) (mem s2)).
      * destruct (link_places [main] base b (sp_lay _ _ _ _ _ Hok3) Hb); [by left|by right; left].
Qed.

(** C10: [thread_init] establishes what every operation of the scheduler relies
    on.  Whatever the lists, the lock and the page of the running code held, it
    makes the running code the main thread, with process id 0 and priority 32,
    and gives the first free page to the idle thread, with process id 1, ready
    and alone in the queue; both are in the list of all threads, [idle_thread]
    and [main_thread] name them, and the invariant of the scheduler and that of
    the creation of threads hold.  Nothing it calls looks at [idle_thread],
    which is unset until its last statement. *)
Theorem thread_init_establishes q f s :
  boot_ok main lm li s -> free_run (mem s) kvaddr_bm q 1 -> free_frame (mem s) sym_kern_pool f ->
  exists p s', let base := kpage (mem s) p in
    first_fit (mem s) kvaddr_bm 1 p /\ thread_init s = Ok tt s' /\
    inv [base; main] base (boot_sched s base) /\ runs [base; main] base (boot_sched s base) s' /\
    spawn_ok [base; main] base (boot_sched s base) [main; base] s' /\
    main_task main (mem s') 0 lm /\ new_task (mem s') base 10 1 li fn_idle NULL /\
    vars s' = set_idle_thread base (set_next_pid 2 (set_main_thread main (vars s))).
Proof.
  intros Hb Hq Hf. destruct (thread_init_run q f s Hb Hq Hf) as (p & s' & Hfit & E & Hok & Hm & Hn & Hv & _).
  exists p, s'. cbv zeta in *. pose proof (ms_sem _ _ _ _ _ _ _ _ (sp_mutex _ _ _ _ _ Hok)) as [Hi _ Hr _].
  by split_and!.
Qed.
End Boot.

(** *** A concrete instance *)

Lemma demo_main_sched b : sched_data [demo_main] b -> sched_data demo_tasks b.
Proof.
  intros [Hb|[Hb|[Hb|Hb]]]; [by left|by right; left|by right; right; left|].
  right. right. right. apply Exists_cons in Hb as [Hb|Hb%Exists_nil]; [|done]. by left.
Qed.

Lemma demo_main_data b : kernel_data [demo_main] b -> kernel_data demo_tasks b.
Proof. intros [Hb|Hb]; [by left|right; by apply demo_main_sched]. Qed.

Lemma demo_name_string : main_string demo_main (mem demo_spawn_machine) 0xc0003000 [104; 105].
Proof.
  constructor; [done|apply demo_start_args|cbn; lia|].
  intros b Hb Hx%demo_main_data%demo_data. cbn [length] in Hb. lia.
Qed.

Lemma demo_boot_ok : boot_ok demo_main [104; 105] [104; 105] demo_spawn_machine.
Proof.
  pose proof demo_layout as [L1 L2 L3 L4 L5 L6 L7 L8]. pose proof demo_mutex_home as [[[M1 [M1' M2]] M3 M4 M5 M6] M7 M8 M9].
  assert (Hin : forall t, t ∈ [demo_main] -> t ∈ demo_tasks) by (intros t ->%list_elem_of_singleton; by left).
  pose proof demo_spawn_ok as [_ _ _ _ S5 S6 S7 S8 S9].
  constructor.
  - constructor; auto.
  - constructor; [constructor; [split_and!|..]|..]; auto.
  - done.
  - done.
  - intros b Hb Hx. by apply (S6 b Hb), demo_main_sched.
  - done.
  - done.
  - done.
  - exact S7.
  - intros b Hb. by apply S8, demo_main_data.
  - intros j b Hj Hbt Hb. destruct (S9 j b Hj Hbt Hb) as [Hk Ha]. split; [intros Hx; by apply Hk, demo_main_data|exact Ha].
  - exact demo_name_string.
  - exact demo_name_string.
  - apply (ar_place _ _ _ _ demo_start_args).
Qed.

Lemma thread_init_establishes_witness :
  exists p s', let base := kpage (mem demo_spawn_machine) p in
    first_fit (mem demo_spawn_machine) kvaddr_bm 1 p /\ thread_init demo_spawn_machine = Ok tt s' /\
    inv [base; demo_main] base (boot_sched demo_main demo_spawn_machine base) /\
    runs [base; demo_main] base (boot_sched demo_main demo_spawn_machine base) s' /\
    spawn_ok [base; demo_main] base (boot_sched demo_main demo_spawn_machine base) [demo_main; base] s' /\
    main_task demo_main (mem s') 0 [104; 105] /\ new_task (mem s') base 10 1 [104; 105] fn_idle NULL /\
    vars s' = set_idle_thread base (set_next_pid 2 (set_main_thread demo_main (vars demo_spawn_machine))).
Proof.
  exact (thread_init_establishes demo_main [104; 105] [104; 105] 1 1 demo_spawn_machine demo_boot_ok
    demo_spawn_run demo_spawn_frame).
Defined.
