(* ===== verification/Process.v ===== *)
(** * User processes (proc/process.c)

    A process is a thread with an address space of its own: a page directory
    that shares the kernel's upper quarter, and a pool of user pages. *)

From S2P Require Import Prelude Machine Concrete Interrupt CString Bitmap DList Paging Tss Sched Lock Memory Malloc Thread.

#[local] Open Scope Z_scope.

Definition USER_STACK_VADDR : Z := 0xc0000000 - 0x1000.
Definition USER_VADDR_START : Z := 0x8048000.

Definition EFLAGS_MBS : Z := Z.shiftl 1 1.
Definition EFLAGS_IF_1 : Z := Z.shiftl 1 9.
Definition EFLAGS_IOPL_0 : Z := Z.shiftl 0 12.

Section Process.
Context {PL : Platform} {LK : Linker}.

(** The jump to [intr_exit] leaves the kernel: nothing after it is executed. *)
Definition start_process (prog : Z) : K unit :=
  curr ← running_thread;
  k ← ld32 (curr + task_struct.kstack);
  st32 (curr + task_struct.kstack) (u32 (k + 4 * thread_stack.sizeof));;
  proc_context ← ld32 (curr + task_struct.kstack);
  st32 (proc_context + intr_stack.edi) 0;;
  st32 (proc_context + intr_stack.esi) 0;;
  st32 (proc_context + intr_stack.ebp) 0;;
  st32 (proc_context + intr_stack.esp_dummy) 0;;
  st32 (proc_context + intr_stack.ebx) 0;;
  st32 (proc_context + intr_stack.edx) 0;;
  st32 (proc_context + intr_stack.ecx) 0;;
  st32 (proc_context + intr_stack.eax) 0;;
  st32 (proc_context + intr_stack.gs) 0;;
  st32 (proc_context + intr_stack.ds) SELECTOR_U_DATA;;
  st32 (proc_context + intr_stack.es) SELECTOR_U_DATA;;
  st32 (proc_context + intr_stack.fs) SELECTOR_U_DATA;;
  st32 (proc_context + intr_stack.eip) prog;;
  st32 (proc_context + intr_stack.cs) SELECTOR_U_CODE;;
  st32 (proc_context + intr_stack.eflags) (Z.lor (Z.lor EFLAGS_IOPL_0 EFLAGS_MBS) EFLAGS_IF_1);;
  page ← get_page PF_USER USER_STACK_VADDR;
  st32 (proc_context + intr_stack.esp) (u32 (page + PAGE_SIZE));;
  st32 (proc_context + intr_stack.ss) SELECTOR_U_DATA;;
  modify (set_esp proc_context);;
  emit (IntrExit proc_context);;
  spin.

Definition create_user_vaddr_bitmap (prog : Z) : K unit :=
  let length := (0xc0000000 - USER_VADDR_START) / PAGE_SIZE / 8 in
  let bitmap_page_cnt := DIV_ROUND_UP length PAGE_SIZE in
  st32 (prog + task_struct.user_vaddr + virtual_addr.vaddr_start) USER_VADDR_START;;
  bits ← get_kern_pages bitmap_page_cnt;
  st32 (prog + task_struct.user_vaddr + virtual_addr.vaddr_bitmap + bitmap.bits) bits;;
  bitmap_init (prog + task_struct.user_vaddr + virtual_addr.vaddr_bitmap) length.

Definition create_page_dir : K Z :=
  page_dir_vaddr ← get_kern_pages 1;
  when (page_dir_vaddr =? NULL)
    (panic_spin "proc/process.c" 62 "create_page_dir" "get kernel page fail!");;
  let user_pde_kern_part := u32 (page_dir_vaddr + 0x300 * 4) in
  let kern_pde_kern_part := 0xfffff000 + 0x300 * 4 in
  memcpy user_pde_kern_part kern_pde_kern_part 1024;;
  new_page_dir_phy_addr ← vaddr_to_phy page_dir_vaddr;
  st32 (page_dir_vaddr + 4 * 1023) (Z.lor new_page_dir_phy_addr PAGE_FLAGS);;
  mret page_dir_vaddr.

Definition process_execute (prog name : Z) : K unit :=
  thread ← get_kern_pages 1;
  task_struct_init thread name DEFAULT_THREAD_PRIO;;
  create_user_vaddr_bitmap thread;;
  thread_create thread fn_start_process prog;;
  dir ← create_page_dir;
  st32 (thread + task_struct.page_dir) dir;;
  mem_block_init (thread + task_struct.um_block_descs);;
  status ← INTERRUPT_DISABLE;
  ex ← list_exist sym_all_thread_list (thread + task_struct.all_list_tag);
  ASSERT (negb ex) "proc/process.c" 85 "process_execute"
    "list_exist(&all_thread_list, &thread->all_list_tag) == false";;
  ex ← list_exist sym_ready_thread_list (thread + task_struct.gene_list_tag);
  ASSERT (negb ex) "proc/process.c" 86 "process_execute"
    "list_exist(&ready_thread_list, &thread->gene_list_tag) == false";;
  list_push_back sym_all_thread_list (thread + task_struct.all_list_tag);;
  list_push_back sym_ready_thread_list (thread + task_struct.gene_list_tag);;
  INTERRUPT_RESTORE status.
End Process.
