(* ===== verification/Exec.v ===== *)
(** * Executing a program (proc/process.c: process_execute)

    A process is a task with a page directory and a pool of user addresses of
    its own: the composition of the page allocator, the creation of threads,
    the bitmaps, the page tables and the two lists of threads. *)

From S2P Require Import Prelude Machine Concrete Interrupt CString Bitmap DList Paging Tss Sched Lock Memory Malloc Heap HeapGrow PageFree HeapLarge KernPages MemInit Thread Spawn Process.

#[local] Open Scope Z_scope.

(** ** Several pages in a row *)
Section Supply.
Context {PL : Platform} {LK : Linker}.

(** Enough for [n] more pages: a run of free ones from [q] on, and frames. *)
Record supply (m : memory) (q n : Z) (fs : list Z) : Prop := {
  su_run : free_run m kvaddr_bm q n;
  su_nodup : NoDup fs;
  su_free : forall f, f ∈ fs -> free_frame m sym_kern_pool f;
  su_length : n <= Z.of_nat (length fs)
}.

Lemma supply_keep m m' q n fs : same_pages m m' -> same_bits m m' -> supply m q n fs -> supply m' q n fs.
Proof.
  intros Hs Hb [(R1 & R2 & R3) H2 H3 H4]. constructor; try done.
  - split_and!; [done|by rewrite (same_nbits _ _ Hs)|]. intros j Hj. rewrite (sb_virtual _ _ Hb) by lia. by apply R3.
  - intros f Hf. destruct (H3 f Hf) as [F1 F2]. split; [by rewrite (same_frames _ _ Hs)|]. by rewrite (sb_frames _ _ Hb).
Qed.

Lemma free_run_back m m' p n :
  same_pages m m' -> same_bits m m' -> free_run m' kvaddr_bm p n -> free_run m kvaddr_bm p n.
Proof.
  intros Hs Hb (F1 & F2 & F3). rewrite (same_nbits _ _ Hs) in F2. split_and!; [done|done|].
  intros j Hj. rewrite <- (sb_virtual _ _ Hb) by lia. by apply F3.
Qed.

(** Pages that are free after some were taken were free before. *)
Lemma free_run_taken m n p ps m' p' n' :
  run_for m n p ps m' -> free_run m' kvaddr_bm p' n' -> free_run m kvaddr_bm p' n'.
Proof.
  intros Hr (F1 & F2 & F3). rewrite (same_nbits _ _ (rf_same _ _ _ _ _ Hr)) in F2. split_and!; [done|done|].
  intros j Hj. specialize (F3 j Hj). rewrite (rf_virtual _ _ _ _ _ Hr) in F3 by lia. by apply orb_false_iff in F3 as [_ ?].
Qed.

(** The elements of a list that are not in another one. *)
Lemma filter_not_in (fs ps : list Z) :
  NoDup fs -> (length fs <= length ps + length (filter (.∉ ps) fs))%nat.
Proof.
  intros Hn. rewrite <- (length_app ps). apply submseteq_length, NoDup_submseteq; [done|].
  intros x Hx. rewrite elem_of_app, list_elem_of_filter. destruct (decide (x ∈ ps)); tauto.
Qed.

(** The first fit is at or before the run, so the rest of the run is left. *)
Lemma supply_take m n k p ps m' q fs :
  run_for m n p ps m' -> 0 <= n -> 0 <= k -> supply m q (n + k) fs -> exists fs', supply m' (q + n) k fs'.
Proof.
  intros Hr Hn Hk [(R1 & R2 & R3) H2 H3 H4]. pose proof (rf_same _ _ _ _ _ Hr) as Hs.
  pose proof (proj2 (rf_fit _ _ _ _ _ Hr) q) as Hle.
  assert (Hpq : p <= q) by (apply Hle; split_and!; [done|lia|]; intros j Hj; apply R3; lia).
  exists (filter (.∉ ps) fs). constructor.
  - split_and!; [lia|rewrite (same_nbits _ _ Hs); lia|]. intros j Hj.
    rewrite (rf_virtual _ _ _ _ _ Hr) by lia. rewrite bool_decide_false by lia. apply R3. lia.
  - by apply NoDup_filter.
  - intros f [Hf1 Hf]%list_elem_of_filter. destruct (H3 f Hf) as [F1 F2].
    split; [by rewrite (same_frames _ _ Hs)|]. rewrite (rf_frames _ _ _ _ _ Hr) by done. by rewrite bool_decide_false.
  - pose proof (filter_not_in fs ps H2). pose proof (rf_len _ _ _ _ _ Hr). lia.
Qed.
End Supply.

(** A copied word. *)
Lemma get32_copied m d a n x :
  (0 <= x /\ x + 4 <= Z.of_nat n) ->
  get32 (put_bytes m d (get_bytes m a n)) (d + x) = get32 m (a + x).
Proof.
  intros Hx. assert (H8 : forall y, 0 <= y < Z.of_nat n -> get8 (put_bytes m d (get_bytes m a n)) (d + y) = get8 m (a + y)).
  { intros y Hy. replace y with (Z.of_nat (Z.to_nat y)) by lia.
    rewrite (get8_put_bytes _ _ _ _ (get8 m (a + Z.of_nat (Z.to_nat y)))) by (apply get_bytes_lookup; lia).
    apply u8_small, get8_range. }
  unfold get32, get16. rewrite <- !Z.add_assoc. by rewrite !H8 by lia.
Qed.

(** ** Steps that take pages and write to pages of one's own *)
Section Steps.
Context {PL : Platform} {LK : Linker} (tasks : list Z) (idle : Z).

(** From [m] to [m'] pages may have been taken; on the pages that were taken
    before, only [W] was written. *)
Record grown (W : Z -> Prop) (m m' : memory) : Prop := {
  gr_same : same_pages m m';
  gr_own : forall j, own_page tasks m j -> own_page tasks m' j;
  gr_kept : forall j b, own_page tasks m j -> page_bytes (kpage m j) b -> ~ W b -> get8 m' b = get8 m b;
  gr_free : forall p n, free_run m' kvaddr_bm p n -> free_run m kvaddr_bm p n
}.

Lemma own_not_free m j p n : own_page tasks m j -> free_run m kvaddr_bm p n -> ~ p <= j < p + n.
Proof. intros [_ H _] (_ & _ & Hf) Hj. by rewrite Hf in H. Qed.

Lemma grown_trans W1 W2 m1 m2 m3 :
  grown W1 m1 m2 -> grown W2 m2 m3 -> grown (fun b => W1 b \/ W2 b) m1 m3.
Proof.
  intros [A1 A2 A3 A4] [B1 B2 B3 B4]. constructor; [by eapply same_pages_trans|auto| |auto].
  intros j b Hj Hb HW. rewrite (B3 j), (A3 j); [done|done|done|tauto|by apply A2|by rewrite (same_kpage _ _ j A1)|tauto].
Qed.

Lemma grown_weaken (W W' : Z -> Prop) m m' :
  grown W m m' -> (forall j b, own_page tasks m j -> page_bytes (kpage m j) b -> W b -> W' b) -> grown W' m m'.
Proof. intros [H1 H2 H3 H4] HW. constructor; [done|done| |done]. intros j b Hj Hb Hn. apply (H3 j b Hj Hb). eauto. Qed.

Lemma grown_get32 W m m' j w :
  grown W m m' -> own_page tasks m j -> (forall b, w <= b < w + 4 -> page_bytes (kpage m j) b /\ ~ W b) ->
  get32 m' w = get32 m w.
Proof. intros [_ _ Hk _] Hj HW. apply get32_ext. intros b Hb. destruct (HW b Hb). by apply (Hk j). Qed.

(** Writes to such pages; the allocator's data is not changed. *)
Lemma write_step a al s (W : Z -> Prop) m' :
  spawn_ok tasks idle a al s -> changed_only W (mem s) m' ->
  (forall b, W b -> exists j, own_page tasks (mem s) j /\ page_bytes (kpage (mem s) j) b) ->
  spawn_ok tasks idle a al (set_mem m' s) /\ grown W (mem s) m' /\
  (forall b, admin (mem s) b -> get8 m' b = get8 (mem s) b) /\
  forall q n fs, supply (mem s) q n fs -> supply m' q n fs.
Proof.
  intros Hok Hc HW. destruct (own_write tasks idle a al s W m' Hok Hc HW) as (H1 & H2 & H3 & H4 & H5).
  split_and!; [done|constructor; [done|done| |]|done|].
  - intros j b _ _ Hb. by apply Hc.
  - intros p n. by apply free_run_back.
  - intros q n fs. by apply supply_keep.
Qed.

(** Pages are taken. *)
Lemma take_step a al s n q k fs :
  spawn_ok tasks idle a al s -> 1 <= n < 3840 -> 0 <= k -> supply (mem s) q (n + k) fs ->
  exists p ps m', get_kern_pages n s = Ok (kpage (mem s) p) (set_mem m' s) /\ run_for (mem s) n p ps m' /\
    spawn_ok tasks idle a al (set_mem m' s) /\ grown (fun _ => False) (mem s) m' /\
    free_run (mem s) kvaddr_bm p n /\
    (forall j, p <= j < p + n -> own_page tasks m' j) /\ exists fs', supply m' (q + n) k fs'.
Proof.
  intros Hok Hn Hk Hsu. pose proof Hsu as [(R1 & R2 & R3) H2 H3 H4].
  destruct (get_kern_pages_run (lay_pte _ (sp_lay _ _ _ _ _ Hok)) n q fs s (sp_heap _ _ _ _ _ Hok) Hn)
    as (p & ps & m' & E & Hr); [split_and!; [done|lia|]; intros j Hj; apply R3; lia|done|done|lia| |].
  { intros j b Hj Hb Hx. by apply (sp_pages _ _ _ _ _ Hok j b Hj Hb). }
  destruct (spawn_take tasks idle a al s n p ps m' Hok Hr) as (Hok' & Hown & _).
  assert (Hold := fun j => own_take tasks (mem s) n p ps m' j Hr).
  exists p, ps, m'. split_and!; try done; [constructor|..|by eapply supply_take; [exact Hr|lia| |exact Hsu]].
  - apply Hr.
  - intros j Hj. by apply Hold.
  - intros j b Hj Hb _. apply (rf_frame _ _ _ _ _ Hr). intros [Hx|Hx]; [|by apply (ow_apart _ _ _ Hj b)].
    destruct (run_page _ _ _ _ Hx) as (i & Hi & Hx2). destruct (Hold j Hj) as (_ & _ & Hne).
    apply (own_apart (mem s) i j b); [by intros ->|done|done].
  - intros p' n'. by apply (free_run_taken _ _ _ _ _ p' n' Hr).
  - apply Hr.
Qed.

(** *** The pool of user addresses *)

(** The task at [base] has the free user addresses from [USER_VADDR_START] to
    the kernel's, its bitmap at [bits]. *)
Definition uvaddr (base : Z) : Z := base + task_struct.user_vaddr.
Definition uvaddr_bm (base : Z) : Z := uvaddr base + virtual_addr.vaddr_bitmap.
Definition user_map_bytes : Z := 94199.

Record user_pool (m : memory) (base bits : Z) : Prop := {
  up_start : get32 m (uvaddr base + virtual_addr.vaddr_start) = USER_VADDR_START;
  up_ok : bitmap_ok m (uvaddr_bm base);
  up_length : bm_length m (uvaddr_bm base) = user_map_bytes;
  up_bits : bm_bits m (uvaddr_bm base) = bits;
  up_free : forall j, 0 <= j < nbits m (uvaddr_bm base) -> bit m (uvaddr_bm base) j = false
}.

Lemma user_pool_ext m m' base bits :
  (forall b, within (uvaddr base) 12 b \/ within bits user_map_bytes b -> get8 m' b = get8 m b) ->
  user_pool m base bits -> user_pool m' base bits.
Proof.
  intros Hk [H1 [H2 H2'] H3 H4 H5]. unfold uvaddr_bm in *.
  assert (Hw : forall w, 0 <= w <= 8 -> get32 m' (uvaddr base + w) = get32 m (uvaddr base + w)).
  { intros w Hw. apply get32_ext. intros b Hb. apply Hk. left. unfold within. lia. }
  assert (El : bm_length m' (uvaddr base + virtual_addr.vaddr_bitmap) = user_map_bytes).
  { rewrite <- H3. unfold bm_length. rewrite <- !Z.add_assoc. by apply Hw. }
  assert (Eb : bm_bits m' (uvaddr base + virtual_addr.vaddr_bitmap) = bits).
  { rewrite <- H4. unfold bm_bits. rewrite <- !Z.add_assoc. by apply Hw. }
  constructor; unfold uvaddr_bm; [by rewrite <- H1; apply Hw| |done|done|].
  - constructor; unfold uvaddr_bm, nbits in *; rewrite El, ?Eb; [by rewrite <- H3|]. by rewrite <- H3, <- H4.
  - intros j. unfold nbits in *. rewrite El, <- H3. intros Hj. rewrite <- (H5 j Hj). unfold bit. rewrite Eb, H4.
    f_equal. apply Hk. right. unfold within. rewrite H3 in Hj. unfold user_map_bytes in *. zlia.
Qed.

(** The bytes of the task structure that are involved are on its page. *)
Lemma uvaddr_page base b : 0 <= FD_MAX <= 900 -> within (uvaddr base) 12 b -> page_bytes base b.
Proof. unfold uvaddr, within, page_bytes. offsets. lia. Qed.

(** A bitmap for it on the pages [p2 .. p2 + 22]. *)
Lemma user_map_run a al s p p2 :
  let base := kpage (mem s) p in let bits := kpage (mem s) p2 in
  spawn_ok tasks idle a al s -> own_page tasks (mem s) p -> (forall j, p2 <= j < p2 + 23 -> own_page tasks (mem s) j) ->
  ~ p2 <= p < p2 + 23 -> get32 (mem s) (uvaddr base + virtual_addr.vaddr_start) = USER_VADDR_START ->
  exists m', (st32 (uvaddr_bm base + bitmap.bits) bits;; bitmap_init (uvaddr_bm base) user_map_bytes) s
      = Ok tt (set_mem m' s) /\
    spawn_ok tasks idle a al (set_mem m' s) /\
    grown (fun b => within (uvaddr base) 12 b \/ within bits user_map_bytes b) (mem s) m' /\
    (forall q n fs, supply (mem s) q n fs -> supply m' q n fs) /\ user_pool m' base bits.
Proof.
  intros base bits Hok Hown Hnew Hne Hst. pose proof (lay_fd _ (sp_lay _ _ _ _ _ Hok)) as Hfd.
  destruct (kpage_range (mem s) p (sp_heap _ _ _ _ _ Hok) (ow_range _ _ _ Hown)) as (B1 & B2 & B3). fold base in B1, B2, B3.
  assert (Eu : uvaddr base = base + (56 + 4 * FD_MAX)) by done.
  destruct (kpage_range (mem s) p2 (sp_heap _ _ _ _ _ Hok) (ow_range _ _ _ (Hnew p2 ltac:(lia)))) as (K1 & _).
  destruct (kpage_range (mem s) (p2 + 22) (sp_heap _ _ _ _ _ Hok) (ow_range _ _ _ (Hnew (p2 + 22) ltac:(lia)))) as (_ & K2 & _).
  fold bits in K1. assert (Hap : base + 4096 <= bits \/ bits + 4096 * 23 <= base)
    by (unfold base, bits, kpage; change PAGE_SIZE with 4096; lia).
  assert (K3 : bits + 4096 * 23 <= 0xffc00000) by (unfold bits, kpage in *; change PAGE_SIZE with 4096 in *; lia).
  set (m1 := put32 (mem s) (uvaddr_bm base + bitmap.bits) bits).
  assert (Eb : bm_bits m1 (uvaddr_bm base) = bits) by (unfold bm_bits, m1; rewrite get32_put32_eq; apply u32_small; lia).
  destruct (bitmap_init_run (uvaddr_bm base) bits user_map_bytes (set_mem m1 s) Eb) as (m2 & E & L & B & O & F & C);
    [lia|done|unfold uvaddr_bm, user_map_bytes, virtual_addr.vaddr_bitmap, bitmap.sizeof; lia|]. msimpl.
  unfold uvaddr_bm, virtual_addr.vaddr_bitmap, virtual_addr.vaddr_start, bitmap.bits, bitmap.sizeof, within in *.
  assert (C2 : changed_only (fun b => uvaddr base <= b < uvaddr base + 8 \/ within bits user_map_bytes b) (mem s) m2).
  { unfold within. eapply changed_trans; [|eapply changed_weaken; [exact C|intros b; cbv beta; lia]].
    intros b Hb. unfold m1. apply get8_put32_ne. lia. }
  destruct (write_step a al s _ m2 Hok C2) as (Hok2 & G & _ & Su).
  { intros b [Hb|Hb].
    - exists p. split; [done|]. apply (uvaddr_page base); [done|]. unfold within. lia.
    - destruct (run_page (mem s) p2 23 b) as (j & Hj & Hjb); [|exists j; by split; [apply Hnew|]].
      unfold run_bytes, within, user_map_bytes in *. fold bits. lia. }
  exists m2. split_and!; [exact E|exact Hok2| |exact Su|].
  - eapply grown_weaken; [exact G|]. unfold within. lia.
  - constructor; try done. rewrite <- Hst. apply (changed_get32 _ _ _ _ C2).
    unfold virtual_addr.vaddr_start, within, user_map_bytes. lia.
Qed.

Lemma user_vaddr_run a al s p q k fs :
  let base := kpage (mem s) p in
  spawn_ok tasks idle a al s -> own_page tasks (mem s) p -> 0 <= k -> supply (mem s) q (23 + k) fs ->
  exists p2 m', create_user_vaddr_bitmap base s = Ok tt (set_mem m' s) /\
    spawn_ok tasks idle a al (set_mem m' s) /\ grown (within (uvaddr base) 12) (mem s) m' /\
    free_run (mem s) kvaddr_bm p2 23 /\
    (forall j, p2 <= j < p2 + 23 -> own_page tasks m' j) /\ (exists fs', supply m' (q + 23) k fs') /\
    user_pool m' base (kpage (mem s) p2).
Proof.
  intros base Hok Hown Hk Hsu. pose proof (lay_fd _ (sp_lay _ _ _ _ _ Hok)) as Hfd.
  set (m1 := put32 (mem s) (uvaddr base + virtual_addr.vaddr_start) USER_VADDR_START).
  assert (C1 : changed_only (within (uvaddr base) 12) (mem s) m1)
    by (intros b Hb; apply get8_put32_ne; unfold within, virtual_addr.vaddr_start in *; lia).
  destruct (write_step a al s _ m1 Hok C1) as (Hok1 & G1 & _ & Su1);
    [intros b Hb; exists p; split; [done|by apply uvaddr_page]|].
  destruct (take_step a al (set_mem m1 s) 23 q k fs Hok1 ltac:(lia) Hk (Su1 _ _ _ Hsu))
    as (p2 & ps & m2 & E2 & _ & Hok2 & G2 & Hold2 & Hnew2 & fs2 & Su2). msimpl.
  assert (E1 : forall j, kpage m1 j = kpage (mem s) j) by (intros j; apply same_kpage, G1).
  assert (Ek : forall j, kpage m2 j = kpage (mem s) j) by (intros j; rewrite <- E1; apply same_kpage, G2).
  assert (Hown1 := gr_own _ _ _ G1 p Hown). rewrite E1 in E2.
  destruct (user_map_run a al (set_mem m2 s) p p2) as (m3 & E3 & Hok3 & G3 & Su3 & Hup); msimpl.
  { done. } { by apply G2. } { done. } { by eapply own_not_free. }
  { rewrite Ek. fold base. rewrite (grown_get32 _ _ _ p _ G2 Hown1).
    - unfold m1. rewrite get32_put32_eq. by vm_compute.
    - intros b Hb. rewrite E1. split; [|by intros []]. apply (uvaddr_page base); [done|]. unfold within, virtual_addr.vaddr_start in *. lia. }
  rewrite !Ek in *. fold base in E3, G3, Hup. exists p2, m3.
  split_and!; [|done| | | |by eexists; eapply Su3|done].
  - unfold create_user_vaddr_bitmap. cbv zeta. erewrite bind_ok by reflexivity. cbv beta.
    match goal with |- context [DIV_ROUND_UP ?x ?y] => replace (DIV_ROUND_UP x y) with 23 by (vm_compute; reflexivity) end.
    etransitivity; [exact (bind_ok _ _ _ _ _ E2)|]. exact E3.
  - eapply grown_weaken; [exact (grown_trans _ _ _ _ _ G1 (grown_trans _ _ _ _ _ G2 G3))|].
    intros j b Hj Hb [Hx|[[]|[Hx|Hx]]]; [done|done|]. destruct (run_page (mem s) p2 23 b) as (i & Hi & Hib).
    { unfold run_bytes, within, user_map_bytes in *. lia. }
    destruct (own_not_free _ j _ _ (gr_own _ _ _ G1 j Hj) Hold2). destruct (decide (i = j)) as [->|Hij]; [done|].
    by destruct (own_apart (mem s) i j b Hij Hib Hb).
  - by apply (gr_free _ _ _ G1).
  - intros j Hj. by apply G3, Hnew2.
Qed.

(** *** The page directory *)

(** [dir] is a page directory that shares the kernel's quarter of the address
    space, has nothing below it, and maps itself with its last entry; it is in
    the frame [f]. *)
Record page_directory (m : memory) (dir f : Z) : Prop := {
  pg_user : forall i, 0 <= i < 768 -> get32 m (dir + 4 * i) = 0;
  pg_kernel : forall i, 768 <= i < 1023 -> get32 m (dir + 4 * i) = get32 m (0xfffff000 + 4 * i);
  pg_self : get32 m (dir + 4 * 1023) = frame m sym_kern_pool f + PAGE_FLAGS;
  pg_mapped : mapped m dir (frame m sym_kern_pool f)
}.

Lemma page_directory_frame m m' P dir f :
  changed_only P m m' -> same_pages m m' -> (forall v, pte_ptr_ret v = v) -> 0 <= dir -> dir + 4096 <= 0xffc00000 ->
  (forall b, P b -> ~ admin m b /\ ~ page_bytes dir b) -> page_directory m dir f -> page_directory m' dir f.
Proof.
  intros Hc Hs Hpte D1 D2 HP [H1 H2 H3 H4].
  assert (Hd : forall i, 0 <= i < 1024 -> get32 m' (dir + 4 * i) = get32 m (dir + 4 * i)).
  { intros i Hi. apply (changed_get32 _ _ _ _ Hc). intros b Hb Hx. apply (proj2 (HP b Hx)). unfold page_bytes. lia. }
  constructor.
  - intros i Hi. rewrite Hd by lia. by apply H1.
  - intros i Hi. rewrite Hd, H2 by lia. symmetry. apply (changed_get32 _ _ _ _ Hc). intros b Hb Hx.
    apply (proj1 (HP b Hx)). unfold admin. lia.
  - rewrite (same_frame _ _ f Hs). by rewrite Hd.
  - rewrite (same_frame _ _ f Hs). eapply mapped_frame; [done|exact Hc| |lia|exact H4]. intros b Hb. by apply HP.
Qed.

(** What [create_page_dir] writes to the page. *)
Definition dir_written (m : memory) (dir e : Z) : memory :=
  put32 (put_bytes m (dir + 0x300 * 4) (get_bytes m (0xfffff000 + 0x300 * 4) 1024)) (dir + 4 * 1023) e.

Lemma dir_written_page m dir e : changed_only (page_bytes dir) m (dir_written m dir e).
Proof.
  intros b Hb. unfold page_bytes in Hb. unfold dir_written. rewrite get8_put32_ne by lia.
  apply get8_put_bytes_ne. rewrite length_get_bytes. lia.
Qed.

Lemma dir_written_entries m dir f :
  (forall v, pte_ptr_ret v = v) -> 0 <= dir -> dir + 4096 <= 0xffc00000 ->
  (forall b, page_bytes dir b -> get8 m b = 0) -> (forall b, page_bytes dir b -> ~ admin m b) ->
  let fr := frame m sym_kern_pool f in 0 <= fr -> fr + PAGE_FLAGS < 2 ^ 32 -> mapped m dir fr ->
  let m' := dir_written m dir (fr + PAGE_FLAGS) in same_pages m m' -> page_directory m' dir f.
Proof.
  intros Hpte D1 D2 Hz Ha fr F1 F2 Hmap m' Hs. assert (Hc := dir_written_page m dir (fr + PAGE_FLAGS)). fold m' in Hc.
  constructor.
  - intros i Hi. assert (Z8 : forall b, dir <= b < dir + 0xc00 -> get8 m' b = 0).
    { intros b Hb. rewrite <- (Hz b) by (unfold page_bytes; lia). unfold m', dir_written.
      rewrite get8_put32_ne by lia. apply get8_put_bytes_ne. rewrite length_get_bytes. lia. }
    unfold get32, get16. by rewrite !Z8 by lia.
  - intros i Hi. transitivity (get32 m (0xfffff000 + 4 * i)).
    + unfold m', dir_written. rewrite get32_put32_ne by lia.
      replace (dir + 4 * i) with (dir + 0x300 * 4 + (4 * i - 0x300 * 4)) by lia. rewrite get32_copied by lia. f_equal. lia.
    + symmetry. apply (changed_get32 _ _ _ _ Hc). intros b Hb Hx. unfold page_bytes in Hx. lia.
  - rewrite (same_frame _ _ f Hs). unfold m', dir_written. rewrite get32_put32_eq. apply u32_small.
    change (2 ^ 32) with 4294967296 in *. change PAGE_FLAGS with 7 in *. lia.
  - rewrite (same_frame _ _ f Hs). eapply mapped_frame; [done|exact Hc|exact Ha|lia|exact Hmap].
Qed.

Lemma page_dir_run a al s q k fs :
  spawn_ok tasks idle a al s -> 0 <= k -> supply (mem s) q (1 + k) fs ->
  exists p3 f m', create_page_dir s = Ok (kpage (mem s) p3) (set_mem m' s) /\
    spawn_ok tasks idle a al (set_mem m' s) /\ grown (fun _ => False) (mem s) m' /\
    free_run (mem s) kvaddr_bm p3 1 /\ own_page tasks m' p3 /\ (exists fs', supply m' (q + 1) k fs') /\
    page_directory m' (kpage (mem s) p3) f.
Proof.
  intros Hok Hk Hsu. pose proof (lay_pte _ (sp_lay _ _ _ _ _ Hok)) as Hpte.
  destruct (take_step a al s 1 q k fs Hok ltac:(lia) Hk Hsu)
    as (p & ps & m1 & E1 & Hr & Hok1 & G1 & Hold & Hnew & fs1 & Su1).
  set (dir := kpage (mem s) p) in *.
  assert (Ek : kpage m1 p = dir) by (apply same_kpage, G1).
  assert (Hown := Hnew p ltac:(lia)).
  destruct (kpage_range m1 p (sp_heap _ _ _ _ _ Hok1) (ow_range _ _ _ Hown)) as (B1 & B2 & B3). rewrite Ek in B1, B2, B3.
  pose proof (rf_len _ _ _ _ _ Hr) as Hlen. destruct ps as [|f [|? ?]]; [done| |cbn in Hlen; lia].
  destruct (rf_mapped _ _ _ _ _ Hr 0%nat f eq_refl) as [Hf Hmap]. rewrite Z.add_0_r, Ek in Hmap.
  destruct (free_frame_addr [] (mem s) f (hk_pool _ (sp_heap _ _ _ _ _ Hok)) (rf_free _ _ _ _ _ Hr f ltac:(by left))) as (F1 & F2).
  rewrite <- (same_frame _ _ f (gr_same _ _ _ G1)) in F1, F2. set (fr := frame m1 sym_kern_pool f) in *.
  assert (C3 := dir_written_page m1 dir (fr + PAGE_FLAGS)). set (m3 := dir_written m1 dir (fr + PAGE_FLAGS)) in *.
  assert (Ha : forall b, page_bytes dir b -> ~ admin m1 b) by (intros b Hb; rewrite <- Ek in Hb; by apply (ow_apart _ _ _ Hown b)).
  set (m2 := put_bytes m1 (dir + 0x300 * 4) (get_bytes m1 (0xfffff000 + 0x300 * 4) 1024)).
  assert (Hmap2 : mapped m2 dir fr).
  { eapply (mapped_frame Hpte m1 m2 (page_bytes dir)); [|done|lia|done]. intros b Hb. unfold page_bytes in Hb.
    apply get8_put_bytes_ne. rewrite length_get_bytes. lia. }
  destruct (write_step a al (set_mem m1 s) _ m3 Hok1 C3) as (Hok3 & G3 & _ & Su3);
    [intros b Hb; exists p; msimpl; by rewrite Ek|].
  exists p, f, m3. split_and!; [|done| | | |by eexists; apply Su3|].
  - unfold create_page_dir. rewrite (bind_ok _ _ _ _ _ E1). unfold NULL. rewrite (proj2 (Z.eqb_neq dir 0)) by lia. cbn [when].
    erewrite bind_ok by reflexivity. cbv beta zeta. rewrite u32_small by lia.
    rewrite (bind_ok _ _ _ _ _ (memcpy_run (dir + 0x300 * 4) (0xfffff000 + 0x300 * 4) 1024 (set_mem m1 s)
      ltac:(lia) ltac:(lia) ltac:(lia) ltac:(lia))). msimpl.
    rewrite (bind_ok _ _ _ _ _ (mapped_translate dir fr (set_mem m2 (set_mem m1 s)) Hmap2 F2 ltac:(lia) ltac:(lia))).
    rewrite B3, Z.add_0_r, lor_flags by done. reflexivity.
  - eapply grown_weaken; [exact (grown_trans _ _ _ _ _ G1 G3)|].
    intros j b Hj Hb [[]|Hx]. destruct (decide (j = p)) as [->|Hjp]; [destruct (own_not_free _ p _ _ Hj Hold); lia|].
    by destruct (own_apart (mem s) j p b Hjp Hb Hx).
  - exact Hold.
  - by apply G3.
  - apply dir_written_entries; [done|lia|lia| |exact Ha|fold fr; lia| |exact Hmap|apply G3].
    + intros b Hb. apply (rf_zero _ _ _ _ _ Hr). unfold run_bytes, page_bytes in *. fold dir. lia.
    + fold fr. change PAGE_FLAGS with 7. lia.
Qed.
End Steps.

(** ** The new process *)
Section Process.
Context {PL : Platform} {LK : Linker} (tasks : list Z) (idle : Z).

Definition udescs (base : Z) : Z := base + task_struct.um_block_descs.

(** A process as [process_execute] leaves it: its first switch enters
    [start_process] with the program. *)
Record new_process (m : memory) (base pid : Z) (name : list Z) (prog bits dir f : Z) : Prop := {
  np_task : new_task_in dir m base DEFAULT_THREAD_PRIO pid name fn_start_process prog;
  np_pool : user_pool m base bits;
  np_dir : page_directory m dir f;
  np_classes : classes_made (udescs base) 7 m
}.

(** The parts of the page of the task structure are apart. *)
Lemma task_parts base b :
  0 <= FD_MAX <= 856 ->
  (task_bytes base b -> page_bytes base b /\ ~ within (uvaddr base) 12 b /\ ~ within (udescs base) 168 b) /\
  (within (udescs base) 168 b -> page_bytes base b /\ ~ within (uvaddr base) 12 b) /\
  (stack_bytes base b -> page_bytes base b /\ ~ within (uvaddr base) 12 b) /\
  (within (base + task_struct.page_dir) 4 b -> page_bytes base b /\ ~ within (uvaddr base) 12 b).
Proof. intros Hfd. unfold task_bytes, stack_bytes, uvaddr, udescs, within. spoff. lia. Qed.

Lemma task_fields_ext m m' base st prio pid name :
  layout (base :: tasks) -> (length name <= 16)%nat -> (forall b, task_bytes base b -> get8 m' b = get8 m b) ->
  task_fields m base st prio pid name -> task_fields m' base st prio pid name.
Proof.
  intros Hl Hn Hk [H1 H2 H3 H4]. pose proof (new_page_facts tasks base Hl). unfold task_bytes in Hk. constructor.
  - eapply (tcb_frame _ Hl); [|exact H1]. intros b Hb. apply Hk. offsets. lia.
  - rewrite <- H2. apply get16_ext. intros b Hb. apply Hk. offsets. lia.
  - rewrite <- H3. apply get32_ext. intros b Hb. apply Hk. offsets. lia.
  - rewrite <- H4 at 2. apply get_bytes_ext. intros b Hb. apply Hk. offsets. lia.
Qed.

(** Its page directory is set. *)
Lemma set_page_dir m base prio pid name func arg dir :
  layout (base :: tasks) -> FD_MAX <= 856 -> 0 <= dir < 2 ^ 32 -> (length name <= 16)%nat ->
  new_task m base prio pid name func arg ->
  new_task_in dir (put32 m (base + task_struct.page_dir) dir) base prio pid name func arg.
Proof.
  intros Hl Hfd Hd Hn [[F1 F2 F3 F4 F5 F6] H2 H3 H4 H5 H6]. destruct (new_page_facts tasks base Hl) as (B1 & B2 & B3 & B4).
  cbn [t_kstack t_status t_priority t_ava_time t_elapsed_time t_page_dir] in *.
  set (m' := put32 m (base + task_struct.page_dir) dir).
  assert (Hk : forall b, ~ within (base + task_struct.page_dir) 4 b -> get8 m' b = get8 m b)
    by (intros b Hb; apply get8_put32_ne; unfold within in Hb; lia).
  assert (H32 : forall w, w + 4 <= base + task_struct.page_dir \/ base + task_struct.page_dir + 4 <= w ->
    get32 m' w = get32 m w) by (intros w Hw; apply get32_ext; intros b Hb; apply Hk; unfold within; lia).
  constructor.
  - constructor; cbn [t_kstack t_status t_priority t_ava_time t_elapsed_time t_page_dir].
    1,2,4,5: rewrite H32 by (offsets; lia); done.
    + rewrite Hk by (unfold within; offsets; lia). done.
    + unfold m'. rewrite get32_put32_eq. by apply u32_small.
  - rewrite <- H2. apply get16_ext. intros b Hb. apply Hk. unfold within. offsets. lia.
  - rewrite H32 by (offsets; lia). done.
  - rewrite <- H4 at 2. apply get_bytes_ext. intros b Hb. apply Hk. unfold within. offsets. lia.
  - destruct H5 as [G1 G2 G3 G4 G5 G6 G7]. constructor; (rewrite H32 by (spoff; lia)); assumption.
  - intros b Hb. rewrite <- (H6 b Hb). apply Hk. unfold fds_at, within in *. offsets. lia.
Qed.

(** What a process is made of survives writes elsewhere. *)
Lemma new_process_frame m m' P base pid name prog bits dir f :
  layout (base :: tasks) -> FD_MAX <= 856 -> (length name <= 16)%nat -> 0 <= dir -> dir + 4096 <= 0xffc00000 ->
  changed_only P m m' -> same_pages m m' ->
  (forall b, P b -> ~ admin m b /\ ~ page_bytes dir b /\ ~ within bits user_map_bytes b /\
    ~ task_bytes base b /\ ~ within (uvaddr base) 12 b /\ ~ within (udescs base) 168 b) ->
  new_process m base pid name prog bits dir f -> new_process m' base pid name prog bits dir f.
Proof.
  intros Hl Hfd Hn D1 D2 Hc Hs HP [H1 H2 H3 H4]. constructor.
  - eapply new_task_ext; [done|done| |exact H1]. intros b Hb. apply Hc. intros Hx.
    by destruct (HP b Hx) as (_ & _ & _ & Ht & _).
  - eapply user_pool_ext; [|exact H2]. intros b Hb. apply Hc. intros Hx. destruct (HP b Hx) as (_ & _ & ? & _ & ? & _).
    by destruct Hb.
  - eapply page_directory_frame; [exact Hc|done|apply (lay_pte _ Hl)|done|done| |exact H3].
    intros b Hb. by destruct (HP b Hb) as (? & ? & _).
  - eapply classes_made_frame; [exact Hc| |exact H4]. intros b Hb.
    by destruct (HP b Hb) as (_ & _ & _ & _ & _ & Hd).
Qed.

(** The pool of user addresses survives steps that write elsewhere. *)
Lemma user_pool_grown W m m' p p2 :
  0 <= FD_MAX <= 900 -> grown tasks W m m' -> own_page tasks m p -> (forall j, p2 <= j < p2 + 23 -> own_page tasks m j) ->
  (forall b, W b -> ~ within (uvaddr (kpage m p)) 12 b /\ ~ within (kpage m p2) user_map_bytes b) ->
  user_pool m (kpage m p) (kpage m p2) -> user_pool m' (kpage m p) (kpage m p2).
Proof.
  intros Hfd G Hp Hp2 HW. apply user_pool_ext. intros b [Hb|Hb].
  - apply (gr_kept _ _ _ _ G p b Hp); [by apply uvaddr_page|]. intros Hx. by destruct (HW b Hx).
  - destruct (run_page m p2 23 b) as (j & Hj & Hjb).
    { unfold run_bytes, within, user_map_bytes in *. lia. }
    apply (gr_kept _ _ _ _ G j b (Hp2 j Hj) Hjb). intros Hx. by destruct (HW b Hx).
Qed.

(** *** An address space *)

(** A task on page [p] with its bitmap on [p2 .. p2 + 22] and its page
    directory on [p3]. *)
Record places (m : memory) (p p2 p3 : Z) : Prop := {
  pl_task : own_page tasks m p;
  pl_map : forall j, p2 <= j < p2 + 23 -> own_page tasks m j;
  pl_dir : own_page tasks m p3;
  pl_task_dir : p <> p3;
  pl_task_map : ~ p2 <= p < p2 + 23;
  pl_dir_map : ~ p2 <= p3 < p2 + 23
}.

Lemma map_page m p2 b : within (kpage m p2) user_map_bytes b -> exists j, p2 <= j < p2 + 23 /\ page_bytes (kpage m j) b.
Proof. intros Hb. apply run_page. unfold run_bytes, within, user_map_bytes in *. lia. Qed.

Lemma places_apart m p p2 p3 b :
  places m p p2 p3 -> page_bytes (kpage m p) b ->
  ~ admin m b /\ ~ page_bytes (kpage m p3) b /\ ~ within (kpage m p2) user_map_bytes b.
Proof.
  intros [H1 H2 H3 H4 H5 H6] Hb. split_and!; [by apply (ow_apart _ _ _ H1 b)|by apply (own_apart m p p3 b)|].
  intros (j & Hj & Hjb)%map_page. by apply (own_apart m j p b); [intros ->| |].
Qed.

Lemma places_grown W m m' p p2 p3 : grown tasks W m m' -> places m p p2 p3 -> places m' p p2 p3.
Proof. intros G [H1 H2 H3 H4 H5 H6]. constructor; [by apply G|intros j Hj; by apply G, H2|by apply G|done..]. Qed.

Record space_made (m m' : memory) (p p2 p3 f : Z) : Prop := {
  sm_grown : grown tasks (page_bytes (kpage m p)) m m';
  sm_places : places m' p p2 p3;
  sm_map_free : free_run m kvaddr_bm p2 23;
  sm_dir_free : free_run m kvaddr_bm p3 1;
  sm_pool : user_pool m' (kpage m p) (kpage m p2);
  sm_directory : page_directory m' (kpage m p3) f
}.

Lemma process_space_run a al s p q fs pid name prog :
  let base := kpage (mem s) p in
  spawn_ok tasks idle a al s -> own_page tasks (mem s) p -> FD_MAX <= 856 -> (length name <= 16)%nat ->
  task_fields (mem s) base READY DEFAULT_THREAD_PRIO pid name -> fds_zero (mem s) base -> supply (mem s) q 24 fs ->
  exists p2 p3 f m',
    (forall A (k : Z -> K A), (create_user_vaddr_bitmap base;; thread_create base fn_start_process prog;;
       dir ← create_page_dir; k dir) s = k (kpage (mem s) p3) (set_mem m' s)) /\
    spawn_ok tasks idle a al (set_mem m' s) /\ space_made (mem s) m' p p2 p3 f /\
    new_task m' base DEFAULT_THREAD_PRIO pid name fn_start_process prog.
Proof.
  intros base Hok Hown Hfd Hn Htf Hz Hsu. pose proof (lay_fd _ (sp_lay _ _ _ _ _ Hok)) as Hfd0.
  destruct (own_places tasks idle a al s p Hok Hown) as (_ & Hlb & _). fold base in Hlb.
  assert (Hparts := fun b => task_parts base b (conj (proj1 Hfd0) Hfd)).
  destruct (user_vaddr_run tasks idle a al s p q 1 fs Hok Hown ltac:(lia) Hsu)
    as (p2 & m1 & E1 & Hok1 & G1 & Hf1 & Hown1 & (fs1 & Su1) & Hup1). fold base in E1, G1, Hup1.
  assert (K1 : forall j, kpage m1 j = kpage (mem s) j) by (intros j; apply same_kpage, G1).
  assert (Htf1 : task_fields m1 base READY DEFAULT_THREAD_PRIO pid name).
  { eapply task_fields_ext; [done|done| |exact Htf]. intros b Hb. destruct (proj1 (Hparts b) Hb) as (Hb1 & Hb2 & _).
    by apply (gr_kept _ _ _ _ G1 p). }
  assert (Hz1 : fds_zero m1 base).
  { intros b Hb. rewrite <- (Hz b Hb). assert (Ht : task_bytes base b) by (unfold task_bytes, fds_at in *; offsets; lia).
    destruct (proj1 (Hparts b) Ht) as (Hb1 & Hb2 & _). by apply (gr_kept _ _ _ _ G1 p). }
  destruct (thread_create_run tasks (set_mem m1 s) base DEFAULT_THREAD_PRIO pid name fn_start_process prog Hlb Hfd Hn Htf1 Hz1)
    as (m2 & E2 & Hnt2 & C2). msimpl.
  assert (Hp1 : own_page tasks m1 p) by (by apply G1).
  destruct (write_step tasks idle a al (set_mem m1 s) _ m2 Hok1 C2) as (Hok2 & G2 & _ & Su2).
  { intros b Hb%stack_page. exists p. msimpl. by rewrite K1. }
  assert (K2 : forall j, kpage m2 j = kpage (mem s) j) by (intros j; rewrite <- K1; apply same_kpage, G2).
  assert (Hne : ~ p2 <= p < p2 + 23) by (exact (own_not_free tasks (mem s) p p2 23 Hown Hf1)).
  assert (Hup2 : user_pool m2 base (kpage (mem s) p2)).
  { unfold base. rewrite <- !K1. eapply user_pool_grown; [done|exact G2|done|exact Hown1| |by rewrite !K1].
    rewrite !K1. fold base. intros b Hb. destruct (proj1 (proj2 (proj2 (Hparts b))) Hb) as [Hb1 Hb2]. split; [done|].
    intros (j & Hj & Hjb)%map_page. by apply (own_apart (mem s) j p b); [intros ->| |]. }
  destruct (page_dir_run tasks idle a al (set_mem m2 (set_mem m1 s)) (q + 23) 0 fs1 Hok2 ltac:(lia) (Su2 _ _ _ Su1))
    as (p3 & f & m3 & E3 & Hok3 & G3 & Hf3 & Hown3 & _ & Hdir). msimpl. rewrite K2 in E3, Hdir.
  assert (G12 := grown_trans _ _ _ _ _ _ G1 G2).
  assert (Hown2 : forall j, p2 <= j < p2 + 23 -> own_page tasks m2 j) by (intros j Hj; by apply G2, Hown1).
  exists p2, p3, f, m3. split_and!; [|done|constructor|].
  - intros A k. rewrite (bind_ok _ _ _ _ _ E1), (bind_ok _ _ _ _ _ E2), (bind_ok _ _ _ _ _ E3). reflexivity.
  - eapply grown_weaken; [exact (grown_trans _ _ _ _ _ _ G12 G3)|].
    intros j b _ _ [[Hb|Hb]|[]]; [by apply uvaddr_page|by apply stack_page].
  - constructor; [by apply G3, G2|intros j Hj; by apply G3, Hown2|done| |done|].
    + intros ->. apply (own_not_free tasks m2 p3 p3 1 (gr_own _ _ _ _ G2 _ Hp1) Hf3). lia.
    + intros Hj. apply (own_not_free tasks m2 p3 p3 1 (Hown2 p3 Hj) Hf3). lia.
  - done.
  - by apply (gr_free _ _ _ _ G12).
  - unfold base in *. rewrite <- !K2 in *.
    eapply user_pool_grown; [done|exact G3|by apply G2|exact Hown2|by intros b []|done].
  - done.
  - eapply new_task_ext; [done|done| |exact Hnt2]. intros b Hb.
    apply (gr_kept _ _ _ _ G3 p); [by apply G2| |by intros []]. rewrite K2. fold base. exact (proj1 (proj1 (Hparts b) Hb)).
Qed.

(** The rest of the task structure. *)
Lemma process_filled_run a al s p p2 p3 f pid name prog :
  let base := kpage (mem s) p in let dir := kpage (mem s) p3 in
  spawn_ok tasks idle a al s -> places (mem s) p p2 p3 -> FD_MAX <= 856 -> (length name <= 16)%nat ->
  new_task (mem s) base DEFAULT_THREAD_PRIO pid name fn_start_process prog ->
  user_pool (mem s) base (kpage (mem s) p2) -> page_directory (mem s) dir f ->
  exists m', (forall A (k : K A), (st32 (base + task_struct.page_dir) dir;; mem_block_init (udescs base);; k) s
      = k (set_mem m' s)) /\
    spawn_ok tasks idle a al (set_mem m' s) /\ grown tasks (page_bytes base) (mem s) m' /\
    new_process m' base pid name prog (kpage (mem s) p2) dir f.
Proof.
  intros base dir Hok Hpl Hfd Hn Hnt Hup Hdir. pose proof (lay_fd _ (sp_lay _ _ _ _ _ Hok)) as Hfd0.
  destruct (own_places tasks idle a al s p Hok (pl_task _ _ _ _ Hpl)) as (_ & Hlb & _). fold base in Hlb.
  destruct (new_page_facts tasks base Hlb) as (B1 & B2 & B3 & _).
  destruct (kpage_range (mem s) p3 (sp_heap _ _ _ _ _ Hok) (ow_range _ _ _ (pl_dir _ _ _ _ Hpl))) as (D1 & D2 & _).
  fold dir in D1, D2.
  set (m1 := put32 (mem s) (base + task_struct.page_dir) dir).
  assert (C1 : changed_only (within (base + task_struct.page_dir) 4) (mem s) m1)
    by (intros b Hb; apply get8_put32_ne; unfold within in Hb; lia).
  destruct (mem_block_init_run (udescs base) (set_mem m1 s)) as (m2 & E2 & Hcl & C2);
    [unfold udescs; offsets; lia|change (2 ^ 32) with 4294967296; unfold udescs; offsets; lia|]. msimpl.
  assert (C : changed_only (fun b => within (base + task_struct.page_dir) 4 b \/ within (udescs base) 168 b) (mem s) m2)
    by (eapply changed_trans; eapply changed_weaken; [exact C1|by left|exact C2|by right]).
  assert (Hparts := fun b => task_parts base b (conj (proj1 Hfd0) Hfd)).
  assert (HP : forall b, within (base + task_struct.page_dir) 4 b \/ within (udescs base) 168 b ->
    page_bytes base b /\ ~ within (uvaddr base) 12 b) 
    by (intros b; destruct (Hparts b) as (_ & P2 & _ & P4); intros [Hb|Hb]; [by apply P4|by apply P2]).
  destruct (write_step tasks idle a al s _ m2 Hok C) as (Hok2 & G & _ & _).
  { intros b (Hb & _)%HP. exists p. by split; [apply Hpl|]. }
  exists m2. split_and!; [|exact Hok2|eapply grown_weaken; [exact G|]; intros j b _ _ Hb; by apply HP|constructor].
  - intros A k. erewrite bind_ok by reflexivity. cbv beta. by rewrite (bind_ok _ _ _ _ _ E2).
  - eapply new_task_ext; [done|done| |apply set_page_dir; [done|done|lia|done|exact Hnt]].
    intros b Hb. apply C2. by destruct (proj1 (Hparts b) Hb) as (_ & _ & Hx).
  - eapply user_pool_ext; [|exact Hup]. intros b Hb. apply C. intros Hx. destruct (HP b Hx) as [Hx1 Hx2].
    destruct (places_apart _ _ _ _ b Hpl Hx1) as (_ & _ & Hx3). by destruct Hb.
  - eapply page_directory_frame; [exact C|apply G|apply (lay_pte _ Hlb)|lia|done| |exact Hdir].
    intros b (Hb & _)%HP. by destruct (places_apart _ _ _ _ b Hpl Hb) as (? & ? & _).
  - exact Hcl.
Qed.
End Process.

(** ** All of [process_execute] *)
Section Execute.
Context {PL : Platform} {LK : Linker} (tasks : list Z) (idle : Z).

(** What the scheduler knows of a new process. *)
Definition process_tcb (base dir : Z) : tcb :=
  mkTcb (new_kstack base) READY DEFAULT_THREAD_PRIO DEFAULT_THREAD_PRIO 0 dir.

(** The links are in no other part of the process. *)
Lemma links_off_process a al s p p2 p3 b :
  let base := kpage (mem s) p in
  spawn_ok tasks idle a al s -> places tasks (mem s) p p2 p3 -> FD_MAX <= 856 -> link_bytes tasks base b ->
  ~ admin (mem s) b /\ ~ page_bytes (kpage (mem s) p3) b /\ ~ within (kpage (mem s) p2) user_map_bytes b /\
  ~ task_bytes base b /\ ~ within (uvaddr base) 12 b /\ ~ within (udescs base) 168 b.
Proof.
  intros base Hok Hpl Hfd Hb. pose proof (pl_task _ _ _ _ _ Hpl) as Hown. pose proof (lay_fd _ (sp_lay _ _ _ _ _ Hok)) as Hfd0.
  destruct (own_places tasks idle a al s p Hok Hown) as (_ & Hlb & _ & Hpage). fold base in Hlb, Hpage.
  assert (H : ~ admin (mem s) b /\ ~ page_bytes (kpage (mem s) p3) b /\ ~ within (kpage (mem s) p2) user_map_bytes b).
  { destruct (link_places tasks base b Hlb Hb) as [Hk|Hk]; [|by eapply places_apart]. split_and!.
    - by apply (sp_admin _ _ _ _ _ Hok b).
    - intros Hx. by destruct (ow_apart _ _ _ (pl_dir _ _ _ _ _ Hpl) b Hx).
    - intros (j & Hj & Hx)%map_page. by destruct (ow_apart _ _ _ (pl_map _ _ _ _ _ Hpl j Hj) b Hx). }
  destruct H as (? & ? & ?). split_and!; [done..| | |];
    intros Hx; apply (link_page tasks base Hlb Hpage (sp_all_apart _ _ _ _ _ Hok) base b ltac:(by left)) in Hb;
    unfold task_bytes, uvaddr, udescs, within, tag in *; spoff; lia.
Qed.

Lemma process_linked_run a al s p p2 p3 f pid name prog :
  let base := kpage (mem s) p in let bits := kpage (mem s) p2 in let dir := kpage (mem s) p3 in
  spawn_ok tasks idle a al s -> places tasks (mem s) p p2 p3 -> FD_MAX <= 856 -> (length name <= 16)%nat ->
  new_process (mem s) base pid name prog bits dir f ->
  exists s', (status ← INTERRUPT_DISABLE;
      ex ← list_exist sym_all_thread_list (base + task_struct.all_list_tag);
      ASSERT (negb ex) "proc/process.c" 85 "process_execute"
        "list_exist(&all_thread_list, &thread->all_list_tag) == false";;
      ex ← list_exist sym_ready_thread_list (base + task_struct.gene_list_tag);
      ASSERT (negb ex) "proc/process.c" 86 "process_execute"
        "list_exist(&ready_thread_list, &thread->gene_list_tag) == false";;
      list_push_back sym_all_thread_list (base + task_struct.all_list_tag);;
      list_push_back sym_ready_thread_list (base + task_struct.gene_list_tag);;
      INTERRUPT_RESTORE status) s = Ok tt s' /\
    spawn_ok (base :: tasks) idle (abs_add (process_tcb base dir) base a) (al ++ [base]) s' /\
    new_process (mem s') base pid name prog bits dir f /\
    vars s' = vars s /\ trace s' = trace s /\ intr_flag s' = flag_after (intr_flag s).
Proof.
  intros base bits dir Hok Hpl Hfd Hn Hnp. pose proof (pl_task _ _ _ _ _ Hpl) as Hown.
  destruct (own_places tasks idle a al s p Hok Hown) as (Hnew & Hlb & Hmb & Hpage). fold base in Hnew, Hlb, Hmb, Hpage.
  pose proof Hok as [H1 H2 H3 H4 H5 H6 H7 H8 H9].
  set (s0 := set_intr_flag false s).
  assert (Hm0 : mutex_state tasks idle sym_pid_lock a NULL 0 [] s0) by (by apply mutex_flag).
  destruct (links_all_first tasks idle a al base (process_tcb base dir) s0 Hlb Hmb Hnew Hpage H6 H5 Hm0 H4)
    as (m' & E & Hm & Hal & C);
    [apply (nt_tcb _ _ _ _ _ _ _ _ (np_task _ _ _ _ _ _ _ _ Hnp))|done|apply new_kstack_page, (new_page_facts tasks base Hlb)|].
  assert (Hf : flag_after false = false) by (unfold flag_after; by case_decide).
  pose proof (spawn_add tasks idle a al s p (after_critical s m') (abs_add (process_tcb base dir) base a) (al ++ [base]) Hok Hown)
    as Hadd. fold base in Hadd.
  destruct Hadd as [Hok' Hs]; [|exact (mutex_flag _ _ _ _ _ _ _ _ (flag_after (intr_flag s)) Hm)|exact Hal|].
  { eapply changed_weaken; [exact C|]. intros b. by apply link_places. }
  exists (after_critical s m'). split_and!; [|exact Hok'| |done|done|done].
  - fold (tag base) (atag base). unfold INTERRUPT_DISABLE. rewrite (bind_ok _ _ _ _ _ (intr_disable_run s)). fold s0.
    rewrite (bind_ok _ _ _ _ _ (not_listed_all tasks al base s0 Hnew H4)). erewrite bind_ok by (by apply assert_run).
    rewrite (bind_ok _ _ _ _ _ (not_listed_ready tasks idle a base s0 Hnew Hm0)). erewrite bind_ok by (by apply assert_run).
    rewrite E. change (intr_flag s0) with false. rewrite Hf. apply critical_restore.
  - destruct (kpage_range (mem s) p3 H7 (ow_range _ _ _ (pl_dir _ _ _ _ _ Hpl))) as (D1 & D2 & _). fold dir in D1, D2.
    eapply new_process_frame; [done|done|done|lia|done|exact C|exact Hs| |exact Hnp].
    intros b Hb. by apply (links_off_process a al s p p2 p3).
Qed.

(** A process was added to the state [s] of the system. *)
Record process_added (a : sched) (al : list Z) (s s' : machine) (name : list Z) (prog p p2 p3 f : Z) : Prop := {
  pe_fit : first_fit (mem s) kvaddr_bm 1 p;
  pe_map_free : free_run (mem s) kvaddr_bm p2 23;
  pe_dir_free : free_run (mem s) kvaddr_bm p3 1;
  pe_apart : p <> p3 /\ ~ p2 <= p < p2 + 23 /\ ~ p2 <= p3 < p2 + 23;
  pe_made : new_process (mem s') (kpage (mem s) p) (next_pid (vars s)) name prog (kpage (mem s) p2) (kpage (mem s) p3) f;
  pe_spawn : let base := kpage (mem s) p in
    spawn_ok (base :: tasks) idle (abs_add (process_tcb base (kpage (mem s) p3)) base a) (al ++ [base]) s';
  pe_vars : vars s' = set_next_pid (u16 (next_pid (vars s) + 1)) (vars s);
  pe_trace : trace s' = trace s
}.

Lemma process_execute_run a al s name l prog q fs :
  spawn_ok tasks idle a al s -> FD_MAX <= 856 -> start_args s name l DEFAULT_THREAD_PRIO ->
  next_pid (vars s) <> 0xffff -> main_thread (vars s) ∈ tasks -> supply (mem s) q 25 fs ->
  exists p p2 p3 f s', process_execute prog name s = Ok tt s' /\ process_added a al s s' l prog p p2 p3 f.
Proof.
  intros Hok Hfd Har Hpid Hmain Hsu. pose proof (ar_length _ _ _ _ Har) as Hn.
  pose proof Hsu as [(R1 & R2 & R3) S2 S3 S4]. destruct fs as [|f0 fs]; [cbn in S4; lia|].
  destruct (task_made_run tasks idle a al s name l DEFAULT_THREAD_PRIO q f0 Hok Har Hpid Hmain)
    as (p & ps & m1 & s2 & Hr & E2 & Hok2 & Hown2 & Ek2 & Htf & Hv2 & Hf2 & Ht2 & _ & Hs2 & Hb2 & _ & Hz2);
    [split_and!; [done|lia|]; intros j Hj; apply R3; lia|apply S3; by left|].
  set (base := kpage (mem s) p) in *.
  destruct (supply_take (mem s) 1 24 p ps m1 q (f0 :: fs) Hr ltac:(lia) ltac:(lia) Hsu) as (fs1 & Su1).
  assert (Ks : forall j, kpage (mem s2) j = kpage (mem s) j)
    by (intros j; rewrite (same_kpage _ _ j Hs2); apply same_kpage, Hr).
  pose proof (process_space_run tasks idle a al s2 p (q + 1) fs1 (next_pid (vars s)) l prog Hok2 Hown2 Hfd Hn) as Hsp.
  rewrite Ek2 in Hsp. destruct (Hsp Htf Hz2 (supply_keep _ _ _ _ _ Hs2 Hb2 Su1)) as (p2 & p3 & f & m3 & E3 & Hok3 & Hm3 & Hnt3).
  clear Hsp. destruct Hm3 as [G3 Hpl3 Hf3 Hf3' Hup3 Hdir3]. rewrite !Ks in *. fold base in Hup3.
  assert (K3 : forall j, kpage m3 j = kpage (mem s) j) by (intros j; rewrite <- Ks; apply same_kpage, G3).
  pose proof (process_filled_run tasks idle a al (set_mem m3 s2) p p2 p3 f (next_pid (vars s)) l prog Hok3 Hpl3 Hfd Hn) as Hfl.
  msimpl. rewrite !K3 in Hfl. destruct (Hfl Hnt3 Hup3 Hdir3) as (m4 & E4 & Hok4 & G4 & Hnp4). clear Hfl. fold base in E4, Hnp4.
  assert (K4 : forall j, kpage m4 j = kpage (mem s) j) by (intros j; rewrite <- K3; apply same_kpage, G4).
  pose proof (process_linked_run a al (set_mem m4 s2) p p2 p3 f (next_pid (vars s)) l prog) as Hln.
  msimpl. rewrite !K4 in Hln. fold base in Hln.
  destruct Hln as (s5 & E5 & Hok5 & Hnp5 & Hv5 & Ht5 & Hf5);
    [done|eapply places_grown; [exact G4|exact Hpl3]|done|done|done|].
  assert (Hback : forall p' n, free_run (mem s2) kvaddr_bm p' n -> free_run (mem s) kvaddr_bm p' n)
    by (intros p' n Hx; eapply free_run_taken; [exact Hr|]; by eapply free_run_back).
  exists p, p2, p3, f, s5. split; [|constructor].
  - unfold process_execute. rewrite E2, E3, E4. exact E5.
  - apply Hr.
  - by apply Hback.
  - by apply Hback.
  - destruct Hpl3. by split_and!.
  - exact Hnp5.
  - exact Hok5.
  - by rewrite Hv5.
  - by rewrite Ht5.
Qed.

(** C6: [process_execute] adds a process to the system.  The first free page
    becomes its task structure and kernel stack; 23 more, in a row, the bitmap
    of its 753592 user pages, all free from 0x8048000 on; one more its page
    directory, which has nothing below 0xc0000000, the entries of the kernel
    above, and itself as the last entry.  The process is ready, last in the
    queue and in the list of all threads, with the next process id, empty
    classes of user blocks and a stack that enters [start_process] with the
    program.  What the operations of the scheduler and the creation of threads
    rely on holds for the larger set of tasks.  Without a free page it
    panics. *)
Theorem process_execute_refines a al s name l prog :
  spawn_ok tasks idle a al s -> FD_MAX <= 856 -> start_args s name l DEFAULT_THREAD_PRIO ->
  next_pid (vars s) <> 0xffff -> main_thread (vars s) ∈ tasks ->
  (forall q fs, supply (mem s) q 25 fs ->
   exists p p2 p3 f s', process_execute prog name s = Ok tt s' /\
     let base := kpage (mem s) p in let a' := abs_add (process_tcb base (kpage (mem s) p3)) base a in
     inv (base :: tasks) idle a' /\ runs (base :: tasks) idle a' s' /\ process_added a al s s' l prog p p2 p3 f) /\
  ((forall j, 0 <= j < nbits (mem s) kvaddr_bm -> bit (mem s) kvaddr_bm j = true) ->
   exists s', process_execute prog name s = Panic "thread != NULL" s').
Proof.
  intros Hok Hfd Har Hpid Hmain. split.
  - intros q fs Hsu. destruct (process_execute_run a al s name l prog q fs Hok Hfd Har Hpid Hmain Hsu)
      as (p & p2 & p3 & f & s' & E & Hpe).
    pose proof (ms_sem _ _ _ _ _ _ _ _ (sp_mutex _ _ _ _ _ (pe_spawn _ _ _ _ _ _ _ _ _ _ Hpe))) as [Hi _ Hr _].
    exists p, p2, p3, f, s'. by split_and!.
  - intros Hall. unfold process_execute, get_kern_pages. rewrite bind_assoc.
    rewrite (bind_ok _ _ _ _ _ (malloc_page_full_run s Hall)). rewrite Z.eqb_refl. cbn [negb when].
    erewrite bind_ok by reflexivity. unfold task_struct_init. rewrite Z.eqb_refl. cbn [negb].
    destruct (assert_false "thread/thread.c" 72 "task_struct_init" "thread != NULL" s) as (s' & E & _).
    exists s'. erewrite bind_panic; [done|]. by rewrite (bind_panic _ _ _ _ _ E).
Qed.
End Execute.

(** ** A concrete instance *)

(** The machine of [thread_start], with 32 pages in the kernel's heap and as
    many frames. *)
Definition demo_exec_mem : memory := put32 (put32 demo_spawn_mem sym_kern_pool 4) sym_kern_vaddr 4.
Definition demo_exec_machine : machine := set_mem demo_exec_mem demo_spawn_machine.

Lemma demo_exec_admin b :
  admin demo_exec_mem b -> 0xc0010000 <= b < 0xc0010010 \/ 0xc0012000 <= b < 0xc0012010 \/
    0xc009a000 <= b < 0xc009a004 \/ 0xc009a010 <= b < 0xc009a014 \/ 0xffc00000 <= b.
Proof. solve_admin_bytes demo_exec_mem 4. Qed.

Lemma demo_exec_start : kvaddr_start demo_exec_mem = 0xc0110000 /\ nbits demo_exec_mem kvaddr_bm = 32.
Proof. by vm_compute. Qed.

Lemma demo_exec_ok : spawn_ok demo_tasks demo_idle demo_abs demo_tasks demo_exec_machine.
Proof.
  destruct demo_spawn_ok as [H1 H2 H3 H4 H5 H6 _ _ _].
  assert (C : changed_only (fun b => 0xc0010000 <= b < 0xc0010004 \/ 0xc0012000 <= b < 0xc0012004)
    (mem demo_spawn_machine) demo_exec_mem).
  { change (mem demo_spawn_machine) with demo_spawn_mem. intros b Hb. unfold demo_exec_mem.
    cbn [sym_kern_pool sym_kern_vaddr demo_linker]. rewrite !get8_put32_ne by lia. done. }
  assert (Hap : forall b, 0xc0010000 <= b < 0xc0010004 \/ 0xc0012000 <= b < 0xc0012004 -> ~ kernel_data demo_tasks b)
    by (intros b Hb Hx%demo_data; lia).
  constructor; [exact H1|exact H2| | |exact H5|exact H6|..]; change (mem demo_exec_machine) with demo_exec_mem.
  - eapply pid_mutex_frame; [exact H1|exact H3|exact C|]. intros b Hb Hx. apply (Hap b Hb). by right.
  - eapply all_list_frame; [exact H1|exact H4|exact C|]. intros b Hb. split; [intros Hx; apply (Hap b Hb); by left|].
    intros t Ht Hx. apply (Hap b Hb). right. by eapply atag_data.
  - solve_pages_of demo_exec_mem 4 32.
  - intros b Hb%demo_data Ha%demo_exec_admin. lia.
  - destruct demo_exec_start as [E1 E2]. unfold kpage, page_bytes. rewrite E1, E2. change PAGE_SIZE with 4096.
    intros j b Hj _ Hb. split; [intros Hk%demo_data|intros Ha%demo_exec_admin]; lia.
Qed.

Lemma demo_exec_args : start_args demo_exec_machine 0xc0003000 [104; 105] DEFAULT_THREAD_PRIO.
Proof.
  constructor; [done|done|vm_compute; done|cbn; lia|]. change (mem demo_exec_machine) with demo_exec_mem.
  intros b Hb. cbn [length] in Hb. split; [intros Ha%demo_exec_admin; lia|].
  destruct demo_exec_start as [E1 E2]. unfold kpage, page_bytes. rewrite E1. change PAGE_SIZE with 4096. lia.
Qed.

Lemma demo_exec_free bm j :
  bm = kvaddr_bm \/ bm = pool_bm sym_kern_pool -> 1 <= j < 26 -> bit demo_exec_mem bm j = false.
Proof.
  intros Hbm Hj. assert (H : (j =? 0) || negb (bit demo_exec_mem bm j) = true).
  { apply (all_indices (fun j => (j =? 0) || negb (bit demo_exec_mem bm j)) 26); [|lia].
    destruct Hbm as [-> | ->]; by vm_compute. }
  rewrite (proj2 (Z.eqb_neq j 0)) in H by lia. by apply negb_true_iff.
Qed.

Lemma demo_exec_supply : supply demo_exec_mem 1 25 (seqZ 1 25).
Proof.
  constructor.
  - split; [done|]. split; [vm_compute; congruence|]. intros j Hj. apply demo_exec_free; [by left|lia].
  - apply NoDup_seqZ.
  - intros f Hf%elem_of_seqZ. assert (E : nbits demo_exec_mem (pool_bm sym_kern_pool) = 32) by (by vm_compute).
    split; [lia|]. apply demo_exec_free; [by right|lia].
  - by vm_compute.
Qed.

Lemma process_execute_refines_witness :
  exists p p2 p3 f s', process_execute 0x8048000 0xc0003000 demo_exec_machine = Ok tt s' /\
    let base := kpage (mem demo_exec_machine) p in
    let a' := abs_add (process_tcb base (kpage (mem demo_exec_machine) p3)) base demo_abs in
    inv (base :: demo_tasks) demo_idle a' /\ runs (base :: demo_tasks) demo_idle a' s' /\
    process_added demo_tasks demo_idle demo_abs demo_tasks demo_exec_machine s' [104; 105] 0x8048000 p p2 p3 f.
Proof.
  assert (H1 : FD_MAX <= 856) by done.
  assert (H2 : next_pid (vars demo_exec_machine) <> 0xffff) by done.
  assert (H3 : main_thread (vars demo_exec_machine) ∈ demo_tasks) by by left.
  exact (proj1 (process_execute_refines demo_tasks demo_idle demo_abs demo_tasks demo_exec_machine 0xc0003000
    [104; 105] 0x8048000 demo_exec_ok H1 demo_exec_args H2 H3) 1 (seqZ 1 25) demo_exec_supply).
Defined.
