(* ===== verification/Timer.v ===== *)
(** * The timer (device/timer.c)

    Programming of the interval timer, the tick handler that charges the
    running thread and preempts it, and sleeping by yielding. *)

From S2P Require Import Prelude Machine Concrete Interrupt CString DList Paging Tss Sched Memory Idt.

#[local] Open Scope Z_scope.

Definition IRQ0_FREQUENCY : Z := 100.
Definition INPUT_FREQUENCY : Z := 1193180.
Definition COUNTER0_VALUE : Z := INPUT_FREQUENCY / IRQ0_FREQUENCY.
Definition COUNTER0_PORT : Z := 0x40.
Definition COUNTER0_NO : Z := 0.
Definition COUNTER_MODE : Z := 2.
Definition RW_LATCH : Z := 3.
Definition PIT_CONTROL_PORT : Z := 0x43.
Definition TICKS_PER_SECOND : Z := 100000.

Section Timer.
Context {PL : Platform} {LK : Linker}.

(** The cast in the last line binds tighter than the shift. *)
Definition set_frequency (port no rw mode value : Z) : K unit :=
  outb PIT_CONTROL_PORT (u8 (Z.lor (Z.lor (Z.shiftl no 6) (Z.shiftl rw 4)) (Z.shiftl mode 1)));;
  outb port (u8 value);;
  outb port (Z.shiftr (u8 value) 8).

Definition time_intr_handler : K unit :=
  st ← intr_get_status;
  ASSERT (bool_decide (st = INTR_OFF)) "device/timer.c" 34 "time_intr_handler"
    "intr_get_status() == INTR_OFF";;
  curr_thread ← running_thread;
  magic ← ld32 (curr_thread + task_struct.stack_magic_num);
  ASSERT (magic =? 0x19980312) "device/timer.c" 38 "time_intr_handler"
    "curr_thread->stack_magic_num == 0x19980312";;
  elapsed ← ld32 (curr_thread + task_struct.elapsed_time);
  st32 (curr_thread + task_struct.elapsed_time) (elapsed + 1);;
  total ← getv total_times;
  setv (set_total_times (u32 (total + 1)));;
  ava ← ld32 (curr_thread + task_struct.ava_time);
  if ava =? 0 then schedule
  else
    ava ← ld32 (curr_thread + task_struct.ava_time);
    st32 (curr_thread + task_struct.ava_time) (ava - 1).

Definition sleep_by_ticks (t : Z) : K unit :=
  start ← getv total_times;
  while_ (fun _ : unit =>
    now ← getv total_times;
    if now <? u32 (start + t) then thread_yield;; mret (inl tt) else mret (inr tt)) tt.

Definition sleep_by_msecond (ms : Z) : K unit :=
  let ticks := DIV_ROUND_UP (u32 (ms * TICKS_PER_SECOND)) 1000 in
  sleep_by_ticks ticks.

Definition sleep_by_second (s : Z) : K unit :=
  let ticks := u32 (s * TICKS_PER_SECOND) in
  sleep_by_ticks ticks.

Definition timer_init : K unit :=
  set_frequency COUNTER0_PORT COUNTER0_NO RW_LATCH COUNTER_MODE COUNTER0_VALUE;;
  intr_set_handler 0x20 fn_time_intr_handler.
End Timer.

(** ** The clock on the abstract scheduler *)

(** A tick charges the running task; a task whose slice is used up is
    preempted. *)
Definition abs_charge (a : sched) : sched :=
  let t := s_tcb a (s_cur a) in
  alter_tcb (with_times (t_ava_time t) (u32 (t_elapsed_time t + 1))) (s_cur a) a.

Definition slice_left (a : sched) : Z := t_ava_time (s_tcb a (s_cur a)).

Definition abs_tick (idle : Z) (a : sched) : sched :=
  if slice_left a =? 0 then abs_schedule idle (abs_charge a)
  else
    let t := s_tcb a (s_cur a) in
    alter_tcb (with_times (t_ava_time t - 1) (u32 (t_elapsed_time t + 1))) (s_cur a) a.

Lemma set_vars_set_mem v m s : set_vars v (set_mem m s) = set_mem m (set_vars v s).
Proof. done. Qed.

Section Clock.
Context {PL : Platform} {LK : Linker} (tasks : list Z) (idle : Z).
Context (Hlay : layout tasks).

Lemma inv_tick a : inv tasks idle a -> inv tasks idle (abs_tick idle a).
Proof.
  intros Hi. unfold abs_tick, abs_charge. case_match.
  - apply (inv_step _ _ (abs_charge a)); [|constructor]. apply (inv_step _ _ a); [done|constructor].
  - apply (inv_step _ _ a); [done|constructor].
Qed.

(** The counters a tick writes. *)
Lemma charge_mem a s :
  inv tasks idle a -> runs tasks idle a s ->
  rep tasks (abs_charge a) (put32 (mem s) (s_cur a + task_struct.elapsed_time)
    (u32 (t_elapsed_time (s_tcb a (s_cur a)) + 1))).
Proof.
  intros [Hw _] [Hr _ _]. pose proof (wf_cur _ _ _ Hw) as Hc.
  destruct (rep_tcb _ _ _ Hr _ Hc) as [G1 G2 G3 G4 G5 G6].
  pose proof (lay_fd _ Hlay). offsets.
  eapply rep_update; [done|done|done| |].
  - intros b Hb. apply get8_put32_ne. offsets. lia.
  - pose proof (u32_range (t_elapsed_time (s_tcb a (s_cur a)) + 1)).
    constructor; offsets; cbn; mem_simpl; try done.
Qed.

(** The handler up to the test of the time slice. *)
Definition charged (s : machine) (a : sched) : machine :=
  set_vars (set_total_times (u32 (total_times (vars s) + 1)) (vars s))
    (set_mem (put32 (mem s) (s_cur a + task_struct.elapsed_time)
      (u32 (t_elapsed_time (s_tcb a (s_cur a)) + 1))) s).

Definition preempt_if_used_up (curr_thread : Z) : K unit :=
  ava ← ld32 (curr_thread + task_struct.ava_time);
  if ava =? 0 then schedule
  else
    ava ← ld32 (curr_thread + task_struct.ava_time);
    st32 (curr_thread + task_struct.ava_time) (ava - 1).

Lemma handler_charges a s :
  inv tasks idle a -> runs tasks idle a s -> intr_flag s = false ->
  get32 (mem s) (s_cur a + task_struct.stack_magic_num) = 0x19980312 ->
  time_intr_handler s = preempt_if_used_up (s_cur a) (charged s a) /\
  runs tasks idle (abs_charge a) (charged s a).
Proof.
  intros Hi Hr Hoff Hm. pose proof (charge_mem a s Hi Hr) as Hrep. destruct Hi as [Hw HR]. split.
  - unfold time_intr_handler. unfold intr_get_status at 1. erewrite bind_ok by reflexivity. cbv beta.
    rewrite Hoff. erewrite bind_ok by (by apply assert_run).
    rewrite (bind_ok _ _ _ _ _ (running_thread_run tasks Hlay idle a s Hw Hr)).
    erewrite bind_ok by reflexivity. cbv beta. rewrite Hm.
    erewrite bind_ok by (by apply assert_run). do 4 (erewrite bind_ok by reflexivity; cbv beta). msimpl.
    destruct (rep_tcb _ _ _ (run_rep _ _ _ _ Hr) _ (wf_cur _ _ _ Hw)) as [_ _ _ _ G5 _].
    rewrite G5, <- put32_u32. reflexivity.
  - destruct Hr as [_ He Hid]. constructor; [done|done|exact Hid].
Qed.

Lemma slice_range a s : inv tasks idle a -> runs tasks idle a s -> 0 <= slice_left a < 2 ^ 32.
Proof.
  intros [Hw _] [Hr _ _]. destruct (rep_tcb _ _ _ Hr _ (wf_cur _ _ _ Hw)) as [_ _ _ G4 _ _].
  unfold slice_left. rewrite <- G4. apply get32_range.
Qed.

Lemma slice_charged a s :
  inv tasks idle a -> runs tasks idle a s ->
  get32 (mem (charged s a)) (s_cur a + task_struct.ava_time) = slice_left a.
Proof.
  intros [Hw _] [Hr _ _]. destruct (rep_tcb _ _ _ Hr _ (wf_cur _ _ _ Hw)) as [_ _ _ G4 _ _].
  unfold charged, slice_left. msimpl. rewrite get32_put32_ne; [done|]. offsets. lia.
Qed.

Lemma tick_continues a s :
  inv tasks idle a -> runs tasks idle a s -> slice_left a <> 0 ->
  preempt_if_used_up (s_cur a) (charged s a)
    = Ok tt (set_mem (put32 (mem (charged s a)) (s_cur a + task_struct.ava_time) (slice_left a - 1)) (charged s a)) /\
  rep tasks (abs_tick idle a)
    (put32 (mem (charged s a)) (s_cur a + task_struct.ava_time) (slice_left a - 1)).
Proof.
  intros Hi Hr Hne. pose proof (slice_range a s Hi Hr) as Hs. pose proof (slice_charged a s Hi Hr) as Hav.
  destruct Hi as [Hw HR]. split.
  - unfold preempt_if_used_up. erewrite bind_ok by reflexivity. cbv beta. rewrite Hav.
    rewrite (proj2 (Z.eqb_neq _ 0)) by done. erewrite bind_ok by reflexivity. cbv beta. rewrite Hav. done.
  - unfold abs_tick. rewrite (proj2 (Z.eqb_neq _ 0)) by done. unfold charged. msimpl.
    apply rep_put_times; [done|apply Hr|apply (wf_cur _ _ _ Hw)| |apply u32_range].
    unfold slice_left in *. lia.
Qed.

(** How long a task keeps the processor: as many ticks as are left of its
    slice, and not one more. *)
Lemma tick_slice a : slice_left a <> 0 ->
  s_cur (abs_tick idle a) = s_cur a /\ slice_left (abs_tick idle a) = slice_left a - 1 /\
  s_ready (abs_tick idle a) = s_ready a.
Proof.
  intros Hne. unfold abs_tick. rewrite (proj2 (Z.eqb_neq _ 0)) by done. cbn.
  unfold slice_left, s_cur. cbn. by rewrite decide_True.
Qed.

Lemma slice_iter i : forall a, Z.of_nat i <= slice_left a ->
  s_cur (Nat.iter i (abs_tick idle) a) = s_cur a /\
  slice_left (Nat.iter i (abs_tick idle) a) = slice_left a - Z.of_nat i /\
  s_ready (Nat.iter i (abs_tick idle) a) = s_ready a.
Proof.
  induction i as [|i IH]; intros a Hi; [cbn; split_and!; [done|lia|done]|].
  destruct (IH a ltac:(lia)) as (H1 & H2 & H3). rewrite Nat.iter_succ.
  destruct (tick_slice (Nat.iter i (abs_tick idle) a)) as (G1 & G2 & G3); [lia|].
  split_and!; [congruence|lia|congruence].
Qed.

Lemma inv_ticks i a : inv tasks idle a -> inv tasks idle (Nat.iter i (abs_tick idle) a).
Proof. intros Hi. induction i as [|i IH]; [done|]. by apply inv_tick. Qed.
End Clock.

Section Properties.
Context {PL : Platform} {LK : Linker}.

(** The interval timer is programmed in mode 2, but of the divisor 11931 only
    the low byte 155 reaches it: the high byte sent is 0.  The clock handler is
    registered for vector 0x20. *)
Theorem timer_init_programs s :
  exists s', timer_init s = Ok tt s' /\
    trace s' = trace s ++ [OutB PIT_CONTROL_PORT 0x34; OutB COUNTER0_PORT (COUNTER0_VALUE mod 256);
                           OutB COUNTER0_PORT 0] /\
    COUNTER0_VALUE / 256 = 46 /\
    get32 (mem s') (sym_idt_table + 4 * 0x20) = u32 fn_time_intr_handler.
Proof.
  eexists. split; [unfold timer_init, set_frequency; srun; reflexivity|]. split_and!; msimpl.
  - by rewrite <- !app_assoc.
  - done.
  - apply get32_put32_eq.
Qed.

(** A clock interrupt refines the abstract tick: it charges the running task
    and the total, and either lets the task go on with one tick less or, when
    the slice is used up, hands the processor to the next ready task. *)
Theorem time_intr_handler_refines tasks idle a s :
  layout tasks -> inv tasks idle a -> runs tasks idle a s -> intr_flag s = false ->
  get32 (mem s) (s_cur a + task_struct.stack_magic_num) = 0x19980312 ->
  inv tasks idle (abs_tick idle a) /\
  (slice_left a <> 0 -> exists s', time_intr_handler s = Ok tt s' /\
     runs tasks idle (abs_tick idle a) s' /\ intr_flag s' = false /\
     total_times (vars s') = u32 (total_times (vars s) + 1)) /\
  (slice_left a = 0 -> exists s' k, time_intr_handler s = Switch s' k /\
     runs tasks idle (abs_tick idle a) s' /\ intr_flag s' = false /\
     total_times (vars s') = u32 (total_times (vars s) + 1) /\
     forall s'', k s'' = Ok tt s'').
Proof.
  intros Hlay Hi Hr Hoff Hm. destruct (handler_charges tasks idle Hlay a s Hi Hr Hoff Hm) as [E Hrc].
  split; [by apply inv_tick|]. split; intros Hs; rewrite E.
  - destruct (tick_continues tasks idle Hlay a s Hi Hr Hs) as [E2 Hrep]. eexists. split; [exact E2|].
    destruct Hr as [_ He Hid]. split_and!; [|done|done]. constructor; [done| |done].
    unfold abs_tick. by rewrite (proj2 (Z.eqb_neq _ 0)).
  - assert (Hw : wf tasks idle (abs_charge a)).
    { apply (inv_step tasks idle a); [done|]. apply as_tick. }
    destruct (schedule_run tasks Hlay idle _ _ Hw Hrc Hoff) as (s' & E2 & [G1 G2 G3 _ _]).
    exists s', (fun s'' => Ok tt s''). unfold preempt_if_used_up. erewrite bind_ok by reflexivity. cbv beta.
    rewrite (slice_charged tasks idle a s Hi Hr), Hs. unfold abs_tick. rewrite Hs.
    split_and!; [exact E2|done|by rewrite G2|by rewrite G3|done].
Qed.

End Properties.

(** ** Concrete instances *)

(** The main thread of the demonstration state has used up its slice. *)
Lemma time_intr_handler_refines_witness :
  exists s' k, time_intr_handler (set_intr_flag false demo_sched_machine) = Switch s' k /\
    runs demo_tasks demo_idle (abs_tick demo_idle demo_abs) s' /\ intr_flag s' = false /\
    total_times (vars s') = 1 /\ forall s'', k s'' = Ok tt s''.
Proof.
  apply (time_intr_handler_refines demo_tasks demo_idle demo_abs (set_intr_flag false demo_sched_machine)
    demo_layout demo_inv demo_runs_off); reflexivity.
Defined.

