(* ===== verification/Console.v ===== *)
(** * The console (device/console.c)

    Output routines that hold the console's mutex while they print. *)

From S2P Require Import Prelude Machine Concrete Interrupt CString DList Paging Tss Sched Lock.

#[local] Open Scope Z_scope.

Module console.
Definition console_lock : Z := 0.
Definition sizeof : Z := 28.
End console.

Section Console.
Context {PL : Platform} {LK : Linker}.

Definition console_init : K unit := mutex_init (sym_cons + console.console_lock).
Definition console_lock : K unit := mutex_lock (sym_cons + console.console_lock).
Definition console_unlock : K unit := mutex_unlock (sym_cons + console.console_lock).

Definition console_put_str (s : Z) : K unit :=
  console_lock;;
  put_str s;;
  console_unlock.

Definition console_put_char (c : Z) : K unit :=
  console_lock;;
  put_char c;;
  console_unlock.

Definition console_put_int (x : Z) : K unit :=
  console_lock;;
  put_lit "0x";;
  put_int x;;
  console_unlock.
End Console.
