(* ===== verification/Keyboard.v ===== *)
(** * The keyboard driver (device/keyboard.c)

    The interrupt handler turns scan codes into characters, which it puts into
    the keyboard buffer, and keeps track of the modifier keys. *)

From S2P Require Import Prelude Machine Concrete Interrupt CString DList Paging Tss Sched Lock Sems IoQueue Console Idt.

#[local] Open Scope Z_scope.

Definition KEYBOARD_BUF_PORT : Z := 0x60.

Definition LEFT_SHIFT_MAKECODE : Z := 0x2a.
Definition RIGHT_SHIFT_MAKECODE : Z := 0x36.
Definition LEFT_ALT_MAKECODE : Z := 0x38.
Definition RIGHT_ALT_MAKECODE : Z := 0xe038.
Definition LEFT_CTRL_MAKECODE : Z := 0x1d.
Definition RIGHT_CTRL_MAKECODE : Z := 0xe01d.
Definition CAPSLOCK_MAKECODE : Z := 0x3a.

(** Per scan code, the character without and with shift; the characters are
    written by their codes: 27 escape, 8 backspace, 9 tab, 13 enter. *)
Definition scancode_ascii_map : list (Z * Z) := [
  (0, 0); (27, 27);
  (49, 33); (50, 64); (51, 35); (52, 36); (53, 37); (54, 94); (55, 38); (56, 42); (57, 40); (48, 41);
  (45, 95); (61, 43); (8, 8); (9, 9);
  (113, 81); (119, 87); (101, 69); (114, 82); (116, 84); (121, 89); (117, 85); (105, 73); (111, 79);
  (112, 80); (91, 123); (93, 125); (13, 13); (0, 0);
  (97, 65); (115, 83); (100, 68); (102, 70); (103, 71); (104, 72); (106, 74); (107, 75); (108, 76);
  (59, 58); (39, 34); (96, 126); (0, 0); (92, 124);
  (122, 90); (120, 88); (99, 67); (118, 86); (98, 66); (110, 78); (109, 77); (44, 60); (46, 62);
  (47, 63); (0, 0); (42, 42); (0, 0); (32, 32); (0, 0) ].

Section Keyboard.
Context {PL : Platform} {LK : Linker}.

(** The keys whose shifted character is chosen by the shift keys alone. *)
Definition two_char_key (scancode : Z) : bool :=
  (scancode <? 0x0e) || (scancode =? 0x2a) ||
  ((0x27 <=? scancode) && (scancode <=? 0x29)) ||
  ((0x33 <=? scancode) && (scancode <=? 0x35)) ||
  (scancode =? 0x1a) || (scancode =? 0x1b).

Definition keyboard_interrupt_hanlder : K unit :=
  scancode ← inb KEYBOARD_BUF_PORT;
  if scancode =? 0xe0 then setv (set_ext_scancode true)
  else
    ext ← getv ext_scancode;
    let scancode := if (ext : bool) then Z.lor 0xe000 scancode else scancode in
    when ext (setv (set_ext_scancode false));;
    let is_breakcode := negb (Z.land 0x0080 scancode =? 0) in
    if is_breakcode then
      let makecode := Z.land scancode 0xff7f in
      if (makecode =? LEFT_CTRL_MAKECODE) || (makecode =? RIGHT_CTRL_MAKECODE) then
        setv (set_ctrl_down false)
      else if (makecode =? LEFT_SHIFT_MAKECODE) || (makecode =? RIGHT_SHIFT_MAKECODE) then
        setv (set_shift_down false)
      else when ((makecode =? LEFT_ALT_MAKECODE) || (makecode =? RIGHT_ALT_MAKECODE))
        (setv (set_alt_down false))
    else if ((0x00 <? scancode) && (scancode <? 0x3b)) || (scancode =? RIGHT_CTRL_MAKECODE) ||
            (scancode =? RIGHT_ALT_MAKECODE) then
      shift ← getv shift_down;
      caps ← getv capslock_down;
      let has_shift :=
        if two_char_key scancode then shift
        else (shift && negb caps) || (negb shift && caps) in
      let scancode := Z.land scancode 0x00ff in
      let index := scancode in
      let entry := nth (Z.to_nat index) scancode_ascii_map (0, 0) in
      let ascii_char := if (has_shift : bool) then entry.2 else entry.1 in
      if negb (ascii_char =? 0) then io_queue_putchar sym_keyboard_buffer ascii_char
      else if (scancode =? LEFT_CTRL_MAKECODE) || (scancode =? RIGHT_CTRL_MAKECODE) then
        setv (set_ctrl_down true)
      else if (scancode =? LEFT_SHIFT_MAKECODE) || (scancode =? RIGHT_SHIFT_MAKECODE) then
        setv (set_shift_down true)
      else if (scancode =? LEFT_ALT_MAKECODE) || (scancode =? RIGHT_ALT_MAKECODE) then
        setv (set_alt_down true)
      else when (scancode =? CAPSLOCK_MAKECODE)
        (c ← getv capslock_down; setv (set_capslock_down (negb c)))
    else
      console_put_int scancode;;
      (* two different literals have different addresses *)
      ASSERT false "device/keyboard.c" 177 "keyboard_interrupt_hanlder" "error == unknow key!".

Definition keyboard_init : K unit :=
  io_queue_init sym_keyboard_buffer;;
  intr_set_handler 0x21 fn_keyboard_interrupt_hanlder.
End Keyboard.

(** ** The keyboard as a state machine *)

Inductive modifier := Ctrl | Shift | Alt.

Record keys := mkKeys { k_ctrl : bool; k_shift : bool; k_alt : bool; k_caps : bool; k_ext : bool }.

#[export] Instance keys_eq_dec : EqDecision keys.
Proof. solve_decision. Defined.

(** What a byte from the keyboard means to the system. *)
Inductive action := Quiet | Types (ch : Z) | Unknown.

#[export] Instance action_eq_dec : EqDecision action.
Proof. solve_decision. Defined.

Definition set_modifier (m : modifier) (down : bool) (k : keys) : keys :=
  match m with
  | Ctrl => mkKeys down (k_shift k) (k_alt k) (k_caps k) (k_ext k)
  | Shift => mkKeys (k_ctrl k) down (k_alt k) (k_caps k) (k_ext k)
  | Alt => mkKeys (k_ctrl k) (k_shift k) down (k_caps k) (k_ext k)
  end.
Definition set_caps (b : bool) (k : keys) : keys := mkKeys (k_ctrl k) (k_shift k) (k_alt k) b (k_ext k).
Definition set_ext (b : bool) (k : keys) : keys := mkKeys (k_ctrl k) (k_shift k) (k_alt k) (k_caps k) b.

(** The modifier a key is; keys after the prefix are numbered from 0xe000. *)
Definition modifier_key (key : Z) : option modifier :=
  if (key =? 0x1d) || (key =? 0xe01d) then Some Ctrl
  else if (key =? 0x2a) || (key =? 0x36) then Some Shift
  else if (key =? 0x38) || (key =? 0xe038) then Some Alt
  else None.

(** The keys of the typewriter block: letters follow shift and caps lock. *)
Definition typed (k : keys) (key : Z) : Z :=
  let '(plain, shifted) := nth (Z.to_nat key) scancode_ascii_map (0, 0) in
  if (if two_char_key key then k_shift k else xorb (k_shift k) (k_caps k)) then shifted else plain.

Definition press (k : keys) (key : Z) : keys * action :=
  match modifier_key key with
  | Some m => (set_modifier m true k, Quiet)
  | None =>
      if key =? 0x3a then (set_caps (negb (k_caps k)) k, Quiet)
      else if (0 <? key) && (key <? 0x3a) then
        if typed k key =? 0 then (k, Quiet) else (k, Types (typed k key))
      else (k, Unknown)
  end.

Definition release (k : keys) (key : Z) : keys * action :=
  match modifier_key key with Some m => (set_modifier m false k, Quiet) | None => (k, Quiet) end.

(** A byte is the prefix, or bit 7 tells a release from a press. *)
Definition key_step (k : keys) (byte : Z) : keys * action :=
  if byte =? 0xe0 then (set_ext true k, Quiet)
  else
    let key := (if k_ext k then 0xe000 else 0) + byte mod 128 in
    if byte <? 128 then press (set_ext false k) key else release (set_ext false k) key.

(** *** The handler's decisions *)

(** [keyboard_interrupt_hanlder] as a function of the flags and the byte. *)
Definition handler_step (k : keys) (scancode : Z) : keys * action :=
  if scancode =? 0xe0 then (set_ext true k, Quiet)
  else
    let scancode := if k_ext k then Z.lor 0xe000 scancode else scancode in
    let k := set_ext false k in
    if negb (Z.land 0x0080 scancode =? 0) then
      let makecode := Z.land scancode 0xff7f in
      if (makecode =? LEFT_CTRL_MAKECODE) || (makecode =? RIGHT_CTRL_MAKECODE) then (set_modifier Ctrl false k, Quiet)
      else if (makecode =? LEFT_SHIFT_MAKECODE) || (makecode =? RIGHT_SHIFT_MAKECODE) then
        (set_modifier Shift false k, Quiet)
      else if (makecode =? LEFT_ALT_MAKECODE) || (makecode =? RIGHT_ALT_MAKECODE) then
        (set_modifier Alt false k, Quiet)
      else (k, Quiet)
    else if ((0x00 <? scancode) && (scancode <? 0x3b)) || (scancode =? RIGHT_CTRL_MAKECODE) ||
            (scancode =? RIGHT_ALT_MAKECODE) then
      let has_shift :=
        if two_char_key scancode then k_shift k
        else (k_shift k && negb (k_caps k)) || (negb (k_shift k) && k_caps k) in
      let scancode := Z.land scancode 0x00ff in
      let entry := nth (Z.to_nat scancode) scancode_ascii_map (0, 0) in
      let ch := if (has_shift : bool) then entry.2 else entry.1 in
      if negb (ch =? 0) then (k, Types ch)
      else if (scancode =? LEFT_CTRL_MAKECODE) || (scancode =? RIGHT_CTRL_MAKECODE) then (set_modifier Ctrl true k, Quiet)
      else if (scancode =? LEFT_SHIFT_MAKECODE) || (scancode =? RIGHT_SHIFT_MAKECODE) then
        (set_modifier Shift true k, Quiet)
      else if (scancode =? LEFT_ALT_MAKECODE) || (scancode =? RIGHT_ALT_MAKECODE) then (set_modifier Alt true k, Quiet)
      else if scancode =? CAPSLOCK_MAKECODE then (set_caps (negb (k_caps k)) k, Quiet)
      else (k, Quiet)
    else (k, Unknown).

(** The two agree on every byte and every setting of the flags. *)
Definition all_keys : list keys :=
  let bs := [false; true] in
  c ← bs; s ← bs; a ← bs; l ← bs; e ← bs; [mkKeys c s a l e].

Lemma all_keys_in k : k ∈ all_keys.
Proof. apply (bool_decide_unpack _). destruct k as [[] [] [] [] []]; vm_compute; exact I. Qed.

Lemma handler_step_key_step k c : 0 <= c < 256 -> handler_step k c = key_step k c.
Proof.
  intros Hc.
  assert (H : Forall (fun k => Forall (fun c => handler_step k c = key_step k c) (seqZ 0 256)) all_keys)
    by (apply (bool_decide_unpack _); vm_compute; exact I).
  rewrite Forall_forall in H. specialize (H k (all_keys_in k)). rewrite Forall_forall in H.
  apply H, elem_of_seqZ. lia.
Qed.

(** A letter is a capital if exactly one of shift and caps lock is on. *)
Lemma typed_letters k key ch :
  0 <= key < 0x3a -> nth (Z.to_nat key) scancode_ascii_map (0, 0) = (ch, ch - 32) -> 97 <= ch <= 122 ->
  typed k key = if xorb (k_shift k) (k_caps k) then ch - 32 else ch.
Proof.
  intros Hk E Hch. unfold typed. rewrite E. replace (two_char_key key) with false; [done|].
  assert (H : Forall (fun x => 97 <= (nth (Z.to_nat x) scancode_ascii_map (0, 0)).1 <= 122 ->
    two_char_key x = false) (seqZ 0 0x3a)).
  { apply (bool_decide_unpack _). vm_compute. exact I. }
  rewrite Forall_forall in H. symmetry. apply H; [apply elem_of_seqZ; lia|]. rewrite E. cbn. lia.
Qed.

(** *** The handler *)
Section Handler.
Context {PL : Platform} {LK : Linker}.

Definition keys_of (v : variables) : keys :=
  mkKeys (ctrl_down v) (shift_down v) (alt_down v) (capslock_down v) (ext_scancode v).

Definition with_keys (k : keys) (v : variables) : variables :=
  mkVars (k_ctrl k) (k_shift k) (k_alt k) (k_caps k) (k_ext k) (total_times v) (next_pid v) (idle_thread v)
    (main_thread v) (curr_part v) (channel_cnt v) (ext_lba_base v) (master_no v) (logical_no v).

(** The state after the byte [c] has been read and the flags are [k]. *)
Definition after_byte (k : keys) (c : Z) (s : machine) : machine :=
  set_vars (with_keys k (vars s)) (log (InB KEYBOARD_BUF_PORT c) s).

Definition scancode_of (k : keys) (c : Z) : Z := if k_ext k then Z.lor 0xe000 c else c.

Definition acts (k : keys) (c : Z) (act : action) : K unit :=
  match act with
  | Quiet => skip
  | Types ch => io_queue_putchar sym_keyboard_buffer ch
  | Unknown =>
      console_put_int (scancode_of k c);;
      ASSERT false "device/keyboard.c" 177 "keyboard_interrupt_hanlder" "error == unknow key!"
  end.

Lemma bind_getv {A B} (f : variables -> A) (k : A -> K B) s : (getv f ≫= k) s = k (f (vars s)) s.
Proof. done. Qed.

Lemma with_same_keys v : with_keys (keys_of v) v = v.
Proof. by destruct v. Qed.

(** The handler takes the decision and acts on it. *)
Lemma handler_run s :
  let c := u8 (dev_inb (trace s) KEYBOARD_BUF_PORT) in
  let k := keys_of (vars s) in
  keyboard_interrupt_hanlder s = acts k c (handler_step k c).2 (after_byte (handler_step k c).1 c s).
Proof.
  intros c k. unfold keyboard_interrupt_hanlder.
  rewrite (bind_ok (inb KEYBOARD_BUF_PORT) _ c s (log (InB KEYBOARD_BUF_PORT c) s)) by done.
  unfold handler_step. destruct (c =? 0xe0); [done|].
  set (s1 := log _ s). rewrite bind_getv.
  change (ext_scancode (vars s1)) with (k_ext k). fold (scancode_of k c).
  assert (E : when (k_ext k) (setv (set_ext_scancode false)) s1 = Ok tt (after_byte (set_ext false k) c s)).
  { unfold after_byte. unfold k, keys_of. subst s1. destruct s as [m fl e c3 tr [ct sh al cp []]]; done. }
  rewrite (bind_ok _ _ _ _ _ E). clear E. cbv zeta. unfold acts.
  set (msg := console_put_int _;; _). clearbody msg.
  set (k0 := set_ext false k). set (s2 := after_byte k0 c s).
  assert (Es : forall k', after_byte k' c s = set_vars (with_keys k' (vars s2)) s2) by done.
  assert (Ek : keys_of (vars s2) = k0) by done. clearbody s2.
  rewrite !Es. clear Es. subst k0.
  generalize (scancode_of k c). intros sc. rewrite <- Ek. clear Ek.
  destruct s2 as [m fl e c3 tr [ct sh al cp ex]]. unfold keys_of. cbn [vars].
  destruct (negb (Z.land 0x0080 sc =? 0)).
  { repeat match goal with |- context [if ?b || ?b' then _ else _] => destruct (b || b'); [done|] end. 
    done. }
  match goal with |- context [if ?a || ?b || ?b' then _ else _] => destruct (a || b || b'); [|done] end.
  rewrite !bind_getv. cbn [vars shift_down capslock_down k_shift k_caps].
  set (up := if two_char_key sc then sh else _).
  set (entry := nth _ scancode_ascii_map _). clearbody entry up.
  generalize (if up then entry.2 else entry.1). intros ch.
  destruct (negb (ch =? 0)); [done|].
  repeat match goal with |- context [if ?b || ?b' then _ else _] => destruct (b || b'); [done|] end.
  by destruct (Z.land sc 0x00ff =? CAPSLOCK_MAKECODE).
Qed.

Lemma ioq_vars tasks idle q a cs wsl wi wm s v e :
  ioq tasks idle q a cs wsl wi wm s -> idle_thread v = idle_thread (vars s) ->
  ioq tasks idle q a cs wsl wi wm (set_vars v (log e s)).
Proof.
  intros [[Hi [Hr He Hid] Hw Hs] Hg] Hv. constructor; [|done]. constructor; [done| |done|done].
  constructor; [done|done|]. by rewrite <- Hid, <- Hv.
Qed.

End Handler.

