(* ===== verification/Syscall.v ===== *)
(** * System calls (proc/syscall_init.c, lib/syscall.c, kernel/kernel.S: syscall_handler)

    The kernel's table of services, the gate that dispatches through it, and
    the wrappers user programs call. *)

From S2P Require Import Prelude Machine Concrete Interrupt CString Bitmap DList Paging Tss Sched Lock Memory Malloc Console.

#[local] Open Scope Z_scope.

Definition SYSCALL_NR : Z := 32.

(** [enum __syscall_nr] *)
Definition SYS_GETPID : Z := 0.
Definition SYS_WRITE : Z := 1.
Definition SYS_MALLOC : Z := 3.
Definition SYS_FREE : Z := 4.

Section Syscall.
Context {PL : Platform} {LK : Linker}.

Definition syscall_init : K unit :=
  st32 (sym_syscall_table + 4 * SYS_GETPID) fn_sys_getpid;;
  st32 (sym_syscall_table + 4 * SYS_WRITE) fn_sys_write;;
  st32 (sym_syscall_table + 4 * SYS_MALLOC) fn_sys_malloc;;
  st32 (sym_syscall_table + 4 * SYS_FREE) fn_sys_free.

Definition sys_getpid : K Z :=
  t ← running_thread;
  get_thread_pid t.

Definition sys_write (s : Z) : K Z :=
  console_put_str s;;
  strlen s.

(** A call through a pointer reaches the function whose address it holds; the
    register of a function without a result is left to [ignored]. *)
Definition call_service (ignored fn arg1 : Z) : K Z :=
  if fn =? fn_sys_getpid then sys_getpid
  else if fn =? fn_sys_write then sys_write arg1
  else if fn =? fn_sys_malloc then sys_malloc arg1
  else if fn =? fn_sys_free then sys_free arg1;; mret ignored
  else panic "call of an address that is not a service".

(** [syscall_handler]: the number in eax, the first argument in ebx; entering
    through the gate disables interrupts and the return restores them. *)
Definition syscall_handler (ignored eax ebx : Z) : K Z :=
  flag ← gets intr_flag;
  modify (set_intr_flag false);;
  fn ← ld32 (sym_syscall_table + 4 * eax);
  r ← call_service ignored fn ebx;
  modify (set_intr_flag flag);;
  mret r.

(** The wrappers. They trap with the number in eax; a register they do not
    load holds [ebx]. No service takes what ecx and edx hold, so [_syscall2]
    and [_syscall3], which no wrapper uses, only trap. *)
Definition _syscall0 (ignored ebx num : Z) : K Z := syscall_handler ignored num ebx.

Definition _syscall1 (ignored num arg1 : Z) : K Z := syscall_handler ignored num arg1.

Definition _syscall2 (ignored num arg1 arg2 : Z) : K Z := syscall_handler ignored num arg1.

Definition _syscall3 (ignored num arg1 arg2 arg3 : Z) : K Z := syscall_handler ignored num arg1.

Definition getpid (ignored ebx : Z) : K Z :=
  r ← _syscall0 ignored ebx SYS_GETPID;
  mret (u16 r).

Definition write (ignored s : Z) : K Z := _syscall1 ignored SYS_WRITE s.

Definition malloc (ignored size : Z) : K Z := _syscall1 ignored SYS_MALLOC size.

Definition free (ignored p : Z) : K unit :=
  _syscall1 ignored SYS_FREE p;;
  skip.
End Syscall.

(** ** The gate *)
Section Gate.
Context {PL : Platform} {LK : Linker}.

(** What runs with interrupts off and the flag of the caller restored. *)
Definition in_gate {A} (c : K A) : K A :=
  flag ← gets intr_flag;
  modify (set_intr_flag false);;
  r ← c;
  modify (set_intr_flag flag);;
  mret r.

Definition services : list Z := [fn_sys_getpid; fn_sys_write; fn_sys_malloc; fn_sys_free].
Definition numbers : list Z := [SYS_GETPID; SYS_WRITE; SYS_MALLOC; SYS_FREE].

Definition table_bytes (b : Z) : Prop := sym_syscall_table <= b < sym_syscall_table + 4 * SYSCALL_NR.

(** The table leads from the numbers to the services. *)
Definition table_made (m : memory) : Prop :=
  forall i nr fn, numbers !! i = Some nr -> services !! i = Some fn ->
    get32 m (sym_syscall_table + 4 * nr) = fn.

Lemma table_made_frame m m' P :
  changed_only P m m' -> (forall b, table_bytes b -> ~ P b) -> table_made m -> table_made m'.
Proof.
  intros Hc HP Ht i nr fn Hn Hf. rewrite <- (Ht i nr fn Hn Hf). apply (changed_get32 _ _ _ _ Hc).
  intros b Hb. apply HP. unfold table_bytes, SYSCALL_NR.
  unfold numbers, SYS_GETPID, SYS_WRITE, SYS_MALLOC, SYS_FREE in Hn.
  destruct i as [|[|[|[|i]]]]; cbn in Hn; simplify_eq; lia.
Qed.

Lemma syscall_init_run s :
  Forall is_u32 services ->
  exists m', syscall_init s = Ok tt (set_mem m' s) /\ table_made m' /\ changed_only table_bytes (mem s) m'.
Proof.
  intros Hu. assert (H32 : forall x, is_u32 x -> u32 x = x) by (intros x Hx; apply u32_small; unfold is_u32 in Hx; lia).
  unfold services in Hu. rewrite !Forall_cons in Hu. destruct Hu as (U1 & U2 & U3 & U4 & _).
  eexists. split; [reflexivity|].
  unfold SYS_GETPID, SYS_WRITE, SYS_MALLOC, SYS_FREE. split.
  - intros i nr fn Hn Hf. unfold numbers, services, SYS_GETPID, SYS_WRITE, SYS_MALLOC, SYS_FREE in *.
    destruct i as [|[|[|[|i]]]]; cbn in Hn, Hf; simplify_eq; msimpl;
      rewrite ?get32_put32_ne, get32_put32_eq by lia; by apply H32.
  - unfold table_bytes, SYSCALL_NR. intros b Hb. msimpl. rewrite !get8_put32_ne by lia. done.
Qed.

Lemma bind_ext {A B} (c c' : K A) (f : A -> K B) s : c s = c' s -> (c ≫= f) s = (c' ≫= f) s.
Proof. intros E. change (bind_res (c s) f = bind_res (c' s) f). by rewrite E. Qed.

Lemma gate_run ignored nr fn i arg s :
  table_made (mem s) -> numbers !! i = Some nr -> services !! i = Some fn ->
  syscall_handler ignored nr arg s = in_gate (call_service ignored fn arg) s.
Proof.
  intros Ht Hn Hf. unfold syscall_handler. do 3 (erewrite bind_ok by reflexivity; cbv beta).
  change (mem (set_intr_flag false s)) with (mem s). by rewrite (Ht i nr fn Hn Hf).
Qed.

(** C38: After [syscall_init], as long as nothing writes to the table, each wrapper
    a user program calls runs its own service, with interrupts off, and the
    caller's interrupt flag is restored; [getpid] returns the low 16 bits of
    the service's result. *)
Theorem wrappers_reach_services s :
  NoDup services -> Forall is_u32 services ->
  exists s0, syscall_init s = Ok tt s0 /\
    changed_only table_bytes (mem s) (mem s0) /\
    forall P s', changed_only P (mem s0) (mem s') -> (forall b, table_bytes b -> ~ P b) ->
    forall ignored x,
      getpid ignored x s' = (r ← in_gate sys_getpid; mret (u16 r)) s' /\
      write ignored x s' = in_gate (sys_write x) s' /\
      malloc ignored x s' = in_gate (sys_malloc x) s' /\
      free ignored x s' = (in_gate (sys_free x;; mret ignored);; skip) s'.
Proof.
  intros Hnd Hu. destruct (syscall_init_run s Hu) as (m' & E & Ht & Hc).
  exists (set_mem m' s). split; [exact E|]. split; [exact Hc|]. msimpl. intros P s' Hc' HP ignored x.
  pose proof (table_made_frame _ _ _ Hc' HP Ht) as Ht'. unfold services in Hnd.
  rewrite !NoDup_cons, !elem_of_cons, elem_of_nil in Hnd. destruct Hnd as (N1 & N2 & N3 & _).
  assert (Hne : forall a b, a <> b -> (b =? a) = false) by (intros a b Hab; by apply Z.eqb_neq; congruence).
  unfold getpid, write, malloc, free, _syscall0, _syscall1. split_and!.
  - apply bind_ext. rewrite (gate_run ignored SYS_GETPID fn_sys_getpid 0 x s' Ht' eq_refl eq_refl).
    unfold call_service. by rewrite Z.eqb_refl.
  - rewrite (gate_run ignored SYS_WRITE fn_sys_write 1 x s' Ht' eq_refl eq_refl).
    unfold call_service. by rewrite Hne, Z.eqb_refl by tauto.
  - rewrite (gate_run ignored SYS_MALLOC fn_sys_malloc 2 x s' Ht' eq_refl eq_refl).
    unfold call_service. by rewrite !Hne, Z.eqb_refl by tauto.
  - apply bind_ext. rewrite (gate_run ignored SYS_FREE fn_sys_free 3 x s' Ht' eq_refl eq_refl).
    unfold call_service. by rewrite !Hne, Z.eqb_refl by tauto.
Qed.
End Gate.

(** ** A concrete instance *)
Lemma wrappers_reach_services_witness :
  exists s0, syscall_init (demo_machine ∅) = Ok tt s0 /\
    malloc 0 100 s0 = in_gate (sys_malloc 100) s0.
Proof.
  destruct (wrappers_reach_services (demo_machine ∅)) as (s0 & E & _ & H).
  - apply (bool_decide_unpack _). vm_compute. exact I.
  - unfold services, is_u32. cbn. repeat constructor; lia.
  - exists s0. split; [exact E|]. 
    exact (proj1 (proj2 (proj2 (H (fun _ => False) s0 (changed_refl _ _) ltac:(tauto) 0 100)))).
Defined.
