(* ===== verification/Screen.v ===== *)
(** * The text screen (lib/print.S)

    The C code prints through four assembly routines; the rest of the library
    records their calls as events.  This file models the routines on the video
    memory and the cursor registers, and says what a history of events leaves
    on the screen. *)

From S2P Require Import Prelude Machine Concrete.

#[local] Open Scope Z_scope.

(** ** The routines

    The video memory is the bytes of the video segment, two per cell; the
    controller holds the cursor's position in two registers. *)
Record screen := mkScreen { vram : memory; cursor_high : Z; cursor_low : Z }.

Module print.
(** The limit of the video segment's descriptor, 7 in units of 4 KiB: a store
    beyond it is a general-protection fault, [None]. *)
Definition VIDEO_LIMIT : Z := 0x7fff.
Definition gs_store (off v : Z) (m : memory) : option memory :=
  if off <=? VIDEO_LIMIT then Some (put8 m off v) else None.

Definition s16 (x : Z) : Z := if u16 x <? 32768 then u16 x else u16 x - 65536.

(** [.set_cursor] of put_char, and the routine of that name. *)
Definition set_cursor_regs (bx : Z) (m : memory) : screen := mkScreen m (u16 bx / 256) (u8 bx).
Definition set_cursor (x : Z) (sc : screen) : screen := set_cursor_regs (u16 x) (vram sc).

(** [rep movsd] with [ecx] double words left, 160 bytes apart. *)
Fixpoint roll_copy (ecx : nat) (edi : Z) (m : memory) : memory :=
  match ecx with
  | O => m
  | S ecx' => roll_copy ecx' (edi + 4) (put32 m edi (get32 m (edi + 0xa0)))
  end.

(** [.cls] *)
Fixpoint cls (ecx : nat) (ebx : Z) (m : memory) : memory :=
  match ecx with
  | O => m
  | S ecx' => cls ecx' (ebx + 2) (put16 m ebx 0x0720)
  end.

Definition roll_screen (m : memory) : screen :=
  set_cursor_regs 1920 (cls 80 3840 (roll_copy 960 0 m)).

(** [.is_cr] and [.is_lf]; the comparison is signed. *)
Definition is_lf (bx : Z) (m : memory) : screen :=
  let bx := u16 (bx - bx mod 80) in
  let bx := u16 (bx + 80) in
  if s16 bx <? 2000 then set_cursor_regs bx m else roll_screen m.

Definition is_bs (bx : Z) (m : memory) : option screen :=
  let bx := u16 (bx - 1) in
  let bx := u16 (Z.shiftl bx 1) in
  m ← gs_store bx 0x20 m;
  let bx := u16 (bx + 1) in
  m ← gs_store bx 0x07 m;
  Some (set_cursor_regs (Z.shiftr bx 1) m).

Definition is_others (c bx : Z) (m : memory) : option screen :=
  let bx := u16 (Z.shiftl bx 1) in
  m ← gs_store bx c m;
  let bx := u16 (bx + 1) in
  m ← gs_store bx 0x07 m;
  let bx := Z.shiftr bx 1 in
  let bx := u16 (bx + 1) in
  Some (if s16 bx <? 2000 then set_cursor_regs bx m else is_lf bx m).

Definition put_char (c : Z) (sc : screen) : option screen :=
  let bx := 256 * cursor_high sc + cursor_low sc in
  if c =? 0xd then Some (is_lf bx (vram sc))
  else if c =? 0xa then Some (is_lf bx (vram sc))
  else if c =? 0x8 then is_bs bx (vram sc)
  else is_others c bx (vram sc).

(** The characters of a string, up to its terminating NUL. *)
Fixpoint put_str (text : list Z) (sc : screen) : option screen :=
  match text with
  | [] => Some sc
  | c :: text' => sc ← put_char c sc; put_str text' sc
  end.

(** [put_int] fills a buffer of eight digits from its end, ... *)
Definition hex_digit (edx : Z) : Z := if 9 <? edx then edx - 10 + 65 else edx + 48.
Fixpoint hex_fill (ecx : nat) (eax : Z) (buffer : list Z) : list Z :=
  match ecx with
  | O => buffer
  | S ecx' => hex_fill ecx' (Z.shiftr eax 4) (hex_digit (Z.land eax 0xf) :: buffer)
  end.

(** ... skips the zeros in front and prints the rest, or one zero. *)
Fixpoint skip_prefix_0 (buffer : list Z) : list Z :=
  match buffer with
  | [] => [48]
  | c :: buffer' => if c =? 48 then skip_prefix_0 buffer' else buffer
  end.
Definition hex_text (x : Z) : list Z := skip_prefix_0 (hex_fill 8 x []).
Definition put_int (x : Z) (sc : screen) : option screen := put_str (hex_text x) sc.
End print.

(** ** What a history of events shows *)

Definition lit_bytes (text : string) : list Z :=
  map (fun c => Z.of_nat (Ascii.nat_of_ascii c)) (String.list_ascii_of_string text).

Definition show_event (e : event) (sc : screen) : option screen :=
  match e with
  | PutChar c => print.put_char c sc
  | PutStr text => print.put_str text sc
  | PutLit text => print.put_str (lit_bytes text) sc
  | PutInt x => print.put_int x sc
  | SetCursor x => Some (print.set_cursor x sc)
  | _ => Some sc
  end.

Fixpoint show_events (tr : list event) (sc : screen) : option screen :=
  match tr with
  | [] => Some sc
  | e :: tr' => sc ← show_event e sc; show_events tr' sc
  end.

(** ** The terminal it stands for

    25 rows of 80 cells, a character and an attribute each, and a position. *)
Record terminal := mkTerminal { cells : list (Z * Z); pos : Z }.

Definition blank : Z * Z := (0x20, 0x07).

(** A position below the last row scrolls the rows up by one. *)
Definition settle (cs : list (Z * Z)) (p : Z) : terminal :=
  if p <? 2000 then mkTerminal cs p else mkTerminal (drop 80 cs ++ replicate 80 blank) 1920.

Definition newline (t : terminal) : terminal := settle (cells t) (80 * (pos t / 80 + 1)).

Definition erase (t : terminal) : option terminal :=
  if pos t =? 0 then None
  else Some (mkTerminal (<[Z.to_nat (pos t - 1) := blank]> (cells t)) (pos t - 1)).

Definition type_char (c : Z) (t : terminal) : terminal :=
  settle (<[Z.to_nat (pos t) := (c, 0x07)]> (cells t)) (pos t + 1).

Definition typed (c : Z) (t : terminal) : option terminal :=
  if (c =? 0xd) || (c =? 0xa) then Some (newline t)
  else if c =? 0x8 then erase t
  else Some (type_char c t).

Fixpoint type_all (text : list Z) (t : terminal) : option terminal :=
  match text with
  | [] => Some t
  | c :: text' => t ← typed c t; type_all text' t
  end.

Definition terminal_event (e : event) (t : terminal) : option terminal :=
  match e with
  | PutChar c => typed c t
  | PutStr text => type_all text t
  | PutLit text => type_all (lit_bytes text) t
  | PutInt x => type_all (print.hex_text x) t
  | SetCursor x => Some (mkTerminal (cells t) x)
  | _ => Some t
  end.

Fixpoint terminal_events (tr : list event) (t : terminal) : option terminal :=
  match tr with
  | [] => Some t
  | e :: tr' => t ← terminal_event e t; terminal_events tr' t
  end.

(** ** Refinement *)

Definition cursor (sc : screen) : Z := 256 * cursor_high sc + cursor_low sc.
Definition cells_of (m : memory) : list (Z * Z) :=
  (fun i => (get8 m (2 * i), get8 m (2 * i + 1))) <$> seqZ 0 2000.
Definition terminal_of (sc : screen) : terminal := mkTerminal (cells_of (vram sc)) (cursor sc).

(** The cursor is on the screen. *)
Definition on_screen (sc : screen) : Prop := 0 <= cursor sc < 2000.

Lemma cells_of_lookup m i : 0 <= i < 2000 ->
  cells_of m !! Z.to_nat i = Some (get8 m (2 * i), get8 m (2 * i + 1)).
Proof.
  intros Hi. unfold cells_of. rewrite list_lookup_fmap, lookup_seqZ_lt by lia. cbn.
  by rewrite Z2Nat.id by lia.
Qed.

Lemma length_cells_of m : length (cells_of m) = 2000%nat.
Proof. unfold cells_of. rewrite length_fmap, length_seqZ. done. Qed.

(** Lists of 2000 cells are equal when they agree on the positions of the
    screen. *)
Lemma cells_eq m l :
  length l = 2000%nat ->
  (forall i, 0 <= i < 2000 -> l !! Z.to_nat i = Some (get8 m (2 * i), get8 m (2 * i + 1))) ->
  cells_of m = l.
Proof.
  intros Hl H. apply list_eq_same_length with (n := 2000%nat); [by rewrite Hl|apply length_cells_of|].
  intros i x y Hi Hx Hy. specialize (H (Z.of_nat i) ltac:(lia)).
  pose proof (cells_of_lookup m (Z.of_nat i) ltac:(lia)) as H'. rewrite Nat2Z.id in H, H'. congruence.
Qed.

Lemma cursor_set bx m : 0 <= bx < 65536 -> cursor (print.set_cursor_regs bx m) = bx.
Proof. intros Hb. unfold cursor, print.set_cursor_regs. cbn. zlia. Qed.

Lemma terminal_set bx m : 0 <= bx < 65536 -> terminal_of (print.set_cursor_regs bx m) = mkTerminal (cells_of m) bx.
Proof. intros Hb. unfold terminal_of. rewrite cursor_set by done. done. Qed.

(** One cell is written. *)
Lemma cells_put m p c a : 0 <= p < 2000 -> is_u8 c -> is_u8 a ->
  cells_of (put8 (put8 m (2 * p) c) (2 * p + 1) a) = <[Z.to_nat p := (c, a)]> (cells_of m).
Proof.
  intros Hp Hc Ha. apply cells_eq; [by rewrite length_insert, length_cells_of|]. intros i Hi.
  destruct (decide (i = p)) as [->|Hne].
  - rewrite list_lookup_insert_eq by (rewrite length_cells_of; lia).
    rewrite get8_put8_ne, !get8_put8_eq, !u8_small by (unfold is_u8 in *; lia). done.
  - rewrite list_lookup_insert_ne, cells_of_lookup by lia. rewrite !get8_put8_ne by lia. done.
Qed.

(** *** Scrolling *)

Lemma get8_put32_byte m a b k : 0 <= k < 4 -> get8 (put32 m a (get32 m b)) (a + k) = get8 m (b + k).
Proof.
  intros Hk. unfold put32, put16, get32, get16.
  pose proof (get8_range m b). pose proof (get8_range m (b + 1)).
  pose proof (get8_range m (b + 2)). pose proof (get8_range m (b + 2 + 1)) as H3.
  replace (b + 2 + 1) with (b + 3) in * by lia.
  assert (k = 0 \/ k = 1 \/ k = 2 \/ k = 3) as [->|[->|[->| ->]]] by lia;
    rewrite ?Z.add_0_r; repeat first [rewrite get8_put8_ne by lia];
    [|..|replace (a + 3) with (a + 2 + 1) by lia]; rewrite get8_put8_eq; zlia.
Qed.

Lemma roll_copy_get n edi m b :
  0 <= edi -> get8 (print.roll_copy n edi m) b =
    if decide (edi <= b < edi + 4 * Z.of_nat n) then get8 m (b + 0xa0) else get8 m b.
Proof.
  revert edi m. induction n as [|n IH]; intros edi m He; cbn [print.roll_copy].
  - by rewrite decide_False by lia.
  - rewrite IH by lia. destruct (decide (edi <= b < edi + 4)) as [Hb|Hb].
    + rewrite decide_False, decide_True by lia.
      replace b with (edi + (b - edi)) at 1 by lia. rewrite get8_put32_byte by lia. f_equal. lia.
    + do 2 case_decide; try lia; apply get8_put32_ne; lia.
Qed.

Lemma cls_get n ebx m b :
  get8 (print.cls n ebx m) b =
    if decide (ebx <= b < ebx + 2 * Z.of_nat n) then (if (b - ebx) mod 2 =? 0 then 0x20 else 0x07) else get8 m b.
Proof.
  revert ebx m. induction n as [|n IH]; intros ebx m; cbn [print.cls].
  - by rewrite decide_False by lia.
  - rewrite IH. destruct (decide (ebx <= b < ebx + 2)) as [Hb|Hb].
    + rewrite decide_False, decide_True by lia. unfold put16.
      assert (b = ebx \/ b = ebx + 1) as [->| ->] by lia.
      * rewrite get8_put8_ne, get8_put8_eq by lia. by rewrite Z.sub_diag.
      * rewrite get8_put8_eq. replace (ebx + 1 - ebx) with 1 by lia. done.
    + do 2 case_decide; try lia; [|apply get8_put16_ne; lia].
      replace (b - ebx) with (b - (ebx + 2) + 1 * 2) by lia. by rewrite Z_mod_plus_full.
Qed.

Lemma roll_screen_terminal m :
  terminal_of (print.roll_screen m) = mkTerminal (drop 80 (cells_of m) ++ replicate 80 blank) 1920.
Proof.
  unfold print.roll_screen. rewrite terminal_set by lia. f_equal. apply cells_eq.
  { rewrite length_app, length_drop, length_cells_of, length_replicate. lia. }
  intros i Hi. rewrite !cls_get, !roll_copy_get by lia.
  destruct (decide (i < 1920)) as [Hlt|Hge].
  - rewrite lookup_app_l by (rewrite length_drop, length_cells_of; lia).
    rewrite lookup_drop. replace (80 + Z.to_nat i)%nat with (Z.to_nat (i + 80)) by lia.
    rewrite cells_of_lookup by lia. repeat (case_decide; [try lia|try lia]). do 3 f_equal; lia.
  - rewrite lookup_app_r by (rewrite length_drop, length_cells_of; lia).
    rewrite length_drop, length_cells_of, lookup_replicate_2 by lia. repeat (case_decide; [|lia]).
    replace (2 * i - 3840) with (0 + (i - 1920) * 2) by lia.
    replace (2 * i + 1 - 3840) with (1 + (i - 1920) * 2) by lia. by rewrite !Z_mod_plus_full.
Qed.

Lemma settle_terminal bx m : 0 <= bx < 32768 ->
  terminal_of (if print.s16 bx <? 2000 then print.set_cursor_regs bx m else print.roll_screen m) = settle (cells_of m) bx.
Proof.
  intros Hb. unfold print.s16, settle. rewrite u16_small by lia. rewrite (proj2 (Z.ltb_lt bx 32768)) by lia.
  destruct (bx <? 2000); [apply terminal_set; lia|apply roll_screen_terminal].
Qed.

Lemma is_lf_terminal bx m : 0 <= bx <= 2000 ->
  terminal_of (print.is_lf bx m) = settle (cells_of m) (80 * (bx / 80 + 1)).
Proof.
  intros Hb. unfold print.is_lf. cbv zeta.
  assert (E : u16 (u16 (bx - bx mod 80) + 80) = 80 * (bx / 80 + 1)).
  { pose proof (Z.div_mod bx 80 ltac:(lia)). pose proof (Z.mod_pos_bound bx 80 ltac:(lia)).
    rewrite (u16_small (bx - bx mod 80)), u16_small by lia. lia. }
  rewrite E. apply settle_terminal. pose proof (Z.div_le_upper_bound bx 80 25 ltac:(lia) ltac:(lia)).
  pose proof (Z.div_pos bx 80 ltac:(lia) ltac:(lia)). lia.
Qed.

Lemma gs_store_ok off v m : off <= 0x7fff -> print.gs_store off v m = Some (put8 m off v).
Proof. intros H. unfold print.gs_store, print.VIDEO_LIMIT. by rewrite (proj2 (Z.leb_le off 0x7fff)). Qed.

Lemma is_others_terminal c sc :
  on_screen sc -> is_u8 c ->
  exists sc', print.is_others c (cursor sc) (vram sc) = Some sc' /\ terminal_of sc' = type_char c (terminal_of sc).
Proof.
  intros Hs Hc. unfold on_screen in Hs. unfold print.is_others. cbv zeta.
  rewrite Z.shiftl_mul_pow2 by lia. change (2 ^ 1) with 2.
  rewrite (u16_small (cursor sc * 2)), (u16_small (cursor sc * 2 + 1)) by lia.
  rewrite Z.shiftr_div_pow2 by lia. change (2 ^ 1) with 2.
  replace ((cursor sc * 2 + 1) / 2) with (cursor sc) by (apply (Z.div_unique _ _ _ 1); lia).
  rewrite (u16_small (cursor sc + 1)) by lia. rewrite gs_store_ok by lia. cbn [mbind option_bind].
  rewrite gs_store_ok by lia. cbn [mbind option_bind]. eexists. split; [reflexivity|].
  rewrite (Z.mul_comm (cursor sc) 2). set (m := put8 _ _ _). unfold type_char.
  change (cells (terminal_of sc)) with (cells_of (vram sc)). change (pos (terminal_of sc)) with (cursor sc).
  rewrite <- cells_put by (lia || done). fold m.
  destruct (decide (cursor sc = 1999)) as [Heq|Hne].
  - rewrite Heq. change (print.s16 (1999 + 1) <? 2000) with false. cbv iota. rewrite is_lf_terminal by lia. reflexivity.
  - rewrite <- settle_terminal by lia. unfold print.s16. rewrite u16_small by lia.
    rewrite (proj2 (Z.ltb_lt (cursor sc + 1) 32768)), (proj2 (Z.ltb_lt (cursor sc + 1) 2000)) by lia. done.
Qed.

Lemma is_bs_terminal sc : on_screen sc ->
  match erase (terminal_of sc) with
  | Some t => exists sc', print.is_bs (cursor sc) (vram sc) = Some sc' /\ terminal_of sc' = t
  | None => print.is_bs (cursor sc) (vram sc) = None
  end.
Proof.
  intros Hs. unfold on_screen in Hs. unfold erase, terminal_of at 1. cbn [pos].
  destruct (Z.eqb_spec (cursor sc) 0) as [->|Hne]; [done|]. unfold print.is_bs. cbv zeta.
  rewrite (u16_small (cursor sc - 1)) by lia. rewrite Z.shiftl_mul_pow2 by lia. change (2 ^ 1) with 2.
  rewrite (u16_small ((cursor sc - 1) * 2)), (u16_small ((cursor sc - 1) * 2 + 1)) by lia.
  rewrite Z.shiftr_div_pow2 by lia. change (2 ^ 1) with 2.
  replace (((cursor sc - 1) * 2 + 1) / 2) with (cursor sc - 1) by (apply (Z.div_unique _ _ _ 1); lia).
  rewrite gs_store_ok by lia. cbn [mbind option_bind]. rewrite gs_store_ok by lia. cbn [mbind option_bind].
  eexists. split; [reflexivity|]. rewrite terminal_set by lia. unfold terminal_of. cbn [cells pos].
  rewrite (Z.mul_comm _ 2). by rewrite cells_put by (lia || done).
Qed.

(** What a position is once the screen has been scrolled if it must be. *)
Lemma settle_pos cs p : 0 <= p -> 0 <= pos (settle cs p) < 2000.
Proof. intros Hp. unfold settle. destruct (Z.ltb_spec p 2000); cbn; lia. Qed.

Lemma type_pos c t t' : 0 <= pos t < 2000 -> typed c t = Some t' -> 0 <= pos t' < 2000.
Proof.
  intros Hp. unfold typed. destruct (_ || _); [|destruct (c =? 8)].
  - intros [= <-]. apply settle_pos. pose proof (Z.div_pos (pos t) 80). lia.
  - unfold erase. destruct (Z.eqb_spec (pos t) 0); [done|]. intros [= <-]. cbn. lia.
  - intros [= <-]. apply settle_pos. lia.
Qed.

Lemma put_char_run c sc : on_screen sc -> is_u8 c ->
  match typed c (terminal_of sc) with
  | Some t => exists sc', print.put_char c sc = Some sc' /\ terminal_of sc' = t
  | None => print.put_char c sc = None
  end.
Proof.
  intros Hs Hc. unfold typed, print.put_char. fold (cursor sc).
  assert (Hlf : terminal_of (print.is_lf (cursor sc) (vram sc)) = newline (terminal_of sc))
    by (unfold on_screen in Hs; by rewrite is_lf_terminal by lia).
  destruct (Z.eqb_spec c 0xd) as [->|_]; [by eexists|].
  destruct (Z.eqb_spec c 0xa) as [->|_]; [by eexists|]. cbn [orb].
  destruct (Z.eqb_spec c 0x8) as [->|_]; [by apply is_bs_terminal|by apply is_others_terminal].
Qed.

Lemma put_str_run text sc : on_screen sc -> Forall is_u8 text ->
  match type_all text (terminal_of sc) with
  | Some t => exists sc', print.put_str text sc = Some sc' /\ terminal_of sc' = t /\ on_screen sc'
  | None => print.put_str text sc = None
  end.
Proof.
  revert sc. induction text as [|c text IH]; intros sc Hs Ht; cbn [type_all print.put_str]; [by exists sc|].
  apply Forall_cons in Ht as [Hc Ht]. pose proof (put_char_run c sc Hs Hc) as H1.
  destruct (typed c (terminal_of sc)) as [t|] eqn:E; cbn [mbind option_bind]; [|by rewrite H1].
  destruct H1 as (sc1 & -> & <-). cbn [mbind option_bind]. apply IH; [|done].
  exact (type_pos c (terminal_of sc) _ Hs E).
Qed.

(** *** Numbers *)

Lemma hex_fill_app n x buf : print.hex_fill n x buf = print.hex_fill n x [] ++ buf.
Proof.
  revert x buf. induction n as [|n IH]; intros x buf; [done|]. cbn [print.hex_fill].
  rewrite IH, (IH _ [_]), <- app_assoc. done.
Qed.

(** The value of a text of digits. *)
Definition digit_value (c : Z) : Z := if c <=? 57 then c - 48 else c - 55.
Definition hex_value (text : list Z) : Z := fold_left (fun v c => 16 * v + digit_value c) text 0.

Lemma hex_value_snoc text c : hex_value (text ++ [c]) = 16 * hex_value text + digit_value c.
Proof. unfold hex_value. by rewrite fold_left_app. Qed.

Definition is_hex (c : Z) : Prop := 48 <= c <= 57 \/ 65 <= c <= 70.

Lemma hex_digit_spec d : 0 <= d < 16 -> is_hex (print.hex_digit d) /\ digit_value (print.hex_digit d) = d.
Proof.
  intros Hd. unfold is_hex, digit_value, print.hex_digit.
  destruct (Z.ltb_spec 9 d); case Z.leb_spec; lia.
Qed.

Lemma hex_fill_spec n x : 0 <= x < 16 ^ Z.of_nat n ->
  Forall is_hex (print.hex_fill n x []) /\ hex_value (print.hex_fill n x []) = x /\
  length (print.hex_fill n x []) = n.
Proof.
  revert x. induction n as [|n IH]; intros x Hx; cbn [print.hex_fill]; [split_and!; [done|cbn in *; lia|done]|].
  rewrite hex_fill_app, Z.shiftr_div_pow2 by lia. change 0xf with (2 ^ 4 - 1). rewrite land_low by lia.
  rewrite Nat2Z.inj_succ, Z.pow_succ_r in Hx by lia. change (2 ^ 4) with 16 in *.
  pose proof (Z.mod_pos_bound x 16 ltac:(lia)) as Hm. pose proof (Z.div_mod x 16 ltac:(lia)) as Hdm.
  destruct (IH (x / 16)) as (F & V & L).
  { split; [apply Z.div_pos; lia|apply Z.div_lt_upper_bound; lia]. }
  destruct (hex_digit_spec (x mod 16) Hm) as [H1 H2]. split_and!.
  - apply Forall_app. split; [done|by constructor].
  - rewrite hex_value_snoc, V, H2. lia.
  - rewrite length_app, L. cbn. lia.
Qed.

(** Leading zeros do not count. *)
Lemma hex_value_zero text : hex_value (48 :: text) = hex_value text.
Proof. done. Qed.

Lemma skip_prefix_spec text : Forall is_hex text ->
  let r := print.skip_prefix_0 text in
  Forall is_hex r /\ hex_value r = hex_value text /\ (length r <= Nat.max 1 (length text))%nat /\
  (r = [48] \/ head r <> Some 48) /\ r <> [].
Proof.
  induction text as [|c text IH]; intros Ht; cbn [print.skip_prefix_0].
  - split_and!; [constructor; [by left|done]|done|done|by left|done].
  - apply Forall_cons in Ht as [Hc Ht]. destruct (Z.eqb_spec c 48) as [->|Hne].
    + destruct (IH Ht) as (F & V & L & Z & N). split_and!; [done|by rewrite hex_value_zero|cbn; lia|done|done].
    + split_and!; [by constructor|done|cbn; lia|right; cbn; congruence|done].
Qed.

Lemma hex_text_run x : is_u32 x ->
  let text := print.hex_text x in
  hex_value text = x /\ Forall is_hex text /\ (length text <= 8)%nat /\
  (text = [48] \/ head text <> Some 48) /\ text <> [].
Proof.
  intros Hx text. destruct (hex_fill_spec 8 x) as (F & V & L); [unfold is_u32 in Hx; cbn; lia|].
  destruct (skip_prefix_spec _ F) as (F' & V' & L' & Z' & N'). subst text. unfold print.hex_text.
  split_and!; [by rewrite V', V|done|rewrite L in L'; cbn in *; lia|done|done].
Qed.

Lemma is_hex_u8 text : Forall is_hex text -> Forall is_u8 text.
Proof. intros Ht. eapply Forall_impl; [exact Ht|]. unfold is_hex, is_u8. intros c Hc. lia. Qed.

(** *** Histories *)

(** What the kernel sends to the screen: characters are bytes, numbers are
    32 bits wide and the cursor is only moved to cells of the screen. *)
Definition event_ok (e : event) : Prop :=
  match e with
  | PutChar c => is_u8 c
  | PutStr text => Forall is_u8 text
  | PutInt x => is_u32 x
  | SetCursor x => 0 <= x < 2000
  | _ => True
  end.

Lemma lit_bytes_u8 text : Forall is_u8 (lit_bytes text).
Proof.
  unfold lit_bytes. apply Forall_map, Forall_true. intros c. unfold is_u8.
  pose proof (Ascii.nat_ascii_bounded c). lia.
Qed.

Lemma show_event_run e sc : on_screen sc -> event_ok e ->
  match terminal_event e (terminal_of sc) with
  | Some t => exists sc', show_event e sc = Some sc' /\ terminal_of sc' = t /\ on_screen sc'
  | None => show_event e sc = None
  end.
Proof.
  intros Hs He. destruct e; cbn [terminal_event show_event]; cbn [event_ok] in He;
    try match goal with |- exists _, Some sc = _ /\ _ => exists sc; split_and!; [reflexivity|reflexivity|exact Hs] end.
  - pose proof (put_char_run c sc Hs He) as H. destruct (typed c (terminal_of sc)) as [t|] eqn:E; [|done].
    destruct H as (sc' & E' & <-). exists sc'. split_and!; [exact E'|reflexivity|]. exact (type_pos c (terminal_of sc) _ Hs E).
  - by apply put_str_run.
  - apply put_str_run; [done|apply lit_bytes_u8].
  - apply put_str_run; [done|]. by apply is_hex_u8, hex_text_run.
  - eexists. split_and!; [reflexivity| |]; unfold print.set_cursor; rewrite u16_small by lia.
    + by rewrite terminal_set by lia.
    + unfold on_screen. by rewrite cursor_set by lia.
Qed.

Lemma show_events_run tr sc : on_screen sc -> Forall event_ok tr ->
  match terminal_events tr (terminal_of sc) with
  | Some t => exists sc', show_events tr sc = Some sc' /\ terminal_of sc' = t /\ on_screen sc'
  | None => show_events tr sc = None
  end.
Proof.
  revert sc. induction tr as [|e tr IH]; intros sc Hs Ht; cbn [terminal_events show_events]; [exists sc; split_and!; [reflexivity|reflexivity|exact Hs]|].
  apply Forall_cons in Ht as [He Ht]. pose proof (show_event_run e sc Hs He) as H1.
  destruct (terminal_event e (terminal_of sc)) as [t|]; cbn [mbind option_bind]; [|by rewrite H1].
  destruct H1 as (sc1 & -> & <- & Hs1). cbn [mbind option_bind]. by apply IH.
Qed.

Lemma show_events_app tr tr' sc :
  show_events (tr ++ tr') sc = (sc' ← show_events tr sc; show_events tr' sc').
Proof.
  revert sc. induction tr as [|e tr IH]; intros sc; [done|]. cbn [app show_events].
  destruct (show_event e sc) as [sc1|]; [|done]. cbn [mbind option_bind]. apply IH.
Qed.

(** ** The properties *)

(** C26: Whatever the kernel has printed, the video memory and the cursor registers
    are those of a terminal of 25 rows and 80 columns that has typed it: it
    wraps at the end of a row, scrolls at the end of the last one, and the
    cursor never leaves the screen.  The exception is a backspace in the
    top-left corner: the store then lies outside the video segment. *)
Theorem show_events_refines tr sc :
  on_screen sc -> Forall event_ok tr ->
  match terminal_events tr (terminal_of sc) with
  | Some t => exists sc', show_events tr sc = Some sc' /\ terminal_of sc' = t /\ on_screen sc'
  | None => show_events tr sc = None
  end.
Proof. apply show_events_run. Qed.

(** put_int prints at most eight digits that stand for its argument, without
    zeros in front unless the number is 0. *)
Theorem hex_text_roundtrip x :
  is_u32 x ->
  let text := print.hex_text x in
  hex_value text = x /\ Forall is_hex text /\ (length text <= 8)%nat /\
  (text = [48] \/ head text <> Some 48) /\ text <> [] /\
  forall sc, on_screen sc -> print.put_int x sc = print.put_str text sc.
Proof. intros Hx text. destruct (hex_text_run x Hx) as (H1 & H2 & H3 & H4 & H5). by split_and!. Qed.

(** ** Concrete instances *)

Definition demo_screen (p : Z) : screen := print.set_cursor_regs p ∅.

Ltac solve_ok :=
  repeat apply Forall_cons_2; try apply Forall_nil_2; cbn [event_ok]; unfold is_u8, is_u32; first [exact I | lia].

(** The last cell is filled and the screen scrolls, twice; in the first cell a
    backspace faults. *)
Lemma show_events_refines_witness :
  (exists sc, show_events [PutLit "ok"; PutChar 10; PutInt 0x1f] (demo_screen 1998) = Some sc /\
     on_screen sc /\ pos (terminal_of sc) = 1922) /\
  show_events [PutChar 8] (demo_screen 0) = None.
Proof.
  assert (Hdemo : forall p, 0 <= p < 2000 -> on_screen (demo_screen p)).
  { intros p Hp. unfold on_screen, demo_screen. by rewrite cursor_set by lia. }
  split.
  - pose proof (show_events_refines [PutLit "ok"; PutChar 10; PutInt 0x1f] (demo_screen 1998)
      (Hdemo 1998 ltac:(lia)) ltac:(solve_ok)) as H.
    assert (E : pos <$> terminal_events [PutLit "ok"; PutChar 10; PutInt 0x1f] (terminal_of (demo_screen 1998))
      = Some 1922) by (vm_compute; reflexivity).
    destruct (terminal_events _ _) as [t|]; [|done]. injection E as E.
    destruct H as (sc & E' & Ht & Hs). exists sc. split_and!; [done..|]. by rewrite Ht.
  - exact (show_events_refines [PutChar 8] (demo_screen 0) (Hdemo 0 ltac:(lia))
      ltac:(solve_ok)).
Defined.

Lemma hex_text_roundtrip_witness :
  hex_value (print.hex_text 0xb8000) = 0xb8000 /\ print.hex_text 0xb8000 = [66; 56; 48; 48; 48].
Proof.
  split; [|reflexivity]. destruct (hex_text_roundtrip 0xb8000) as [H _]; [unfold is_u32; lia|exact H].
Defined.
