(* ===== verification/Output.v ===== *)
(** * From the user's program to the screen

    [write] traps into the kernel, whose service prints the string with the
    console locked; the string is then on the screen.  This file follows the
    call through Syscall, Console, Lock and Screen. *)

From S2P Require Import Prelude Machine Concrete Interrupt CString Bitmap DList Paging Tss Sched Lock Memory Malloc MemInit Console Syscall Screen.

#[local] Open Scope Z_scope.

Lemma cstr_from_run a l s :
  cstr (mem s) a l -> Z.of_nat (length l) < 2 ^ 33 -> cstr_from a s = Ok l s.
Proof.
  intros Hs Hl. unfold cstr_from. apply run_of_wp.
  apply (wp_while _ (fun n '(p, acc) s' => s' = s /\ exists l', cstr (mem s) p l' /\
           n = Z.of_nat (length l') /\ l = acc ++ l') _ _) with (n := Z.of_nat (length l)); [|lia|by eauto].
  intros n [p acc] s' _ (-> & l' & Hl' & -> & E). do 2 wstep.
  destruct l' as [|x l']; cbn [cstr] in Hl'.
  - rewrite Hl'. simpl. wstep. by rewrite app_nil_r in E.
  - destruct Hl' as (-> & Hx & Hl'). rewrite (proj2 (Z.eqb_neq x 0) Hx). wstep.
    exists (Z.of_nat (length l')). cbn [length]. split; [lia|]. split; [done|].
    exists l'. split_and!; [done..|]. by rewrite <- app_assoc.
Qed.

Section Output.
Context {PL : Platform} {LK : Linker} (tasks : list Z) (idle : Z).
Hypothesis Hlay : layout tasks.
Hypothesis Hhome : mutex_home tasks sym_cons.

(** A string that lies outside of what taking and giving back the console
    writes to. *)
Definition apart_string (p : Z) (text : list Z) : Prop := forall b,
  p <= b <= p + Z.of_nat (length text) -> ~ sem_frame tasks sym_cons b /\ ~ owner_bytes sym_cons b.

(** The console is free: it is locked, the string printed and the lock given
    back. *)
Lemma console_put_str_run a ws p text s :
  mutex_state tasks idle sym_cons a NULL 0 ws s -> cstr (mem s) p text ->
  Z.of_nat (length text) < 2 ^ 32 -> apart_string p text ->
  exists s', console_put_str p s = Ok tt s' /\
    mutex_state tasks idle sym_cons (abs_wake ws a) NULL 0 (tl ws) s' /\
    cstr (mem s') p text /\ vars s' = vars s /\ trace s' = trace s ++ [PutStr text].
Proof.
  intros Hm Hs Hl Hap.
  destruct (cur_address tasks idle Hlay _ _ _ _ _ (ms_sem _ _ _ _ _ _ _ _ Hm)) as [Hne _].
  destruct (mutex_lock_free_run tasks idle Hlay _ Hhome a ws s Hm) as (s1 & E1 & Hm1 & _ & Hv1 & Ht1 & Hc1).
  assert (Hs1 : cstr (mem s1) p text).
  { eapply cstr_ext; [|exact Hs]. intros b Hb. apply Hc1. destruct (Hap b Hb) as [N1 N2].
    intros [Hx|Hx]; [|done]. apply N1. left. unfold value_byte, sem_t.value, sem_t.sizeof in *. lia. }
  set (s2 := log (PutStr text) s1).
  assert (E2 : put_str p s1 = Ok tt s2).
  { unfold put_str. by rewrite (bind_ok _ _ _ _ _ (cstr_from_run p text s1 Hs1 ltac:(lia))). }
  destruct (mutex_unlock_last_run tasks idle Hlay _ Hhome a (s_cur a) ws s2 (mutex_log _ _ _ _ _ _ _ _ _ Hm1))
    as (s3 & E3 & Hm3 & _ & Hv3 & Ht3 & Hc3).
  exists s3. split_and!; [|done| |by rewrite Hv3|by rewrite Ht3; cbn; rewrite Ht1].
  - unfold console_put_str, console_lock, console_unlock, console.console_lock. rewrite Z.add_0_r.
    by rewrite (bind_ok _ _ _ _ _ E1), (bind_ok _ _ _ _ _ E2).
  - eapply cstr_ext; [|exact Hs1]. intros b Hb. apply Hc3. destruct (Hap b Hb) as [N1 N2].
    intros [Hx|Hx]; [|done]. apply N1. eapply (touch_frame tasks Hlay); [|exact Hx].
    intros t Hin. eapply (touched_tasks tasks idle); [apply (ms_sem _ _ _ _ _ _ _ _ Hm1)|].
    rewrite !elem_of_app, ?elem_of_cons in *. tauto.
Qed.
End Output.

(** ** The property *)
Section Write.
Context {PL : Platform} {LK : Linker} (tasks : list Z) (idle : Z).

(** C25: A user's program that writes a string when the console is free gets the
    string's length back with its interrupt flag as it was; the first thread
    that waits for the console is ready; and the terminal the screen stands for
    has typed the string after all that was printed before. *)
Theorem write_shows a ws p text ignored s sc :
  layout tasks -> mutex_home tasks sym_cons -> NoDup services -> table_made (mem s) ->
  mutex_state tasks idle sym_cons a NULL 0 ws s ->
  p <> NULL -> cstr (mem s) p text -> Z.of_nat (length text) < 2 ^ 32 -> apart_string tasks p text ->
  on_screen sc -> Forall event_ok (trace s) ->
  exists s', write ignored p s = Ok (Z.of_nat (length text)) s' /\
    mutex_state tasks idle sym_cons (abs_wake ws a) NULL 0 (tl ws) s' /\
    intr_flag s' = intr_flag s /\ vars s' = vars s /\
    match (t ← terminal_events (trace s) (terminal_of sc); type_all text t) with
    | Some t => exists sc', show_events (trace s') sc = Some sc' /\ terminal_of sc' = t
    | None => show_events (trace s') sc = None
    end.
Proof.
  intros Hlay Hhome Hnd Htab Hm Hp Hs Hl Hap Hsc Hok.
  destruct (console_put_str_run tasks idle Hlay Hhome a ws p text (set_intr_flag false s)
    (mutex_flag _ _ _ _ _ _ _ _ _ Hm) Hs Hl Hap) as (s1 & E1 & Hm1 & Hs1 & Hv1 & Ht1).
  exists (set_intr_flag (intr_flag s) s1). split_and!; [|by apply mutex_flag|done|done|].
  - unfold write, _syscall1. rewrite (gate_run ignored SYS_WRITE fn_sys_write 1 p s Htab eq_refl eq_refl).
    unfold in_gate. do 2 (erewrite bind_ok by reflexivity; cbv beta).
    assert (Hc : call_service ignored fn_sys_write p = sys_write p).
    { unfold services in Hnd. rewrite !NoDup_cons, !elem_of_cons, elem_of_nil in Hnd.
      destruct Hnd as (N1 & _). unfold call_service. rewrite Z.eqb_refl.
      by rewrite (proj2 (Z.eqb_neq _ _)) by (intros E; apply N1; rewrite E; tauto). }
    rewrite Hc. unfold sys_write. rewrite bind_assoc, (bind_ok _ _ _ _ _ E1).
    rewrite (bind_ok _ _ _ _ _ (strlen_run p text s1 Hp Hs1 Hl)). reflexivity.
  - cbn [trace set_intr_flag]. rewrite Ht1. cbn [trace set_intr_flag]. rewrite show_events_app.
    pose proof (show_events_run (trace s) sc Hsc Hok) as H1.
    destruct (terminal_events (trace s) (terminal_of sc)) as [t|]; cbn [mbind option_bind]; [|by rewrite H1].
    destruct H1 as (sc1 & -> & <- & Hsc1). cbn [mbind option_bind show_events show_event].
    assert (Hu : Forall is_u8 text) by (eapply Forall_impl; [by eapply cstr_nonzero|]; by intros x [? _]).
    pose proof (put_str_run text sc1 Hsc1 Hu) as H2. destruct (type_all text (terminal_of sc1)) as [t|].
    + destruct H2 as (sc2 & -> & H2 & _). by exists sc2.
    + by rewrite H2.
Qed.
End Write.

(** ** A concrete instance *)

(** The string "hi", after [syscall_init] and [console_init]. *)
Lemma demo_console : exists s, table_made (mem s) /\ cstr (mem s) 0xc0003000 [104; 105] /\ trace s = [] /\
  mutex_state demo_tasks demo_idle sym_cons demo_abs NULL 0 [] s.
Proof.
  set (m0 := put_bytes demo_sched_mem 0xc0003000 [104; 105; 0]).
  destruct (syscall_init_run (set_mem m0 demo_sched_machine)) as (m1 & _ & Ht & C1).
  { unfold services, is_u32. cbn. repeat constructor; lia. }
  destruct (mutex_init_run sym_cons (set_mem m1 demo_sched_machine)) as (m2 & _ & Hf & C2);
    [done|done|]. msimpl.
  assert (Hk : forall b, ~ table_bytes b -> ~ within sym_cons mutex_t.sizeof b -> get8 m2 b = get8 m0 b).
  { intros b H1 H2. by rewrite C2, C1. }
  set (P := fun b => 0xc0003000 <= b < 0xc0003003 \/ table_bytes b \/ within sym_cons mutex_t.sizeof b).
  exists (set_mem m2 demo_sched_machine). split_and!.
  - eapply table_made_frame; [exact C2| |exact Ht].
    unfold table_bytes, within, SYSCALL_NR, mutex_t.sizeof. cbn [sym_cons sym_syscall_table demo_linker]. lia.
  - assert (H0 : cstr m0 0xc0003000 [104; 105]) by (by vm_compute).
    eapply cstr_ext; [|exact H0]. intros b Hb. cbn [length] in Hb.
    apply Hk; unfold table_bytes, within, SYSCALL_NR, mutex_t.sizeof;
      cbn [sym_cons sym_syscall_table demo_linker]; lia.
  - done.
  - apply fresh_mutex_state; [apply demo_inv| |exact Hf].
    eapply (runs_frame demo_tasks demo_idle demo_abs demo_sched_machine P);
      [apply demo_layout|apply demo_runs| |].
    + intros b Hb. unfold P in Hb. rewrite Hk by tauto. unfold m0. apply get8_put_bytes_ne. cbn [length]. lia.
    + intros b Hb. unfold P, table_bytes, within, SYSCALL_NR, mutex_t.sizeof in Hb.
      cbn [sym_cons sym_syscall_table sym_ready_thread_list demo_linker] in *. unfold list.sizeof.
      split; [lia|]. solve_tasks; unfold demo_main, demo_thread, demo_idle; lia.
Qed.

Lemma demo_console_home : mutex_home demo_tasks sym_cons.
Proof.
  constructor; [constructor; [split_and!|..]|..]; try (intros t Ht; revert t Ht; solve_tasks);
    unfold tss_t.sizeof, mutex_t.sizeof, sem_t.sizeof, sem_t.waiters, list.sizeof, demo_main, demo_thread, demo_idle;
    cbn [sym_ready_thread_list sym_tss sym_cons demo_linker]; lia.
Qed.

Lemma write_shows_witness : exists s s' sc',
  write 0 0xc0003000 s = Ok 2 s' /\ show_events (trace s') (demo_screen 79) = Some sc' /\ cursor sc' = 81.
Proof.
  destruct demo_console as (s & Ht & Hs & Hnil & Hm).
  assert (Hsc : on_screen (demo_screen 79)) by (unfold on_screen, demo_screen; by rewrite cursor_set by lia).
  destruct (write_shows demo_tasks demo_idle demo_abs [] 0xc0003000 [104; 105] 0 s (demo_screen 79)
    demo_layout demo_console_home) as (s' & E & _ & _ & _ & Hshow); [|done|exact Hm|done|exact Hs|done| |exact Hsc| |].
  - apply (bool_decide_unpack _). vm_compute. exact I.
  - intros b Hb. cbn [length] in Hb. split.
    + intros [Hx|[Hx|[Hx|Hx]]]; unfold sem_t.sizeof, list.sizeof, esp0_bytes in Hx;
        cbn [sym_cons sym_ready_thread_list sym_tss demo_linker] in Hx; try lia.
      apply Exists_exists in Hx as (t & Hin & Hx). revert t Hin Hx.
      solve_tasks; unfold demo_main, demo_thread, demo_idle; lia.
    + unfold owner_bytes. cbn [sym_cons demo_linker]. lia.
  - rewrite Hnil. constructor.
  - rewrite Hnil in Hshow. cbn [terminal_events mbind option_bind] in Hshow.
    assert (Ep : pos <$> type_all [104; 105] (terminal_of (demo_screen 79)) = Some 81) by (vm_compute; reflexivity).
    destruct (type_all _ _) as [t|]; [|done]. injection Ep as Ep. destruct Hshow as (sc' & E1 & E2).
    exists s, s', sc'. split_and!; [exact E|exact E1|]. change (cursor sc') with (pos (terminal_of sc')). by rewrite E2.
Defined.
