(* ===== verification/Stdio.v ===== *)
(** * Formatted output (lib/stdio.c, lib/printk.c)

    [vsprintf] expands a format into a buffer, taking the arguments from the
    stack above the format; [printf], [sprintf] and [printk] call it. *)

From S2P Require Import Prelude Machine Concrete Interrupt CString Bitmap DList Paging Tss Sched Lock Memory Malloc Console Syscall.

#[local] Open Scope Z_scope.

(** The array [digits], least significant first, with at most [n] entries. *)
Fixpoint itoa_digits (n : nat) (var base : Z) : list Z :=
  match n with
  | O => []
  | S n' => if var =? 0 then [] else u8 (var mod base) :: itoa_digits n' (var / base) base
  end.

Definition digit_char (d : Z) : Z := if 9 <? d then 97 + d - 10 else 48 + d.

Section Stdio.
Context {PL : Platform} {LK : Linker}.

(** The new value of [*target] is returned. A 32-bit [var] has at most 32
    digits in any base from 2 on. *)
Definition itoa (target var base : Z) : K Z :=
  let digits := if var =? 0 then [0] else itoa_digits 32 var base in
  for_ 0 (length digits) (fun i =>
    st8 (target + i) (digit_char (nth (length digits - 1 - Z.to_nat i) digits 0)));;
  mret (u32 (target + Z.of_nat (length digits))).

(** The loop of [vsprintf] carries [f], [p] and [args]; [va_arg] advances
    [args] by 4 before it reads. *)
Definition vsprintf_body : Z * Z * Z -> K (Z * Z * Z + unit) := fun '(f, p, args) =>
  c ← ld8 f;
  if c =? 0 then mret (inr tt)
  else if c =? 37 (* '%' *) then
    let f := u32 (f + 1) in
    c ← ld8 f;
    if c =? 99 (* 'c' *) then
      let args := u32 (args + 4) in
      var ← ld8 args;
      st8 p var;;
      mret (inl (u32 (f + 1), u32 (p + 1), args))
    else if c =? 100 (* 'd' *) then
      let args := u32 (args + 4) in
      v ← ld32 args;
      let var := s32 v in
      if var <? 0 then
        st8 p 45;;
        p ← itoa (u32 (p + 1)) (u32 (- var)) 10;
        mret (inl (u32 (f + 1), p, args))
      else
        p ← itoa p (u32 var) 10;
        mret (inl (u32 (f + 1), p, args))
    else if c =? 115 (* 's' *) then
      let args := u32 (args + 4) in
      s ← ld32 args;
      p ← strcpy p s;
      n ← strlen s;
      mret (inl (u32 (f + 1), u32 (p + n), args))
    else if c =? 120 (* 'x' *) then
      let args := u32 (args + 4) in
      var ← ld32 args;
      p ← itoa p var 16;
      mret (inl (u32 (f + 1), p, args))
    else if c =? 37 then
      st8 p 37;;
      mret (inl (u32 (f + 1), u32 (p + 1), args))
    else mret (inl (u32 (f + 1), p, args))
  else
    st8 p c;;
    mret (inl (u32 (f + 1), u32 (p + 1), args)).

Definition vsprintf (str format args : Z) : K Z :=
  while_ vsprintf_body (format, str, args);;
  strlen str.

(** The variadic functions are given the address of their parameter [format];
    the arguments follow it. *)
Definition printf (ignored format_slot : Z) : K Z :=
  sp ← gets esp;
  let str := local_addr "printf.str" sp in
  memset str 0 1024;;
  format ← ld32 format_slot;
  vsprintf str format format_slot;;
  write ignored str.

Definition sprintf (s format_slot : Z) : K Z :=
  format ← ld32 format_slot;
  vsprintf s format format_slot.

Definition printk (format_slot : Z) : K unit :=
  sp ← gets esp;
  let str := local_addr "printk.str" sp in
  memset str 0 1024;;
  format ← ld32 format_slot;
  vsprintf str format format_slot;;
  console_put_str str.

(** A call [printk("...", x, y)]: the format and the arguments are pushed. *)
Definition push_words (slot : Z) (ws : list Z) : K unit :=
  for_ 0 (length ws) (fun i => st32 (slot + 4 * i) (nth (Z.to_nat i) ws 0)).

Definition call_printk (format : Z) (args : list Z) : K unit :=
  sp ← gets esp;
  let slot := local_addr "printk.format" sp in
  push_words slot (format :: args);;
  printk slot.

Definition call_printf (ignored format : Z) (args : list Z) : K Z :=
  sp ← gets esp;
  let slot := local_addr "printf.format" sp in
  push_words slot (format :: args);;
  printf ignored slot.

Definition call_sprintf (s format : Z) (args : list Z) : K Z :=
  sp ← gets esp;
  let slot := local_addr "sprintf.format" sp in
  push_words slot (format :: args);;
  sprintf s slot.
End Stdio.

(** ** Numbers as text *)

(** The value of a digit and of a text, most significant digit first. *)
Definition digit_value (c : Z) : Z := if 97 <=? c then c - 87 else c - 48.
Definition text_value (base : Z) (l : list Z) : Z :=
  foldl (fun acc c => acc * base + digit_value c) 0 l.

Definition number_text (var base : Z) : list Z :=
  map digit_char (rev (if var =? 0 then [0] else itoa_digits 32 var base)).

Lemma digit_value_char d : 0 <= d < 36 -> digit_value (digit_char d) = d.
Proof.
  intros Hd. unfold digit_value, digit_char. destruct (Z.ltb_spec 9 d).
  - rewrite (proj2 (Z.leb_le _ _)) by lia. lia.
  - rewrite (proj2 (Z.leb_gt _ _)) by lia. lia.
Qed.

Lemma digit_char_range d : 0 <= d < 36 -> is_u8 (digit_char d) /\ digit_char d <> 0.
Proof. intros Hd. unfold digit_char. destruct (Z.ltb_spec 9 d); split; zlia. Qed.

Section Digits.
Context (base : Z) (Hbase : 2 <= base <= 36).

Lemma itoa_digits_range n var : 0 <= var -> Forall (fun d => 0 <= d < base) (itoa_digits n var base).
Proof.
  revert var. induction n as [|n IH]; intros var Hv; cbn; [constructor|].
  destruct (Z.eqb_spec var 0); constructor.
  - rewrite u8_small; [|pose proof (Z.mod_pos_bound var base); lia]. apply Z.mod_pos_bound. lia.
  - apply IH, Z.div_pos; lia.
Qed.

(** The digits, least significant first, add up to the number. *)
Definition digits_sum (l : list Z) : Z := foldr (fun d acc => d + base * acc) 0 l.

Lemma itoa_digits_sum n var :
  0 <= var < base ^ Z.of_nat n -> digits_sum (itoa_digits n var base) = var.
Proof.
  revert var. induction n as [|n IH]; intros var Hv; cbn.
  - change (base ^ Z.of_nat 0) with 1 in Hv. lia.
  - destruct (Z.eqb_spec var 0); [done|]. cbn. unfold digits_sum in IH. rewrite IH.
    + pose proof (Z.mod_pos_bound var base). rewrite u8_small by lia.
      pose proof (Z.div_mod var base). lia.
    + rewrite Nat2Z.inj_succ, Z.pow_succ_r in Hv by lia. split; [apply Z.div_pos; lia|].
      apply Z.div_lt_upper_bound; lia.
Qed.

Lemma text_value_digits l :
  Forall (fun d => 0 <= d < base) l -> text_value base (map digit_char (rev l)) = digits_sum l.
Proof.
  induction 1 as [|d l Hd _ IH]; [done|]. cbn [rev digits_sum foldr].
  unfold text_value in *. rewrite map_app, foldl_app, IH. cbn. rewrite digit_value_char by lia.
  unfold digits_sum. lia.
Qed.

Lemma itoa_digits_length n var : (length (itoa_digits n var base) <= n)%nat.
Proof.
  revert var. induction n as [|n IH]; intros var; cbn; [lia|].
  case_match; cbn; [lia|]. specialize (IH (var / base)). lia.
Qed.

Lemma number_text_value var : 0 <= var < 2 ^ 32 -> text_value base (number_text var base) = var.
Proof.
  intros Hv. unfold number_text. destruct (Z.eqb_spec var 0) as [->|]; [done|].
  rewrite text_value_digits by (apply itoa_digits_range; lia). apply itoa_digits_sum.
  split; [lia|]. assert (2 ^ Z.of_nat 32 <= base ^ Z.of_nat 32) by (apply Z.pow_le_mono_l; lia).
  change (2 ^ Z.of_nat 32) with (2 ^ 32) in *. lia.
Qed.

Lemma number_text_chars var : 0 <= var -> Forall (fun c => is_u8 c /\ c <> 0) (number_text var base).
Proof.
  intros Hv. unfold number_text. apply Forall_map, Forall_rev. case_match.
  - repeat constructor; done.
  - eapply Forall_impl; [by apply itoa_digits_range|]. intros d Hd. cbv beta in Hd. apply digit_char_range. lia.
Qed.

Lemma number_text_length var : (1 <= length (number_text var base) <= 32)%nat.
Proof.
  unfold number_text. rewrite length_map, length_rev. case_match eqn:E; [cbn; lia|].
  split; [|apply itoa_digits_length]. cbn. rewrite E. cbn. lia.
Qed.
End Digits.

Lemma store_list_loop a l s lo k :
  (k <= length l)%nat -> lo = Z.of_nat (length l - k) ->
  for_ lo k (fun i => st8 (a + i) (nth (Z.to_nat i) l 0)) s
    = Ok tt (set_mem (put_bytes (mem s) (a + lo) (drop (length l - k) l)) s).
Proof.
  revert lo s. induction k as [|k IH]; intros lo s Hk ->.
  - rewrite Nat.sub_0_r, drop_all. cbn. by rewrite set_mem_id.
  - erewrite for_step by reflexivity. rewrite IH by lia. msimpl.
    assert (Hlt : (length l - S k < length l)%nat) by lia.
    destruct (lookup_lt_is_Some_2 l _ Hlt) as [x Hx].
    rewrite Nat2Z.id. rewrite (drop_S _ _ _ Hx). cbn [put_bytes].
    rewrite (nth_lookup_Some _ _ _ _ Hx). unfold set_mem; cbn.
    replace (S (length l - S k)) with (length l - k)%nat by lia.
    by rewrite <- Z.add_assoc.
Qed.

Lemma store_rev_loop a ds s :
  for_ 0 (length ds) (fun i => st8 (a + i) (digit_char (nth (length ds - 1 - Z.to_nat i) ds 0))) s
    = Ok tt (set_mem (put_bytes (mem s) a (map digit_char (rev ds))) s).
Proof.
  assert (Hext : forall n lo s, (0 <= lo) -> lo + Z.of_nat n <= Z.of_nat (length ds) ->
    for_ lo n (fun i => st8 (a + i) (digit_char (nth (length ds - 1 - Z.to_nat i) ds 0))) s
    = for_ lo n (fun i => st8 (a + i) (nth (Z.to_nat i) (map digit_char (rev ds)) 0)) s).
  { induction n as [|n IH]; intros lo s0 Hlo Hn; [done|].
    erewrite !for_step by reflexivity.
    assert (E : nth (Z.to_nat lo) (map digit_char (rev ds)) 0 = digit_char (nth (length ds - 1 - Z.to_nat lo) ds 0)).
    { rewrite (nth_indep _ 0 (digit_char 0)) by (rewrite length_map, length_rev; lia).
      rewrite map_nth, rev_nth by lia. do 2 f_equal. lia. }
    rewrite E. apply IH; lia. }
  rewrite Hext by lia.
  pose proof (store_list_loop a (map digit_char (rev ds)) s 0 (length ds)) as H.
  rewrite length_map, length_rev, Nat.sub_diag, drop_0, Z.add_0_r in H. by apply H.
Qed.

Section Format.
Context {PL : Platform} {LK : Linker}.

Lemma itoa_run p var base s :
  itoa p var base s = Ok (u32 (p + Z.of_nat (length (number_text var base))))
    (set_mem (put_bytes (mem s) p (number_text var base)) s).
Proof.
  unfold itoa. rewrite (bind_ok _ _ _ _ _ (store_rev_loop p _ s)).
  unfold number_text. by rewrite length_map, length_rev.
Qed.

(** *** What a format stands for *)

Definition signed_text (v : Z) : list Z :=
  if v <? 0 then 45 :: number_text (- v) 10 else number_text v 10.

(** [expands m W args fmt out]: with the arguments from [args] + 4 on, the
    format [fmt] stands for [out]; the arguments and the strings they point to
    are not among the bytes [W] the output is written to.  A '%' is always
    followed by a character. *)
Section Expansion.
Context (m : memory) (W : Z -> Prop).

Definition arg_ok (a : Z) : Prop :=
  0 <= a /\ a + 8 < 2 ^ 32 /\ forall b, a + 4 <= b < a + 8 -> ~ W b.

Inductive expands : Z -> list Z -> list Z -> Prop :=
  | ex_end a : expands a [] []
  | ex_char a c r out : c <> 37 -> expands a r out -> expands a (c :: r) (c :: out)
  | ex_percent a r out : expands a r out -> expands a (37 :: 37 :: r) (37 :: out)
  | ex_other a c r out : c ∉ [99; 100; 115; 120; 37] -> expands a r out -> expands a (37 :: c :: r) out
  | ex_c a r out : arg_ok a -> expands (a + 4) r out ->
      expands a (37 :: 99 :: r) (get8 m (a + 4) :: out)
  | ex_d a r out : arg_ok a -> expands (a + 4) r out ->
      expands a (37 :: 100 :: r) (signed_text (s32 (get32 m (a + 4))) ++ out)
  | ex_x a r out : arg_ok a -> expands (a + 4) r out ->
      expands a (37 :: 120 :: r) (number_text (get32 m (a + 4)) 16 ++ out)
  | ex_s a r out l : arg_ok a -> get32 m (a + 4) <> 0 -> cstr m (get32 m (a + 4)) l ->
      Z.of_nat (length l) < 2 ^ 32 ->
      (forall b, get32 m (a + 4) <= b <= get32 m (a + 4) + Z.of_nat (length l) -> ~ W b) ->
      expands (a + 4) r out -> expands a (37 :: 115 :: r) (l ++ out).

(** One round of the loop writes one piece of the output. *)
Record round_of (fmt out : list Z) (f p a : Z) (s : machine) : Prop := {
  ro_fmt : cstr m f fmt;
  ro_out : forall b, f <= b <= f + Z.of_nat (length fmt) -> ~ W b;
  ro_f : 0 <= f /\ f + Z.of_nat (length fmt) + 2 < 2 ^ 32;
  ro_p : 0 < p /\ p + Z.of_nat (length out) < 2 ^ 32;
  ro_W : forall b, p <= b < p + Z.of_nat (length out) -> W b;
  ro_mem : changed_only W m (mem s);
  ro_exp : expands a fmt out
}.

Lemma round_get8 fmt out f p a s b : round_of fmt out f p a s -> ~ W b -> get8 (mem s) b = get8 m b.
Proof. intros H. apply (ro_mem _ _ _ _ _ _ H). Qed.

(** After the first [k] characters and the piece [piece]. *)
Lemma round_next fmt piece out f p a a' s k r :
  round_of fmt (piece ++ out) f p a s -> fmt = k ++ r -> expands a' r out ->
  cstr m (f + Z.of_nat (length k)) r ->
  round_of r out (f + Z.of_nat (length k)) (p + Z.of_nat (length piece)) a'
    (set_mem (put_bytes (mem s) p piece) s).
Proof.
  intros [H1 H2 H3 H4 H5 H6 H7] -> Hx Hc. rewrite length_app in *. constructor; msimpl; try done.
  - intros b Hb. apply H2. lia.
  - lia.
  - lia.
  - intros b Hb. apply H5. lia.
  - intros b Hb. rewrite get8_put_bytes_ne; [by apply H6|]. intros Hp. apply Hb, H5. lia.
Qed.

Lemma round_arg fmt out f p a s :
  round_of fmt out f p a s -> arg_ok a ->
  u32 (a + 4) = a + 4 /\ get32 (mem s) (a + 4) = get32 m (a + 4) /\
  get8 (mem s) (a + 4) = get8 m (a + 4).
Proof.
  intros H (Ha & Ha2 & HW). split_and!.
  - apply u32_small. lia.
  - apply (changed_get32 W); [apply (ro_mem _ _ _ _ _ _ H)|]. intros b Hb. apply HW. lia.
  - apply (ro_mem _ _ _ _ _ _ H), HW. lia.
Qed.

Lemma round_first c r out f p a s :
  round_of (c :: r) out f p a s -> get8 (mem s) f = c /\ c <> 0 /\ cstr m (f + 1) r.
Proof.
  intros H. destruct (ro_fmt _ _ _ _ _ _ H) as (E & Hc & Hr). split_and!; [|done|done].
  rewrite (round_get8 _ _ _ _ _ _ _ H), E; [done|]. apply (ro_out _ _ _ _ _ _ H). lia.
Qed.

Lemma round_second c d r out f p a s :
  round_of (c :: d :: r) out f p a s ->
  u32 (f + 1) = f + 1 /\ u32 (f + 1 + 1) = f + 2 /\ get8 (mem s) (f + 1) = d /\ cstr m (f + 2) r.
Proof.
  intros H. destruct (ro_fmt _ _ _ _ _ _ H) as (_ & _ & E & _ & Hr).
  pose proof (ro_f _ _ _ _ _ _ H) as Hf. cbn [length] in Hf.
  replace (f + 1 + 1) with (f + 2) in * by lia. split_and!; [apply u32_small; lia..| |done].
  rewrite (round_get8 _ _ _ _ _ _ _ H), E; [done|]. apply (ro_out _ _ _ _ _ _ H). cbn [length]. lia.
Qed.

Lemma round_nil f p a s out : round_of [] out f p a s -> get8 (mem s) f = 0.
Proof.
  intros H. rewrite (round_get8 _ _ _ _ _ _ _ H); [apply (ro_fmt _ _ _ _ _ _ H)|].
  apply (ro_out _ _ _ _ _ _ H). cbn. lia.
Qed.

Definition after_round (fmt out : list Z) (p : Z) (s : machine)
    (r : Z * Z * Z + unit) (s' : machine) : Prop :=
  match r with
  | inr _ => out = [] /\ s' = s
  | inl (f', p', a') => exists piece fmt' out', (length fmt' < length fmt)%nat /\ out = piece ++ out' /\
      p' = p + Z.of_nat (length piece) /\ s' = set_mem (put_bytes (mem s) p piece) s /\
      round_of fmt' out' f' p' a' s'
  end.

Lemma after_round_next fmt piece out f p a a' s k r f' p' s' :
  round_of fmt (piece ++ out) f p a s -> fmt = k ++ r -> k <> [] -> expands a' r out ->
  cstr m (f + Z.of_nat (length k)) r ->
  f' = f + Z.of_nat (length k) -> p' = u32 (p + Z.of_nat (length piece)) ->
  s' = set_mem (put_bytes (mem s) p piece) s ->
  after_round fmt (piece ++ out) p s (inl (f', p', a')) s'.
Proof.
  intros H E Hk Hx Hc -> -> ->. pose proof (ro_p _ _ _ _ _ _ H) as Hp. rewrite length_app in Hp.
  exists piece, r, out. rewrite u32_small by lia. split_and!; try done.
  - rewrite E, length_app. destruct k; [done|cbn; lia].
  - by eapply round_next.
Qed.

(** Rounds that write a single character. *)
Lemma put_one p c s : set_mem (put8 (mem s) p c) s = set_mem (put_bytes (mem s) p [c]) s.
Proof. done. Qed.

Lemma vsprintf_round fmt out f p a s :
  round_of fmt out f p a s -> wp (vsprintf_body (f, p, a)) (after_round fmt out p s) s.
Proof.
  intros H. pose proof (ro_exp _ _ _ _ _ _ H) as Hx. pose proof (ro_p _ _ _ _ _ _ H) as Hp.
  unfold vsprintf_body. wstep. wstep.
  inversion Hx as [a0|a0 c r o Hc Hr|a0 r o Hr|a0 c r o Hc Hr|a0 r o Ha Hr|a0 r o Ha Hr|a0 r o Ha Hr
                  |a0 r o l Ha H0 Hl Hlen Hsep Hr]; subst.
  - rewrite (round_nil _ _ _ _ _ H). cbn [Z.eqb]. by wstep.
  - destruct (round_first _ _ _ _ _ _ _ H) as (-> & Hc0 & Hcr).
    rewrite (proj2 (Z.eqb_neq c 0)), (proj2 (Z.eqb_neq c 37)) by done. wsteps.
    pose proof (ro_f _ _ _ _ _ _ H) as Hf. cbn [length] in Hf.
    eapply (after_round_next _ [c] o _ _ _ a _ [c] r); try done. rewrite u32_small; cbn; lia.
  - destruct (round_first _ _ _ _ _ _ _ H) as (-> & _ & _).
    destruct (round_second _ _ _ _ _ _ _ _ H) as (E1 & E2 & E3 & Hcr). cbn [Z.eqb Pos.eqb]. wsteps.
    rewrite E1, E3. cbn [Z.eqb Pos.eqb]. wsteps. rewrite E2.
    by eapply (after_round_next _ [37] o _ _ _ a _ [37; 37] r).
  - destruct (round_first _ _ _ _ _ _ _ H) as (-> & _ & _).
    destruct (round_second _ _ _ _ _ _ _ _ H) as (E1 & E2 & E3 & Hcr). cbn [Z.eqb Pos.eqb]. wsteps.
    rewrite !not_elem_of_cons in Hc. destruct Hc as (N1 & N2 & N3 & N4 & N5 & _).
    rewrite E1, E3, !(proj2 (Z.eqb_neq c _)) by done. wsteps. rewrite E2.
    eapply (after_round_next _ [] out _ _ _ a _ [37; c] r); try done.
    + rewrite u32_small; cbn; lia.
    + cbn. by rewrite set_mem_id.
  - destruct (round_first _ _ _ _ _ _ _ H) as (-> & _ & _).
    destruct (round_second _ _ _ _ _ _ _ _ H) as (E1 & E2 & E3 & Hcr).
    destruct (round_arg _ _ _ _ _ _ H Ha) as (A1 & A2 & A3). cbn [Z.eqb Pos.eqb]. wsteps.
    rewrite E1, E3. cbn [Z.eqb Pos.eqb]. wsteps. rewrite E2, A1, A3.
    by eapply (after_round_next _ [_] o _ _ _ (a + 4) _ [37; 99] r).
  - destruct (round_first _ _ _ _ _ _ _ H) as (-> & _ & _).
    destruct (round_second _ _ _ _ _ _ _ _ H) as (E1 & E2 & E3 & Hcr).
    destruct (round_arg _ _ _ _ _ _ H Ha) as (A1 & A2 & A3). cbn [Z.eqb Pos.eqb]. wsteps.
    rewrite E1, E3. cbn [Z.eqb Pos.eqb]. wsteps. rewrite E2, A1, A2.
    pose proof (s32_range (get32 m (a + 4))). unfold signed_text in *.
    destruct (s32 (get32 m (a + 4)) <? 0) eqn:En; wsteps;
      (eapply wp_ok; [apply itoa_run|]); wsteps.
    + eapply (after_round_next _ (45 :: number_text _ 10) o _ _ _ (a + 4) _ [37; 100] r); try done.
      * rewrite (u32_small (p + 1)), (u32_small (- _)) by
          (cbn [app length] in Hp; rewrite ?length_app in Hp; lia). f_equal. cbn [length]. lia.
      * cbn [put_bytes mem set_mem]. rewrite (u32_small (p + 1)), (u32_small (- _)) by
          (cbn [app length] in Hp; rewrite ?length_app in Hp; lia). done.
    + rewrite (u32_small (s32 _)) by lia.
      by eapply (after_round_next _ _ o _ _ _ (a + 4) _ [37; 100] r).
  - destruct (round_first _ _ _ _ _ _ _ H) as (-> & _ & _).
    destruct (round_second _ _ _ _ _ _ _ _ H) as (E1 & E2 & E3 & Hcr).
    destruct (round_arg _ _ _ _ _ _ H Ha) as (A1 & A2 & A3). cbn [Z.eqb Pos.eqb]. wsteps.
    rewrite E1, E3. cbn [Z.eqb Pos.eqb]. wsteps. rewrite E2, A1, A2. 
    eapply wp_ok; [apply itoa_run|]. wsteps.
    by eapply (after_round_next _ _ o _ _ _ (a + 4) _ [37; 120] r).
  - destruct (round_first _ _ _ _ _ _ _ H) as (-> & _ & _).
    destruct (round_second _ _ _ _ _ _ _ _ H) as (E1 & E2 & E3 & Hcr).
    destruct (round_arg _ _ _ _ _ _ H Ha) as (A1 & A2 & A3). cbn [Z.eqb Pos.eqb]. wsteps.
    rewrite E1, E3. cbn [Z.eqb Pos.eqb]. wsteps. rewrite E2, A1, A2. 
    assert (Hne : p <> 0) by lia.
    assert (Hcs : cstr (mem s) (get32 m (a + 4)) l).
    { eapply cstr_ext; [|exact Hl]. intros b Hb. apply (ro_mem _ _ _ _ _ _ H). by apply Hsep. }
    assert (Hap : p + Z.of_nat (length l) <= get32 m (a + 4) \/ get32 m (a + 4) + Z.of_nat (length l) < p).
    { destruct (decide (p + Z.of_nat (length l) <= get32 m (a + 4))) as [|N1]; [by left|].
      destruct (decide (get32 m (a + 4) + Z.of_nat (length l) < p)) as [|N2]; [by right|]. exfalso.
      apply (Hsep (Z.max p (get32 m (a + 4)))); [lia|]. apply (ro_W _ _ _ _ _ _ H).
      rewrite length_app. lia. }
    eapply wp_ok; [by apply (strcpy_run p _ l)|]. wsteps.
    eapply wp_ok; [apply (strlen_run _ l); [done| |done]|]; msimpl.
    { eapply cstr_ext; [|exact Hcs]. intros b Hb. apply get8_put_bytes_ne. lia. }
    wsteps. by eapply (after_round_next _ l o _ _ _ (a + 4) _ [37; 115] r).
Qed.
End Expansion.

Lemma vsprintf_loop W fmt out f str a s :
  round_of (mem s) W fmt out f str a s ->
  while_ vsprintf_body (f, str, a) s = Ok tt (set_mem (put_bytes (mem s) str out) s).
Proof.
  intros H. apply run_of_wp.
  apply (wp_while _ (fun n '(f', p', a') s' => exists l fmt' out', out = l ++ out' /\
    n = Z.of_nat (length fmt') /\ p' = str + Z.of_nat (length l) /\
    s' = set_mem (put_bytes (mem s) str l) s /\ round_of (mem s) W fmt' out' f' p' a' s') _ _)
    with (n := Z.of_nat (length fmt)).
  - intros n [[f' p'] a'] s' _ (l & fmt' & out' & -> & -> & -> & -> & H').
    eapply wp_mono; [exact (vsprintf_round _ _ _ _ _ _ _ _ H')|].
    intros [[[f2 p2] a2]|[]] s2; cbn [after_round].
    + intros (piece & fmt2 & out2 & Hlt & -> & -> & -> & H2). exists (Z.of_nat (length fmt2)).
      split; [lia|]. exists (l ++ piece), fmt2, out2. rewrite length_app.
      split_and!; [by rewrite app_assoc|done|lia| |done]. msimpl. by rewrite put_bytes_app.
    + intros [-> ->]. by rewrite app_nil_r.
  - pose proof (ro_f _ _ _ _ _ _ _ _ H). change (2 ^ 33) with 8589934592. lia.
  - exists [], fmt, out. split_and!; [done|done|cbn; lia|cbn [put_bytes]; by rewrite set_mem_id|done].
Qed.

Lemma cstr_put_bytes m p l :
  Forall (fun x => is_u8 x /\ x <> 0) l -> get8 m (p + Z.of_nat (length l)) = 0 ->
  cstr (put_bytes m p l) p l.
Proof.
  intros Hl H0. eapply cstr_ext; [|by apply (cstr_put m)]. intros b Hb.
  rewrite get8_put8. case_decide as E; [|done]. subst b. by rewrite get8_put_bytes_ne by lia.
Qed.

(** [itoa] writes the digits of the number in the base, without leading
    zeroes but at least one, and reading them back gives the number. *)
Theorem itoa_roundtrip p var base s :
  2 <= base <= 36 -> 0 <= var < 2 ^ 32 -> 0 <= p < 2 ^ 32 - 32 ->
  exists text, itoa p var base s
      = Ok (p + Z.of_nat (length text)) (set_mem (put_bytes (mem s) p text) s) /\
    (1 <= length text <= 32)%nat /\ Forall (fun c => is_u8 c /\ c <> 0) text /\
    text_value base text = var.
Proof.
  intros Hb Hv Hp. pose proof (number_text_length base var) as Hlen. exists (number_text var base).
  split_and!; [|lia|lia|apply number_text_chars; lia|by apply number_text_value].
  rewrite itoa_run, u32_small by lia. done.
Qed.

(** C27: [vsprintf] writes what the format stands for; with a zero byte after it,
    as in the cleared buffer of [printk], the result is the length of the
    text and the buffer holds it as a string. *)
Theorem vsprintf_expands W fmt out f str args s :
  round_of (mem s) W fmt out f str args s ->
  Forall (fun x => is_u8 x /\ x <> 0) out -> get8 (mem s) (str + Z.of_nat (length out)) = 0 ->
  vsprintf str f args s = Ok (Z.of_nat (length out)) (set_mem (put_bytes (mem s) str out) s) /\
  cstr (put_bytes (mem s) str out) str out.
Proof.
  intros H Ho H0. pose proof (ro_p _ _ _ _ _ _ _ _ H) as Hp.
  assert (Hc : cstr (put_bytes (mem s) str out) str out) by (by apply cstr_put_bytes).
  split; [|done]. unfold vsprintf. rewrite (bind_ok _ _ _ _ _ (vsprintf_loop _ _ _ _ _ _ _ H)).
  apply (strlen_run _ out); [lia|done|lia].
Qed.
End Format.

(** ** Concrete instances *)

Lemma itoa_roundtrip_witness :
  exists text, itoa 0xc0050000 48879 16 (demo_machine ∅)
      = Ok (0xc0050000 + Z.of_nat (length text)) (set_mem (put_bytes ∅ 0xc0050000 text) (demo_machine ∅)) /\
    (1 <= length text <= 32)%nat /\ Forall (fun c => is_u8 c /\ c <> 0) text /\
    text_value 16 text = 48879.
Proof. apply (itoa_roundtrip 0xc0050000 48879 16 (demo_machine ∅)); lia. Defined.

(** The format "a%d%%" with the argument -5 gives "a-5%". *)
Definition demo_format_mem : memory :=
  put32 (put_bytes ∅ 0xc0040000 [97; 37; 100; 37; 37; 0]) 0xc0041004 (-5).

Definition demo_buffer (b : Z) : Prop := 0xc0050000 <= b < 0xc0050400.

Lemma demo_round :
  round_of demo_format_mem demo_buffer [97; 37; 100; 37; 37] [97; 45; 53; 37]
    0xc0040000 0xc0050000 0xc0041000 (demo_machine demo_format_mem).
Proof.
  constructor; unfold demo_buffer; cbn [length]; try lia.
  - vm_compute. split_and!; congruence.
  - by intros b _.
  - apply ex_char; [lia|].
    apply (ex_d demo_format_mem demo_buffer 0xc0041000 [37; 37] [37]).
    + unfold arg_ok, demo_buffer. split_and!; [lia|reflexivity|intros b Hb; lia].
    + apply ex_percent, ex_end.
Qed.

Lemma vsprintf_expands_witness :
  vsprintf 0xc0050000 0xc0040000 0xc0041000 (demo_machine demo_format_mem)
    = Ok 4 (set_mem (put_bytes demo_format_mem 0xc0050000 [97; 45; 53; 37]) (demo_machine demo_format_mem)) /\
  cstr (put_bytes demo_format_mem 0xc0050000 [97; 45; 53; 37]) 0xc0050000 [97; 45; 53; 37].
Proof.
  apply (vsprintf_expands demo_buffer _ _ _ _ _ (demo_machine demo_format_mem) demo_round).
  - repeat constructor; done.
  - reflexivity.
Defined.
