(* ===== verification/Disk.v ===== *)
(** * The disk driver (device/disk.c)

    Programmed I/O on the IDE channels, the transfer of sectors, and the scan
    of the partition tables. *)

From S2P Require Import Prelude Machine Concrete Interrupt CString Bitmap DList Paging Tss Sched Lock Memory Malloc Idt Timer Console Syscall Stdio.

#[local] Open Scope Z_scope.

Definition NAME_LEN : Z := 8.
Definition PRIM_PARTS_CNT : Z := 4.
Definition LOGIC_PARTS_CNT : Z := 8.
Definition BYTES_PER_SECTOR : Z := 512.
Definition MAX_LBA : Z := 80 * 1024 * 1024 / 512 - 1.
Definition DEFAULT_DISK_NUM : Z := 4.
Definition DISK_CNT_POINTER : Z := 0x475.

Definition ALT_STATUS_BUSY : Z := 0x80.
Definition ALT_STATUS_DATA_READY : Z := 0x08.
Definition DEV_MBS : Z := 0xa0.
Definition DEV_LBA : Z := 0x40.
Definition DEV_DEV : Z := 0x10.
Definition CMD_IDENTIFY : Z := 0xec.
Definition CMD_READ_SECTOR : Z := 0x20.
Definition CMD_WRITE_SECTOR : Z := 0x30.

Module partition.
Definition start : Z := 0.
Definition count : Z := 4.
Definition name : Z := 8.
Definition belong_disk : Z := 16.
Definition part_tag : Z := 20.
Definition sb : Z := 28.
Definition block_bm : Z := 32.
Definition inode_bm : Z := 40.
Definition open_inodes : Z := 48.
Definition sizeof : Z := 64.
End partition.

Module disk.
Definition name : Z := 0.
Definition channel : Z := 8.
Definition no : Z := 12.
Definition prim_parts : Z := 16.
Definition logic_parts : Z := 272.
Definition sizeof : Z := 784.
End disk.

Module ide_channel.
Definition sem : Z := 0.
Definition mutex : Z := 20.
Definition start_port : Z := 48.
Definition irq_no : Z := 50.
Definition waiting_intr : Z := 51.
Definition name : Z := 52.
Definition devices : Z := 60.
Definition sizeof : Z := 1628.
End ide_channel.

Module pt_entry.
Definition fs_type : Z := 4.
Definition start_lba : Z := 8.
Definition sec_cnt : Z := 12.
Definition sizeof : Z := 16.
End pt_entry.

Module boot_sector.
Definition pt : Z := 446.
Definition sizeof : Z := 512.
End boot_sector.

Section Disk.
Context {PL : Platform} {LK : Linker}.

(** [PANIC(error)] with a message in memory. *)
Definition panic_message {A} (filename : string) (line : Z) (func : string) (cond : Z) : K A :=
  intr_disable;;
  put_lit (nl +:+ nl +:+ "    ##error##" +:+ nl);;
  put_lit "[filename]:  ";; put_lit filename;; put_lit nl;;
  put_lit "[line]:      0x";; put_int line;; put_char 10;;
  put_lit "[function]:  ";; put_lit func;; put_lit nl;;
  put_lit "[condtion]:  ";; put_str cond;; put_lit nl;;
  panic "a message in memory".

(** A register of the channel of disk [d]. *)
Definition channel_port (channel reg : Z) : K Z :=
  start ← ld16 (channel + ide_channel.start_port);
  mret (start + reg).

Definition RW_DATA (channel : Z) : K Z := channel_port channel 0x0.
Definition RW_SECTOR_CNT (channel : Z) : K Z := channel_port channel 0x2.
Definition RW_LBA_LOW (channel : Z) : K Z := channel_port channel 0x3.
Definition RW_LBA_MID (channel : Z) : K Z := channel_port channel 0x4.
Definition RW_LBA_HIGH (channel : Z) : K Z := channel_port channel 0x5.
Definition RW_DEVICE (channel : Z) : K Z := channel_port channel 0x6.
Definition R_STATUS_W_CMD (channel : Z) : K Z := channel_port channel 0x7.

Definition device_bits (no : Z) : Z :=
  Z.lor (Z.lor DEV_MBS DEV_LBA) (if no =? 0 then 0 else DEV_DEV).

Definition select_disk (d : Z) : K unit :=
  no ← ld8 (d + disk.no);
  let device := u8 (device_bits no) in
  channel ← ld32 (d + disk.channel);
  port ← RW_DEVICE channel;
  outb port device.

Definition count_out (d cnt : Z) : K unit :=
  channel ← ld32 (d + disk.channel);
  port ← RW_SECTOR_CNT channel;
  outb port (u8 cnt).

Definition select_sector (d lba : Z) : K unit :=
  ASSERT (lba <=? MAX_LBA) "device/disk.c" 140 "select_sector" "lba <= MAX_LBA";;
  channel ← ld32 (d + disk.channel);
  port ← RW_LBA_LOW channel;
  outb port (Z.land lba 0x000000ff);;
  port ← RW_LBA_MID channel;
  outb port (Z.shiftr (Z.land lba 0x0000ff00) 8);;
  port ← RW_LBA_HIGH channel;
  outb port (Z.shiftr (Z.land lba 0x00ff0000) 16);;
  no ← ld8 (d + disk.no);
  let device := u8 (Z.lor (device_bits no) (Z.shiftr (Z.land lba 0x0f000000) 24)) in
  port ← RW_DEVICE channel;
  outb port device.

Definition send_cmd (channel cmd : Z) : K unit :=
  st8 (channel + ide_channel.waiting_intr) 1;;
  port ← R_STATUS_W_CMD channel;
  outb port cmd.

(** A count of 0 stands for 256; [cnt] is a [uint8_t]. *)
Definition sectors_of (cnt : Z) : Z := if u8 cnt =? 0 then 256 else u8 cnt.

Definition disk_read (d buf cnt : Z) : K unit :=
  let words := sectors_of cnt * BYTES_PER_SECTOR / 2 in
  channel ← ld32 (d + disk.channel);
  port ← RW_DATA channel;
  insw port buf words.

Definition disk_write (d buf cnt : Z) : K unit :=
  let words := sectors_of cnt * BYTES_PER_SECTOR / 2 in
  channel ← ld32 (d + disk.channel);
  port ← RW_DATA channel;
  outsw port buf words.

Definition spin_wait (d : Z) : K bool :=
  while_ (fun ms =>
    if 0 <? ms then
      channel ← ld32 (d + disk.channel);
      port ← R_STATUS_W_CMD channel;
      status ← inb port;
      if Z.land status ALT_STATUS_BUSY =? 0 then
        mret (inr (negb (Z.land status ALT_STATUS_DATA_READY =? 0)))
      else
        sleep_by_msecond 10;;
        mret (inl (u32 (ms - 10)))
    else mret (inr false)) (30 * 1000).

Definition ide_read (d lba buf cnt : Z) : K unit :=
  channel ← ld32 (d + disk.channel);
  mutex_lock (channel + ide_channel.mutex);;
  select_disk d;;
  while_ (fun offset =>
    if offset <? cnt then
      let curr_cnt := if u32 (offset + 256) <? cnt then 256 else u32 (cnt - offset) in
      count_out d curr_cnt;;
      select_sector d (u32 (lba + offset));;
      send_cmd channel CMD_READ_SECTOR;;
      sem_down (channel + ide_channel.sem);;
      ready ← spin_wait d;
      when (negb ready) (
        sp ← gets Machine.esp;
        let error := local_addr "ide_read.error" sp in
        call_sprintf error (str_lit ("%s read sector %d failed!" +:+ nl)) [d + disk.name; lba];;
        panic_message "device/disk.c" 211 "ide_read" error);;
      let curr_buf := u32 (buf + offset * BYTES_PER_SECTOR) in
      disk_read d curr_buf curr_cnt;;
      mret (inl (u32 (offset + curr_cnt)))
    else mret (inr tt)) 0;;
  mutex_unlock (channel + ide_channel.mutex).

(** The branches of the conditional are swapped with respect to [ide_read]. *)
Definition ide_write (d lba buf cnt : Z) : K unit :=
  channel ← ld32 (d + disk.channel);
  mutex_lock (channel + ide_channel.mutex);;
  select_disk d;;
  while_ (fun offset =>
    if offset <? cnt then
      let curr_cnt := if u32 (offset + 256) <? cnt then u32 (cnt - offset) else 256 in
      count_out d curr_cnt;;
      select_sector d (u32 (lba + offset));;
      send_cmd channel CMD_WRITE_SECTOR;;
      ready ← spin_wait d;
      when (negb ready) (
        sp ← gets Machine.esp;
        let error := local_addr "ide_write.error" sp in
        call_sprintf error (str_lit ("%s read sector %d failed!" +:+ nl)) [d + disk.name; lba];;
        panic_message "device/disk.c" 240 "ide_write" error);;
      let curr_buf := u32 (buf + offset * BYTES_PER_SECTOR) in
      disk_write d curr_buf curr_cnt;;
      sem_down (channel + ide_channel.sem);;
      mret (inl (u32 (offset + curr_cnt)))
    else mret (inr tt)) 0;;
  mutex_unlock (channel + ide_channel.mutex).

Definition word_to_bytes (src buf len : Z) : K unit :=
  for_ 0 (Z.to_nat ((len + 1) / 2)) (fun k =>
    let i := 2 * k in
    c ← ld8 (src + i);
    st8 (buf + i + 1) c;;
    c ← ld8 (src + i + 1);
    st8 (buf + i) c);;
  st8 (buf + len) 0.

Definition print_disk_info (d : Z) : K unit :=
  sp ← gets Machine.esp;
  let info := local_addr "print_disk_info.info" sp in
  let buf := local_addr "print_disk_info.buf" sp in
  select_disk d;;
  channel ← ld32 (d + disk.channel);
  send_cmd channel CMD_IDENTIFY;;
  channel ← ld32 (d + disk.channel);
  sem_down (channel + ide_channel.sem);;
  ready ← spin_wait d;
  when (negb ready) (
    let error := local_addr "print_disk_info.error" sp in
    call_sprintf error (str_lit ("%s identify command failed!" +:+ nl)) [d + disk.name];;
    panic_message "device/disk.c" 272 "print_disk_info" error);;
  disk_read d info 1;;
  word_to_bytes (info + 10 * 2) buf 20;;
  call_printk (str_lit (nl +:+ "disk %s information :")) [d + disk.name];;
  call_printk (str_lit (nl +:+ "Sequence Number: %s")) [buf];;
  memset buf 0 64;;
  word_to_bytes (info + 27 * 2) buf 40;;
  call_printk (str_lit (nl +:+ "Type Number: %s")) [buf];;
  sectors ← ld32 (info + 60 * 2);
  call_printk (str_lit (nl +:+ "Sectors: %d")) [sectors];;
  call_printk (str_lit (nl +:+ "Capacity: %dMB" +:+ nl +:+ nl +:+ nl))
    [u32 (sectors * BYTES_PER_SECTOR) / 1024 / 1024].

(** [fuel] bounds the nesting of extended partitions; every nested call takes
    more than 16 bytes of the kernel stack, which has less than a page, so
    that 256 levels cannot be reached on the machine. *)
Fixpoint scan_partition (fuel : nat) (d lba : Z) : K unit :=
  match fuel with
  | O => spin
  | S fuel' =>
      boot ← sys_malloc boot_sector.sizeof;
      ide_read d lba boot 1;;
      r ← for_exit 0 (Z.to_nat DEFAULT_DISK_NUM) (fun i =>
        let pt := boot + boot_sector.pt + i * pt_entry.sizeof in
        fs_type ← ld8 (pt + pt_entry.fs_type);
        if fs_type =? 0x5 then
          ext ← getv ext_lba_base;
          start ← ld32 (pt + pt_entry.start_lba);
          if negb (ext =? 0) then
            scan_partition fuel' d (u32 (start + ext));; mret None
          else
            setv (set_ext_lba_base start);;
            scan_partition fuel' d start;; mret None
        else if negb (fs_type =? 0) then
          '(part, full) ← ((if lba =? 0 then
            no ← getv master_no;
            let part := d + disk.prim_parts + no * partition.sizeof in
            start ← ld32 (pt + pt_entry.start_lba);
            st32 (part + partition.start) (lba + start);;
            sec_cnt ← ld32 (pt + pt_entry.sec_cnt);
            st32 (part + partition.count) sec_cnt;;
            st32 (part + partition.belong_disk) d;;
            call_sprintf (part + partition.name) (str_lit "%s%d") [d + disk.name; no + 1];;
            no ← getv master_no;
            ASSERT (no <? 3) "device/disk.c" 332 "scan_partition" "master_no < 3";;
            setv (set_master_no (u8 (no + 1)));;
            mret (part, false)
          else
            no ← getv logical_no;
            let part := d + disk.logic_parts + no * partition.sizeof in
            start ← ld32 (pt + pt_entry.start_lba);
            st32 (part + partition.start) (lba + start);;
            sec_cnt ← ld32 (pt + pt_entry.sec_cnt);
            st32 (part + partition.count) sec_cnt;;
            st32 (part + partition.belong_disk) d;;
            call_sprintf (part + partition.name) (str_lit "%s%d") [d + disk.name; no + 5];;
            no ← getv logical_no;
            setv (set_logical_no (u8 (no + 1)));;
            no ← getv logical_no;
            mret (part, 8 <=? no)) : K (Z * bool));
          if (full : bool) then mret (Some tt)
          else
            start ← ld32 (part + partition.start);
            count ← ld32 (part + partition.count);
            call_printk (str_lit (nl +:+ "%s start lba: 0x%x, sector count: 0x%x"))
              [part + partition.name; start; count];;
            mret None
        else mret None);
      match r with
      | Some _ => skip
      | None => sys_free boot
      end
  end.

Definition SCAN_FUEL : nat := 256.

Definition disk_intr_handler (irq : Z) : K unit :=
  let no := u8 (irq - 0x2e) in
  ASSERT ((no =? 0) || (no =? 1)) "device/disk.c" 367 "disk_intr_handler" "no == 0 || no == 1";;
  let channel := sym_channels + no * ide_channel.sizeof in
  w ← ld8 (channel + ide_channel.waiting_intr);
  when (negb (w =? 0)) (
    sem_up (channel + ide_channel.sem);;
    st8 (channel + ide_channel.waiting_intr) 0;;
    port ← R_STATUS_W_CMD channel;
    inb port;;
    skip).

(** [TWO_DISKS] is not defined. *)
Definition ide_channel_init : K unit :=
  disk_cnt ← ld8 DISK_CNT_POINTER;
  setv (set_channel_cnt (u8 (DIV_ROUND_UP disk_cnt 2)));;
  cnt ← getv channel_cnt;
  for_ 0 (Z.to_nat cnt) (fun i =>
    let channel := sym_channels + i * ide_channel.sizeof in
    when (i =? 0) (
      st16 (channel + ide_channel.start_port) 0x1f0;;
      st8 (channel + ide_channel.irq_no) (0x20 + 14));;
    st8 (channel + ide_channel.waiting_intr) 0;;
    mutex_init (channel + ide_channel.mutex);;
    sem_init (channel + ide_channel.sem) 0;;
    irq ← ld8 (channel + ide_channel.irq_no);
    intr_set_handler irq fn_disk_intr_handler;;
    for_ 0 2 (fun j =>
      let d := channel + ide_channel.devices + j * disk.sizeof in
      st32 (d + disk.channel) channel;;
      st8 (d + disk.no) j;;
      memset (d + disk.name) 0 NAME_LEN;;
      call_sprintf (d + disk.name) (str_lit "sd%c") [97 + i * 2 + j];;
      print_disk_info d;;
      no ← ld8 (d + disk.no);
      when (negb (no =? 0)) (scan_partition SCAN_FUEL d 0);;
      setv (set_master_no 0);;
      setv (set_logical_no 0))).
End Disk.
