(* ===== verification/DiskIo.v ===== *)
(** * Disk requests (device/disk.c: ide_read, ide_write, disk_intr_handler)

    A transfer is a conversation of the thread with the disk: it takes the
    channel's mutex, programs the registers, sleeps on the channel's semaphore
    until the interrupt handler raises it, and moves the data. *)

From S2P Require Import Prelude Machine Concrete Interrupt CString Bitmap DList Paging Tss Sched Lock Sems Memory Malloc Idt Timer Console Syscall Stdio Disk.

#[local] Open Scope Z_scope.

(** ** What goes through the ports *)

Definition is_port (e : event) : bool :=
  match e with OutB _ _ | InB _ _ | OutSW _ _ | InSW _ _ => true | _ => false end.
Definition ports (tr : list event) : list event := List.filter is_port tr.

Lemma ports_app l l' : ports (l ++ l') = ports l ++ ports l'.
Proof. apply List.filter_app. Qed.

(** Where a computation has got to when it returns, stops, or gives the
    processor away. *)
Definition last_state {A} (r : res A) : machine :=
  match r with Ok _ s | Panic _ s | Spin s | Switch s _ => s end.

(** A computation that accesses no port until then. *)
Definition quiet {A} (c : K A) : Prop := forall s, ports (trace (last_state (c s))) = ports (trace s).

Create HintDb quiet.

Section Quiet.
Context {PL : Platform} {LK : Linker}.

Lemma quiet_bind {A B} (c : K A) (f : A -> K B) : quiet c -> (forall a, quiet (f a)) -> quiet (c ≫= f).
Proof.
  intros Hc Hf s. specialize (Hc s). unfold mbind, K_bind. destruct (c s) as [a s1|m s1|s1|s1 k]; cbn in *; try done.
  rewrite <- Hc. apply Hf.
Qed.

Lemma quiet_ret {A} (a : A) : quiet (mret a).
Proof. by intros s. Qed.
Lemma quiet_gets {A} (f : machine -> A) : quiet (gets f).
Proof. by intros s. Qed.
Lemma quiet_emit e : is_port e = false -> quiet (emit e).
Proof. intros He s. cbn. rewrite ports_app. cbn. by rewrite He, app_nil_r. Qed.
Lemma quiet_panic {A} c : quiet (@panic A c).
Proof. by intros s. Qed.
Lemma quiet_modify f : (forall s, trace (f s) = trace s) -> quiet (modify f).
Proof. intros Hf s. cbn. by rewrite Hf. Qed.

Lemma quiet_while {X A} (body : X -> K (X + A)) x : (forall x, quiet (body x)) -> quiet (while_ body x).
Proof.
  intros Hb. destruct (while_loop_n body) as (n & _ & ->). generalize (S n). clear n. intros n.
  revert x. induction n as [|n IH]; intros x; [by intros s|]. rewrite loop_n_succ.
  apply quiet_bind; [done|]. intros [x'|a]; [apply IH|apply quiet_ret].
Qed.
End Quiet.

#[export] Hint Resolve quiet_ret quiet_gets quiet_panic : quiet.

Ltac quiet_step :=
  first
  [ solve [eauto with quiet]
  | apply quiet_bind; [|intros]
  | apply quiet_ret | apply quiet_gets | apply quiet_panic
  | apply quiet_emit; reflexivity
  | apply quiet_modify; intros; reflexivity
  | apply quiet_while; intros
  | match goal with |- quiet (if ?b then _ else _) => destruct b end
  | match goal with |- quiet (let '(_, _) := ?x in _) => destruct x end ].
Ltac solve_quiet := repeat quiet_step.

Section QuietKernel.
Context {PL : Platform} {LK : Linker}.

Lemma quiet_disable : quiet INTERRUPT_DISABLE.
Proof. unfold INTERRUPT_DISABLE, intr_disable, intr_get_status. solve_quiet. Qed.
Lemma quiet_restore st : quiet (INTERRUPT_RESTORE st).
Proof.
  unfold INTERRUPT_RESTORE, intr_set_status, intr_disable, intr_enable, intr_get_status, skip. solve_quiet.
Qed.
Lemma quiet_assert b f l fn c : quiet (ASSERT b f l fn c).
Proof. unfold ASSERT, panic_spin, intr_disable, intr_get_status, put_lit, put_int, put_char, skip. solve_quiet. Qed.
Hint Resolve quiet_disable quiet_restore quiet_assert : quiet.

Lemma quiet_insert x y : quiet (list_insert_before x y).
Proof. unfold list_insert_before. solve_quiet. Qed.
Lemma quiet_remove x : quiet (list_remove x).
Proof. unfold list_remove. solve_quiet. Qed.
Lemma quiet_exist l x : quiet (list_exist l x).
Proof. unfold list_exist. solve_quiet. Qed.
Hint Resolve quiet_insert quiet_remove quiet_exist : quiet.

Lemma quiet_unblock t : quiet (thread_unblock t).
Proof. unfold thread_unblock, list_push_front. solve_quiet. Qed.
Hint Resolve quiet_unblock : quiet.

Lemma quiet_activate t : quiet (process_activate t).
Proof. unfold process_activate, vaddr_to_phy, set_tss_esp0, when, skip. solve_quiet. Qed.
Lemma quiet_switch t u : quiet (switch_to t u).
Proof. by intros s. Qed.
Hint Resolve quiet_activate quiet_switch : quiet.

Lemma quiet_schedule : quiet schedule.
Proof. unfold schedule, running_thread, list_push_back, list_empty, list_pop_front, intr_get_status, when, skip. solve_quiet. Qed.
Hint Resolve quiet_schedule : quiet.

Lemma quiet_sem_down x : quiet (sem_down x).
Proof.
  unfold sem_down, sem_down_body, thread_block, running_thread, list_push_back. solve_quiet.
Qed.
End QuietKernel.

(** ** A channel and its disks *)
Section Channel.
Context {PL : Platform} {LK : Linker} (tasks : list Z) (idle : Z).
Context (Hlay : layout tasks) (ch port : Z).

Definition drive (no : Z) : Z := ch + ide_channel.devices + no * disk.sizeof.
Definition chan_bytes (b : Z) : Prop := ch <= b < ch + ide_channel.sizeof.

(** The channel lies outside the pages of the tasks, the ready list and the
    TSS. *)
Record channel_home : Prop := {
  ch_range : 0 <= ch /\ ch + ide_channel.sizeof <= 2 ^ 32;
  ch_tasks : forall t, t ∈ tasks -> ch + ide_channel.sizeof <= t \/ t + 4096 <= ch;
  ch_ready : ch + ide_channel.sizeof <= sym_ready_thread_list \/ sym_ready_thread_list + 16 <= ch;
  ch_tss : ch + ide_channel.sizeof <= sym_tss \/ sym_tss + tss_t.sizeof <= ch
}.

Definition done_sem (v : Z) (ws : list Z) : semv := mkSem (ch + ide_channel.sem) v ws.
Definition busy_sem (h : Z) (wm : list Z) : semv :=
  mkSem (ch + ide_channel.mutex) (if decide (h = NULL) then 1 else 0) wm.

(** The channel belongs to thread [h] (or to nobody, [h] = NULL), [wm] wait for
    it; [v] interrupts have not been waited for yet, and [ws] wait for one. *)
Record channel_state (a : sched) (v : Z) (ws : list Z) (h : Z) (wm : list Z) (s : machine) : Prop := {
  cs_sems : sems_state tasks idle a [done_sem v ws; busy_sem h wm] s;
  cs_holder : get32 (mem s) (ch + ide_channel.mutex + mutex_t.holder) = h;
  cs_levels : get8 (mem s) (ch + ide_channel.mutex + mutex_t.recursion) = (if decide (h = NULL) then 0 else 1);
  cs_port : get16 (mem s) (ch + ide_channel.start_port) = port;
  cs_disks : forall no, no = 0 \/ no = 1 ->
    get32 (mem s) (drive no + disk.channel) = ch /\ get8 (mem s) (drive no + disk.no) = no
}.

Hypothesis Hhome : channel_home.

Ltac chan :=
  unfold drive, chan_bytes, done_sem, busy_sem, ide_channel.sem, ide_channel.mutex, ide_channel.start_port,
    ide_channel.waiting_intr, ide_channel.devices, ide_channel.sizeof, disk.channel, disk.no, disk.sizeof,
    mutex_t.sem, mutex_t.holder, mutex_t.recursion, mutex_t.sizeof, sem_t.sizeof, sem_t.waiters, sem_t.value,
    list.sizeof, tss_t.sizeof in *.

Lemma sem_home_in x : ch <= x -> x + 20 <= ch + ide_channel.sizeof -> sem_home tasks x.
Proof.
  destruct Hhome as [[H1 H1'] H2 H3 H4]. change (2 ^ 32) with 4294967296 in *. intros Hx Hx2.
  constructor; [split_and!|..]; chan; try lia; intros t Ht; specialize (H2 t Ht); lia.
Qed.

Lemma channel_sems_home : sems_home tasks [ch + ide_channel.sem; ch + ide_channel.mutex].
Proof.
  constructor.
  - intros x Hx. rewrite !elem_of_cons, elem_of_nil in Hx.
    destruct Hx as [->|[->|[]]]; apply sem_home_in; chan; lia.
  - intros i j x y. unfold sem_apart. destruct i as [|[|i]], j as [|[|j]]; cbn; intros Hx Hy Hne; simplify_eq; chan; lia.
Qed.

Lemma channel_mutex_home : mutex_home tasks (ch + ide_channel.mutex).
Proof.
  destruct Hhome as [[H1 H1'] H2 H3 H4]. constructor; [apply sem_home_in; chan; lia| | |];
    chan; try lia. intros t Ht. specialize (H2 t Ht). lia.
Qed.

(** What an operation on the semaphores leaves alone. *)
Lemma channel_fields a v ws h wm s v' ws' h' wm' a' (P : Z -> Prop) s' :
  channel_state a v ws h wm s -> sems_state tasks idle a' [done_sem v' ws'; busy_sem h' wm'] s' ->
  changed_only P (mem s) (mem s') ->
  (forall b, P b -> chan_bytes b -> b < ch + ide_channel.start_port) ->
  get32 (mem s') (ch + ide_channel.mutex + mutex_t.holder) = h' ->
  get8 (mem s') (ch + ide_channel.mutex + mutex_t.recursion) = (if decide (h' = NULL) then 0 else 1) ->
  channel_state a' v' ws' h' wm' s'.
Proof.
  intros [H1 H2 H3 H4 H5] Hs Hc HP E1 E2.
  assert (Hk : forall b, ch + ide_channel.start_port <= b < ch + ide_channel.sizeof -> get8 (mem s') b = get8 (mem s) b).
  { intros b Hb. apply Hc. intros Hx. specialize (HP b Hx). chan. lia. }
  constructor; [done|done|done| |].
  - rewrite <- H4. apply get16_ext. intros b Hb. apply Hk. chan. lia.
  - intros no Hno. destruct (H5 no Hno) as [G1 G2]. split.
    + etransitivity; [|exact G1]. apply get32_ext. intros b Hb. apply Hk. chan. destruct Hno; lia.
    + etransitivity; [|exact G2]. apply Hk. chan. destruct Hno; lia.
Qed.

(** A frame of one of the semaphores meets the channel in its semaphore only. *)
Lemma frame_in_channel x b :
  ch <= x -> x + 20 <= ch + ide_channel.start_port -> sem_frame tasks x b -> chan_bytes b ->
  x <= b < x + 20.
Proof.
  destruct Hhome as [[H1 H1'] H2 H3 H4]. intros Hx Hx2 [Hf|[Hf|[Hf|Hf]]] Hb; chan; unfold esp0_bytes in *; try lia.
  apply Exists_exists in Hf as (t & Ht & Hf). specialize (H2 t Ht). lia.
Qed.

Lemma channel_mutex_state a v ws h wm s :
  channel_state a v ws h wm s ->
  mutex_state tasks idle (ch + ide_channel.mutex) a h (if decide (h = NULL) then 0 else 1) wm s.
Proof.
  intros [H1 H2 H3 _ _]. constructor; [|done|done|by intros ->].
  exact (sems_one tasks idle a [done_sem v ws] (busy_sem h wm) [] s H1).
Qed.

(** An operation on the mutex that leaves it in a consistent state. *)
Lemma channel_mutex_step a v ws h wm s a' h' wm' s' (P : Z -> Prop) :
  channel_state a v ws h wm s ->
  mutex_state tasks idle (ch + ide_channel.mutex) a' h' (if decide (h' = NULL) then 0 else 1) wm' s' ->
  waiting idle a' (ws ++ wm') ->
  changed_only P (mem s) (mem s') ->
  (forall b, P b -> sem_frame tasks (ch + ide_channel.mutex) b \/ owner_bytes (ch + ide_channel.mutex) b) ->
  (forall t b, t ∈ ws -> P b -> ~ (tag t <= b < tag t + 8)) ->
  channel_state a' v ws h' wm' s'.
Proof.
  intros Hst Hm Hwt Hc HP Htag. pose proof Hst as [H1 _ _ _ _]. destruct Hm as [[Hi _ Hr Hsem] E1 E2 _].
  assert (HPc : forall b, P b -> chan_bytes b -> ch + 20 <= b < ch + 48).
  { intros b Hb Hbc. destruct (HP b Hb) as [Hf|Hf].
    - apply (frame_in_channel (ch + ide_channel.mutex)) in Hf; [|chan; lia..|done]. chan. lia.
    - unfold owner_bytes in Hf. chan. lia. }
  eapply channel_fields; [exact Hst| |exact Hc| |exact E1|exact E2].
  2:{ intros b Hb Hbc. specialize (HPc b Hb Hbc). chan. lia. }
  constructor; [done|done|unfold all_waiters; cbn; by rewrite app_nil_r|].
  intros e He. rewrite !elem_of_cons, elem_of_nil in He. destruct He as [->|[->|[]]]; [|exact Hsem].
  eapply (sem_rep_frame tasks); [exact Hc|apply (sem_home_in (ch + ide_channel.sem)); chan; lia| |exact Htag|apply (sm_reps _ _ _ _ _ H1); by left].
  intros b Hb Hx. cbn in Hx. assert (Hbc : chan_bytes b) by (chan; lia). specialize (HPc b Hb Hbc). chan. lia.
Qed.

Lemma channel_waiting a v ws h wm s : channel_state a v ws h wm s -> waiting idle a (ws ++ wm).
Proof. intros [H1 _ _ _ _]. pose proof (sm_waiting _ _ _ _ _ H1) as Hw. unfold all_waiters in Hw. cbn in Hw. by rewrite app_nil_r in Hw. Qed.

Lemma channel_tasks a v ws h wm s t : channel_state a v ws h wm s -> t ∈ ws -> t ∈ tasks.
Proof.
  intros [H1 _ _ _ _] Ht. assert (Hr : sem_rep tasks (mem s) (ch + ide_channel.sem) v ws).
  { apply (sm_reps _ _ _ _ _ H1 (done_sem v ws)). by left. }
  by apply (tq_sub _ _ _ _ (sr_queue _ _ _ _ _ Hr)).
Qed.

(** The thread takes the channel. *)
Lemma channel_lock a v ws wm s :
  channel_state a v ws NULL wm s ->
  exists s', mutex_lock (ch + ide_channel.mutex) s = Ok tt s' /\
    channel_state a v ws (s_cur a) wm s' /\ s_cur a <> NULL /\
    intr_flag s' = flag_after (intr_flag s) /\ vars s' = vars s /\ trace s' = trace s /\
    changed_only chan_bytes (mem s) (mem s').
Proof.
  intros Hst. pose proof (channel_mutex_state _ _ _ _ _ _ Hst) as Hm.
  destruct (cur_address tasks idle Hlay _ _ _ _ _ (ms_sem _ _ _ _ _ _ _ _ Hm)) as [Hne _].
  destruct (mutex_lock_free_run tasks idle Hlay _ channel_mutex_home a wm s Hm) as (s' & E & Hm' & Hf & Hv & Ht & Hc).
  assert (Hin : forall b, value_byte (ch + ide_channel.mutex) b \/ owner_bytes (ch + ide_channel.mutex) b ->
    ch + 20 <= b < ch + 48).
  { unfold value_byte, owner_bytes. chan. lia. }
  exists s'. split_and!; [done| |done|done|done|done|].
  - eapply channel_mutex_step; [exact Hst| |by eapply channel_waiting|exact Hc| |].
    + by rewrite decide_False.
    + intros b [Hb|Hb]; [left; left|by right]. unfold value_byte in Hb. chan. lia.
    + intros t b Hin' Hb. pose proof (ch_tasks Hhome t (channel_tasks _ _ _ _ _ _ _ Hst Hin')).
      specialize (Hin b Hb). pose proof (lay_fd _ Hlay). unfold tag. chan. offsets. lia.
  - eapply changed_weaken; [exact Hc|]. intros b Hb. specialize (Hin b Hb). chan. lia.
Qed.

(** ... and gives it back. *)
Lemma channel_unlock a v ws h wm s :
  channel_state a v ws h wm s -> h <> NULL ->
  exists s', mutex_unlock (ch + ide_channel.mutex) s = Ok tt s' /\
    channel_state (abs_wake wm a) v ws NULL (tl wm) s' /\
    intr_flag s' = flag_after (intr_flag s) /\ vars s' = vars s /\ trace s' = trace s /\
    changed_only (fun b => sem_frame tasks (ch + ide_channel.mutex) b \/ owner_bytes (ch + ide_channel.mutex) b)
      (mem s) (mem s').
Proof.
  intros Hst Hne. pose proof (channel_mutex_state _ _ _ _ _ _ Hst) as Hm. rewrite decide_False in Hm by done.
  destruct (mutex_unlock_last_run tasks idle Hlay _ channel_mutex_home a h wm s Hm) as (s' & E & Hm' & Hf & Hv & Ht & Hc).
  pose proof (ms_sem _ _ _ _ _ _ _ _ Hm) as Hss.
  assert (Htouch : forall t, t ∈ wm ++ s_ready a -> t ∈ tasks).
  { intros t Hin. eapply (touched_tasks tasks idle); [exact Hss|]. rewrite !elem_of_app, !elem_of_cons in *. tauto. }
  assert (HP : forall b, sem_touch tasks (ch + ide_channel.mutex) (wm ++ s_ready a) b \/
    owner_bytes (ch + ide_channel.mutex) b -> sem_frame tasks (ch + ide_channel.mutex) b \/
    owner_bytes (ch + ide_channel.mutex) b).
  { intros b [Hb|Hb]; [left|by right]. by eapply (touch_frame tasks Hlay). }
  exists s'. split_and!; [done| |done|done|done|by eapply changed_weaken].
  pose proof (channel_waiting _ _ _ _ _ _ Hst) as Hw.
  eapply channel_mutex_step; [exact Hst|by rewrite decide_True| |exact Hc|exact HP|].
  - rewrite (comm (++) ws) in Hw |- *. by apply wake_waiting_app.
  - intros t b Hin Hb Htg. pose proof (channel_tasks _ _ _ _ _ _ _ Hst Hin) as Htt.
    pose proof (ch_tasks Hhome t Htt) as Hct. pose proof (lay_fd _ Hlay) as Hfd.
    destruct Hb as [Hb|Hb]; [|unfold owner_bytes, tag in *; chan; offsets; lia].
    eapply (touch_misses_tag tasks Hlay (ch + ide_channel.mutex) (ch + ide_channel.sem) ws (wm ++ s_ready a));
      [apply sem_home_in; chan; lia|apply sem_home_in; chan; lia|exact Htouch| | |exact Hin|exact Hb|exact Htg].
    + intros u Hu. by eapply channel_tasks.
    + intros u Hu. destruct (rest_not_ready tasks idle a [done_sem v ws] (busy_sem h wm) [] s
        (cs_sems _ _ _ _ _ _ Hst) u) as (U1 & _ & _ & U4); [unfold all_waiters; cbn; by rewrite app_nil_r|].
      rewrite elem_of_app. cbn in U4. tauto.
Qed.

(** A semaphore operation on the completion semaphore. *)
Lemma channel_done_step a v ws h wm s a' v' ws' s' :
  channel_state a v ws h wm s -> sems_state tasks idle a' [done_sem v' ws'; busy_sem h wm] s' ->
  changed_only (sem_frame tasks (ch + ide_channel.sem)) (mem s) (mem s') -> channel_state a' v' ws' h wm s'.
Proof.
  intros Hst Hs Hc. pose proof Hst as [_ H2 H3 _ _].
  assert (Hin : forall b, sem_frame tasks (ch + ide_channel.sem) b -> chan_bytes b -> ch <= b < ch + 20).
  { intros b Hb Hbc. apply (frame_in_channel (ch + ide_channel.sem)) in Hb; [|chan; lia..|done]. chan. lia. }
  eapply channel_fields; [exact Hst|exact Hs|exact Hc| | |].
  - intros b Hb Hbc. specialize (Hin b Hb Hbc). chan. lia.
  - rewrite <- H2. apply (changed_get32 _ _ _ _ Hc). intros b Hb Hx.
    assert (Hbc : chan_bytes b) by (chan; lia). specialize (Hin b Hx Hbc). chan. lia.
  - rewrite <- H3. apply Hc. intros Hx.
    assert (Hbc : chan_bytes (ch + ide_channel.mutex + mutex_t.recursion)) by (chan; lia).
    specialize (Hin _ Hx Hbc). chan. lia.
Qed.

(** The thread sleeps until the next interrupt. *)
Lemma channel_wait a ws h wm s :
  channel_state a 0 ws h wm s -> s_cur a <> idle ->
  exists n s' k, sem_down (ch + ide_channel.sem) s = Switch s' k /\
    channel_state (abs_block idle BLOCKED a) 0 (ws ++ [s_cur a]) h wm s' /\
    intr_flag s' = false /\ ports (trace s') = ports (trace s) /\
    get8 (mem s') (ch + ide_channel.waiting_intr) = get8 (mem s) (ch + ide_channel.waiting_intr) /\
    changed_only (sem_frame tasks (ch + ide_channel.sem)) (mem s) (mem s') /\
    Z.of_nat n = 2 ^ 33 - 1 /\
    (forall s'', intr_flag s'' = false -> k s''
       = sem_down_from n (ch + ide_channel.sem) (if intr_flag s then INTR_ON else INTR_OFF) s'').
Proof.
  intros Hst Hid.
  destruct (sems_wait tasks idle Hlay a [] (done_sem 0 ws) [busy_sem h wm] s (cs_sems _ _ _ _ _ _ Hst)
    channel_sems_home eq_refl Hid) as (n & s' & k & E & Hs & Hf & Hc & Hn & Hk).
  exists n, s', k. split_and!; [exact E|by eapply channel_done_step|done| | |done|done|done].
  - pose proof (quiet_sem_down (ch + ide_channel.sem) s) as Hq. cbn [done_sem sv_sem] in E. by rewrite E in Hq.
  - apply Hc. intros Hx. apply (frame_in_channel (ch + ide_channel.sem)) in Hx; chan; lia.
Qed.

(** ... and goes on when there has been one. *)
Lemma channel_resume n (b : bool) a v ws h wm s :
  channel_state a v ws h wm s -> 0 < v -> intr_flag s = false ->
  exists s', sem_down_from (S n) (ch + ide_channel.sem) (if b then INTR_ON else INTR_OFF) s = Ok tt s' /\
    channel_state a (v - 1) ws h wm s' /\ intr_flag s' = flag_after b /\ vars s' = vars s /\
    trace s' = trace s /\ changed_only (sem_frame tasks (ch + ide_channel.sem)) (mem s) (mem s').
Proof.
  intros Hst Hv Hoff.
  destruct (sems_resume tasks idle Hlay a [] (done_sem v ws) [busy_sem h wm] s (cs_sems _ _ _ _ _ _ Hst)
    channel_sems_home n b Hv Hoff) as (s' & E & Hs & Hf & Hva & Ht & Hc).
  exists s'. split_and!; [exact E|by eapply channel_done_step|done..].
Qed.

Lemma channel_up a v ws h wm s :
  channel_state a v ws h wm s -> v < 255 ->
  exists s', sem_up (ch + ide_channel.sem) s = Ok tt s' /\
    channel_state (abs_wake ws a) (v + 1) (tl ws) h wm s' /\ intr_flag s' = flag_after (intr_flag s) /\
    vars s' = vars s /\ trace s' = trace s /\
    changed_only (sem_frame tasks (ch + ide_channel.sem)) (mem s) (mem s').
Proof.
  intros Hst Hv.
  destruct (sems_up tasks idle Hlay a [] (done_sem v ws) [busy_sem h wm] s (cs_sems _ _ _ _ _ _ Hst)
    channel_sems_home Hv) as (s' & E & Hs & Hf & Hva & Ht & Hc).
  exists s'. split_and!; [exact E|by eapply channel_done_step|done..].
Qed.

(** Writes elsewhere: the flag for the handler, the buffer of a transfer. *)
Definition buffer_byte (b : Z) : Prop :=
  ~ chan_bytes b /\ ~ (sym_ready_thread_list <= b < sym_ready_thread_list + list.sizeof) /\
  forall t, t ∈ tasks -> ~ (t <= b < t + 4096).

Lemma channel_write a v ws h wm s m' (P : Z -> Prop) :
  channel_state a v ws h wm s -> changed_only P (mem s) m' ->
  (forall b, P b -> b = ch + ide_channel.waiting_intr \/ buffer_byte b) ->
  channel_state a v ws h wm (set_mem m' s).
Proof.
  intros [H1 H2 H3 H4 H5] Hc HP. destruct Hhome as [[G1 G1'] G2 G3 G4].
  assert (Hk : forall b, chan_bytes b -> b <> ch + ide_channel.waiting_intr -> get8 m' b = get8 (mem s) b).
  { intros b Hb Hne. apply Hc. intros Hx. destruct (HP b Hx) as [?|[? _]]; done. }
  constructor; msimpl.
  - eapply sems_frame; [exact Hlay|exact H1|exact Hc| |done]. intros b Hb e He.
    assert (He' : ch <= sv_sem e /\ sv_sem e + 20 <= ch + 40).
    { rewrite !elem_of_cons, elem_of_nil in He. destruct He as [->|[->|[]]]; cbn; chan; lia. }
    destruct (HP b Hb) as [->|(B1 & B2 & B3)].
    + split_and!; [chan; lia|chan; lia|]. intros t Ht. specialize (G2 t Ht). chan. lia.
    + split_and!; [chan; lia|done|done].
  - rewrite <- H2. apply get32_ext. intros b Hb. apply Hk; chan; lia.
  - rewrite <- H3. apply Hk; chan; lia.
  - rewrite <- H4. apply get16_ext. intros b Hb. apply Hk; chan; lia.
  - intros no Hno. destruct (H5 no Hno) as [E1 E2]. split.
    + etransitivity; [|exact E1]. apply get32_ext. intros b Hb. apply Hk; chan; destruct Hno; lia.
    + etransitivity; [|exact E2]. apply Hk; chan; destruct Hno; lia.
Qed.

Lemma channel_log a v ws h wm s e : channel_state a v ws h wm s -> channel_state a v ws h wm (log e s).
Proof.
  intros [[S1 [R1 R2 R3] S3 S4] H2 H3 H4 H5]. constructor; [constructor; [done|by constructor|done|done]|done..].
Qed.

(** *** Programming the registers *)

(** What drive [no] is told for a transfer of [cnt] sectors (0 stands for 256)
    from [lba] on. *)
Definition request (no lba cnt cmd : Z) : list event :=
  [OutB (port + 2) (u8 cnt); OutB (port + 3) (lba mod 256); OutB (port + 4) (lba / 256 mod 256);
   OutB (port + 5) (lba / 65536 mod 256); OutB (port + 6) (0xe0 + 16 * no); OutB (port + 7) cmd].

Lemma request_ports no lba cnt cmd : ports (request no lba cnt cmd) = request no lba cnt cmd.
Proof. done. Qed.

Lemma lba_byte lba k : 0 <= k -> u8 (Z.shiftr (Z.land lba (Z.shiftl 0xff k)) k) = lba / 2 ^ k mod 256.
Proof.
  intros Hk. rewrite Z.shiftr_land, (Z.shiftr_shiftl_l 0xff k k), Z.sub_diag, Z.shiftl_0_r by lia.
  rewrite Z.shiftr_div_pow2 by done. change 0xff with (2 ^ 8 - 1). rewrite land_low by lia.
  change (2 ^ 8) with 256. apply u8_small. apply Z.mod_pos_bound. lia.
Qed.

Section Drive.
Context (a : sched) (v : Z) (ws : list Z) (h : Z) (wm : list Z) (s : machine) (no : Z).
Hypothesis Hst : channel_state a v ws h wm s.
Hypothesis Hno : no = 0 \/ no = 1.

Lemma drive_port reg : channel_port ch reg s = Ok (port + reg) s.
Proof. unfold channel_port. erewrite bind_ok by reflexivity. cbv beta. by rewrite (cs_port _ _ _ _ _ _ Hst). Qed.

Lemma select_disk_run : select_disk (drive no) s = Ok tt (log (OutB (port + 6) (0xe0 + 16 * no)) s).
Proof.
  destruct (cs_disks _ _ _ _ _ _ Hst no Hno) as [E1 E2]. unfold select_disk.
  erewrite bind_ok by reflexivity. cbv beta. rewrite E2. cbv zeta.
  erewrite bind_ok by reflexivity. cbv beta. rewrite E1.
  rewrite (bind_ok _ _ _ _ _ (drive_port 6)). by destruct Hno as [->| ->].
Qed.

Lemma spin_wait_run :
  let st := u8 (dev_inb (trace s) (port + 7)) in
  Z.land st ALT_STATUS_BUSY = 0 -> Z.land st ALT_STATUS_DATA_READY <> 0 ->
  spin_wait (drive no) s = Ok true (log (InB (port + 7) st) s).
Proof.
  intros st H1 H2. destruct (cs_disks _ _ _ _ _ _ Hst no Hno) as [E1 _].
  unfold spin_wait. match goal with |- while_ ?b ?x s = _ => destruct (while_loop_n b) as (n & _ & ->) end.
  rewrite loop_n_succ, (bind_ok _ _ (inr true) s (log (InB (port + 7) st) s)); [done|].
  change (0 <? 30 * 1000) with true. cbv iota.
  erewrite bind_ok by reflexivity. cbv beta. rewrite E1. unfold R_STATUS_W_CMD.
  rewrite (bind_ok _ _ _ _ _ (drive_port 7)). erewrite bind_ok by reflexivity. cbv beta. fold st.
  rewrite (proj2 (Z.eqb_eq _ _)) by exact H1. by rewrite (proj2 (Z.eqb_neq _ _)) by exact H2.
Qed.

Lemma count_out_run cnt : count_out (drive no) cnt s = Ok tt (log (OutB (port + 2) (u8 cnt)) s).
Proof.
  destruct (cs_disks _ _ _ _ _ _ Hst no Hno) as [E1 E2]. unfold count_out.
  erewrite bind_ok by reflexivity. cbv beta. rewrite E1. unfold RW_SECTOR_CNT.
  rewrite (bind_ok _ _ _ _ _ (drive_port 2)). unfold outb, emit, modify. by rewrite u8_idem.
Qed.

Lemma send_cmd_run cmd : is_u8 cmd ->
  send_cmd ch cmd s
    = Ok tt (log (OutB (port + 7) cmd) (set_mem (put8 (mem s) (ch + ide_channel.waiting_intr) 1) s)).
Proof.
  intros Hc. unfold send_cmd. erewrite bind_ok by reflexivity. cbv beta.
  unfold R_STATUS_W_CMD, channel_port. rewrite bind_assoc. erewrite bind_ok by reflexivity. cbv beta. msimpl.
  replace (get16 (put8 (mem s) (ch + ide_channel.waiting_intr) 1) (ch + ide_channel.start_port)) with port.
  - erewrite bind_ok by reflexivity. unfold outb, emit, modify. by rewrite u8_small.
  - rewrite <- (cs_port _ _ _ _ _ _ Hst) at 1. symmetry. apply get16_ext. intros b Hb. apply get8_put8_ne. chan. lia.
Qed.
End Drive.

Lemma select_sector_run a v ws h wm s no lba :
  channel_state a v ws h wm s -> no = 0 \/ no = 1 -> 0 <= lba <= MAX_LBA ->
  select_sector (drive no) lba s = Ok tt (log (OutB (port + 6) (0xe0 + 16 * no))
    (log (OutB (port + 5) (lba / 65536 mod 256)) (log (OutB (port + 4) (lba / 256 mod 256))
      (log (OutB (port + 3) (lba mod 256)) s)))).
Proof.
  intros Hst Hno Hlba. destruct (cs_disks _ _ _ _ _ _ Hst no Hno) as [E1 E2].
  assert (Hp : forall e reg, channel_port ch reg (log e s) = Ok (port + reg) (log e s)).
  { intros e reg. by apply (drive_port a v ws h wm), channel_log. }
  unfold select_sector. erewrite bind_ok by (apply assert_run; lia). cbv beta.
  erewrite bind_ok by reflexivity. cbv beta. rewrite E1. unfold RW_LBA_LOW, RW_LBA_MID, RW_LBA_HIGH, RW_DEVICE.
  rewrite (bind_ok _ _ _ _ _ (drive_port a v ws h wm s Hst 3)).
  erewrite bind_ok by reflexivity. cbv beta. rewrite (bind_ok _ _ _ _ _ (Hp _ 4)).
  erewrite bind_ok by reflexivity. cbv beta.
  erewrite bind_ok by (apply (drive_port a v ws h wm); do 2 apply channel_log; exact Hst). cbv beta.
  erewrite bind_ok by reflexivity. cbv beta. erewrite bind_ok by reflexivity. cbv beta. msimpl. rewrite E2.
  erewrite bind_ok by (apply (drive_port a v ws h wm); do 3 apply channel_log; exact Hst). cbv beta.
  assert (A0 : u8 (Z.land lba 0xff) = lba mod 256) by (rewrite <- (Z.div_1_r lba) at 2; exact (lba_byte lba 0 ltac:(lia))).
  assert (A1 : u8 (Z.shiftr (Z.land lba 0xff00) 8) = lba / 256 mod 256) by exact (lba_byte lba 8 ltac:(lia)).
  assert (A2 : u8 (Z.shiftr (Z.land lba 0xff0000) 16) = lba / 65536 mod 256) by exact (lba_byte lba 16 ltac:(lia)).
  assert (A3 : Z.shiftr (Z.land lba 0x0f000000) 24 = 0).
  { rewrite Z.shiftr_land. change (Z.shiftr 0x0f000000 24) with (2 ^ 4 - 1). rewrite land_low by lia.
    rewrite Z.shiftr_div_pow2 by lia. change MAX_LBA with 163839 in Hlba. change (2 ^ 24) with 16777216.
    rewrite Z.div_small by lia. done. }
  unfold outb, emit, modify. rewrite A0, A1, A2, A3. by destruct Hno as [->| ->].
Qed.

(** The registers are programmed and the command is given. *)
Lemma request_run a v ws h wm s no lba cnt cmd :
  channel_state a v ws h wm s -> no = 0 \/ no = 1 -> 0 <= lba <= MAX_LBA -> is_u8 cmd ->
  exists s1, (forall A (k : K A),
      (count_out (drive no) cnt;; select_sector (drive no) lba;; send_cmd ch cmd;; k) s = k s1) /\
    channel_state a v ws h wm s1 /\ trace s1 = trace s ++ request no lba cnt cmd /\
    mem s1 = put8 (mem s) (ch + ide_channel.waiting_intr) 1 /\ intr_flag s1 = intr_flag s /\ vars s1 = vars s.
Proof.
  intros Hst Hno Hlba Hcmd.
  eexists. split; [intros A k|split].
  - rewrite (bind_ok _ _ _ _ _ (count_out_run a v ws h wm s no Hst Hno cnt)).
    erewrite bind_ok by (apply (select_sector_run a v ws h wm); [by apply channel_log|done|done]). cbv beta.
    erewrite bind_ok by (apply (send_cmd_run a v ws h wm); [by do 5 apply channel_log|done]). reflexivity.
  - apply channel_log. eapply channel_write; [do 5 apply channel_log; exact Hst| |].
    + apply (changed_put8 (fun b => b = ch + ide_channel.waiting_intr)). done.
    + auto.
  - cbn. by rewrite <- !app_assoc.
Qed.

(** *** ide_write *)

Definition selected (no : Z) : event := OutB (port + 6) (0xe0 + 16 * no).

(** The disk answers that it is ready for data, after the accesses [tr]. *)
Definition data_ready (tr : list event) : Prop :=
  let st := u8 (dev_inb tr (port + 7)) in
  Z.land st ALT_STATUS_BUSY = 0 /\ Z.land st ALT_STATUS_DATA_READY <> 0.

(** What the exchanged branches make of the first round's count. *)
Definition write_count (cnt : Z) : Z := if 256 <? cnt then cnt else 256.

Lemma get_bytes_chan P m m' buf n :
  changed_only P m m' -> (forall b, P b -> chan_bytes b) ->
  (forall b, buf <= b < buf + Z.of_nat n -> ~ chan_bytes b) -> get_bytes m' buf n = get_bytes m buf n.
Proof. intros Hc HP Hb. apply get_bytes_ext. intros b Hx. apply Hc. intros Hy. by apply (Hb b), HP. Qed.

Lemma sectors_bound c : 1 <= sectors_of c <= 256.
Proof. unfold sectors_of. pose proof (u8_range c). destruct (Z.eqb_spec (u8 c) 0); lia. Qed.

(** The data of one round. *)
Lemma disk_write_run a v ws h wm s no buf c :
  channel_state a v ws h wm s -> no = 0 \/ no = 1 ->
  disk_write (drive no) buf c s
    = Ok tt (log (OutSW port (get_bytes (mem s) buf (Z.to_nat (512 * sectors_of c)))) s).
Proof.
  intros Hst Hno. destruct (cs_disks _ _ _ _ _ _ Hst no Hno) as [D1 _].
  unfold disk_write, RW_DATA. erewrite bind_ok by reflexivity. cbv beta. rewrite D1.
  rewrite (bind_ok _ _ _ _ _ (drive_port a v ws h wm s Hst 0)), Z.add_0_r.
  unfold outsw, emit, modify, BYTES_PER_SECTOR. erewrite bind_ok by reflexivity. cbv beta.
  replace (2 * (sectors_of c * 512 / 2)) with (512 * sectors_of c); [done|].
  replace (sectors_of c * 512) with (sectors_of c * 256 * 2) by lia. rewrite Z.div_mul by lia. lia.
Qed.

(** After the interrupt the loop is left: one round has covered the request. *)
Lemma write_ends a v wm s n m (b : bool) (body : Z -> K (Z + unit)) x h :
  channel_state a v [] h wm s -> 0 < v -> intr_flag s = false -> h <> NULL -> (0 < n)%nat ->
  (forall s, body x s = Ok (inr tt) s) ->
  exists s', (sem_down_from (S m) (ch + ide_channel.sem) (if b then INTR_ON else INTR_OFF);;
      loop_n body n x;; mutex_unlock (ch + ide_channel.mutex)) s = Ok tt s' /\
    channel_state (abs_wake wm a) (v - 1) [] NULL (tl wm) s' /\ ports (trace s') = ports (trace s).
Proof.
  intros Hst Hv Hoff Hh Hn Hb. destruct n as [|n]; [lia|].
  destruct (channel_resume m b a v [] h wm s Hst Hv Hoff) as (s1 & E1 & Hst1 & _ & _ & Ht1 & _).
  destruct (channel_unlock a (v - 1) [] h wm s1 Hst1 Hh) as (s2 & E2 & Hst2 & _ & _ & Ht2 & _).
  exists s2. split_and!; [|done|by rewrite Ht2, Ht1].
  rewrite (bind_ok _ _ _ _ _ E1), loop_n_succ, bind_assoc, (bind_ok _ _ _ _ _ (Hb s1)). exact E2.
Qed.

Lemma ide_write_run a wm s no lba buf cnt :
  channel_state a 0 [] NULL wm s -> no = 0 \/ no = 1 -> s_cur a <> idle ->
  0 <= lba <= MAX_LBA -> 0 < cnt < 2 ^ 31 -> is_u32 buf ->
  let n := sectors_of (write_count cnt) in
  (forall b, buf <= b < buf + 512 * n -> ~ chan_bytes b) ->
  let asked := selected no :: request no lba (write_count cnt) CMD_WRITE_SECTOR in
  data_ready (trace s ++ asked) ->
  exists s' k st, ide_write (drive no) lba buf cnt s = Switch s' k /\
    channel_state (abs_block idle BLOCKED a) 0 [s_cur a] (s_cur a) wm s' /\
    intr_flag s' = false /\ get8 (mem s') (ch + ide_channel.waiting_intr) = 1 /\
    ports (trace s') = ports (trace s) ++ asked ++
      [InB (port + 7) st; OutSW port (get_bytes (mem s) buf (Z.to_nat (512 * n)))] /\
    (forall a' v wm' s'', channel_state a' v [] (s_cur a) wm' s'' -> 0 < v -> intr_flag s'' = false ->
       exists s3, k s'' = Ok tt s3 /\ channel_state (abs_wake wm' a') (v - 1) [] NULL (tl wm') s3 /\
         ports (trace s3) = ports (trace s'')).
Proof.
  intros Hst Hno Hid Hlba Hcnt Hbuf n Hapart asked Hrdy.
  destruct (channel_lock a 0 [] wm s Hst) as (s1 & E1 & Hst1 & Hne & Hf1 & Hv1 & Ht1 & Hc1).
  set (s2 := log (selected no) s1).
  assert (Hst2 : channel_state a 0 [] (s_cur a) wm s2) by (by apply channel_log).
  pose proof (sectors_bound (write_count cnt)) as Hsec. fold n in Hsec.
  assert (Hw : (if u32 (0 + 256) <? cnt then u32 (cnt - 0) else 256) = write_count cnt).
  { unfold write_count. rewrite Z.sub_0_r, (u32_small cnt) by lia. done. }
  assert (Hcmd : is_u8 CMD_WRITE_SECTOR) by done.
  destruct (request_run a 0 [] (s_cur a) wm s2 no lba (write_count cnt) CMD_WRITE_SECTOR Hst2 Hno Hlba Hcmd)
    as (s3 & E3 & Hst3 & Ht3 & Hm3 & Hf3 & Hv3).
  assert (Etr : trace s3 = trace s ++ asked).
  { rewrite Ht3. unfold s2, asked. cbn. by rewrite Ht1, <- app_assoc. }
  rewrite <- Etr in Hrdy. destruct Hrdy as [R1 R2].
  pose proof (spin_wait_run a 0 [] (s_cur a) wm s3 no Hst3 Hno R1 R2) as E4.
  set (st := u8 (dev_inb (trace s3) (port + 7))) in *. set (s4 := log (InB (port + 7) st) s3) in *.
  assert (Hst4 : channel_state a 0 [] (s_cur a) wm s4) by (by apply channel_log).
  assert (Ed : get_bytes (mem s4) buf (Z.to_nat (512 * n)) = get_bytes (mem s) buf (Z.to_nat (512 * n))).
  { apply (get_bytes_chan chan_bytes); [|done|intros b Hb; apply Hapart; lia].
    eapply changed_trans; [exact Hc1|]. unfold s4. msimpl. rewrite Hm3. apply changed_put8. chan. lia. }
  set (s5 := log (OutSW port (get_bytes (mem s4) buf (Z.to_nat (512 * n)))) s4).
  assert (Hst5 : channel_state a 0 [] (s_cur a) wm s5) by (by apply channel_log).
  destruct (channel_wait a [] (s_cur a) wm s5 Hst5 Hid) as (n0 & s' & k & E5 & Hst' & Hf' & Hp' & Hw' & _ & Hn0 & Hk).
  assert (Ebody : disk_write (drive no) (u32 (buf + 0 * BYTES_PER_SECTOR)) (write_count cnt) s4 = Ok tt s5).
  { rewrite (disk_write_run a 0 [] (s_cur a) wm s4 no _ _ Hst4 Hno).
    by rewrite Z.mul_0_l, Z.add_0_r, (u32_small buf). }
  assert (Hgo : exists b, ide_write (drive no) lba buf cnt s
      = (while_ b 0;; mutex_unlock (ch + ide_channel.mutex)) s2 /\
    b 0 s2 = Switch s' (fun s'' => bind_res (k s'') (fun _ => mret (inl (u32 (0 + write_count cnt))))) /\
    forall x s0, cnt <= x -> b x s0 = Ok (inr tt) s0).
  { destruct (cs_disks _ _ _ _ _ _ Hst no Hno) as [D1 _]. eexists. split_and!.
    - unfold ide_write. erewrite bind_ok by reflexivity. cbv beta. rewrite D1, (bind_ok _ _ _ _ _ E1).
      exact (bind_ok _ _ _ _ _ (select_disk_run a 0 [] (s_cur a) wm s1 no Hst1 Hno)).
    - cbv beta zeta. rewrite (proj2 (Z.ltb_lt 0 cnt)), Hw by lia.
      replace (u32 (lba + 0)) with lba
        by (rewrite Z.add_0_r, u32_small; [done|unfold is_u32; change MAX_LBA with 163839 in Hlba; lia]).
      rewrite E3, (bind_ok _ _ _ _ _ E4). cbv beta. change (when (negb true) _) with skip.
      erewrite bind_ok by reflexivity. cbv beta. rewrite (bind_ok _ _ _ _ _ Ebody).
      exact (bind_switch _ _ _ _ _ E5).
    - intros x s0 Hx. cbv beta. by rewrite (proj2 (Z.ltb_ge x cnt)) by lia. }
  destruct Hgo as (b & Eb & Eb0 & Ebn). destruct (while_loop_n b) as (nl & Hnl & El).
  rewrite Eb, El, loop_n_succ, bind_assoc, (bind_switch _ _ _ _ _ Eb0).
  eexists s', _, st. split_and!; [reflexivity|exact Hst'|done| | |].
  - rewrite Hw'. unfold s5, s4. msimpl. rewrite Hm3, get8_put8. by rewrite decide_True.
  - rewrite Hp'. change (trace s5) with ((trace s3 ++ [InB (port + 7) st]) ++
      [OutSW port (get_bytes (mem s4) buf (Z.to_nat (512 * n)))]).
    rewrite Ed, Etr, !ports_app, <- !app_assoc. reflexivity.
  - intros a' v wm' s'' Hs'' Hv Hoff. destruct n0 as [|n0]; [lia|].
    destruct (write_ends a' v wm' s'' nl n0 (intr_flag s5) b (u32 (0 + write_count cnt)) (s_cur a) Hs'' Hv Hoff Hne)
      as (s6 & E6 & H6 & Hp6); [lia| |].
    { intros s0. apply Ebn. unfold write_count. destruct (Z.ltb_spec 256 cnt); rewrite u32_small; unfold is_u32; lia. }
    exists s6. split; [|done]. rewrite <- E6. cbv beta. rewrite (Hk s'' Hoff), bind_res_assoc. reflexivity.
Qed.

(** *** ide_read *)

Section Read.
Context (no lba buf cnt : Z).
Hypothesis Hno : no = 0 \/ no = 1.
Hypothesis Hcnt : 0 <= cnt < 2 ^ 31.
Hypothesis Hlba : 0 <= lba /\ lba + cnt <= MAX_LBA + 1.
Hypothesis Hbuf : 0 <= buf /\ buf + 512 * cnt <= 2 ^ 32.

Definition into_buffer (b : Z) : Prop := buf <= b < buf + 512 * cnt.

(** The buffer lies outside the channel, the ready list, the TSS and the pages
    of the tasks; an access to the data port yields as many bytes as asked for. *)
Hypothesis Hout : forall b, into_buffer b ->
  buffer_byte b /\ ~ (sym_tss <= b < sym_tss + tss_t.sizeof).
Hypothesis Hlen : forall tr n, length (dev_insw tr port n) = n.

(** The sectors of one round. *)
Definition chunk (off : Z) : Z := Z.min 256 (cnt - off).

Definition asks (off : Z) : list event :=
  if off <? cnt then request no (u32 (lba + off)) (chunk off) CMD_READ_SECTOR else [].

(** Everything but the buffer that a transfer writes to. *)
Definition control_byte (b : Z) : Prop :=
  chan_bytes b \/ sem_frame tasks (ch + ide_channel.sem) b \/ sem_frame tasks (ch + ide_channel.mutex) b.

Definition status_of (s : machine) : Z := u8 (dev_inb (trace s) (port + 7)).
Definition data_of (s : machine) (off : Z) : list Z :=
  map u8 (dev_insw (trace s ++ [InB (port + 7) (status_of s)]) port (Z.to_nat (512 * chunk off))).

(** From [s], the interrupt of the round at [off] having come, to [s']: the
    status and the data are read, the data is stored in its place in the
    buffer, and the next round is asked for. *)
Definition received (off : Z) (s s' : machine) : Prop :=
  get_bytes (mem s') (buf + 512 * off) (Z.to_nat (512 * chunk off)) = data_of s off /\
  (forall b, into_buffer b -> ~ (buf + 512 * off <= b < buf + 512 * (off + chunk off)) ->
     get8 (mem s') b = get8 (mem s) b) /\
  ports (trace s') = ports (trace s) ++ [InB (port + 7) (status_of s); InSW port (data_of s off)]
    ++ asks (off + chunk off).

(** The rest of a transfer by thread [h], from sector [off] on: as long as
    sectors are missing the thread sleeps, with the channel held and one
    interrupt expected, and goes on with the next round once that interrupt has
    been counted and the disk is ready; then the channel is free. *)
Inductive reading (h : Z) : Z -> res unit -> Prop :=
  | reading_asks off a wm s k :
      0 <= off < cnt -> s_cur a = h ->
      channel_state (abs_block idle BLOCKED a) 0 [h] h wm s -> intr_flag s = false ->
      get8 (mem s) (ch + ide_channel.waiting_intr) = 1 ->
      (forall a' wm' s'', channel_state a' 1 [] h wm' s'' -> s_cur a' = h -> intr_flag s'' = false ->
         data_ready (trace s'') -> received off s'' (last_state (k s''))) ->
      (forall a' wm' s'', channel_state a' 1 [] h wm' s'' -> s_cur a' = h -> intr_flag s'' = false ->
         data_ready (trace s'') -> reading h (off + chunk off) (k s'')) ->
      reading h off (Switch s k)
  | reading_done off a wm s :
      cnt <= off -> channel_state a 0 [] NULL wm s -> reading h off (Ok tt s).

(** The rest of a round, once there has been an interrupt. *)
Definition take_data (off : Z) : K (Z + unit) :=
  let d := drive no in
  let curr_cnt := if u32 (off + 256) <? cnt then 256 else u32 (cnt - off) in
  ready ← spin_wait d;
  when (negb ready) (
    sp ← gets Machine.esp;
    let error := local_addr "ide_read.error" sp in
    call_sprintf error (str_lit ("%s read sector %d failed!" +:+ nl)) [d + disk.name; lba];;
    panic_message "device/disk.c" 211 "ide_read" error);;
  disk_read d (u32 (buf + off * BYTES_PER_SECTOR)) curr_cnt;;
  mret (inl (u32 (off + curr_cnt))).

Lemma chunk_code off : 0 <= off < cnt ->
  (if u32 (off + 256) <? cnt then 256 else u32 (cnt - off)) = chunk off /\
  1 <= chunk off <= 256 /\ off + chunk off <= cnt /\ sectors_of (chunk off) = chunk off /\
  u32 (off + chunk off) = off + chunk off.
Proof.
  intros Ho. assert (H1 : 1 <= chunk off <= 256 /\ off + chunk off <= cnt) by (unfold chunk; lia).
  split_and!; [|lia..| |apply u32_small; unfold is_u32; lia].
  - unfold chunk. rewrite (u32_small (off + 256)), (u32_small (cnt - off)) by (unfold is_u32; lia).
    destruct (Z.ltb_spec (off + 256) cnt); lia.
  - unfold sectors_of. destruct (decide (chunk off = 256)) as [->|Hne]; [done|].
    rewrite u8_small by (unfold is_u8; lia). by rewrite (proj2 (Z.eqb_neq _ _)) by lia.
Qed.

Lemma control_misses b : into_buffer b -> ~ control_byte b.
Proof.
  intros Hb. destruct (Hout b Hb) as [(B1 & B2 & B3) B4].
  assert (Hsf : forall x, ch <= x -> x + 20 <= ch + ide_channel.sizeof -> ~ sem_frame tasks x b).
  { intros x Hx Hx2 [Hf|[Hf|[Hf|Hf]]]; [|done| |].
    - apply B1. unfold chan_bytes. chan. lia.
    - apply B4. unfold esp0_bytes in Hf. chan. lia.
    - apply Exists_exists in Hf as (t & Ht & Hf). by apply (B3 t). }
  intros [Hc|[Hf|Hf]]; [done| |]; by apply Hsf in Hf; [|chan; lia..].
Qed.

Lemma sem_frame_control b : sem_frame tasks (ch + ide_channel.sem) b -> control_byte b.
Proof. unfold control_byte. tauto. Qed.

(** The status is read and the data stored. *)
Lemma take_data_run a v ws h wm s off :
  0 <= off < cnt -> channel_state a v ws h wm s -> data_ready (trace s) ->
  exists s', take_data off s = Ok (inl (off + chunk off)) s' /\ channel_state a v ws h wm s' /\
    mem s' = put_bytes (mem s) (buf + 512 * off) (data_of s off) /\
    trace s' = trace s ++ [InB (port + 7) (status_of s); InSW port (data_of s off)].
Proof.
  intros Ho Hst [R1 R2]. destruct (chunk_code off Ho) as (C1 & C2 & C3 & C4 & C5).
  pose proof (spin_wait_run a v ws h wm s no Hst Hno R1 R2) as E1.
  fold (status_of s) in E1. set (s1 := log (InB (port + 7) (status_of s)) s) in *.
  assert (Hst1 : channel_state a v ws h wm s1) by (by apply channel_log).
  destruct (cs_disks _ _ _ _ _ _ Hst1 no Hno) as [D1 _].
  assert (E2 : disk_read (drive no) (u32 (buf + off * BYTES_PER_SECTOR)) (chunk off) s1
    = Ok tt (set_mem (put_bytes (mem s) (buf + 512 * off) (data_of s off)) (log (InSW port (data_of s off)) s1))).
  { unfold disk_read, RW_DATA. erewrite bind_ok by reflexivity. cbv beta. rewrite D1.
    rewrite (bind_ok _ _ _ _ _ (drive_port a v ws h wm s1 Hst1 0)), Z.add_0_r, C4.
    unfold insw, emit, modify, BYTES_PER_SECTOR.
    replace (2 * (chunk off * 512 / 2)) with (512 * chunk off)
      by (replace (chunk off * 512) with (chunk off * 256 * 2) by lia; rewrite Z.div_mul by lia; lia).
    rewrite (u32_small (buf + off * 512)) by (unfold is_u32; lia).
    replace (off * 512) with (512 * off) by lia. reflexivity. }
  eexists. split_and!.
  - unfold take_data. rewrite C1. cbv zeta. rewrite (bind_ok _ _ _ _ _ E1).
    change (when (negb true) _) with skip. erewrite bind_ok by reflexivity. cbv beta.
    rewrite (bind_ok _ _ _ _ _ E2), C5. reflexivity.
  - eapply (channel_write _ _ _ _ _ _ _ into_buffer); [by apply channel_log| |intros b Hb; right; by apply Hout].
    intros b Hb. apply get8_put_bytes_ne. unfold data_of. rewrite length_map, Hlen. unfold into_buffer in Hb. lia.
  - done.
  - cbn. by rewrite <- app_assoc.
Qed.

(** The code of the loop. *)
Lemma ide_read_body a wm s s1 :
  channel_state a 0 [] NULL wm s -> mutex_lock (ch + ide_channel.mutex) s = Ok tt s1 ->
  channel_state a 0 [] (s_cur a) wm s1 ->
  exists b, ide_read (drive no) lba buf cnt s
      = (while_ b 0;; mutex_unlock (ch + ide_channel.mutex)) (log (selected no) s1) /\
    (forall off, 0 <= off < cnt -> b off =
      (count_out (drive no) (chunk off);; select_sector (drive no) (u32 (lba + off));;
       send_cmd ch CMD_READ_SECTOR;; sem_down (ch + ide_channel.sem);; take_data off)) /\
    (forall off s0, cnt <= off -> b off s0 = Ok (inr tt) s0).
Proof.
  intros Hst E1 Hst1. destruct (cs_disks _ _ _ _ _ _ Hst no Hno) as [D1 _]. eexists. split_and!.
  - unfold ide_read. erewrite bind_ok by reflexivity. cbv beta. rewrite D1, (bind_ok _ _ _ _ _ E1).
    exact (bind_ok _ _ _ _ _ (select_disk_run a 0 [] (s_cur a) wm s1 no Hst1 Hno)).
  - intros off Ho. cbv beta zeta. rewrite (proj2 (Z.ltb_lt off cnt)) by lia.
    unfold take_data. cbv zeta. by rewrite (proj1 (chunk_code off Ho)).
  - intros off s0 Ho. cbv beta. by rewrite (proj2 (Z.ltb_ge off cnt)) by lia.
Qed.

Section Loop.
Context (h : Z) (b : Z -> K (Z + unit)).
Hypothesis Hh : h <> NULL /\ h <> idle.
Hypothesis Hask : forall off, 0 <= off < cnt -> b off =
  (count_out (drive no) (chunk off);; select_sector (drive no) (u32 (lba + off));;
   send_cmd ch CMD_READ_SECTOR;; sem_down (ch + ide_channel.sem);; take_data off).
Hypothesis Hend : forall off s, cnt <= off -> b off s = Ok (inr tt) s.

(** The loop is left with the channel free. *)
Lemma read_ends n off a wm s :
  cnt <= off -> channel_state a 0 [] h wm s ->
  let r := (loop_n b (S n) off;; mutex_unlock (ch + ide_channel.mutex)) s in
  reading h off r /\ changed_only control_byte (mem s) (mem (last_state r)) /\
  ports (trace (last_state r)) = ports (trace s) ++ asks off.
Proof.
  intros Ho Hst r. destruct (channel_unlock a 0 [] h wm s Hst (proj1 Hh)) as (s' & E & Hst' & _ & _ & Ht & Hc).
  assert (Er : r = Ok tt s').
  { unfold r. rewrite loop_n_succ, bind_assoc, (bind_ok _ _ _ _ _ (Hend off s Ho)). exact E. }
  rewrite Er. cbn [last_state]. split_and!.
  - by eapply reading_done.
  - eapply changed_weaken; [exact Hc|]. intros x [Hx|Hx]; unfold control_byte; [tauto|].
    left. unfold owner_bytes in Hx. chan. lia.
  - unfold asks. by rewrite Ht, (proj2 (Z.ltb_ge off cnt)), app_nil_r by lia.
Qed.

(** A round up to the point where the thread sleeps. *)
Lemma read_asks n off a wm s :
  0 <= off < cnt -> channel_state a 0 [] h wm s -> s_cur a = h ->
  exists s' k, (loop_n b (S n) off;; mutex_unlock (ch + ide_channel.mutex)) s = Switch s' k /\
    channel_state (abs_block idle BLOCKED a) 0 [h] h wm s' /\ intr_flag s' = false /\
    get8 (mem s') (ch + ide_channel.waiting_intr) = 1 /\
    changed_only control_byte (mem s) (mem s') /\ ports (trace s') = ports (trace s) ++ asks off /\
    (forall s'', intr_flag s'' = false -> exists m (ie : bool), k s''
       = (sem_down_from (S m) (ch + ide_channel.sem) (if ie then INTR_ON else INTR_OFF);;
          r ← take_data off; (match r with inl x => loop_n b n x | inr u => mret u end);;
          mutex_unlock (ch + ide_channel.mutex)) s'').
Proof.
  intros Ho Hst Hcur. destruct (chunk_code off Ho) as (C1 & C2 & C3 & C4 & C5).
  assert (Hl : 0 <= u32 (lba + off) <= MAX_LBA).
  { change MAX_LBA with 163839 in *. rewrite u32_small; unfold is_u32; lia. }
  assert (Hcmd : is_u8 CMD_READ_SECTOR) by done.
  destruct (request_run a 0 [] h wm s no _ (chunk off) _ Hst Hno Hl Hcmd)
    as (s1 & E1 & Hst1 & Ht1 & Hm1 & Hf1 & Hv1).
  assert (Hid : s_cur a <> idle) by (rewrite Hcur; apply Hh).
  destruct (channel_wait a [] h wm s1 Hst1 Hid) as (m & s' & k & E2 & Hst' & Hf' & Hp' & Hw' & Hc' & Hm & Hk).
  assert (Eb : b off s = Switch s' (fun s'' => bind_res (k s'') (fun _ => take_data off))).
  { rewrite (Hask off Ho), E1. exact (bind_switch _ _ _ _ _ E2). }
  rewrite Hcur in Hst'. eexists s', _. split; [|split_and!; [exact Hst'|done| | | |]].
  - rewrite loop_n_succ, bind_assoc. exact (bind_switch _ _ _ _ _ Eb).
  - rewrite Hw', Hm1, get8_put8. by rewrite decide_True.
  - eapply changed_trans; [|by eapply changed_weaken; [exact Hc'|apply sem_frame_control]].
    rewrite Hm1. apply changed_put8. left. chan. lia.
  - rewrite Hp', Ht1, ports_app, request_ports. unfold asks. by rewrite (proj2 (Z.ltb_lt off cnt)) by lia.
  - intros s'' Hoff. destruct m as [|m]; [lia|]. exists m, (intr_flag s1). cbv beta.
    by rewrite (Hk s'' Hoff), bind_res_assoc.
Qed.

Lemma read_rounds : forall m n off a wm s,
  cnt - off <= Z.of_nat m -> (m < n)%nat -> 0 <= off ->
  channel_state a 0 [] h wm s -> s_cur a = h ->
  let r := (loop_n b n off;; mutex_unlock (ch + ide_channel.mutex)) s in
  reading h off r /\ changed_only control_byte (mem s) (mem (last_state r)) /\
  ports (trace (last_state r)) = ports (trace s) ++ asks off.
Proof.
  induction m as [|m IH]; intros n off a wm s Hm Hn Ho Hst Hcur r;
    (destruct n as [|n]; [lia|]); [by eapply read_ends; [lia|]|].
  destruct (decide (off < cnt)) as [Hlt|Hge]; [|by eapply read_ends; [lia|]].
  destruct (read_asks n off a wm s ltac:(lia) Hst Hcur) as (s' & k & E & Hst' & Hf & Hw & Hc & Hp & Hk).
  destruct (chunk_code off ltac:(lia)) as (_ & C2 & C3 & _ & _).
  assert (Hback : forall a' wm' s'', channel_state a' 1 [] h wm' s'' -> s_cur a' = h -> intr_flag s'' = false ->
    data_ready (trace s'') -> received off s'' (last_state (k s'')) /\ reading h (off + chunk off) (k s'')).
  { intros a' wm' s'' Hs'' Hcur' Hoff Hr. destruct (Hk s'' Hoff) as (p & ie & ->).
    destruct (channel_resume p ie a' 1 [] h wm' s'' Hs'' ltac:(lia) Hoff) as (s2 & E2 & Hst2 & _ & _ & Ht2 & Hc2).
    assert (Hr2 : data_ready (trace s2)) by (by rewrite Ht2).
    destruct (take_data_run a' 0 [] h wm' s2 off ltac:(lia) Hst2 Hr2) as (s3 & E3 & Hst3 & Hm3 & Ht3).
    rewrite (bind_ok _ _ _ _ _ E2), (bind_ok _ _ _ _ _ E3).
    destruct (IH n (off + chunk off) a' wm' s3 ltac:(lia) ltac:(lia) ltac:(lia) Hst3 Hcur') as (Hrd & Hch & Hpo).
    split; [|exact Hrd].
    assert (Hd : data_of s2 off = data_of s'' off /\ status_of s2 = status_of s'').
    { unfold data_of, status_of. by rewrite Ht2. }
    destruct Hd as [Hd Hs]. rewrite Hd in Hm3. rewrite Hd, Hs, Ht2 in Ht3.
    assert (Hl : length (data_of s'' off) = Z.to_nat (512 * chunk off)) by (unfold data_of; by rewrite length_map, Hlen).
    split_and!.
    - rewrite (get_bytes_ext (mem s3)).
      + rewrite Hm3, <- Hl. apply get_put_bytes. unfold data_of. apply Forall_map, Forall_true. intros x. apply u8_range.
      + intros x Hx. apply Hch, control_misses. unfold into_buffer. lia.
    - intros x Hx Hxo. rewrite (Hch x) by (by apply control_misses). rewrite Hm3, get8_put_bytes_ne by (rewrite Hl; lia).
      apply Hc2. intros Hf2. eapply control_misses; [exact Hx|by apply sem_frame_control].
    - rewrite Hpo, Ht3, ports_app, <- app_assoc. reflexivity. }
  subst r. rewrite E. split_and!; [|exact Hc|exact Hp].
  eapply reading_asks; [lia|exact Hcur|exact Hst'|done|done| |];
    intros a' wm' s'' G1 G2 G3 G4; by apply (Hback a' wm' s'').
Qed.
End Loop.

Lemma ide_read_run a wm s :
  channel_state a 0 [] NULL wm s -> s_cur a <> idle ->
  let r := ide_read (drive no) lba buf cnt s in
  reading (s_cur a) 0 r /\
  ports (trace (last_state r)) = ports (trace s) ++ selected no :: asks 0.
Proof.
  intros Hst Hid r.
  destruct (channel_lock a 0 [] wm s Hst) as (s1 & E1 & Hst1 & Hne & _ & _ & Ht1 & _).
  destruct (ide_read_body a wm s s1 Hst E1 Hst1) as (b & Eb & Hask & Hend).
  destruct (while_loop_n b) as (n & Hn & El). unfold r. rewrite Eb, El.
  destruct (read_rounds (s_cur a) b (conj Hne Hid) Hask Hend (Z.to_nat cnt) (S n) 0 a wm (log (selected no) s1))
    as (H1 & _ & H2); [lia|lia|lia|by apply channel_log|done|].
  split; [exact H1|]. rewrite H2. change (trace (log (selected no) s1)) with (trace s1 ++ [selected no]).
  rewrite ports_app, Ht1, <- app_assoc. reflexivity.
Qed.
End Read.

(** *** The interrupt *)

Lemma irq_no i : i = 0 \/ i = 1 -> u8 (0x2e + i - 0x2e) = i /\ ((i =? 0) || (i =? 1)) = true.
Proof. by intros [->| ->]. Qed.

(** The handler finds the channel by the interrupt's number.  An expected
    interrupt is counted, which wakes who waits for it, and acknowledged by a
    read of the status. *)
Lemma disk_intr_run i a v ws h wm s :
  i = 0 \/ i = 1 -> ch = sym_channels + i * ide_channel.sizeof ->
  channel_state a v ws h wm s -> v < 255 -> get8 (mem s) (ch + ide_channel.waiting_intr) <> 0 ->
  exists s' st, disk_intr_handler (0x2e + i) s = Ok tt s' /\
    channel_state (abs_wake ws a) (v + 1) (tl ws) h wm s' /\
    get8 (mem s') (ch + ide_channel.waiting_intr) = 0 /\ vars s' = vars s /\
    intr_flag s' = flag_after (intr_flag s) /\ trace s' = trace s ++ [InB (port + 7) st] /\
    changed_only (fun b => sem_frame tasks (ch + ide_channel.sem) b \/ b = ch + ide_channel.waiting_intr)
      (mem s) (mem s').
Proof.
  intros Hi Hch Hst Hv Hw. destruct (irq_no i Hi) as [E0 E0'].
  destruct (channel_up a v ws h wm s Hst Hv) as (s1 & E1 & Hst1 & Hf1 & Hv1 & Ht1 & Hc1).
  set (s2 := set_mem (put8 (mem s1) (ch + ide_channel.waiting_intr) 0) s1).
  assert (Hc2 : changed_only (fun b => b = ch + ide_channel.waiting_intr) (mem s1) (mem s2))
    by (by apply changed_put8).
  assert (Hst2 : channel_state (abs_wake ws a) (v + 1) (tl ws) h wm s2)
    by (eapply channel_write; [exact Hst1|exact Hc2|auto]).
  eexists _, _. split; [|split_and!].
  - unfold disk_intr_handler. rewrite E0, E0', <- Hch. erewrite bind_ok by reflexivity. cbv beta zeta.
    erewrite bind_ok by reflexivity. cbv beta. rewrite (proj2 (Z.eqb_neq _ _) Hw). cbn [negb when].
    rewrite (bind_ok _ _ _ _ _ E1). erewrite bind_ok by reflexivity. cbv beta. unfold R_STATUS_W_CMD.
    rewrite (bind_ok _ _ _ _ _ (drive_port _ _ _ _ _ s2 Hst2 7)). reflexivity.
  - by apply channel_log.
  - cbn. by rewrite get8_put8, decide_True.
  - exact Hv1.
  - exact Hf1.
  - cbn. by rewrite Ht1.
  - eapply changed_trans; (eapply changed_weaken; [eassumption|auto]).
Qed.

(** An interrupt nobody asked for is dropped. *)
Lemma disk_intr_stray_run i s :
  i = 0 \/ i = 1 -> ch = sym_channels + i * ide_channel.sizeof ->
  get8 (mem s) (ch + ide_channel.waiting_intr) = 0 -> disk_intr_handler (0x2e + i) s = Ok tt s.
Proof.
  intros Hi Hch Hw. destruct (irq_no i Hi) as [E0 E0'].
  unfold disk_intr_handler. rewrite E0, E0', <- Hch. erewrite bind_ok by reflexivity. cbv beta zeta.
  erewrite bind_ok by reflexivity. cbv beta. by rewrite Hw.
Qed.

(** *** Initialisation *)

(** As [ide_channel_init] leaves it, the channel is free and no interrupt has
    come. *)
Lemma channel_init_run a s :
  inv tasks idle a -> runs tasks idle a s ->
  get16 (mem s) (ch + ide_channel.start_port) = port ->
  (forall no, no = 0 \/ no = 1 ->
     get32 (mem s) (drive no + disk.channel) = ch /\ get8 (mem s) (drive no + disk.no) = no) ->
  exists s', (mutex_init (ch + ide_channel.mutex);; sem_init (ch + ide_channel.sem) 0) s = Ok tt s' /\
    channel_state a 0 [] NULL [] s' /\ trace s' = trace s.
Proof.
  intros Hi Hr Hp Hd. pose proof Hhome as [[G1 G1'] G2 G3 G4].
  assert (HM : sem_home tasks (ch + ide_channel.mutex)) by (apply sem_home_in; chan; lia).
  assert (HS : sem_home tasks (ch + ide_channel.sem)) by (apply sem_home_in; chan; lia).
  set (m0 := put8 (put32 (mem s) (ch + ide_channel.mutex + mutex_t.holder) NULL)
    (ch + ide_channel.mutex + mutex_t.recursion) 0).
  destruct (sem_init_run tasks Hlay _ HM 1 (set_mem m0 s) ltac:(lia)) as (m1 & E1 & S1 & C1).
  destruct (sem_init_run tasks Hlay _ HS 0 (set_mem m1 (set_mem m0 s)) ltac:(lia)) as (m2 & E2 & S2 & C2).
  msimpl. assert (C0 : forall b, ~ (ch + 40 <= b < ch + 45) -> get8 m0 b = get8 (mem s) b).
  { intros b Hb. unfold m0. rewrite get8_put8_ne, get8_put32_ne by (chan; lia). done. }
  assert (Hk : forall b, ~ (ch <= b < ch + 45) -> get8 m2 b = get8 (mem s) b).
  { intros b Hb. rewrite C2, C1, C0 by (chan; lia). done. }
  assert (Hk0 : forall b, ch + 40 <= b < ch + 45 -> get8 m2 b = get8 m0 b).
  { intros b Hb. rewrite C2, C1 by (chan; lia). done. }
  exists (set_mem m2 s). split_and!; [|constructor|done].
  - unfold mutex_init. rewrite bind_assoc. erewrite bind_ok by reflexivity. cbv beta.
    rewrite bind_assoc. erewrite bind_ok by reflexivity. cbv beta.
    replace (ch + ide_channel.mutex + mutex_t.sem) with (ch + ide_channel.mutex) by (unfold mutex_t.sem; lia).
    match goal with |- (_ ≫= _) ?x = _ => change x with (set_mem m0 s) end.
    rewrite (bind_ok _ _ _ _ _ E1). exact E2.
  - constructor; [done| | |].
    + eapply (runs_frame tasks idle a s (fun b => ch <= b < ch + 45)); [done|done|intros b; apply Hk|].
      intros b Hb. split; [chan; unfold list.sizeof in *; lia|]. intros t Hin. specialize (G2 t Hin). chan. lia.
    + constructor; [by intros ? ?%not_elem_of_nil|constructor|apply not_elem_of_nil].
    + intros e He. rewrite !elem_of_cons, elem_of_nil in He. destruct He as [->|[->|[]]]; [exact S2|].
      cbn [busy_sem sv_sem sv_value sv_ws]. rewrite decide_True by done.
      eapply sem_rep_frame; [exact C2|exact HM| |by intros t b ?%not_elem_of_nil|exact S1].
      intros b Hb. chan. lia.
  - msimpl. transitivity (get32 m0 (ch + ide_channel.mutex + mutex_t.holder)).
    + apply get32_ext. intros b Hb. apply Hk0. chan. lia.
    + unfold m0. rewrite get32_put8_ne by (chan; lia). by rewrite get32_put32_eq.
  - msimpl. rewrite Hk0 by (chan; lia). unfold m0. rewrite get8_put8_eq. by rewrite decide_True.
  - msimpl. rewrite <- Hp. apply get16_ext. intros b Hb. apply Hk. chan. lia.
  - intros no Hno. msimpl. destruct (Hd no Hno) as [D1 D2]. split.
    + etransitivity; [|exact D1]. apply get32_ext. intros b Hb. apply Hk. chan. destruct Hno; lia.
    + etransitivity; [|exact D2]. apply Hk. chan. destruct Hno; lia.
Qed.
End Channel.

(** ** The contract *)
Section Contract.
Context {PL : Platform} {LK : Linker} (tasks : list Z) (idle : Z) (ch port no : Z).
Hypothesis Hlay : layout tasks.
Hypothesis Hhome : channel_home tasks ch.

(** C22: ide_read is a conversation with the disk: it selects the drive and then, in
    rounds of at most 256 sectors, asks for the next sectors, sleeps with the
    channel locked until the interrupt has been counted, checks the status and
    stores the data at its place in the buffer; when all of [cnt] sectors are
    there it gives the channel back. *)
Theorem ide_read_protocol lba buf cnt a wm s :
  no = 0 \/ no = 1 -> 0 <= cnt < 2 ^ 31 -> 0 <= lba /\ lba + cnt <= MAX_LBA + 1 ->
  0 <= buf /\ buf + 512 * cnt <= 2 ^ 32 ->
  (forall b, into_buffer buf cnt b -> buffer_byte tasks ch b /\ ~ (sym_tss <= b < sym_tss + tss_t.sizeof)) ->
  (forall tr n, length (dev_insw tr port n) = n) ->
  channel_state tasks idle ch port a 0 [] NULL wm s -> s_cur a <> idle ->
  let r := ide_read (drive ch no) lba buf cnt s in
  reading tasks idle ch port no lba buf cnt (s_cur a) 0 r /\
  ports (trace (last_state r)) = ports (trace s) ++ selected port no :: asks port no lba cnt 0.
Proof.
  intros Hno Hcnt Hlba Hbuf Hout Hlen Hst Hid.
  exact (ide_read_run tasks idle Hlay ch port Hhome no lba buf cnt Hno Hcnt Hlba Hbuf Hout Hlen a wm s Hst Hid).
Qed.

(** C24: ide_write gives one command, whatever the size of the request: the
    exchanged branches ask for 256 sectors when there are at most that many to
    write, and for [cnt] modulo 256 (0 standing for 256) when there are more.
    That many sectors are sent from the buffer; the loop ends after the interrupt. *)
Theorem ide_write_one_command lba buf cnt a wm s :
  let n := sectors_of (write_count cnt) in
  let asked := selected port no :: request port no lba (write_count cnt) CMD_WRITE_SECTOR in
  no = 0 \/ no = 1 -> 0 < cnt < 2 ^ 31 -> 0 <= lba <= MAX_LBA -> is_u32 buf ->
  (forall b, buf <= b < buf + 512 * n -> ~ chan_bytes ch b) ->
  channel_state tasks idle ch port a 0 [] NULL wm s -> s_cur a <> idle ->
  data_ready port (trace s ++ asked) ->
  exists s' k st, ide_write (drive ch no) lba buf cnt s = Switch s' k /\
    channel_state tasks idle ch port (abs_block idle BLOCKED a) 0 [s_cur a] (s_cur a) wm s' /\
    get8 (mem s') (ch + ide_channel.waiting_intr) = 1 /\
    ports (trace s') = ports (trace s) ++ asked ++
      [InB (port + 7) st; OutSW port (get_bytes (mem s) buf (Z.to_nat (512 * n)))] /\
    (forall a' v wm' s'', channel_state tasks idle ch port a' v [] (s_cur a) wm' s'' -> 0 < v ->
       intr_flag s'' = false ->
       exists s3, k s'' = Ok tt s3 /\
         channel_state tasks idle ch port (abs_wake wm' a') (v - 1) [] NULL (tl wm') s3 /\
         ports (trace s3) = ports (trace s'')) /\
    n = (if (cnt <=? 256) || (cnt mod 256 =? 0) then 256 else cnt mod 256).
Proof.
  intros n asked Hno Hcnt Hlba Hbuf Hap Hst Hid Hr.
  destruct (ide_write_run tasks idle Hlay ch port Hhome a wm s no lba buf cnt Hst Hno Hid Hlba Hcnt Hbuf Hap Hr)
    as (s' & k & st & H1 & H2 & _ & H4 & H5 & H6).
  exists s', k, st. split_and!; [done..|].
  unfold n, write_count, sectors_of. destruct (Z.leb_spec cnt 256).
  - by rewrite (proj2 (Z.ltb_ge 256 cnt)) by lia.
  - by rewrite (proj2 (Z.ltb_lt 256 cnt)) by lia.
Qed.

(** C23: The interrupt handler counts an interrupt that a command has announced,
    which makes the thread that waits for it ready, takes the announcement
    back and reads the status register, so that the next command can be given;
    it drops an interrupt nobody has announced. *)
Theorem disk_intr_handler_correct a v ws h wm s :
  no = 0 \/ no = 1 -> ch = sym_channels + no * ide_channel.sizeof ->
  channel_state tasks idle ch port a v ws h wm s -> v < 255 ->
  let announced := get8 (mem s) (ch + ide_channel.waiting_intr) in
  (announced <> 0 -> exists s' st, disk_intr_handler (0x2e + no) s = Ok tt s' /\
     channel_state tasks idle ch port (abs_wake ws a) (v + 1) (tl ws) h wm s' /\
     get8 (mem s') (ch + ide_channel.waiting_intr) = 0 /\ trace s' = trace s ++ [InB (port + 7) st]) /\
  (announced = 0 -> disk_intr_handler (0x2e + no) s = Ok tt s).
Proof.
  intros Hno Hch Hst Hv announced. split; intros Hw; [|by eapply disk_intr_stray_run].
  destruct (disk_intr_run tasks idle Hlay ch port Hhome no a v ws h wm s Hno Hch Hst Hv Hw)
    as (s' & st & E & H1 & H2 & _ & _ & H3 & _). by exists s', st.
Qed.
End Contract.

(** ** Concrete instances *)

(** The first channel, with both its disks. *)
Definition demo_ch : Z := 0xc0020000.
Definition demo_channel_mem : memory :=
  put8 (put32 (put8 (put32 (put16 demo_sched_mem (demo_ch + 48) 0x1f0)
    (demo_ch + 68) demo_ch) (demo_ch + 72) 0) (demo_ch + 852) demo_ch) (demo_ch + 856) 1.

Lemma demo_channel_home : channel_home demo_tasks demo_ch.
Proof.
  constructor; [split|..]; try (intros t Ht; revert t Ht; solve_tasks);
    unfold tss_t.sizeof, ide_channel.sizeof, demo_main, demo_thread, demo_idle, demo_ch;
    cbn [sym_ready_thread_list sym_tss demo_linker]; lia.
Qed.

Lemma demo_channel : exists s, channel_state demo_tasks demo_idle demo_ch 0x1f0 demo_abs 0 [] NULL [] s.
Proof.
  destruct (channel_init_run demo_tasks demo_idle demo_layout demo_ch 0x1f0 demo_channel_home demo_abs
    (set_mem demo_channel_mem demo_sched_machine)) as (s & _ & H & _); [apply demo_inv| |by vm_compute| |by exists s].
  - eapply (runs_frame demo_tasks demo_idle _ _ (chan_bytes demo_ch)); [apply demo_layout|apply demo_runs| |].
    + intros b Hb. unfold demo_channel_mem, put16. unfold chan_bytes, ide_channel.sizeof in Hb.
      rewrite !get8_put8_ne, get8_put32_ne, get8_put8_ne, get8_put32_ne, !get8_put8_ne by lia. done.
    + destruct demo_channel_home as [_ G2 G3 _]. intros b Hb. unfold chan_bytes in Hb.
      split; [unfold list.sizeof; lia|]. intros t Hin. specialize (G2 t Hin). lia.
  - intros no [->| ->]; by vm_compute.
Qed.

Lemma demo_buffer cnt b : 0 <= cnt <= 256 -> into_buffer 0x800000 cnt b ->
  buffer_byte demo_tasks demo_ch b /\ ~ (sym_tss <= b < sym_tss + tss_t.sizeof).
Proof.
  intros Hc Hb. unfold into_buffer in Hb. cbn [sym_tss demo_linker].
  split; [|unfold tss_t.sizeof; lia]. split_and!.
  - unfold chan_bytes, demo_ch. lia.
  - cbn [sym_ready_thread_list demo_linker]. lia.
  - solve_tasks; unfold demo_main, demo_thread, demo_idle; lia.
Qed.

Lemma ide_read_protocol_witness : exists s,
  let r := ide_read (drive demo_ch 0) 2 0x800000 1 s in
  reading demo_tasks demo_idle demo_ch 0x1f0 0 2 0x800000 1 (s_cur demo_abs) 0 r /\
  ports (trace (last_state r)) = ports (trace s) ++ selected 0x1f0 0 :: asks 0x1f0 0 2 1 0.
Proof.
  destruct demo_channel as [s Hs]. exists s.
  apply (ide_read_protocol demo_tasks demo_idle demo_ch 0x1f0 0 demo_layout demo_channel_home 2 0x800000 1
    demo_abs [] s); [by left|done|done|done| | |exact Hs|done].
  - intros b. by apply demo_buffer.
  - intros tr n. apply length_replicate.
Defined.

Lemma ide_write_one_command_witness : exists s s' k st,
  ide_write (drive demo_ch 0) 2 0x800000 1 s = Switch s' k /\
  get8 (mem s') (demo_ch + ide_channel.waiting_intr) = 1 /\
  ports (trace s') = ports (trace s) ++ (selected 0x1f0 0 :: request 0x1f0 0 2 256 CMD_WRITE_SECTOR) ++
    [InB 0x1f7 st; OutSW 0x1f0 (get_bytes (mem s) 0x800000 (Z.to_nat (512 * 256)))].
Proof.
  destruct demo_channel as [s Hs]. exists s.
  destruct (ide_write_one_command demo_tasks demo_idle demo_ch 0x1f0 0 demo_layout demo_channel_home 2 0x800000 1
    demo_abs [] s) as (s' & k & st & H1 & _ & H2 & H3 & _);
    [by left|done|done|done| |exact Hs|done|by split|by exists s', k, st].
  intros b Hb. apply (demo_buffer 256); [lia|exact Hb].
Defined.

Lemma disk_intr_handler_correct_witness : exists s s' st,
  disk_intr_handler 0x2e s = Ok tt s' /\
  channel_state demo_tasks demo_idle demo_ch 0x1f0
    (abs_wake [s_cur demo_abs] (abs_block demo_idle BLOCKED demo_abs)) 1 [] (s_cur demo_abs) [] s' /\
  get8 (mem s') (demo_ch + ide_channel.waiting_intr) = 0 /\ trace s' = trace s ++ [InB 0x1f7 st].
Proof.
  destruct demo_channel as [s0 Hs0].
  destruct (ide_write_run demo_tasks demo_idle demo_layout demo_ch 0x1f0 demo_channel_home demo_abs [] s0
    0 2 0x800000 1 Hs0) as (s & k & st0 & _ & Hs & _ & Hw & _);
    [by left|done|done|done|done| |by split|].
  { intros b Hb. apply (demo_buffer 256); [lia|exact Hb]. }
  destruct (proj1 (disk_intr_handler_correct demo_tasks demo_idle demo_ch 0x1f0 0 demo_layout demo_channel_home
    _ 0 [s_cur demo_abs] (s_cur demo_abs) [] s (or_introl eq_refl) eq_refl Hs eq_refl))
    as (s' & st & E & H1 & H2 & H3); [by rewrite Hw|].
  by exists s, s', st.
Defined.
