(* ===== verification/Entry.v ===== *)
(** * Interrupt entry (kernel/kernel.S: VECTOR, intr_exit)

    The stub every gate of the descriptor table leads to: it acknowledges the
    interrupt at both controllers, calls the handler registered for its vector
    and returns to the interrupted code. *)

From S2P Require Import Prelude Machine Concrete Interrupt CString DList Paging Tss Sched Lock Sems IoQueue Memory Malloc Idt Timer Console Keyboard Syscall Stdio Disk.

#[local] Open Scope Z_scope.

(** The stubs kernel.S defines: vectors 0 to 0x2f. *)
Definition ENTRY_CNT : Z := 0x30.

(** The vectors declared with [ERROR_CODE]; the others push a zero in its place. *)
Definition ERROR_CODE : list Z := [0x08; 0x0a; 0x0b; 0x0d; 0x0e; 0x11; 0x18; 0x1a; 0x1b; 0x1d; 0x1e].

(** Words on the stack between the interrupted code's and what [iretd] takes,
    given how many the processor pushes for an error code: the stub pushes a
    zero, four segment registers, eight registers and the vector; [intr_exit]
    takes off one, eight, four and one. *)
Definition words_left (vec error_words : Z) : Z :=
  let pushed := error_words + (if decide (vec ∈ ERROR_CODE) then 0 else 1) + 4 + 8 + 1 in
  pushed - (1 + 8 + 4 + 1).

Section Entry.
Context {PL : Platform} {LK : Linker}.

(** [call [idt_table + vec * 4]] *)
Definition call_handler (fn vec : Z) : K unit :=
  if fn =? fn_default_intr_hanlder then default_intr_hanlder vec
  else if fn =? fn_time_intr_handler then time_intr_handler
  else if fn =? fn_keyboard_interrupt_hanlder then keyboard_interrupt_hanlder
  else if fn =? fn_disk_intr_handler then disk_intr_handler vec
  else panic "call of an address that is not a handler".

(** The gates are interrupt gates: the processor clears the flag on the way in,
    and [iretd] takes the interrupted code's flags off the stack. *)
Definition intr_entry (vec : Z) : K unit :=
  flag ← gets intr_flag;
  modify (set_intr_flag false);;
  outb 0xa0 0x20;;
  outb 0x20 0x20;;
  fn ← ld32 (sym_idt_table + 4 * vec);
  call_handler fn vec;;
  modify (set_intr_flag flag).
End Entry.

Section Dispatch.
Context {PL : Platform} {LK : Linker}.

(** The acknowledgement of both controllers. *)
Definition eoi : list event := [OutB 0xa0 0x20; OutB 0x20 0x20].

(** [c] on behalf of an interrupt: after the acknowledgement, with interrupts
    off, and with the interrupted code's flag at the end. *)
Definition acknowledged (s : machine) : machine := log (OutB 0x20 0x20) (log (OutB 0xa0 0x20) (set_intr_flag false s)).
Definition interrupting (c : K unit) : K unit :=
  fun s => (c;; modify (set_intr_flag (intr_flag s))) (acknowledged s).

Definition handlers : list Z :=
  [fn_default_intr_hanlder; fn_time_intr_handler; fn_keyboard_interrupt_hanlder; fn_disk_intr_handler].

(** The handler of each vector once the kernel is up. *)
Definition handler_of (vec : Z) : Z :=
  if vec =? 0x20 then fn_time_intr_handler
  else if vec =? 0x21 then fn_keyboard_interrupt_hanlder
  else if vec =? 0x2e then fn_disk_intr_handler
  else fn_default_intr_hanlder.

Definition handlers_made (m : memory) : Prop :=
  forall vec, 0 <= vec < ENTRY_CNT -> get32 m (sym_idt_table + 4 * vec) = handler_of vec.

Definition handler_bytes (b : Z) : Prop := sym_idt_table <= b < sym_idt_table + 4 * ENTRY_CNT.

Lemma handlers_made_frame m m' P :
  changed_only P m m' -> (forall b, handler_bytes b -> ~ P b) -> handlers_made m -> handlers_made m'.
Proof.
  intros Hc HP Hm vec Hv. rewrite <- (Hm vec Hv). apply (changed_get32 _ _ _ _ Hc).
  intros b Hb. apply HP. unfold handler_bytes, ENTRY_CNT in *. lia.
Qed.

Definition handler (vec : Z) : K unit :=
  if vec =? 0x20 then time_intr_handler
  else if vec =? 0x21 then keyboard_interrupt_hanlder
  else if vec =? 0x2e then disk_intr_handler vec
  else default_intr_hanlder vec.

Lemma call_handler_of vec : NoDup handlers -> call_handler (handler_of vec) vec = handler vec.
Proof.
  unfold handlers. rewrite !NoDup_cons, !elem_of_cons, elem_of_nil. intros (N1 & N2 & N3 & _).
  assert (Hne : forall a b, b <> a -> (a =? b) = false) by (intros a b Hab; by apply Z.eqb_neq; congruence).
  unfold handler_of, handler, call_handler.
  destruct (vec =? 0x20); [|destruct (vec =? 0x21); [|destruct (vec =? 0x2e)]];
    rewrite ?Hne, Z.eqb_refl by tauto; done.
Qed.

Lemma intr_entry_run vec s :
  NoDup handlers -> handlers_made (mem s) -> 0 <= vec < ENTRY_CNT ->
  intr_entry vec s = interrupting (handler vec) s.
Proof.
  intros Hnd Hm Hv. unfold intr_entry. do 5 (erewrite bind_ok by reflexivity; cbv beta).
  change (mem _) with (mem s). rewrite (Hm vec Hv), (call_handler_of vec Hnd). reflexivity.
Qed.

(** What registers the handlers, in the order of [init_all]. *)
Definition register_handlers : K unit :=
  idt_init;;
  timer_init;;
  intr_set_handler 0x21 fn_keyboard_interrupt_hanlder;;
  intr_set_handler (0x20 + 14) fn_disk_intr_handler.

Lemma register_handlers_run s :
  idt_layout -> Forall is_u32 handlers ->
  exists s', register_handlers s = Ok tt s' /\ handlers_made (mem s').
Proof.
  intros Hl Hu. destruct (proj1 (wp_run _ _ _) (idt_run Hl s)) as ([] & s1 & E & _ & Hh & _).
  unfold handlers in Hu. rewrite !Forall_cons in Hu. destruct Hu as (U1 & U2 & U3 & U4 & _).
  unfold is_u32 in *. change (2 ^ 32) with 4294967296 in *.
  unfold register_handlers. rewrite (bind_ok _ _ _ _ _ E). eexists.
  split; [unfold timer_init, set_frequency, intr_set_handler; srun; reflexivity|]. msimpl.
  intros vec Hv. unfold handler_of. unfold ENTRY_CNT in Hv.
  destruct (Z.eqb_spec vec 0x20) as [->|H1]; [|destruct (Z.eqb_spec vec 0x21) as [->|H2];
    [|destruct (Z.eqb_spec vec 0x2e) as [->|H3]]]; cbn [Z.mul Z.add Pos.add Pos.mul] in *;
    rewrite ?get32_put32_ne, ?get32_put32_eq, ?get32_put32_ne by lia; try (by apply u32_small).
  rewrite (proj1 (Hh vec ltac:(unfold IDT_DESC_CNT; lia))). by apply u32_small.
Qed.
End Dispatch.

(** ** The properties *)
Section Properties.
Context {PL : Platform} {LK : Linker}.


(** C18: A clock interrupt from entry to return refines the abstract tick: the task
    goes on with one tick less, or, with its slice used up, the first ready
    task gets the processor; whenever the interrupted task runs again it is
    with its own interrupt flag. *)
Theorem clock_interrupt_refines tasks idle a s :
  layout tasks -> inv tasks idle a -> runs tasks idle a s ->
  NoDup handlers -> handlers_made (mem s) ->
  get32 (mem s) (s_cur a + task_struct.stack_magic_num) = 0x19980312 ->
  inv tasks idle (abs_tick idle a) /\
  (slice_left a <> 0 -> exists s', intr_entry 0x20 s = Ok tt s' /\
     runs tasks idle (abs_tick idle a) s' /\ intr_flag s' = intr_flag s /\
     total_times (vars s') = u32 (total_times (vars s) + 1)) /\
  (slice_left a = 0 -> exists s' k, intr_entry 0x20 s = Switch s' k /\
     runs tasks idle (abs_tick idle a) s' /\ intr_flag s' = false /\
     total_times (vars s') = u32 (total_times (vars s) + 1) /\
     forall s'', k s'' = Ok tt (set_intr_flag (intr_flag s) s'')).
Proof.
  intros Hlay Hi [Hr He Hid] Hnd Hm Hmagic.
  assert (Hra : runs tasks idle a (acknowledged s)) by (by constructor).
  destruct (time_intr_handler_refines tasks idle a (acknowledged s) Hlay Hi Hra eq_refl Hmagic) as (H1 & H2 & H3).
  split; [exact H1|]. rewrite (intr_entry_run 0x20 s Hnd Hm) by (unfold ENTRY_CNT; lia).
  unfold interrupting. change (handler 0x20) with time_intr_handler. split; intros Hs.
  - destruct (H2 Hs) as (s' & E & [G1 G2 G3] & _ & Ht). rewrite (bind_ok _ _ _ _ _ E).
    eexists. split; [reflexivity|]. split_and!; [by constructor|done|exact Ht].
  - destruct (H3 Hs) as (s' & k & E & Hr' & Hf & Ht & Hk). rewrite (bind_switch _ _ _ _ _ E).
    eexists _, _. split; [reflexivity|]. split_and!; [done|done|exact Ht|]. intros s''. by rewrite Hk.
Qed.

(** The stubs leave the stack as they found it for every exception and every
    interrupt, except the stack fault 0x0c: the processor pushes an error code
    for it and so does the stub. *)
Definition cpu_error_words (vec : Z) : Z :=
  if decide (vec ∈ [0x08; 0x0a; 0x0b; 0x0c; 0x0d; 0x0e; 0x11]) then 1 else 0.

Lemma stub_balance vec :
  (0 <= vec < 0x14 \/ 0x20 <= vec < ENTRY_CNT) ->
  words_left vec (cpu_error_words vec) = if vec =? 0x0c then 1 else 0.
Proof.
  intros Hv. assert (H : vec ∈ seqZ 0 20 ++ seqZ 0x20 16).
  { rewrite elem_of_app, !elem_of_seqZ. unfold ENTRY_CNT in Hv. lia. }
  clear Hv. revert vec H. apply Forall_forall. vm_compute. repeat constructor.
Qed.
End Properties.

(** ** Concrete instances *)

Lemma demo_handlers : NoDup handlers /\ Forall is_u32 handlers.
Proof.
  split; [apply (bool_decide_unpack _); vm_compute; exact I|].
  unfold handlers, is_u32. cbn. repeat constructor; lia.
Qed.


(** The machine of the scheduler with the table of handlers. *)
Definition word_bytes (v : Z) : list Z := [v mod 256; v / 256 mod 256; v / 65536 mod 256; v / 16777216].
Definition demo_entry_mem : memory :=
  put_bytes demo_sched_mem sym_idt_table (concat (map (fun v => word_bytes (handler_of v)) (seqZ 0 ENTRY_CNT))).

Lemma demo_handlers_made : handlers_made demo_entry_mem.
Proof.
  assert (H : forallb (fun vec => get32 demo_entry_mem (sym_idt_table + 4 * vec) =? handler_of vec)
    (seqZ 0 ENTRY_CNT) = true) by (vm_compute; reflexivity).
  rewrite forallb_forall in H. intros vec Hv. apply Z.eqb_eq, H, list_elem_of_In, elem_of_seqZ. exact Hv.
Qed.

Lemma demo_entry_runs : runs demo_tasks demo_idle demo_abs (set_mem demo_entry_mem demo_sched_machine).
Proof.
  eapply (runs_frame demo_tasks demo_idle demo_abs demo_sched_machine handler_bytes);
    [apply demo_layout|apply demo_runs| |].
  - intros b Hb. apply get8_put_bytes_ne.
    match goal with |- context [length ?l] => change (Z.of_nat (length l)) with 192 end.
    unfold handler_bytes, ENTRY_CNT in Hb. lia.
  - intros b Hb. unfold handler_bytes, ENTRY_CNT in Hb.
    cbn [sym_idt_table sym_ready_thread_list demo_linker] in *. unfold list.sizeof.
    split; [lia|]. solve_tasks; unfold demo_main, demo_thread, demo_idle; lia.
Qed.

Lemma clock_interrupt_refines_witness :
  exists s' k, intr_entry 0x20 (set_mem demo_entry_mem demo_sched_machine) = Switch s' k /\
    runs demo_tasks demo_idle (abs_tick demo_idle demo_abs) s' /\ total_times (vars s') = 1 /\
    forall s'', k s'' = Ok tt (set_intr_flag true s'').
Proof.
  destruct (clock_interrupt_refines demo_tasks demo_idle demo_abs (set_mem demo_entry_mem demo_sched_machine)
    demo_layout demo_inv demo_entry_runs (proj1 demo_handlers) demo_handlers_made) as (_ & _ & H); [by vm_compute|].
  destruct (H eq_refl) as (s' & k & E & H1 & _ & H2 & H3). exists s', k. split_and!; [exact E|exact H1|exact H2|exact H3].
Defined.
