(* ===== verification/Inode.v ===== *)
(** * Inodes (fs/inode.c, fs/superblock.h)

    Where an inode lives on the disk, and the list of open inodes of a
    partition. *)

From S2P Require Import Prelude Machine Concrete Interrupt CString Bitmap DList Paging Tss Sched Lock Memory Malloc Disk.

#[local] Open Scope Z_scope.

Definition BITS_PER_SECTOR : Z := 4096.
Definition MAX_FILES_PER_PART : Z := 4096.
Definition SECTOR_SIZE : Z := 512.
Definition BLOCK_SIZE : Z := 512.
Definition INODE_SECTOR_CNT : Z := 13.

Module super_block.
Definition magic_num : Z := 0.
Definition block_cnt : Z := 4.
Definition inode_cnt : Z := 8.
Definition start_lba : Z := 12.
Definition fb_bmap_addr : Z := 16.
Definition fb_bmap_size : Z := 20.
Definition in_bmap_addr : Z := 24.
Definition in_bmap_size : Z := 28.
Definition in_array_addr : Z := 32.
Definition in_array_size : Z := 36.
Definition data_start : Z := 40.
Definition root_inode_no : Z := 44.
Definition root_dir_size : Z := 48.
Definition sizeof : Z := 512.
End super_block.

Module inode_t.
Definition i_node : Z := 0.
Definition i_no : Z := 8.
Definition i_size : Z := 12.
Definition open_cnt : Z := 16.
Definition writing : Z := 20.
Definition i_sectors : Z := 24.
Definition sizeof : Z := 76.
End inode_t.

Record inode_pos := mkPos {
  cross_sector : bool;
  lba : Z;
  offset : Z
}.

Section Inode.
Context {PL : Platform} {LK : Linker}.

Definition get_position (part no : Z) : K inode_pos :=
  ASSERT (no <? MAX_FILES_PER_PART) "fs/inode.c" 22 "get_position" "no < MAX_FILES_PER_PART";;
  sb ← ld32 (part + partition.sb);
  inode_table ← ld32 (sb + super_block.in_array_addr);
  let bytes := u32 (no * inode_t.sizeof) in
  let pos_lba := u32 (inode_table + bytes / SECTOR_SIZE) in
  let pos_offset := bytes mod SECTOR_SIZE in
  mret (mkPos (SECTOR_SIZE <? pos_offset + inode_t.sizeof) pos_lba pos_offset).

Definition clear_status (inode : Z) : K unit :=
  st32 (inode + inode_t.open_cnt) 0;;
  st8 (inode + inode_t.writing) 0;;
  st32 (inode + inode_t.i_node + list_node.next) NULL;;
  st32 (inode + inode_t.i_node + list_node.prev) NULL.

Definition inode_sync (part inode buf : Z) : K unit :=
  sp ← gets Machine.esp;
  let temp := local_addr "inode_sync.temp" sp in
  d ← ld32 (part + partition.belong_disk);
  no ← ld32 (inode + inode_t.i_no);
  pos ← get_position part no;
  memcpy temp inode inode_t.sizeof;;
  clear_status temp;;
  let sector_cnt := if cross_sector pos then 2 else 1 in
  ide_read d (lba pos) buf sector_cnt;;
  memcpy (u32 (buf + offset pos)) temp inode_t.sizeof;;
  ide_write d (lba pos) buf sector_cnt.

Definition node_to_inode (node : Z) : Z := node.

Definition find_in_list (no l : Z) : K Z :=
  node ← ld32 (l + list.head + list_node.next);
  while_ (fun node =>
    if negb (node =? l + list.tail) then
      i ← ld32 (node_to_inode node + inode_t.i_no);
      if i =? no then mret (inr (node_to_inode node))
      else node ← ld32 (node + list_node.next); mret (inl node)
    else mret (inr NULL)) node.

Definition inode_open (part no : Z) : K Z :=
  res ← find_in_list no (part + partition.open_inodes);
  if negb (res =? NULL) then
    cnt ← ld32 (res + inode_t.open_cnt);
    st32 (res + inode_t.open_cnt) (cnt + 1);;
    mret res
  else
    pos ← get_position part no;
    inode ← sys_kmalloc inode_t.sizeof;
    let sector := if cross_sector pos then 2 else 1 in
    buf ← sys_kmalloc (sector * SECTOR_SIZE);
    d ← ld32 (part + partition.belong_disk);
    ide_read d (lba pos) buf sector;;
    memcpy inode (u32 (buf + offset pos)) inode_t.sizeof;;
    list_push_front (part + partition.open_inodes) (inode + inode_t.i_node);;
    st32 (inode + inode_t.open_cnt) 1;;
    sys_free buf;;
    mret inode.

Definition inode_close (inode : Z) : K unit :=
  status ← INTERRUPT_DISABLE;
  cnt ← ld32 (inode + inode_t.open_cnt);
  st32 (inode + inode_t.open_cnt) (cnt - 1);;
  cnt ← ld32 (inode + inode_t.open_cnt);
  when (cnt =? 0) (
    list_remove (inode + inode_t.i_node);;
    sys_kfree inode);;
  INTERRUPT_RESTORE status.

Definition inode_init (no inode : Z) : K unit :=
  st32 (inode + inode_t.i_no) no;;
  st32 (inode + inode_t.i_size) 0;;
  st32 (inode + inode_t.open_cnt) 0;;
  st8 (inode + inode_t.writing) 0;;
  for_ 0 (Z.to_nat INODE_SECTOR_CNT) (fun i =>
    st32 (inode + inode_t.i_sectors + 4 * i) 0).
End Inode.
