(* ===== verification/OpenInodes.v ===== *)
(** * The open inodes of a partition (fs/inode.c: inode_open, inode_close)

    A partition keeps the inodes in memory in a list, with a count of the
    users of each.  The list refines a table of inode numbers. *)

From S2P Require Import Prelude Machine Concrete Interrupt CString Bitmap DList Paging Tss Sched Lock Memory Malloc Disk Inode.

#[local] Open Scope Z_scope.

(** ** The table *)

(** An open inode: its address, its number, its users. *)
Record opened := mkOpened { o_inode : Z; o_no : Z; o_cnt : Z }.

#[export] Instance opened_eq_dec : EqDecision opened.
Proof. solve_decision. Defined.

Definition with_cnt (c : Z) (o : opened) : opened := mkOpened (o_inode o) (o_no o) c.

(** One more user of inode [no]. *)
Definition abs_open (no : Z) (T : list opened) : list opened :=
  map (fun o => if o_no o =? no then with_cnt (o_cnt o + 1) o else o) T.

(** One user less of the inode at [i]; without users it leaves the table. *)
Definition abs_close (i : Z) (T : list opened) : list opened :=
  filter (fun o : opened => o_cnt o <> 0) (map (fun o => if o_inode o =? i then with_cnt (o_cnt o - 1) o else o) T).

Definition inode_at (i b : Z) : Prop := i <= b < i + inode_t.sizeof.
Definition cnt_bytes (i b : Z) : Prop := i + inode_t.open_cnt <= b < i + inode_t.open_cnt + 4.

Record opened_rep (m : memory) (o : opened) : Prop := {
  or_no : get32 m (o_inode o + inode_t.i_no) = o_no o;
  or_cnt : get32 m (o_inode o + inode_t.open_cnt) = o_cnt o;
  or_used : 1 <= o_cnt o
}.

(** The list at [l] holds the table [T]: every number once, every inode with a
    user, the inodes apart from each other and from the list. *)
Record open_table (m : memory) (l : Z) (T : list opened) : Prop := {
  ot_list : dlist m l (map o_inode T);
  ot_rep : forall o, o ∈ T -> opened_rep m o;
  ot_numbers : NoDup (map o_no T);
  ot_inodes : NoDup (map o_inode T);
  ot_apart : forall o o', o ∈ T -> o' ∈ T -> o_inode o <> o_inode o' ->
    o_inode o + inode_t.sizeof <= o_inode o' \/ o_inode o' + inode_t.sizeof <= o_inode o;
  ot_header : forall o, o ∈ T -> l + list.sizeof <= o_inode o \/ o_inode o + inode_t.sizeof <= l;
  ot_range : forall o, o ∈ T -> 0 < o_inode o
}.

Ltac ioff :=
  unfold inode_at, cnt_bytes, inode_t.i_node, inode_t.i_no, inode_t.open_cnt, inode_t.sizeof, list.sizeof in *.

(** One entry of a table. *)
Lemma map_one (f : opened -> opened) T1 o T2 :
  (forall x, x ∈ T1 ++ T2 -> f x = x) -> map f (T1 ++ o :: T2) = T1 ++ f o :: T2.
Proof.
  intros Hf. rewrite map_app. cbn [map].
  assert (Hid : forall T, (forall x, x ∈ T -> f x = x) -> map f T = T).
  { intros T H. induction T as [|x T IH]; [done|]. cbn [map]. rewrite H by by left. f_equal. apply IH. intros y Hy. apply H. by right. }
  rewrite !Hid; [done|intros x Hx; apply Hf, elem_of_app; by right|intros x Hx; apply Hf, elem_of_app; by left].
Qed.

(** The key [f] of the other entries. *)
Lemma others_key (f : opened -> Z) T1 o T2 : NoDup (map f (T1 ++ o :: T2)) -> forall x, x ∈ T1 ++ T2 -> f x <> f o.
Proof.
  assert (Hp : map f (T1 ++ o :: T2) ≡ₚ f o :: map f (T1 ++ T2)) by (by rewrite <- Permutation_middle).
  rewrite Hp. intros [Hn _]%NoDup_cons x Hx E. apply Hn. rewrite <- E. by apply list_elem_of_fmap_2.
Qed.

Lemma abs_open_split T1 o T2 :
  NoDup (map o_no (T1 ++ o :: T2)) -> abs_open (o_no o) (T1 ++ o :: T2) = T1 ++ with_cnt (o_cnt o + 1) o :: T2.
Proof.
  intros Hn. unfold abs_open. rewrite map_one; [by rewrite Z.eqb_refl|]. intros x Hx.
  by rewrite (proj2 (Z.eqb_neq _ _) (others_key o_no _ _ _ Hn x Hx)).
Qed.

Lemma abs_close_split T1 o T2 :
  NoDup (map o_inode (T1 ++ o :: T2)) -> (forall x, x ∈ T1 ++ T2 -> o_cnt x <> 0) ->
  abs_close (o_inode o) (T1 ++ o :: T2)
    = if decide (o_cnt o = 1) then T1 ++ T2 else T1 ++ with_cnt (o_cnt o - 1) o :: T2.
Proof.
  intros Hn Hc. unfold abs_close. rewrite map_one.
  2:{ intros x Hx. by rewrite (proj2 (Z.eqb_neq _ _) (others_key o_inode _ _ _ Hn x Hx)). }
  rewrite Z.eqb_refl. assert (Hid : forall T : list opened, (forall x : opened, x ∈ T -> o_cnt x <> 0) -> filter (fun o : opened => o_cnt o <> 0) T = T).
  { intros T H. induction T as [|x T IH]; [done|]. rewrite filter_cons_True by (apply H; by left). f_equal. apply IH.
    intros y Hy. apply H. by right. }
  rewrite filter_app, Hid by (intros x Hx; apply Hc, elem_of_app; by left).
  assert (E2 : filter (fun o : opened => o_cnt o <> 0) T2 = T2) by (apply Hid; intros x Hx; apply Hc, elem_of_app; by right).
  case_decide as Ho; [rewrite filter_cons_False by (cbn; lia)|rewrite filter_cons_True by (cbn; lia)]; by rewrite E2.
Qed.

(** ** The operations *)
Section Table.
Context {PL : Platform} {LK : Linker}.

(** Inode [no] of the table, as [find_in_list] looks for it. *)
Definition find_no (no : Z) (T : list opened) : Z :=
  match List.find (fun o => o_no o =? no) T with Some o => o_inode o | None => NULL end.

Lemma find_in_list_run no l T s :
  open_table (mem s) l T -> find_in_list no l s = Ok (find_no no T) s.
Proof.
  intros [Hd Hr _ _ _ _ _]. unfold find_in_list. erewrite bind_ok by reflexivity.
  change (get32 (mem s) (l + list.head + list_node.next)) with (next_of (mem s) (l + list.head)).
  rewrite (walk_loop (fun c (_ : unit) => c) _
    (fun x _ => if get32 (mem s) (x + inode_t.i_no) =? no then inl x else inr tt) (fun _ => NULL) l _ s Hd) with (acc := tt).
  - f_equal. unfold find_no. clear Hd. induction T as [|o T IH]; [done|]. cbn [map walk List.find].
    rewrite (or_no _ _ (Hr o ltac:(by left))). destruct (o_no o =? no); [done|]. apply IH. intros o' Ho. apply Hr. by right.
  - intros x [] Hin. destruct (node_not_end _ _ _ _ Hd Hin) as (_ & Hne & _).
    rewrite (proj2 (Z.eqb_neq _ _) Hne). cbn. unfold node_to_inode. erewrite bind_ok by reflexivity. cbv beta. by destruct (_ =? no).
  - intros []. cbn. by rewrite Z.eqb_refl.
Qed.

Lemma find_no_in no T o : NoDup (map o_no T) -> o ∈ T -> o_no o = no -> find_no no T = o_inode o.
Proof.
  intros Hn Ho <-. unfold find_no. induction T as [|x T IH]; [by apply not_elem_of_nil in Ho|].
  cbn [map] in Hn. apply NoDup_cons in Hn as [Hx Hn]. cbn [List.find].
  apply elem_of_cons in Ho as [->|Ho]; [by rewrite Z.eqb_refl|].
  rewrite (proj2 (Z.eqb_neq (o_no x) (o_no o))); [by apply IH|].
  intros E. apply Hx. rewrite E. by apply list_elem_of_fmap_2.
Qed.

(** *** A table with one count changed *)

(** The counts are not part of the list. *)
Lemma cnt_not_node m l T o b :
  open_table m l T -> o ∈ T -> node_bytes (with_ends l (map o_inode T)) b -> ~ cnt_bytes (o_inode o) b.
Proof.
  intros [_ _ _ _ Ha Hh _] Hin Hb Hx. apply Exists_exists in Hb as (x & Hx1 & Hx2). unfold with_ends in Hx1.
  rewrite elem_of_cons, elem_of_app, elem_of_cons, elem_of_nil in Hx1. pose proof (Hh o Hin) as Hho.
  change list_node.sizeof with 8 in Hx2. change list.head with 0 in Hx1. change list.tail with 8 in Hx1.
  destruct Hx1 as [->|[Hx1|[->|[]]]]; [ioff; lia| |ioff; lia].
  apply list_elem_of_fmap in Hx1 as (y & -> & Hy).
  destruct (decide (o_inode y = o_inode o)) as [E|E]; [rewrite E in Hx2; ioff; lia|].
  destruct (Ha y o Hy Hin E); ioff; lia.
Qed.

Lemma cnt_update m l T1 o T2 c :
  open_table m l (T1 ++ o :: T2) -> 1 <= c < 2 ^ 32 ->
  open_table (put32 m (o_inode o + inode_t.open_cnt) c) l (T1 ++ with_cnt c o :: T2).
Proof.
  intros [Hd Hr Hn Hi Ha Hh Hg] Hc. set (m' := put32 _ _ _).
  assert (Hin : o ∈ T1 ++ o :: T2) by (apply elem_of_app; right; by left).
  assert (C : changed_only (cnt_bytes (o_inode o)) m m') by (apply changed_put32; ioff; lia).
  assert (Eaddr : map o_inode (T1 ++ with_cnt c o :: T2) = map o_inode (T1 ++ o :: T2)) by (by rewrite !map_app).
  assert (Eno : map o_no (T1 ++ with_cnt c o :: T2) = map o_no (T1 ++ o :: T2)) by (by rewrite !map_app).
  assert (Hold : forall x, x ∈ T1 ++ with_cnt c o :: T2 -> exists y, y ∈ T1 ++ o :: T2 /\ o_inode y = o_inode x /\
    (x = y \/ x = with_cnt c o)).
  { intros x [Hx|[->|Hx]%elem_of_cons]%elem_of_app; [exists x|exists o|exists x]; rewrite elem_of_app, elem_of_cons; tauto. }
  constructor.
  - rewrite Eaddr. eapply dlist_changed_only; [exact C| |exact Hd]. intros b Hb. apply (cnt_not_node m l (T1 ++ o :: T2) o b); [by constructor|done|done].
  - intros x. rewrite elem_of_app, elem_of_cons. intros Hx.
    destruct (decide (x = with_cnt c o)) as [->|Hne].
    + destruct (Hr o Hin) as [R1 R2 R3]. constructor; cbn [with_cnt o_inode o_no o_cnt]; [|unfold m'|lia].
      * rewrite (changed_get32 _ _ _ _ C) by (ioff; lia). done.
      * rewrite get32_put32_eq. apply u32_small. lia.
    + assert (Hx' : x ∈ T1 ++ T2) by (rewrite elem_of_app; tauto).
      pose proof (others_key o_inode T1 o T2 Hi x Hx') as Hd'. assert (Hx2 : x ∈ T1 ++ o :: T2) by (rewrite elem_of_app, elem_of_cons; tauto).
      pose proof (Ha x o Hx2 Hin Hd'). destruct (Hr x Hx2) as [R1 R2 R3].
      constructor; [rewrite <- R1|rewrite <- R2|done]; apply (changed_get32 _ _ _ _ C); ioff; lia.
  - by rewrite Eno.
  - by rewrite Eaddr.
  - intros x y (x' & Hx & <- & _)%Hold (y' & Hy & <- & _)%Hold. by apply Ha.
  - intros x (x' & Hx & <- & _)%Hold. by apply Hh.
  - intros x (x' & Hx & <- & _)%Hold. by apply Hg.
Qed.

(** Without one entry. *)
Lemma table_without m m' l T1 o T2 P :
  open_table m l (T1 ++ o :: T2) -> dlist m' l (map o_inode (T1 ++ T2)) -> changed_only P m m' ->
  (forall x b, x ∈ T1 ++ T2 -> P b -> ~ (o_inode x + 8 <= b < o_inode x + inode_t.sizeof)) -> open_table m' l (T1 ++ T2).
Proof.
  intros [Hd Hr Hn Hi Ha Hh Hg] Hd' Hc HP.
  assert (Hin : forall x, x ∈ T1 ++ T2 -> x ∈ T1 ++ o :: T2) by (intros x; rewrite !elem_of_app, elem_of_cons; tauto).
  assert (Hsub : forall f : opened -> Z, NoDup (map f (T1 ++ o :: T2)) -> NoDup (map f (T1 ++ T2))).
  { intros f Hf. rewrite <- Permutation_middle in Hf. by apply NoDup_cons in Hf as [_ Hf]. }
  constructor; [done| |by apply Hsub|by apply Hsub|auto..].
  intros x Hx. destruct (Hr x (Hin x Hx)) as [R1 R2 R3].
  constructor; [rewrite <- R1|rewrite <- R2|done]; apply (changed_get32 _ _ _ _ Hc); intros b Hb Hp;
    apply (HP x b Hx Hp); ioff; lia.
Qed.

(** *** Opening and closing *)

Lemma inode_open_listed part T1 o T2 s :
  let l := part + partition.open_inodes in
  open_table (mem s) l (T1 ++ o :: T2) -> o_cnt o + 1 < 2 ^ 32 ->
  inode_open part (o_no o) s
    = Ok (o_inode o) (set_mem (put32 (mem s) (o_inode o + inode_t.open_cnt) (o_cnt o + 1)) s).
Proof.
  intros l Ht Hc. assert (Hin : o ∈ T1 ++ o :: T2) by (apply elem_of_app; right; by left).
  unfold inode_open. fold l. rewrite (bind_ok _ _ _ _ _ (find_in_list_run (o_no o) l _ s Ht)).
  rewrite (find_no_in (o_no o) _ o (ot_numbers _ _ _ Ht) Hin eq_refl).
  pose proof (ot_range _ _ _ Ht o Hin). unfold NULL. rewrite (proj2 (Z.eqb_neq _ 0)) by lia. cbn [negb].
  erewrite bind_ok by reflexivity. cbv beta. rewrite (or_cnt _ _ (ot_rep _ _ _ Ht o Hin)). reflexivity.
Qed.

Lemma close_table T1 o T2 m l :
  open_table m l (T1 ++ o :: T2) -> abs_close (o_inode o) (T1 ++ o :: T2)
    = if decide (o_cnt o = 1) then T1 ++ T2 else T1 ++ with_cnt (o_cnt o - 1) o :: T2.
Proof.
  intros Ht. apply abs_close_split; [apply Ht|]. intros x Hx.
  pose proof (or_used _ _ (ot_rep _ _ _ Ht x ltac:(rewrite elem_of_app, elem_of_cons; apply elem_of_app in Hx; tauto))). lia.
Qed.

Section Close.
Context (l : Z) (T1 T2 : list opened) (o : opened) (s : machine).
Hypothesis Ht : open_table (mem s) l (T1 ++ o :: T2).

(** Up to the test of the count. *)
Lemma close_start :
  o_cnt o < 2 ^ 32 ->
  let m1 := put32 (mem s) (o_inode o + inode_t.open_cnt) (o_cnt o - 1) in
  inode_close (o_inode o) s = (when (o_cnt o - 1 =? 0) (list_remove (o_inode o + inode_t.i_node);; sys_kfree (o_inode o));;
    INTERRUPT_RESTORE (if intr_flag s then INTR_ON else INTR_OFF)) (set_mem m1 (set_intr_flag false s)).
Proof.
  intros Hc m1. assert (Hin : o ∈ T1 ++ o :: T2) by (apply elem_of_app; right; by left).
  destruct (ot_rep _ _ _ Ht o Hin) as [_ R2 R3].
  unfold inode_close, INTERRUPT_DISABLE. rewrite (bind_ok _ _ _ _ _ (intr_disable_run s)).
  erewrite bind_ok by reflexivity. cbv beta. msimpl. rewrite R2. erewrite bind_ok by reflexivity. cbv beta.
  erewrite bind_ok by reflexivity. cbv beta. msimpl. fold m1.
  assert (E : get32 m1 (o_inode o + inode_t.open_cnt) = o_cnt o - 1) by (unfold m1; rewrite get32_put32_eq; apply u32_small; lia).
  by rewrite E.
Qed.

(** Other users are left. *)
Lemma close_shared :
  1 < o_cnt o < 2 ^ 32 ->
  inode_close (o_inode o) s
    = Ok tt (after_critical s (put32 (mem s) (o_inode o + inode_t.open_cnt) (o_cnt o - 1))).
Proof.
  intros Hc. rewrite close_start by lia. rewrite (proj2 (Z.eqb_neq _ 0)) by lia. cbn [when].
  erewrite bind_ok by reflexivity. apply critical_restore.
Qed.

(** The last user. *)
Lemma close_last :
  o_cnt o = 1 ->
  exists m', inode_close (o_inode o) s = (sys_kfree (o_inode o);;
      INTERRUPT_RESTORE (if intr_flag s then INTR_ON else INTR_OFF)) (set_mem m' (set_intr_flag false s)) /\
    open_table m' l (T1 ++ T2).
Proof.
  intros Hc. pose proof Ht as [Hd Hr Hn Hi Ha Hh Hg]. assert (Hin : o ∈ T1 ++ o :: T2) by (apply elem_of_app; right; by left).
  set (m1 := put32 (mem s) (o_inode o + inode_t.open_cnt) (o_cnt o - 1)).
  assert (C1 : changed_only (cnt_bytes (o_inode o)) (mem s) m1) by (apply changed_put32; ioff; lia).
  assert (Hoth : forall x, x ∈ T1 ++ T2 -> x ∈ T1 ++ o :: T2 /\ o_inode x <> o_inode o).
  { intros x Hx. split; [apply elem_of_app in Hx; rewrite elem_of_app, elem_of_cons; tauto|].
    by apply (others_key o_inode T1 o T2). }
  assert (Hd1 : dlist m1 l (map o_inode (T1 ++ o :: T2))) by (eapply dlist_changed_only; [exact C1|intros b; by apply (cnt_not_node (mem s) l (T1 ++ o :: T2) o b)|done]).
  rewrite map_app in Hd1. cbn [map] in Hd1.
  destruct (list_remove_run l _ _ _ (set_mem m1 (set_intr_flag false s)) Hd1) as (m2 & E2 & Hd2 & C2). msimpl.
  exists m2. split.
  - rewrite close_start by lia. fold m1. rewrite (proj2 (Z.eqb_eq _ 0)) by lia. cbn [when]. rewrite bind_assoc.
    replace (o_inode o + inode_t.i_node) with (o_inode o) by (ioff; lia). rewrite (bind_ok _ _ _ _ _ E2).
    unfold after_critical. cbn. assert (Ef : flag_after false = false) by (unfold flag_after; by case_decide). by rewrite Ef.
  - rewrite <- map_app in Hd2, C2.
    apply (table_without (mem s) m2 l T1 o T2 (fun b => cnt_bytes (o_inode o) b \/ node_bytes (with_ends l (map o_inode (T1 ++ T2))) b));
      [exact Ht|exact Hd2|eapply changed_trans; eapply changed_weaken; [exact C1|intros b Hb; by left|exact C2|intros b Hb; by right]|].
    intros x b Hx [Hb|Hb] Hxb; destruct (Hoth x Hx) as [Hx1 Hx2]; [destruct (Ha x o Hx1 Hin Hx2); ioff; lia|].
    apply Exists_exists in Hb as (y & Hy & Hyb). unfold with_ends in Hy. rewrite elem_of_cons, elem_of_app, elem_of_cons, elem_of_nil in Hy.
    change list_node.sizeof with 8 in Hyb. change list.head with 0 in Hy. change list.tail with 8 in Hy. pose proof (Hh x Hx1).
    destruct Hy as [->|[Hy|[->|[]]]]; [ioff; lia| |ioff; lia]. apply list_elem_of_fmap in Hy as (z & -> & Hz).
    destruct (decide (o_inode z = o_inode x)) as [E|E]; [ioff; lia|]. destruct (Hoth z Hz) as [Hz1 _].
    destruct (Ha z x Hz1 Hx1 E); ioff; lia.
Qed.
End Close.
End Table.


(** ** The contract *)
Section Contract.
Context {PL : Platform} {LK : Linker}.

End Contract.

(** ** A concrete instance *)

(** The inodes 3, with two users, and 7, with one, of the partition at 0x1000. *)
Definition demo_inodes : memory :=
  match (list_init 0x1030;; list_push_back 0x1030 0x5000;; list_push_back 0x1030 0x6000) (demo_machine ∅) with
  | Ok _ s => put32 (put32 (put32 (put32 (mem s) 0x5008 3) 0x5010 2) 0x6008 7) 0x6010 1
  | _ => ∅
  end.

Definition demo_table : list opened := [mkOpened 0x5000 3 2; mkOpened 0x6000 7 1].

Lemma demo_open_table : open_table demo_inodes (0x1000 + partition.open_inodes) demo_table.
Proof.
  assert (Hall : forall P : opened -> Prop, P (mkOpened 0x5000 3 2) -> P (mkOpened 0x6000 7 1) ->
    forall o, o ∈ demo_table -> P o).
  { intros P H1 H2 o Ho. unfold demo_table in Ho. rewrite !elem_of_cons, elem_of_nil in Ho. by destruct Ho as [->|[->|[]]]. }
  constructor.
  - split; [vm_compute; tauto|]. unfold demo_table. cbn [map o_inode]. change (0x1000 + partition.open_inodes) with 0x1030.
    solve_apart.
  - apply Hall; constructor; vm_compute; done.
  - apply (bool_decide_unpack _). by vm_compute.
  - apply (bool_decide_unpack _). by vm_compute.
  - intros o o' Ho. revert o Ho o'. change (inode_t.sizeof) with 76. apply (Hall (fun o => forall o', o' ∈ demo_table ->
      o_inode o <> o_inode o' -> o_inode o + 76 <= o_inode o' \/ o_inode o' + 76 <= o_inode o)); refine (Hall _ _ _); cbn; lia.
  - apply Hall; left; vm_compute; congruence.
  - by apply Hall.
Qed.

