(* ===== verification/File.v ===== *)
(** * File tables and disk bitmaps (fs/file.c)

    The system-wide file table, the descriptors of a process and the
    allocation of inodes and blocks in the bitmaps of a partition. *)

From S2P Require Import Prelude Machine Concrete Interrupt CString Bitmap DList Paging Tss Sched Lock Memory Malloc Stdio Disk Inode.

#[local] Open Scope Z_scope.

Definition OPEN_FILE_MAX : Z := 32.
Definition USER_FILE_TABLE_START : Z := 3.

Inductive bitmap_type := INODE_BITMAP | BLOCK_BITMAP.

Module file.
Definition fd_offset : Z := 0.
Definition fd_flag : Z := 4.
Definition fd_inode : Z := 8.
Definition sizeof : Z := 12.
End file.

Section File.
Context {PL : Platform} {LK : Linker}.

Definition file_table_alloc : K Z :=
  r ← for_exit USER_FILE_TABLE_START (Z.to_nat (OPEN_FILE_MAX - USER_FILE_TABLE_START)) (fun i =>
    inode ← ld32 (sym_file_table + i * file.sizeof + file.fd_inode);
    mret (if inode =? NULL then Some i else None));
  match r with
  | Some i => mret i
  | None => call_printk (str_lit ("can't open more file!" +:+ nl)) [];; mret (-1)
  end.

Definition fd_install (ft_idx : Z) : K Z :=
  curr ← running_thread;
  r ← for_exit USER_FILE_TABLE_START (Z.to_nat (FD_MAX - USER_FILE_TABLE_START)) (fun i =>
    fd ← ld32 (curr + task_struct.fd_table + 4 * i);
    if fd =? u32 (-1) then
      st32 (curr + task_struct.fd_table + 4 * i) ft_idx;; mret (Some i)
    else mret None);
  match r with
  | Some i => mret i
  | None => call_printk (str_lit ("no more file descriptor for this process!" +:+ nl)) [];; mret (-1)
  end.

Definition inode_bm_alloc (part : Z) : K Z :=
  idx ← bitmap_scan (part + partition.inode_bm) 1;
  if negb (idx =? -1) then
    bitmap_set (part + partition.inode_bm) (u32 idx);;
    mret idx
  else mret (-1).

(** The condition is inverted with respect to [inode_bm_alloc]. *)
Definition block_bm_alloc (part : Z) : K Z :=
  idx ← bitmap_scan (part + partition.block_bm) 1;
  if idx =? -1 then
    bitmap_set (part + partition.block_bm) (u32 idx);;
    sb ← ld32 (part + partition.sb);
    start ← ld32 (sb + super_block.start_lba);
    mret (s32 (u32 (start + idx)))
  else mret (-1).

Definition bitmap_sync (part idx : Z) (type : bitmap_type) : K unit :=
  let sector := idx / BITS_PER_SECTOR in
  let bytes := idx / 8 in
  '(bm, addr) ← mret (match type with
    | INODE_BITMAP => (partition.inode_bm, super_block.in_bmap_addr)
    | BLOCK_BITMAP => (partition.block_bm, super_block.fb_bmap_addr)
    end);
  bits ← ld32 (part + bm + bitmap.bits);
  let offset := u32 (bits + bytes) in
  sb ← ld32 (part + partition.sb);
  start ← ld32 (sb + addr);
  let sector := u32 (sector + start) in
  d ← ld32 (part + partition.belong_disk);
  ide_write d sector offset 1.
End File.

(** ** Allocation on disk *)
Section Allocation.
Context {PL : Platform} {LK : Linker}.

(** [bitmap_set] of the bit -1. *)
Lemma bitmap_set_minus_one bm s :
  nbits (mem s) bm < 2 ^ 31 ->
  exists s', bitmap_set bm (u32 (-1)) s = Panic "idx < bm->length" s' /\ mem s' = mem s.
Proof.
  intros Hn. unfold bitmap_set, nbits in *. rewrite u32_idem. erewrite bind_ok by reflexivity. cbv beta zeta.
  fold (bm_length (mem s) bm). change (u32 (-1)) with (2 ^ 32 - 1).
  rewrite (proj2 (Z.ltb_ge _ _)) by zlia.
  destruct (assert_false "lib/bitmap.c" 66 "bitmap_set" "idx < bm->length" s) as (s' & E & _ & Em).
  rewrite (bind_panic _ _ _ _ _ E). by exists s'.
Qed.

(** C39: The number of an inode is that of the first clear bit of the partition's
    inode bitmap, or -1.  For blocks the test of the result is inverted: while
    there is a free block the answer is -1 and nothing is marked, and when all
    are in use the kernel panics.  No block is ever allocated. *)
Theorem disk_allocation_outcomes part s :
  let ib := part + partition.inode_bm in
  let bb := part + partition.block_bm in
  (bitmap_ok (mem s) ib -> forall q, free_run (mem s) ib q 1 ->
     exists p, first_fit (mem s) ib 1 p /\
       inode_bm_alloc part s = Ok p (set_mem (bm_set (mem s) ib p) s)) /\
  ((forall j, 0 <= j < nbits (mem s) ib -> bit (mem s) ib j = true) ->
     inode_bm_alloc part s = Ok (-1) s) /\
  (nbits (mem s) bb < 2 ^ 31 -> forall q, free_run (mem s) bb q 1 ->
     block_bm_alloc part s = Ok (-1) s) /\
  (nbits (mem s) bb < 2 ^ 31 -> (forall j, 0 <= j < nbits (mem s) bb -> bit (mem s) bb j = true) ->
     exists s', block_bm_alloc part s = Panic "idx < bm->length" s' /\ mem s' = mem s).
Proof.
  intros ib bb. unfold inode_bm_alloc, block_bm_alloc. fold ib bb. split_and!.
  - intros Hok q Hq. destruct (bitmap_scan_run ib 1 q s) as (p & E & Hp); [by apply ok_nbits|lia|done|].
    exists p. split; [done|]. rewrite (bind_ok _ _ _ _ _ E). destruct Hp as [(Hp0 & Hp1 & _) _].
    rewrite (proj2 (Z.eqb_neq p (-1))) by lia. cbn [negb].
    pose proof (ok_nbits _ _ Hok). rewrite u32_small by lia. rewrite (bind_ok _ _ _ _ _ (bitmap_set_run ib p s Hok ltac:(lia))).
    done.
  - intros Hall. by rewrite (bind_ok _ _ _ _ _ (bitmap_scan_full_run ib 1 s Hall)).
  - intros Hn q Hq. destruct (bitmap_scan_run bb 1 q s) as (p & E & Hp); [done|lia|done|].
    rewrite (bind_ok _ _ _ _ _ E). destruct Hp as [(Hp0 & _) _]. by rewrite (proj2 (Z.eqb_neq p (-1))) by lia.
  - intros Hn Hall. rewrite (bind_ok _ _ _ _ _ (bitmap_scan_full_run bb 1 s Hall)). cbv beta.
    change (-1 =? -1) with true. cbv iota.
    destruct (bitmap_set_minus_one bb s Hn) as (s' & E & Em). exists s'. by rewrite (bind_panic _ _ _ _ _ E).
Qed.
End Allocation.

(** ** A concrete instance *)

(** A partition descriptor at 0x1000, both bitmaps of one byte, bits 0 and 2
    of the inode bitmap and all of the block bitmap in use. *)
Definition demo_part_mem : memory :=
  let m := put32 (put32 ∅ (0x1000 + partition.inode_bm) 1) (0x1000 + partition.inode_bm + bitmap.bits) 0x2000 in
  let m := put32 (put32 m (0x1000 + partition.block_bm) 1) (0x1000 + partition.block_bm + bitmap.bits) 0x3000 in
  put8 (put8 m 0x2000 5) 0x3000 255.

Lemma disk_allocation_outcomes_witness :
  let s := demo_machine demo_part_mem in
  (exists p, first_fit demo_part_mem 0x1028 1 p /\
     inode_bm_alloc 0x1000 s = Ok p (set_mem (bm_set demo_part_mem 0x1028 p) s)) /\
  (exists s', block_bm_alloc 0x1000 s = Panic "idx < bm->length" s' /\ mem s' = mem s).
Proof.
  intros s. destruct (disk_allocation_outcomes 0x1000 s) as (H1 & _ & _ & H4). split.
  - apply (H1 ltac:(constructor; vm_compute; [done|left; done]) 1). split; [done|]. split; [vm_compute; done|].
    intros j Hj. assert (j = 1) as -> by lia. done.
  - apply H4; [vm_compute; done|]. change (nbits (mem s) (0x1000 + partition.block_bm)) with 8. intros j Hj.
    assert (j = 0 \/ j = 1 \/ j = 2 \/ j = 3 \/ j = 4 \/ j = 5 \/ j = 6 \/ j = 7) as Hjs by lia.
    by destruct Hjs as [->|[->|[->|[->|[->|[->|[->| ->]]]]]]].
Defined.
