(* ===== verification/Fd.v ===== *)
(** * File descriptors (fs/file.c: file_table_alloc, fd_install; thread/thread.c: fd_table_init)

    The first free entry of the system's file table and of the descriptors of
    the running task, and what a task is created with. *)

From S2P Require Import Prelude Machine Concrete Interrupt CString Bitmap DList Paging Tss Sched Lock Memory Malloc Stdio Disk Inode File Thread Spawn.

#[local] Open Scope Z_scope.

Section Fd.
Context {PL : Platform} {LK : Linker}.

(** A search that leaves the state alone until it finds something. *)
Lemma for_exit_first {A} (body : Z -> K (option A)) lo n i s v s' :
  lo <= i < lo + Z.of_nat n -> (forall j, lo <= j < i -> body j s = Ok None s) ->
  body i s = Ok (Some v) s' -> for_exit lo n body s = Ok (Some v) s'.
Proof.
  revert lo. induction n as [|n IH]; intros lo Hi Hno E; [lia|]. destruct (decide (i = lo)) as [->|Hne].
  - by rewrite (for_exit_step _ _ _ _ _ _ E).
  - rewrite (for_exit_step _ _ _ _ _ _ (Hno lo ltac:(lia))). apply IH; [lia| |done]. intros j Hj. apply Hno. lia.
Qed.

Lemma for_exit_none {A} (body : Z -> K (option A)) lo n s :
  (forall j, lo <= j < lo + Z.of_nat n -> body j s = Ok None s) -> for_exit lo n body s = Ok None s.
Proof.
  revert lo. induction n as [|n IH]; intros lo Hno; [done|].
  rewrite (for_exit_step _ _ _ _ _ _ (Hno lo ltac:(lia))). apply IH. intros j Hj. apply Hno. lia.
Qed.

(** ** The descriptors of a task *)

Definition fd_at (m : memory) (t i : Z) : Z := get32 m (t + task_struct.fd_table + 4 * i).

(** Descriptor [i] of the task [t] can be given out. *)
Definition fd_free (m : memory) (t i : Z) : Prop := USER_FILE_TABLE_START <= i < FD_MAX /\ fd_at m t i = u32 (-1).

Definition no_more_fds : K Z :=
  call_printk (str_lit ("no more file descriptor for this process!" +:+ nl)) [];; mret (-1).

Lemma fd_install_run t idx s :
  running_thread s = Ok t s ->
  (forall i, fd_free (mem s) t i -> (forall j, fd_free (mem s) t j -> i <= j) ->
     fd_install idx s = Ok i (set_mem (put32 (mem s) (t + task_struct.fd_table + 4 * i) idx) s)) /\
  ((forall i, ~ fd_free (mem s) t i) -> fd_install idx s = no_more_fds s).
Proof.
  intros Hrun. unfold fd_install. rewrite (bind_ok _ _ _ _ _ Hrun).
  set (body := fun i => fd ← ld32 (t + task_struct.fd_table + 4 * i);
    if fd =? u32 (-1) then st32 (t + task_struct.fd_table + 4 * i) idx;; mret (Some i) else mret None).
  assert (Hno : forall j, USER_FILE_TABLE_START <= j < FD_MAX -> fd_at (mem s) t j <> u32 (-1) -> body j s = Ok None s).
  { intros j Hj Hne. unfold body. erewrite bind_ok by reflexivity. cbv beta. fold (fd_at (mem s) t j).
    by rewrite (proj2 (Z.eqb_neq _ _) Hne). }
  assert (E3 : USER_FILE_TABLE_START = 3) by done. split.
  - intros i [Hi Hfree] Hleast.
    assert (Eb : body i s = Ok (Some i) (set_mem (put32 (mem s) (t + task_struct.fd_table + 4 * i) idx) s)).
    { unfold body. erewrite bind_ok by reflexivity. cbv beta. fold (fd_at (mem s) t i). by rewrite Hfree, Z.eqb_refl. }
    assert (Hb : forall j, USER_FILE_TABLE_START <= j < i -> body j s = Ok None s).
    { intros j Hj. apply Hno; [lia|]. intros Ej. assert (Hf : fd_free (mem s) t j) by (split; [lia|done]).
      specialize (Hleast j Hf). lia. }
    by rewrite (bind_ok _ _ _ _ _ (for_exit_first body USER_FILE_TABLE_START (Z.to_nat (FD_MAX - USER_FILE_TABLE_START)) i s i _
      ltac:(lia) Hb Eb)).
  - intros Hall. assert (Hb : forall j, USER_FILE_TABLE_START <= j < USER_FILE_TABLE_START + Z.of_nat (Z.to_nat (FD_MAX - USER_FILE_TABLE_START)) ->
      body j s = Ok None s).
    { intros j Hj. apply Hno; [lia|]. intros Ej. apply (Hall j). split; [lia|done]. }
    by rewrite (bind_ok _ _ _ _ _ (for_exit_none body USER_FILE_TABLE_START _ s Hb)).
Qed.

(** ** The file table *)

Definition ft_free (m : memory) (i : Z) : Prop :=
  USER_FILE_TABLE_START <= i < OPEN_FILE_MAX /\ get32 m (sym_file_table + i * file.sizeof + file.fd_inode) = NULL.

Lemma file_table_alloc_run s :
  (forall i, ft_free (mem s) i -> (forall j, ft_free (mem s) j -> i <= j) -> file_table_alloc s = Ok i s) /\
  ((forall i, ~ ft_free (mem s) i) ->
     file_table_alloc s = (call_printk (str_lit ("can't open more file!" +:+ nl)) [];; mret (-1)) s).
Proof.
  unfold file_table_alloc.
  set (body := fun i => inode ← ld32 (sym_file_table + i * file.sizeof + file.fd_inode);
    mret (if inode =? NULL then Some i else None)).
  assert (Hno : forall j, get32 (mem s) (sym_file_table + j * file.sizeof + file.fd_inode) <> NULL -> body j s = Ok None s).
  { intros j Hne. unfold body. erewrite bind_ok by reflexivity. cbv beta. by rewrite (proj2 (Z.eqb_neq _ _) Hne). }
  change (Z.to_nat (OPEN_FILE_MAX - USER_FILE_TABLE_START)) with 29%nat. split.
  - intros i [Hi Hfree] Hleast. assert (Hi' : 3 <= i < 3 + Z.of_nat 29) by (unfold USER_FILE_TABLE_START, OPEN_FILE_MAX in Hi; lia).
    assert (Eb : body i s = Ok (Some i) s).
    { unfold body. erewrite bind_ok by reflexivity. cbv beta. by rewrite Hfree, Z.eqb_refl. }
    assert (Hb : forall j, 3 <= j < i -> body j s = Ok None s).
    { intros j Hj. apply Hno. intros Ej. assert (Hf : ft_free (mem s) j)
        by (split; [unfold USER_FILE_TABLE_START, OPEN_FILE_MAX in *; lia|done]). specialize (Hleast j Hf). lia. }
    by rewrite (bind_ok _ _ _ _ _ (for_exit_first body 3 29 i s i _ Hi' Hb Eb)).
  - intros Hall. assert (Hb : forall j, 3 <= j < 3 + Z.of_nat 29 -> body j s = Ok None s).
    { intros j Hj. apply Hno. intros Ej. apply (Hall j). split; [unfold USER_FILE_TABLE_START, OPEN_FILE_MAX; lia|done]. }
    by rewrite (bind_ok _ _ _ _ _ (for_exit_none body 3 29 s Hb)).
Qed.

(** ** What a task starts with *)

(** The table as [fd_table_init] makes it. *)
Record fds_made (m : memory) (t : Z) : Prop := {
  fm_std : fd_at m t 0 = 0 /\ fd_at m t 1 = 1 /\ fd_at m t 2 = 2;
  fm_free : forall i, 3 <= i < FD_MAX -> fd_at m t i = u32 (-1)
}.

Lemma fd_table_init_run t s :
  3 <= FD_MAX ->
  exists m', fd_table_init t s = Ok tt (set_mem m' s) /\ fds_made m' t /\ changed_only (fds_at t) (mem s) m'.
Proof.
  intros Hfd. unfold fd_table_init.
  set (m0 := put32 (put32 (put32 (mem s) (t + task_struct.fd_table + 4 * 0) 0) (t + task_struct.fd_table + 4 * 1) 1)
    (t + task_struct.fd_table + 4 * 2) 2).
  assert (C0 : changed_only (fds_at t) (mem s) m0).
  { intros b Hb. unfold fds_at in Hb. unfold m0. offsets. rewrite !get8_put32_ne by lia. done. }
  assert (Hw : wp (for_ 3 (Z.to_nat (FD_MAX - 3)) (fun i => st32 (t + task_struct.fd_table + 4 * i) (-1)))
    (fun _ s' => exists m', s' = set_mem m' s /\ fds_made m' t /\ changed_only (fds_at t) (mem s) m') (set_mem m0 s)).
  { apply wp_for with (I := fun n s' => exists m', s' = set_mem m' s /\
      (fd_at m' t 0 = 0 /\ fd_at m' t 1 = 1 /\ fd_at m' t 2 = 2) /\
      (forall i, 3 <= i < n -> fd_at m' t i = u32 (-1)) /\ changed_only (fds_at t) (mem s) m').
    - exists m0. split_and!; [done|..|intros i Hi; lia|done]; unfold fd_at, m0;
        repeat first [rewrite get32_put32_eq | rewrite get32_put32_ne by lia]; done.
    - intros i s' Hi (m' & -> & (F0 & F1 & F2) & Hf & Hc). wstep. msimpl. eexists. split; [reflexivity|].
      unfold fd_at in *. split_and!; [rewrite get32_put32_ne by lia; done..| |].
      + intros j Hj. destruct (decide (j = i)) as [->|Hne]; [apply get32_put32_eq|].
        rewrite get32_put32_ne by lia. apply Hf. lia.
      + eapply changed_trans; [exact Hc|]. apply changed_put32. intros b Hb. unfold fds_at. offsets. lia.
    - intros s' (m' & -> & H1 & H2 & H3). exists m'. split_and!; [done| |done]. constructor; [done|].
      intros i Hi. apply H2. lia. }
  apply wp_run in Hw as ([] & s' & E & m' & -> & H). exists m'. split; [|done].
  do 3 (erewrite bind_ok by reflexivity; cbv beta). exact E.
Qed.

(** A task made by [thread_start] or [process_execute] has none. *)
Lemma new_task_fds dir m base prio pid name func arg i :
  new_task_in dir m base prio pid name func arg -> 0 <= i < FD_MAX -> fd_at m base i = 0.
Proof.
  intros Hn Hi. pose proof (nt_fds _ _ _ _ _ _ _ _ Hn) as Hz. unfold fds_zero, fds_at in Hz.
  assert (Z8 : forall b, base + task_struct.fd_table + 4 * i <= b < base + task_struct.fd_table + 4 * i + 4 -> get8 m b = 0).
  { intros b Hb. apply Hz. offsets. lia. }
  unfold fd_at, get32, get16. by rewrite !Z8 by lia.
Qed.
End Fd.

(** ** The contract *)
Section Contract.
Context {PL : Platform} {LK : Linker}.

End Contract.

(** ** Concrete instances *)

(** The task that runs on the demonstration machine, with a table of descriptors. *)
Definition demo_fd_machine : machine :=
  set_mem (put32 (mem demo_sched_machine) (demo_main + task_struct.fd_table + 4 * 4) (u32 (-1))) demo_sched_machine.

