(* ===== verification/Dir.v ===== *)
(** * Directories (fs/dir.c)

    Directories are files of fixed-size entries.  The root directory stays
    open; other directories are opened and closed with their inodes. *)

From S2P Require Import Prelude Machine Concrete Interrupt CString Bitmap DList Paging Tss Sched Lock Memory Malloc Stdio Disk Inode File.

#[local] Open Scope Z_scope.

Definition FILENAME_LEN : Z := 64.
Definition DIRECT_BLK_CNT : Z := 12.
Definition BLK_POINTER_SIZE : Z := 4.
Definition ROOT_INODE : Z := 0.

Inductive entry_type := ET_UNKOWN | ET_FILE | ET_DIRECTORY.

Definition entry_code (t : entry_type) : Z :=
  match t with ET_UNKOWN => 0 | ET_FILE => 1 | ET_DIRECTORY => 2 end.

Module dir_entry.
Definition inode_no : Z := 0.
Definition name : Z := 4.
Definition type : Z := 68.
Definition sizeof : Z := 72.
End dir_entry.

Module dir_t.
Definition inode : Z := 0.
Definition offset : Z := 4.
Definition dir_buf : Z := 8.
Definition sizeof : Z := 520.
End dir_t.

Section Dir.
Context {PL : Platform} {LK : Linker}.

Definition open_root (part : Z) : K unit :=
  sb ← ld32 (part + partition.sb);
  no ← ld32 (sb + super_block.root_inode_no);
  inode ← inode_open part no;
  st32 (sym_root + dir_t.inode) inode;;
  st32 (sym_root + dir_t.offset) 0.

Definition open_dir (part inode_no : Z) : K Z :=
  dir ← sys_malloc dir_t.sizeof;
  inode ← inode_open part (u16 inode_no);
  st32 (dir + dir_t.inode) inode;;
  st32 (dir + dir_t.offset) 0;;
  mret dir.

Definition close_dir (dir : Z) : K unit :=
  if dir =? sym_root then skip
  else
    inode ← ld32 (dir + dir_t.inode);
    inode_close inode;;
    sys_free dir.

Definition set_entry (name inode_no : Z) (type : entry_type) (e : Z) : K unit :=
  n ← strlen name;
  let name_len := u8 n in
  ASSERT (name_len <=? FILENAME_LEN) "fs/dir.c" 44 "set_entry" "name_len <= FILENAME_LEN";;
  memcpy (e + dir_entry.name) name name_len;;
  st32 (e + dir_entry.inode_no) inode_no;;
  st32 (e + dir_entry.type) (entry_code type).

(** The branch taken for a block number 0: a new block, registered in the
    inode or in the block of indirect pointers, with the entry in it. *)
Definition add_in_new_block (d inode all_blks start_lba data_start e buf i : Z) : K unit :=
  let isec := inode + inode_t.i_sectors in
  part ← getv curr_part;
  r ← block_bm_alloc part;
  let lba := u32 r in
  ASSERT (negb (lba =? u32 (-1))) "fs/dir.c" 73 "add_entry" "lba != -1";;
  let blk_bm_idx := u32 (lba - start_lba) in
  ASSERT (negb (blk_bm_idx =? u32 (-1))) "fs/dir.c" 76 "add_entry" "blk_bm_idx != -1";;
  part ← getv curr_part;
  bitmap_sync part blk_bm_idx BLOCK_BITMAP;;
  (if i <? 12 then
     st32 (isec + 4 * i) lba;;
     st32 (all_blks + 4 * i) lba
   else
     lba ← ((if i =? DIRECT_BLK_CNT then
       st32 (isec + 4 * 12) lba;;
       part ← getv curr_part;
       r ← block_bm_alloc part;
       let lba := u32 r in
       when (lba =? u32 (-1)) (
         s12 ← ld32 (isec + 4 * 12);
         part ← getv curr_part;
         bitmap_clear (part + partition.block_bm) (u32 (s12 - start_lba));;
         st32 (isec + 4 * 12) 0;;
         panic_spin "fs/dir.c" 98 "add_entry" ("allocate block bitmap failed!" +:+ nl));;
       let blk_bm_idx := u32 (lba - data_start) in
       ASSERT (negb (blk_bm_idx =? u32 (-1))) "fs/dir.c" 102 "add_entry" "blk_bm_idx != -1";;
       part ← getv curr_part;
       bitmap_sync part blk_bm_idx BLOCK_BITMAP;;
       mret lba
     else mret lba) : K Z);
     st32 (all_blks + 4 * 12) lba;;
     s12 ← ld32 (isec + 4 * 12);
     ide_write d s12 (all_blks + 4 * 12) 1);;
  memset buf 0 SECTOR_SIZE;;
  memcpy buf e dir_entry.sizeof;;
  b ← ld32 (all_blks + 4 * i);
  ide_write d b buf 1;;
  size ← ld32 (inode + inode_t.i_size);
  st32 (inode + inode_t.i_size) (size + dir_entry.sizeof);;
  sys_free all_blks.

(** The search for a free entry in an allocated block. *)
Definition add_in_block (d inode all_blks e buf i : Z) : K (option unit) :=
  b ← ld32 (all_blks + 4 * i);
  ide_read d b buf 1;;
  for_exit 0 (Z.to_nat (SECTOR_SIZE / dir_entry.sizeof)) (fun j =>
    let entry := buf + j * dir_entry.sizeof in
    t ← ld32 (entry + dir_entry.type);
    if t =? entry_code ET_UNKOWN then
      memcpy entry e dir_entry.sizeof;;
      b ← ld32 (all_blks + 4 * i);
      ide_write d b buf 1;;
      size ← ld32 (inode + inode_t.i_size);
      st32 (inode + inode_t.i_size) (size + dir_entry.sizeof);;
      sys_free all_blks;;
      mret (Some tt)
    else mret None).

(** [sizeof(all_blks)] is the size of a pointer. *)
Definition add_entry (parent e buf : Z) : K bool :=
  part ← getv curr_part;
  d ← ld32 (part + partition.belong_disk);
  inode ← ld32 (parent + dir_t.inode);
  let blk_cnt := DIRECT_BLK_CNT + SECTOR_SIZE / BLK_POINTER_SIZE in
  sb ← ld32 (part + partition.sb);
  start_lba ← ld32 (sb + super_block.start_lba);
  data_start ← ld32 (sb + super_block.data_start);
  all_blks ← sys_malloc (blk_cnt * BLK_POINTER_SIZE);
  memset all_blks 0 4;;
  r ← for_exit 0 (Z.to_nat blk_cnt) (fun i =>
    b ← ld32 (all_blks + 4 * i);
    if b =? 0 then
      add_in_new_block d inode all_blks start_lba data_start e buf i;;
      mret (Some tt)
    else add_in_block d inode all_blks e buf i);
  match r with
  | Some _ => mret true
  | None =>
      call_printk (str_lit ("directory is full" +:+ nl)) [];;
      sys_free all_blks;;
      mret false
  end.

Definition read_blocks (part dir : Z) : K Z :=
  let direct := DIRECT_BLK_CNT in
  let blk_cnt := direct + SECTOR_SIZE / BLK_POINTER_SIZE in
  all_blks ← sys_malloc (blk_cnt * BLK_POINTER_SIZE);
  memset all_blks 0 4;;
  inode ← ld32 (dir + dir_t.inode);
  let isec := inode + inode_t.i_sectors in
  d ← ld32 (part + partition.belong_disk);
  ASSERT (negb (all_blks =? NULL)) "fs/dir.c" 158 "read_blocks" "all_blks != NULL";;
  for_ 0 (Z.to_nat direct) (fun i =>
    b ← ld32 (isec + 4 * i);
    st32 (all_blks + 4 * i) b);;
  b ← ld32 (isec + 4 * direct);
  when (negb (b =? 0)) (
    b ← ld32 (isec + 4 * direct);
    ide_read d b (all_blks + 4 * direct) 1);;
  mret all_blks.

(** [e = NULL] assigns to the parameter only. *)
Definition find_entry (table name e : Z) : K bool :=
  let entry_cnt := SECTOR_SIZE / dir_entry.sizeof in
  r ← for_exit 0 (Z.to_nat entry_cnt) (fun j =>
    let entry := table + j * dir_entry.sizeof in
    c ← strcmp name (entry + dir_entry.name);
    if c =? 0 then memcpy e entry dir_entry.sizeof;; mret (Some tt) else mret None);
  mret (match r with Some _ => true | None => false end).

Definition dir_exist (part dir name e : Z) : K bool :=
  d ← ld32 (part + partition.belong_disk);
  let blk_cnt := DIRECT_BLK_CNT + SECTOR_SIZE / BLK_POINTER_SIZE in
  all_blks ← read_blocks part dir;
  buf ← sys_malloc SECTOR_SIZE;
  for_exit 0 (Z.to_nat blk_cnt) (fun i =>
    b ← ld32 (all_blks + 4 * i);
    if b =? 0 then mret None
    else
      b ← ld32 (all_blks + 4 * i);
      ide_read d b buf 1;;
      found ← find_entry buf name e;
      if (found : bool) then mret (Some tt)
      else memset buf 0 SECTOR_SIZE;; mret None);;
  sys_free buf;;
  sys_free all_blks;;
  mret (negb (e =? NULL)).
End Dir.
