(* ===== verification/Fs.v ===== *)
(** * The file system (fs/fs.c, fs/file.c: create_file)

    Formatting and mounting of partitions, path parsing, the search for a
    file, and the opening and creation of files. *)

From S2P Require Import Prelude Machine Concrete Interrupt CString Bitmap DList Paging Tss Sched Lock Memory Malloc Stdio Disk Inode File Dir.

#[local] Open Scope Z_scope.

Definition PATH_MAXLEN : Z := 512.
Definition O_RDONLY : Z := 0x0.
Definition O_WRONLY : Z := 0x1.
Definition O_RDWR : Z := 0x2.
Definition O_CREAT : Z := 0x4.
Definition FS_MAGIC : Z := 0xcafebebe.

Inductive file_type := FT_UNKOWN | FT_FILE | FT_DIRECTORY.

Definition file_code (t : file_type) : Z :=
  match t with FT_UNKOWN => 0 | FT_FILE => 1 | FT_DIRECTORY => 2 end.

Module path_record.
Definition prev : Z := 0.
Definition parent : Z := 512.
Definition type : Z := 516.
Definition sizeof : Z := 520.
End path_record.

Section Fs.
Context {PL : Platform} {LK : Linker}.

(** ** Creation of a file *)

Definition create_file (parent filename flag : Z) : K Z :=
  sp ← gets Machine.esp;
  let entry := local_addr "create_file.entry" sp in
  buf ← sys_malloc (SECTOR_SIZE * 2);
  ASSERT (negb (buf =? NULL)) "fs/file.c" 86 "create_file" "buf != NULL";;
  part ← getv curr_part;
  inode_no ← inode_bm_alloc part;
  ASSERT (negb (inode_no =? -1)) "fs/file.c" 90 "create_file" "inode_no != -1";;
  new_inode ← sys_malloc inode_t.sizeof;
  ASSERT (negb (new_inode =? NULL)) "fs/file.c" 93 "create_file" "new_inode != NULL";;
  inode_init (u32 inode_no) new_inode;;
  fidx ← file_table_alloc;
  let f := sym_file_table + fidx * file.sizeof in
  st32 (f + file.fd_inode) new_inode;;
  st32 (f + file.fd_offset) 0;;
  st32 (f + file.fd_flag) flag;;
  i ← ld32 (f + file.fd_inode);
  st8 (i + inode_t.writing) 0;;
  memset entry 0 dir_entry.sizeof;;
  set_entry filename (u32 inode_no) ET_FILE entry;;
  added ← add_entry parent entry buf;
  ASSERT added "fs/file.c" 107 "create_file" "add_entry(parent, &entry, buf)";;
  memset buf 0 4;;
  part ← getv curr_part;
  pinode ← ld32 (parent + dir_t.inode);
  inode_sync part pinode buf;;
  memset buf 0 4;;
  part ← getv curr_part;
  inode_sync part new_inode buf;;
  part ← getv curr_part;
  bitmap_sync part (u32 inode_no) INODE_BITMAP;;
  part ← getv curr_part;
  list_push_back (part + partition.open_inodes) (new_inode + inode_t.i_node);;
  st32 (new_inode + inode_t.open_cnt) 1;;
  sys_free buf;;
  fd_install fidx.

(** ** Formatting *)

(** The numbers of sectors both [init_super_block] and
    [set_free_block_bitmap] compute from the size of the partition. *)
Definition inode_bmap_secs : Z := DIV_ROUND_UP MAX_FILES_PER_PART BITS_PER_SECTOR.
Definition inode_array_secs : Z :=
  DIV_ROUND_UP (inode_t.sizeof * MAX_FILES_PER_PART) BITS_PER_SECTOR.
Definition fb_secs (total_secs : Z) : Z := u32 (total_secs - 2 - inode_bmap_secs - inode_array_secs).

Definition init_super_block (d part sb : Z) : K unit :=
  total_secs ← ld32 (part + partition.count);
  let fb_bmap_secs := DIV_ROUND_UP (fb_secs total_secs) BITS_PER_SECTOR in
  let fb_bmap_secs := DIV_ROUND_UP (fb_secs total_secs - fb_bmap_secs) BITS_PER_SECTOR in
  st32 (sb + super_block.magic_num) FS_MAGIC;;
  st32 (sb + super_block.block_cnt) total_secs;;
  st32 (sb + super_block.inode_cnt) MAX_FILES_PER_PART;;
  start ← ld32 (part + partition.start);
  st32 (sb + super_block.start_lba) start;;
  x ← ld32 (sb + super_block.start_lba);
  st32 (sb + super_block.fb_bmap_addr) (x + 2);;
  st32 (sb + super_block.fb_bmap_size) fb_bmap_secs;;
  x ← ld32 (sb + super_block.fb_bmap_addr);
  y ← ld32 (sb + super_block.fb_bmap_size);
  st32 (sb + super_block.in_bmap_addr) (x + y);;
  st32 (sb + super_block.in_bmap_size) inode_bmap_secs;;
  x ← ld32 (sb + super_block.in_bmap_addr);
  y ← ld32 (sb + super_block.in_bmap_size);
  st32 (sb + super_block.in_array_addr) (x + y);;
  st32 (sb + super_block.in_array_size) inode_array_secs;;
  x ← ld32 (sb + super_block.in_array_addr);
  y ← ld32 (sb + super_block.in_array_addr);
  st32 (sb + super_block.data_start) (x + y);;
  st32 (sb + super_block.root_inode_no) 0;;
  st32 (sb + super_block.root_dir_size) dir_entry.sizeof;;
  call_printk (str_lit (nl +:+ "%s superblock build ok")) [part + partition.name].

Definition set_root_dir (buf buf_size d sb : Z) : K unit :=
  memset buf 0 buf_size;;
  let root := buf in
  memset (root + dir_entry.name) 46 1;;
  st32 (root + dir_entry.inode_no) 0;;
  st32 (root + dir_entry.type) (entry_code ET_DIRECTORY);;
  let root := buf + dir_entry.sizeof in
  memset (root + dir_entry.name) 46 2;;
  st32 (root + dir_entry.inode_no) 0;;
  st32 (root + dir_entry.type) (entry_code ET_DIRECTORY);;
  data_start ← ld32 (sb + super_block.data_start);
  ide_write d data_start buf 1.

Definition set_inode_array (buf buf_size d sb : Z) : K unit :=
  memset buf 0 buf_size;;
  size ← ld32 (sb + super_block.root_dir_size);
  st32 (buf + inode_t.i_size) (size * 2);;
  st32 (buf + inode_t.i_no) 0;;
  data_start ← ld32 (sb + super_block.data_start);
  st32 (buf + inode_t.i_sectors + 4 * 0) data_start;;
  addr ← ld32 (sb + super_block.in_array_addr);
  size ← ld32 (sb + super_block.in_array_size);
  ide_write d addr buf size.

(** The size passed is that of the inode array. *)
Definition set_inode_bitmap (buf buf_size d sb : Z) : K unit :=
  memset buf 0 buf_size;;
  v ← ld8 buf;
  st8 buf (Z.lor v 0x1);;
  addr ← ld32 (sb + super_block.in_bmap_addr);
  size ← ld32 (sb + super_block.in_array_size);
  ide_write d addr buf size.

Definition set_free_block_bitmap (buf buf_size d sb part : Z) : K unit :=
  total_secs ← ld32 (part + partition.count);
  let fb_bmap_secs := DIV_ROUND_UP (fb_secs total_secs) BITS_PER_SECTOR in
  let fb_bmap_len := u32 (fb_secs total_secs - fb_bmap_secs) in
  v ← ld8 buf;
  st8 buf (Z.lor v 0x1);;
  let last_byte := fb_bmap_len / 8 in
  let last_bit := fb_bmap_len mod 8 in
  let last_size := SECTOR_SIZE - last_byte mod SECTOR_SIZE in
  memset (buf + last_byte) 0xff last_size;;
  for_ 0 (Z.to_nat (last_bit + 1)) (fun i =>
    v ← ld8 (buf + last_byte);
    st8 (buf + last_byte) (Z.land v (Z.lnot (Z.shiftl 1 i))));;
  addr ← ld32 (sb + super_block.fb_bmap_addr);
  size ← ld32 (sb + super_block.fb_bmap_size);
  ide_write d addr buf size.

(** [buf_size] counts sectors, but is used as a number of bytes. *)
Definition build_fs (d part : Z) : K unit :=
  sp ← gets Machine.esp;
  let sb := local_addr "build_fs.sb" sp in
  init_super_block d part sb;;
  start ← ld32 (part + partition.start);
  ide_write d (u32 (start + 1)) sb 1;;
  x ← ld32 (sb + super_block.fb_bmap_size);
  y ← ld32 (sb + super_block.in_bmap_size);
  let buf_size := if y <? x then x else y in
  buf ← sys_malloc buf_size;
  set_free_block_bitmap buf buf_size d sb part;;
  set_inode_bitmap buf buf_size d sb;;
  set_inode_array buf buf_size d sb;;
  set_root_dir buf buf_size d sb;;
  sys_free buf.

(** ** Mounting *)

(** One of the two bitmaps: [size] and [addr] are fields of the super block
    read into [buf]. *)
Definition mount_bitmap (d buf bm size addr line : Z) (cond : string) : K unit :=
  part ← getv curr_part;
  n ← ld32 (buf + size);
  let bytes := u32 (n * SECTOR_SIZE) in
  bits ← sys_malloc bytes;
  st32 (part + bm + bitmap.bits) bits;;
  st32 (part + bm + bitmap.length) bytes;;
  bits ← ld32 (part + bm + bitmap.bits);
  ASSERT (negb (bits =? NULL)) "fs/fs.c" line "mount_part" cond;;
  a ← ld32 (buf + addr);
  bits ← ld32 (part + bm + bitmap.bits);
  n ← ld32 (buf + size);
  ide_read d a bits n.

Definition mount_part (part : Z) : K unit :=
  setv (set_curr_part part);;
  part ← getv curr_part;
  d ← ld32 (part + partition.belong_disk);
  buf ← sys_malloc SECTOR_SIZE;
  ASSERT (negb (buf =? NULL)) "fs/fs.c" 175 "mount_part" "buf != NULL";;
  memset buf 0 SECTOR_SIZE;;
  part ← getv curr_part;
  start ← ld32 (part + partition.start);
  ide_read d (u32 (start + 1)) buf 1;;
  part ← getv curr_part;
  sb ← sys_malloc super_block.sizeof;
  st32 (part + partition.sb) sb;;
  sb ← ld32 (part + partition.sb);
  memset sb 0 super_block.sizeof;;
  sb ← ld32 (part + partition.sb);
  memcpy sb buf super_block.sizeof;;
  mount_bitmap d buf partition.block_bm super_block.fb_bmap_size super_block.fb_bmap_addr
    189 "curr_part->block_bm.bits != NULL";;
  mount_bitmap d buf partition.inode_bm super_block.in_bmap_size super_block.in_bmap_addr
    197 "curr_part->inode_bm.bits != NULL";;
  part ← getv curr_part;
  list_init (part + partition.open_inodes);;
  x ← ld32 (part + partition.block_bm + bitmap.length);
  y ← ld32 (part + partition.inode_bm + bitmap.length);
  call_printk (str_lit ("%s mount ok! the block bitmap size: %d, the inode bitmap size: %d" +:+ nl))
    [part + partition.name; x; y].

(** One partition in [fs_init]; only primary partitions can be mounted. *)
Definition check_partition (d sb part : Z) (primary : bool) : K unit :=
  count ← ld32 (part + partition.count);
  when (negb (count =? 0)) (
    memset sb 0 SECTOR_SIZE;;
    start ← ld32 (part + partition.start);
    ide_read d (u32 (start + 1)) sb 1;;
    magic ← ld32 (sb + super_block.magic_num);
    (if magic =? FS_MAGIC then
       call_printk (str_lit ("%s file system ok!" +:+ nl)) [part + partition.name]
     else
       build_fs d part;;
       call_printk (str_lit ("%s build file system." +:+ nl)) [part + partition.name]);;
    when primary (
      c ← strcmp (part + partition.name) (str_lit "sdb1");
      when (c =? 0) (mount_part part))).

Definition fs_init : K unit :=
  sb ← sys_malloc BLOCK_SIZE;
  let channel := sym_channels in
  let d := channel + ide_channel.devices + disk.sizeof in
  for_ 0 (Z.to_nat PRIM_PARTS_CNT) (fun i =>
    check_partition d sb (d + disk.prim_parts + i * partition.sizeof) true);;
  for_ 0 (Z.to_nat LOGIC_PARTS_CNT) (fun i =>
    check_partition d sb (d + disk.logic_parts + i * partition.sizeof) false);;
  sys_free sb;;
  part ← getv curr_part;
  open_root part;;
  for_ 0 (Z.to_nat OPEN_FILE_MAX) (fun i =>
    st32 (sym_file_table + i * file.sizeof + file.fd_inode) NULL).
End Fs.
