(* ===== verification/Format.v ===== *)
(** * The layout of a formatted partition (fs/fs.c: init_super_block, fs/inode.c)

    Where [init_super_block] puts the bitmaps and the inode array, and where
    [get_position] looks for an inode. *)

From S2P Require Import Prelude Machine Concrete Interrupt CString Bitmap DList Paging Tss Sched Lock Memory Malloc Stdio Disk Inode File Dir Fs.

#[local] Open Scope Z_scope.

(** The blocks left for data on a partition of [total] sectors, as
    [set_free_block_bitmap] computes them, and the sectors of their bitmap. *)
Definition data_blocks (total : Z) : Z := total - 79 - DIV_ROUND_UP (total - 79) BITS_PER_SECTOR.
Definition block_map_secs (total : Z) : Z := DIV_ROUND_UP (data_blocks total) BITS_PER_SECTOR.

Lemma fb_secs_run total : 79 < total < 2 ^ 32 -> fb_secs total = total - 79.
Proof.
  intros Ht. unfold fb_secs. change inode_bmap_secs with 1. change inode_array_secs with 76.
  change (2 ^ 32) with 4294967296 in *. rewrite u32_small; lia.
Qed.

Lemma layout_bounds total : 79 < total < 2 ^ 31 ->
  0 <= data_blocks total /\ 4096 * (block_map_secs total - 1) < data_blocks total <= 4096 * block_map_secs total /\
  79 + block_map_secs total + data_blocks total <= total /\ 0 <= block_map_secs total.
Proof. 
  intros Ht. change (2 ^ 31) with 2147483648 in *. unfold block_map_secs, data_blocks, DIV_ROUND_UP, BITS_PER_SECTOR.
  rewrite (u32_small (total - 79 + 4096 - 1)) by lia.
  assert (H : let m := (total - 79 + 4096 - 1) / 4096 in 0 <= m <= total - 79 /\ total - 79 <= 4096 * m) by zlia.
  cbv zeta in H. generalize dependent ((total - 79 + 4096 - 1) / 4096). intros m H.
  rewrite u32_small by lia. zlia.
Qed.

Section Format.
Context {PL : Platform} {LK : Linker}.

(** The sectors an inode is read from. *)
Definition sectors (p : inode_pos) : Z := if cross_sector p then 2 else 1.

Lemma get_position_run part no s array :
  0 <= no < 4096 -> get32 (mem s) (get32 (mem s) (part + partition.sb) + super_block.in_array_addr) = array ->
  0 <= array < 2 ^ 31 ->
  exists p, get_position part no s = Ok p s /\
    512 * lba p + offset p = 512 * array + 76 * no /\ 0 <= offset p < 512 /\
    offset p + 76 <= 512 * sectors p /\ (sectors p = 2 -> 512 < offset p + 76).
Proof.
  intros Hn Ha Hr. eexists. split.
  - unfold get_position. erewrite bind_ok by (apply assert_run; apply Z.ltb_lt; unfold MAX_FILES_PER_PART; lia).
    cbv beta. erewrite bind_ok by reflexivity. cbv beta. erewrite bind_ok by reflexivity. cbv beta zeta. rewrite Ha. reflexivity.
  - cbn [lba offset sectors cross_sector]. unfold SECTOR_SIZE, sectors, cross_sector. change inode_t.sizeof with 76.
    rewrite !u32_small by zlia. destruct (Z.ltb_spec 512 ((no * 76) mod 512 + 76)); zlia.
Qed.

(** *** The super block *)

(** A super block at [sb] for the [total] sectors from [start] on. *)
Record super_made (m : memory) (sb total start : Z) : Prop := {
  su_magic : get32 m (sb + super_block.magic_num) = FS_MAGIC;
  su_blocks : get32 m (sb + super_block.block_cnt) = total;
  su_inodes : get32 m (sb + super_block.inode_cnt) = 4096;
  su_start : get32 m (sb + super_block.start_lba) = start;
  su_map_addr : get32 m (sb + super_block.fb_bmap_addr) = start + 2;
  su_map_size : get32 m (sb + super_block.fb_bmap_size) = block_map_secs total;
  su_in_addr : get32 m (sb + super_block.in_bmap_addr) = start + 2 + block_map_secs total;
  su_in_size : get32 m (sb + super_block.in_bmap_size) = 1;
  su_array_addr : get32 m (sb + super_block.in_array_addr) = start + 2 + block_map_secs total + 1;
  su_array_size : get32 m (sb + super_block.in_array_size) = 76;
  su_data : get32 m (sb + super_block.data_start) = 2 * (start + 2 + block_map_secs total + 1);
  su_root : get32 m (sb + super_block.root_inode_no) = 0;
  su_root_size : get32 m (sb + super_block.root_dir_size) = 72
}.

Ltac sboff :=
  unfold super_block.magic_num, super_block.block_cnt, super_block.inode_cnt, super_block.start_lba,
    super_block.fb_bmap_addr, super_block.fb_bmap_size, super_block.in_bmap_addr, super_block.in_bmap_size,
    super_block.in_array_addr, super_block.in_array_size, super_block.data_start, super_block.root_inode_no,
    super_block.root_dir_size, super_block.sizeof in *.

Definition super_msg : string := nl +:+ "%s superblock build ok".

Definition super_written (m : memory) (sb total start : Z) : memory :=
  let array := start + 2 + block_map_secs total + 1 in
  let m := put32 m (sb + super_block.magic_num) FS_MAGIC in
  let m := put32 m (sb + super_block.block_cnt) total in
  let m := put32 m (sb + super_block.inode_cnt) MAX_FILES_PER_PART in
  let m := put32 m (sb + super_block.start_lba) start in
  let m := put32 m (sb + super_block.fb_bmap_addr) (start + 2) in
  let m := put32 m (sb + super_block.fb_bmap_size) (block_map_secs total) in
  let m := put32 m (sb + super_block.in_bmap_addr) (start + 2 + block_map_secs total) in
  let m := put32 m (sb + super_block.in_bmap_size) inode_bmap_secs in
  let m := put32 m (sb + super_block.in_array_addr) array in
  let m := put32 m (sb + super_block.in_array_size) inode_array_secs in
  let m := put32 m (sb + super_block.data_start) (array + array) in
  let m := put32 m (sb + super_block.root_inode_no) 0 in
  put32 m (sb + super_block.root_dir_size) dir_entry.sizeof.

Ltac sread := repeat first [rewrite get32_put32_eq | rewrite get32_put32_ne by (sboff; lia)].

Lemma super_written_made m sb total start :
  79 < total -> 0 <= start -> start + total < 2 ^ 31 -> super_made (super_written m sb total start) sb total start.
Proof.
  intros Ht Hs Hst. change (2 ^ 31) with 2147483648 in *. destruct (layout_bounds total) as (L1 & L2 & L3 & L4); [lia|].
  unfold super_written. change inode_bmap_secs with 1. change inode_array_secs with 76. cbv zeta.
  constructor; sread; try reflexivity; rewrite u32_small by lia; lia.
Qed.

Lemma super_written_changed m sb total start :
  changed_only (fun b => sb <= b < sb + 52) m (super_written m sb total start).
Proof. intros b Hb. unfold super_written. cbv zeta. sboff. rewrite !get8_put32_ne by lia. done. Qed.

Lemma init_super_block_run d part sb s :
  let total := get32 (mem s) (part + partition.count) in
  let start := get32 (mem s) (part + partition.start) in
  79 < total -> start + total < 2 ^ 31 -> sb + 52 <= part \/ part + 8 <= sb ->
  init_super_block d part sb s
    = call_printk (str_lit super_msg) [part + partition.name] (set_mem (super_written (mem s) sb total start) s).
Proof.
  intros total start Ht Hst Hap. pose proof (get32_range (mem s) (part + partition.start)) as Hs0. fold start in Hs0.
  change (2 ^ 31) with 2147483648 in *. destruct (layout_bounds total) as (L1 & L2 & L3 & L4); [lia|].
  assert (Ef : fb_secs total = total - 79) by (apply fb_secs_run; change (2 ^ 32) with 4294967296; lia).
  unfold init_super_block. cbv zeta. erewrite bind_ok by reflexivity. cbv beta. fold total. rewrite Ef.
  fold (data_blocks total). fold (block_map_secs total). srun.
  sread. rewrite ?(get32_put32_ne _ _ _ (part + partition.start)) by (sboff; unfold partition.start; lia).
  fold start. sread. change (u32 inode_bmap_secs) with 1. rewrite !u32_small by lia. reflexivity.
Qed.

(** *** The bitmap of the free blocks *)

(** The loop that clears the bits from 0 to [n - 1] of the byte at [a]. *)
Lemma clear_bits_run a n s :
  0 <= n <= 8 -> get8 (mem s) a = 255 ->
  exists m', for_ 0 (Z.to_nat n) (fun i => v ← ld8 a; st8 a (Z.land v (Z.lnot (Z.shiftl 1 i)))) s = Ok tt (set_mem m' s) /\
    (forall k, 0 <= k < 8 -> Z.testbit (get8 m' a) k = (n <=? k)) /\ changed_only (eq a) (mem s) m'.
Proof.
  intros Hn Ha.
  assert (Hw : wp (for_ 0 (Z.to_nat n) (fun i => v ← ld8 a; st8 a (Z.land v (Z.lnot (Z.shiftl 1 i)))))
    (fun _ s' => exists m', s' = set_mem m' s /\
      (forall k, 0 <= k < 8 -> Z.testbit (get8 m' a) k = (n <=? k)) /\ changed_only (eq a) (mem s) m') s).
  { apply wp_for with (I := fun i s' => exists m', s' = set_mem m' s /\
      (forall k, 0 <= k < 8 -> Z.testbit (get8 m' a) k = (i <=? k)) /\ changed_only (eq a) (mem s) m').
    - exists (mem s). rewrite set_mem_id. split_and!; [done| |apply changed_refl]. intros k Hk. rewrite Ha.
      rewrite (proj2 (Z.leb_le 0 k)) by lia. change 255 with (Z.ones 8). by rewrite Z.ones_spec_low.
    - intros i s' Hi (m' & -> & Hb & Hc). do 2 wstep. cbv beta. msimpl. eexists. split; [reflexivity|]. split.
      + intros k Hk. rewrite get8_put8_eq. unfold u8. rewrite Z.mod_pow2_bits_low by lia.
        rewrite Z.land_spec, Z.lnot_spec, Hb, Z.shiftl_1_l, Z.pow2_bits_eqb by lia.
        destruct (Z.eqb_spec i k), (Z.leb_spec i k), (Z.leb_spec (i + 1) k); lia || done.
      + eapply changed_trans; [exact Hc|]. by apply changed_put8.
    - intros s' (m' & -> & H). exists m'. rewrite Z2Nat.id in H by lia. rewrite Z.add_0_l in H. done. }
  apply wp_run in Hw as ([] & s' & E & m' & -> & H). by exists m'.
Qed.

(** Bit [j] of the bitmap at [buf]; the end of the sector that the last of
    [len] bits is in. *)
Definition bit_at (m : memory) (buf j : Z) : bool := Z.testbit (get8 m (buf + j / 8)) (j mod 8).
Definition map_bytes (len : Z) : Z := 512 * (len / 4096 + 1).

Lemma set_free_block_bitmap_run buf n d sb part s :
  let total := get32 (mem s) (part + partition.count) in
  let len := data_blocks total in
  79 < total < 2 ^ 31 -> 0 < buf -> (forall b, buf <= b < buf + map_bytes len -> ~ (sb <= b < sb + 52)) ->
  exists m', set_free_block_bitmap buf n d sb part s
      = ide_write d (get32 (mem s) (sb + super_block.fb_bmap_addr)) buf (get32 (mem s) (sb + super_block.fb_bmap_size))
          (set_mem m' s) /\
    (forall j, 8 * (len / 8) <= j < 8 * map_bytes len -> bit_at m' buf j = (len <? j)) /\
    (forall j, 1 <= j < 8 * (len / 8) -> bit_at m' buf j = bit_at (mem s) buf j) /\
    (8 <= len -> bit_at m' buf 0 = true) /\
    changed_only (fun b => buf <= b < buf + map_bytes len) (mem s) m'.
Proof.
  intros total len Ht Hb Hap. destruct (layout_bounds total) as (L1 & _ & L3 & L4); [done|]. fold len in L1, L3.
  change (2 ^ 31) with 2147483648 in *. pose proof (Z.div_pos len 8 L1 ltac:(lia)) as Hq.
  assert (Ef : fb_secs total = total - 79) by (apply fb_secs_run; change (2 ^ 32) with 4294967296; lia).
  assert (El : u32 (fb_secs total - DIV_ROUND_UP (fb_secs total) BITS_PER_SECTOR) = len)
    by (rewrite Ef; apply u32_small; fold (data_blocks total); fold len; lia).
  set (a := buf + len / 8). set (size := 512 - (len / 8) mod 512). unfold map_bytes in *.
  assert (Hsz : 0 < size /\ a + size = buf + 512 * (len / 4096 + 1)) by (unfold a, size; zlia).
  set (m1 := put8 (mem s) buf (Z.lor (get8 (mem s) buf) 1)).
  set (m2 := put_bytes m1 a (replicate (Z.to_nat size) 0xff)).
  assert (H2 : forall b, get8 m2 b = if decide (a <= b < a + size) then 255 else get8 m1 b).
  { intros b. unfold m2. rewrite get8_put_bytes_replicate, Z2Nat.id by lia. done. }
  destruct (clear_bits_run a (len mod 8 + 1) (set_mem m2 s)) as (m3 & E3 & B3 & C3);
    [zlia|msimpl; by rewrite H2, decide_True by lia|]. msimpl.
  assert (H3 : forall b, b <> a -> get8 m3 b = get8 m2 b) by (intros b Hne; apply C3; congruence).
  assert (C : changed_only (fun b => buf <= b < buf + 512 * (len / 4096 + 1)) (mem s) m3).
  { intros b Hnb. rewrite H3, H2, decide_False by lia. apply get8_put8_ne. lia. }
  exists m3. split_and!; [| | | |exact C].
  - unfold set_free_block_bitmap. erewrite bind_ok by reflexivity. cbv beta zeta. fold total. rewrite El.
    erewrite bind_ok by reflexivity. cbv beta. erewrite bind_ok by reflexivity. cbv beta.
    rewrite (bind_ok _ _ _ _ _ (memset_run a 0xff size (set_mem m1 s) ltac:(lia))). msimpl. fold m2.
    change (set_mem m2 (set_mem m1 s)) with (set_mem m2 s). fold a. rewrite (bind_ok _ _ _ _ _ E3).
    erewrite bind_ok by reflexivity. cbv beta. erewrite bind_ok by reflexivity. cbv beta. msimpl.
    rewrite !(changed_get32 _ _ _ _ C) by (sboff; intros b Hb1 Hb2; apply (Hap b Hb2); lia). reflexivity.
  - intros j Hj. unfold bit_at. destruct (decide (j / 8 = len / 8)) as [E|Hne].
    + rewrite E. fold a. rewrite B3 by zlia. destruct (Z.leb_spec (len mod 8 + 1) (j mod 8)), (Z.ltb_spec len j); zlia || done.
    + assert (Hj8 : len / 8 < j / 8 < 512 * (len / 4096 + 1)) by zlia.
      rewrite H3 by (unfold a; lia). rewrite H2, decide_True by (unfold a in *; lia).
      change 255 with (Z.ones 8). rewrite Z.ones_spec_low by zlia. symmetry. apply Z.ltb_lt. zlia.
  - intros j Hj. unfold bit_at. rewrite H3 by (unfold a; zlia). rewrite H2, decide_False by (unfold a; zlia).
    unfold m1. destruct (decide (j / 8 = 0)) as [E0|Hne]; [|by rewrite get8_put8_ne by lia].
    rewrite E0, Z.add_0_r, get8_put8_eq, testbit_u8, Z.lor_spec by zlia. rewrite (proj2 (Z.ltb_lt (j mod 8) 8)) by zlia.
    rewrite andb_true_l. change 1 with (2 ^ 0) at 1. rewrite Z.pow2_bits_false by zlia. apply orb_false_r.
  - intros Hl. unfold bit_at. cbn [Z.div]. rewrite Z.div_0_l, Z.mod_0_l by lia.
    rewrite H3 by (unfold a; zlia). rewrite H2, decide_False by (unfold a; zlia). unfold m1.
    rewrite Z.add_0_r, get8_put8_eq, testbit_u8, Z.lor_spec by lia. by rewrite orb_true_r.
Qed.
End Format.

(** ** The contract *)
Section Contract.
Context {PL : Platform} {LK : Linker}.

(** C35: Formatting a partition of [total] sectors.  The super block puts the
    bitmap of the free blocks, the bitmap of the inodes and the inode array one
    after the other behind the boot block and itself; the first bitmap has as
    many sectors as its bits need, and all the blocks fit into the partition.
    The data are said to start at twice the sector of the inode array.  In the
    bitmap, bits beyond the blocks are set, but for the first of them: a block
    that does not exist is free; the bits of the other blocks are what the
    buffer held.  An inode lies in the one or two sectors it is read from, at
    a place of its own, but the array has sectors for the first 512 of its
    4096 inodes only. *)
Theorem format_layout d part sb s :
  let total := get32 (mem s) (part + partition.count) in
  let start := get32 (mem s) (part + partition.start) in
  let size := block_map_secs total in let len := data_blocks total in
  79 < total -> start + total < 2 ^ 31 -> sb + 52 <= part \/ part + 8 <= sb ->
  (exists m1, init_super_block d part sb s = call_printk (str_lit super_msg) [part + partition.name] (set_mem m1 s) /\
     super_made m1 sb total start /\ changed_only (fun b => sb <= b < sb + 52) (mem s) m1) /\
  4096 * (size - 1) < len <= 4096 * size /\ 79 + size + len <= total /\
  (forall buf n s2, super_made (mem s2) sb total start -> get32 (mem s2) (part + partition.count) = total ->
     0 < buf -> (forall b, buf <= b < buf + map_bytes len -> ~ (sb <= b < sb + 52)) ->
     exists m2, set_free_block_bitmap buf n d sb part s2 = ide_write d (start + 2) buf size (set_mem m2 s2) /\
       (forall j, 8 * (len / 8) <= j < 8 * map_bytes len -> bit_at m2 buf j = (len <? j)) /\
       (forall j, 1 <= j < 8 * (len / 8) -> bit_at m2 buf j = bit_at (mem s2) buf j) /\
       (8 <= len -> bit_at m2 buf 0 = true)) /\
  (forall no s3, 0 <= no < 4096 -> super_made (mem s3) (get32 (mem s3) (part + partition.sb)) total start ->
     exists p, get_position part no s3 = Ok p s3 /\
       let array := start + 2 + size + 1 in
       512 * lba p + offset p = 512 * array + 76 * no /\ 0 <= offset p /\ offset p + 76 <= 512 * sectors p /\
       (lba p + sectors p <= array + 76 <-> no < 512)).
Proof.
  intros total start size len Ht Hst Hap. pose proof (get32_range (mem s) (part + partition.start)) as Hs0.
  fold start in Hs0. change (2 ^ 31) with 2147483648 in *.
  destruct (layout_bounds total) as (L1 & L2 & L3 & L4); [lia|]. fold len size in L1, L2, L3, L4. split_and!; [|lia|lia|lia| |].
  - eexists. split; [by apply init_super_block_run|]. split; [by apply super_written_made; lia|apply super_written_changed].
  - intros buf n s2 Hsm Ec Hb Hap2.
    pose proof (set_free_block_bitmap_run buf n d sb part s2) as H. cbv zeta in H. rewrite Ec in H.
    destruct H as (m2 & E & B1 & B2 & B3 & _); [change (2 ^ 31) with 2147483648; lia|done|done|].
    exists m2. rewrite E, (su_map_addr _ _ _ _ Hsm), (su_map_size _ _ _ _ Hsm). by split_and!.
  - intros no s3 Hno Hsm. pose proof (su_array_addr _ _ _ _ Hsm) as Ha. fold size in Ha.
    destruct (get_position_run part no s3 _ Hno Ha) as (p & E & P1 & P2 & P3 & P4); [change (2 ^ 31) with 2147483648; lia|].
    exists p. cbv zeta. split_and!; [done|done|lia|done|]. split; intros Hl.
    + unfold sectors in *. destruct (cross_sector p); lia.
    + destruct (cross_sector p) eqn:Ecr; unfold sectors in *; rewrite Ecr in *; [specialize (P4 eq_refl)|clear P4]; lia.
Qed.
End Contract.

(** ** A concrete instance *)

(** A partition of 10000 sectors from 2048 on, described at 0x1000, its super
    block at 0x3000. *)
Definition demo_format : memory :=
  put32 (put32 (put32 ∅ (0x1000 + partition.start) 2048) (0x1000 + partition.count) 10000) (0x1000 + partition.sb) 0x3000.

Definition demo_formatted : memory := super_written demo_format 0x3000 10000 2048.

Lemma format_layout_witness :
  let s := demo_machine demo_format in
  (exists m1, init_super_block 0 0x1000 0x3000 s = call_printk (str_lit super_msg) [0x1000 + partition.name] (set_mem m1 s) /\
     super_made m1 0x3000 10000 2048) /\
  (exists m2, set_free_block_bitmap 0x9000 3 0 0x3000 0x1000 (demo_machine demo_formatted)
       = ide_write 0 2050 0x9000 3 (set_mem m2 (demo_machine demo_formatted)) /\
     bit_at m2 0x9000 9918 = false /\ bit_at m2 0x9000 9919 = true) /\
  exists p, get_position 0x1000 600 (demo_machine demo_formatted) = Ok p (demo_machine demo_formatted) /\
    2054 + 76 < lba p + sectors p.
Proof.
  intros s.
  assert (E1 : get32 (mem s) (0x1000 + partition.count) = 10000) by (by vm_compute).
  assert (E2 : get32 (mem s) (0x1000 + partition.start) = 2048) by (by vm_compute).
  pose proof (format_layout 0 0x1000 0x3000 s) as H. cbv zeta in H. rewrite E1, E2 in H.
  destruct H as ((m1 & A1 & A2 & _) & _ & _ & B & C); [lia|change (2 ^ 31) with 2147483648; lia|right; lia|].
  assert (Hm : super_made demo_formatted 0x3000 10000 2048)
    by (apply super_written_made; [lia|lia|change (2 ^ 31) with 2147483648; lia]).
  split; [exists m1; split; [exact A1|exact A2]|split].
  - destruct (B 0x9000 3 (demo_machine demo_formatted) Hm) as (m2 & E & H1 & _); [by vm_compute|lia| |].
    { change (map_bytes (data_blocks 10000)) with 1536. lia. }
    change (2048 + 2) with 2050 in E. change (block_map_secs 10000) with 3 in E.
    exists m2. split; [exact E|]. change (data_blocks 10000) with 9918 in H1. change (map_bytes 9918) with 1536 in H1.
    rewrite !H1 by (change (8 * (9918 / 8)) with 9912; lia). split; reflexivity.
  - destruct (C 600 (demo_machine demo_formatted)) as (p & E & P1 & P2 & P3 & P4); [lia| |].
    { replace (get32 _ _) with 0x3000 by (by vm_compute). exact Hm. }
    exists p. split; [exact E|]. change (block_map_secs 10000) with 3 in P4. lia.
Defined.
