(* ===== verification/Path.v ===== *)
(** * Paths and open (fs/fs.c: parse_path .. sys_open)

    The decomposition of paths, the search for a file along a path, and the
    system call that opens or creates a file. *)

From S2P Require Import Prelude Machine Concrete Interrupt CString Bitmap DList Paging Tss Sched Lock Memory Malloc Stdio Disk Inode File Dir Fs.

#[local] Open Scope Z_scope.

Section Path.
Context {PL : Platform} {LK : Linker}.

Definition parse_path (path first : Z) : K Z :=
  c ← (if path =? NULL then mret 0 else ld8 path);
  if c =? 0 then mret NULL
  else
    path ← while_ (fun path =>
      c ← ld8 path;
      if c =? 47 then mret (inl (path + 1)) else mret (inr path)) path;
    while_ (fun '(path, first) =>
      c ← ld8 path;
      if negb (c =? 47) && negb (c =? 0) then
        st8 first c;; mret (inl (path + 1, first + 1))
      else mret (inr path)) (path, first).

(** One round of the loop of [path_depth]; it parses [p], not [path]. *)
Definition path_depth_body (buf p : Z) : Z * Z -> K (Z * Z + Z) := fun '(path, depth) =>
  c ← (if path =? NULL then mret 0 else ld8 path);
  if c =? 0 then mret (inr depth)
  else
    path ← parse_path p buf;
    c ← ld8 path;
    if c =? 0 then mret (inr depth)
    else
      memset buf 0 FILENAME_LEN;;
      mret (inl (path, u32 (depth + 1))).

Definition path_depth (path : Z) : K Z :=
  ASSERT (negb (path =? NULL)) "fs/fs.c" 308 "path_depth" "path != NULL";;
  sp ← gets Machine.esp;
  let buf := local_addr "path_depth.buf" sp in
  let p := local_addr "path_depth.p" sp in
  strcpy p path;;
  while_ (path_depth_body buf p) (path, 0).

Definition root_paths : list string := ["/"; "/.."; "/."].

Definition is_root (path record : Z) : K bool :=
  r ← for_exit 0 3 (fun i =>
    c ← strcmp path (str_lit (nth (Z.to_nat i) root_paths EmptyString));
    if c =? 0 then
      st32 (record + path_record.parent) sym_root;;
      memset (record + path_record.prev) 0 PATH_MAXLEN;;
      st32 (record + path_record.type) (file_code FT_DIRECTORY);;
      mret (Some tt)
    else mret None);
  mret (match r with Some _ => true | None => false end).

Definition path_valid (path : Z) : K bool :=
  path_len ← strlen path;
  if 1 <? path_len then
    c ← ld8 path;
    mret ((c =? 47) && (path_len <? PATH_MAXLEN))
  else mret false.

(** One round of the loop of [search_file]; it carries [sub], [parent] and
    [pinode_no], and is left with the value to return, or with [pinode_no]. *)
Definition search_body (record name entry : Z) : Z * Z * Z -> K (Z * Z * Z + (Z + Z)) :=
  fun '(sub, parent, pinode_no) =>
  c ← ld8 name;
  if c =? 0 then mret (inr (inr pinode_no))
  else
    strcat (record + path_record.prev) (str_lit "/");;
    strcat (record + path_record.prev) name;;
    part ← getv curr_part;
    found ← dir_exist part parent name entry;
    if negb found then mret (inr (inl (u32 (-1))))
    else
      memset name 0 FILENAME_LEN;;
      sub ← (if negb (sub =? NULL) then parse_path sub name else mret sub);
      t ← ld32 (entry + dir_entry.type);
      if t =? entry_code ET_DIRECTORY then
        inode ← ld32 (parent + dir_t.inode);
        pinode_no ← ld32 (inode + inode_t.i_no);
        close_dir parent;;
        part ← getv curr_part;
        no ← ld32 (entry + dir_entry.inode_no);
        parent ← open_dir part no;
        st32 (record + path_record.parent) parent;;
        mret (inl (sub, parent, pinode_no))
      else if t =? entry_code ET_FILE then
        st32 (record + path_record.type) (file_code FT_FILE);;
        no ← ld32 (entry + dir_entry.inode_no);
        mret (inr (inl no))
      else mret (inl (sub, parent, pinode_no)).

Definition search_file (path record : Z) : K Z :=
  root_path ← is_root path record;
  if (root_path : bool) then mret ROOT_INODE
  else
    valid ← path_valid path;
    ASSERT valid "fs/fs.c" 364 "search_file" "path_valid(path)";;
    sp ← gets Machine.esp;
    let entry := local_addr "search_file.entry" sp in
    let name := local_addr "search_file.name" sp in
    memset name 0 FILENAME_LEN;;
    st32 (record + path_record.parent) sym_root;;
    st32 (record + path_record.type) (file_code FT_UNKOWN);;
    sub ← parse_path path name;
    r ← while_ (search_body record name entry) (sub, sym_root, 0);
    match r with
    | inl res => mret res
    | inr pinode_no =>
        parent ← ld32 (record + path_record.parent);
        close_dir parent;;
        part ← getv curr_part;
        parent ← open_dir part pinode_no;
        st32 (record + path_record.parent) parent;;
        st32 (record + path_record.type) (file_code FT_DIRECTORY);;
        ld32 (entry + dir_entry.inode_no)
    end.

Definition is_directory (path : Z) : K bool :=
  if path =? NULL then mret false
  else
    n ← strlen path;
    if 0 <? n then
      n ← strlen path;
      c ← ld8 (path + n - 1);
      mret (c =? 47)
    else mret false.

(** Leaving [sys_open] without a descriptor: a message and [close_dir]. *)
Definition refuse (record : Z) : K Z :=
  parent ← ld32 (record + path_record.parent);
  close_dir parent;;
  mret (-1).

Definition sys_open (path flag : Z) : K Z :=
  dir ← is_directory path;
  ASSERT (negb dir) "fs/fs.c" 433 "sys_open" "!is_directory(path)";;
  ASSERT ((flag =? O_RDONLY) || (flag =? O_RDWR) || (flag =? O_WRONLY) || (flag =? O_CREAT))
    "fs/fs.c" 434 "sys_open"
    "flag == O_RDONLY || flag == O_RDWR || flag == O_WRONLY || flag == O_CREAT";;
  sp ← gets Machine.esp;
  let record := local_addr "sys_open.record" sp in
  memset record 0 path_record.sizeof;;
  no ← search_file path record;
  let inode_no := s32 no in
  pdepth ← path_depth path;
  type ← ld32 (record + path_record.type);
  if type =? file_code FT_DIRECTORY then
    call_printk (str_lit ("can't open a directory with open()" +:+ nl)) [];;
    refuse record
  else
    rdepth ← path_depth (record + path_record.prev);
    if negb (pdepth =? rdepth) then
      call_printk (str_lit ("can't access %s: not a directory, there're no %s" +:+ nl))
        [path; record + path_record.prev];;
      refuse record
    else if (inode_no =? -1) && (Z.land flag O_CREAT =? 0) then
      call_printk (str_lit ("file %s not exist!" +:+ nl)) [path];;
      refuse record
    else if negb (inode_no =? -1) && negb (Z.land flag O_CREAT =? 0) then
      call_printk (str_lit ("%d" +:+ nl)) [u32 inode_no];;
      call_printk (str_lit "%s has already exist!") [path];;
      refuse record
    else if Z.land flag O_CREAT =? O_CREAT then
      call_printk (str_lit ("creating file!" +:+ nl)) [];;
      p ← strrchr path 47;
      parent ← ld32 (record + path_record.parent);
      fd ← create_file parent (p + 1) flag;
      parent ← ld32 (record + path_record.parent);
      close_dir parent;;
      mret fd
    else mret (-1).
End Path.

(** ** Splitting a path *)

(** The path [l] is [k] slashes, a name, and what follows the name. *)
Record path_split (l : list Z) (k : nat) (name rest : list Z) : Prop := {
  sp_eq : l = replicate k 47 ++ name ++ rest;
  sp_name : Forall (fun c => c <> 47) name;
  sp_rest : rest = [] \/ exists r, rest = 47 :: r;
  sp_end : name = [] -> rest = []
}.

Lemma name_split l :
  exists name rest, l = name ++ rest /\ Forall (fun c => c <> 47) name /\
    (rest = [] \/ exists r, rest = 47 :: r) /\ (name = [] -> rest = l).
Proof.
  induction l as [|c l (name & rest & -> & Hn & Hr & He)].
  - exists [], []. auto.
  - destruct (decide (c = 47)) as [->|Hc].
    + exists [], (47 :: name ++ rest). split_and!; eauto.
    + exists (c :: name), rest. split_and!; [done|by constructor|done|done].
Qed.

Lemma path_split_exists l : exists k name rest, path_split l k name rest.
Proof.
  induction l as [|c l (k & name & rest & Hsp)].
  - exists 0%nat, [], []. by constructor; auto.
  - destruct (decide (c = 47)) as [->|Hc].
    + exists (S k), name, rest. destruct Hsp as [-> ? ? ?]. by constructor.
    + destruct (name_split (c :: l)) as (n & r & E & Hn & Hr & He).
      exists 0%nat, n, r. constructor; [done..|]. intros ->. specialize (He eq_refl) as ->.
      destruct Hr as [|[r' [= -> _]]]; [done|]. by destruct Hc.
Qed.

Section Parse.
Context {PL : Platform} {LK : Linker}.
Implicit Types (l : list Z) (s : machine).

Lemma skip_slashes_loop a k l s :
  cstr (mem s) a (replicate k 47 ++ l) -> (forall r, l <> 47 :: r) -> Z.of_nat k < 2 ^ 33 ->
  while_ (fun path =>
    c ← ld8 path; if c =? 47 then mret (inl (path + 1)) else mret (inr path)) a s
  = Ok (a + Z.of_nat k) s.
Proof.
  intros Hs Hl Hk. apply run_of_wp.
  apply (wp_while _ (fun n p s' => s' = s /\ exists j, n = Z.of_nat j /\
           p + n = a + Z.of_nat k /\ cstr (mem s) p (replicate j 47 ++ l))
           _ _) with (n := Z.of_nat k); [|lia|by eauto].
  intros n p s' _ (-> & j & -> & E & Hp). do 2 wstep. destruct j as [|j].
  - assert (H : get8 (mem s) p <> 47).
    { destruct l as [|c l]; cbn in Hp; [by rewrite Hp|]. destruct Hp as (-> & _ & _).
      intros ->. by apply (Hl l). }
    rewrite (proj2 (Z.eqb_neq _ 47) H). wstep. split; [lia|done].
  - destruct Hp as (-> & _ & Hp). cbn [Z.eqb Pos.eqb]. wstep.
    exists (Z.of_nat j). split; [lia|]. split; [done|]. exists j. split_and!; [done|lia|done].
Qed.

Lemma copy_name_loop a d name rest s :
  cstr (mem s) a (name ++ rest) -> Forall (fun c => c <> 47) name ->
  (rest = [] \/ exists r, rest = 47 :: r) -> Z.of_nat (length name) < 2 ^ 33 ->
  d + Z.of_nat (length name) <= a \/ a + Z.of_nat (length (name ++ rest)) < d ->
  while_ (fun '(path, first) =>
    c ← ld8 path;
    if negb (c =? 47) && negb (c =? 0) then
      st8 first c;; mret (inl (path + 1, first + 1))
    else mret (inr path)) (a, d) s
  = Ok (a + Z.of_nat (length name)) (set_mem (put_bytes (mem s) d name) s).
Proof.
  intros Hs Hn Hr Hl Hsep. apply run_of_wp.
  apply (wp_while _ (fun n '(a', d') s' => exists l1 l2, name = l1 ++ l2 /\
           n = Z.of_nat (length l2) /\ d' = d + Z.of_nat (length l1) /\
           a' = a + Z.of_nat (length l1) /\ s' = set_mem (put_bytes (mem s) d l1) s)
           _ _) with (n := Z.of_nat (length name)); [|lia|].
  2:{ exists [], name. simpl. rewrite !Z.add_0_r, set_mem_id. done. }
  intros n [a' d'] s' _ (l1 & l2 & -> & -> & -> & -> & ->).
  rewrite <- app_assoc in Hs. pose proof (cstr_suffix _ _ _ _ Hs) as Hs2.
  rewrite !length_app in *. do 2 wstep.
  rewrite get8_put_bytes_ne by lia. apply Forall_app in Hn as [_ Hn].
  destruct l2 as [|x l2].
  - assert (H : negb (get8 (mem s) (a + Z.of_nat (length l1)) =? 47) &&
                negb (get8 (mem s) (a + Z.of_nat (length l1)) =? 0) = false).
    { destruct Hr as [->|[r ->]]; cbn in Hs2; [by rewrite Hs2|]. by destruct Hs2 as (-> & _). }
    rewrite H, app_nil_r. wstep. split; [simpl; lia|done].
  - destruct Hs2 as (-> & Hx & Hs2). inversion Hn as [|? ? Hx47 Hn']; subst.
    rewrite (proj2 (Z.eqb_neq x 0) Hx), (proj2 (Z.eqb_neq x 47) Hx47). cbn [negb andb]. wsteps.
    exists (Z.of_nat (length l2)). simpl. split; [lia|].
    exists (l1 ++ [x]), l2. rewrite length_app, <- (assoc (++)). simpl.
    split_and!; [done|done|lia|lia|]. by rewrite put_bytes_app.
Qed.

Lemma parse_path_run path first k name rest s :
  path <> 0 -> cstr (mem s) path (replicate k 47 ++ name ++ rest) -> (k + length name <> 0)%nat ->
  path_split (replicate k 47 ++ name ++ rest) k name rest ->
  Z.of_nat (k + length (name ++ rest)) < 2 ^ 33 ->
  first + Z.of_nat (length name) <= path \/ path + Z.of_nat (k + length (name ++ rest)) < first ->
  parse_path path first s
    = Ok (path + Z.of_nat (k + length name)) (set_mem (put_bytes (mem s) first name) s).
Proof.
  intros Hp Hs Hne [_ Hn Hr He] Hl Hsep. unfold parse_path, NULL.
  rewrite (proj2 (Z.eqb_neq path 0) Hp). erewrite bind_ok by reflexivity.
  assert (H0 : get8 (mem s) path <> 0).
  { destruct k; [destruct name; [done|]|]; cbn in Hs; destruct Hs as (-> & ? & _); done. }
  rewrite (proj2 (Z.eqb_neq _ 0) H0). rewrite length_app in *.
  assert (Hnr : forall r, name ++ rest <> 47 :: r).
  { destruct name as [|c name]; cbn; [rewrite He by done; done|]. intros r [= -> _].
    by inversion Hn. }
  rewrite (bind_ok _ _ _ _ _ (skip_slashes_loop path k (name ++ rest) s Hs Hnr ltac:(lia))).
  apply cstr_suffix in Hs. rewrite length_replicate in Hs.
  rewrite (copy_name_loop _ first name rest) by (rewrite ?length_app; done || lia).
  f_equal. lia.
Qed.

(** What the frame of [path_depth] must satisfy for the path [l] at [path]:
    its copy [p] is followed by the bytes [g] up to the next NUL, the name fits
    [buf], and the three objects do not overlap. *)
Record depth_frame (s : machine) (path p buf : Z) (l g name : list Z) : Prop := {
  df_path : path <> 0;
  df_p : 0 < p;
  df_buf : buf <> 0;
  df_l : cstr (mem s) path l;
  df_g : cstr (mem s) (p + Z.of_nat (length l)) g;
  df_len : Z.of_nat (length l + length g) < 2 ^ 32;
  df_name : Z.of_nat (length name) <= FILENAME_LEN;
  df_path_p : p + Z.of_nat (length l) <= path \/ path + Z.of_nat (length l) < p;
  df_path_buf : buf + FILENAME_LEN <= path \/ path + Z.of_nat (length l) < buf;
  df_p_buf : buf + FILENAME_LEN <= p \/ p + Z.of_nat (length l + length g) < buf
}.

(** One round of the loop, from any pointer that is not at the end. *)
Lemma path_depth_round s q p buf d l k name rest :
  q <> 0 -> get8 (mem s) q <> 0 -> p <> 0 -> cstr (mem s) p l -> l <> [] ->
  path_split l k name rest -> Z.of_nat (length l) < 2 ^ 32 -> buf <> 0 ->
  buf + FILENAME_LEN <= p \/ p + Z.of_nat (length l) < buf ->
  Z.of_nat (length name) <= FILENAME_LEN ->
  let s1 := set_mem (put_bytes (mem s) buf name) s in
  path_depth_body buf p (q, d) s =
    (if decide (rest = []) then Ok (inr d) s1
     else Ok (inl (p + Z.of_nat (k + length name), u32 (d + 1)))
            (set_mem (put_bytes (mem s1) buf (replicate 64 0)) s1)).
Proof.
  intros Hq Hq0 Hp Hs Hne Hsp Hl Hb Hsep Hn s1. unfold path_depth_body, NULL.
  rewrite (proj2 (Z.eqb_neq q 0) Hq). erewrite bind_ok by reflexivity.
  rewrite (proj2 (Z.eqb_neq _ 0) Hq0). pose proof Hsp as [El Hn47 Hr He].
  unfold FILENAME_LEN in *. rewrite El in Hs, Hsp, Hl, Hsep.
  rewrite !length_app, length_replicate in Hl. rewrite !length_app, length_replicate in Hsep.
  erewrite bind_ok.
  2:{ apply (parse_path_run p buf k name rest); [done|exact Hs| |exact Hsp|rewrite length_app; lia..].
      intros H0. apply Hne. rewrite El. destruct k; [|lia]. destruct name; [|done]. by rewrite He. }
  fold s1. erewrite bind_ok by reflexivity.
  assert (E : get8 (mem s1) (p + Z.of_nat (k + length name))
              = get8 (mem s) (p + Z.of_nat (k + length name))).
  { apply get8_put_bytes_ne. lia. }
  rewrite E. rewrite app_assoc in Hs. apply cstr_suffix in Hs.
  rewrite length_app, length_replicate in Hs.
  case_decide as Hrest; [subst rest; cbn in Hs; by rewrite Hs|].
  destruct Hr as [|[r ->]]; [done|]. destruct Hs as (-> & _ & _). cbn [Z.eqb Pos.eqb].
  by rewrite (bind_ok _ _ _ _ _ (memset_run buf 0 64 s1 Hb)).
Qed.

(** The copy that [path_depth] makes. *)
Lemma path_depth_start s path l g name :
  let p := local_addr "path_depth.p" (Machine.esp s) in
  let buf := local_addr "path_depth.buf" (Machine.esp s) in
  depth_frame s path p buf l g name ->
  path_depth path s = while_ (path_depth_body buf p) (path, 0) (set_mem (put_bytes (mem s) p l) s).
Proof.
  intros p buf H. pose proof (df_path _ _ _ _ _ _ _ H). unfold path_depth. run assert_not_null.
  erewrite bind_ok by reflexivity. cbv beta zeta. fold p buf.
  pose proof (df_len _ _ _ _ _ _ _ H). pose proof (df_p _ _ _ _ _ _ _ H).
  by rewrite (bind_ok _ _ _ _ _ (strcpy_run p path l s ltac:(lia)
    (df_path _ _ _ _ _ _ _ H) (df_l _ _ _ _ _ _ _ H) ltac:(lia) (df_path_p _ _ _ _ _ _ _ H))).
Qed.

Lemma path_depth_run s path l g k name rest :
  let p := local_addr "path_depth.p" (Machine.esp s) in
  let buf := local_addr "path_depth.buf" (Machine.esp s) in
  depth_frame s path p buf l g name -> l <> [] -> path_split (l ++ g) k name rest ->
  (rest = [] -> path_depth path s
     = Ok 0 (set_mem (put_bytes (put_bytes (mem s) p l) buf name) s)) /\
  (rest <> [] -> exists s', path_depth path s = Spin s').
Proof.
  intros p buf Hf Hne Hsp. rewrite (path_depth_start s path l g name Hf).
  fold p buf. destruct Hf as [H1 H2 H3 H4 H5 H6 H7 H8 H9 H10].
  set (m1 := put_bytes (mem s) p l). set (s1 := set_mem m1 s).
  assert (Hc : cstr m1 p (l ++ g)).
  { assert (Hl8 : Forall (fun x => is_u8 x /\ x <> 0) l) by (by eapply cstr_nonzero).
    apply (cstr_app (put8 m1 (p + Z.of_nat (length l)) 0)); [by apply cstr_put| |].
    - intros b Hb. symmetry. apply get8_put8_ne. lia.
    - eapply cstr_ext; [|exact H5]. intros b Hb. apply get8_put_bytes_ne. lia. }
  assert (H0 : get8 m1 path <> 0).
  { destruct l as [|c l]; [done|]. destruct H4 as (E & Hc0 & _).
    unfold m1. rewrite get8_put_bytes_ne, E; [done|]. cbn [length] in *. lia. }
  assert (Hne' : l ++ g <> []) by (by destruct l).
  split; intros Hr.
  - apply run_of_wp.
    apply (wp_while _ (fun n x s' => n = 0 /\ s' = s1 /\ x = (path, 0)) _ _) with (n := 0); [|lia|done].
    intros n x s' _ (-> & -> & ->).
    assert (E : path_depth_body buf p (path, 0) s1 = Ok (inr 0) (set_mem (put_bytes m1 buf name) s1)).
    { rewrite (path_depth_round s1 path p buf 0 (l ++ g) k name rest)
        by (try done; try rewrite length_app; lia). by rewrite decide_True by done. }
    by eapply wp_ok.
  - apply (while_spins _ (fun '(q, d) s' => q <> 0 /\ get8 (mem s') q <> 0 /\
      cstr (mem s') p (l ++ g))); [|done].
    intros [q d] s' (Hq & Hq0 & Hcs).
    exists (p + Z.of_nat (k + length name), u32 (d + 1)). eexists. split.
    + rewrite (path_depth_round s' q p buf d (l ++ g) k name rest) by
        (try done; try rewrite length_app; lia).
      by rewrite decide_False by done.
    + cbn [mem set_mem]. destruct Hsp as [El _ [|[r ->]] _]; [done|].
      assert (Hcs' : cstr (put_bytes (put_bytes (mem s') buf name) buf (replicate 64 0)) p (l ++ g)).
      { eapply cstr_ext; [|exact Hcs]. intros b. rewrite length_app. intros Hb.
        unfold FILENAME_LEN in *. rewrite !get8_put_bytes_ne by (rewrite ?length_replicate; lia). done. }
      split_and!; [lia| |exact Hcs']. rewrite El, app_assoc in Hcs'. apply cstr_suffix in Hcs'.
      rewrite length_app, length_replicate in Hcs'. by destruct Hcs' as (-> & _).
Qed.

(** The literals of [is_root]: all three begin with a slash. *)
Definition literals_ok (s : machine) (path : Z) : Prop :=
  Forall (fun t => str_lit t <> 0 /\ str_lit t <> path /\ get8 (mem s) (str_lit t) = 47) root_paths.

Lemma strcmp_literal path i s :
  path <> 0 -> literals_ok s path -> 0 <= i < 3 ->
  exists c, strcmp path (str_lit (nth (Z.to_nat i) root_paths EmptyString)) s = Ok c s /\
    (c = 0 <-> get8 (mem s) path = 47).
Proof.
  intros Hp Hl Hi.
  destruct (Forall_in _ _ (nth (Z.to_nat i) root_paths EmptyString) Hl) as (H0 & Hne & H47).
  { apply list_elem_of_In, nth_In. cbn. lia. }
  eexists. split; [apply strcmp_distinct_run; [done|done|congruence]|].
  cbv zeta. rewrite H47. pose proof (get8_range (mem s) path).
  change (s8 47) with 47. zcases; split; intros; try lia; try zlia.
Qed.

(** What [search_file] leaves in the record of a path it takes for the root. *)
Definition root_record (m : memory) (record : Z) : memory :=
  put32 (put_bytes (put32 m (record + path_record.parent) sym_root)
    (record + path_record.prev) (replicate 512 0)) (record + path_record.type) 2.

Lemma is_root_run path record s :
  path <> 0 -> record <> 0 -> literals_ok s path ->
  is_root path record s =
    if decide (get8 (mem s) path = 47) then Ok true (set_mem (root_record (mem s) record) s)
    else Ok false s.
Proof.
  intros Hp Hr Hl. unfold is_root. case_decide as H47.
  - cbn [for_exit]. destruct (strcmp_literal path 0 s Hp Hl ltac:(lia)) as (c & E & Hc).
    rewrite (bind_ok _ _ (Some tt) s (set_mem (root_record (mem s) record) s)); [done|].
    rewrite (bind_ok _ _ (Some tt) s (set_mem (root_record (mem s) record) s)); [done|].
    rewrite (bind_ok _ _ _ _ _ E). rewrite (proj2 Hc H47). cbn [Z.eqb].
    erewrite bind_ok by reflexivity. rewrite (bind_ok _ _ _ _ _ (memset_run _ _ _ _
      (ltac:(unfold path_record.prev; lia) : record + path_record.prev <> 0))).
    reflexivity.
  - rewrite (bind_ok _ _ None s s); [reflexivity|]. apply run_of_wp.
    apply (wp_for_exit (fun _ s' => s' = s)); [done| |done].
    intros i s' Hi ->. destruct (strcmp_literal path i s Hp Hl ltac:(lia)) as (c & E & Hc).
    apply wp_bind. eapply wp_ok; [exact E|]. cbv beta.
    destruct (Z.eqb_spec c 0) as [->|]; [by destruct H47; apply Hc|]. by wstep.
Qed.

Lemma search_file_run path record l s :
  path <> 0 -> record <> 0 -> literals_ok s path -> cstr (mem s) path l ->
  Z.of_nat (length l) < 2 ^ 32 ->
  if decide (get8 (mem s) path = 47)
  then search_file path record s = Ok ROOT_INODE (set_mem (root_record (mem s) record) s)
  else exists s', search_file path record s = Panic "path_valid(path)" s' /\ mem s' = mem s.
Proof.
  intros Hp Hr Hl Hs Hn. unfold search_file. pose proof (is_root_run path record s Hp Hr Hl) as E.
  case_decide as H47; rewrite (bind_ok _ _ _ _ _ E); [done|].
  rewrite (bind_ok (path_valid path) _ false s s).
  - destruct (assert_false "fs/fs.c" 364 "search_file" "path_valid(path)" s) as (s' & Ea & _ & Em).
    rewrite (bind_panic _ _ _ _ _ Ea). eauto.
  - unfold path_valid. rewrite (bind_ok _ _ _ _ _ (strlen_run path l s Hp Hs Hn)).
    destruct (1 <? Z.of_nat (length l)); [|done]. erewrite bind_ok by reflexivity.
    by rewrite (proj2 (Z.eqb_neq _ 47) H47).
Qed.

Lemma is_directory_run path l s :
  path <> 0 -> cstr (mem s) path l -> Z.of_nat (length l) < 2 ^ 32 ->
  exists b, is_directory path s = Ok b s.
Proof.
  intros Hp Hs Hn. unfold is_directory, NULL. rewrite (proj2 (Z.eqb_neq path 0) Hp).
  rewrite (bind_ok _ _ _ _ _ (strlen_run path l s Hp Hs Hn)).
  destruct (0 <? Z.of_nat (length l)); [|by eexists].
  rewrite (bind_ok _ _ _ _ _ (strlen_run path l s Hp Hs Hn)). by eexists.
Qed.

(** The frame of [sys_open] and of the [path_depth] it calls: its record
    overlaps neither the path nor the other locals. *)
Record open_frame (s : machine) (path record p buf : Z) (l g name : list Z) : Prop := {
  of_depth : depth_frame s path p buf l g name;
  of_record : record <> 0;
  of_lits : literals_ok s path;
  of_lits_apart : Forall (fun t => str_lit t < record \/ record + path_record.sizeof <= str_lit t) root_paths;
  of_path : record + path_record.sizeof <= path \/ path + Z.of_nat (length l) < record;
  of_p : record + path_record.sizeof <= p \/ p + Z.of_nat (length l + length g) < record;
  of_buf : record + path_record.sizeof <= buf \/ buf + FILENAME_LEN <= record
}.

(** Writing inside the record keeps the frame. *)
Lemma open_frame_record s path record p buf l g name m' :
  open_frame s path record p buf l g name ->
  changed_only (fun b => record <= b < record + path_record.sizeof) (mem s) m' ->
  open_frame (set_mem m' s) path record p buf l g name.
Proof.
  intros [[] H1 H2 H3 H4 H5 H6] Hm.
  assert (Hf : forall a k, record + path_record.sizeof <= a \/ a + Z.of_nat k < record ->
    forall b, a <= b <= a + Z.of_nat k -> get8 m' b = get8 (mem s) b)
    by (intros a k Ha b Hb; apply Hm; lia).
  constructor; [|done| |done..].
  - constructor; try done; cbn [mem set_mem].
    + eapply cstr_ext; [by apply Hf|done].
    + eapply cstr_ext; [|done]. intros b Hb. apply Hm. lia.
  - unfold literals_ok in *. rewrite Forall_forall in *. intros t Ht.
    destruct (H2 t Ht) as (? & ? & E). split_and!; [done..|].
    cbn [mem set_mem]. rewrite Hm; [done|]. specialize (H3 t Ht). lia.
Qed.

Lemma root_record_changes m record :
  changed_only (fun b => record <= b < record + path_record.sizeof) m (root_record m record).
Proof.
  unfold root_record, path_record.sizeof, path_record.parent, path_record.prev, path_record.type.
  intros b Hb. rewrite get8_put32_ne, get8_put_bytes_ne, get8_put32_ne by (rewrite ?length_replicate; lia).
  done.
Qed.

Lemma sys_open_run path flag s l g k name rest :
  let sp := Machine.esp s in
  open_frame s path (local_addr "sys_open.record" sp) (local_addr "path_depth.p" sp)
    (local_addr "path_depth.buf" sp) l g name ->
  path_split (l ++ g) k name rest ->
  returns_only (fun fd => fd = -1) (sys_open path flag s).
Proof.
  intros sp. set (record := local_addr "sys_open.record" sp).
  set (p := local_addr "path_depth.p" sp). set (buf := local_addr "path_depth.buf" sp).
  intros Hf Hsp. pose proof (of_depth _ _ _ _ _ _ _ _ Hf) as Hd.
  pose proof (df_path _ _ _ _ _ _ _ Hd) as Hp. pose proof (df_len _ _ _ _ _ _ _ Hd) as Hlen.
  pose proof (of_record _ _ _ _ _ _ _ _ Hf) as Hr.
  destruct (is_directory_run path l s Hp (df_l _ _ _ _ _ _ _ Hd) ltac:(lia)) as (b & E).
  unfold sys_open. rewrite (bind_ok _ _ _ _ _ E). apply returns_assert. intros _.
  apply returns_assert. intros _. erewrite bind_ok by reflexivity. cbv beta zeta.
  fold sp record. rewrite (bind_ok _ _ _ _ _ (memset_run record 0 path_record.sizeof s Hr)).
  set (s1 := set_mem _ s).
  assert (Hf1 : open_frame s1 path record p buf l g name).
  { apply open_frame_record; [done|]. intros c Hc. apply get8_put_bytes_ne.
    rewrite length_replicate. cbn in *. lia. }
  clear E b Hf Hd. pose proof (of_depth _ _ _ _ _ _ _ _ Hf1) as Hd.
  pose proof (search_file_run path record l s1 Hp Hr (of_lits _ _ _ _ _ _ _ _ Hf1)
    (df_l _ _ _ _ _ _ _ Hd) ltac:(lia)) as E.
  case_decide as H47.
  2:{ destruct E as (s' & E & _). rewrite (bind_panic _ _ _ _ _ E). constructor. }
  rewrite (bind_ok _ _ _ _ _ E). cbv zeta. clear E.
  pose proof (open_frame_record _ _ _ _ _ _ _ _ _ Hf1 (root_record_changes (mem s1) record)) as Hf2.
  set (s2 := set_mem _ s1) in *. clear Hd Hf1.
  destruct Hf2 as [Hd _ _ _ Hrp Hrpp Hrb].
  assert (Hne : l <> []).
  { intros ->. pose proof (df_l _ _ _ _ _ _ _ Hd) as H. change (get8 (mem s2) path = 0) in H.
    assert (get8 (mem s2) path = get8 (mem s1) path) as E2
      by (apply root_record_changes; cbn in *; lia). by rewrite E2, H47 in H. }
  destruct (path_depth_run s2 path l g k name rest Hd Hne Hsp) as [Hdone Hspin].
  destruct (decide (rest = [])) as [Hrest|Hrest].
  2:{ destruct (Hspin Hrest) as (s' & E). change ((path_depth path ≫= ?f) s2) with
        (bind_res (path_depth path s2) f). rewrite E. constructor. }
  rewrite (bind_ok _ _ _ _ _ (Hdone Hrest)). clear Hdone Hspin.
  erewrite bind_ok by reflexivity.
  change (Machine.esp s2) with sp. fold p buf.
  assert (Et : get32 (put_bytes (put_bytes (mem s2) p l) buf name) (record + path_record.type) = 2).
  { cbn [mem set_mem s2]. unfold root_record. destruct Hd.
    unfold FILENAME_LEN, path_record.sizeof, path_record.type in *.
    rewrite !get32_put_bytes_ne, get32_put32_eq by (cbn in *; lia). done. }
  cbn [mem set_mem]. rewrite Et. cbn [file_code Z.eqb Pos.eqb].
  apply returns_seq. intros _ s3. unfold refuse. apply returns_seq. intros parent s4.
  apply returns_seq. intros _ s5. by constructor.
Qed.

(** ** Properties *)

(** [parse_path] skips the slashes in front, copies the first name of the path
    to [first] and returns the address of what follows it: the empty string or
    a string that begins with a slash.  The copy is not terminated. *)
Theorem parse_path_splits path first l s :
  path <> 0 -> cstr (mem s) path l -> l <> [] -> Z.of_nat (length l) < 2 ^ 32 ->
  first + Z.of_nat (length l) <= path \/ path + Z.of_nat (length l) < first ->
  exists k name rest, path_split l k name rest /\
    parse_path path first s
      = Ok (path + Z.of_nat (k + length name)) (set_mem (put_bytes (mem s) first name) s) /\
    cstr (mem s) (path + Z.of_nat (k + length name)) rest.
Proof.
  intros Hp Hs Hne Hl Hsep. destruct (path_split_exists l) as (k & name & rest & Hsp).
  exists k, name, rest. pose proof Hsp as [El _ _ He]. split; [done|].
  assert (Hlen : length l = (k + length (name ++ rest))%nat)
    by (rewrite El at 1; by rewrite length_app, length_replicate).
  rewrite El in Hsp, Hs. rewrite length_app in Hlen. split.
  - apply (parse_path_run path first k name rest); rewrite ?length_app; try done; try lia.
    intros H0. destruct Hne. rewrite El. destruct k, name; try done. by rewrite He.
  - rewrite app_assoc in Hs. apply cstr_suffix in Hs. by rewrite length_app, length_replicate in Hs.
Qed.

(** C34: [path_depth] answers 0 for a path of one name and never ends for a longer
    one: each round parses the whole copy again instead of what is left. *)
Theorem path_depth_outcome s path l g k name rest :
  depth_frame s path (local_addr "path_depth.p" (Machine.esp s))
    (local_addr "path_depth.buf" (Machine.esp s)) l g name ->
  l <> [] -> path_split (l ++ g) k name rest ->
  (rest = [] -> exists s', path_depth path s = Ok 0 s') /\
  (rest <> [] -> exists s', path_depth path s = Spin s').
Proof.
  intros Hf Hne Hsp. destruct (path_depth_run s path l g k name rest Hf Hne Hsp) as [H1 H2].
  split; [|done]. intros Hr. eexists. by apply H1.
Qed.

(** [search_file] never searches: a path that begins with a slash is taken for
    the root directory, whatever follows, and any other path panics. *)
Theorem search_file_outcome path record l s :
  path <> 0 -> record <> 0 -> literals_ok s path -> cstr (mem s) path l ->
  Z.of_nat (length l) < 2 ^ 32 ->
  (head l = Some 47 ->
     search_file path record s = Ok ROOT_INODE (set_mem (root_record (mem s) record) s)) /\
  (head l <> Some 47 -> exists s', search_file path record s = Panic "path_valid(path)" s').
Proof.
  intros Hp Hr Hl Hs Hn. pose proof (search_file_run path record l s Hp Hr Hl Hs Hn) as H.
  assert (E : head l = Some 47 <-> get8 (mem s) path = 47).
  { destruct l as [|c l]; cbn in *; [rewrite Hs; naive_solver lia|]. destruct Hs as (-> & _).
    naive_solver. }
  case_decide as H47; split; intros Hh; try done; try tauto.
  destruct H as (s' & H & _). by exists s'.
Qed.


End Parse.

(** ** Concrete instances *)

(** The literals of [is_root] all at the byte '/', "/a" at 0x5000 and "/a/b" at 0x6000. *)
Definition demo_path_mem : memory :=
  put_bytes (put_bytes (put_bytes ∅ 0xc0003000 [47]) 0x5000 [47; 97]) 0x6000 [47; 97; 47; 98].
Definition demo_path_machine : machine := demo_machine demo_path_mem.

Lemma demo_path_a : cstr demo_path_mem 0x5000 [47; 97].
Proof. vm_compute. split_and!; congruence. Qed.
Lemma demo_path_ab : cstr demo_path_mem 0x6000 [47; 97; 47; 98].
Proof. vm_compute. split_and!; congruence. Qed.

Lemma demo_split_a : path_split ([47; 97] ++ []) 1 [97] [].
Proof. constructor; [done|by repeat constructor|by left|done]. Qed.
Lemma demo_split_ab : path_split ([47; 97; 47; 98] ++ []) 1 [97] [47; 98].
Proof. constructor; [done|by repeat constructor|right; by exists [98]|done]. Qed.

Lemma demo_depth_frame path l :
  cstr demo_path_mem path l -> (length l <= 4)%nat -> 0 < path < 0x10000 ->
  depth_frame demo_path_machine path
    (local_addr "path_depth.p" 0xc009ef00) (local_addr "path_depth.buf" 0xc009ef00) l [] [97].
Proof.
  intros Hc Hl Hp.
  change (local_addr "path_depth.p" 0xc009ef00) with 0xc009e800.
  change (local_addr "path_depth.buf" 0xc009ef00) with 0xc009e880.
  constructor; try done; unfold FILENAME_LEN; cbn [length]; try lia.
  cbn [cstr]. unfold demo_path_machine, demo_machine, mem, demo_path_mem.
  rewrite !get8_put_bytes_ne by (cbn [length]; lia). reflexivity.
Qed.

Lemma demo_literals path :
  path <> 0xc0003000 -> literals_ok (LK := demo_linker) demo_path_machine path.
Proof. intros H. repeat constructor; try done; by apply not_eq_sym. Qed.

Lemma demo_open_frame :
  open_frame (LK := demo_linker) demo_path_machine 0x5000
    (local_addr "sys_open.record" 0xc009ef00)
    (local_addr "path_depth.p" 0xc009ef00) (local_addr "path_depth.buf" 0xc009ef00) [47; 97] [] [97].
Proof.
  constructor.
  - apply demo_depth_frame; [exact demo_path_a|cbn; lia|lia].
  - done.
  - by apply demo_literals.
  - repeat constructor; left; reflexivity.
  - right. reflexivity.
  - right. reflexivity.
  - right. vm_compute. congruence.
Qed.

Lemma parse_path_splits_witness :
  exists k name rest, path_split [47; 97; 47; 98] k name rest /\
    parse_path 0x6000 0x7000 demo_path_machine
      = Ok (0x6000 + Z.of_nat (k + length name))
          (set_mem (put_bytes demo_path_mem 0x7000 name) demo_path_machine) /\
    cstr demo_path_mem (0x6000 + Z.of_nat (k + length name)) rest.
Proof.
  apply (parse_path_splits 0x6000 0x7000 [47; 97; 47; 98] demo_path_machine); [done|exact demo_path_ab|done|done|].
  - right. reflexivity.
Defined.

Lemma path_depth_outcome_witness :
  (exists s', path_depth (PL := demo_platform) 0x5000 demo_path_machine = Ok 0 s') /\
  (exists s', path_depth (PL := demo_platform) 0x6000 demo_path_machine = Spin s').
Proof.
  split.
  - eapply (path_depth_outcome (PL := demo_platform) demo_path_machine 0x5000 [47; 97] []);
      [|done|exact demo_split_a|done].
    apply demo_depth_frame; [exact demo_path_a|cbn; lia|lia].
  - eapply (path_depth_outcome (PL := demo_platform) demo_path_machine 0x6000 [47; 97; 47; 98] []);
      [|done|exact demo_split_ab|done].
    apply demo_depth_frame; [exact demo_path_ab|cbn; lia|lia].
Defined.

Lemma search_file_outcome_witness :
  search_file (PL := demo_platform) (LK := demo_linker) 0x6000 0x7000 demo_path_machine
    = Ok ROOT_INODE (set_mem (root_record (LK := demo_linker) demo_path_mem 0x7000) demo_path_machine).
Proof.
  refine (proj1 (search_file_outcome (PL := demo_platform) (LK := demo_linker) 0x6000 0x7000
    [47; 97; 47; 98] demo_path_machine _ _ _ demo_path_ab _) _); try done. by apply demo_literals.
Defined.

