(* ===== verification/Init.v ===== *)
(** * Start-up (kernel/init.c)

    The order in which the components are initialised. *)

From S2P Require Import Prelude Machine Concrete Interrupt CString Bitmap DList Paging Tss Sched Lock Memory Malloc Idt Thread Timer Console Keyboard Syscall Stdio Disk Inode File Dir Fs.

#[local] Open Scope Z_scope.

Section Init.
Context {PL : Platform} {LK : Linker}.

Definition init_all : K unit :=
  idt_init;;
  timer_init;;
  mem_init;;
  thread_init;;
  console_init;;
  keyboard_init;;
  tss_init;;
  syscall_init;;
  ide_channel_init;;
  fs_init;;
  console_put_str (str_lit ("init_all ok" +:+ nl)).
End Init.
