(* ===== verification/Boot.v ===== *)
(** * Start-up (kernel/init.c: init_all up to the disk)

    What the initialisations that do not need the disk leave behind, one
    after the other, for a kernel image whose objects do not overlap: the
    invariants that the theorems on each component assume, all at once. *)

From S2P Require Import Prelude Machine Concrete Interrupt CString Bitmap DList Paging Tss Sched Lock Sems IoQueue Memory Malloc Heap HeapGrow MemInit Idt Thread Spawn ThreadInit Timer Console Keyboard Syscall Entry.
From S2P Require Import Stdio Disk Inode File Dir Fs Init.

#[local] Open Scope Z_scope.

(** ** The kernel image *)

Inductive object :=
  | OIdt | OEntries | OHandlers | ONames | OKernPool | OUserPool | OKernVaddr | ODescs
  | OReady | OAll | OPid | OConsole | OKeyboard | OTss | OServices.

#[export] Instance object_eq_dec : EqDecision object.
Proof. solve_decision. Defined.

(** Membership of a constant in a list of constants. *)
Ltac listed := apply (bool_decide_unpack _); vm_compute; exact I.

Section Image.
Context {PL : Platform} {LK : Linker}.

Definition start_of (o : object) : Z :=
  match o with
  | OIdt => sym_idt | OEntries => sym_intr_entry_table | OHandlers => sym_idt_table | ONames => sym_intr_name
  | OKernPool => sym_kern_pool | OUserPool => sym_user_pool | OKernVaddr => sym_kern_vaddr
  | ODescs => sym_km_block_descs | OReady => sym_ready_thread_list | OAll => sym_all_thread_list
  | OPid => sym_pid_lock | OConsole => sym_cons + console.console_lock | OKeyboard => sym_keyboard_buffer
  | OTss => sym_tss | OServices => sym_syscall_table
  end.

Definition size_of (o : object) : Z :=
  match o with
  | OIdt => 1032 | OEntries | OHandlers | ONames => 516 | OKernPool | OUserPool => 44 | OKernVaddr => 12
  | ODescs => 168 | OReady | OAll => 16 | OPid | OConsole => 28 | OKeyboard => 132 | OTss => 108
  | OServices => 128
  end.

Definition bytes_of (o : object) : Z -> Prop := within (start_of o) (size_of o).
Definition objects (os : list object) (b : Z) : Prop := Exists (fun o => bytes_of o b) os.

(** The loader puts the image at 0xc0001500; the bitmaps of the page
    allocator are at 0xc009a000, the main thread's page at 0xc009e000. *)
Record image_ok : Prop := {
  im_place : forall o, 0xc0001000 <= start_of o /\ start_of o + size_of o <= MEM_BITMAP_BASE;
  im_apart : forall o o', o <> o' -> start_of o + size_of o <= start_of o' \/ start_of o' + size_of o' <= start_of o;
  im_fd : 0 <= FD_MAX <= 856;
  im_pte : forall v, pte_ptr_ret v = v;
  im_services : Forall is_u32 services
}.

Hypothesis Him : image_ok.

Lemma objects_low os b : objects os b -> 0xc0001000 <= b < 0xc009a000.
Proof.
  intros (o & _ & Hb)%Exists_exists. pose proof (im_place Him o). unfold bytes_of, within, MEM_BITMAP_BASE in *. lia.
Qed.

Lemma objects_apart o os b : o ∉ os -> bytes_of o b -> ~ objects os b.
Proof.
  intros Hn Hb (o' & Ho & Hb')%Exists_exists. assert (Hne : o <> o') by (by intros ->).
  pose proof (im_apart Him o o' Hne). unfold bytes_of, within in *. lia.
Qed.

Lemma objects_in o os b : o ∈ os -> bytes_of o b -> objects os b.
Proof. intros Ho Hb. apply Exists_exists. eauto. Qed.

Lemma objects_sub os os' b : Forall (fun o => o ∈ os') os -> objects os b -> objects os' b.
Proof. intros Hs (o & Ho & Hb)%Exists_exists. rewrite Forall_forall in Hs. eapply objects_in; [by apply Hs|exact Hb]. Qed.

(** *** The hypotheses of placement of the components *)

Ltac two a b := pose proof (im_apart Him a b ltac:(done)).
Ltac place a := pose proof (im_place Him a).
Ltac objs := cbn [start_of size_of] in *; unfold MEM_BITMAP_BASE in *.

Lemma image_memory : memory_home.
Proof.
  place OKernPool. place OUserPool. place OKernVaddr. place ODescs. two OKernPool OUserPool. two OKernPool OKernVaddr.
  two OUserPool OKernVaddr. two OKernPool ODescs. two OUserPool ODescs. two OKernVaddr ODescs.
  objs. constructor; unfold apart_from, MEM_BITMAP_BASE; lia.
Qed.

Lemma image_idt : idt_layout.
Proof.
  two OIdt OEntries. two OIdt OHandlers. two OIdt ONames. two OHandlers ONames. objs.
  constructor; unfold Idt.table_bytes, IDT_DESC_CNT; lia.
Qed.

Definition high_pages (tasks : list Z) : Prop :=
  forall t, t ∈ tasks -> t mod 4096 = 0 /\ 0xc009d000 <= t /\ t + 4096 <= 0xffc00000.

Lemma image_layout tasks : high_pages tasks -> layout tasks.
Proof.
  intros Ht. pose proof (im_fd Him). place OReady. place OTss. two OReady OTss. objs.
  constructor; unfold tss_t.sizeof; try lia; try (intros t Hin; destruct (Ht t Hin) as (? & ? & ?); lia).
  apply (im_pte Him).
Qed.

Lemma image_mutex tasks o : high_pages tasks -> size_of o = 28 -> mutex_home tasks (start_of o).
Proof.
  intros Ht Hs. assert (H1 : o <> OReady) by (by intros ->). assert (H2 : o <> OTss) by (by intros ->).
  place o. pose proof (im_apart Him _ _ H1). pose proof (im_apart Him _ _ H2). objs. rewrite Hs in *.
  constructor; [constructor|..]; unfold mutex_t.sizeof, sem_t.sizeof, sem_t.waiters, list_home, list.sizeof, tss_t.sizeof;
    change (2 ^ 32) with 4294967296; split_and?; try (intros t Hin; destruct (Ht t Hin) as (? & ? & ?)); lia.
Qed.

Lemma image_ioq tasks : high_pages tasks -> ioq_home tasks sym_keyboard_buffer.
Proof.
  intros Ht. place OKeyboard. two OKeyboard OReady. two OKeyboard OTss. objs.
  constructor; unfold io_queue_t.sizeof, tss_t.sizeof; change (2 ^ 32) with 4294967296;
    try (intros t Hin; destruct (Ht t Hin) as (? & ? & ?)); lia.
Qed.
End Image.

(** ** Steps that only write to some bytes *)

Record quiet (P : Z -> Prop) (s s' : machine) : Prop := {
  q_mem : changed_only P (mem s) (mem s');
  q_esp : esp s' = esp s;
  q_flag : intr_flag s' = intr_flag s;
  q_vars : vars s' = vars s
}.

Lemma quiet_trans (P : Z -> Prop) s1 s2 s3 : quiet P s1 s2 -> quiet P s2 s3 -> quiet P s1 s3.
Proof. intros [A1 A2 A3 A4] [B1 B2 B3 B4]. constructor; [by eapply changed_trans|congruence..]. Qed.

Lemma quiet_weaken (P Q : Z -> Prop) s s' : quiet P s s' -> (forall b, P b -> Q b) -> quiet Q s s'.
Proof. intros [A1 A2 A3 A4] H. constructor; [by eapply changed_weaken|done..]. Qed.

Section Parts.
Context {PL : Platform} {LK : Linker}.

(** The table of handlers holds [f]. *)
Definition handler_table (m : memory) (f : Z -> Z) : Prop :=
  forall vec, 0 <= vec < IDT_DESC_CNT -> get32 m (sym_idt_table + 4 * vec) = u32 (f vec).

Lemma handler_table_frame m m' f (P : Z -> Prop) :
  changed_only P m m' -> (forall b, bytes_of OHandlers b -> ~ P b) -> handler_table m f -> handler_table m' f.
Proof.
  intros Hc HP Hf vec Hv. rewrite <- (Hf vec Hv). apply (changed_get32 _ _ _ _ Hc). intros b Hb. apply HP.
  unfold bytes_of, within, IDT_DESC_CNT in *. cbn [start_of size_of]. lia.
Qed.

Lemma intr_set_handler_run vec h f s :
  0 <= vec < IDT_DESC_CNT -> handler_table (mem s) f ->
  exists s', intr_set_handler vec h s = Ok tt s' /\ quiet (bytes_of OHandlers) s s' /\
    handler_table (mem s') (fun x => if x =? vec then h else f x).
Proof.
  intros Hv Hf. exists (set_mem (put32 (mem s) (sym_idt_table + 4 * vec) h) s). split_and!; [done|constructor; [|done..]|].
  - intros b Hb. apply get8_put32_ne. unfold bytes_of, within, IDT_DESC_CNT in *. cbn [start_of size_of] in Hb. lia.
  - intros x Hx. msimpl. destruct (Z.eqb_spec x vec) as [->|Hne]; [by rewrite get32_put32_eq|].
    rewrite get32_put32_ne by lia. by apply Hf.
Qed.

Lemma timer_init_run f s :
  handler_table (mem s) f ->
  exists s', timer_init s = Ok tt s' /\ quiet (bytes_of OHandlers) s s' /\
    handler_table (mem s') (fun x => if x =? 0x20 then fn_time_intr_handler else f x).
Proof.
  intros Hf. assert (Hs : exists s1, set_frequency COUNTER0_PORT COUNTER0_NO RW_LATCH COUNTER_MODE COUNTER0_VALUE s = Ok tt s1 /\
    mem s1 = mem s /\ esp s1 = esp s /\ intr_flag s1 = intr_flag s /\ vars s1 = vars s)
    by (unfold set_frequency; eexists; split; [reflexivity|done]).
  destruct Hs as (s1 & E1 & M1 & P1 & F1 & V1).
  destruct (intr_set_handler_run 0x20 fn_time_intr_handler f s1) as (s' & E & [Q1 Q2 Q3 Q4] & Hh);
    [done|by rewrite M1|].
  exists s'. split_and!; [by unfold timer_init; rewrite (bind_ok _ _ _ _ _ E1)| |exact Hh].
  constructor; [by rewrite <- M1|congruence..].
Qed.
End Parts.

(** ** Before the first thread *)
Section Before.
Context {PL : Platform} {LK : Linker}.
Hypothesis Him : image_ok.

Definition before_bytes (b : Z) : Prop :=
  objects [OIdt; OHandlers; ONames; OKernPool; OUserPool; OKernVaddr; ODescs] b \/ bitmap_area b.

(** The gates after [idt_init], for the stubs of the memory [m0]. *)
Definition gates_made (m0 m : memory) : Prop := forall i, 0 <= i < IDT_DESC_CNT ->
  gate_at m (sym_idt + 8 * i) =
    if i =? 0x80 then mkGate (u32 fn_syscall_handler) SELECTOR_K_CODE IDT_DESC_ATTR_DPL3
    else mkGate (get32 m0 (sym_intr_entry_table + 4 * i)) SELECTOR_K_CODE IDT_DESC_ATTR_DPL0.

Lemma gates_made_frame m0 m m' (P : Z -> Prop) :
  changed_only P m m' -> (forall b, bytes_of OIdt b -> ~ P b) -> gates_made m0 m -> gates_made m0 m'.
Proof.
  intros Hc HP Hg i Hi. rewrite <- (Hg i Hi). apply gate_at_ext. intros b Hb. apply Hc, HP.
  unfold bytes_of, within, IDT_DESC_CNT in *. cbn [start_of size_of]. lia.
Qed.

Lemma before_run s :
  let total := get32 (mem s) 0xb00 in
  exists s', (forall A (k : K A), (idt_init;; timer_init;; mem_init;; k) s = k s') /\
    quiet before_bytes s s' /\ gates_made (mem s) (mem s') /\
    handler_table (mem s') (fun x => if x =? 0x20 then fn_time_intr_handler else fn_default_intr_hanlder) /\
    pools_made total (mem s') /\ classes_made sym_km_block_descs 7 (mem s').
Proof.
  intros total.
  destruct (proj1 (wp_run _ _ _) (idt_run (image_idt Him) s)) as ([] & s1 & E1 & G1 & H1 & _ & C1 & P1 & F1 & V1).
  destruct (timer_init_run (fun _ => fn_default_intr_hanlder) s1) as (s2 & E2 & Q2 & H2).
  { intros vec Hv. by destruct (H1 vec Hv). }
  destruct (mem_init_run s2 (image_memory Him)) as (s3 & E3 & Hp & Hd & C3 & F3 & P3 & V3).
  assert (Q1 : quiet (objects [OIdt; OHandlers; ONames]) s s1).
  { constructor; [eapply changed_weaken; [exact C1|]|done..].
    intros b [Hb|[Hb|Hb]]; [apply (objects_in OIdt)|apply (objects_in OHandlers)|apply (objects_in ONames)];
      first [listed|exact Hb]. }
  assert (Q3 : quiet (fun b => objects [OKernPool; OUserPool; OKernVaddr; ODescs] b \/ bitmap_area b) s2 s3).
  { constructor; [eapply changed_weaken; [exact C3|]|done..].
    intros b [[Hb|[Hb|[Hb|Hb]]]|Hb]; [left; apply (objects_in OKernPool)|left; apply (objects_in OUserPool)|
      left; apply (objects_in OKernVaddr)|by right|left; apply (objects_in ODescs)]; first [listed|exact Hb]. }
  assert (Ht : get32 (mem s2) 0xb00 = total).
  { unfold total. transitivity (get32 (mem s1) 0xb00); [apply (changed_get32 _ _ _ _ (q_mem _ _ _ Q2))|
      apply (changed_get32 _ _ _ _ (q_mem _ _ _ Q1))].
    - intros b Hb Hx. pose proof (im_place Him OHandlers). unfold bytes_of, within in Hx. lia.
    - intros b Hb Hx%(objects_low Him). lia. }
  rewrite Ht in Hp.
  assert (N3 : forall o b, o ∈ [OIdt; OHandlers] -> bytes_of o b ->
    ~ (objects [OKernPool; OUserPool; OKernVaddr; ODescs] b \/ bitmap_area b)).
  { intros o b Ho Hb [Hx|Hx].
    - revert Hx. apply (objects_apart Him o); [|exact Hb]. rewrite !elem_of_cons, elem_of_nil in Ho.
      destruct Ho as [->|[->|[]]]; listed.
    - pose proof (im_place Him o). unfold bytes_of, within, bitmap_area in *. lia. }
  exists s3. split_and!.
  - intros A k. by rewrite (bind_ok _ _ _ _ _ E1), (bind_ok _ _ _ _ _ E2), (bind_ok _ _ _ _ _ E3).
  - eapply quiet_trans; [eapply quiet_weaken; [exact Q1|]|eapply quiet_trans; eapply quiet_weaken; [exact Q2| |exact Q3|]].
    + intros b Hb. left. eapply objects_sub; [|exact Hb]; listed.
    + intros b Hb. left. apply (objects_in OHandlers); [listed|exact Hb].
    + intros b [Hb|Hb]; [left; eapply objects_sub; [|exact Hb]; listed|by right].
  - eapply gates_made_frame; [apply (q_mem _ _ _ Q3)|intros b Hb; apply (N3 OIdt); [listed|exact Hb]|].
    eapply gates_made_frame; [apply (q_mem _ _ _ Q2)| |exact G1].
    intros b Hb Hx. apply (objects_apart Him OIdt [OHandlers] b ltac:(listed) Hb). by apply Exists_cons; left.
  - eapply handler_table_frame; [apply (q_mem _ _ _ Q3)| |exact H2]. intros b Hb. apply (N3 OHandlers); [listed|exact Hb].
  - exact Hp.
  - exact Hd.
Qed.
End Before.

(** ** The threads *)

Definition main_page : Z := 0xc009e000.

(** A string of the image, at an object of no component. *)
Record literal {PL : Platform} {LK : Linker} (m : memory) (name : Z) (l : list Z) : Prop := {
  li_string : cstr m name l;
  li_length : (length l <= 16)%nat;
  li_place : 0xc0001000 <= name /\ name + Z.of_nat (length l) < MEM_BITMAP_BASE;
  li_apart : forall o b, name <= b <= name + Z.of_nat (length l) -> ~ bytes_of o b
}.

(** What the boot loader hands over. *)
Record loaded {PL : Platform} {LK : Linker} (lm li : list Z) (s : machine) : Prop := {
  ld_stack : page_of (esp s) = main_page;
  ld_flag : intr_flag s = false;
  ld_next : next_pid (vars s) = 0;
  ld_memory : 0 < kern_bytes (get32 (mem s) 0xb00);
  ld_tables : tables_empty (get32 (mem s) 0xb00) (mem s);
  ld_main : literal (mem s) (str_lit "main thread") lm;
  ld_idle : literal (mem s) (str_lit "idle") li
}.

Section Threads.
Context {PL : Platform} {LK : Linker}.
Hypothesis Him : image_ok.

Lemma literal_frame m m' name l (P : Z -> Prop) :
  changed_only P m m' -> (forall b, P b -> (exists o, bytes_of o b) \/ ~ (0xc0001000 <= b < MEM_BITMAP_BASE)) ->
  literal m name l -> literal m' name l.
Proof.
  intros Hc HP [H1 H2 H3 H4]. constructor; try done. eapply cstr_ext; [|exact H1]. intros b Hb. apply Hc.
  intros Hx. destruct (HP b Hx) as [[o Ho]|Ho]; [by apply (H4 o b Hb)|lia].
Qed.

Lemma main_high : high_pages [main_page].
Proof. intros t ->%list_elem_of_singleton. by vm_compute. Qed.

(** The scheduler's data. *)
Lemma main_sched_objects b :
  sched_data [main_page] b -> objects [OPid; OReady; OTss] b \/ page_bytes main_page b.
Proof.
  intros [Hb|[Hb|[Hb|Hb]]].
  - left. apply (objects_in OPid); [listed|exact Hb].
  - left. apply (objects_in OReady); [listed|exact Hb].
  - left. apply (objects_in OTss); [listed|exact Hb].
  - right. by apply Exists_cons in Hb as [Hb|Hb%Exists_nil].
Qed.

Lemma main_objects b :
  kernel_data [main_page] b -> objects [OAll; OPid; OReady; OTss] b \/ page_bytes main_page b.
Proof.
  intros [Hb|[Hb|Hb]%main_sched_objects].
  - left. apply (objects_in OAll); [listed|exact Hb].
  - left. eapply objects_sub; [|exact Hb]. listed.
  - by right.
Qed.

Lemma main_string_of m name l : literal m name l -> main_string main_page m name l.
Proof.
  intros [H1 H2 H3 H4]. constructor; [lia|done|done|].
  intros b Hb [(o & _ & Ho)%Exists_exists|Hx]%main_objects; [by apply (H4 o b Hb)|].
  unfold page_bytes, main_page, MEM_BITMAP_BASE in *. lia.
Qed.

(** The page allocator's data after [mem_init]. *)
Lemma made_admin total m b :
  pools_made total m -> admin m b -> objects [OKernPool; OKernVaddr] b \/ bitmap_area b \/ 0xffc00000 <= b.
Proof.
  intros [[_ _ K3 K4 _ _] _ _ V2 V3 _]. destruct (bitmaps_fit total) as (B1 & B2 & _).
  unfold admin, pool_bits, vaddr_bits, bits_area. rewrite K3, K4, V2, V3. unfold bitmap_area.
  intros [Hb|[Hb|[Hb|[Hb|Hb]]]]; [| |right; left; lia|right; left; lia|by right; right].
  - left. apply (objects_in OKernPool); [listed|]. unfold bytes_of, within. cbn [start_of size_of]. lia.
  - left. apply (objects_in OKernVaddr); [listed|]. unfold bytes_of, within. cbn [start_of size_of].
    unfold vaddr_struct, virtual_addr.sizeof in Hb. lia.
Qed.

Lemma made_pages total m j b :
  pools_made total m -> 0 <= j < nbits m kvaddr_bm -> page_bytes (kpage m j) b -> 0xc0100000 <= b < 0xc8100000.
Proof.
  intros [_ _ V1 V2 _ _]. destruct (bitmaps_fit total) as (B1 & _). unfold nbits, kpage, page_bytes.
  rewrite V1, V2. unfold K_HEAP_START. change PAGE_SIZE with 4096. lia.
Qed.

Lemma boot_ready lm li s s' :
  loaded lm li s -> quiet before_bytes s s' -> pools_made (get32 (mem s) 0xb00) (mem s') ->
  boot_ok main_page lm li s'.
Proof.
  intros [L1 L2 L3 L4 L5 L6 L7] [Q1 Q2 Q3 Q4] Hp. set (total := get32 (mem s) 0xb00) in *.
  assert (HP : forall b, before_bytes b -> (exists o, bytes_of o b) \/ ~ (0xc0001000 <= b < MEM_BITMAP_BASE)).
  { intros b [(o & _ & Ho)%Exists_exists|Hb]; [left; by exists o|right; unfold bitmap_area in Hb; lia]. }
  assert (Hsep : forall b, kernel_data [main_page] b -> ~ admin (mem s') b).
  { intros b Hb Ha. apply (made_admin total _ _ Hp) in Ha.
    destruct (main_objects b Hb) as [Hx|Hx].
    - pose proof (objects_low Him _ _ Hx). destruct Ha as [Ha|Ha]; [|unfold bitmap_area, MEM_BITMAP_BASE in Ha; lia].
      apply Exists_exists in Hx as (o & Ho & Hx). revert Ha. apply (objects_apart Him o); [|exact Hx].
      rewrite !elem_of_cons, elem_of_nil in Ho. destruct Ho as [->|[->|[->|[->|[]]]]]; listed.
    - unfold page_bytes, main_page in Hx. destruct Ha as [Ha|Ha];
        [apply (objects_low Him) in Ha|unfold bitmap_area, MEM_BITMAP_BASE in Ha]; lia. }
  constructor.
  - apply (image_layout Him), main_high.
  - apply (image_mutex Him [main_page] OPid main_high eq_refl).
  - pose proof (im_place Him OPid). cbn [start_of size_of] in *. unfold MEM_BITMAP_BASE, mutex_t.sizeof in *.
    change (2 ^ 32) with 4294967296. lia.
  - pose proof (im_place Him OAll). cbn [start_of size_of] in *. unfold MEM_BITMAP_BASE, list.sizeof in *.
    change (2 ^ 32) with 4294967296. lia.
  - intros b Hb [Hx|Hx]%main_sched_objects; [by apply (objects_apart Him OAll [OPid; OReady; OTss] b ltac:(listed) Hb)|].
    pose proof (im_place Him OAll). unfold all_header, list.sizeof, page_bytes, main_page, MEM_BITMAP_BASE in *.
    cbn [start_of size_of] in *. lia.
  - apply (im_fd Him).
  - by rewrite Q2.
  - by rewrite Q4.
  - apply (pools_heap_ok total); [by apply image_memory|done|].
    eapply tables_empty_frame; [apply (im_pte Him)|exact Q1| |exact L5].
    intros b [Hb%(objects_low Him)|Hb]; [lia|unfold bitmap_area, MEM_BITMAP_BASE in Hb; lia].
  - exact Hsep.
  - intros j b Hj _ Hb. apply (made_pages total _ _ _ Hp Hj) in Hb. split.
    + intros [Hx%(objects_low Him)|Hx]%main_objects; [lia|unfold page_bytes, main_page in Hx; lia].
    + intros [Hx%(objects_low Him)|Hx]%(made_admin total _ _ Hp); [lia|unfold bitmap_area, MEM_BITMAP_BASE in Hx; lia].
  - apply main_string_of. by eapply literal_frame.
  - apply main_string_of. by eapply literal_frame.
  - destruct L7 as [_ _ N3 N4]. intros b Hb. split.
    + intros [(o & _ & Hx)%Exists_exists|Hx]%(made_admin total _ _ Hp); [by apply (N4 o b Hb)|].
      unfold bitmap_area, MEM_BITMAP_BASE in *. lia.
    + intros j Hj _ Hx. apply (made_pages total _ _ _ Hp Hj) in Hx. unfold MEM_BITMAP_BASE in *. lia.
Qed.

(** *** Writes elsewhere keep what [thread_init] established *)

Lemma runs_kept tasks idle a s s' (P : Z -> Prop) :
  layout tasks -> runs tasks idle a s -> quiet P s s' -> (forall b, P b -> ~ live_data tasks b) -> runs tasks idle a s'.
Proof.
  intros Hl Hr [Hc He _ Hv] HP. destruct (runs_frame tasks idle a s P (mem s') Hl Hr Hc) as [R1 R2 R3].
  - intros b Hb. split; [intros Hx; apply (HP b Hb); by right; right; left|].
    intros t Ht Hx. apply (HP b Hb). right. right. right. apply Exists_exists. by exists t.
  - constructor; [exact R1|by rewrite He|by rewrite Hv].
Qed.

Lemma live_objects tasks b :
  live_data tasks b -> objects [OPid; OReady; OAll] b \/ Exists (fun t => page_bytes t b) tasks.
Proof.
  intros [Hb|[Hb|[Hb|Hb]]]; [left; apply (objects_in OAll)|left; apply (objects_in OPid)|left; apply (objects_in OReady)|by right];
    first [listed|exact Hb].
Qed.
End Threads.

(** ** After the threads *)
Section After.
Context {PL : Platform} {LK : Linker}.
Hypothesis Him : image_ok.

(** Some objects, and what is not part of the image. *)
Definition avoid (os : list object) (b : Z) : Prop :=
  objects os b \/ ~ (0xc0001000 <= b < MEM_BITMAP_BASE).

Lemma avoid_apart o os b : o ∉ os -> bytes_of o b -> ~ avoid os b.
Proof.
  intros Hn Hb [Hx|Hx]; [by apply (objects_apart Him o os b)|]. pose proof (im_place Him o).
  unfold bytes_of, within in *. lia.
Qed.

(** What the later initialisations write. *)
Definition after_bytes (os : list object) (b : Z) : Prop := objects os b \/ gdt_bytes b.

Lemma after_avoid os b : after_bytes os b -> avoid os b.
Proof. intros [Hb|Hb]; [by left|right]. unfold gdt_bytes, GDT_BASE in Hb. lia. Qed.

Lemma after_sub os os' b : Forall (fun o => o ∈ os') os -> after_bytes os b -> after_bytes os' b.
Proof. intros Hs [Hb|Hb]; [left; by eapply objects_sub|by right]. Qed.

Lemma new_task_frame m m' base prio pid name func arg (P : Z -> Prop) :
  layout [base] -> (length name <= 16)%nat -> changed_only P m m' -> (forall b, P b -> ~ page_bytes base b) ->
  new_task m base prio pid name func arg -> new_task m' base prio pid name func arg.
Proof.
  intros Hb Hn Hc HP. apply (new_task_ext [] NULL m m'); [exact Hb|exact Hn|]. intros b Hx. apply Hc. intros Hy.
  apply (HP b Hy). pose proof (im_fd Him). unfold task_bytes in Hx. spoff. lia.
Qed.

(** *** Console, keyboard, task state segment, services *)
Section Rest.
Context (tasks : list Z) (idle : Z) (a : sched) (al : list Z).
Hypothesis Hhigh : high_pages tasks.

Definition rest_objects : list object := [OConsole; OKeyboard; OHandlers; OTss; OServices].

Lemma rest_not_live b : after_bytes rest_objects b -> ~ live_data tasks b.
Proof.
  assert (Hp : forall x, 0xc0000000 <= x < 0xc009a000 -> ~ Exists (fun t => page_bytes t x) tasks).
  { intros x Hx (t & Ht & Hy)%Exists_exists. destruct (Hhigh t Ht) as (_ & ? & _). unfold page_bytes in Hy. lia. }
  intros [Hb|Hb] [Hx|Hx]%live_objects.
  - apply Exists_exists in Hb as (o & Ho & Hb). revert Hx. apply (objects_apart Him o); [|exact Hb].
    unfold rest_objects in Ho. rewrite !elem_of_cons, elem_of_nil in Ho.
    destruct Ho as [->|[->|[->|[->|[->|[]]]]]]; listed.
  - apply (objects_low Him) in Hb. apply (Hp b); [lia|exact Hx].
  - apply (objects_low Him) in Hx. unfold gdt_bytes, GDT_BASE in Hb. lia.
  - unfold gdt_bytes, GDT_BASE in Hb. apply (Hp b); [lia|exact Hx].
Qed.

Lemma rest_runs s s' :
  runs tasks idle a s -> quiet (after_bytes rest_objects) s s' -> runs tasks idle a s'.
Proof.
  intros Hr Q. eapply (runs_kept tasks idle a s s' _ (image_layout Him _ Hhigh) Hr Q), rest_not_live.
Qed.

Lemma console_run s :
  exists s', console_init s = Ok tt s' /\ fresh_mutex (mem s') (start_of OConsole) /\
    quiet (after_bytes [OConsole]) s s'.
Proof.
  pose proof (im_place Him OConsole) as Hc. cbn [size_of] in Hc. unfold MEM_BITMAP_BASE in Hc.
  destruct (mutex_init_run (start_of OConsole) s) as (m1 & E & Hf & C); [lia|unfold mutex_t.sizeof; change (2 ^ 32) with 4294967296; lia|].
  exists (set_mem m1 s). split_and!; [exact E|exact Hf|constructor; [|done..]].
  eapply changed_weaken; [exact C|]. intros b Hb. left. by apply Exists_cons; left.
Qed.

Lemma keyboard_run s f :
  inv tasks idle a -> runs tasks idle a s -> handler_table (mem s) f ->
  exists s', keyboard_init s = Ok tt s' /\ ioq tasks idle sym_keyboard_buffer a [] [] [] [] s' /\
    handler_table (mem s') (fun x => if x =? 0x21 then fn_keyboard_interrupt_hanlder else f x) /\
    quiet (after_bytes [OKeyboard; OHandlers]) s s'.
Proof.
  intros Hi Hr Hf. pose proof (image_layout Him _ Hhigh) as Hl. pose proof (image_ioq Him _ Hhigh) as Hq.
  destruct (io_queue_init_run tasks idle sym_keyboard_buffer Hl Hq a s Hi Hr) as (s1 & E1 & Hio & C1 & F1 & P1 & V1).
  assert (Q1 : quiet (after_bytes [OKeyboard]) s s1).
  { constructor; [|done..]. eapply changed_weaken; [exact C1|]. intros b Hb. left. by apply Exists_cons; left. }
  destruct (intr_set_handler_run 0x21 fn_keyboard_interrupt_hanlder f s1) as (s2 & E2 & Q2 & Hf2); [done| |].
  { eapply handler_table_frame; [apply (q_mem _ _ _ Q1)| |exact Hf]. intros b Hb Hx%after_avoid.
    by apply (avoid_apart OHandlers [OKeyboard] b ltac:(listed) Hb). }
  assert (Q2' : quiet (after_bytes [OHandlers]) s1 s2).
  { eapply quiet_weaken; [exact Q2|]. intros b Hb. left. by apply Exists_cons; left. }
  assert (Q : quiet (after_bytes [OKeyboard; OHandlers]) s s2).
  { eapply quiet_trans; eapply quiet_weaken; [exact Q1|intros b Hb|exact Q2'|intros b Hb];
      (eapply after_sub; [|exact Hb]; listed). }
  exists s2. split_and!; [|..|exact Q].
  - unfold keyboard_init. by rewrite (bind_ok _ _ _ _ _ E1).
  - eapply (ioq_frame tasks idle _ Hq a s1); [exact Hio|apply (q_mem _ _ _ Q2')| |].
    + intros b Hb%after_avoid Hx. by apply (avoid_apart OKeyboard [OHandlers] b ltac:(listed)).
    + eapply rest_runs; [exact Hr|]. eapply quiet_weaken; [exact Q|]. intros b Hb. eapply after_sub; [|exact Hb]. listed.
  - exact Hf2.
Qed.

Lemma rest_run s f :
  inv tasks idle a -> runs tasks idle a s -> handler_table (mem s) f ->
  exists s', (forall A (k : K A), (console_init;; keyboard_init;; tss_init;; syscall_init;; k) s = k s') /\
    quiet (after_bytes rest_objects) s s' /\
    fresh_mutex (mem s') (start_of OConsole) /\ ioq tasks idle sym_keyboard_buffer a [] [] [] [] s' /\
    handler_table (mem s') (fun x => if x =? 0x21 then fn_keyboard_interrupt_hanlder else f x) /\
    tss_made (mem s') /\ table_made (mem s').
Proof.
  intros Hi Hr Hf. destruct (console_run s) as (s1 & E1 & Hc1 & Q1).
  assert (R1 : runs tasks idle a s1).
  { eapply rest_runs; [exact Hr|]. eapply quiet_weaken; [exact Q1|]. intros b Hb. eapply after_sub; [|exact Hb]. listed. }
  destruct (keyboard_run s1 f Hi R1) as (s2 & E2 & Hq2 & Hf2 & Q2).
  { eapply handler_table_frame; [apply (q_mem _ _ _ Q1)| |exact Hf]. intros b Hb Hx%after_avoid.
    by apply (avoid_apart OHandlers [OConsole] b ltac:(listed) Hb). }
  pose proof (im_place Him OTss) as Ht. cbn [start_of size_of] in Ht. unfold MEM_BITMAP_BASE in Ht.
  destruct (tss_init_run s2) as (s3 & E3 & Ht3 & C3 & _ & P3 & F3 & V3); [lia|unfold GDT_BASE, tss_t.sizeof; lia|].
  destruct (syscall_init_run s3 (im_services Him)) as (m4 & E4 & Ht4 & C4).
  assert (Q3 : quiet (after_bytes [OTss]) s2 s3).
  { constructor; [|done..]. eapply changed_weaken; [exact C3|]. intros b [Hb|Hb]; [left; by apply Exists_cons; left|by right]. }
  assert (Q4 : quiet (after_bytes [OServices]) s3 (set_mem m4 s3)).
  { constructor; [|done..]. eapply changed_weaken; [exact C4|]. intros b Hb. left. by apply Exists_cons; left. }
  assert (Q34 : quiet (after_bytes [OTss; OServices]) s2 (set_mem m4 s3)).
  { eapply quiet_trans; eapply quiet_weaken; [exact Q3|intros b Hb|exact Q4|intros b Hb];
      (eapply after_sub; [|exact Hb]; listed). }
  assert (Q24 : quiet (after_bytes [OKeyboard; OHandlers; OTss; OServices]) s1 (set_mem m4 s3)).
  { eapply quiet_trans; eapply quiet_weaken; [exact Q2|intros b Hb|exact Q34|intros b Hb];
      (eapply after_sub; [|exact Hb]; listed). }
  assert (Q : quiet (after_bytes rest_objects) s (set_mem m4 s3)).
  { eapply quiet_trans; eapply quiet_weaken; [exact Q1|intros b Hb|exact Q24|intros b Hb];
      (eapply after_sub; [|exact Hb]; listed). }
  exists (set_mem m4 s3). split_and!; [|exact Q|..].
  - intros A k. by rewrite (bind_ok _ _ _ _ _ E1), (bind_ok _ _ _ _ _ E2), (bind_ok _ _ _ _ _ E3), (bind_ok _ _ _ _ _ E4).
  - eapply fresh_mutex_frame; [apply (q_mem _ _ _ Q24)| |exact Hc1]. intros b Hb%after_avoid Hx. revert Hb.
    by apply (avoid_apart OConsole); [listed|].
  - eapply (ioq_frame tasks idle _ (image_ioq Him _ Hhigh) a s2); [exact Hq2|apply (q_mem _ _ _ Q34)| |eapply rest_runs; [exact Hr|exact Q]].
    intros b Hb%after_avoid Hx. revert Hb. by apply (avoid_apart OKeyboard); [listed|].
  - eapply handler_table_frame; [apply (q_mem _ _ _ Q34)| |exact Hf2]. intros b Hb Hx%after_avoid. revert Hx.
    by apply (avoid_apart OHandlers); [listed|].
  - eapply tss_made_frame; [exact C4| |exact Ht3]. intros b Hb. split.
    + intros Hx. apply (objects_apart Him OServices [OTss] b ltac:(listed) Hb). by apply Exists_cons; left.
    + pose proof (im_place Him OServices) as Hs. cbn [start_of size_of] in Hs.
      unfold Syscall.table_bytes, SYSCALL_NR, gdt_bytes, GDT_BASE in *. lia.
  - exact Ht4.
Qed.
End Rest.

(** The kernel when the disk is about to be initialised. *)
Record kernel_up (lm li : list Z) (base : Z) (s0 s : machine) : Prop := {
  ku_threads : spawn_ok [base; main_page] base (boot_sched main_page s0 base) [main_page; base] s;
  ku_main : main_task main_page (mem s) 0 lm;
  ku_idle : new_task (mem s) base 10 1 li fn_idle NULL;
  ku_heap : heap_rep (mem s) empty_heap;
  ku_console : mutex_state [base; main_page] base (sym_cons + console.console_lock)
    (boot_sched main_page s0 base) NULL 0 [] s;
  ku_keyboard : ioq [base; main_page] base sym_keyboard_buffer (boot_sched main_page s0 base) [] [] [] [] s;
  ku_gates : gates_made (mem s0) (mem s);
  ku_handlers : handler_table (mem s) (fun x => if x =? 0x21 then fn_keyboard_interrupt_hanlder
    else if x =? 0x20 then fn_time_intr_handler else fn_default_intr_hanlder);
  ku_tss : tss_made (mem s);
  ku_services : table_made (mem s);
  ku_flag : intr_flag s = false;
  ku_vars : vars s = set_idle_thread base (set_next_pid 2 (set_main_thread main_page (vars s0)))
}.
(** *** All of it *)

Lemma threads_bytes total m base b :
  pools_made total m -> 0xc0100000 <= base ->
  kernel_data [main_page] b \/ page_bytes base b \/ admin m b ->
  avoid [OAll; OPid; OReady; OTss; OKernPool; OKernVaddr] b.
Proof.
  intros Hp Hbase [[Hb|Hb]%main_objects|[Hb|Hb]].
  - left. eapply objects_sub; [|exact Hb]. listed.
  - right. unfold page_bytes, main_page, MEM_BITMAP_BASE in *. lia.
  - right. unfold page_bytes, MEM_BITMAP_BASE in *. lia.
  - apply (made_admin total _ _ Hp) in Hb as [Hb|Hb]; [left; eapply objects_sub; [|exact Hb]; listed|right].
    unfold bitmap_area, MEM_BITMAP_BASE in *. lia.
Qed.

Lemma threads_run lm li s s2 :
  loaded lm li s -> quiet before_bytes s s2 -> pools_made (get32 (mem s) 0xb00) (mem s2) ->
  exists s3, thread_init s2 = Ok tt s3 /\
    spawn_ok [K_HEAP_START; main_page] K_HEAP_START (boot_sched main_page s K_HEAP_START) [main_page; K_HEAP_START] s3 /\
    main_task main_page (mem s3) 0 lm /\ new_task (mem s3) K_HEAP_START 10 1 li fn_idle NULL /\
    vars s3 = set_idle_thread K_HEAP_START (set_next_pid 2 (set_main_thread main_page (vars s))) /\
    intr_flag s3 = false /\ same_pages (mem s2) (mem s3) /\
    changed_only (avoid [OAll; OPid; OReady; OTss; OKernPool; OKernVaddr]) (mem s2) (mem s3).
Proof.
  intros Hld Q Hp. pose proof (boot_ready Him lm li s s2 Hld Q Hp) as Hok. set (total := get32 (mem s) 0xb00) in *.
  pose proof Hp as [Hk Hu V1 V2 V3 V4]. pose proof (ld_memory _ _ _ Hld) as Hkb. fold total in Hkb.
  assert (Hn : 0 < nbits (mem s2) kvaddr_bm) by (unfold nbits; rewrite V2; lia).
  assert (Hq : free_run (mem s2) kvaddr_bm 0 1) by (split_and!; [lia|lia|]; intros j Hj; apply V4; lia).
  assert (Hf : free_frame (mem s2) sym_kern_pool 0).
  { assert (0 < nbits (mem s2) (pool_bm sym_kern_pool)).
    { unfold nbits. rewrite (pd_length _ _ _ _ _ _ Hk). lia. }
    split; [lia|]. apply (pd_free _ _ _ _ _ _ Hk). lia. }
  destruct (thread_init_run main_page lm li 0 0 s2 Hok Hq Hf) as (p & s3 & [Hfit Hlow] & E & Hsp & Hm & Ht & Hv & Hfl & Hsg & C).
  assert (p = 0) as -> by (pose proof (Hlow 0 Hq); destruct Hfit; lia).
  assert (Eb : kpage (mem s2) 0 = K_HEAP_START) by (unfold kpage; rewrite V1; lia).
  cbv zeta in *. rewrite Eb in *. rewrite (q_vars _ _ _ Q) in Hv. rewrite (q_flag _ _ _ Q), (ld_flag _ _ _ Hld) in Hfl.
  assert (Es : boot_sched main_page s2 K_HEAP_START = boot_sched main_page s K_HEAP_START)
    by (unfold boot_sched; by rewrite (q_esp _ _ _ Q)).
  assert (Eo : flag_after false = false) by (unfold flag_after; by case_decide). rewrite Eo in Hfl.
  rewrite Es in Hsp. exists s3. split_and!; [done|done|done|exact Ht|exact Hv|exact Hfl|exact Hsg|].
  eapply changed_weaken; [exact C|]. intros b Hb. by apply (threads_bytes total (mem s2) K_HEAP_START).
Qed.

Lemma idle_high : high_pages [K_HEAP_START; main_page].
Proof. intros t Ht. rewrite !elem_of_cons, elem_of_nil in Ht. by destruct Ht as [->|[->|[]]]; vm_compute. Qed.

Lemma init_run lm li s :
  loaded lm li s ->
  exists s', (forall A (k : K A), (idt_init;; timer_init;; mem_init;; thread_init;; console_init;; keyboard_init;;
      tss_init;; syscall_init;; k) s = k s') /\
    kernel_up lm li K_HEAP_START s s'.
Proof.
  intros Hld. destruct (before_run Him s) as (s2 & E2 & Q2 & G2 & H2 & Hp & Hd).
  destruct (threads_run lm li s s2 Hld Q2 Hp) as (s3 & E3 & Hsp & Hm & Ht & Hv & Hfl & Hsg & C3).
  set (a := boot_sched main_page s K_HEAP_START) in *.
  pose proof (ms_sem _ _ _ _ _ _ _ _ (sp_mutex _ _ _ _ _ Hsp)) as [Hi _ Hr _].
  destruct (rest_run [K_HEAP_START; main_page] K_HEAP_START a idle_high s3
    (fun x => if x =? 0x20 then fn_time_intr_handler else fn_default_intr_hanlder) Hi Hr) as
    (s4 & E4 & Q4 & Hcons & Hkey & Hh4 & Htss & Hsv).
  { eapply handler_table_frame; [exact C3| |exact H2]. intros b Hb. by apply (avoid_apart OHandlers); [listed|]. }
  pose proof (q_mem _ _ _ Q4) as C4.
  assert (C4' : changed_only (avoid rest_objects) (mem s3) (mem s4)) by (eapply changed_weaken; [exact C4|apply after_avoid]).
  assert (R4 := rest_runs _ _ a idle_high s3 s4 Hr Q4).
  exists s4. split.
  - intros A k. rewrite E2, (bind_ok _ _ _ _ _ E3). apply E4.
  - constructor.
    + apply (spawn_keep [K_HEAP_START; main_page] K_HEAP_START a [main_page; K_HEAP_START] s3 s4 (after_bytes rest_objects)
        Hsp C4 (q_esp _ _ _ Q4)); [by rewrite (q_vars _ _ _ Q4)|]. intros b Hb. split; [by apply (rest_not_live _ idle_high)|].
      intros Ha%(same_admin (mem s2)); [|done]. apply (made_admin _ _ _ Hp) in Ha as [Ha|Ha].
      * apply Exists_exists in Ha as (o & Ho & Ha). revert Hb. intros Hb%after_avoid. revert Hb.
        apply (avoid_apart o); [|exact Ha]. rewrite !elem_of_cons, elem_of_nil in Ho. destruct Ho as [->|[->|[]]]; listed.
      * destruct Hb as [Hb|Hb]; [apply (objects_low Him) in Hb|unfold gdt_bytes, GDT_BASE in Hb];
          unfold bitmap_area, MEM_BITMAP_BASE in Ha; lia.
    + eapply main_task_frame; [apply (image_layout Him), main_high|apply (li_length _ _ _ (ld_main _ _ _ Hld))|exact C4| |exact Hm].
      intros b Hb Hx. destruct (rest_not_live [K_HEAP_START; main_page] idle_high b Hb). right. right. right. apply Exists_cons. right.
      apply Exists_cons. left. pose proof (im_fd Him). unfold page_bytes. offsets. lia.
    + eapply new_task_frame; [apply (image_layout Him); by intros t ->%list_elem_of_singleton; vm_compute|apply (li_length _ _ _ (ld_idle _ _ _ Hld))|exact C4| |exact Ht].
      intros b Hb Hx. apply (rest_not_live [K_HEAP_START; main_page] idle_high b Hb). right. right. right. apply Exists_cons. by left.
    + apply empty_heap_rep. eapply classes_made_frame; [exact C4'|intros b Hb Hx; by apply (avoid_apart ODescs rest_objects b ltac:(listed) Hx Hb)|].
      eapply classes_made_frame; [exact C3|intros b Hb Hx; by apply (avoid_apart ODescs [OAll; OPid; OReady; OTss; OKernPool; OKernVaddr] b ltac:(listed) Hx Hb)|exact Hd].
    + by apply fresh_mutex_state.
    + exact Hkey.
    + eapply gates_made_frame; [exact C4'|intros b Hb; by apply (avoid_apart OIdt); [listed|]|].
      eapply gates_made_frame; [exact C3|intros b Hb; by apply (avoid_apart OIdt); [listed|]|exact G2].
    + exact Hh4.
    + exact Htss.
    + exact Hsv.
    + by rewrite (q_flag _ _ _ Q4).
    + by rewrite (q_vars _ _ _ Q4).
Qed.
End After.

(** ** The property *)
Section Property.
Context {PL : Platform} {LK : Linker}.

(** C2: [init_all], entered from the boot loader with interrupts off and at least
    eight free pages for the kernel, gets to the initialisation of the disk
    with everything in place that the theorems on the components assume: the
    scheduler with the main thread running and the idle thread ready in the
    first page of the kernel's heap, both allocators, with an empty heap, the
    free lock of the console, the empty buffer of the keyboard, the gates and
    the handlers of the clock and the keyboard, the descriptors and the task
    state segment, the table of services. Interrupts have stayed off. *)
Theorem init_all_reaches_disk lm li s :
  image_ok -> loaded lm li s ->
  exists s', init_all s = (ide_channel_init;; fs_init;; console_put_str (str_lit ("init_all ok" +:+ nl))) s' /\
    kernel_up lm li K_HEAP_START s s'.
Proof.
  intros Him Hld. destruct (init_run Him lm li s Hld) as (s' & E & Hup). exists s'. split; [|exact Hup].
  unfold init_all. apply E.
Qed.
End Property.

(** *** A concrete instance *)

Lemma demo_image : image_ok.
Proof.
  constructor.
  - intros o. by destruct o; vm_compute.
  - intros o o' Hne. destruct o, o'; first [done|left; by vm_compute|right; by vm_compute].
  - by vm_compute.
  - done.
  - unfold services, is_u32. cbn. repeat constructor; lia.
Qed.

Definition demo_loaded_mem : memory := put_bytes demo_boot_mem 0xc0003000 [104; 105; 0].
Definition demo_loaded_machine : machine := set_intr_flag false (demo_machine demo_loaded_mem).

Lemma demo_loaded_word : get32 demo_loaded_mem 0xb00 = 0x2000000.
Proof. by vm_compute. Qed.

Lemma demo_literal : literal demo_loaded_mem 0xc0003000 [104; 105].
Proof.
  constructor; [by vm_compute|cbn; lia|by vm_compute|].
  intros o b Hb Hx. cbn [length] in Hb. unfold bytes_of, within in Hx. destruct o; cbn in Hx; unfold console.console_lock in Hx; lia.
Qed.

Lemma demo_loaded : loaded [104; 105] [104; 105] demo_loaded_machine.
Proof.
  constructor; [done|done|done| | |exact demo_literal|exact demo_literal];
    change (mem demo_loaded_machine) with demo_loaded_mem; rewrite demo_loaded_word.
  - by vm_compute.
  - apply (tables_empty_frame 0x2000000 demo_boot_mem _ (fun b => 0xc0003000 <= b < 0xc0003003) (im_pte demo_image));
      [|intros b Hb; lia|exact demo_boot_tables].
    intros b Hb. apply get8_put_bytes_ne. cbn [length]. lia.
Qed.

Lemma init_all_reaches_disk_witness :
  exists s', init_all demo_loaded_machine
      = (ide_channel_init;; fs_init;; console_put_str (str_lit ("init_all ok" +:+ nl))) s' /\
    kernel_up [104; 105] [104; 105] K_HEAP_START demo_loaded_machine s'.
Proof. exact (init_all_reaches_disk [104; 105] [104; 105] demo_loaded_machine demo_image demo_loaded). Defined.
