(* ===== verification/Main.v ===== *)
(** * The entry of the kernel and its threads (kernel/main.c)

    [main] initialises the system, starts two threads and enables interrupts.
    The programs of user processes call the kernel through its gate. *)

From S2P Require Import Prelude Machine Concrete Interrupt CString Bitmap DList Paging Tss Sched Lock Memory Malloc Thread Timer Console Syscall Stdio Init.

#[local] Open Scope Z_scope.

Section Main.
Context {PL : Platform} {LK : Linker}.

(** Every thread and program ends in [while (1)]. *)
Definition main : K Z :=
  init_all;;
  thread_start (str_lit "threa1") 16 fn_start1 (str_lit "1");;
  thread_start (str_lit "thread2") 16 fn_start2 (str_lit "2");;
  intr_enable;;
  spin.

(** In iteration [i] of the loop [size] is 11 doubled [i] times; [ignored] is
    what the register of a service without a result holds. *)
Definition prog1 (ignored : Z) : K unit :=
  for_ 0 7 (fun i =>
    let size := u32 (Z.shiftl 11 i) in
    a ← malloc ignored size;
    call_printf ignored (str_lit ("[proc1] addr: 0x%x" +:+ nl)) [a];;
    a ← malloc ignored size;
    call_printf ignored (str_lit ("[proc1] addr: 0x%x" +:+ nl)) [a];;
    a ← malloc ignored size;
    call_printf ignored (str_lit ("[proc1] addr: 0x%x" +:+ nl)) [a];;
    a ← malloc ignored size;
    call_printf ignored (str_lit ("[proc1] addr: 0x%x" +:+ nl)) [a];;
    skip);;
  spin.

Definition prog2 (ignored : Z) : K unit :=
  for_ 0 7 (fun i =>
    let size := u32 (Z.shiftl 11 i) in
    a ← malloc ignored size;
    call_printf ignored (str_lit ("[proc2] addr: 0x%x" +:+ nl)) [a];;
    a ← malloc ignored size;
    call_printf ignored (str_lit ("[proc2] addr: 0x%x" +:+ nl)) [a];;
    a ← malloc ignored size;
    call_printf ignored (str_lit ("[proc2] addr: 0x%x" +:+ nl)) [a];;
    a ← malloc ignored size;
    call_printf ignored (str_lit ("[proc2] addr: 0x%x" +:+ nl)) [a];;
    skip);;
  spin.

Definition prog3 (ignored : Z) : K unit :=
  write ignored (str_lit "this is prog3");;
  spin.

Definition prog4 (ignored : Z) : K unit :=
  write ignored (str_lit "this is prog4");;
  spin.

Definition start1 (ignored arg : Z) : K Z :=
  for_ 0 10 (fun i =>
    sleep_by_msecond 1000;;
    call_printf ignored (str_lit ("a:%x  " +:+ nl)) [i];;
    skip);;
  spin.

Definition start2 (ignored arg : Z) : K Z :=
  for_ 0 10 (fun i =>
    sleep_by_second 1;;
    call_printf ignored (str_lit ("b:%x  " +:+ nl)) [i];;
    skip);;
  spin.
End Main.
